(* ===== verification/_CoqProject ===== *)
-Q . S2P
Prelude.v
Config.v
Crc32.v
Records.v
Storage.v
DualSlot.v
Arduino.v
Parse.v
Sensors.v
Boot.v
Store.v
OtaPolicy.v
Totalizer.v
QueueData.v
Telemetry.v
Queue.v
QueueSpec.v
QueueRefine.v
QueueBoot.v
QueueTheorems.v
QueueLegacy.v
FlashFrame.v
Net.v
Sync.v
SyncTheorems.v
Ota.v
OtaTheorems.v
OtaInstall.v
Diagnostics.v
LocalApi.v
LanTheorems.v
WifiProvision.v
Provision.v
ConsoleTheorems.v
Main.v
MainInv.v
FlashAgree.v
MainTheorems.v
BootTheorems.v
PowerTheorems.v
FlashLife.v
Delivery.v
NetworkSlot.v
MainDemo.v
LifeDemo.v
