(* ===== verification/Prelude.v ===== *)
(** * Covio oil-flow-meter firmware: a verification development

    The firmware counts pulses of a flow meter, writes one row per second into
    a crash-safe queue on flash, pushes the rows over HTTPS until the server
    acknowledges them, and updates itself from signed manifests.  One
    cooperative loop (covio_firmware.ino) calls one object per header; the
    library follows that: one Module or Section per class, one definition per
    method, the objects passed explicitly, composed in [Main] in the order of
    setup() and loop().

    ** Conventions

    A C integer is a [Z] with its wrap written out ([u8]..[u64], [i16],
    [i32]; [long] and [int] are 32 bits on the target).  Arduino Strings are
    [string]s, packed structs are Records with their little-endian bytes
    ([Records]), NVS and LittleFS are parameters with laws.  A method takes
    the readings it makes (millis(), esp_random(), WiFi.status(), the
    server's answers) as arguments or as fields of an environment record
    ([Sync.PushEnv], [Ota.OtaEnv], [Lan.ApiEnv], [Main.LoopEnv], ...), one
    field per reading, in the order of the code.  Serial output is dropped,
    except for the console's own replies, which a theorem is about.

    ** Files and the sources they model

    - [Prelude]: integers, lists, tactics; [Arduino]: String, decimal
      printing, single floats; [Config]: config.h, with the compile-time
      switches as the record [Build].
    - [Crc32], [Records]: crc32_() and the packed CRC records of totalizer.h
      and queue.h; [DualSlot]: the two-slot write discipline both share.
    - [Storage]: storage_backend.h and queue_offset_checkpoint.h, as classes,
      with the LittleFS implementation proved against them.
    - [Totalizer]: totalizer.h.  [QueueData], [Queue]: queue.h; [QueueSpec],
      [QueueRefine], [QueueBoot], [QueueTheorems]: its invariant, its
      refinement to a FIFO and its boot reconciliation; [QueueLegacy]: its
      single-file mode.
    - [FlashFrame]: which files an append and a checkpoint write change;
      [FlashAgree]: what every step of the program leaves of the agreement
      between device and flash, when writes take effect.
    - [Parse]: timestamp_parse.h, checked_field_parse.h, ack_validation.h and
      the field extractors of sync.h; [Sensors]: sensor_ct.h, sensor_stuck.h,
      sensor_health.h, pulse_plausibility.h and the SIM_PULSES square wave of
      loop(), which the default build leaves out; [Boot]: reset_reason.h,
      boot_health.h, credential_display.h; [Store]: store.h, nvs_keys.h.
    - [Telemetry]: telemetry.h; [Net]: one HTTP request; [Sync],
      [SyncTheorems]: sync.h.
    - [OtaPolicy]: ota_version_policy.h, ota_manifest_auth.h; [Ota],
      [OtaTheorems], [OtaInstall]: ota.h.
    - [Diagnostics]: diagnostics.h; [LocalApi], [LanTheorems]: local_api.h;
      [WifiProvision]: wifi_provision.h; [Provision], [ConsoleTheorems]:
      provision.h.
    - [Main]: covio_firmware.ino; [MainInv]: what each step of it leaves
      alone, and the invariant of the device; [MainTheorems],
      [BootTheorems]: loop() and setup(); [PowerTheorems]: power cuts and the
      boots after them; [FlashLife]: a whole life on flash that works;
      [Delivery]: how long a row waits when the server answers; [NetworkSlot]:
      which poll gets its turn;
      [MainDemo], [LifeDemo]: the theorems applied to concrete devices.

    ** How the parts interact

    The queue stores its write position in the totalizer's checkpoint: the
    class [IQueueOffsetCheckpoint] with [QueueOffsetLaws] is that interface,
    the queue's theorems are proved against it and [Totalizer] discharges
    it.  [StorageBackend] stands between both and LittleFS.  Sync reads the
    queue through pending() and prunes it through ackThrough(); Ota reads the
    time estimate of Sync; LocalApi, Provision and WifiProvision change
    settings through Store only ([Objects] is what they point to).

    ** What the theorems show

    - Durability: append() stores a row or counts the failure; a power cut at
      any byte of a row or of a checkpoint is invisible or recovered; a
      checkpoint is read back by the next boot; single-burst corruption of a
      row is detected; the boot scan recovers the backlog; the truncate guard
      keeps whole rows.
    - Power cuts: from a device in good order, a cut between iterations,
      inside a row's write, between row and checkpoint ([row_appended]), in
      the network slot or while acknowledged segments are removed
      ([half_pruned]; together [cut_at]) leaves a flash ([left_by_cut]) from which
      setup() resumes exactly the pending rows; over a whole life of
      iterations and cuts ([lives]) no row is lost.  A telemetry cycle whose
      checkpoint write takes effect leaves such a flash ([durable]).
    - A life end to end: on flash whose writes take effect ([ReliableFlash])
      every state of the device agrees with its flash ([agree]), so that no
      hypothesis on what a cut leaves remains but that it finds at most the
      next row and the next slot partly written, and that boots cut short
      removed only segments that are not live ([torn]); through restarts and
      cuts every row a telemetry cycle recorded waits until the server
      acknowledged it ([endures]).
    - Refinement: every run of the queue's operations is a run of a FIFO with
      cumulative acknowledgement.
    - Delivery: a push removes only rows it transmitted and the server
      acknowledged; over any run of loop() ([runs], a step relation with the
      invariant [sys_inv] kept by rule induction) no row is lost; while the
      server answers ([online]) every waiting row is with it within a time
      linear in the backlog.
    - Boot: setup() hands over a device in good order with a number above
      checkpoint and acknowledgement; the roll-back of an unconfirmed image
      comes exactly at its third boot; a release build never runs on the
      default key.
    - Metering: where every pulse goes, with the exact condition for none
      to be lost; CT synthesis; the plausibility, stuck and idle monitors.
    - Updates: only an authentic, admissible image is installed, and one that
      is offered and served is; the signed text determines the fields; health
      confirmation raises the floor; the streaming download ends.
    - Interfaces: what the console, the LAN API and the portal can change,
      that they show no secret, that the console runs exactly the lines it is
      given, that the portal is all or nothing and its live test ends; the
      health rule as a table; parsing and printing round trips.
    - Timing: one HTTPS transaction per watchdog feed, with the one exception
      stated; which of push, configuration and OTA poll gets it, and that a
      slow link leaves it to the pushes alone; back-off windows.

    Theorems marked C1, C2, ... are the main claims, in order of importance;
    the others support them or record smaller facts.

    ** Fuel

    [pending_segs], [ack_segs] and [count_segs] get one unit per segment from
    the cursor to the active one ([seg_fuel]) and the row loops one per row
    of the file; [adopt_loop] one per chunk; the lemmas that unfold them
    prove that this never runs out.  A wait for the outside world (the
    station at boot, the portal's live test, a download) takes the list of
    readings it makes and is [None] while they do not end it.  For the live
    test and the download [portal_test_terminates] and
    [ota_download_terminates] give the length that always does.

    ** Not modelled

    Serial printing; the task watchdog's own timer; pin set-up; the
    WebServer, DNS, mDNS, WiFi, TLS and HTTPClient libraries (a request
    reaches its handler, a response comes back, as arguments); mbedTLS and
    the Update library (parameters); the PEM texts.  images/, test/, server/,
    tools/, scripts/ and Docs/ are not part of the firmware's logic. *)

From coqutil Require Export Byte Word.LittleEndianList.
From stdpp Require Export base gmap strings list list_numbers fin_maps relations.
From Stdlib Require Export ZArith Lia.
#[export] Set Warnings "-notation-incompatible-prefix,-clear-no-such-hyp".

Open Scope Z_scope.

(** ** Machine integers

    A C integer of width [w] is a [Z] in range; every arithmetic operation
    whose C result is reduced modulo [2^w] is written with the matching
    wrap.  [i32] is the two's-complement reading of a 32-bit pattern: the
    [long] and [int] of the Xtensa target. *)

Definition u8 (z : Z) : Z := z mod 2 ^ 8.
Definition u16 (z : Z) : Z := z mod 2 ^ 16.
Definition u32 (z : Z) : Z := z mod 2 ^ 32.
Definition u64 (z : Z) : Z := z mod 2 ^ 64.
Definition i16 (z : Z) : Z := (z + 2 ^ 15) mod 2 ^ 16 - 2 ^ 15.
Definition i32 (z : Z) : Z := (z + 2 ^ 31) mod 2 ^ 32 - 2 ^ 31.

Definition is_u16 (z : Z) : Prop := 0 <= z < 2 ^ 16.
Definition is_u32 (z : Z) : Prop := 0 <= z < 2 ^ 32.
Definition is_u64 (z : Z) : Prop := 0 <= z < 2 ^ 64.

Create HintDb covio discriminated.

(** [width] decides goals about wraps and ranges: it exposes the moduli and
    leaves linear arithmetic. *)
Ltac width :=
  unfold u8, u16, u32, u64, i16, i32, is_u16, is_u32, is_u64 in *;
  change (2 ^ 8) with 256 in *; change (2 ^ 15) with 32768 in *;
  change (2 ^ 16) with 65536 in *; change (2 ^ 31) with 2147483648 in *;
  change (2 ^ 32) with 4294967296 in *;
  change (2 ^ 64) with 18446744073709551616 in *;
  repeat match goal with
         | |- context [Z.to_nat ?a] => idtac; fail
         | _ => progress Z.div_mod_to_equations
         end; lia.

Lemma u32_small z : 0 <= z < 2 ^ 32 -> u32 z = z.
Proof. intros. unfold u32. by apply Z.mod_small. Qed.

Lemma u64_small z : 0 <= z < 2 ^ 64 -> u64 z = z.
Proof. intros. unfold u64. by apply Z.mod_small. Qed.

Lemma u16_small z : 0 <= z < 2 ^ 16 -> u16 z = z.
Proof. intros. unfold u16. by apply Z.mod_small. Qed.

Lemma u32_add_l a b : u32 (u32 a + b) = u32 (a + b).
Proof. apply Z.add_mod_idemp_l. done. Qed.

Lemma u32_range z : is_u32 (u32 z).
Proof. apply Z.mod_pos_bound. lia. Qed.

Lemma u64_range z : is_u64 (u64 z).
Proof. apply Z.mod_pos_bound. lia. Qed.

Lemma u16_range z : is_u16 (u16 z).
Proof. apply Z.mod_pos_bound. lia. Qed.

Lemma u32_idemp z : u32 (u32 z) = u32 z.
Proof. apply u32_small, u32_range. Qed.

(** The elapsed time [now - since] of two [millis()] readings is exact
    whenever the true elapsed time fits 32 bits, whatever the wraps. *)
Lemma u32_elapsed t d : 0 <= d < 2 ^ 32 -> u32 (u32 (t + d) - u32 t) = d.
Proof.
  intros. unfold u32. rewrite <- Zminus_mod.
  replace (t + d - t) with d by lia. by apply Z.mod_small.
Qed.

Lemma u32_since start t : start <= t < start + 2 ^ 32 -> u32 (u32 t - u32 start) = t - start.
Proof. intros. replace t with (start + (t - start)) at 1 by lia. apply u32_elapsed. lia. Qed.

Lemma i32_small z : - 2 ^ 31 <= z < 2 ^ 31 -> i32 z = z.
Proof. intros. unfold i32. rewrite Z.mod_small; lia. Qed.

#[export] Hint Resolve u16_range u32_range u64_range : covio.

(** ** Lists *)

Lemma take_drop_app {A} (n : nat) (l1 l2 : list A) :
  length l1 = n -> take n (l1 ++ l2) = l1 /\ drop n (l1 ++ l2) = l2.
Proof. intros <-. split; [apply take_app_length | apply drop_app_length]. Qed.

Lemma fold_left_cons {A B} (f : A -> B -> A) x l a :
  fold_left f (x :: l) a = fold_left f l (f a x).
Proof. done. Qed.

Lemma filter_all {A} (P : A -> bool) (l : list A) :
  (forall x, x ∈ l -> P x = true) -> List.filter P l = l.
Proof.
  induction l as [|x l IH]; simpl; [done|]. intros HP.
  rewrite HP by set_solver. f_equal. apply IH. set_solver.
Qed.

Lemma filter_none {A} (P : A -> bool) (l : list A) :
  (forall x, x ∈ l -> P x = false) -> List.filter P l = [].
Proof.
  induction l as [|x l IH]; simpl; [done|]. intros HP.
  rewrite HP by set_solver. apply IH. set_solver.
Qed.

Lemma filter_filter_andb {A} (P Q : A -> bool) (l : list A) :
  List.filter P (List.filter Q l) = List.filter (fun x => P x && Q x) l.
Proof.
  induction l as [|x l IH]; simpl; [done|].
  destruct (Q x); simpl; [|by rewrite andb_false_r].
  rewrite andb_true_r. destruct (P x); by rewrite IH.
Qed.

(** ** Strings *)

Lemma str_cons_app x a b : String x a +:+ b = String x (a +:+ b).
Proof. done. Qed.

Lemma str_nil_app a : EmptyString +:+ a = a.
Proof. done. Qed.

Lemma str_length_app a b : String.length (a +:+ b) = (String.length a + String.length b)%nat.
Proof. induction a as [|x a IH]; [done|]. rewrite str_cons_app. simpl. by rewrite IH. Qed.

Lemma str_app_assoc a b c : a +:+ (b +:+ c) = (a +:+ b) +:+ c.
Proof. induction a as [|x a IH]; [done|]. by rewrite !str_cons_app, IH. Qed.

Lemma str_app_nil_r a : a +:+ EmptyString = a.
Proof. induction a as [|x a IH]; [done|]. by rewrite str_cons_app, IH. Qed.

(** Equal-length heads of equal strings are equal. *)
Lemma str_app_inj a a' b b' :
  String.length a = String.length a' -> a +:+ b = a' +:+ b' -> a = a' /\ b = b'.
Proof.
  revert a'. induction a as [|x a IH]; intros [|y a']; simpl; try done.
  rewrite !str_cons_app. intros [= Hl] [= -> E]. destruct (IH a' Hl E) as [-> ->]. done.
Qed.

Lemma str_app_inj_r a a' b : a +:+ b = a' +:+ b -> a = a'.
Proof.
  intros E. apply (str_app_inj a a' b b); [|done].
  apply (f_equal String.length) in E. rewrite !str_length_app in E. lia.
Qed.

(** ** Boolean tests of the code, as propositions *)

Ltac bool_prop :=
  repeat match goal with
         | H : _ && _ = true |- _ => apply andb_prop in H as [? ?]
         | H : negb _ = true |- _ => apply negb_true_iff in H
         | H : negb _ = false |- _ => apply negb_false_iff in H
         | H : (_ =? _) = true |- _ => apply Z.eqb_eq in H
         | H : (_ =? _) = false |- _ => apply Z.eqb_neq in H
         | H : (_ <=? _) = true |- _ => apply Z.leb_le in H
         | H : (_ <=? _) = false |- _ => apply Z.leb_gt in H
         | H : (_ <? _) = true |- _ => apply Z.ltb_lt in H
         | H : (_ <? _) = false |- _ => apply Z.ltb_ge in H
         end.

(** Case analysis on the tests of an [if] or [match] in the goal. *)
Ltac cases :=
  repeat (case_match; simplify_eq/=; bool_prop).
