(* ===== verification/Config.v ===== *)
(** * Build-time configuration (config.h)

    The [#define]s of config.h the modelled code reads.  The [#ifndef]-guarded
    build flags that select code are the fields of [Build]; [default_build] is
    the flag-less build. *)

From S2P Require Import Prelude.

Inductive BoardMode := BOARD_RELAY1CH | BOARD_8DI8DO.
Inductive SensorMode := SENSOR_MODE_NPN | SENSOR_MODE_CT.

(** The build flags (-D...). *)
Record Build := {
  MIKI_WIRE_PROFILE : bool;
  BOARD_MODE : BoardMode;
  SENSOR_MODE : SensorMode;
  RELEASE_BUILD : bool;
  FACTORY_TEST_BUILD : bool;
  WDT_TEST_BUILD : bool;
  WATCHDOG_ENABLE : bool;
  WATCHDOG_TIMEOUT_S : Z;
}.

Definition default_build : Build :=
  {| MIKI_WIRE_PROFILE := false; BOARD_MODE := BOARD_RELAY1CH;
     SENSOR_MODE := SENSOR_MODE_NPN; RELEASE_BUILD := false;
     FACTORY_TEST_BUILD := false; WDT_TEST_BUILD := false;
     WATCHDOG_ENABLE := true; WATCHDOG_TIMEOUT_S := 90 |}.

Definition FW_VERSION : string := "1.4.0".
Definition FW_SECURITY_VERSION : Z := 2.

Definition DEVICE_MODEL (b : Build) : string :=
  if MIKI_WIRE_PROFILE b then "miki-wire-v1" else "covio-oilflow-v1".
Definition DEFAULT_SERVER_URL (b : Build) : string :=
  if MIKI_WIRE_PROFILE b then "https://compliance.mikigroup.co.in"
  else "https://data.funtastik.co.in".
Definition DEFAULT_API_KEY : string := "dev-key-change-me".

Definition PATH_PUSH : string := "/api/iot/flow/push".
Definition PATH_CONFIG : string := "/api/iot/flow/config".
Definition PATH_OTA_MANIFEST : string := "/api/iot/flow/ota/manifest".

Definition DEFAULT_WIFI_SSID : string := "YOUR_WIFI_SSID_PLACEHOLDER".
Definition DEFAULT_WIFI_PASS : string := "YOUR_WIFI_PASSWORD_PLACEHOLDER".

(** ** Pins and pulse input *)

Definition PIN_PULSE (b : Build) : Z :=
  match BOARD_MODE b with BOARD_RELAY1CH => 1 | BOARD_8DI8DO => 4 end.
Definition PIN_CT_STATE (b : Build) : Z :=
  match BOARD_MODE b with BOARD_RELAY1CH => 2 | BOARD_8DI8DO => 5 end.
Definition PCNT_GLITCH_NS : Z := 1000.
Definition CT_PULSE_HZ : Z := 1.
Definition CT_DEBOUNCE_MS : Z := 100.

(** ** Cadences *)

Definition TELEMETRY_PERIOD_MS : Z := 1000.
Definition PUSH_PERIOD_MS : Z := 5000.
Definition CONFIG_POLL_MS : Z := 60000.
Definition OTA_POLL_MS : Z := 300000.
Definition WIFI_RETRY_MS : Z := 10000.

(** ** Bounds of one HTTPS transaction, and the watchdog over it *)

Definition HTTPS_HANDSHAKE_TIMEOUT_S : Z := 10.
Definition HTTPS_CONNECT_TIMEOUT_MS : Z := 5000.
Definition HTTPS_IO_TIMEOUT_MS : Z := 8000.
Definition HTTPS_WORST_CASE_TXN_MS : Z :=
  15000 + HTTPS_CONNECT_TIMEOUT_MS + HTTPS_HANDSHAKE_TIMEOUT_S * 1000
  + 2 * (HTTPS_CONNECT_TIMEOUT_MS + HTTPS_IO_TIMEOUT_MS) + 3 * HTTPS_IO_TIMEOUT_MS.

(** The [static_assert] of config.h: a build that fails it does not compile. *)
Definition watchdog_static_assert (b : Build) : bool :=
  negb (WATCHDOG_ENABLE b)
  || (HTTPS_WORST_CASE_TXN_MS <? u32 (u32 (WATCHDOG_TIMEOUT_S b) * 1000)).

(** ** What a release build must have (config.h, certs.h, ota_keys.h) *)

Definition COVIO_CA_CERT_IS_PLACEHOLDER : bool := false.
Definition COVIO_OTA_KEY_IS_PLACEHOLDER : bool := false.

(** The [#error] guards: [dirty] is BUILD_DIRTY, injected by the build. *)
Definition release_guards (b : Build) (dirty : bool) : bool :=
  negb (RELEASE_BUILD b)
  || (negb dirty && negb COVIO_CA_CERT_IS_PLACEHOLDER && negb COVIO_OTA_KEY_IS_PLACEHOLDER).

(** Whether the sources compile at all. *)
Definition builds (b : Build) (dirty : bool) : bool :=
  release_guards b dirty && watchdog_static_assert b.

Definition AP_FALLBACK_TIMEOUT_MS : Z := 15000.
Definition AP_TEST_CONNECT_TIMEOUT_MS : Z := 15000.

(** ** Queue *)

Definition SD_QUEUE_DIR : string := "/queue".
Definition PUSH_BATCH_MAX : nat := 50.
Definition QUEUE_HIGHWATER : Z := 20000.
Definition QUEUE_SEGMENT_ROWS : Z := 5000.

(** ** Bench test helper *)

Definition SIM_PULSES : bool := false.
Definition PIN_SIM : Z := 2.
Definition SIM_HZ : Z := 10.

(** ** NVS namespaces *)

Definition NVS_NS : string := "covio".
Definition NVS_NS_SECURITY : string := "covio_sec".

(** ** Health thresholds *)

Definition SENSOR_STUCK_THRESHOLD_MS : Z := 48 * 3600 * 1000.
Definition CRASH_RESET_STREAK_ALARM : Z := 3.
Definition UNHEALTHY_BOOT_STREAK_LIMIT : Z := 3.
Definition HEALTHY_UPTIME_CLEARS_CRASH_STREAK_MS : Z := 5 * 60 * 1000.

(** ** Miki Wire tunables *)

Definition MIKI_MAX_PULSE_HZ_DEFAULT : Z := 0.
Definition MIKI_MAX_PULSE_HZ_LIMIT : Z := 2000.
Definition MIKI_SUSPECT_GAP_S_DEFAULT : Z := 0.
Definition MIKI_SUSPECT_GAP_S_MIN : Z := 60.
Definition MIKI_SUSPECT_GAP_S_MAX : Z := 7 * 24 * 3600.
