(* ===== verification/Crc32.v ===== *)
(** * CRC-32 (EventQueue::crc32_ and Totalizer::crc32_)

    Both classes carry the same reflected CRC-32 loop.  The theorems show
    what the records rely on: the checksum is a 32-bit value, and it changes
    whenever a message is altered inside a window of at most four bytes. *)

From S2P Require Import Prelude.

(** One iteration of the inner [for (k < 8)] loop. *)
Definition crc_bit (crc : Z) : Z :=
  Z.lxor (Z.shiftr crc 1) (Z.land 0xEDB88320 (u32 (- Z.land crc 1))).

(** One iteration of the outer loop: fold in a byte. *)
Definition crc_byte (crc : Z) (b : byte) : Z :=
  Nat.iter 8 crc_bit (Z.lxor crc (byte.unsigned b)).

#[global] Arguments crc_bit : simpl never.
#[global] Arguments crc_byte : simpl never.
(** Conversion compares bit steps by name before unfolding them. *)
Strategy 1000 [crc_bit Nat.iter].

Lemma crc_byte_eq c b :
  crc_byte c b = Nat.iter 8 crc_bit (Z.lxor c (byte.unsigned b)).
Proof. exact eq_refl. Qed.

Definition crc32_ (d : list byte) : Z :=
  Z.lxor (fold_left crc_byte d 0xFFFFFFFF) 0xFFFFFFFF.

Example crc32_check_value :
  crc32_ (byte.of_Z <$> [49; 50; 51; 52; 53; 54; 55; 56; 57]) = 0xCBF43926.
Proof. vm_compute. reflexivity. Qed.

(** ** One bit step is linear and injective on 32-bit values *)

Lemma crc_bit_odd c :
  crc_bit c = if Z.odd c then Z.lxor (Z.shiftr c 1) 0xEDB88320 else Z.shiftr c 1.
Proof.
  unfold crc_bit. replace (Z.land c 1) with (Z.b2z (Z.odd c)).
  - destruct (Z.odd c); [reflexivity|]. apply Z.lxor_0_r.
  - change (Z.land c 1) with (Z.land c (Z.ones 1)). rewrite Z.land_ones by lia.
    change (2 ^ 1) with 2. rewrite Zmod_odd. by destruct (Z.odd c).
Qed.

Lemma odd_lxor a b : Z.odd (Z.lxor a b) = xorb (Z.odd a) (Z.odd b).
Proof. by rewrite <- !Z.bit0_odd, Z.lxor_spec. Qed.

Lemma crc_bit_lxor a b : crc_bit (Z.lxor a b) = Z.lxor (crc_bit a) (crc_bit b).
Proof.
  rewrite !crc_bit_odd, odd_lxor, Z.shiftr_lxor.
  destruct (Z.odd a), (Z.odd b); simpl xorb; cbv iota;
    apply Z.bits_inj'; intros n ?; rewrite ?Z.lxor_spec;
    repeat match goal with |- context [Z.testbit ?x n] => destruct (Z.testbit x n) end;
    reflexivity.
Qed.

Lemma is_u32_testbit z n : is_u32 z -> 32 <= n -> Z.testbit z n = false.
Proof.
  intros [H0 Hlt] Hn. apply Z.bits_above_log2; [done|].
  destruct (decide (z = 0)) as [->|]; [simpl; lia|].
  assert (Z.log2 z < 32) by (apply Z.log2_lt_pow2; lia). lia.
Qed.

Lemma is_u32_of_testbit z :
  0 <= z -> (forall n, 32 <= n -> Z.testbit z n = false) -> is_u32 z.
Proof.
  intros Hz Hb. split; [done|].
  destruct (decide (z = 0)) as [->|]; [lia|]. apply Z.log2_lt_pow2; [lia|].
  destruct (Z.lt_ge_cases (Z.log2 z) 32); [done|].
  specialize (Hb (Z.log2 z) ltac:(lia)). rewrite Z.bit_log2 in Hb by lia. done.
Qed.

Lemma lxor_u32 a b : is_u32 a -> is_u32 b -> is_u32 (Z.lxor a b).
Proof.
  intros Ha Hb. apply is_u32_of_testbit.
  - apply Z.lxor_nonneg. unfold is_u32 in *. lia.
  - intros n Hn. by rewrite Z.lxor_spec, !is_u32_testbit.
Qed.

Lemma shiftr1_half z : Z.shiftr z 1 = z / 2.
Proof. by rewrite Z.shiftr_div_pow2 by lia. Qed.

Lemma crc_bit_u32 c : is_u32 c -> is_u32 (crc_bit c).
Proof.
  intros Hc. rewrite crc_bit_odd.
  assert (is_u32 (Z.shiftr c 1)).
  { rewrite shiftr1_half. unfold is_u32 in *. Z.div_mod_to_equations. lia. }
  destruct (Z.odd c); [|done]. apply lxor_u32; [done|]. unfold is_u32. lia.
Qed.

Lemma lxor_eq_0 a b : Z.lxor a b = 0 -> a = b.
Proof. apply Z.lxor_eq. Qed.

Lemma crc_bit_kernel c : is_u32 c -> crc_bit c = 0 -> c = 0.
Proof.
  intros Hc H0. rewrite crc_bit_odd in H0. unfold is_u32 in Hc.
  pose proof (Zmod_odd c) as Hodd. destruct (Z.odd c).
  - apply Z.lxor_eq in H0. rewrite shiftr1_half in H0.
    Z.div_mod_to_equations. lia.
  - rewrite shiftr1_half in H0. Z.div_mod_to_equations. lia.
Qed.

Lemma crc_bit_inj a b : is_u32 a -> is_u32 b -> crc_bit a = crc_bit b -> a = b.
Proof.
  intros Ha Hb Heq. apply Z.lxor_eq, crc_bit_kernel; [by apply lxor_u32|].
  by rewrite crc_bit_lxor, Heq, Z.lxor_nilpotent.
Qed.

Lemma crc_bits_u32 n c : is_u32 c -> is_u32 (Nat.iter n crc_bit c).
Proof. induction n; simpl; [done|]. intros. by apply crc_bit_u32, IHn. Qed.

Lemma crc_bits_inj n a b :
  is_u32 a -> is_u32 b -> Nat.iter n crc_bit a = Nat.iter n crc_bit b -> a = b.
Proof.
  induction n; simpl; [done|]. intros Ha Hb H.
  apply IHn; [done..|]. apply crc_bit_inj; [by apply crc_bits_u32..|done].
Qed.

Lemma crc_bits_lxor n a b :
  Nat.iter n crc_bit (Z.lxor a b) = Z.lxor (Nat.iter n crc_bit a) (Nat.iter n crc_bit b).
Proof. induction n; simpl; [done|]. by rewrite IHn, crc_bit_lxor. Qed.

(** ** Runs over messages *)

(** Rewriting with this equation, instead of converting, keeps the bit
    steps folded. *)
Lemma crc_run_cons x d c :
  fold_left crc_byte (x :: d) c = fold_left crc_byte d (crc_byte c x).
Proof. exact (fold_left_cons crc_byte x d c). Qed.

Lemma byte_u32 b : is_u32 (byte.unsigned b).
Proof. pose proof (byte.unsigned_range b). unfold is_u32. lia. Qed.

Lemma crc_byte_u32 c b : is_u32 c -> is_u32 (crc_byte c b).
Proof. intros H. rewrite crc_byte_eq. exact (crc_bits_u32 8 _ (lxor_u32 _ _ H (byte_u32 b))). Qed.

Lemma crc_run_u32 d c : is_u32 c -> is_u32 (fold_left crc_byte d c).
Proof.
  revert c. induction d as [|x d IH]; [done|]. intros c Hc.
  rewrite crc_run_cons. exact (IH _ (crc_byte_u32 c x Hc)).
Qed.

Lemma crc_run_inj d a b :
  is_u32 a -> is_u32 b -> fold_left crc_byte d a = fold_left crc_byte d b -> a = b.
Proof.
  revert a b. induction d as [|x d IH]; [done|]. intros a b Ha Hb H.
  rewrite !crc_run_cons in H. specialize (IH _ _ (crc_byte_u32 a x Ha) (crc_byte_u32 b x Hb) H).
  clear H. rename IH into H. rewrite !crc_byte_eq in H.
  pose proof (crc_bits_inj 8 _ _ (lxor_u32 _ _ Ha (byte_u32 x))
                (lxor_u32 _ _ Hb (byte_u32 x)) H) as H'. clear H. rename H' into H.
  apply (f_equal (fun z => Z.lxor z (byte.unsigned x))) in H.
  by rewrite !Z.lxor_assoc, Z.lxor_nilpotent, !Z.lxor_0_r in H.
Qed.

(** Shifting in eight zero bits undoes a left shift by eight. *)
Lemma crc_bits_shiftl k x :
  0 <= x -> Nat.iter k crc_bit (Z.shiftl x (Z.of_nat k)) = x.
Proof.
  intros Hx. revert x Hx. induction k as [|k IH]; intros x Hx; [by apply Z.shiftl_0_r|].
  rewrite Nat.iter_succ_r, crc_bit_odd.
  assert (Z.odd (Z.shiftl x (Z.of_nat (S k))) = false) as ->.
  { rewrite <- Z.bit0_odd. apply Z.shiftl_spec_low. lia. }
  rewrite Z.shiftr_shiftl_l by lia.
  replace (Z.of_nat (S k) - 1) with (Z.of_nat k) by lia. by apply IH.
Qed.

Lemma le_combine_cons x d :
  le_combine (x :: d) = Z.lor (byte.unsigned x) (Z.shiftl (le_combine d) (Z.of_nat 8)).
Proof. reflexivity. Qed.

(** Up to four bytes act on the register as one xor with their
    little-endian value followed by bit steps. *)
Lemma crc_run_window d c :
  (length d <= 4)%nat ->
  fold_left crc_byte d c = Nat.iter (8 * length d) crc_bit (Z.lxor c (le_combine d)).
Proof.
  revert c. induction d as [|x d IH]; intros c Hlen.
  - simpl. by rewrite Z.lxor_0_r.
  - simpl length in *. rewrite crc_run_cons, IH by lia. rewrite crc_byte_eq.
    replace (8 * S (length d))%nat with (8 * length d + 8)%nat by lia.
    rewrite Nat.iter_add. apply (f_equal (Nat.iter (8 * length d) crc_bit)).
    rewrite le_combine_cons. assert (Z.lor (byte.unsigned x) (Z.shiftl (le_combine d) (Z.of_nat 8))
            = Z.lxor (byte.unsigned x) (Z.shiftl (le_combine d) (Z.of_nat 8))) as ->.
    { symmetry. apply Z.lxor_lor, Z.bits_inj'. intros n Hn.
      rewrite Z.land_spec, Z.bits_0.
      destruct (Z.lt_ge_cases n 8); [by rewrite Z.shiftl_spec_low, andb_false_r by lia|].
      pose proof (byte.unsigned_range x).
      rewrite (Z.bits_above_log2 (byte.unsigned x)); [done|lia|].
      destruct (decide (byte.unsigned x = 0)) as [->|]; [simpl; lia|].
      enough (Z.log2 (byte.unsigned x) < 8) by lia. apply Z.log2_lt_pow2; lia. }
    rewrite <- Z.lxor_assoc, (crc_bits_lxor 8 (Z.lxor c (byte.unsigned x))).
    assert (0 <= le_combine d) by apply le_combine_bound.
    by rewrite (crc_bits_shiftl 8 (le_combine d)).
Qed.

Lemma crc_window_neq d1 d2 c :
  length d1 = length d2 -> (length d1 <= 4)%nat -> is_u32 c -> d1 <> d2 ->
  fold_left crc_byte d1 c <> fold_left crc_byte d2 c.
Proof.
  intros Hlen Hle Hc Hne Heq. apply Hne, le_combine_inj; [done|].
  rewrite !crc_run_window, <- Hlen in Heq by lia.
  assert (Hb : forall d, (length d <= 4)%nat -> is_u32 (le_combine d)).
  { intros d Hd. pose proof (le_combine_bound d) as [H0 H1]. split; [done|].
    eapply Z.lt_le_trans; [exact H1|]. apply Z.pow_le_mono_r; lia. }
  apply crc_bits_inj in Heq; [|apply lxor_u32; auto with lia..].
  apply (f_equal (Z.lxor c)) in Heq.
  by rewrite <- !Z.lxor_assoc, Z.lxor_nilpotent, !Z.lxor_0_l in Heq.
Qed.

Lemma crc32_u32 d : is_u32 (crc32_ d).
Proof.
  apply lxor_u32; [apply crc_run_u32|]; unfold is_u32; lia.
Qed.

Lemma crc32_burst (pre w1 w2 post : list byte) :
  length w1 = length w2 -> (length w1 <= 4)%nat -> w1 <> w2 ->
  crc32_ (pre ++ w1 ++ post) <> crc32_ (pre ++ w2 ++ post).
Proof.
  intros Hlen Hle Hne Heq. unfold crc32_ in Heq.
  apply (f_equal (fun z => Z.lxor z 0xFFFFFFFF)) in Heq.
  rewrite !Z.lxor_assoc, Z.lxor_nilpotent, !Z.lxor_0_r, !fold_left_app in Heq.
  assert (is_u32 (fold_left crc_byte pre 0xFFFFFFFF))
    by (apply crc_run_u32; unfold is_u32; lia).
  apply crc_run_inj in Heq; [|by apply crc_run_u32..].
  by apply (crc_window_neq w1 w2) in Heq.
Qed.
