(* ===== verification/Records.v ===== *)
(** * Packed, CRC-protected flash records

    Every durable record of the firmware is a packed struct that starts with
    a magic word and ends with a CRC-32 over the struct with that field
    zeroed: QRow, AckRec and FailureState (queue.h), Checkpoint and
    LegacyCheckpoint (totalizer.h).  [CrcRecord] is what the five structs
    share; the theorems are proved once against it. *)

From S2P Require Import Prelude Crc32.

(** ** Packed little-endian layouts *)

Definition pack (ws : list nat) (vs : list Z) : list byte :=
  concat (zip_with le_split ws vs).

Fixpoint unpack (ws : list nat) (bs : list byte) : list Z :=
  match ws with
  | [] => []
  | w :: ws => le_combine (take w bs) :: unpack ws (drop w bs)
  end.

Definition fits (w : nat) (v : Z) : Prop := 0 <= v < 2 ^ (Z.of_nat w * 8).

Lemma length_pack ws vs :
  length ws = length vs -> length (pack ws vs) = sum_list ws.
Proof.
  unfold pack. revert vs. induction ws as [|w ws IH]; intros [|v vs]; try done.
  intros [= Hl]. simpl. by rewrite length_app, length_le_split, IH.
Qed.

Lemma unpack_pack ws vs tl :
  Forall2 fits ws vs -> unpack ws (pack ws vs ++ tl) = vs.
Proof.
  unfold pack. induction 1 as [|w v ws vs Hf _ IH]; [done|]. simpl.
  rewrite <- app_assoc.
  destruct (take_drop_app w (le_split w v) (concat (zip_with le_split ws vs) ++ tl)
              (length_le_split w v)) as [-> ->].
  rewrite IH, le_combine_split, Z.mod_small by done. done.
Qed.

Lemma pack_unpack ws bs :
  (sum_list ws <= length bs)%nat -> pack ws (unpack ws bs) = take (sum_list ws) bs.
Proof.
  unfold pack. revert bs. induction ws as [|w ws IH]; intros bs; simpl; [done|].
  intros Hl. rewrite IH by (rewrite length_drop; lia).
  rewrite split_le_combine' by (rewrite length_take; lia).
  by rewrite take_take_drop.
Qed.

Lemma length_unpack ws bs : length (unpack ws bs) = length ws.
Proof. revert bs. induction ws; intros; simpl; auto. Qed.

Lemma le_combine_take_fits w bs : (w <= length bs)%nat -> fits w (le_combine (take w bs)).
Proof.
  intros Hl. pose proof (le_combine_bound (take w bs)) as Hb.
  rewrite length_take, Nat.min_l, Z.mul_comm in Hb by lia. exact Hb.
Qed.

Lemma unpack_fits ws bs :
  (sum_list ws <= length bs)%nat -> Forall2 fits ws (unpack ws bs).
Proof.
  revert bs. induction ws as [|w ws IH]; intros bs; simpl; [done|]. intros Hl.
  constructor; [apply le_combine_take_fits; lia|apply IH; rewrite length_drop; lia].
Qed.

(** ** The shape the records share *)

Class CrcRecord (R : Type) := {
  cr_magic : Z;                  (* the *_MAGIC constant *)
  cr_widths : list nat;          (* widths of the fields after [magic] *)
  cr_fields : R -> list Z;       (* the fields after [magic], before [crc32] *)
  cr_head : R -> Z;              (* the [magic] field *)
  cr_crc : R -> Z;               (* the [crc32] field *)
  cr_make : Z -> list Z -> Z -> R;
}.

Class CrcRecordLaws (R : Type) `{CrcRecord R} := {
  cr_length r : length (cr_widths (R := R)) = length (cr_fields r);
  cr_make_eta r : cr_make (cr_head r) (cr_fields r) (cr_crc r) = r;
  cr_make_head m vs c :
    length vs = length (cr_widths (R := R)) -> cr_head (cr_make (R := R) m vs c) = m;
  cr_make_fields m vs c :
    length vs = length (cr_widths (R := R)) -> cr_fields (cr_make (R := R) m vs c) = vs;
  cr_make_crc m vs c :
    length vs = length (cr_widths (R := R)) -> cr_crc (cr_make (R := R) m vs c) = c;
}.

Section crc_record.
Context {R : Type} `{CrcRecord R}.

(** [sizeof(R)] *)
Definition sizeof : nat := 4 + sum_list (cr_widths (R := R)) + 4.

(** The struct as the bytes [(uint8_t* )&r] points at. *)
Definition payload (r : R) : list byte :=
  le_split 4 (cr_head r) ++ pack cr_widths (cr_fields r).
Definition bytes_of (r : R) : list byte := payload r ++ le_split 4 (cr_crc r).
Definition of_bytes (bs : list byte) : R :=
  cr_make (le_combine (take 4 bs)) (unpack cr_widths (drop 4 bs))
    (le_combine (drop (4 + sum_list (cr_widths (R := R))) bs)).

(** [r.crc32 = 0; crc32_((uint8_t* )&r, sizeof(r))] *)
Definition crc_of (r : R) : Z := crc32_ (payload r ++ le_split 4 0).

(** Stamp the magic and the checksum, as every writer does. *)
Definition seal (r : R) : R :=
  let r := cr_make cr_magic (cr_fields r) 0 in
  cr_make (cr_head r) (cr_fields r) (crc_of r).

(** Magic and checksum test, as every reader does. *)
Definition valid (r : R) : bool := (cr_head r =? cr_magic) && (crc_of r =? cr_crc r).

(** Whole-record load: exact size, then magic, then checksum. *)
Definition load_bytes (bs : list byte) : option R :=
  if (length bs =? sizeof)%nat
  then (let r := of_bytes bs in if valid r then Some r else None)
  else None.

Definition fields_fit (r : R) : Prop := Forall2 fits cr_widths (cr_fields r).

Context `{!CrcRecordLaws R}.

Lemma length_payload (r : R) : length (payload r) = (4 + sum_list (cr_widths (R := R)))%nat.
Proof.
  unfold payload. rewrite length_app, length_le_split, length_pack; [done|]. apply cr_length.
Qed.

Lemma length_bytes_of (r : R) : length (bytes_of r) = sizeof.
Proof. unfold bytes_of, sizeof. by rewrite length_app, length_payload, length_le_split. Qed.

Lemma of_bytes_of (r : R) :
  fits 4 (cr_head r) -> fields_fit r -> fits 4 (cr_crc r) -> of_bytes (bytes_of r) = r.
Proof.
  intros Hm Hf Hc. rewrite <- (cr_make_eta r) at 2. unfold of_bytes, bytes_of. f_equal.
  - unfold payload. rewrite <- !app_assoc.
    destruct (take_drop_app 4 (le_split 4 (cr_head r))
                (pack cr_widths (cr_fields r) ++ le_split 4 (cr_crc r))
                (length_le_split _ _)) as [-> _].
    by rewrite le_combine_split, Z.mod_small.
  - unfold payload. rewrite <- !app_assoc.
    destruct (take_drop_app 4 (le_split 4 (cr_head r))
                (pack cr_widths (cr_fields r) ++ le_split 4 (cr_crc r))
                (length_le_split _ _)) as [_ ->].
    by apply unpack_pack.
  - destruct (take_drop_app _ (payload r) (le_split 4 (cr_crc r)) (length_payload r)) as [_ ->].
    by rewrite le_combine_split, Z.mod_small.
Qed.

Lemma bytes_of_of_bytes bs : length bs = sizeof -> bytes_of (of_bytes bs) = bs.
Proof.
  intros Hl. unfold sizeof in Hl. unfold bytes_of, payload, of_bytes.
  rewrite cr_make_head, cr_make_fields, cr_make_crc by apply length_unpack.
  rewrite split_le_combine' by (rewrite length_take; lia).
  rewrite (split_le_combine' (drop _ _)) by (rewrite length_drop; lia).
  rewrite pack_unpack by (rewrite length_drop; lia).
  by rewrite take_take_drop, take_drop.
Qed.

Lemma of_bytes_fits bs :
  length bs = sizeof ->
  fits 4 (cr_head (of_bytes bs)) /\ fields_fit (of_bytes bs) /\ fits 4 (cr_crc (of_bytes bs)).
Proof.
  unfold sizeof, of_bytes, fields_fit. intros Hl.
  rewrite cr_make_head, cr_make_fields, cr_make_crc by apply length_unpack.
  split_and!; [apply le_combine_take_fits; lia|apply unpack_fits; rewrite length_drop; lia|].
  rewrite <- (firstn_all (drop _ bs)), length_drop, Hl.
  replace (4 + _ + 4 - _)%nat with 4%nat by lia.
  apply le_combine_take_fits. rewrite length_drop. lia.
Qed.

Lemma seal_head (r : R) : cr_head (seal r) = cr_magic.
Proof. unfold seal. rewrite !cr_make_head; rewrite <- ?cr_length; done. Qed.

Lemma seal_fields (r : R) : cr_fields (seal r) = cr_fields r.
Proof.
  unfold seal. rewrite !cr_make_fields; rewrite <- ?cr_length, ?cr_make_fields;
    rewrite <- ?cr_length; done.
Qed.

Lemma seal_crc (r : R) : cr_crc (seal r) = crc_of (seal r).
Proof.
  transitivity (crc_of (cr_make (R := R) cr_magic (cr_fields r) 0)).
  - unfold seal. rewrite cr_make_crc; [done|]. by rewrite <- cr_length.
  - unfold crc_of, payload. rewrite seal_head, seal_fields.
    by rewrite cr_make_head, cr_make_fields; rewrite <- ?cr_length.
Qed.

Lemma seal_valid (r : R) : valid (seal r) = true.
Proof. unfold valid. by rewrite seal_head, <- seal_crc, !Z.eqb_refl. Qed.

Lemma cr_ext (r1 r2 : R) :
  cr_head r1 = cr_head r2 -> cr_fields r1 = cr_fields r2 -> cr_crc r1 = cr_crc r2 -> r1 = r2.
Proof. intros Hh Hf Hc. by rewrite <- (cr_make_eta r1), <- (cr_make_eta r2), Hh, Hf, Hc. Qed.

Lemma crc_of_ext (r1 r2 : R) :
  cr_head r1 = cr_head r2 -> cr_fields r1 = cr_fields r2 -> crc_of r1 = crc_of r2.
Proof. intros Hh Hf. unfold crc_of, payload. by rewrite Hh, Hf. Qed.

(** A valid record is its own sealing: nothing but the fields is free. *)
Lemma valid_seal (r : R) : valid r = true -> seal r = r.
Proof.
  unfold valid. intros. bool_prop.
  assert (cr_head (seal r) = cr_head r) by (rewrite seal_head; done).
  apply cr_ext; rewrite ?seal_fields, ?seal_crc; [done..|].
  rewrite (crc_of_ext _ r); rewrite ?seal_fields; done.
Qed.

Lemma seal_idemp (r : R) : seal (seal r) = seal r.
Proof. apply valid_seal, seal_valid. Qed.

Hypothesis magic_fits : fits 4 (cr_magic (R := R)).

Lemma load_bytes_seal (r : R) :
  fields_fit r -> load_bytes (bytes_of (seal r)) = Some (seal r).
Proof.
  intros Hf. unfold load_bytes. rewrite length_bytes_of, Nat.eqb_refl, of_bytes_of.
  - by rewrite seal_valid.
  - by rewrite seal_head.
  - unfold fields_fit. by rewrite seal_fields.
  - rewrite seal_crc. apply crc32_u32.
Qed.

(** What loads is exactly the bytes of a sealed record. *)
Lemma load_bytes_inv bs r :
  load_bytes bs = Some r -> bs = bytes_of (seal r) /\ seal r = r /\ fields_fit r.
Proof.
  unfold load_bytes. destruct (Nat.eqb_spec (length bs) sizeof) as [Hl|]; [|done].
  destruct (valid (of_bytes bs)) eqn:Hv; [|done]. intros [= <-].
  rewrite valid_seal by done. split_and!; [by rewrite bytes_of_of_bytes|done|].
  by apply of_bytes_fits.
Qed.

Lemma load_bytes_short bs : length bs <> sizeof -> load_bytes bs = None.
Proof. intros. unfold load_bytes. by destruct (Nat.eqb_spec (length bs) sizeof). Qed.

(** Altering a sealed record inside a window of at most four bytes of its
    payload makes it unreadable. *)
Lemma load_bytes_burst (r : R) pre w1 w2 post :
  fields_fit r -> payload (seal r) = pre ++ w1 ++ post ->
  length w1 = length w2 -> (length w1 <= 4)%nat -> w1 <> w2 ->
  load_bytes (pre ++ w2 ++ post ++ le_split 4 (cr_crc (seal r))) = None.
Proof.
  intros Hf Hp Hlen Hle Hne.
  destruct (load_bytes _) as [r'|] eqn:Hload; [exfalso|done].
  apply load_bytes_inv in Hload as (Hbs & Hs & _).
  rewrite (app_assoc pre), (app_assoc (pre ++ w2)) in Hbs. unfold bytes_of in Hbs.
  assert (length ((pre ++ w2) ++ post) = length (payload (seal r'))) as Hpl.
  { rewrite length_payload, <- (length_payload (seal r)), Hp.
    rewrite !length_app. lia. }
  apply app_inj_1 in Hbs as [Hp' Hc]; [|done].
  assert (Hcrc : cr_crc (seal r) = cr_crc (seal r')).
  { rewrite <- (Z.mod_small (cr_crc (seal r)) (2 ^ (Z.of_nat 4 * 8)))
      by (rewrite seal_crc; apply crc32_u32).
    rewrite <- (Z.mod_small (cr_crc (seal r')) (2 ^ (Z.of_nat 4 * 8)))
      by (rewrite seal_crc; apply crc32_u32).
    by rewrite <- !le_combine_split, Hc. }
  rewrite !seal_crc in Hcrc. unfold crc_of in Hcrc. rewrite Hp, <- Hp' in Hcrc.
  rewrite <- !app_assoc in Hcrc. by apply crc32_burst in Hcrc.
Qed.
End crc_record.

(** Records are reasoned about by these lemmas, never by computing. *)
#[global] Arguments bytes_of : simpl never.
#[global] Arguments payload : simpl never.
#[global] Arguments seal : simpl never.
#[global] Arguments valid : simpl never.
#[global] Arguments crc_of : simpl never.
#[global] Arguments load_bytes : simpl never.
#[global] Arguments of_bytes : simpl never.

(** Discharges [CrcRecordLaws] of a concrete record: field lists of the right
    length are destructed, everything else computes. *)
Ltac crc_record_laws :=
  split;
  [ done | by intros [] | ..];
  intros m vs c Hl;
  repeat (destruct vs as [|? vs]; [discriminate Hl|]);
  (destruct vs; [done|discriminate Hl]).

#[global] Opaque crc32_ seal crc_of.
