(* ===== verification/Storage.v ===== *)
(** * Flash storage (storage_backend.h, queue_offset_checkpoint.h)

    [LittleFS] is the Arduino LittleFS/File API the firmware calls: library
    code, so a parameter of the model, with its documented behaviour in
    [LittleFSLaws].  [StorageBackend] is the abstract class of
    storage_backend.h, [LittleFsBackend] its production implementation, and
    [StorageBackendLaws] the contract EventQueue is proved against.
    [MemFs] is an in-memory file system that instantiates the parameter. *)

From S2P Require Import Prelude.

(** ** The file-system library *)

Class LittleFS (Disk : Type) := {
  (* open(path, FILE_READ): the content, None when the open fails *)
  lfs_read : string -> Disk -> option (list byte);
  (* open(path, FILE_APPEND); close() *)
  lfs_touch : string -> Disk -> option Disk;
  (* open(path, FILE_APPEND); write(d); flush(); close() *)
  lfs_append : string -> list byte -> Disk -> option (nat * Disk);
  (* open(path, FILE_WRITE); write(d); flush(); close() *)
  lfs_rewrite : string -> list byte -> Disk -> option (nat * Disk);
  (* POSIX truncate() through the VFS mount point *)
  lfs_truncate : string -> nat -> Disk -> bool * Disk;
  lfs_remove : string -> Disk -> Disk;
  lfs_exists : string -> Disk -> bool;
  lfs_mkdir : string -> Disk -> Disk;
  (* openNextFile() over a directory: (name, isDirectory) *)
  lfs_list : string -> Disk -> option (list (string * bool));
  lfs_total : Disk -> Z;
  lfs_used : Disk -> Z;
}.

(** [fs'] is [fs] with the content of [p] replaced by [c]. *)
Definition only_changes `{LittleFS Disk} (p : string) (c : option (list byte)) (fs fs' : Disk) : Prop :=
  lfs_read p fs' = c /\ forall q, q <> p -> lfs_read q fs' = lfs_read q fs.

Definition same_files `{LittleFS Disk} (fs fs' : Disk) : Prop :=
  forall q, lfs_read q fs' = lfs_read q fs.

Definition content `{LittleFS Disk} (p : string) (fs : Disk) : list byte :=
  default [] (lfs_read p fs).

Class LittleFSLaws (Disk : Type) `{LittleFS Disk} := {
  lfs_touch_law p fs fs' :
    lfs_touch p fs = Some fs' -> only_changes p (Some (content p fs)) fs fs';
  lfs_append_law p d fs n fs' :
    lfs_append p d fs = Some (n, fs') ->
    (n <= length d)%nat /\ only_changes p (Some (content p fs ++ take n d)) fs fs';
  lfs_rewrite_law p d fs n fs' :
    lfs_rewrite p d fs = Some (n, fs') ->
    (n <= length d)%nat /\ only_changes p (Some (take n d)) fs fs';
  lfs_truncate_law p k fs b fs' :
    (k <= length (content p fs))%nat -> lfs_truncate p k fs = (b, fs') ->
    if b then only_changes p (Some (take k (content p fs))) fs fs' else same_files fs fs';
  lfs_remove_law p fs :
    only_changes p None fs (lfs_remove p fs) \/ same_files fs (lfs_remove p fs);
  lfs_mkdir_law p fs : same_files fs (lfs_mkdir p fs);
  lfs_list_law dir fs l name :
    lfs_list dir fs = Some l -> (name, false) ∈ l ->
    is_Some (lfs_read (dir +:+ "/" +:+ name) fs);
}.

(** ** The abstract class (storage_backend.h) *)

Class StorageBackend (Disk : Type) := {
  appendOpenSize : string -> Disk -> Z * Disk;
  truncateTo : string -> nat -> Disk -> bool * Disk;
  appendWrite : string -> list byte -> Disk -> Z * Disk;
  readWhole : string -> nat -> Disk -> Z * list byte;
  readAt : string -> nat -> nat -> Disk -> Z * list byte;
  writeWhole : string -> list byte -> Disk -> bool * Disk;
  totalBytes : Disk -> Z;
  usedBytes : Disk -> Z;
}.

(** What EventQueue relies on: every call either reports failure and leaves
    the files alone, or does what its comment in storage_backend.h says. *)
Class StorageBackendLaws (Disk : Type) `{LittleFS Disk} `{StorageBackend Disk} := {
  appendOpenSize_law p fs n fs' :
    appendOpenSize p fs = (n, fs') ->
    (n = -1 /\ same_files fs fs') \/
    (n = Z.of_nat (length (content p fs)) /\ only_changes p (Some (content p fs)) fs fs');
  truncateTo_law p k fs b fs' :
    (k <= length (content p fs))%nat -> truncateTo p k fs = (b, fs') ->
    if b then only_changes p (Some (take k (content p fs))) fs fs' else same_files fs fs';
  appendWrite_law p d fs n fs' :
    appendWrite p d fs = (n, fs') ->
    (n = -1 /\ same_files fs fs') \/
    (0 <= n <= Z.of_nat (length d) /\
     only_changes p (Some (content p fs ++ take (Z.to_nat n) d)) fs fs');
  readWhole_law p cap fs :
    readWhole p cap fs =
      match lfs_read p fs with
      | None => (-1, [])
      | Some c => (Z.of_nat (length (take cap c)), take cap c)
      end;
  readAt_law p off len fs :
    readAt p off len fs =
      match lfs_read p fs with
      | None => (-1, [])
      | Some c => (Z.of_nat (length (take len (drop off c))), take len (drop off c))
      end;
  writeWhole_law p d fs b fs' :
    writeWhole p d fs = (b, fs') ->
    if b then only_changes p (Some d) fs fs'
    else same_files fs fs' \/
         exists n, (n < length d)%nat /\ only_changes p (Some (take n d)) fs fs';
}.

(** Writes are not cut short and do not fail. *)
Class ReliableFlash (Disk : Type) `{LittleFS Disk} `{StorageBackend Disk} : Prop := {
  rewrite_ok p bs (d : Disk) : exists d', lfs_rewrite p bs d = Some (length bs, d');
  open_ok p (d : Disk) : (appendOpenSize p d).1 <> -1;
  truncate_ok p k (d : Disk) :
    is_Some (lfs_read p d) -> (k <= length (content p d))%nat -> (truncateTo p k d).1 = true;
  append_ok p bs (d : Disk) : (appendWrite p bs d).1 = Z.of_nat (length bs);
  whole_ok p bs (d : Disk) : (writeWhole p bs d).1 = true;
}.

(** ** The production backend (class LittleFsBackend) *)

Module LittleFsBackend.
Section backend.
Context {Disk : Type} `{LittleFS Disk}.

Definition appendOpenSize (path : string) (fs : Disk) : Z * Disk :=
  match lfs_touch path fs with
  | None => (-1, fs)
  | Some fs' => (Z.of_nat (length (content path fs')), fs')
  end.

Definition truncateTo (path : string) (toSize : nat) (fs : Disk) : bool * Disk :=
  lfs_truncate path toSize fs.

Definition appendWrite (path : string) (data : list byte) (fs : Disk) : Z * Disk :=
  match lfs_append path data fs with
  | None => (-1, fs)
  | Some (written, fs') => (Z.of_nat written, fs')
  end.

Definition readWhole (path : string) (outCap : nat) (fs : Disk) : Z * list byte :=
  match lfs_read path fs with
  | None => (-1, [])
  | Some f =>
      let sz := length f in
      let sz := if (outCap <? sz)%nat then outCap else sz in
      let out := take sz f in
      (Z.of_nat (length out), out)
  end.

Definition readAt (path : string) (offset len : nat) (fs : Disk) : Z * list byte :=
  match lfs_read path fs with
  | None => (-1, [])
  | Some f => let out := take len (drop offset f) in (Z.of_nat (length out), out)
  end.

Definition writeWhole (path : string) (data : list byte) (fs : Disk) : bool * Disk :=
  match lfs_rewrite path data fs with
  | None => (false, fs)
  | Some (written, fs') => ((written =? length data)%nat, fs')
  end.

#[export] Instance backend : StorageBackend Disk := {
  appendOpenSize := appendOpenSize;
  truncateTo := truncateTo;
  appendWrite := appendWrite;
  readWhole := readWhole;
  readAt := readAt;
  writeWhole := writeWhole;
  totalBytes := lfs_total;
  usedBytes := lfs_used;
}.
End backend.
End LittleFsBackend.

Lemma same_files_refl `{LittleFS Disk} (fs : Disk) : same_files fs fs.
Proof. done. Qed.

#[export] Hint Resolve same_files_refl : covio.

Lemma same_only `{LittleFS Disk} p c (d d1 d2 : Disk) :
  same_files d d1 -> only_changes p c d1 d2 -> only_changes p c d d2.
Proof. intros Hs [Hc Ho]. split; [done|]. intros q Hq. by rewrite Ho, Hs. Qed.

Lemma only_same `{LittleFS Disk} p c (d d1 d2 : Disk) :
  only_changes p c d d1 -> same_files d1 d2 -> only_changes p c d d2.
Proof. intros [Hc Ho] Hs. split; [by rewrite Hs|]. intros q Hq. by rewrite Hs, Ho. Qed.

Lemma only_trans `{LittleFS Disk} p c c' (d d1 d2 : Disk) :
  only_changes p c d d1 -> only_changes p c' d1 d2 -> only_changes p c' d d2.
Proof. intros [Hc Ho] [Hc' Ho']. split; [done|]. intros q Hq. by rewrite Ho', Ho. Qed.

Lemma only_content `{LittleFS Disk} p c (d d1 : Disk) :
  only_changes p (Some c) d d1 -> content p d1 = c.
Proof. intros [Hc _]. unfold content. by rewrite Hc. Qed.

Lemma same_content `{LittleFS Disk} p (d d1 : Disk) :
  same_files d d1 -> content p d1 = content p d.
Proof. intros Hs. unfold content. by rewrite Hs. Qed.

(** The production backend meets the contract. *)
#[export] Instance LittleFsBackend_laws `{LittleFSLaws Disk} :
  StorageBackendLaws Disk (H0 := LittleFsBackend.backend).
Proof.
  split; simpl.
  - intros p fs n fs'. unfold LittleFsBackend.appendOpenSize.
    destruct (lfs_touch p fs) as [fs1|] eqn:Ht; intros [= <- <-]; [right|left; auto with covio].
    apply lfs_touch_law in Ht as Ho. split; [|done].
    unfold content at 1. by rewrite (proj1 Ho).
  - intros. by eapply lfs_truncate_law.
  - intros p d fs n fs'. unfold LittleFsBackend.appendWrite.
    destruct (lfs_append p d fs) as [[w fs1]|] eqn:Ha; intros [= <- <-];
      [right|left; auto with covio].
    apply lfs_append_law in Ha as [Hw Ho]. rewrite Nat2Z.id. split; [lia|done].
  - intros p cap fs. unfold LittleFsBackend.readWhole.
    destruct (lfs_read p fs) as [c|]; [|done].
    destruct (Nat.ltb_spec cap (length c)); [done|]. by rewrite !take_ge by lia.
  - done.
  - intros p d fs b fs'. unfold LittleFsBackend.writeWhole.
    destruct (lfs_rewrite p d fs) as [[w fs1]|] eqn:Hw; intros [= <- <-]; [|by left].
    apply lfs_rewrite_law in Hw as [Hle Ho].
    destruct (Nat.eqb_spec w (length d)) as [->|Hne].
    + by rewrite take_ge in Ho by lia.
    + right. exists w. split; [lia|done].
Qed.

(** ** The checkpoint interface (queue_offset_checkpoint.h)

    The three methods EventQueue calls on its [tot_].  [T] is the state of
    the implementor; [setQueueOffset] persists, so it also acts on the file
    system.  The law says it never touches a file of the queue directory. *)

Class IQueueOffsetCheckpoint (T Disk : Type) := {
  setQueueOffset : Z -> Z -> T -> Disk -> T * Disk;
  queueOffsetSegment : T -> Z;
  queueOffsetOffset : T -> Z;
}.

Class QueueOffsetLaws (T Disk : Type) `{LittleFS Disk} `{IQueueOffsetCheckpoint T Disk}
    (own : string -> Prop) := {
  setQueueOffset_segment s o t fs :
    queueOffsetSegment (fst (setQueueOffset s o t fs)) = s;
  setQueueOffset_offset s o t fs :
    queueOffsetOffset (fst (setQueueOffset s o t fs)) = o;
  setQueueOffset_files s o t fs p :
    ~ own p -> lfs_read p (snd (setQueueOffset s o t fs)) = lfs_read p fs;
}.

(** ** An in-memory file system

    [mf_cap] bounds the bytes it holds; a write that does not fit is cut
    short.  [mf_fail] makes every open for writing fail. *)

Record MemFs := { mf_files : gmap string (list byte); mf_cap : Z; mf_fail : bool }.

Definition mem_used (m : gmap string (list byte)) : nat :=
  map_fold (fun _ c n => (length c + n)%nat) 0%nat m.

Definition mem_set (p : string) (c : list byte) (fs : MemFs) : MemFs :=
  {| mf_files := <[p := c]> (mf_files fs); mf_cap := mf_cap fs; mf_fail := mf_fail fs |}.

Definition mem_write (p : string) (old d : list byte) (fs : MemFs) : option (nat * MemFs) :=
  let room := Z.to_nat (mf_cap fs
                        - Z.of_nat (mem_used (delete p (mf_files fs)) + length old)) in
  let n := Nat.min (length d) room in
  if mf_fail fs then None else Some (n, mem_set p (old ++ take n d) fs).

Definition mem_content (p : string) (fs : MemFs) : list byte := default [] (mf_files fs !! p).

Fixpoint strip_prefix (p s : string) : option string :=
  match p, s with
  | EmptyString, _ => Some s
  | String a p, String b s => if Ascii.eqb a b then strip_prefix p s else None
  | String _ _, EmptyString => None
  end.

Lemma strip_prefix_app p s r : strip_prefix p s = Some r -> s = p +:+ r.
Proof.
  revert s. induction p as [|a p IH]; intros s; [by intros [= ->]|].
  destruct s as [|b s]; [done|]. simpl. destruct (Ascii.eqb_spec a b) as [->|]; [|done].
  intros ->%IH. done.
Qed.

#[export] Instance MemFs_LittleFS : LittleFS MemFs := {
  lfs_read p fs := mf_files fs !! p;
  lfs_touch p fs := snd <$> mem_write p (mem_content p fs) [] fs;
  lfs_append p d fs := mem_write p (mem_content p fs) d fs;
  lfs_rewrite p d fs := mem_write p [] d fs;
  lfs_truncate p k fs :=
    match mf_files fs !! p with
    | Some c => if mf_fail fs then (false, fs) else (true, mem_set p (take k c) fs)
    | None => (false, fs)
    end;
  lfs_remove p fs :=
    if mf_fail fs then fs
    else {| mf_files := delete p (mf_files fs); mf_cap := mf_cap fs; mf_fail := mf_fail fs |};
  lfs_exists p fs := bool_decide (is_Some (mf_files fs !! p));
  lfs_mkdir _ fs := fs;
  lfs_list dir fs :=
    Some (omap (fun pc => (fun name => (name, false)) <$> strip_prefix (dir +:+ "/") (fst pc))
            (map_to_list (mf_files fs)));
  lfs_total fs := mf_cap fs;
  lfs_used fs := Z.of_nat (mem_used (mf_files fs));
}.

Lemma mem_set_only p c fs : only_changes p (Some c) fs (mem_set p c fs).
Proof.
  split; simpl; [by rewrite lookup_insert_eq|]. intros q Hq. by rewrite lookup_insert_ne.
Qed.

Lemma mem_write_spec p old d fs n fs' :
  mem_write p old d fs = Some (n, fs') ->
  (n <= length d)%nat /\ only_changes p (Some (old ++ take n d)) fs fs'.
Proof.
  unfold mem_write. destruct (mf_fail fs); [done|]. intros [= <- <-].
  split; [lia|apply mem_set_only].
Qed.

#[export] Instance MemFs_laws : LittleFSLaws MemFs.
Proof.
  split; simpl.
  - intros p fs fs' Ht. apply fmap_Some in Ht as ([n fs1] & Hw & ->).
    apply mem_write_spec in Hw as [_ Hw]. by rewrite take_nil, app_nil_r in Hw.
  - intros p d fs n fs'. by apply (mem_write_spec p (mem_content p fs)).
  - intros p d fs n fs'. by apply (mem_write_spec p []).
  - intros p k fs b fs' _. unfold content. simpl.
    destruct (mf_files fs !! p) as [c|], (mf_fail fs); intros [= <- <-]; try done.
    apply mem_set_only.
  - intros p fs. destruct (mf_fail fs); [by right|left].
    split; simpl; [by rewrite lookup_delete_eq|]. intros q Hq. by rewrite lookup_delete_ne.
  - done.
  - intros dir fs l name [= <-] Hin. apply list_elem_of_omap in Hin as ([p c] & Hp & Hs).
    apply fmap_Some in Hs as (r & Hr & [= ->]). apply strip_prefix_app in Hr. simpl in Hr.
    apply elem_of_map_to_list in Hp. exists c. rewrite <- Hp. f_equal. by rewrite Hr, str_app_assoc.
Qed.

Definition mem_empty : MemFs := {| mf_files := ∅; mf_cap := 4194304; mf_fail := false |}.

(** ** A file system that never fails *)

Record SureFs := { sf_files : gmap string (list byte) }.

Definition sure_set (p : string) (c : list byte) (fs : SureFs) : SureFs :=
  {| sf_files := <[p := c]> (sf_files fs) |}.

Definition sure_content (p : string) (fs : SureFs) : list byte := default [] (sf_files fs !! p).

#[export] Instance SureFs_LittleFS : LittleFS SureFs := {
  lfs_read p fs := sf_files fs !! p;
  lfs_touch p fs := Some (sure_set p (sure_content p fs) fs);
  lfs_append p d fs := Some (length d, sure_set p (sure_content p fs ++ d) fs);
  lfs_rewrite p d fs := Some (length d, sure_set p d fs);
  lfs_truncate p k fs :=
    match sf_files fs !! p with
    | Some c => (true, sure_set p (take k c) fs)
    | None => (false, fs)
    end;
  lfs_remove p fs := {| sf_files := delete p (sf_files fs) |};
  lfs_exists p fs := bool_decide (is_Some (sf_files fs !! p));
  lfs_mkdir _ fs := fs;
  lfs_list dir fs :=
    Some (omap (fun pc => (fun name => (name, false)) <$> strip_prefix (dir +:+ "/") (fst pc))
            (map_to_list (sf_files fs)));
  lfs_total _ := 4194304;
  lfs_used _ := 0;
}.

Lemma sure_set_only p c fs : only_changes p (Some c) fs (sure_set p c fs).
Proof.
  split; simpl; [by rewrite lookup_insert_eq|]. intros q Hq. by rewrite lookup_insert_ne.
Qed.

#[export] Instance SureFs_laws : LittleFSLaws SureFs.
Proof.
  split; simpl.
  - intros p fs fs' [= <-]. apply sure_set_only.
  - intros p d fs n fs' [= <- <-]. split; [done|]. rewrite firstn_all. apply sure_set_only.
  - intros p d fs n fs' [= <- <-]. split; [done|]. rewrite firstn_all. apply sure_set_only.
  - intros p k fs b fs' _. unfold content. simpl.
    destruct (sf_files fs !! p) as [c|]; intros [= <- <-]; [apply sure_set_only|done].
  - intros p fs. left. split; simpl; [by rewrite lookup_delete_eq|].
    intros q Hq. by rewrite lookup_delete_ne.
  - done.
  - intros dir fs l name [= <-] Hin. apply list_elem_of_omap in Hin as ([p c] & Hp & Hs).
    apply fmap_Some in Hs as (r & Hr & [= ->]). apply strip_prefix_app in Hr. simpl in Hr.
    apply elem_of_map_to_list in Hp. exists c. rewrite <- Hp. f_equal. by rewrite Hr, str_app_assoc.
Qed.

#[export] Instance SureFs_reliable : ReliableFlash SureFs (H0 := LittleFsBackend.backend).
Proof.
  split; simpl.
  - intros p bs d. by eexists.
  - intros p d. unfold LittleFsBackend.appendOpenSize. cbn. lia.
  - intros p k d Hr _. unfold LittleFsBackend.truncateTo. simpl. by destruct Hr as [c ->].
  - done.
  - intros p bs d. unfold LittleFsBackend.writeWhole. simpl. apply Nat.eqb_refl.
Qed.
