(* ===== verification/DualSlot.v ===== *)
(** * Two-slot (ping-pong) persistence

    Checkpoint (totalizer.h), AckRec and FailureState (queue.h) are each kept
    in two files written alternately: a record whose [writes] counter is odd
    goes to slot A, an even one to slot B, and boot takes the newest slot that
    loads.  [slot] and [newest] are the two expressions the three components
    share; the theorems say what survives each outcome of a write. *)

From S2P Require Import Prelude Crc32 Records Storage.

(** [(writes & 1) ? PATH_A : PATH_B] *)
Definition slot (A B : string) (writes : Z) : string := if Z.odd writes then A else B.

(** [if (va && vb) r = (a.writes >= b.writes) ? a : b; else if (va) ...] *)
Definition newest {X} (writes : X -> Z) (a b : option X) : option X :=
  match a, b with
  | Some a, Some b => Some (if writes b <=? writes a then a else b)
  | Some a, None => Some a
  | None, Some b => Some b
  | None, None => None
  end.

Lemma odd_step w : Z.odd (w + 1) = negb (Z.odd w).
Proof. by rewrite Z.odd_add, xorb_true_r. Qed.

Section dual_slot.
Context {Disk X : Type} `{LittleFS Disk}.
Variables (A B : string) (AB : A <> B).
Variable writes : X -> Z.
(** What a slot's content loads as. *)
Variable ld : option (list byte) -> option X.
Hypothesis ld_missing : ld None = None.

Definition slot_load (p : string) (d : Disk) : option X := ld (lfs_read p d).
Definition recover (d : Disk) : option X := newest writes (slot_load A d) (slot_load B d).

Lemma slot_step w : slot A B (w + 1) <> slot A B w.
Proof. unfold slot. rewrite odd_step. by destruct (Z.odd w); simpl. Qed.

Lemma slot_cases w : slot A B w = A \/ slot A B w = B.
Proof. unfold slot. destruct (Z.odd w); auto. Qed.

Lemma slot_step2 w : slot A B (w + 2) = slot A B w.
Proof. unfold slot. rewrite Z.odd_add, xorb_false_r. done. Qed.

Lemma recover_one w d : slot_load (slot A B w) d = None ->
  recover d = slot_load (slot A B (w + 1)) d.
Proof.
  unfold recover, slot. rewrite odd_step.
  destruct (Z.odd w); simpl; intros ->; [by destruct (slot_load B d)|].
  by destruct (slot_load A d).
Qed.

(** No slot is newer than [w]. *)
Definition bounded (w : Z) (d : Disk) : Prop :=
  forall v r, slot_load (slot A B v) d = Some r -> writes r <= w.

(** The newest slot holds [r], and the other one is older. *)
Definition synced (r : X) (d : Disk) : Prop :=
  slot_load (slot A B (writes r)) d = Some r /\
  forall r', slot_load (slot A B (writes r + 1)) d = Some r' -> writes r' < writes r.

Lemma newest_some_l a b r :
  newest writes a b = Some r -> a = Some r \/ b = Some r.
Proof. destruct a, b; simpl; intros [= <-]; [case_match|..]; auto. Qed.

Lemma recover_synced r d : synced r d -> recover d = Some r.
Proof.
  intros [Hr Ho]. unfold recover. unfold slot in *. rewrite odd_step in Ho.
  destruct (Z.odd (writes r)); simpl in *; rewrite Hr; simpl.
  - destruct (slot_load B d) as [r'|]; [|done]. specialize (Ho _ eq_refl).
    by destruct (Z.leb_spec (writes r') (writes r)); [|lia].
  - destruct (slot_load A d) as [r'|]; [|done]. specialize (Ho _ eq_refl).
    simpl. by destruct (Z.leb_spec (writes r) (writes r')); [lia|].
Qed.

Lemma recover_none d : recover d = None -> slot_load A d = None /\ slot_load B d = None.
Proof. unfold recover. by destruct (slot_load A d), (slot_load B d). Qed.

Lemma recover_bounded d r : recover d = Some r -> bounded (writes r) d.
Proof.
  unfold recover, newest, bounded. intros Hr v r' Hv.
  destruct (slot_cases v) as [E|E]; rewrite E in Hv; rewrite Hv in Hr;
    [destruct (slot_load B d) as [b|] | destruct (slot_load A d) as [b|]];
    simpl in Hr; revert Hr; try (case_match; bool_prop); intros [= <-]; lia.
Qed.

Lemma fresh_bounded d w : slot_load A d = None -> slot_load B d = None -> bounded w d.
Proof.
  intros HA HB v r Hv. destruct (slot_cases v) as [E|E]; rewrite E in Hv; congruence.
Qed.

Lemma synced_bounded r d : synced r d -> bounded (writes r) d.
Proof. intros. by apply recover_bounded, recover_synced. Qed.

Lemma bounded_le w w' d : bounded w d -> w <= w' -> bounded w' d.
Proof. intros Hb Hle v r Hv. specialize (Hb _ _ Hv). lia. Qed.

(** A slot file that changed to [c]: the other slot is as it was. *)
Lemma changed_slot p c d d' :
  only_changes p c d d' ->
  slot_load p d' = ld c /\ forall q, q <> p -> slot_load q d' = slot_load q d.
Proof. intros [Hp Hq]. unfold slot_load. rewrite Hp. split; [done|]. intros. by rewrite Hq. Qed.

(** A completed write of the next record makes it the recovered one. *)
Lemma write_synced w r c d d' :
  bounded w d -> writes r = w + 1 -> ld c = Some r ->
  only_changes (slot A B (writes r)) c d d' -> synced r d'.
Proof.
  intros Hb Hw Hc Ho. apply changed_slot in Ho as [Hs Hq]. split; [by rewrite Hs|].
  intros r'. rewrite Hq by apply slot_step. intros Hl. apply Hb in Hl. lia.
Qed.

(** A torn write leaves the previous record the recovered one. *)
Lemma torn_write r c d d' :
  synced r d -> ld c = None ->
  only_changes (slot A B (writes r + 1)) c d d' -> synced r d'.
Proof.
  intros [Hr Hold] Hc Ho. apply changed_slot in Ho as [Hs Hq]. split.
  - rewrite Hq; [done|]. apply not_eq_sym, slot_step.
  - intros r'. by rewrite Hs, Hc.
Qed.

(** Whatever a write leaves behind, no slot is newer than its counter. *)
Lemma write_bounded w r c d d' :
  bounded w d -> w <= writes r -> (forall r', ld c = Some r' -> writes r' <= writes r) ->
  only_changes (slot A B (writes r)) c d d' -> bounded (writes r) d'.
Proof.
  intros Hb Hw Hc Ho. apply changed_slot in Ho as [Hs Hq]. intros v r' Hv.
  destruct (decide (slot A B v = slot A B (writes r))) as [E|E].
  - rewrite E, Hs in Hv. by apply Hc.
  - rewrite Hq in Hv by done. apply Hb in Hv. lia.
Qed.

Lemma same_bounded w d d' : same_files d d' -> bounded w d -> bounded w d'.
Proof. intros Hs Hb v r Hv. unfold slot_load in Hv. rewrite Hs in Hv. by apply (Hb v). Qed.

Lemma same_synced r d d' : same_files d d' -> synced r d -> synced r d'.
Proof.
  intros Hs [Hr Ho]. unfold synced, slot_load in *. by rewrite !Hs.
Qed.

(** Only the two files matter. *)
Lemma slots_ext d d' :
  lfs_read A d' = lfs_read A d -> lfs_read B d' = lfs_read B d ->
  (forall r, synced r d -> synced r d') /\ recover d' = recover d.
Proof.
  intros EA EB.
  assert (Es : forall w, slot_load (slot A B w) d' = slot_load (slot A B w) d).
  { intros w. unfold slot_load. by destruct (slot_cases w) as [-> | ->]; rewrite ?EA, ?EB. }
  split; [|unfold recover, slot_load; by rewrite EA, EB].
  intros r [Hr Ho]. split; by rewrite Es.
Qed.
End dual_slot.

#[export] Hint Resolve recover_bounded synced_bounded : covio.
