(* ===== verification/Arduino.v ===== *)
(** * Characters, strings and decimal text

    What the firmware uses of the C library and of Arduino's String class, and
    the single-precision [float]:
    [%u]-style printing, digit tests, [indexOf], [substring].  C strings and
    String objects are Stdlib strings; character codes are [Z]. *)

From Stdlib Require Export Ascii.
From Stdlib Require Export SpecFloat.
From S2P Require Import Prelude.

Definition code (c : Ascii.ascii) : Z := Z.of_N (Ascii.N_of_ascii c).
Definition chr (z : Z) : Ascii.ascii := Ascii.ascii_of_N (Z.to_N z).

Lemma code_chr z : 0 <= z < 256 -> code (chr z) = z.
Proof. intros. unfold code, chr. rewrite Ascii.N_ascii_embedding; lia. Qed.

Lemma code_range c : 0 <= code c < 256.
Proof. unfold code. pose proof (Ascii.N_ascii_bounded c). lia. Qed.

Lemma chr_code c : chr (code c) = c.
Proof. unfold code, chr. by rewrite N2Z.id, Ascii.ascii_N_embedding. Qed.

(** [c >= '0' && c <= '9'] *)
Definition is_digit (c : Ascii.ascii) : bool := (48 <=? code c) && (code c <=? 57).

(** ** Decimal output: [%u], [%lu], [%llu] *)

Definition digit (d : Z) : Ascii.ascii := chr (48 + d).

Fixpoint dec_go (fuel : nat) (n : Z) (acc : string) : string :=
  let acc := String (digit (n mod 10)) acc in
  if n <? 10 then acc
  else match fuel with O => acc | S f => dec_go f (n / 10) acc end.

Definition dec (n : Z) : string := dec_go (Z.to_nat (Z.log2 n)) n EmptyString.

(** [%d], [%ld], [%lld], String(int) *)
Definition dec_signed (n : Z) : string :=
  if n <? 0 then String "-"%char (dec (- n)) else dec n.

(** The value of a string of digits, most significant first. *)
Fixpoint dec_val (v : Z) (s : string) : Z :=
  match s with
  | EmptyString => v
  | String c s => dec_val (v * 10 + (code c - 48)) s
  end.

Fixpoint all_digits (s : string) : bool :=
  match s with
  | EmptyString => true
  | String c s => is_digit c && all_digits s
  end.

Lemma digit_code d : 0 <= d < 10 -> code (digit d) = 48 + d.
Proof. intros. unfold digit. apply code_chr. lia. Qed.

Lemma digit_is_digit d : 0 <= d < 10 -> is_digit (digit d) = true.
Proof. intros. unfold is_digit. rewrite digit_code by done. apply andb_true_intro. lia. Qed.

Lemma dec_go_val fuel n acc :
  0 <= n < 10 * 2 ^ Z.of_nat fuel -> dec_val 0 (dec_go fuel n acc) = dec_val n acc.
Proof.
  revert n acc. induction fuel as [|fuel IH]; intros n acc Hn; cbn [dec_go].
  - destruct (Z.ltb_spec n 10); [|lia]. simpl. rewrite digit_code by (apply Z.mod_pos_bound; lia).
    f_equal. rewrite Z.mod_small; lia.
  - destruct (Z.ltb_spec n 10).
    + simpl. rewrite digit_code by (apply Z.mod_pos_bound; lia). f_equal.
      rewrite Z.mod_small; lia.
    + rewrite IH; [|rewrite Nat2Z.inj_succ, Z.pow_succ_r in Hn by lia].
      * simpl. rewrite digit_code by (apply Z.mod_pos_bound; lia). f_equal.
        pose proof (Z.div_mod n 10). lia.
      * split; [apply Z.div_pos; lia|]. apply Z.div_lt_upper_bound; lia.
Qed.

Lemma dec_fuel n : 0 <= n -> 0 <= n < 10 * 2 ^ Z.of_nat (Z.to_nat (Z.log2 n)).
Proof.
  intros Hn. split; [done|]. rewrite Z2Nat.id by apply Z.log2_nonneg.
  destruct (decide (n = 0)) as [->|]; [done|]. pose proof (Z.log2_spec n ltac:(lia)) as [_ H].
  rewrite Z.pow_succ_r in H by apply Z.log2_nonneg. pose proof (Z.pow_nonneg 2 (Z.log2 n)). lia.
Qed.

(** Printing a number and reading its digits gives the number back. *)
Lemma dec_val_dec n : 0 <= n -> dec_val 0 (dec n) = n.
Proof. intros Hn. unfold dec. by rewrite dec_go_val by by apply dec_fuel. Qed.

Lemma dec_inj m n : 0 <= m -> 0 <= n -> dec m = dec n -> m = n.
Proof. intros Hm Hn E. by rewrite <- (dec_val_dec m), <- (dec_val_dec n), E. Qed.

Lemma dec_go_head fuel n acc :
  0 <= n -> exists c s, dec_go fuel n acc = String c s /\ is_digit c = true.
Proof.
  revert n acc. induction fuel as [|fuel IH]; intros n acc Hn; cbn [dec_go];
    case_match; try (eexists _, _; split; [done|]; apply digit_is_digit, Z.mod_pos_bound; lia).
  apply IH, Z.div_pos; lia.
Qed.

Lemma dec_signed_inj m n : dec_signed m = dec_signed n -> m = n.
Proof.
  assert (Hs : forall z s, 0 <= z -> dec z <> String "-"%char s).
  { intros z s Hz E. destruct (dec_go_head (Z.to_nat (Z.log2 z)) z EmptyString Hz) as (c & r & E' & Hc).
    unfold dec in E. rewrite E in E'. injection E' as <- _. discriminate Hc. }
  unfold dec_signed. destruct (Z.ltb_spec m 0), (Z.ltb_spec n 0); intros E.
  - injection E as E. apply dec_inj in E; lia.
  - symmetry in E. by apply Hs in E.
  - by apply Hs in E.
  - apply dec_inj in E; lia.
Qed.

Lemma dec_go_digits fuel n acc :
  0 <= n -> all_digits acc = true -> all_digits (dec_go fuel n acc) = true.
Proof.
  revert n acc. induction fuel as [|fuel IH]; intros n acc Hn Ha; cbn [dec_go];
    case_match; simpl; rewrite ?digit_is_digit by (apply Z.mod_pos_bound; lia); try done.
  apply IH; [apply Z.div_pos; lia|]. simpl.
  by rewrite digit_is_digit by (apply Z.mod_pos_bound; lia).
Qed.

Lemma dec_digits n : 0 <= n -> all_digits (dec n) = true.
Proof. intros. by apply dec_go_digits. Qed.

Lemma dec_go_nonempty fuel n acc : exists c s, dec_go fuel n acc = String c s.
Proof.
  revert n acc. induction fuel as [|fuel IH]; intros n acc; cbn [dec_go];
    case_match; eauto.
Qed.

Lemma dec_nonempty n : (0 < String.length (dec n))%nat.
Proof.
  destruct (dec_go_nonempty (Z.to_nat (Z.log2 n)) n EmptyString) as (c & r & E).
  unfold dec. rewrite E. simpl. lia.
Qed.

(** A number below [10 ^ k] prints in at most [k] characters. *)
Lemma dec_go_length fuel n acc k :
  0 <= n < 10 ^ Z.of_nat k -> (0 < k)%nat -> 
  (String.length (dec_go fuel n acc) <= k + String.length acc)%nat.
Proof.
  revert n acc k. induction fuel as [|fuel IH]; intros n acc k Hn Hk; cbn [dec_go];
    destruct (Z.ltb_spec n 10); simpl; try lia.
  destruct k as [|[|k]]; [lia|simpl in Hn; lia|].
  etransitivity; [apply (IH _ _ (S k)); [|lia]|simpl; lia].
  rewrite (Nat2Z.inj_succ (S k)), Z.pow_succ_r in Hn by lia.
  split; [apply Z.div_pos; lia|apply Z.div_lt_upper_bound; lia].
Qed.

Lemma dec_length n k : 0 <= n < 10 ^ Z.of_nat k -> (0 < k)%nat -> (String.length (dec n) <= k)%nat.
Proof. intros Hn Hk. pose proof (dec_go_length (Z.to_nat (Z.log2 n)) n EmptyString k Hn Hk).
  simpl in *. unfold dec. lia.
Qed.

Lemma is_digit_range c : is_digit c = true -> 0 <= code c - 48 < 10.
Proof. unfold is_digit. intros. bool_prop. lia. Qed.

Lemma dec_val_ge v s : 0 <= v -> all_digits s = true -> v <= dec_val v s.
Proof.
  revert v. induction s as [|c s IH]; intros v Hv; simpl; [lia|]. intros. bool_prop.
  pose proof (is_digit_range c ltac:(done)). etransitivity; [|apply IH; [lia|done]]. lia.
Qed.

(** [%0Nu] *)
Fixpoint zeros (k : nat) : string :=
  match k with O => EmptyString | S k => String "0"%char (zeros k) end.
Definition pad (w : nat) (n : Z) : string :=
  zeros (w - String.length (dec n)) +:+ dec n.

Lemma zeros_digits k : all_digits (zeros k) = true.
Proof. by induction k. Qed.

Lemma all_digits_app a b : all_digits (a +:+ b) = all_digits a && all_digits b.
Proof. induction a as [|c a IH]; [done|]. rewrite str_cons_app. simpl. rewrite IH. apply andb_assoc. Qed.

Lemma pad_digits w n : 0 <= n -> all_digits (pad w n) = true.
Proof. intros. unfold pad. by rewrite all_digits_app, zeros_digits, dec_digits. Qed.

Lemma zeros_length k : String.length (zeros k) = k.
Proof. induction k; simpl; auto. Qed.

Lemma pad_length w n : 0 <= n < 10 ^ Z.of_nat w -> (0 < w)%nat -> String.length (pad w n) = w.
Proof.
  intros Hn Hw. unfold pad. rewrite str_length_app, zeros_length.
  pose proof (dec_length n w Hn Hw). lia.
Qed.

Lemma dec_val_zeros k s : dec_val 0 (zeros k +:+ s) = dec_val 0 s.
Proof. induction k; [done|]. simpl. done. Qed.

Lemma dec_val_pad w n : 0 <= n -> dec_val 0 (pad w n) = n.
Proof. intros. unfold pad. by rewrite dec_val_zeros, dec_val_dec. Qed.

Lemma pad_inj w m n : 0 <= m -> 0 <= n -> pad w m = pad w n -> m = n.
Proof. intros Hm Hn E. by rewrite <- (dec_val_pad w m), <- (dec_val_pad w n), E. Qed.

(** [%0wX] of a number that fits [w] hexadecimal digits *)
Definition hex_digit (d : Z) : Ascii.ascii := if d <? 10 then chr (48 + d) else chr (55 + d).
Fixpoint hex_fix (w : nat) (n : Z) : string :=
  match w with
  | O => EmptyString
  | S w => String (hex_digit (n / 16 ^ Z.of_nat w mod 16)) (hex_fix w n)
  end.

Lemma hex_digit_code d : 0 <= d < 16 -> code (hex_digit d) = if d <? 10 then 48 + d else 55 + d.
Proof. intros. unfold hex_digit. destruct (Z.ltb_spec d 10); apply code_chr; lia. Qed.

Lemma hex_digit_inj a b : 0 <= a < 16 -> 0 <= b < 16 -> hex_digit a = hex_digit b -> a = b.
Proof.
  intros Ha Hb E. apply (f_equal code) in E. rewrite !hex_digit_code in E by done.
  destruct (Z.ltb_spec a 10), (Z.ltb_spec b 10); lia.
Qed.

Lemma hex_fix_length w n : String.length (hex_fix w n) = w.
Proof. induction w as [|w IH]; simpl; [done|by rewrite IH]. Qed.

Lemma hex_fix_mod w m n :
  hex_fix w m = hex_fix w n -> m mod 16 ^ Z.of_nat w = n mod 16 ^ Z.of_nat w.
Proof.
  induction w as [|w IH]; [by rewrite !Z.mod_1_r|]. cbn [hex_fix]. intros [= Ed E].
  apply hex_digit_inj in Ed; [|apply Z.mod_pos_bound; lia..]. specialize (IH E).
  rewrite Nat2Z.inj_succ, Z.pow_succ_r by lia. set (p := 16 ^ Z.of_nat w) in *.
  assert (0 < p) by (apply Z.pow_pos_nonneg; lia).
  rewrite (Z.mul_comm 16), !Z.rem_mul_r by lia. by rewrite IH, Ed.
Qed.

Lemma hex_fix_inj w m n :
  0 <= m < 16 ^ Z.of_nat w -> 0 <= n < 16 ^ Z.of_nat w -> hex_fix w m = hex_fix w n -> m = n.
Proof. intros Hm Hn E%hex_fix_mod. by rewrite !Z.mod_small in E by done. Qed.

(** ** String methods *)

(** The text from position [n] on. *)
Fixpoint sdrop (n : nat) (s : string) : string :=
  match n, s with
  | O, _ => s
  | S n, String _ s => sdrop n s
  | S _, EmptyString => EmptyString
  end.

(** [strncmp(s, p, strlen(p)) == 0] *)
Fixpoint starts_with (p s : string) : bool :=
  match p, s with
  | EmptyString, _ => true
  | String a p, String b s => Ascii.eqb a b && starts_with p s
  | String _ _, EmptyString => false
  end.

(** [s.indexOf(pat)], [None] for -1 *)
Fixpoint indexOf (pat s : string) : option nat :=
  if starts_with pat s then Some O
  else match s with
       | EmptyString => None
       | String _ s => S <$> indexOf pat s
       end.

(** [s.indexOf(pat, from)] *)
Definition indexOfFrom (pat : string) (from : nat) (s : string) : option nat :=
  Nat.add from <$> indexOf pat (sdrop from s).

(** How many leading characters satisfy [P]. *)
Fixpoint span (P : Ascii.ascii -> bool) (s : string) : nat :=
  match s with
  | String c s => if P c then S (span P s) else O
  | EmptyString => O
  end.

(** [s.substring(i, j)] for [i <= j] *)
Definition substring (i j : nat) (s : string) : string := String.substring i (j - i) s.

Definition charAt (i : nat) (s : string) : option Ascii.ascii := String.get i s.

(** JSON texts are written with apostrophes for double quotes. *)
Fixpoint js (s : string) : string :=
  match s with
  | EmptyString => EmptyString
  | String c s => String (if Ascii.eqb c "'"%char then chr 34 else c) (js s)
  end.

(** A chain of [s += ...]. *)
Definition cat (l : list string) : string := foldr String.append EmptyString l.

Lemma charAt_app pre c s : charAt (String.length pre) (pre +:+ String c s) = Some c.
Proof. induction pre as [|x pre IH]; [done|]. rewrite str_cons_app. apply IH. Qed.

Lemma sdrop_app pre s : sdrop (String.length pre) (pre +:+ s) = s.
Proof. induction pre as [|x pre IH]; [done|]. rewrite str_cons_app. apply IH. Qed.

Lemma starts_with_app p s : starts_with p (p +:+ s) = true.
Proof.
  induction p as [|x p IH]; [done|]. rewrite str_cons_app. simpl. by rewrite Ascii.eqb_refl, IH.
Qed.

Lemma starts_with_spec p s : starts_with p s = true -> exists r, s = p +:+ r.
Proof.
  revert s. induction p as [|a p IH]; intros s; [by exists s|].
  destruct s as [|b s]; [done|]. simpl. destruct (Ascii.eqb_spec a b) as [->|]; [|done].
  intros (r & ->)%IH. by exists r.
Qed.

Lemma indexOf_head p s : indexOf p (p +:+ s) = Some O.
Proof.
  assert (E : starts_with p (p +:+ s) = true) by apply starts_with_app.
  destruct (p +:+ s) as [|x r]; simpl; by rewrite E.
Qed.

(** Searching for one character. *)
Lemma indexOf_char x c s :
  indexOf (String x EmptyString) (String c s)
  = if Ascii.eqb x c then Some O else S <$> indexOf (String x EmptyString) s.
Proof. cbn [indexOf starts_with]. by destruct (Ascii.eqb x c). Qed.

Lemma span_app P a b :
  span P a = String.length a ->
  span P (a +:+ b) = (String.length a + span P b)%nat.
Proof.
  induction a as [|c a IH]; [done|]. rewrite str_cons_app. simpl.
  destruct (P c); [|done]. intros [= E]. by rewrite IH.
Qed.

Lemma span_digits s : all_digits s = true -> span is_digit s = String.length s.
Proof.
  induction s as [|c s IH]; simpl; [done|]. intros [Hc Hs]%andb_prop. by rewrite Hc, IH.
Qed.

Lemma charAt_sdrop i s : charAt i s = match sdrop i s with String c _ => Some c | _ => None end.
Proof. revert s. induction i as [|i IH]; intros [|c s]; simpl; try done; apply IH. Qed.

Lemma sdrop_S i s c r : sdrop i s = String c r -> sdrop (S i) s = r.
Proof.
  revert s. induction i as [|i IH]; intros [|x s]; simpl; try done; [by intros [= _ ->]|].
  apply IH.
Qed.

(** ** [float]: IEEE binary32, round to nearest even *)

Definition f32 : Type := spec_float.
Definition f32_of_Z (z : Z) : f32 := binary_normalize 24 128 z 0 false.
Definition f32_mul : f32 -> f32 -> f32 := SFmul 24 128.
Definition f32_div : f32 -> f32 -> f32 := SFdiv 24 128.
Definition f32_add : f32 -> f32 -> f32 := SFadd 24 128.
(** [x >= y] *)
Definition f32_ge (x y : f32) : bool := SFleb y x.
Definition f32_gt (x y : f32) : bool := SFltb y x.
