(* ===== verification/Parse.v ===== *)
(** * Number and field extraction

    timestamp_parse.h, checked_field_parse.h, ack_validation.h, the JSON
    scalar extractors of sync.h, and covioIsHttpsUrl (certs.h).  [toFloat] is
    Arduino's String::toFloat, library code. *)

From S2P Require Import Prelude Arduino.

(** ** Checked decimal parsing (timestamp_parse.h, checked_field_parse.h) *)

Definition INT64_MAX : Z := 2 ^ 63 - 1.
Definition UINT32_MAX : Z := 2 ^ 32 - 1.

(** The loop over [k] characters from position [i]. *)
Fixpoint parse_loop (k : nat) (v : Z) (i : nat) (s : string) : option Z :=
  match k with
  | O => Some v
  | S k =>
      match charAt i s with
      | None => None
      | Some c =>
          if negb (is_digit c) then None
          else
            let digit := code c - 48 in
            if (INT64_MAX - digit) / 10 <? v then None
            else parse_loop k (v * 10 + digit) (S i) s
      end
  end.

Definition parseNonNegativeInt64Checked (s : option string) (start end_ : nat) : option Z :=
  match s with
  | None => None
  | Some s => if (end_ <=? start)%nat then None else parse_loop (end_ - start) 0 start s
  end.

Definition parseUint32Checked (s : option string) (start end_ : nat) : option Z :=
  match parseNonNegativeInt64Checked s start end_ with
  | None => None
  | Some v => if UINT32_MAX <? v then None else Some (u32 v)
  end.

(** ** Acknowledgement bounds (ack_validation.h) *)

(** The applied value and [*wasClamped]. *)
Definition boundAckSeq (parsedAck maxSentSeq : Z) : Z * bool :=
  if maxSentSeq <? parsedAck then (maxSentSeq, true) else (parsedAck, false).

Definition resumeSeqFloor (checkpointSeq ackedSeq : Z) : Z :=
  if ackedSeq <=? checkpointSeq then checkpointSeq else ackedSeq.

(** ** JSON scalar extraction (sync.h) *)

Definition quote : Ascii.ascii := chr 34.
(** The text between double quotes. *)
Definition quoted (s : string) : string := String quote (s +:+ String quote EmptyString).

Definition is_space_or_quote (c : Ascii.ascii) : bool :=
  Ascii.eqb c " "%char || Ascii.eqb c quote.

(** Where the digits of the value of [key] start and end. *)
Definition locate_digits (s key : string) : option (nat * nat) :=
  match indexOf (quoted key) s with
  | None => None
  | Some i =>
      match indexOfFrom ":" i s with
      | None => None
      | Some i =>
          let i := S i in
          let start := (i + span is_space_or_quote (sdrop i s))%nat in
          Some (start, (start + span is_digit (sdrop start s))%nat)
      end
  end.

(** [(long)v] is a 32-bit conversion on the target. *)
Definition extractLong_ (s key : string) : Z :=
  match locate_digits s key with
  | None => -1
  | Some (start, i) =>
      match parseUint32Checked (Some s) start i with
      | None => -1
      | Some v => i32 v
      end
  end.

Definition extractInt64_ (s key : string) : option Z :=
  match locate_digits s key with
  | None => None
  | Some (start, i) => parseNonNegativeInt64Checked (Some s) start i
  end.

Section floats.
Variable toFloat : string -> f32.

Definition extractFloat_ (s key : string) : f32 :=
  match indexOf (quoted key) s with
  | None => f32_of_Z (-1)
  | Some i =>
      match indexOfFrom ":" i s with
      | None => f32_of_Z (-1)
      | Some i => toFloat (sdrop (S i) s)
      end
  end.
End floats.

(** ** covioIsHttpsUrl (certs.h) *)

(** [tolower] on ASCII *)
Definition lower (c : Ascii.ascii) : Ascii.ascii :=
  if (65 <=? code c) && (code c <=? 90) then chr (code c + 32) else c.

Fixpoint equalsIgnoreCase (a b : string) : bool :=
  match a, b with
  | EmptyString, EmptyString => true
  | String x a, String y b => Ascii.eqb (lower x) (lower y) && equalsIgnoreCase a b
  | _, _ => false
  end.

Definition covioIsHttpsUrl (url : string) : bool :=
  (8 <=? String.length url)%nat && equalsIgnoreCase (substring 0 8 url) "https://".

(** ** Correctness *)

(** The first [k] characters from position [i]. *)
Fixpoint stake (k : nat) (s : string) : string :=
  match k, s with
  | S k, String c s => String c (stake k s)
  | _, _ => EmptyString
  end.

Lemma stake_app a b : stake (String.length a) (a +:+ b) = a.
Proof. induction a as [|x a IH]; [by destruct b|]. rewrite str_cons_app. simpl. by rewrite IH. Qed.

Lemma parse_loop_spec k v i s :
  0 <= v <= INT64_MAX -> (i + k <= String.length s)%nat ->
  let ds := stake k (sdrop i s) in
  parse_loop k v i s =
  if all_digits ds && (dec_val v ds <=? INT64_MAX) then Some (dec_val v ds) else None.
Proof.
  unfold INT64_MAX. revert v i. induction k as [|k IH]; intros v i Hv Hl; simpl.
  { destruct (sdrop i s); simpl; by rewrite (proj2 (Z.leb_le v _)) by lia. }
  rewrite charAt_sdrop. destruct (sdrop i s) as [|c r] eqn:Hs.
  { exfalso. assert (Hx : String.length (sdrop i s) = (String.length s - i)%nat).
    { clear. revert s. induction i as [|i IH]; intros [|x s]; simpl; auto with arith. }
    rewrite Hs in Hx. simpl in Hx. lia. }
  simpl. destruct (is_digit c) eqn:Hd; simpl; [|done]. unfold INT64_MAX.
  pose proof (is_digit_range c Hd).
  destruct (Z.ltb_spec ((2 ^ 63 - 1 - (code c - 48)) / 10) v) as [Hov|Hok].
  - assert (2 ^ 63 - 1 < v * 10 + (code c - 48)).
    { pose proof (Z.mul_succ_div_gt (2 ^ 63 - 1 - (code c - 48)) 10). lia. }
    destruct (all_digits (stake k r)) eqn:Ha; [|done].
    pose proof (dec_val_ge (v * 10 + (code c - 48)) (stake k r) ltac:(lia) Ha).
    destruct (Z.leb_spec (dec_val (v * 10 + (code c - 48)) (stake k r)) (2 ^ 63 - 1)); [lia|done].
  - assert (v * 10 + (code c - 48) <= 2 ^ 63 - 1).
    { pose proof (Z.mul_div_le (2 ^ 63 - 1 - (code c - 48)) 10). lia. }
    rewrite IH by lia. by rewrite (sdrop_S _ _ _ _ Hs).
Qed.

Lemma parse_int64_spec s start end_ :
  (start < end_ <= String.length s)%nat ->
  let ds := stake (end_ - start) (sdrop start s) in
  parseNonNegativeInt64Checked (Some s) start end_ =
  if all_digits ds && (dec_val 0 ds <=? INT64_MAX) then Some (dec_val 0 ds) else None.
Proof.
  intros Hl. unfold parseNonNegativeInt64Checked.
  rewrite (proj2 (Nat.leb_gt _ _)) by lia. apply parse_loop_spec; unfold INT64_MAX; lia.
Qed.

(** A printed number in the middle of a text parses to itself. *)
Lemma parse_int64_dec pre n rest :
  0 <= n ->
  parseNonNegativeInt64Checked (Some (pre +:+ (dec n +:+ rest))) (String.length pre)
    (String.length pre + String.length (dec n)) =
  if n <=? INT64_MAX then Some n else None.
Proof.
  intros Hn. destruct (dec_go_nonempty (Z.to_nat (Z.log2 n)) n EmptyString) as (c & r & E).
  fold (dec n) in E.
  rewrite parse_int64_spec.
  - rewrite sdrop_app, Nat.add_sub_swap, Nat.sub_diag by lia. simpl.
    rewrite stake_app, dec_digits, dec_val_dec by done. done.
  - rewrite !str_length_app. rewrite E. simpl. lia.
Qed.

Lemma parse_uint32_dec pre n rest :
  0 <= n ->
  parseUint32Checked (Some (pre +:+ (dec n +:+ rest))) (String.length pre)
    (String.length pre + String.length (dec n)) =
  if n <? 2 ^ 32 then Some n else None.
Proof.
  intros Hn. unfold parseUint32Checked. rewrite parse_int64_dec by done.
  unfold INT64_MAX, UINT32_MAX.
  destruct (Z.leb_spec n (2 ^ 63 - 1)), (Z.ltb_spec n (2 ^ 32)); try lia; try done.
  - rewrite (proj2 (Z.ltb_ge _ n)) by lia. by rewrite u32_small by lia.
  - by rewrite (proj2 (Z.ltb_lt _ n)) by lia.
Qed.

(** The text after a key: a colon, then the digits. *)
Definition starts_nondigit (s : string) : bool :=
  match s with String c _ => negb (is_digit c) | EmptyString => true end.

Lemma span_nondigit s : starts_nondigit s = true -> span is_digit s = O.
Proof. destruct s as [|c s]; simpl; [done|]. by destruct (is_digit c). Qed.

(** Digits followed by something else are read unambiguously. *)
Lemma digits_app_inj a b r r' :
  all_digits a = true -> all_digits b = true ->
  starts_nondigit r = true -> starts_nondigit r' = true ->
  a +:+ r = b +:+ r' -> a = b /\ r = r'.
Proof.
  revert b. induction a as [|x a IH]; intros [|y b]; simpl; intros Ha Hb Hr Hr';
    rewrite ?str_nil_app, ?str_cons_app.
  - done.
  - intros ->. simpl in Hr. apply andb_prop in Hb as [Hb _]. by rewrite Hb in Hr.
  - intros <-. simpl in Hr'. apply andb_prop in Ha as [Ha _]. by rewrite Ha in Hr'.
  - intros E. injection E as -> E.
    apply andb_prop in Ha as [_ Ha]. apply andb_prop in Hb as [_ Hb].
    by destruct (IH b Ha Hb Hr Hr' E) as [-> ->].
Qed.

Lemma dec_app_inj m n r r' :
  0 <= m -> 0 <= n -> starts_nondigit r = true -> starts_nondigit r' = true ->
  dec m +:+ r = dec n +:+ r' -> m = n /\ r = r'.
Proof.
  intros Hm Hn Hr Hr' E. apply digits_app_inj in E as [E ->]; [|auto using dec_digits..].
  split; [|done]. by apply dec_inj.
Qed.

Lemma indexOf_colon key rest :
  indexOf ":" key = None ->
  indexOf ":" (quoted key +:+ String ":"%char rest) = Some (S (S (String.length key))).
Proof.
  intros Hk. unfold quoted. rewrite !str_cons_app, indexOf_char.
  change (Ascii.eqb ":"%char quote) with false. cbn iota.
  enough (E : indexOf ":" ((key +:+ String quote EmptyString) +:+ String ":"%char rest)
    = Some (S (String.length key))) by by rewrite E.
  revert Hk. induction key as [|c k IH]; intros Hk; [done|].
  rewrite indexOf_char in Hk. rewrite !str_cons_app, indexOf_char.
  destruct (Ascii.eqb ":"%char c); [done|].
  destruct (indexOf ":" k); [done|]. by rewrite IH.
Qed.

(** The text up to and including the blanks before the digits. *)
Definition value_head (pre key blanks : string) : string :=
  pre +:+ (quoted key +:+ String ":"%char blanks).

(** Where the extractors look, for a body that holds the key. *)
Lemma locate_digits_spec pre key blanks ds rest :
  let body := pre +:+ (quoted key +:+ String ":"%char (blanks +:+ (ds +:+ rest))) in
  indexOf (quoted key) body = Some (String.length pre) ->
  indexOf ":" key = None ->
  span is_space_or_quote blanks = String.length blanks ->
  all_digits ds = true -> (0 < String.length ds)%nat ->
  starts_nondigit rest = true ->
  let n := String.length (value_head pre key blanks) in
  locate_digits body key = Some (n, (n + String.length ds)%nat) /\
  body = value_head pre key blanks +:+ (ds +:+ rest).
Proof.
  intros body Hi Hk Hb Hd Hlen Hr n.
  assert (Hs : body = value_head pre key blanks +:+ (ds +:+ rest)).
  { unfold body, value_head. by rewrite <- !str_app_assoc, !str_cons_app. }
  split; [|done].
  set (m := (String.length pre + S (S (S (String.length key))))%nat).
  assert (Hn : n = (m + String.length blanks)%nat).
  { unfold n, m, value_head, quoted. rewrite !str_length_app. simpl. rewrite str_length_app.
    simpl. lia. }
  assert (Hm : sdrop m body = blanks +:+ (ds +:+ rest)).
  { set (h := pre +:+ (quoted key +:+ ":")).
    replace body with (h +:+ (blanks +:+ (ds +:+ rest)))
      by (unfold h, body; by rewrite <- !str_app_assoc).
    replace m with (String.length h) by (unfold h, m, quoted; rewrite !str_length_app; simpl;
      rewrite str_length_app; simpl; lia). apply sdrop_app. }
  assert (Hdn : sdrop n body = ds +:+ rest) by (rewrite Hs; apply sdrop_app).
  assert (Hsp : span is_space_or_quote (ds +:+ rest) = O).
  { destruct ds as [|c ds]; [simpl in Hlen; lia|]. rewrite str_cons_app. simpl in Hd |- *.
    apply andb_prop in Hd as [Hc _].
    destruct (is_space_or_quote c) eqn:E; [|done]. exfalso. unfold is_space_or_quote in E.
    apply orb_prop in E as [E|E]; apply Ascii.eqb_eq in E; subst c; discriminate Hc. }
  unfold locate_digits. rewrite Hi. unfold indexOfFrom. unfold body at 1.
  rewrite sdrop_app, indexOf_colon by done.
  cbn [fmap option_fmap option_map]. cbv zeta.
  replace (S (String.length pre + S (S (String.length key)))) with m by (unfold m; lia).
  rewrite Hm, span_app, Hsp, Nat.add_0_r, <- Hn, Hdn by done.
  rewrite span_app, span_nondigit, Nat.add_0_r by (try done; by apply span_digits). done.
Qed.

Lemma extractLong_range s key : - 2 ^ 31 <= extractLong_ s key < 2 ^ 31.
Proof.
  unfold extractLong_. destruct (locate_digits s key) as [[a b]|]; [|lia].
  destruct (parseUint32Checked (Some s) a b); [|lia].
  unfold i32. pose proof (Z.mod_pos_bound (z + 2 ^ 31) (2 ^ 32)). lia.
Qed.

(** C38: the checked parsers agree with unbounded decimal reading on every
    non-empty range of every text: they return the number the characters
    denote if all of them are digits and it fits the result type, and fail
    otherwise, never a wrapped value; an empty range or a null pointer
    fails. *)
Theorem checked_parse_exact s start end_ :
  (end_ <= String.length s)%nat ->
  let ds := stake (end_ - start) (sdrop start s) in
  let ok := (start <? end_)%nat && all_digits ds in
  parseNonNegativeInt64Checked (Some s) start end_
    = (if ok && (dec_val 0 ds <=? INT64_MAX) then Some (dec_val 0 ds) else None) /\
  parseUint32Checked (Some s) start end_
    = (if ok && (dec_val 0 ds <=? UINT32_MAX) then Some (dec_val 0 ds) else None) /\
  parseNonNegativeInt64Checked None start end_ = None.
Proof.
  intros Hl ds ok.
  assert (E : parseNonNegativeInt64Checked (Some s) start end_
    = if ok && (dec_val 0 ds <=? INT64_MAX) then Some (dec_val 0 ds) else None).
  { unfold ok. destruct (Nat.ltb_spec start end_); [by apply parse_int64_spec|].
    unfold parseNonNegativeInt64Checked. by rewrite (proj2 (Nat.leb_le _ _)) by lia. }
  split; [done|]. split; [|done].
  unfold parseUint32Checked. rewrite E. destruct ok eqn:Ho; [|done]. cbn [andb].
  assert (0 <= dec_val 0 ds) by (apply dec_val_ge; [lia|unfold ok in Ho; by apply andb_prop in Ho as [_ ?]]).
  unfold INT64_MAX, UINT32_MAX.
  destruct (Z.leb_spec (dec_val 0 ds) (2 ^ 63 - 1)), (Z.leb_spec (dec_val 0 ds) (2 ^ 32 - 1)); try lia;
    [|by rewrite (proj2 (Z.ltb_lt _ _)) by lia|done].
  rewrite (proj2 (Z.ltb_ge _ _)) by lia. by rewrite u32_small by lia.
Qed.

Lemma checked_parse_exact_witness :
  parseUint32Checked (Some "id=4294967295;") 3 13 = Some 4294967295 /\
  parseUint32Checked (Some "id=4294967296;") 3 13 = None.
Proof.
  pose proof (checked_parse_exact "id=4294967295;" 3 13 ltac:(simpl; lia)) as (_ & E1 & _).
  pose proof (checked_parse_exact "id=4294967296;" 3 13 ltac:(simpl; lia)) as (_ & E2 & _).
  split; [rewrite E1|rewrite E2]; vm_compute; reflexivity.
Defined.

(** A field the server printed is read back.  In a body whose first
    occurrence of the quoted key is followed by a colon, optional blanks or a
    quote, and the decimal [n], extractInt64_ returns [n] up to INT64_MAX and
    extractLong_ returns [n] below 2^31; beyond those ranges they report a
    missing field, but from 2^31 to 2^32-1 extractLong_ does so only because
    the conversion to the 32-bit [long] turns the value negative. *)
Theorem extract_finds_value pre key blanks n rest :
  let body := pre +:+ (quoted key +:+ String ":"%char (blanks +:+ (dec n +:+ rest))) in
  indexOf (quoted key) body = Some (String.length pre) ->
  indexOf ":" key = None ->
  span is_space_or_quote blanks = String.length blanks ->
  0 <= n -> starts_nondigit rest = true ->
  extractInt64_ body key = (if n <=? INT64_MAX then Some n else None) /\
  (n < 2 ^ 31 -> extractLong_ body key = n) /\
  (2 ^ 31 <= n < 2 ^ 32 -> extractLong_ body key = n - 2 ^ 32) /\
  (2 ^ 32 <= n -> extractLong_ body key = -1).
Proof.
  intros body Hi Hk Hb Hn Hr.
  pose proof (locate_digits_spec pre key blanks (dec n) rest Hi Hk Hb (dec_digits n Hn)
    (dec_nonempty n) Hr) as (Hloc & Hbody).
  fold body in Hloc, Hbody. unfold extractInt64_, extractLong_. rewrite Hloc, Hbody.
  rewrite parse_int64_dec, parse_uint32_dec by done.
  split; [done|]. split; [|split]; intros.
  - rewrite (proj2 (Z.ltb_lt _ _)) by lia. apply i32_small. lia.
  - rewrite (proj2 (Z.ltb_lt _ _)) by lia. unfold i32.
    rewrite <- (Z.mod_unique (n + 2 ^ 31) (2 ^ 32) 1 (n - 2 ^ 31)) by lia. lia.
  - by rewrite (proj2 (Z.ltb_ge _ _)) by lia.
Qed.

Definition body_demo : string :=
  String quote ("ok" +:+ String quote (":1," +:+ (quoted "ack_seq" +:+ ": 3000000000}"))).

Lemma extract_finds_value_witness :
  extractLong_ body_demo "ack_seq" = 3000000000 - 2 ^ 32 /\
  extractInt64_ body_demo "ack_seq" = Some 3000000000.
Proof.
  pose proof (extract_finds_value (String quote ("ok" +:+ String quote ":1,")) "ack_seq" " "
    3000000000 "}" eq_refl eq_refl eq_refl ltac:(lia) eq_refl) as (E1 & _ & E2 & _).
  split; [apply E2; lia | apply E1].
Defined.
