(* ===== verification/Sensors.v ===== *)
(** * The pure sensor monitors

    sensor_ct.h, sensor_health.h, sensor_stuck.h and pulse_plausibility.h:
    four small classes driven by a sample and a 32-bit [millis()] reading.
    The theorems compare them with specifications over true, unbounded time,
    of which the code sees the value modulo 2^32. *)

From S2P Require Import Prelude Config.

(** ** Histories

    What the caller has passed so far, newest first, with the true time in
    milliseconds. *)

Definition history (A : Type) : Type := list (A * Z).

(** Times go up in steps of at most [g]. *)
Fixpoint paced {A} (g : Z) (h : history A) : Prop :=
  match h with
  | (_, t) :: (((_, t') :: _) as r) => 0 <= t - t' <= g /\ paced g r
  | _ => True
  end.

(** Since when the samples have been equal to the newest one. *)
Fixpoint run_start {A} `{EqDecision A} (h : history A) : Z :=
  match h with
  | (a, t) :: (((a', _) :: _) as r) => if decide (a = a') then run_start r else t
  | [(_, t)] => t
  | [] => 0
  end.

Lemma run_start_cons {A} `{EqDecision A} a t a' t' (r : history A) :
  run_start ((a, t) :: (a', t') :: r) = if decide (a = a') then run_start ((a', t') :: r) else t.
Proof. done. Qed.

Lemma run_start_le {A} `{EqDecision A} g a t (h : history A) :
  paced g ((a, t) :: h) -> run_start ((a, t) :: h) <= t.
Proof.
  revert a t. induction h as [|[a' t'] h IH]; intros a t; [simpl; lia|].
  intros [Ht Hp]. specialize (IH a' t' Hp). cbn [run_start] in *.
  destruct (decide (a = a')); [lia|lia].
Qed.

(** ** SensorCt (sensor_ct.h) *)

Module Ct.

Record SensorCt := {
  pulseHz_ : Z;
  debounceMs_ : Z;
  initialized_ : bool;
  stable_ : bool;
  candidate_ : bool;
  candidateSinceMs_ : Z;
  lastServiceMs_ : Z;
  fracMilliPulses_ : Z;
}.

Definition new (pulseHz debounceMs : Z) : SensorCt :=
  {| pulseHz_ := pulseHz; debounceMs_ := debounceMs; initialized_ := false;
     stable_ := false; candidate_ := false; candidateSinceMs_ := 0;
     lastServiceMs_ := 0; fracMilliPulses_ := 0 |}.

Definition service (rawActive : bool) (nowMs : Z) (s : SensorCt) : Z * SensorCt :=
  if negb (initialized_ s) then
    (0, {| pulseHz_ := pulseHz_ s; debounceMs_ := debounceMs_ s; initialized_ := true;
           stable_ := rawActive; candidate_ := rawActive; candidateSinceMs_ := nowMs;
           lastServiceMs_ := nowMs; fracMilliPulses_ := fracMilliPulses_ s |})
  else
    let elapsedMs := u32 (nowMs - lastServiceMs_ s) in
    let '(candidate, since) :=
      if negb (Bool.eqb rawActive (candidate_ s)) then (rawActive, nowMs)
      else (candidate_ s, candidateSinceMs_ s) in
    let stable :=
      if negb (Bool.eqb candidate (stable_ s)) && (debounceMs_ s <=? u32 (nowMs - since))
      then candidate else stable_ s in
    let mk frac :=
      {| pulseHz_ := pulseHz_ s; debounceMs_ := debounceMs_ s; initialized_ := true;
         stable_ := stable; candidate_ := candidate; candidateSinceMs_ := since;
         lastServiceMs_ := nowMs; fracMilliPulses_ := frac |} in
    if negb stable then (0, mk (fracMilliPulses_ s))
    else
      let frac := u64 (fracMilliPulses_ s + u64 (elapsedMs * pulseHz_ s)) in
      let whole := u32 (frac / 1000) in
      (whole, mk (u64 (frac - u64 (whole * 1000)))).

Definition active (s : SensorCt) : bool := stable_ s.

(** Specification: the level after debouncing, and how long it was active. *)
Fixpoint debounced (db : Z) (h : history bool) : bool :=
  match h with
  | [] => false
  | [(a, _)] => a
  | (a, t) :: r =>
      if negb (Bool.eqb a (debounced db r)) && (db <=? t - run_start h) then a
      else debounced db r
  end.

Fixpoint active_ms (db : Z) (h : history bool) : Z :=
  match h with
  | (_, t) :: (((_, t') :: _) as r) =>
      active_ms db r + (if debounced db h then t - t' else 0)
  | _ => 0
  end.

(** The calls of a history, oldest first, and the pulses they returned. *)
Fixpoint run (h : history bool) (s : SensorCt) : Z * SensorCt :=
  match h with
  | [] => (0, s)
  | (a, t) :: r =>
      let '(n, s) := run r s in
      let '(k, s) := service a (u32 t) s in (n + k, s)
  end.

(** State and pulse count after a history. *)
Definition tracks (hz db : Z) (h : history bool) (n : Z) (s : SensorCt) : Prop :=
  pulseHz_ s = hz /\ debounceMs_ s = db /\
  match h with
  | [] => s = new hz db /\ n = 0
  | (a, t) :: _ =>
      initialized_ s = true /\ stable_ s = debounced db h /\ candidate_ s = a /\
      candidateSinceMs_ s = u32 (run_start h) /\ lastServiceMs_ s = u32 t /\
      (a <> debounced db h -> t - run_start h < db) /\
      0 <= fracMilliPulses_ s < 1000 /\
      n * 1000 + fracMilliPulses_ s = hz * active_ms db h
  end.

Lemma integrate hz e frac :
  0 <= hz <= 1000 -> 0 <= e < 2 ^ 32 -> 0 <= frac < 1000 ->
  let f := u64 (frac + u64 (e * hz)) in
  let w := u32 (f / 1000) in
  f = frac + e * hz /\ w = f / 1000 /\ u64 (f - u64 (w * 1000)) = f - w * 1000 /\
  0 <= f - w * 1000 < 1000.
Proof.
  intros Hh He Hf f w.
  assert (0 <= e * hz <= (2 ^ 32 - 1) * 1000) by nia.
  assert (Ef : f = frac + e * hz) by (unfold f; rewrite (u64_small (e * hz)) by lia; apply u64_small; lia).
  assert (Ew : w = f / 1000).
  { unfold w. apply u32_small. split; [apply Z.div_pos; lia|].
    apply Z.div_lt_upper_bound; lia. }
  pose proof (Z.div_mod f 1000 ltac:(lia)). pose proof (Z.mod_pos_bound f 1000 ltac:(lia)).
  assert (0 <= w) by (rewrite Ew; apply Z.div_pos; lia).
  repeat split; [done|done| |lia|lia].
  rewrite (u64_small (w * 1000)) by lia. apply u64_small. lia.
Qed.

Lemma service_tracks hz db a t h n s :
  0 <= hz <= 1000 -> 0 <= db <= 2 ^ 31 -> paced (2 ^ 31 - 1) ((a, t) :: h) ->
  tracks hz db h n s ->
  let '(k, s') := service a (u32 t) s in tracks hz db ((a, t) :: h) (n + k) s'.
Proof.
  intros Hhz Hdb Hp (Eh & Ed & Ht). destruct h as [|[a' t'] r].
  { destruct Ht as [-> ->]. simpl. unfold tracks. simpl. repeat split; try done; lia. }
  destruct Ht as (Ei & Es & Ec & Ecs & El & Hlt & Hf & Hn).
  pose proof (run_start_le _ _ _ _ Hp) as Hrs. destruct Hp as [Hg Hp].
  pose proof (run_start_le _ _ _ _ Hp) as Hrs'.
  assert (Eel : u32 (u32 t - lastServiceMs_ s) = t - t').
  { rewrite El. replace t with (t' + (t - t')) at 1 by lia. apply u32_elapsed. lia. }
  unfold service. rewrite Ei, Eel. cbn [negb].
  (* the debounce clock *)
  set (h := (a, t) :: (a', t') :: r) in *.
  assert (Eclk : (if negb (Bool.eqb a (candidate_ s)) then (a, u32 t)
                  else (candidate_ s, candidateSinceMs_ s)) = (a, u32 (run_start h))).
  { rewrite Ec, Ecs. unfold h. rewrite run_start_cons. destruct (decide (a = a')) as [->|Hne].
    - by rewrite Bool.eqb_reflx.
    - by destruct a, a'. }
  rewrite Eclk, Ed, Es.
  (* the level *)
  assert (Edeb : debounced db h =
    if negb (Bool.eqb a (debounced db ((a', t') :: r))) && (db <=? t - run_start h) then a
    else debounced db ((a', t') :: r)) by done.
  assert (Est : (if negb (Bool.eqb a (debounced db ((a', t') :: r)))
                    && (db <=? u32 (u32 t - u32 (run_start h))) then a
                 else debounced db ((a', t') :: r)) = debounced db h).
  { rewrite Edeb. destruct (Bool.eqb a (debounced db ((a', t') :: r))) eqn:E; [done|].
    cbn [negb andb]. apply Bool.eqb_false_iff in E.
    assert (t - run_start h < 2 ^ 32).
    { unfold h. rewrite run_start_cons. destruct (decide (a = a')) as [->|]; [|lia].
      specialize (Hlt E). lia. }
    replace t with (run_start h + (t - run_start h)) at 1 by lia.
    by rewrite u32_elapsed by lia. }
  rewrite Est.
  assert (Hlate : a <> debounced db h -> t - run_start h < db).
  { rewrite Edeb. destruct (Bool.eqb a (debounced db ((a', t') :: r))) eqn:E; cbn [negb andb].
    - by apply Bool.eqb_prop in E.
    - destruct (Z.leb_spec db (t - run_start h)); [done|lia]. }
  clear Edeb.
  assert (Eact : active_ms db h =
    active_ms db ((a', t') :: r) + (if debounced db h then t - t' else 0)) by done.
  pose proof (integrate hz (t - t') (fracMilliPulses_ s) Hhz ltac:(lia) Hf)
    as (If & Iw & Ir & Ib).
  rewrite Eh. destruct (debounced db h) eqn:Edb; cbn [negb].
  - unfold tracks. cbn -[debounced active_ms run_start Z.mul u64 u32 Z.div].
    fold h. rewrite Edb, Eact, Ir. repeat split; try done; try lia.
  - unfold tracks. cbn -[debounced active_ms run_start Z.mul].
    fold h. rewrite Edb, Eact. repeat split; try done; lia.
Qed.

Lemma ct_run_tracks hz db h :
  0 <= hz <= 1000 -> 0 <= db <= 2 ^ 31 -> paced (2 ^ 31 - 1) h ->
  let '(n, s) := run h (new hz db) in tracks hz db h n s.
Proof.
  intros Hhz Hdb. induction h as [|[a t] h IH]; intros Hp; [done|].
  cbn [run]. destruct (run h (new hz db)) as [n s].
  pose proof (service_tracks hz db a t h n s Hhz Hdb Hp) as Hs.
  destruct (service a (u32 t) s) as [k s']. apply Hs, IH. destruct h as [|[] ?]; [done|apply Hp].
Qed.

(** C39: the CT adapter is the integral it claims to be: over any sequence of
    calls at most 2^31-1 ms apart, across wraps of the clock, its level is
    the debounced level and the pulses it returned are the whole part of
    pulseHz times the seconds of debounced-active time; nothing is lost to
    rounding, however long the gaps between calls. *)
Theorem ct_counts_active_time hz db h :
  0 <= hz <= 1000 -> 0 <= db <= 2 ^ 31 -> paced (2 ^ 31 - 1) h ->
  let '(n, s) := run h (new hz db) in
  active s = debounced db h /\ n = hz * active_ms db h / 1000.
Proof.
  intros Hhz Hdb Hp. pose proof (ct_run_tracks hz db h Hhz Hdb Hp) as Ht.
  destruct (run h (new hz db)) as [n s]. destruct Ht as (_ & _ & Ht).
  destruct h as [|[a t] r]; [destruct Ht as [-> ->]; by rewrite Z.mul_0_r|].
  destruct Ht as (_ & Es & _ & _ & _ & _ & Hf & Hn). split; [done|].
  apply (Z.div_unique_pos _ _ _ (fracMilliPulses_ s)); lia.
Qed.

(** A 3-second gap across the clock's wrap, with chatter. *)
Lemma ct_counts_active_time_witness :
  let h := [(true, 2 ^ 32 + 3000); (true, 2 ^ 32 - 50); (true, 2 ^ 32 - 200);
            (false, 2 ^ 32 - 300); (true, 2 ^ 32 - 310)] in
  let '(n, s) := run h (new CT_PULSE_HZ CT_DEBOUNCE_MS) in
  active s = true /\ n = 3.
Proof.
  pose proof (ct_counts_active_time CT_PULSE_HZ CT_DEBOUNCE_MS
    [(true, 2 ^ 32 + 3000); (true, 2 ^ 32 - 50); (true, 2 ^ 32 - 200);
     (false, 2 ^ 32 - 300); (true, 2 ^ 32 - 310)]
    ltac:(unfold CT_PULSE_HZ; lia) ltac:(unfold CT_DEBOUNCE_MS; lia)
    ltac:(simpl; lia)) as H.
  revert H. vm_compute. done.
Defined.

End Ct.

(** ** SensorStuckDetector (sensor_stuck.h) *)

Module Stuck.

Record SensorStuckDetector := {
  thresholdMs_ : Z;
  initialized_ : bool;
  lastTotal_ : Z;
  lastChangeMs_ : Z;
}.

Definition new (thresholdMs : Z) : SensorStuckDetector :=
  {| thresholdMs_ := thresholdMs; initialized_ := false; lastTotal_ := 0; lastChangeMs_ := 0 |}.

Definition elapsedSinceChange_ (nowMs : Z) (s : SensorStuckDetector) : Z :=
  u32 (nowMs - lastChangeMs_ s).

Definition update (total nowMs : Z) (s : SensorStuckDetector) : bool * SensorStuckDetector :=
  let s' := {| thresholdMs_ := thresholdMs_ s; initialized_ := true; lastTotal_ := total;
               lastChangeMs_ := nowMs |} in
  if negb (initialized_ s) then (false, s')
  else if negb (total =? lastTotal_ s) then (false, s')
  else (thresholdMs_ s <=? elapsedSinceChange_ nowMs s, s).

Definition isStuck (nowMs : Z) (s : SensorStuckDetector) : bool :=
  initialized_ s && (thresholdMs_ s <=? elapsedSinceChange_ nowMs s).

Definition msSinceLastChange (nowMs : Z) (s : SensorStuckDetector) : Z :=
  if initialized_ s then elapsedSinceChange_ nowMs s else 0.

Fixpoint run (h : history Z) (s : SensorStuckDetector) : SensorStuckDetector :=
  match h with
  | [] => s
  | (a, t) :: r => snd (update a (u32 t) (run r s))
  end.

Lemma stuck_run_state thr a t (h : history Z) :
  run ((a, t) :: h) (new thr)
  = {| thresholdMs_ := thr; initialized_ := true; lastTotal_ := a;
       lastChangeMs_ := u32 (run_start ((a, t) :: h)) |}.
Proof.
  revert a t. induction h as [|[a' t'] h IH]; intros a t; [done|].
  change (run ((a, t) :: (a', t') :: h) (new thr))
    with (snd (update a (u32 t) (run ((a', t') :: h) (new thr)))).
  rewrite IH, run_start_cons. unfold update. cbn -[run_start].
  destruct (decide (a = a')) as [->|Hne]; [by rewrite Z.eqb_refl|].
  by rewrite (proj2 (Z.eqb_neq _ _)).
Qed.

(** IsStuck() is exact up to the width of the clock: for an unchanged
    total since [run_start h] it is true at [now] if and only if the elapsed
    time modulo 2^32 ms reaches the threshold.  So an alarm is never early,
    it is raised from the threshold to 49.7 days; then it falls silent for
    as long as the threshold, over and over, with the sensor still stuck. *)
Theorem stuck_alarm_exact thr a t (h : history Z) now :
  0 < thr < 2 ^ 32 -> run_start ((a, t) :: h) <= now ->
  let d := now - run_start ((a, t) :: h) in
  let s := run ((a, t) :: h) (new thr) in
  msSinceLastChange (u32 now) s = d mod 2 ^ 32 /\
  isStuck (u32 now) s = (thr <=? d mod 2 ^ 32) /\
  (isStuck (u32 now) s = true -> thr <= d) /\
  (thr <= d < 2 ^ 32 -> isStuck (u32 now) s = true) /\
  (2 ^ 32 <= d < 2 ^ 32 + thr -> isStuck (u32 now) s = false).
Proof.
  intros Hthr Hnow d s. unfold s. rewrite stuck_run_state.
  unfold msSinceLastChange, isStuck, elapsedSinceChange_. cbn -[run_start u32].
  assert (E : u32 (u32 now - u32 (run_start ((a, t) :: h))) = d mod 2 ^ 32)
    by (unfold u32; by rewrite <- Zminus_mod).
  rewrite E. split; [done|]. split; [done|].
  assert (0 <= d) by (unfold d; lia).
  split; [|split].
  - intros ?%Z.leb_le. pose proof (Z.mod_le d (2 ^ 32)). lia.
  - intros. rewrite Z.mod_small by lia. apply Z.leb_le. lia.
  - intros. rewrite <- (Z.mod_unique d (2 ^ 32) 1 (d - 2 ^ 32)) by lia. apply Z.leb_gt. lia.
Qed.

(** 50 days without a pulse: the 48-hour alarm is off again. *)
Lemma stuck_alarm_exact_witness :
  isStuck (u32 (50 * 86400 * 1000)) (run [(7, 1000); (7, 0)] (new SENSOR_STUCK_THRESHOLD_MS))
  = false.
Proof.
  refine (proj2 (proj2 (proj2 (proj2 (stuck_alarm_exact SENSOR_STUCK_THRESHOLD_MS 7 1000
    [(7, 0)] (50 * 86400 * 1000) _ _)))) _); vm_compute; repeat split; congruence.
Defined.

End Stuck.

(** ** SensorHealthMonitor (sensor_health.h) *)

Module Health.

Inductive SensorHealthState :=
  SENSOR_HEALTH_STARTING | SENSOR_HEALTH_ACTIVE | SENSOR_HEALTH_IDLE | SENSOR_HEALTH_SUSPECT.
#[global] Instance SensorHealthState_eq_dec : EqDecision SensorHealthState.
Proof. solve_decision. Defined.

Definition sensorHealthStateStr (s : SensorHealthState) : string :=
  match s with
  | SENSOR_HEALTH_STARTING => "starting"
  | SENSOR_HEALTH_ACTIVE => "active"
  | SENSOR_HEALTH_IDLE => "idle"
  | SENSOR_HEALTH_SUSPECT => "suspect"
  end.

Record SensorHealthMonitor := {
  suspectThresholdMs_ : Z;
  initialized_ : bool;
  state_ : SensorHealthState;
  lastTotal_ : Z;
  lastPulseMs_ : Z;
}.

Definition new (suspectThresholdMs : Z) : SensorHealthMonitor :=
  {| suspectThresholdMs_ := suspectThresholdMs; initialized_ := false;
     state_ := SENSOR_HEALTH_STARTING; lastTotal_ := 0; lastPulseMs_ := 0 |}.

Definition ACTIVE_HOLD_MS : Z := 10000.

Definition setSuspectThresholdMs (v : Z) (s : SensorHealthMonitor) : SensorHealthMonitor :=
  {| suspectThresholdMs_ := v; initialized_ := initialized_ s; state_ := state_ s;
     lastTotal_ := lastTotal_ s; lastPulseMs_ := lastPulseMs_ s |}.

(** The returned state is the new [state_]. *)
Definition update (total nowMs : Z) (s : SensorHealthMonitor) : SensorHealthMonitor :=
  let pulse st :=
    {| suspectThresholdMs_ := suspectThresholdMs_ s; initialized_ := true; state_ := st;
       lastTotal_ := total; lastPulseMs_ := nowMs |} in
  let keep st :=
    {| suspectThresholdMs_ := suspectThresholdMs_ s; initialized_ := initialized_ s;
       state_ := st; lastTotal_ := lastTotal_ s; lastPulseMs_ := lastPulseMs_ s |} in
  if negb (initialized_ s) then pulse SENSOR_HEALTH_STARTING
  else if negb (total =? lastTotal_ s) then pulse SENSOR_HEALTH_ACTIVE
  else
    let gap := u32 (nowMs - lastPulseMs_ s) in
    if negb (suspectThresholdMs_ s =? 0) && (suspectThresholdMs_ s <=? gap)
    then keep SENSOR_HEALTH_SUSPECT
    else if ACTIVE_HOLD_MS <=? gap then keep SENSOR_HEALTH_IDLE
    else match state_ s with
         | SENSOR_HEALTH_STARTING => keep SENSOR_HEALTH_STARTING
         | _ => keep SENSOR_HEALTH_ACTIVE
         end.

Definition msSinceLastPulse (nowMs : Z) (s : SensorHealthMonitor) : Z :=
  if initialized_ s then u32 (nowMs - lastPulseMs_ s) else 0.

(** The main loop's cycle: reconfigure, then update. *)
Fixpoint run (thr : Z) (h : history Z) (s : SensorHealthMonitor) : SensorHealthMonitor :=
  match h with
  | [] => s
  | (a, t) :: r => update a (u32 t) (setSuspectThresholdMs thr (run thr r s))
  end.

(** Specification over the history; [gap32] is all a 32-bit clock shows. *)
Definition gap32 (h : history Z) : Z :=
  match h with (_, t) :: _ => (t - run_start h) mod 2 ^ 32 | [] => 0 end.

Fixpoint health_of (thr : Z) (h : history Z) : SensorHealthState :=
  match h with
  | (a, t) :: (((a', _) :: _) as r) =>
      if negb (a =? a') then SENSOR_HEALTH_ACTIVE
      else if negb (thr =? 0) && (thr <=? gap32 h) then SENSOR_HEALTH_SUSPECT
      else if ACTIVE_HOLD_MS <=? gap32 h then SENSOR_HEALTH_IDLE
      else if decide (health_of thr r = SENSOR_HEALTH_STARTING) then SENSOR_HEALTH_STARTING
      else SENSOR_HEALTH_ACTIVE
  | _ => SENSOR_HEALTH_STARTING
  end.

Lemma health_run_state thr a t (h : history Z) :
  run thr ((a, t) :: h) (new thr)
  = {| suspectThresholdMs_ := thr; initialized_ := true;
       state_ := health_of thr ((a, t) :: h); lastTotal_ := a;
       lastPulseMs_ := u32 (run_start ((a, t) :: h)) |}.
Proof.
  revert a t. induction h as [|[a' t'] h IH]; intros a t; [done|].
  change (run thr ((a, t) :: (a', t') :: h) (new thr))
    with (update a (u32 t) (setSuspectThresholdMs thr (run thr ((a', t') :: h) (new thr)))).
  rewrite IH. unfold update, setSuspectThresholdMs.
  cbn -[run_start health_of u32].
  change (health_of thr ((a, t) :: (a', t') :: h)) with
    (if negb (a =? a') then SENSOR_HEALTH_ACTIVE
     else if negb (thr =? 0) && (thr <=? gap32 ((a, t) :: (a', t') :: h))
     then SENSOR_HEALTH_SUSPECT
     else if ACTIVE_HOLD_MS <=? gap32 ((a, t) :: (a', t') :: h) then SENSOR_HEALTH_IDLE
     else if decide (health_of thr ((a', t') :: h) = SENSOR_HEALTH_STARTING)
     then SENSOR_HEALTH_STARTING else SENSOR_HEALTH_ACTIVE).
  unfold gap32. rewrite run_start_cons.
  destruct (Z.eqb_spec a a') as [->|Hne]; cbn [negb];
    [rewrite decide_True by done|by rewrite decide_False by done].
  assert (E : u32 (u32 t - u32 (run_start ((a', t') :: h)))
    = (t - run_start ((a', t') :: h)) mod 2 ^ 32) by (unfold u32; by rewrite <- Zminus_mod).
  rewrite E. case_match; [done|]. case_match; [done|].
  by destruct (health_of thr ((a', t') :: h)).
Qed.

(** The health state is the function [health_of] of the history.  SUSPECT
    never appears while the threshold is 0, nor before the total has really
    been unchanged for the threshold; it is shown from the threshold on for
    49.7 days; after that the clock's wrap makes a dead sensor look merely
    idle or even active.  A change of the total always shows ACTIVE at
    once. *)
Theorem health_state_exact thr a t a' t' (h : history Z) :
  0 <= thr < 2 ^ 32 -> paced (2 ^ 32) ((a, t) :: (a', t') :: h) ->
  let hist := (a, t) :: (a', t') :: h in
  let d := t - run_start hist in
  let st := state_ (run thr hist (new thr)) in
  st = health_of thr hist /\
  (a <> a' -> st = SENSOR_HEALTH_ACTIVE) /\
  (st = SENSOR_HEALTH_SUSPECT -> 0 < thr <= d) /\
  (a = a' -> 0 < thr <= d -> d < 2 ^ 32 -> st = SENSOR_HEALTH_SUSPECT) /\
  (2 ^ 32 <= d < 2 ^ 32 + thr -> st <> SENSOR_HEALTH_SUSPECT).
Proof.
  intros Hthr Hp hist d st. pose proof (run_start_le _ _ _ _ Hp).
  assert (Est : st = health_of thr hist) by (unfold st, hist; by rewrite health_run_state).
  assert (Hd : 0 <= d) by (unfold d, hist; lia).
  assert (Eg : gap32 hist = d mod 2 ^ 32) by done.
  split; [done|]. rewrite Est. clear st Est.
  assert (Eh : health_of thr hist =
    if negb (a =? a') then SENSOR_HEALTH_ACTIVE
    else if negb (thr =? 0) && (thr <=? gap32 hist) then SENSOR_HEALTH_SUSPECT
    else if ACTIVE_HOLD_MS <=? gap32 hist then SENSOR_HEALTH_IDLE
    else if decide (health_of thr ((a', t') :: h) = SENSOR_HEALTH_STARTING)
    then SENSOR_HEALTH_STARTING else SENSOR_HEALTH_ACTIVE) by done.
  rewrite Eh, Eg. clear Eh Eg. clearbody d. split; [|split; [|split]].
  - intros Hne. by rewrite (proj2 (Z.eqb_neq _ _)).
  - pose proof (Z.mod_le d (2 ^ 32) Hd ltac:(lia)). repeat case_match; intros; bool_prop; try done. lia.
  - intros -> Ht Hlt. rewrite Z.eqb_refl, Z.mod_small by lia. cbn [negb].
    by rewrite (proj2 (Z.eqb_neq thr 0)), (proj2 (Z.leb_le thr d)) by lia.
  - intros Hd'. rewrite <- (Z.mod_unique d (2 ^ 32) 1 (d - 2 ^ 32)) by lia.
    repeat case_match; bool_prop; try done; lia.
Qed.

Lemma health_state_exact_witness :
  state_ (run 60000 [(5, 61000); (5, 1000); (4, 0)] (new 60000)) = SENSOR_HEALTH_SUSPECT.
Proof.
  refine (proj1 (proj2 (proj2 (proj2 (health_state_exact 60000 5 61000 5 1000 [(4, 0)] _ _))))
    _ _ _); vm_compute; repeat split; congruence.
Defined.

End Health.

(** ** PulsePlausibilityMonitor (pulse_plausibility.h) *)

Module Plaus.

Record PulsePlausibilityMonitor := {
  maxHz_ : Z;
  initialized_ : bool;
  suspect_ : bool;
  lastTotal_ : Z;
  lastMs_ : Z;
  peakHz_ : Z;
  violations_ : Z;
  overStreak_ : Z;     (* uint8_t *)
  normalStreak_ : Z;   (* uint8_t *)
}.

Definition new (maxHz : Z) : PulsePlausibilityMonitor :=
  {| maxHz_ := maxHz; initialized_ := false; suspect_ := false; lastTotal_ := 0;
     lastMs_ := 0; peakHz_ := 0; violations_ := 0; overStreak_ := 0; normalStreak_ := 0 |}.

Definition setMaxHz (maxHz : Z) (s : PulsePlausibilityMonitor) : PulsePlausibilityMonitor :=
  {| maxHz_ := maxHz; initialized_ := initialized_ s;
     suspect_ := if maxHz =? 0 then false else suspect_ s;
     lastTotal_ := lastTotal_ s; lastMs_ := lastMs_ s; peakHz_ := peakHz_ s;
     violations_ := violations_ s; overStreak_ := 0; normalStreak_ := 0 |}.

(** The returned value is the new [suspect_]. *)
Definition update (total nowMs : Z) (s : PulsePlausibilityMonitor)
  : PulsePlausibilityMonitor :=
  let sample init susp peak viol over normal :=
    {| maxHz_ := maxHz_ s; initialized_ := init; suspect_ := susp; lastTotal_ := total;
       lastMs_ := nowMs; peakHz_ := peak; violations_ := viol; overStreak_ := over;
       normalStreak_ := normal |} in
  if negb (initialized_ s) then
    sample true (suspect_ s) (peakHz_ s) (violations_ s) (overStreak_ s) (normalStreak_ s)
  else
    let dtMs := u32 (nowMs - lastMs_ s) in
    if dtMs =? 0 then s
    else
      let delta := if lastTotal_ s <=? total then total - lastTotal_ s else 0 in
      let hz := u32 (u64 (delta * 1000) / dtMs) in
      let peak := if peakHz_ s <? hz then hz else peakHz_ s in
      if maxHz_ s =? 0 then
        sample true (suspect_ s) peak (violations_ s) (overStreak_ s) (normalStreak_ s)
      else if maxHz_ s <? hz then
        let over := u8 (overStreak_ s + 1) in
        sample true (if (3 <=? over) && negb (suspect_ s) then true else suspect_ s) peak
          (u32 (violations_ s + 1)) over 0
      else if suspect_ s then
        let normal := u8 (normalStreak_ s + 1) in
        sample true (if 5 <=? normal then false else true) peak (violations_ s) 0 normal
      else sample true false peak (violations_ s) 0 (normalStreak_ s).

(** Specification: which cycles were over the ceiling, newest first. *)
Definition rate (a t a' t' : Z) : Z := (if a' <=? a then a - a' else 0) * 1000 / (t - t').

Fixpoint overs (maxHz : Z) (h : history Z) : list bool :=
  match h with
  | (a, t) :: (((a', t') :: _) as r) => (maxHz <? rate a t a' t') :: overs maxHz r
  | _ => []
  end.

Fixpoint peak_rate (h : history Z) : Z :=
  match h with
  | (a, t) :: (((a', t') :: _) as r) => Z.max (peak_rate r) (rate a t a' t')
  | _ => 0
  end.

(** Five normal cycles in a row. *)
Definition calm (l : list bool) : Prop :=
  exists a b, l = a ++ [false; false; false; false; false] ++ b.

Fixpoint leading (b : bool) (l : list bool) : Z :=
  match l with x :: l => if Bool.eqb x b then 1 + leading b l else 0 | [] => 0 end.

Fixpoint flag (l : list bool) : bool :=
  match l with
  | [] => false
  | true :: r => flag r || (3 <=? leading true l)
  | false :: r => flag r && (leading false l <? 5)
  end.

Lemma leading_nonneg b l : 0 <= leading b l.
Proof. induction l as [|x l IH]; simpl; [lia|]. destruct (Bool.eqb x b); lia. Qed.

Lemma leading_true_flag l : 3 <= leading true l -> flag l = true.
Proof.
  destruct l as [|[] r]; cbn [leading flag]; [lia| |simpl; lia]. intros H.
  rewrite (proj2 (Z.leb_le _ _)), orb_true_r; done.
Qed.

Lemma flag_leading_false l : flag l = true -> leading false l < 5.
Proof.
  destruct l as [|[] r]; [done|intros _; simpl; lia|].
  cbn [flag]. intros [_ H]%andb_prop. by apply Z.ltb_lt in H.
Qed.

Lemma leading_app b l : 
  exists k r, l = repeat b k ++ r /\ Z.of_nat k = leading b l /\ head r <> Some b.
Proof.
  induction l as [|x l (k & r & -> & Hk & Hr)]; [by exists O, []|].
  cbn [leading]. destruct (Bool.eqb x b) eqn:E.
  - apply Bool.eqb_prop in E as ->. exists (S k), r. repeat split; [|done].
    rewrite <- Hk. lia.
  - exists O, (x :: repeat b k ++ r). repeat split. intros [= ->]. by rewrite Bool.eqb_reflx in E.
Qed.

Lemma leading_repeat b k r : Z.of_nat k <= leading b (repeat b k ++ r).
Proof.
  induction k as [|k IH]; [apply leading_nonneg|]. simpl. rewrite Bool.eqb_reflx. lia.
Qed.

(** [flag] is: a burst of three with no five calm cycles since. *)
Lemma flag_spec l :
  flag l = true <-> exists l1 l2, l = l1 ++ [true; true; true] ++ l2 /\ ~ calm l1.
Proof.
  induction l as [|x l IH].
  { split; [done|]. intros ([] & ? & ? & _); done. }
  destruct x; cbn [flag].
  - rewrite orb_true_iff, IH. split.
    + intros [(l1 & l2 & -> & Hc)|Hb].
      * exists (true :: l1), l2. split; [done|]. intros ([|[] a] & b & E); [done| |done].
        apply Hc. exists a, b. by injection E.
      * exists []. destruct (leading_app true (true :: l)) as (k & r' & E & Hk & _).
        apply Z.leb_le in Hb. destruct k as [|[|[|k]]]; try lia.
        exists (repeat true k ++ r'). split; [done|]. by intros ([] & b' & ?).
    + intros ([|y l1] & l2 & E & Hc).
      * right. injection E as ->. apply Z.leb_le. apply (leading_repeat true 3 l2).
      * left. injection E as <- ->. exists l1, l2. split; [done|]. intros (a & b & ->).
        apply Hc. by exists (true :: a), b.
  - rewrite andb_true_iff, IH, Z.ltb_lt. split.
    + intros [(l1 & l2 & -> & Hc) Hl]. exists (false :: l1), l2. split; [done|].
      intros ([|y a] & b & E).
      * rewrite app_comm_cons, E in Hl. rewrite <- !app_assoc in Hl.
        pose proof (leading_repeat false 5 (b ++ [true; true; true] ++ l2)). simpl in *. lia.
      * apply Hc. exists a, b. by injection E.
    + intros ([|y l1] & l2 & E & Hc); [done|]. injection E as <- ->.
      assert (Hc1 : ~ calm l1).
      { intros (a & b & ->). apply Hc. by exists (false :: a), b. }
      split; [by exists l1, l2|].
      destruct (leading_app false (false :: l1 ++ [true; true; true] ++ l2)) as (k & r & E & Hk & Hr).
      change (leading false (false :: l1 ++ [true; true; true] ++ l2) < 5).
      rewrite <- Hk. destruct (decide (Z.of_nat k < 5)) as [|Hge]; [done|]. exfalso. apply Hc.
      exists [], (drop 5 (false :: l1)). simpl.
      assert (Hlen : (k <= length (false :: l1))%nat).
      { destruct (decide (k <= length (false :: l1))%nat) as [|Hn]; [done|]. exfalso.
        apply (f_equal (lookup (length (false :: l1)))) in E.
        rewrite lookup_app_l in E by (rewrite repeat_length; lia).
        rewrite app_comm_cons, (lookup_app_r _ _ (length (false :: l1))), Nat.sub_diag in E by done.
        symmetry in E. apply list_elem_of_lookup_2, list_elem_of_In, repeat_spec in E. done. }
      assert (E5 : take 5 (false :: l1) = repeat false 5).
      { apply (f_equal (take 5)) in E.
        rewrite app_comm_cons, take_app_le in E by lia. rewrite E.
        rewrite take_app_le by (rewrite repeat_length; lia).
        do 5 (destruct k as [|k]; [lia|]). simpl. by rewrite take_0. }
      rewrite <- (take_drop 5 (false :: l1)) at 1. by rewrite E5.
Qed.

(** The calls of a history, newest first. *)
Fixpoint run (h : history Z) (s : PulsePlausibilityMonitor) : PulsePlausibilityMonitor :=
  match h with
  | [] => s
  | (a, t) :: r => update a (u32 t) (run r s)
  end.

(** The main loop's cycle: reconfigure, then update. *)
Fixpoint run_cfg (maxHz : Z) (h : history Z) (s : PulsePlausibilityMonitor)
  : PulsePlausibilityMonitor :=
  match h with
  | [] => s
  | (a, t) :: r => update a (u32 t) (setMaxHz maxHz (run_cfg maxHz r s))
  end.

(** Every cycle takes some time and sees at most 2^22 new pulses. *)
Fixpoint cycles_ok (h : history Z) : Prop :=
  match h with
  | (a, t) :: (((a', t') :: _) as r) =>
      0 < t - t' < 2 ^ 32 /\ a - a' <= 2 ^ 22 /\ cycles_ok r
  | _ => True
  end.

Lemma rate_range a t a' t' :
  0 < t - t' -> a - a' <= 2 ^ 22 -> 0 <= rate a t a' t' < 2 ^ 32.
Proof.
  intros Ht Ha. unfold rate. set (d := if a' <=? a then a - a' else 0).
  assert (0 <= d <= 2 ^ 22) by (unfold d; destruct (Z.leb_spec a' a); lia).
  split; [apply Z.div_pos; lia|]. apply Z.div_lt_upper_bound; nia.
Qed.

(** One counted cycle. *)
Lemma update_sample s a t a' t' :
  initialized_ s = true -> lastTotal_ s = a' -> lastMs_ s = u32 t' ->
  0 < t - t' < 2 ^ 32 -> a - a' <= 2 ^ 22 ->
  let hz := rate a t a' t' in
  let over := maxHz_ s <? hz in
  let n := u8 (normalStreak_ s + 1) in
  update a (u32 t) s =
  {| maxHz_ := maxHz_ s; initialized_ := true;
     suspect_ := if maxHz_ s =? 0 then suspect_ s
                 else if over then suspect_ s || (3 <=? u8 (overStreak_ s + 1))
                 else suspect_ s && (n <? 5);
     lastTotal_ := a; lastMs_ := u32 t; peakHz_ := Z.max (peakHz_ s) hz;
     violations_ := if maxHz_ s =? 0 then violations_ s
                    else if over then u32 (violations_ s + 1) else violations_ s;
     overStreak_ := if maxHz_ s =? 0 then overStreak_ s
                    else if over then u8 (overStreak_ s + 1) else 0;
     normalStreak_ := if maxHz_ s =? 0 then normalStreak_ s
                      else if over then 0
                      else if suspect_ s then n else normalStreak_ s |}.
Proof.
  intros Ei Et Em Ht Ha hz over n. pose proof (rate_range a t a' t' ltac:(lia) Ha) as Hr.
  unfold update. rewrite Ei, Et, Em. cbn [negb].
  replace (u32 (u32 t - u32 t')) with (t - t')
    by (replace t with (t' + (t - t')) at 2 by lia; by rewrite u32_elapsed by lia).
  rewrite (proj2 (Z.eqb_neq _ _)) by lia.
  assert (Eh : u32 (u64 ((if a' <=? a then a - a' else 0) * 1000) / (t - t')) = hz).
  { rewrite u64_small by (destruct (Z.leb_spec a' a); lia). by apply u32_small. }
  rewrite Eh.
  assert (Ep : (if peakHz_ s <? hz then hz else peakHz_ s) = Z.max (peakHz_ s) hz)
    by (destruct (Z.ltb_spec (peakHz_ s) hz); lia).
  rewrite Ep. fold over. destruct (maxHz_ s =? 0); [done|].
  destruct over.
  - f_equal. by destruct (suspect_ s), (3 <=? u8 (overStreak_ s + 1)).
  - fold n. destruct (suspect_ s); [|done]. f_equal. rewrite Z.leb_antisym.
    by destruct (n <? 5).
Qed.

(** What the fields hold after a history. *)
Definition tracks (maxHz : Z) (h : history Z) (s : PulsePlausibilityMonitor) : Prop :=
  maxHz_ s = maxHz /\
  match h with
  | [] => s = new maxHz
  | (a, t) :: _ =>
      let os := overs maxHz h in
      initialized_ s = true /\ lastTotal_ s = a /\ lastMs_ s = u32 t /\
      suspect_ s = flag os /\ peakHz_ s = peak_rate h /\
      violations_ s = u32 (Z.of_nat (length (List.filter id os))) /\
      overStreak_ s = u8 (leading true os) /\
      (suspect_ s = true -> normalStreak_ s = leading false os)
  end.

Lemma u8_succ z : u8 (u8 z + 1) = u8 (z + 1).
Proof. unfold u8. by rewrite Zplus_mod_idemp_l. Qed.

Lemma u32_succ z : u32 (u32 z + 1) = u32 (z + 1).
Proof. unfold u32. by rewrite Zplus_mod_idemp_l. Qed.

(** The byte-wide streak crosses 3 exactly when the true one does. *)
Lemma over_streak_byte r :
  flag r || (3 <=? u8 (leading true (true :: r))) = flag (true :: r).
Proof.
  cbn [flag]. destruct (flag r) eqn:E; [done|]. cbn [orb].
  assert (H : leading true r < 3).
  { destruct (Z.lt_ge_cases (leading true r) 3) as [|H]; [done|].
    apply leading_true_flag in H. congruence. }
  pose proof (leading_nonneg true r). f_equal. cbn [leading Bool.eqb].
  unfold u8. apply Z.mod_small. lia.
Qed.

Lemma plaus_run_tracks maxHz h : 0 < maxHz -> cycles_ok h -> tracks maxHz h (run h (new maxHz)).
Proof.
  intros Hm. induction h as [|[a t] h IH]; [done|].
  destruct h as [|[a' t'] r]; [done|]. intros (Ht & Ha & Hok).
  change (run ((a, t) :: (a', t') :: r) (new maxHz))
    with (update a (u32 t) (run ((a', t') :: r) (new maxHz))).
  destruct (IH Hok) as (Em & Ei & El & Ec & Es & Ep & Ev & Eo & En).
  set (s := run ((a', t') :: r) (new maxHz)) in *. clearbody s.
  rewrite (update_sample s a t a' t' Ei El Ec Ht Ha).
  unfold tracks. cbn -[overs flag peak_rate leading u32 u8 Z.max].
  change (overs maxHz ((a, t) :: (a', t') :: r))
    with ((maxHz <? rate a t a' t') :: overs maxHz ((a', t') :: r)).
  rewrite Em. assert (E0 : (maxHz =? 0) = false) by (apply Z.eqb_neq; lia).
  rewrite E0, Ep, Es, Ev, Eo. set (os := overs maxHz ((a', t') :: r)) in *. clearbody os.
  destruct (maxHz <? rate a t a' t') eqn:Eov.
  - rewrite u8_succ, u32_succ. repeat split; try done.
    + rewrite <- over_streak_byte. cbn [leading Bool.eqb]. by rewrite Z.add_comm.
    + simpl List.filter. cbn [id length]. f_equal. lia.
    + cbn [leading Bool.eqb]. f_equal. lia.
  - assert (Hn : flag os = true -> u8 (normalStreak_ s + 1) = leading false (false :: os)).
    { intros Hf. rewrite En by (by rewrite Es). pose proof (flag_leading_false os Hf).
      pose proof (leading_nonneg false os). cbn [leading Bool.eqb]. unfold u8.
      rewrite Z.mod_small by lia. lia. }
    repeat split; try done.
    + cbn [flag]. destruct (flag os) eqn:Hf; [|done]. by rewrite Hn.
    + destruct (flag os) eqn:Hf; [|done]. intros _. by apply Hn.
Qed.

(** C40: the flag has the hysteresis the header promises.  Between two
    reconfigurations, suspect() is true exactly when some three consecutive
    cycles exceeded the ceiling and no five consecutive cycles since then
    were normal, for runs of any length although the streak counters are
    bytes; the peak is the largest rate seen and every violation is
    counted. *)
Theorem plausibility_hysteresis maxHz a t (h : history Z) :
  0 < maxHz -> cycles_ok ((a, t) :: h) ->
  let s := run ((a, t) :: h) (new maxHz) in
  let os := overs maxHz ((a, t) :: h) in
  (suspect_ s = true <-> exists l1 l2, os = l1 ++ [true; true; true] ++ l2 /\ ~ calm l1) /\
  peakHz_ s = peak_rate ((a, t) :: h) /\
  violations_ s = u32 (Z.of_nat (length (List.filter id os))).
Proof.
  intros Hm Hok s os. destruct (plaus_run_tracks maxHz ((a, t) :: h) Hm Hok)
    as (_ & _ & _ & _ & Es & Ep & Ev & _).
  fold s in Es, Ep, Ev. fold os in Es, Ev. split; [|done]. rewrite Es. apply flag_spec.
Qed.

Definition fast_demo : history Z := [(40, 4000); (30, 3000); (20, 2000); (10, 1000); (0, 0)].

Lemma plausibility_hysteresis_witness : suspect_ (run fast_demo (new 5)) = true.
Proof.
  apply (proj1 (plausibility_hysteresis 5 40 4000
    [(30, 3000); (20, 2000); (10, 1000); (0, 0)] ltac:(lia) ltac:(simpl; lia))).
  exists [], [true]. split; [vm_compute; reflexivity|]. by intros ([] & ? & ?).
Defined.

(** With the main loop's cycle, which calls setMaxHz() with the stored
    ceiling before every update(), the streak never gets past 1: whatever
    the rates, suspect() stays false, so QUALITY_SUSPECT_RATE is never
    set. *)
Theorem reconfigured_monitor_never_flags maxHz (h : history Z) :
  suspect_ (run_cfg maxHz h (new maxHz)) = false.
Proof.
  induction h as [|[a t] h IH]; [done|]. cbn [run_cfg].
  set (s := setMaxHz maxHz (run_cfg maxHz h (new maxHz))).
  assert (Es : suspect_ s = false) by (unfold s; simpl; by destruct (maxHz =? 0)).
  assert (Eo : overStreak_ s = 0) by done.
  clearbody s. unfold update. rewrite Eo, Es. change (3 <=? u8 (0 + 1)) with false.
  repeat case_match; simpl; try done; congruence.
Qed.

End Plaus.

(** ** The bench square wave (covio_firmware.ino, SIM_PULSES) *)

Module Sim.

(** The static [tSim] and the level of PIN_SIM. *)
Record Sim := { tSim : Z; level : bool }.

Definition SIM_HALF_PERIOD_MS : Z := 1000 / (SIM_HZ * 2).

Definition service (now : Z) (s : Sim) : Sim :=
  if SIM_HALF_PERIOD_MS <=? u32 (now - tSim s) then {| tSim := now; level := negb (level s) |} else s.

(** The rising edges a run of iterations at [nows] makes. *)
Fixpoint edges (nows : list Z) (s : Sim) : Z :=
  match nows with
  | [] => 0
  | now :: nows =>
      let s' := service now s in
      (if negb (level s) && level s' then 1 else 0) + edges nows s'
  end.

(** Readings from [t] to [T], before the clock wraps. *)
Fixpoint ascending (t T : Z) (nows : list Z) : Prop :=
  match nows with [] => t <= T | now :: nows => t <= now < 2 ^ 32 /\ ascending now T nows end.

(** The wave never runs faster than SIM_HZ, however the iterations fall. *)
Lemma rate_bounded nows s t T :
  0 <= tSim s <= t -> ascending t T nows ->
  1000 * edges nows s <= SIM_HZ * (T - tSim s + if level s then 0 else SIM_HALF_PERIOD_MS).
Proof.
  change SIM_HALF_PERIOD_MS with 50. unfold SIM_HZ. revert s t.
  induction nows as [|now nows IH]; intros s t Ht Ha; cbn [edges ascending] in *.
  { destruct (level s); lia. }
  destruct Ha as [Hn Ha]. unfold service. change SIM_HALF_PERIOD_MS with 50.
  rewrite u32_small by lia. destruct (Z.leb_spec 50 (now - tSim s)).
  - specialize (IH {| tSim := now; level := negb (level s) |} now). cbn [tSim level] in *.
    specialize (IH ltac:(lia) Ha). destruct (level s); simpl in *; lia.
  - specialize (IH s now ltac:(lia) Ha). destruct (level s); simpl in *; lia.
Qed.
End Sim.
