(* ===== verification/Boot.v ===== *)
(** * Boot decisions and names

    reset_reason.h, boot_health.h and credential_display.h: three pure
    tables. *)

From S2P Require Import Prelude Arduino.

(** ** reset_reason.h *)

(** ESP-IDF's [esp_reset_reason_t], as its numeric value. *)
Definition ESP_RST_UNKNOWN : Z := 0.
Definition ESP_RST_POWERON : Z := 1.
Definition ESP_RST_EXT : Z := 2.
Definition ESP_RST_SW : Z := 3.
Definition ESP_RST_PANIC : Z := 4.
Definition ESP_RST_INT_WDT : Z := 5.
Definition ESP_RST_TASK_WDT : Z := 6.
Definition ESP_RST_WDT : Z := 7.
Definition ESP_RST_DEEPSLEEP : Z := 8.
Definition ESP_RST_BROWNOUT : Z := 9.
Definition ESP_RST_SDIO : Z := 10.

(** [case ESP_RST_INT_WDT: case ESP_RST_TASK_WDT: case ESP_RST_WDT:] *)
Definition is_wdt (r : Z) : bool :=
  (r =? ESP_RST_INT_WDT) || (r =? ESP_RST_TASK_WDT) || (r =? ESP_RST_WDT).

Definition resetReasonName (r : Z) : option string :=
  if r =? ESP_RST_POWERON then Some "power_on"
  else if r =? ESP_RST_EXT then Some "external_pin"
  else if r =? ESP_RST_SW then Some "software"
  else if r =? ESP_RST_PANIC then Some "panic"
  else if is_wdt r then Some "watchdog"
  else if r =? ESP_RST_BROWNOUT then Some "brownout"
  else if r =? ESP_RST_DEEPSLEEP then Some "deepsleep"
  else None.

Definition resetReasonIsPowerLoss (r : Z) : bool :=
  (r =? ESP_RST_POWERON) || (r =? ESP_RST_BROWNOUT).

(** How both consumers (telemetry.h, diagnostics.h) print it. *)
Definition reset_reason_text (r : Z) : string :=
  match resetReasonName r with
  | Some name => name
  | None => "unknown(" +:+ (dec_signed r +:+ ")")
  end.

(** ** boot_health.h *)

Definition isBootOnTrial (lastConfirmedVersion : string) (lastConfirmedSecVer : Z)
    (runningVersion : string) (runningSecVer : Z) : bool :=
  negb (String.eqb lastConfirmedVersion runningVersion)
  || negb (lastConfirmedSecVer =? runningSecVer).

(** ** credential_display.h *)

Inductive CredentialDisplayStatus :=
  CRED_STATUS_MISSING | CRED_STATUS_DEFAULT | CRED_STATUS_CONFIGURED.

Definition credentialDisplayStatusStr (s : CredentialDisplayStatus) : string :=
  match s with
  | CRED_STATUS_MISSING => "missing"
  | CRED_STATUS_DEFAULT => "default"
  | CRED_STATUS_CONFIGURED => "configured"
  end.

(** The [while] loop, and the test after it that both ends were reached. *)
Fixpoint same_to_end (a b : string) : bool :=
  match a, b with
  | String x a', String y b' => if Ascii.eqb x y then same_to_end a' b' else false
  | EmptyString, EmptyString => true
  | _, _ => false
  end.

(** [None] is a null pointer. *)
Definition classifyCredential (key defaultKey : option string) : CredentialDisplayStatus :=
  match key with
  | None | Some EmptyString => CRED_STATUS_MISSING
  | Some a =>
      match defaultKey with
      | Some b => if same_to_end a b then CRED_STATUS_DEFAULT else CRED_STATUS_CONFIGURED
      | None => CRED_STATUS_CONFIGURED
      end
  end.

(** ** Correctness *)

Lemma same_to_end_eq a b : same_to_end a b = String.eqb a b.
Proof.
  revert b. induction a as [|x a IH]; intros [|y b]; [done..|].
  simpl. destruct (Ascii.eqb x y); [apply IH|done].
Qed.

Lemma resetReasonName_inj r r' n :
  resetReasonName r = Some n -> resetReasonName r' = Some n ->
  r = r' \/ (is_wdt r = true /\ is_wdt r' = true).
Proof.
  intros E E'. assert (Ee : resetReasonName r = resetReasonName r') by congruence.
  assert (Hn : resetReasonName r <> None) by congruence. clear E E'. revert Ee Hn.
  unfold resetReasonName. repeat case_match; intros; bool_prop; try discriminate; try done;
    try (by right); left; lia.
Qed.

Lemma resetReasonName_no_paren r n : resetReasonName r = Some n -> starts_with "unknown(" n = false.
Proof. unfold resetReasonName. repeat case_match; intros; simplify_eq; done. Qed.

(** The text sent for a reset cause identifies it: two causes print alike
    only if they are equal or both watchdog causes, whatever numbers a future
    ESP-IDF adds.  In particular no unmapped cause can pass for a power cut:
    the text is power_on or brownout exactly when resetReasonIsPowerLoss
    holds. *)
Theorem reset_reason_text_faithful r r' :
  (reset_reason_text r = reset_reason_text r' -> r = r' \/ (is_wdt r = true /\ is_wdt r' = true)) /\
  (resetReasonIsPowerLoss r = true <->
   reset_reason_text r = "power_on" \/ reset_reason_text r = "brownout").
Proof.
  assert (Hn : forall r n, resetReasonName r = Some n ->
    forall t, n <> "unknown(" +:+ t).
  { intros r0 n E t ->. apply resetReasonName_no_paren in E. by rewrite starts_with_app in E. }
  split.
  - unfold reset_reason_text.
    destruct (resetReasonName r) as [n|] eqn:E, (resetReasonName r') as [n'|] eqn:E'.
    + intros ->. by apply (resetReasonName_inj r r' n').
    + intros ->. by edestruct (Hn _ _ E).
    + intros <-. by edestruct (Hn _ _ E').
    + intros Ht. left. apply (str_app_inj "unknown(" "unknown(") in Ht as [_ Ht]; [|done].
      by apply str_app_inj_r, dec_signed_inj in Ht.
  - assert (Hr : forall c m, resetReasonName c = Some m -> is_wdt c = false ->
      (reset_reason_text r = m <-> r = c)).
    { intros c m Ec Hc. unfold reset_reason_text. split; [|intros ->; by rewrite Ec].
      destruct (resetReasonName r) as [n|] eqn:E.
      - intros ->. destruct (resetReasonName_inj r c m E Ec) as [|[_ ?]]; congruence.
      - intros <-. by edestruct (Hn _ _ Ec). }
    rewrite (Hr ESP_RST_POWERON "power_on"), (Hr ESP_RST_BROWNOUT "brownout") by done.
    unfold resetReasonIsPowerLoss. rewrite orb_true_iff, !Z.eqb_eq. done.
Qed.

(** ClassifyCredential's byte loop decides string equality: missing for
    no key or an empty one, default exactly for the default key, configured
    for every other. *)
Theorem classify_credential_exact (key : option string) (d : string) :
  d <> EmptyString ->
  (classifyCredential key (Some d) = CRED_STATUS_MISSING <-> key = None \/ key = Some EmptyString) /\
  (classifyCredential key (Some d) = CRED_STATUS_DEFAULT <-> key = Some d).
Proof.
  intros Hd. destruct key as [[|x k]|]; simpl; [naive_solver| |naive_solver].
  destruct d as [|y d]; [done|]. change (if Ascii.eqb x y then same_to_end k d else false)
    with (same_to_end (String x k) (String y d)).
  rewrite same_to_end_eq. destruct (String.eqb_spec (String x k) (String y d)); naive_solver.
Qed.

Lemma classify_credential_exact_witness :
  classifyCredential (Some "dev-key-change-me") (Some "dev-key-change-me") = CRED_STATUS_DEFAULT.
Proof.
  apply (proj2 (proj2 (classify_credential_exact (Some "dev-key-change-me") "dev-key-change-me"
    ltac:(discriminate)))). reflexivity.
Defined.
