(* ===== verification/Store.v ===== *)
(** * NVS configuration and identity (store.h, nvs_keys.h)

    [Preferences] is the Arduino-ESP32 NVS library: a parameter, typed cells
    addressed by namespace and key, with its documented behaviour in
    [PreferencesLaws].  [MemNvs] instantiates it.  The methods of class Store
    read and write the flash [N]; [bootId_] is the class's only other state.
    [unsigned long] is 32 bits on the target. *)

From S2P Require Import Prelude Config Arduino.

(** ** The NVS library *)

(** The typed accessors getString, getUInt, getULong, getFloat, getBool. *)
Inductive pref_type := TString | TUInt | TULong | TFloat | TBool.
Definition pref_val (t : pref_type) : Type :=
  match t with TString => string | TUInt => Z | TULong => Z | TFloat => f32 | TBool => bool end.

Class Preferences (N : Type) := {
  pref_isKey : string -> string -> N -> bool;
  pref_get : forall t, string -> string -> pref_val t -> N -> pref_val t;
  pref_put : forall t, string -> string -> pref_val t -> N -> N;
  pref_clear : string -> N -> N;
  (* the partition has room and takes writes *)
  pref_writable : N -> Prop;
}.

(** The library's limit on names (NVS_KEY_NAME_MAX_SIZE - 1). *)
Definition NVS_KEY_MAX_LEN : nat := 15.
Definition NVS_KEY_FITS (lit : string) : bool := (String.length lit <=? NVS_KEY_MAX_LEN)%nat.

Class PreferencesLaws (N : Type) `{Preferences N} := {
  pref_put_writable t ns k v n : pref_writable n -> pref_writable (pref_put t ns k v n);
  pref_clear_writable ns n : pref_writable n -> pref_writable (pref_clear ns n);
  pref_get_put t ns k d v n :
    pref_writable n -> NVS_KEY_FITS ns = true -> NVS_KEY_FITS k = true ->
    pref_get t ns k d (pref_put t ns k v n) = v;
  pref_isKey_put t ns k v n :
    pref_writable n -> NVS_KEY_FITS ns = true -> NVS_KEY_FITS k = true ->
    pref_isKey ns k (pref_put t ns k v n) = true;
  pref_put_other t t' ns k ns' k' d v n :
    (ns, k) <> (ns', k') -> pref_get t' ns' k' d (pref_put t ns k v n) = pref_get t' ns' k' d n;
  pref_isKey_put_other t ns k ns' k' v n :
    (ns, k) <> (ns', k') -> pref_isKey ns' k' (pref_put t ns k v n) = pref_isKey ns' k' n;
  (* KEY_TOO_LONG: logged, nothing written *)
  pref_put_too_long t ns k v n : NVS_KEY_FITS k = false -> pref_put t ns k v n = n;
  pref_get_clear t ns k d n : pref_writable n -> pref_get t ns k d (pref_clear ns n) = d;
  pref_isKey_clear ns k n : pref_writable n -> pref_isKey ns k (pref_clear ns n) = false;
  pref_get_clear_other t ns ns' k d n :
    ns <> ns' -> pref_get t ns' k d (pref_clear ns n) = pref_get t ns' k d n;
}.

(** ** The key registry (nvs_keys.h) *)

Definition NVS_KEY_SEEDED : string := "seeded".
Definition NVS_KEY_SERVER_URL : string := "server_url".
Definition NVS_KEY_API_KEY : string := "api_key".
Definition NVS_KEY_WIFI_SSID : string := "wifi_ssid".
Definition NVS_KEY_WIFI_PASS : string := "wifi_pass".
Definition NVS_KEY_CFG_VER : string := "cfg_ver".
Definition NVS_KEY_BOOT_ID : string := "boot_id".
Definition NVS_KEY_RESTART_CNT : string := "restart_cnt".
Definition NVS_KEY_LOGICAL_ID : string := "logical_id".
Definition NVS_KEY_KFACTOR : string := "kfactor".
Definition NVS_KEY_DENSITY : string := "density".
Definition NVS_KEY_TREF : string := "tref".
Definition NVS_KEY_WDT_CNT : string := "wdt_cnt".
Definition NVS_KEY_BOD_CNT : string := "bod_cnt".
Definition NVS_KEY_PUSHFAIL_CNT : string := "pushfail_cnt".
Definition NVS_KEY_WIFIRECON_CNT : string := "wifirecon_cnt".
Definition NVS_KEY_CRASH_STREAK : string := "crash_streak".
Definition NVS_KEY_MW_MAX_HZ : string := "mw_max_hz".
Definition NVS_KEY_MW_SUSPECT_S : string := "mw_suspect_s".
Definition NVS_KEY_SEC_VER : string := "sec_ver".
Definition NVS_KEY_LAST_OK_VER : string := "last_ok_ver".
Definition NVS_KEY_LAST_OK_SECVER : string := "last_ok_secver".
Definition NVS_KEY_UNHEALTHY_STRK : string := "unhealthy_strk".

Definition kNvsKeyRegistry : list (string * string) :=
  [(NVS_NS, NVS_KEY_SEEDED); (NVS_NS, NVS_KEY_SERVER_URL); (NVS_NS, NVS_KEY_API_KEY);
   (NVS_NS, NVS_KEY_WIFI_SSID); (NVS_NS, NVS_KEY_WIFI_PASS); (NVS_NS, NVS_KEY_CFG_VER);
   (NVS_NS, NVS_KEY_BOOT_ID); (NVS_NS, NVS_KEY_RESTART_CNT); (NVS_NS, NVS_KEY_LOGICAL_ID);
   (NVS_NS, NVS_KEY_KFACTOR); (NVS_NS, NVS_KEY_DENSITY); (NVS_NS, NVS_KEY_TREF);
   (NVS_NS, NVS_KEY_WDT_CNT); (NVS_NS, NVS_KEY_BOD_CNT); (NVS_NS, NVS_KEY_PUSHFAIL_CNT);
   (NVS_NS, NVS_KEY_WIFIRECON_CNT); (NVS_NS, NVS_KEY_CRASH_STREAK);
   (NVS_NS, NVS_KEY_MW_MAX_HZ); (NVS_NS, NVS_KEY_MW_SUSPECT_S);
   (NVS_NS_SECURITY, NVS_KEY_SEC_VER); (NVS_NS_SECURITY, NVS_KEY_LAST_OK_VER);
   (NVS_NS_SECURITY, NVS_KEY_LAST_OK_SECVER); (NVS_NS_SECURITY, NVS_KEY_UNHEALTHY_STRK)].

(** The static_asserts of nvs_keys.h. *)
Definition nvs_static_asserts : bool :=
  NVS_KEY_FITS NVS_NS && NVS_KEY_FITS NVS_NS_SECURITY &&
  forallb (fun e => NVS_KEY_FITS (snd e)) kNvsKeyRegistry.

(** ** class Store *)

Module St.

Record Store := { bootId_ : Z }.
Definition new_store : Store := {| bootId_ := 0 |}.

Section methods.
Context {N : Type} `{Preferences N}.

(* p_ is the "covio" namespace, p_sec_ the "covio_sec" one *)
Definition p_get (t : pref_type) (k : string) (d : pref_val t) (n : N) : pref_val t :=
  pref_get t NVS_NS k d n.
Definition p_put (t : pref_type) (k : string) (v : pref_val t) (n : N) : N :=
  pref_put t NVS_NS k v n.
Definition s_get (t : pref_type) (k : string) (d : pref_val t) (n : N) : pref_val t :=
  pref_get t NVS_NS_SECURITY k d n.
Definition s_put (t : pref_type) (k : string) (v : pref_val t) (n : N) : N :=
  pref_put t NVS_NS_SECURITY k v n.

Definition begin (bd : Build) (n : N) : Store * N :=
  let n :=
    if negb (pref_isKey NVS_NS NVS_KEY_SEEDED n) then
      let n := p_put TString NVS_KEY_SERVER_URL (DEFAULT_SERVER_URL bd) n in
      let n := p_put TString NVS_KEY_API_KEY DEFAULT_API_KEY n in
      let n := p_put TString NVS_KEY_WIFI_SSID DEFAULT_WIFI_SSID n in
      let n := p_put TString NVS_KEY_WIFI_PASS DEFAULT_WIFI_PASS n in
      let n := p_put TUInt NVS_KEY_CFG_VER 0 n in
      let n := p_put TULong NVS_KEY_BOOT_ID 0 n in
      p_put TBool NVS_KEY_SEEDED true n
    else n in
  let bootId := u32 (p_get TULong NVS_KEY_BOOT_ID 0 n + 1) in
  let n := p_put TULong NVS_KEY_BOOT_ID bootId n in
  let n := p_put TUInt NVS_KEY_RESTART_CNT
             (u32 (p_get TUInt NVS_KEY_RESTART_CNT 0 n + 1)) n in
  ({| bootId_ := bootId |}, n).

Definition bootId (s : Store) : Z := bootId_ s.

Definition serverUrl (bd : Build) (n : N) : string :=
  p_get TString NVS_KEY_SERVER_URL (DEFAULT_SERVER_URL bd) n.
Definition apiKey (n : N) : string := p_get TString NVS_KEY_API_KEY DEFAULT_API_KEY n.
Definition setServerUrl (v : string) (n : N) : N := p_put TString NVS_KEY_SERVER_URL v n.
Definition setApiKey (v : string) (n : N) : N := p_put TString NVS_KEY_API_KEY v n.

Definition logicalDeviceId (n : N) : string :=
  p_get TString NVS_KEY_LOGICAL_ID EmptyString n.
Definition setLogicalDeviceId (v : string) (n : N) : N :=
  p_put TString NVS_KEY_LOGICAL_ID v n.

Definition wifiSsid (n : N) : string := p_get TString NVS_KEY_WIFI_SSID DEFAULT_WIFI_SSID n.
Definition wifiPass (n : N) : string := p_get TString NVS_KEY_WIFI_PASS DEFAULT_WIFI_PASS n.
Definition setWifi (s pw : string) (n : N) : N :=
  p_put TString NVS_KEY_WIFI_PASS pw (p_put TString NVS_KEY_WIFI_SSID s n).

Definition cfgVer (n : N) : Z := p_get TUInt NVS_KEY_CFG_VER 0 n.
Definition setCfgVer (v : Z) (n : N) : N := p_put TUInt NVS_KEY_CFG_VER v n.
Definition kFactor (n : N) : f32 := p_get TFloat NVS_KEY_KFACTOR (f32_of_Z 0) n.
Definition density (n : N) : f32 := p_get TFloat NVS_KEY_DENSITY (f32_of_Z 0) n.
Definition tRef (n : N) : f32 := p_get TFloat NVS_KEY_TREF (f32_of_Z 15) n.
Definition setCalib (k d tr : f32) (n : N) : N :=
  p_put TFloat NVS_KEY_TREF tr (p_put TFloat NVS_KEY_DENSITY d (p_put TFloat NVS_KEY_KFACTOR k n)).

Definition factoryReset (n : N) : N := pref_clear NVS_NS n.

Definition securityVersion (n : N) : Z := s_get TUInt NVS_KEY_SEC_VER 0 n.
Definition setSecurityVersion (v : Z) (n : N) : N := s_put TUInt NVS_KEY_SEC_VER v n.
Definition lastConfirmedFwVersion (n : N) : string :=
  s_get TString NVS_KEY_LAST_OK_VER EmptyString n.
Definition lastConfirmedSecurityVersion (n : N) : Z := s_get TUInt NVS_KEY_LAST_OK_SECVER 0 n.
Definition unhealthyBootStreak (n : N) : Z := s_get TUInt NVS_KEY_UNHEALTHY_STRK 0 n.
Definition incrementUnhealthyBootStreak (n : N) : N :=
  s_put TUInt NVS_KEY_UNHEALTHY_STRK (u32 (unhealthyBootStreak n + 1)) n.
Definition recordHealthyBoot (fwVersion : string) (securityVersion : Z) (n : N) : N :=
  let n := s_put TString NVS_KEY_LAST_OK_VER fwVersion n in
  let n := s_put TUInt NVS_KEY_LAST_OK_SECVER securityVersion n in
  if negb (unhealthyBootStreak n =? 0) then s_put TUInt NVS_KEY_UNHEALTHY_STRK 0 n else n.

(* MIKI_WIRE_PROFILE builds *)
Definition mikiMaxPulseHz (n : N) : Z :=
  p_get TULong NVS_KEY_MW_MAX_HZ MIKI_MAX_PULSE_HZ_DEFAULT n.
Definition setMikiMaxPulseHz (v : Z) (n : N) : bool * N :=
  if MIKI_MAX_PULSE_HZ_LIMIT <? v then (false, n)
  else (true, p_put TULong NVS_KEY_MW_MAX_HZ v n).
Definition mikiSuspectGapS (n : N) : Z :=
  p_get TULong NVS_KEY_MW_SUSPECT_S MIKI_SUSPECT_GAP_S_DEFAULT n.
Definition setMikiSuspectGapS (v : Z) (n : N) : bool * N :=
  if negb (v =? 0) && ((v <? MIKI_SUSPECT_GAP_S_MIN) || (MIKI_SUSPECT_GAP_S_MAX <? v))
  then (false, n)
  else (true, p_put TULong NVS_KEY_MW_SUSPECT_S v n).

Definition restartCount (n : N) : Z := p_get TUInt NVS_KEY_RESTART_CNT 0 n.
Definition watchdogResetCount (n : N) : Z := p_get TUInt NVS_KEY_WDT_CNT 0 n.
Definition brownoutResetCount (n : N) : Z := p_get TUInt NVS_KEY_BOD_CNT 0 n.
Definition pushFailCount (n : N) : Z := p_get TUInt NVS_KEY_PUSHFAIL_CNT 0 n.
Definition wifiReconnectCount (n : N) : Z := p_get TUInt NVS_KEY_WIFIRECON_CNT 0 n.
Definition crashResetStreak (n : N) : Z := p_get TUInt NVS_KEY_CRASH_STREAK 0 n.

Definition incrementWatchdogResetCount (n : N) : N :=
  p_put TUInt NVS_KEY_WDT_CNT (u32 (watchdogResetCount n + 1)) n.
Definition incrementBrownoutResetCount (n : N) : N :=
  p_put TUInt NVS_KEY_BOD_CNT (u32 (brownoutResetCount n + 1)) n.
Definition incrementPushFailCount (n : N) : N :=
  p_put TUInt NVS_KEY_PUSHFAIL_CNT (u32 (pushFailCount n + 1)) n.
Definition incrementWifiReconnectCount (n : N) : N :=
  p_put TUInt NVS_KEY_WIFIRECON_CNT (u32 (wifiReconnectCount n + 1)) n.
Definition incrementCrashResetStreak (n : N) : N :=
  p_put TUInt NVS_KEY_CRASH_STREAK (u32 (crashResetStreak n + 1)) n.
Definition clearCrashResetStreak (n : N) : N :=
  if negb (crashResetStreak n =? 0) then p_put TUInt NVS_KEY_CRASH_STREAK 0 n else n.
End methods.

(** [snprintf("esp32-%04X%08X", (uint16_t)(mac >> 32), (uint32_t)mac)] *)
Definition chipId (mac : Z) : string :=
  "esp32-" +:+ (hex_fix 4 (u16 (Z.shiftr mac 32)) +:+ hex_fix 8 (u32 mac)).
Definition deviceId (mac : Z) : string := chipId mac.

End St.

(** ** An in-memory NVS *)

Module MemNvs.

Inductive cell := CS (s : string) | CU (z : Z) | CL (z : Z) | CF (f : f32) | CB (b : bool).

Record nvs := { cells : gmap (string * string) cell; writes_ok : bool }.

Definition to_cell (t : pref_type) : pref_val t -> cell :=
  match t with TString => CS | TUInt => CU | TULong => CL | TFloat => CF | TBool => CB end.
Definition of_cell (t : pref_type) (c : option cell) (d : pref_val t) : pref_val t :=
  match t, c return pref_val t -> pref_val t with
  | TString, Some (CS s) => fun _ => s
  | TUInt, Some (CU z) => fun _ => z
  | TULong, Some (CL z) => fun _ => z
  | TFloat, Some (CF f) => fun _ => f
  | TBool, Some (CB b) => fun _ => b
  | _, _ => fun d => d
  end d.

Definition put (t : pref_type) (ns k : string) (v : pref_val t) (n : nvs) : nvs :=
  if writes_ok n && NVS_KEY_FITS ns && NVS_KEY_FITS k
  then {| cells := <[(ns, k) := to_cell t v]> (cells n); writes_ok := true |}
  else n.

Definition clear (ns : string) (n : nvs) : nvs :=
  if writes_ok n
  then {| cells := filter (fun p => fst (fst p) <> ns) (cells n); writes_ok := true |}
  else n.

#[export] Instance preferences : Preferences nvs := {
  pref_isKey ns k n := bool_decide (is_Some (cells n !! (ns, k)));
  pref_get t ns k d n := of_cell t (cells n !! (ns, k)) d;
  pref_put := put;
  pref_clear := clear;
  pref_writable n := writes_ok n = true;
}.

Definition empty : nvs := {| cells := ∅; writes_ok := true |}.

Lemma of_to_cell t v d : of_cell t (Some (to_cell t v)) d = v.
Proof. by destruct t. Qed.

Lemma put_cells_other t ns k ns' k' v n :
  (ns, k) <> (ns', k') -> cells (put t ns k v n) !! (ns', k') = cells n !! (ns', k').
Proof. intros. unfold put. case_match; [|done]. simpl. by apply lookup_insert_ne. Qed.

Lemma clear_cells ns ns' k n :
  cells (clear ns n) !! (ns', k)
  = if writes_ok n && bool_decide (ns = ns') then None else cells n !! (ns', k).
Proof.
  unfold clear. destruct (writes_ok n); [|done]. cbn [cells andb].
  destruct (bool_decide_reflect (ns = ns')) as [<-|Hne].
  - apply map_lookup_filter_None_2. right. intros c _. simpl. naive_solver.
  - destruct (cells n !! (ns', k)) as [c|] eqn:E.
    + by apply map_lookup_filter_Some_2.
    + apply map_lookup_filter_None_2. by left.
Qed.

#[export] Instance preferences_laws : PreferencesLaws nvs.
Proof.
  split; cbn [pref_writable pref_get pref_put pref_isKey pref_clear preferences]; intros.
  - unfold put. by destruct (_ && _).
  - unfold clear. by destruct (writes_ok n).
  - unfold put. rewrite H, H0, H1. cbn [andb cells]. by rewrite lookup_insert_eq, of_to_cell.
  - unfold put. rewrite H, H0, H1. cbn [andb cells]. by rewrite lookup_insert_eq.
  - by rewrite put_cells_other.
  - by rewrite put_cells_other.
  - unfold put. by rewrite H, andb_false_r.
  - rewrite clear_cells, H, bool_decide_true by done. cbn [andb]. destruct t; reflexivity.
  - rewrite clear_cells, H, (bool_decide_true (ns = ns)) by done. reflexivity.
  - rewrite clear_cells, (bool_decide_false _ H), andb_false_r. reflexivity.
Qed.

End MemNvs.

(** ** Reading back *)

(** The stored value an accessor chain reads: every step is either the cell
    just written or a write to a different one. *)
Ltac nvs_ok := repeat first [ assumption | apply pref_put_writable | apply pref_clear_writable ].
Ltac nvs_ne := let E := fresh in intros E; vm_compute in E; discriminate E.
Ltac nvs_solve :=
  repeat match goal with
  | |- context [pref_get ?t ?ns ?k ?d (pref_put ?t ?ns ?k ?v ?n)] =>
      rewrite (pref_get_put t ns k d v n) by first [reflexivity | nvs_ok]
  | |- context [pref_get ?t ?ns ?k ?d (pref_put ?t' ?ns' ?k' ?v ?n)] =>
      rewrite (pref_put_other t' t ns' k' ns k d v n) by nvs_ne
  | |- context [pref_isKey ?ns ?k (pref_put ?t ?ns ?k ?v ?n)] =>
      rewrite (pref_isKey_put t ns k v n) by first [reflexivity | nvs_ok]
  | |- context [pref_isKey ?ns ?k (pref_put ?t ?ns' ?k' ?v ?n)] =>
      rewrite (pref_isKey_put_other t ns' k' ns k v n) by nvs_ne
  | |- context [pref_get ?t ?ns ?k ?d (pref_clear ?ns ?n)] =>
      rewrite (pref_get_clear t ns k d n) by nvs_ok
  | |- context [pref_get ?t ?ns ?k ?d (pref_clear ?ns' ?n)] =>
      rewrite (pref_get_clear_other t ns' ns k d n) by nvs_ne
  | |- context [pref_isKey ?ns ?k (pref_clear ?ns ?n)] =>
      rewrite (pref_isKey_clear ns k n) by nvs_ok
  end.

Module StoreSpec.
Import St.

Inductive obs := OS (s : string) | OZ (z : Z) | OF (f : f32).

Section observe.
Context {N : Type} `{Preferences N}.

(** Everything the accessors show: ordinary configuration and counters, then
    the security namespace. *)
Definition observe_config (bd : Build) (n : N) : list obs :=
  [OS (serverUrl bd n); OS (apiKey n); OS (logicalDeviceId n); OS (wifiSsid n);
   OS (wifiPass n); OZ (cfgVer n); OF (kFactor n); OF (density n); OF (tRef n);
   OZ (mikiMaxPulseHz n); OZ (mikiSuspectGapS n); OZ (restartCount n);
   OZ (watchdogResetCount n); OZ (brownoutResetCount n); OZ (pushFailCount n);
   OZ (wifiReconnectCount n); OZ (crashResetStreak n);
   OZ (p_get TULong NVS_KEY_BOOT_ID 0 n)].
Definition observe_security (n : N) : list obs :=
  [OZ (securityVersion n); OS (lastConfirmedFwVersion n);
   OZ (lastConfirmedSecurityVersion n); OZ (unhealthyBootStreak n)].
Definition observe (bd : Build) (n : N) : list obs := observe_config bd n ++ observe_security n.

End observe.

Ltac observe_solve :=
  unfold observe, observe_config, observe_security, serverUrl, apiKey, logicalDeviceId, wifiSsid,
    wifiPass, cfgVer, kFactor, density, tRef, mikiMaxPulseHz, mikiSuspectGapS, restartCount,
    watchdogResetCount, brownoutResetCount, pushFailCount, wifiReconnectCount, crashResetStreak,
    securityVersion, lastConfirmedFwVersion, lastConfirmedSecurityVersion, unhealthyBootStreak,
    setServerUrl, setApiKey, setLogicalDeviceId, setWifi, setCfgVer, setCalib,
    setSecurityVersion, incrementUnhealthyBootStreak, incrementWatchdogResetCount,
    incrementBrownoutResetCount, incrementPushFailCount, incrementWifiReconnectCount,
    incrementCrashResetStreak, p_get, p_put, s_get, s_put;
  nvs_solve; reflexivity.

Section spec.
Context {N : Type} `{PreferencesLaws N}.

(** The accessors of the store do not interfere: every setter and counter
    changes exactly the values it is named after, as every getter reads
    them, and nothing else in either namespace (so no two share a key, and
    every key is short enough for the NVS library to accept it). *)
Theorem setters_change_only_theirs (bd : Build) (n : N) (v w : string) (z : Z) (k d t : f32) :
  pref_writable n ->
  observe bd (setServerUrl v n) = <[0%nat := OS v]> (observe bd n) /\
  observe bd (setApiKey v n) = <[1%nat := OS v]> (observe bd n) /\
  observe bd (setLogicalDeviceId v n) = <[2%nat := OS v]> (observe bd n) /\
  observe bd (setWifi v w n) = <[3%nat := OS v]> (<[4%nat := OS w]> (observe bd n)) /\
  observe bd (setCfgVer z n) = <[5%nat := OZ z]> (observe bd n) /\
  observe bd (setCalib k d t n)
    = <[6%nat := OF k]> (<[7%nat := OF d]> (<[8%nat := OF t]> (observe bd n))) /\
  observe bd (incrementWatchdogResetCount n)
    = <[12%nat := OZ (u32 (watchdogResetCount n + 1))]> (observe bd n) /\
  observe bd (incrementBrownoutResetCount n)
    = <[13%nat := OZ (u32 (brownoutResetCount n + 1))]> (observe bd n) /\
  observe bd (incrementPushFailCount n)
    = <[14%nat := OZ (u32 (pushFailCount n + 1))]> (observe bd n) /\
  observe bd (incrementWifiReconnectCount n)
    = <[15%nat := OZ (u32 (wifiReconnectCount n + 1))]> (observe bd n) /\
  observe bd (incrementCrashResetStreak n)
    = <[16%nat := OZ (u32 (crashResetStreak n + 1))]> (observe bd n) /\
  observe bd (setSecurityVersion z n) = <[18%nat := OZ z]> (observe bd n) /\
  observe bd (incrementUnhealthyBootStreak n)
    = <[21%nat := OZ (u32 (unhealthyBootStreak n + 1))]> (observe bd n).
Proof. intros Hw. repeat split; observe_solve. Qed.

Lemma record_healthy_boot (bd : Build) (v : string) (z : Z) (n : N) :
  pref_writable n ->
  observe bd (recordHealthyBoot v z n) = observe_config bd n ++ [OZ (securityVersion n); OS v; OZ z; OZ 0].
Proof.
  intros Hw. unfold recordHealthyBoot.
  assert (E : unhealthyBootStreak (s_put TUInt NVS_KEY_LAST_OK_SECVER z
    (s_put TString NVS_KEY_LAST_OK_VER v n)) = unhealthyBootStreak n)
    by (unfold unhealthyBootStreak, s_get, s_put; nvs_solve; done).
  rewrite E. destruct (Z.eqb_spec (unhealthyBootStreak n) 0) as [E0|]; cbn [negb].
  - rewrite <- E0 at 1. observe_solve.
  - observe_solve.
Qed.

(** The first boot of an unseeded flash. *)
Definition seeded_defaults (bd : Build) : list obs :=
  [OS (DEFAULT_SERVER_URL bd); OS DEFAULT_API_KEY; OS EmptyString; OS DEFAULT_WIFI_SSID;
   OS DEFAULT_WIFI_PASS; OZ 0; OF (f32_of_Z 0); OF (f32_of_Z 0); OF (f32_of_Z 15);
   OZ MIKI_MAX_PULSE_HZ_DEFAULT; OZ MIKI_SUSPECT_GAP_S_DEFAULT; OZ 1; OZ 0; OZ 0; OZ 0; OZ 0;
   OZ 0; OZ 1].

(** Factory reset and the boot after it bring every ordinary setting and
    counter back to the build's defaults, with boot_id and the restart
    counter at 1, and leave the security namespace exactly as it was: the
    anti-downgrade floor, the last confirmed image and the unhealthy-boot
    streak survive. *)
Theorem factory_reset_keeps_security (bd : Build) (n : N) :
  pref_writable n ->
  let '(s, n') := begin bd (factoryReset n) in
  bootId s = 1 /\ observe bd n' = seeded_defaults bd ++ observe_security n.
Proof.
  intros Hw. unfold begin, factoryReset. rewrite pref_isKey_clear by done. cbn [negb].
  unfold p_put, p_get. nvs_solve. split; [done|]. change (u32 (0 + 1)) with 1. observe_solve.
Qed.

(** Every further boot hands out the next boot_id, stores it before
    anything uses it, counts itself, and changes no other setting. *)
Theorem boot_ids_are_successive (bd : Build) (n : N) :
  pref_writable n -> pref_isKey NVS_NS NVS_KEY_SEEDED n = true ->
  let '(s, n') := begin bd n in
  bootId s = u32 (p_get TULong NVS_KEY_BOOT_ID 0 n + 1) /\
  observe bd n' = <[11%nat := OZ (u32 (restartCount n + 1))]>
    (<[17%nat := OZ (bootId s)]> (observe bd n)) /\
  let '(s', n'') := begin bd n' in bootId s' = u32 (bootId s + 1).
Proof.
  intros Hw Hs. unfold begin. rewrite Hs. cbn [negb bootId bootId_].
  unfold p_put, p_get. split; [done|]. nvs_solve. rewrite Hs. cbn [negb].
  nvs_solve. split; [observe_solve|done].
Qed.

End spec.

Import MemNvs.

Definition nvs_demo : nvs := snd (begin default_build empty).

Lemma setters_change_only_theirs_witness :
  pushFailCount (incrementPushFailCount nvs_demo) = 1.
Proof.
  pose proof (setters_change_only_theirs default_build nvs_demo "a" "b" 3 (f32_of_Z 1) (f32_of_Z 1)
    (f32_of_Z 1) eq_refl) as (_ & _ & _ & _ & _ & _ & _ & _ & H & _).
  apply (f_equal (lookup 14%nat)) in H. vm_compute in H. vm_compute. congruence.
Defined.

Lemma factory_reset_keeps_security_witness :
  securityVersion (snd (begin default_build (factoryReset (setSecurityVersion 2 nvs_demo)))) = 2.
Proof.
  pose proof (factory_reset_keeps_security default_build (setSecurityVersion 2 nvs_demo) eq_refl) as H.
  destruct (begin default_build _) as [s n] eqn:E. destruct H as [_ H].
  apply (f_equal (lookup 18%nat)) in H. vm_compute in H. simpl. injection H as H. exact H.
Defined.

Lemma boot_ids_are_successive_witness : bootId (fst (begin default_build nvs_demo)) = 2.
Proof.
  pose proof (boot_ids_are_successive default_build nvs_demo eq_refl eq_refl) as H.
  destruct (begin default_build nvs_demo) as [s n]. destruct H as [H _]. exact H.
Defined.

(** The device id is 18 characters (it fits the 20-byte buffer) and
    distinct for distinct 48-bit MAC addresses. *)
Theorem device_id_injective m m' :
  0 <= m < 2 ^ 48 -> 0 <= m' < 2 ^ 48 ->
  String.length (deviceId m) = 18%nat /\ (deviceId m = deviceId m' -> m = m').
Proof.
  intros Hm Hm'. unfold deviceId, chipId. split.
  { by rewrite !str_length_app, !hex_fix_length. }
  rewrite !str_cons_app. intros E.
  apply (str_app_inj "esp32-" "esp32-") in E as [_ E]; [|done].
  apply str_app_inj in E as [Eh El]; [|by rewrite !hex_fix_length].
  pose proof (Z.div_lt_upper_bound m (2 ^ 32) (2 ^ 16) ltac:(lia) ltac:(lia)).
  pose proof (Z.div_lt_upper_bound m' (2 ^ 32) (2 ^ 16) ltac:(lia) ltac:(lia)).
  pose proof (Z.div_pos m (2 ^ 32) ltac:(lia) ltac:(lia)).
  pose proof (Z.div_pos m' (2 ^ 32) ltac:(lia) ltac:(lia)).
  rewrite !Z.shiftr_div_pow2, !u16_small in Eh by (rewrite ?Z.shiftr_div_pow2; lia).
  apply hex_fix_inj in Eh; [|simpl; lia..].
  apply hex_fix_inj in El; [|apply u32_range..].
  unfold u32 in El. rewrite (Z.div_mod m (2 ^ 32)), (Z.div_mod m' (2 ^ 32)) by lia. by rewrite Eh, El.
Qed.

Lemma device_id_injective_witness : deviceId 0xE8F60AB8B7BC <> deviceId 0xE8F60AB8B7BD.
Proof.
  intros E. apply (proj2 (device_id_injective 0xE8F60AB8B7BC 0xE8F60AB8B7BD ltac:(lia) ltac:(lia))) in E.
  discriminate E.
Defined.

End StoreSpec.
