(* ===== verification/OtaPolicy.v ===== *)
(** * OTA acceptance rules (ota_version_policy.h, ota_manifest_auth.h)

    The pure decisions of the update path: the anti-downgrade verdict, the
    canonical text that is signed, the validity window and the
    required-fields test.  [long] is 32 bits; a sum of two is wrapped. *)

From S2P Require Import Prelude Arduino.

(** ** ota_version_policy.h *)

Inductive OtaVerdict :=
  | OTA_ACCEPT
  | OTA_REJECT_MISSING_METADATA
  | OTA_REJECT_MALFORMED_VERSION
  | OTA_REJECT_DOWNGRADE
  | OTA_REJECT_HW_MISMATCH
  | OTA_REJECT_SCHEMA_MISMATCH.
#[export] Instance OtaVerdict_eq_dec : EqDecision OtaVerdict.
Proof. solve_decision. Defined.

Record OtaCandidate := {
  hasSecurityVersion : bool;
  securityVersion : Z;
  hasHwCompat : bool;
  hwCompat : string;
  hasSchemaVersion : bool;
  schemaVersion : Z;
}.

Definition otaVerdictStr (v : OtaVerdict) : string :=
  match v with
  | OTA_ACCEPT => "accept"
  | OTA_REJECT_MISSING_METADATA => "missing_metadata"
  | OTA_REJECT_MALFORMED_VERSION => "malformed_version"
  | OTA_REJECT_DOWNGRADE => "downgrade_rejected"
  | OTA_REJECT_HW_MISMATCH => "hardware_mismatch"
  | OTA_REJECT_SCHEMA_MISMATCH => "schema_mismatch"
  end.

(** [deviceModel] may be a null pointer. *)
Definition evaluateOtaCandidate (c : OtaCandidate) (acceptedSecurityFloor : Z)
    (deviceModel : option string) (currentSchemaVersion : Z) : OtaVerdict :=
  if negb (hasSecurityVersion c) then OTA_REJECT_MISSING_METADATA
  else if securityVersion c <? 0 then OTA_REJECT_MALFORMED_VERSION
  else if u32 (securityVersion c) <? acceptedSecurityFloor then OTA_REJECT_DOWNGRADE
  else if hasHwCompat c && match deviceModel with
                           | None => true
                           | Some m => negb (String.eqb (hwCompat c) m)
                           end
  then OTA_REJECT_HW_MISMATCH
  else if hasSchemaVersion c && negb (schemaVersion c =? currentSchemaVersion)
  then OTA_REJECT_SCHEMA_MISMATCH
  else OTA_ACCEPT.

(** ** ota_manifest_auth.h *)

Record SignedManifestFields := {
  m_hwCompat : string;
  m_version : string;
  m_securityVersion : Z;
  m_schemaVersion : Z;
  m_imageSize : Z;
  m_imageSha256Hex : string;
  m_imageUrl : string;
  m_channel : string;
  m_issuedAt : Z;
  m_expiresAt : Z;
  m_manifestId : string;
}.

Definition nl : Ascii.ascii := chr 10.

(** The fields as the format string prints them. *)
Definition canonical_fields (f : SignedManifestFields) : list string :=
  [m_hwCompat f; m_version f; dec_signed (m_securityVersion f); dec_signed (m_schemaVersion f);
   dec_signed (m_imageSize f); m_imageSha256Hex f; m_imageUrl f; m_channel f;
   dec_signed (m_issuedAt f); dec_signed (m_expiresAt f); m_manifestId f].

Fixpoint join (sep : Ascii.ascii) (l : list string) : string :=
  match l with
  | [] => EmptyString
  | [s] => s
  | s :: r => s +:+ String sep (join sep r)
  end.

Definition canonical_text (f : SignedManifestFields) : string := join nl (canonical_fields f).

(** [None] for the -1 of a buffer of [outCap] bytes that is too small. *)
Definition buildCanonicalManifestString (f : SignedManifestFields) (outCap : nat) : option string :=
  let out := canonical_text f in
  if (outCap <=? String.length out)%nat then None else Some out.

Inductive ManifestTimeVerdict :=
  MANIFEST_TIME_OK | MANIFEST_TIME_EXPIRED | MANIFEST_TIME_NOT_YET_VALID.
#[export] Instance ManifestTimeVerdict_eq_dec : EqDecision ManifestTimeVerdict.
Proof. solve_decision. Defined.

Definition checkManifestTimeValidity (issuedAt expiresAt nowEstimate allowedSkewSeconds : Z)
  : ManifestTimeVerdict :=
  if i32 (expiresAt + allowedSkewSeconds) <? nowEstimate then MANIFEST_TIME_EXPIRED
  else if i32 (nowEstimate + allowedSkewSeconds) <? issuedAt then MANIFEST_TIME_NOT_YET_VALID
  else MANIFEST_TIME_OK.

Definition manifestTimeVerdictStr (v : ManifestTimeVerdict) : string :=
  match v with
  | MANIFEST_TIME_OK => "ok"
  | MANIFEST_TIME_EXPIRED => "expired"
  | MANIFEST_TIME_NOT_YET_VALID => "not_yet_valid"
  end.

Definition manifestHasRequiredFields (imageSize : Z) (imageSha256Len channelLen : nat)
    (issuedAt expiresAt : Z) (manifestIdLen keyIdLen sigB64Len hwCompatLen : nat) : bool :=
  (0 <=? imageSize) && (imageSha256Len =? 64)%nat && (0 <? channelLen)%nat &&
  (0 <=? issuedAt) && (0 <=? expiresAt) && (0 <? manifestIdLen)%nat &&
  (0 <? keyIdLen)%nat && (0 <? sigB64Len)%nat && (0 <? hwCompatLen)%nat.

(** ** The verdict *)

Lemma evaluate_accept (c : OtaCandidate) floor model schema :
  evaluateOtaCandidate c floor model schema = OTA_ACCEPT <->
  hasSecurityVersion c = true /\ 0 <= securityVersion c /\
  floor <= u32 (securityVersion c) /\
  (hasHwCompat c = true -> model = Some (hwCompat c)) /\
  (hasSchemaVersion c = true -> schemaVersion c = schema).
Proof.
  unfold evaluateOtaCandidate. destruct (hasSecurityVersion c); cbn [negb]; [|naive_solver].
  destruct (Z.ltb_spec (securityVersion c) 0) as [|H0]; [naive_solver lia|].
  destruct (Z.ltb_spec (u32 (securityVersion c)) floor) as [|H1]; [naive_solver lia|].
  destruct (hasHwCompat c); cbn [andb].
  2:{ destruct (hasSchemaVersion c), (Z.eqb_spec (schemaVersion c) schema); naive_solver. }
  destruct model as [m|]; [|naive_solver].
  destruct (String.eqb_spec (hwCompat c) m); cbn [negb]; [|naive_solver].
  destruct (hasSchemaVersion c), (Z.eqb_spec (schemaVersion c) schema); naive_solver.
Qed.

(** C34: the anti-downgrade gate accepts exactly the candidates with a
    non-negative security version that is not below the floor, the device's
    own model if one is named, and the current schema if one is named; and
    the reason reported for a well-formed candidate below the floor is the
    downgrade, before any other mismatch. *)
Theorem ota_verdict_exact (c : OtaCandidate) floor model schema :
  is_u32 floor -> securityVersion c < 2 ^ 31 ->
  (evaluateOtaCandidate c floor model schema = OTA_ACCEPT <->
   hasSecurityVersion c = true /\ 0 <= securityVersion c /\ floor <= securityVersion c /\
   (hasHwCompat c = true -> model = Some (hwCompat c)) /\
   (hasSchemaVersion c = true -> schemaVersion c = schema)) /\
  (evaluateOtaCandidate c floor model schema = OTA_REJECT_DOWNGRADE <->
   hasSecurityVersion c = true /\ 0 <= securityVersion c < floor).
Proof.
  intros Hf Hs. split.
  - rewrite evaluate_accept. destruct (Z.lt_ge_cases (securityVersion c) 0); [naive_solver lia|].
    rewrite u32_small by lia. done.
  - unfold evaluateOtaCandidate. destruct (hasSecurityVersion c); cbn [negb]; [|naive_solver].
    destruct (Z.ltb_spec (securityVersion c) 0); [naive_solver lia|].
    rewrite u32_small by lia.
    destruct (Z.ltb_spec (securityVersion c) floor); [naive_solver lia|].
    repeat case_match; naive_solver lia.
Qed.

Lemma ota_verdict_exact_witness :
  evaluateOtaCandidate (Build_OtaCandidate true 1 true "other" false (-1)) 2
    (Some "covio-oilflow-v1") 1 = OTA_REJECT_DOWNGRADE.
Proof.
  apply (proj2 (ota_verdict_exact (Build_OtaCandidate true 1 true "other" false (-1)) 2
    (Some "covio-oilflow-v1") 1 ltac:(unfold is_u32; lia) ltac:(simpl; lia))).
  simpl. lia.
Defined.

(** ** The canonical text *)

Fixpoint count_nl (s : string) : nat :=
  match s with
  | EmptyString => O
  | String c s => (if Ascii.eqb c nl then 1 else 0) + count_nl s
  end.

Definition no_nl (s : string) : Prop := count_nl s = O.

Lemma count_nl_app a b : count_nl (a +:+ b) = (count_nl a + count_nl b)%nat.
Proof. induction a as [|x a IH]; [done|]. rewrite str_cons_app. simpl. rewrite IH. lia. Qed.

Lemma count_nl_digits s : all_digits s = true -> count_nl s = O.
Proof.
  induction s as [|c s IH]; [done|]. simpl. intros [Hc Hs]%andb_prop. rewrite IH by done.
  destruct (Ascii.eqb_spec c nl) as [->|]; [discriminate Hc|done].
Qed.

Lemma count_nl_dec z : count_nl (dec_signed z) = O.
Proof.
  unfold dec_signed. destruct (Z.ltb_spec z 0); simpl; apply count_nl_digits, dec_digits; lia.
Qed.

Lemma join_cons2 sep s s' r : join sep (s :: s' :: r) = s +:+ String sep (join sep (s' :: r)).
Proof. done. Qed.

Lemma count_nl_join l :
  l <> [] -> count_nl (join nl l) = (length l - 1 + sum_list (count_nl <$> l))%nat.
Proof.
  induction l as [|s [|s' r] IH]; [done|simpl; lia|]. intros _.
  rewrite join_cons2, count_nl_app. cbn [count_nl]. rewrite Ascii.eqb_refl, IH by done.
  simpl. lia.
Qed.

(** Equal joins of equally many pieces without newlines are equal. *)
Lemma no_nl_split a b s t :
  no_nl a -> no_nl b -> a +:+ String nl s = b +:+ String nl t -> a = b /\ s = t.
Proof.
  unfold no_nl. revert b. induction a as [|x a IH]; intros [|y b]; simpl; intros Ha Hb.
  - by intros [= ->].
  - rewrite str_cons_app. intros E. injection E as E _. subst y. rewrite Ascii.eqb_refl in Hb. lia.
  - rewrite str_cons_app. intros E. injection E as E _. subst x. rewrite Ascii.eqb_refl in Ha. lia.
  - rewrite !str_cons_app. intros E. injection E as E1 E2. subst y.
    destruct (IH b) as [-> ->]; [lia|lia|done|done].
Qed.

Lemma join_inj l l' :
  length l = length l' -> Forall no_nl l -> Forall no_nl l' -> join nl l = join nl l' -> l = l'.
Proof.
  revert l'. induction l as [|a l IH]; intros [|b l']; try done.
  intros [= Hl] [Ha Hfl]%Forall_cons [Hb Hfl']%Forall_cons.
  destruct l as [|a' l], l' as [|b' l']; try done; [by simpl; intros ->|].
  rewrite !join_cons2. intros E. apply no_nl_split in E as [-> E]; [|done..].
  f_equal. by apply IH.
Qed.

(** The text fields of a manifest hold no newline. *)
Definition fields_no_nl (f : SignedManifestFields) : Prop := Forall no_nl (canonical_fields f).

Lemma sum_zero l : sum_list (count_nl <$> l) = O -> Forall no_nl l.
Proof.
  induction l as [|s l IH]; [constructor|]. rewrite fmap_cons. cbn [sum_list sum_list_with].
  intros E. apply Nat.eq_add_0 in E as [Es El]. constructor; [done|]. by apply IH.
Qed.

Lemma sum_zero' l : Forall no_nl l -> sum_list (count_nl <$> l) = O.
Proof.
  induction 1 as [|s l Hs Hl IH]; [done|]. rewrite fmap_cons. cbn [sum_list sum_list_with].
  by rewrite Hs.
Qed.

(** C35: the signed text binds every field.  A signature made over a manifest
    whose text fields hold no newline fits no other manifest, not even one
    whose fields smuggle newlines in, because the text has exactly ten. *)
Theorem canonical_text_binds f g n m s :
  fields_no_nl f ->
  buildCanonicalManifestString f n = Some s ->
  buildCanonicalManifestString g m = Some s -> g = f.
Proof.
  unfold buildCanonicalManifestString. intros Hf Ef Eg. do 2 (case_match; [done|]).
  assert (E : canonical_text g = canonical_text f) by congruence. clear Ef Eg.
  assert (Hgn : Forall no_nl (canonical_fields g)).
  { apply sum_zero. pose proof (f_equal count_nl E) as Ec. unfold canonical_text in Ec.
    rewrite !count_nl_join in Ec by done. rewrite (sum_zero' (canonical_fields f)) in Ec by done.
    simpl length in Ec. lia. }
  apply join_inj in E; [|done..].
  unfold canonical_fields in E. destruct f, g; simpl in *.
  injection E as E1 E2 E3 E4 E5 E6 E7 E8 E9 E10 E11.
  apply dec_signed_inj in E3, E4, E5, E9, E10. by subst.
Qed.

Definition manifest_demo : SignedManifestFields :=
  {| m_hwCompat := "covio-oilflow-v1"; m_version := "1.5.0"; m_securityVersion := 3;
     m_schemaVersion := 1; m_imageSize := 4; m_imageSha256Hex := "ab"; m_imageUrl := "https://x/y";
     m_channel := "stable"; m_issuedAt := 100; m_expiresAt := 200; m_manifestId := "m1" |}.

Lemma canonical_text_binds_witness :
  buildCanonicalManifestString
    {| m_hwCompat := "covio-oilflow-v1"; m_version := "1.5.0"; m_securityVersion := 3;
       m_schemaVersion := 1; m_imageSize := 4; m_imageSha256Hex := "ab";
       m_imageUrl := "https://x/y"; m_channel := "beta"; m_issuedAt := 100; m_expiresAt := 200;
       m_manifestId := "m1" |} 512 <> Some (canonical_text manifest_demo).
Proof.
  intros E. assert (Hn : fields_no_nl manifest_demo)
    by (repeat (apply Forall_cons; split; [vm_compute; reflexivity|]); apply Forall_nil; exact I).
  pose proof (canonical_text_binds manifest_demo _ 512 512 _ Hn eq_refl E) as H.
  apply (f_equal m_channel) in H. discriminate H.
Defined.

(** The validity window is the intended one, [now] within the skew of
    [issuedAt..expiresAt], while the sums fit 31 bits; with an expiry in the
    last [skew] seconds before 2^31 the 32-bit sum wraps negative and every
    manifest counts as expired. *)
Theorem manifest_window_exact issuedAt expiresAt now skew :
  0 <= issuedAt < 2 ^ 31 -> 0 <= expiresAt < 2 ^ 31 -> 0 <= now < 2 ^ 31 - skew ->
  0 <= skew < 2 ^ 31 ->
  (expiresAt + skew < 2 ^ 31 ->
   (checkManifestTimeValidity issuedAt expiresAt now skew = MANIFEST_TIME_OK
    <-> issuedAt - skew <= now <= expiresAt + skew)) /\
  (2 ^ 31 <= expiresAt + skew ->
   checkManifestTimeValidity issuedAt expiresAt now skew = MANIFEST_TIME_EXPIRED).
Proof.
  intros Hi He Hn Hs. unfold checkManifestTimeValidity.
  rewrite (i32_small (now + skew)) by lia. split; intros Hsum.
  - rewrite i32_small by lia.
    destruct (Z.ltb_spec (expiresAt + skew) now); [split; [done|lia]|].
    destruct (Z.ltb_spec (now + skew) issuedAt); split; done || lia.
  - replace (i32 (expiresAt + skew)) with (expiresAt + skew - 2 ^ 32).
    + by rewrite (proj2 (Z.ltb_lt _ _)) by lia.
    + unfold i32. rewrite <- (Z.mod_unique (expiresAt + skew + 2 ^ 31) (2 ^ 32) 1
        (expiresAt + skew - 2 ^ 31)) by lia. lia.
Qed.

Lemma manifest_window_exact_witness :
  checkManifestTimeValidity 1700000000 2147483647 1700000001 3600 = MANIFEST_TIME_EXPIRED.
Proof.
  apply (proj2 (manifest_window_exact 1700000000 2147483647 1700000001 3600
    ltac:(lia) ltac:(lia) ltac:(lia) ltac:(lia))). lia.
Defined.
