(* ===== verification/Totalizer.v ===== *)
(** * The totalizer (totalizer.h)

    The hardware pulse counter and the crash-safe lifetime total.  [Pcnt] is
    the ESP-IDF pulse-counter driver with its counter: library and hardware,
    so a parameter.  [Totalizer] is the class's state; every method passes it
    together with the flash ([Disk]) and the peripheral ([HW]).  The theorems:
    what a power cut at any point of a checkpoint write leaves to recover,
    migration of the pre-Phase-2 layout, and where counted edges go. *)

From S2P Require Import Prelude Config Crc32 Records Storage DualSlot.

(** ** The pulse-counter driver *)

Record pcnt_config_t := {
  pulse_gpio_num : Z;
  counter_h_lim : Z;
  counter_l_lim : Z;
  pos_mode_inc : bool;   (* PCNT_COUNT_INC on the rising edge *)
  neg_mode_inc : bool;   (* PCNT_COUNT_DIS: false *)
}.

Class Pcnt (HW : Type) := {
  pinMode_pullup : Z -> HW -> HW;
  pcnt_unit_config : pcnt_config_t -> HW -> HW;
  pcnt_set_filter_value : Z -> HW -> HW;
  pcnt_filter_enable : HW -> HW;
  pcnt_counter_pause : HW -> HW;
  pcnt_counter_clear : HW -> HW;
  pcnt_counter_resume : HW -> HW;
  pcnt_get_counter_value : HW -> Z;
  (* [n] filtered edges arrive while the unit counts *)
  pcnt_edges : nat -> HW -> HW;
}.

(** The unit counts up from 0 and returns to 0 on reaching [counter_h_lim]. *)
Class PcntLaws (HW : Type) `{Pcnt HW} := {
  pcnt_range h : 0 <= pcnt_get_counter_value h < 32767;
  pcnt_clear_law h : pcnt_get_counter_value (pcnt_counter_clear h) = 0;
  pcnt_resume_law h :
    pcnt_get_counter_value (pcnt_counter_resume h) = pcnt_get_counter_value h;
  pcnt_edges_law n h :
    pcnt_get_counter_value (pcnt_edges n h) =
    (pcnt_get_counter_value h + Z.of_nat n) mod 32767;
}.

(** ** Data *)

Module Tot.

Definition CKPT_MAGIC : Z := 0xC0A17071.
Definition CKPT_PATH_A : string := "/totA.bin".
Definition CKPT_PATH_B : string := "/totB.bin".

Record Checkpoint := {
  magic : Z;
  total_ : Z;         (* uint64_t total *)
  boot_id : Z;
  seq : Z;
  writes : Z;
  q_segment : Z;
  q_offset : Z;
  crc32 : Z;
}.

Record LegacyCheckpoint := {
  l_magic : Z;
  l_total : Z;
  l_boot_id : Z;
  l_seq : Z;
  l_writes : Z;
  l_crc32 : Z;
}.

#[global] Instance Checkpoint_record : CrcRecord Checkpoint := {
  cr_magic := CKPT_MAGIC;
  cr_widths := [8; 4; 4; 4; 4; 4]%nat;
  cr_fields c := [total_ c; boot_id c; seq c; writes c; q_segment c; q_offset c];
  cr_head := magic;
  cr_crc := crc32;
  cr_make m vs c :=
    match vs with
    | [t; b; s; w; qs; qo] => Build_Checkpoint m t b s w qs qo c
    | _ => Build_Checkpoint m 0 0 0 0 0 0 c
    end;
}.

#[global] Instance LegacyCheckpoint_record : CrcRecord LegacyCheckpoint := {
  cr_magic := CKPT_MAGIC;
  cr_widths := [8; 4; 4; 4]%nat;
  cr_fields c := [l_total c; l_boot_id c; l_seq c; l_writes c];
  cr_head := l_magic;
  cr_crc := l_crc32;
  cr_make m vs c :=
    match vs with
    | [t; b; s; w] => Build_LegacyCheckpoint m t b s w c
    | _ => Build_LegacyCheckpoint m 0 0 0 0 c
    end;
}.

#[global] Instance Checkpoint_laws : CrcRecordLaws Checkpoint.
Proof. crc_record_laws. Qed.
#[global] Instance LegacyCheckpoint_laws : CrcRecordLaws LegacyCheckpoint.
Proof. crc_record_laws. Qed.

Lemma CKPT_MAGIC_fits : fits 4 CKPT_MAGIC.
Proof. unfold fits, CKPT_MAGIC. lia. Qed.

(** The class's members. *)
Record Totalizer := {
  cp_ : Checkpoint;
  base_ : Z;          (* uint64_t: total before this boot *)
  accumulated_ : Z;   (* uint64_t: drained-out counts this boot *)
}.

Definition zero_checkpoint : Checkpoint := Build_Checkpoint 0 0 0 0 0 0 0 0.
Definition new_totalizer : Totalizer := Build_Totalizer zero_checkpoint 0 0.

(** ** Methods *)

Section methods.
Context {HW Disk : Type} `{Pcnt HW} `{LittleFS Disk}.

Definition setupPCNT_ (b : Build) (h : HW) : HW :=
  let h := pinMode_pullup (PIN_PULSE b) h in
  let cfg := {| pulse_gpio_num := PIN_PULSE b; counter_h_lim := 32767;
                counter_l_lim := 0; pos_mode_inc := true; neg_mode_inc := false |} in
  let h := pcnt_unit_config cfg h in
  (* (uint16_t)(PCNT_GLITCH_NS / 12.5) *)
  let h := pcnt_set_filter_value (u16 (PCNT_GLITCH_NS * 10 / 125)) h in
  let h := pcnt_filter_enable h in
  let h := pcnt_counter_pause h in
  let h := pcnt_counter_clear h in
  pcnt_counter_resume h.

Definition load_slot (c : option (list byte)) : option Checkpoint := c ≫= load_bytes.

Definition load_ (path : string) (d : Disk) : option Checkpoint :=
  load_slot (lfs_read path d).

(** [memset(&out, 0); ...]: the 28-byte record in the current layout. *)
Definition upconvert (legacy : LegacyCheckpoint) : Checkpoint :=
  {| magic := CKPT_MAGIC; total_ := l_total legacy; boot_id := l_boot_id legacy;
     seq := l_seq legacy; writes := l_writes legacy; q_segment := 0; q_offset := 0;
     crc32 := 0 |}.

Definition loadLegacy_ (path : string) (d : Disk) : option Checkpoint :=
  upconvert <$> (lfs_read path d ≫= load_bytes (R := LegacyCheckpoint)).

(** [cp_.magic = ...; cp_.writes++; cp_.crc32 = 0; cp_.crc32 = crc32_(...)] *)
Definition stamp (c : Checkpoint) : Checkpoint :=
  seal {| magic := CKPT_MAGIC; total_ := total_ c; boot_id := boot_id c; seq := seq c;
          writes := u32 (writes c + 1); q_segment := q_segment c; q_offset := q_offset c;
          crc32 := crc32 c |}.

Definition with_cp (c : Checkpoint) (t : Totalizer) : Totalizer :=
  {| cp_ := c; base_ := base_ t; accumulated_ := accumulated_ t |}.

Definition persist_ (t : Totalizer) (d : Disk) : Totalizer * Disk :=
  let cp := stamp (cp_ t) in
  let path := slot CKPT_PATH_A CKPT_PATH_B (writes cp) in
  let d' := match lfs_rewrite path (bytes_of cp) d with
            | None => d     (* checkpoint open FAILED *)
            | Some (_, d') => d'
            end in
  (with_cp cp t, d').

(** One slot as [begin] reads it: the current layout first, then the legacy
    one; the flag is [legA]/[legB]. *)
Definition load_either (c : option (list byte)) : option (Checkpoint * bool) :=
  match load_slot c with
  | Some a => Some (a, false)
  | None => (fun l => (upconvert l, true)) <$> (c ≫= load_bytes (R := LegacyCheckpoint))
  end.

Definition begin (bd : Build) (bootId : Z) (t : Totalizer) (d : Disk) (h : HW)
  : Totalizer * Disk * HW :=
  let h := setupPCNT_ bd h in
  let a := load_either (lfs_read CKPT_PATH_A d) in
  let b := load_either (lfs_read CKPT_PATH_B d) in
  let '(cp, usedLegacy) :=
    match newest (fun x => writes (fst x)) a b with
    | Some (c, leg) => (c, leg)
    | None => (Build_Checkpoint CKPT_MAGIC 0 0 0 0 0 0 0, false)
    end in
  let cp := Build_Checkpoint (magic cp) (total_ cp) bootId (seq cp) (writes cp)
              (q_segment cp) (q_offset cp) (crc32 cp) in
  let t := {| cp_ := cp; base_ := total_ cp; accumulated_ := accumulated_ t |} in
  let '(t, d) := if usedLegacy then persist_ t d else (t, d) in
  (t, d, h).

Definition total (t : Totalizer) (h : HW) : Z :=
  u64 (base_ t + accumulated_ t + u16 (pcnt_get_counter_value h)).

(** [n1] edges arrive between the first read and the clear, [n2] between
    that and the second read. *)
Definition service (sq : Z) (n1 n2 : nat) (t : Totalizer) (d : Disk) (h : HW)
  : Totalizer * Disk * HW :=
  let c := u16 (pcnt_get_counter_value h) in
  let h := pcnt_edges n1 h in
  let '(acc, h) :=
    if 30000 <=? c then (u64 (accumulated_ t + c), pcnt_counter_clear h)
    else (accumulated_ t, h) in
  let tot := u64 (base_ t + acc) in
  let h := pcnt_edges n2 h in
  let tot := u64 (tot + u16 (pcnt_get_counter_value h)) in
  let c0 := cp_ t in
  let cp := Build_Checkpoint (magic c0) tot (boot_id c0) sq (writes c0)
              (q_segment c0) (q_offset c0) (crc32 c0) in
  let '(t, d) :=
    persist_ {| cp_ := cp; base_ := base_ t; accumulated_ := acc |} d in
  (t, d, h).

Definition lastSeq (t : Totalizer) : Z := seq (cp_ t).

Definition injectSoftPulses (n : Z) (t : Totalizer) : Totalizer :=
  {| cp_ := cp_ t; base_ := base_ t; accumulated_ := u64 (accumulated_ t + n) |}.

(** [cp_.q_segment = segment; cp_.q_offset = offset;] *)
Definition with_offset (segment offset : Z) (c : Checkpoint) : Checkpoint :=
  Build_Checkpoint (magic c) (total_ c) (boot_id c) (seq c) (writes c)
    segment offset (crc32 c).

Definition setQueueOffset (segment offset : Z) (t : Totalizer) (d : Disk)
  : Totalizer * Disk :=
  persist_ (with_cp (with_offset segment offset (cp_ t)) t) d.

Definition queueOffsetSegment (t : Totalizer) : Z := q_segment (cp_ t).
Definition queueOffsetOffset (t : Totalizer) : Z := q_offset (cp_ t).
End methods.

#[global] Arguments stamp : simpl never.
#[global] Arguments persist_ : simpl never.

(** ** Well-formedness *)

Definition wf (t : Totalizer) : Prop :=
  fields_fit (cp_ t) /\ is_u64 (base_ t) /\ is_u64 (accumulated_ t).

Lemma fields_fit_iff (c : Checkpoint) :
  fields_fit c <->
  is_u64 (total_ c) /\ is_u32 (boot_id c) /\ is_u32 (seq c) /\ is_u32 (writes c) /\
  is_u32 (q_segment c) /\ is_u32 (q_offset c).
Proof.
  unfold fields_fit. simpl. rewrite !Forall2_cons, Forall2_nil. unfold fits. simpl.
  unfold is_u64, is_u32. tauto.
Qed.

Lemma stamp_fields c : cr_fields (stamp c) =
  [total_ c; boot_id c; seq c; u32 (writes c + 1); q_segment c; q_offset c].
Proof. unfold stamp. by rewrite seal_fields. Qed.

Lemma stamp_spec c :
  total_ (stamp c) = total_ c /\ boot_id (stamp c) = boot_id c /\ seq (stamp c) = seq c /\
  writes (stamp c) = u32 (writes c + 1) /\ q_segment (stamp c) = q_segment c /\
  q_offset (stamp c) = q_offset c.
Proof.
  pose proof (stamp_fields c) as H. revert H. generalize (stamp c). simpl.
  intros s H. by simplify_eq.
Qed.

Lemma stamp_fit c : fields_fit c -> fields_fit (stamp c).
Proof.
  rewrite !fields_fit_iff. destruct (stamp_spec c) as (-> & -> & -> & -> & -> & ->).
  intuition auto with covio.
Qed.

Lemma stamp_magic c : magic (stamp c) = CKPT_MAGIC.
Proof. change (cr_head (stamp c) = cr_magic (R := Checkpoint)). apply seal_head. Qed.

Lemma stamp_loads c : fields_fit c -> load_slot (Some (bytes_of (stamp c))) = Some (stamp c).
Proof.
  intros Hf. apply load_bytes_seal; [apply CKPT_MAGIC_fits|].
  apply stamp_fit in Hf. unfold fields_fit, stamp in *. by rewrite seal_fields in Hf.
Qed.

#[global] Opaque stamp.

Lemma sizeof_Checkpoint : sizeof (R := Checkpoint) = 36%nat.
Proof. done. Qed.

Lemma sizeof_LegacyCheckpoint : sizeof (R := LegacyCheckpoint) = 28%nat.
Proof. done. Qed.

Lemma load_either_stamp c :
  fields_fit c -> load_either (Some (bytes_of (stamp c))) = Some (stamp c, false).
Proof. intros. unfold load_either. by rewrite stamp_loads. Qed.

(** The first 28 bytes of a checkpoint have the shape of a legacy one whose
    checksum is the [q_segment] field. *)
Lemma take_28 c :
  take 28 (bytes_of c) =
  bytes_of (Build_LegacyCheckpoint (magic c) (total_ c) (boot_id c) (seq c) (writes c)
              (q_segment c)).
Proof. reflexivity. Qed.

(** What a strict prefix of a checkpoint can load as. *)
Lemma load_either_prefix c n x leg :
  fields_fit c -> (n < 36)%nat ->
  load_either (Some (take n (bytes_of (stamp c)))) = Some (x, leg) ->
  n = 28%nat /\ leg = true /\ total_ x = total_ c /\ seq x = seq c /\
  writes x = u32 (writes c + 1) /\ q_segment x = 0 /\ q_offset x = 0.
Proof.
  intros Hf Hn. pose proof (length_bytes_of (stamp c)) as Hl. rewrite sizeof_Checkpoint in Hl.
  unfold load_either, load_slot. simpl.
  rewrite load_bytes_short by (rewrite sizeof_Checkpoint, length_take; lia).
  destruct (decide (n = 28%nat)) as [->|Hne].
  2:{ rewrite load_bytes_short by (rewrite sizeof_LegacyCheckpoint, length_take; lia). done. }
  apply stamp_fit, fields_fit_iff in Hf.
  pose proof (stamp_spec c) as Hs. pose proof (stamp_magic c) as Hm. revert Hf Hs Hm.
  rewrite take_28. generalize (stamp c). intros s Hf (<- & _ & <- & <- & _) Hm.
  unfold load_bytes. rewrite length_bytes_of, Nat.eqb_refl.
  rewrite (of_bytes_of (R := LegacyCheckpoint)).
  - case_match; [|done]. intros [= <- <-]. done.
  - simpl. rewrite Hm. apply CKPT_MAGIC_fits.
  - unfold fields_fit. simpl. rewrite !Forall2_cons, Forall2_nil. unfold fits. simpl.
    unfold is_u32, is_u64 in *. tauto.
  - unfold fits. simpl. unfold is_u32 in *. tauto.
Qed.

(** ** Recovery *)

Definition ck_writes (x : Checkpoint * bool) : Z := writes (fst x).

(** [Inv]: the RAM state is in range and no slot is newer than it. *)
Definition Inv {Disk} `{LittleFS Disk} (t : Totalizer) (d : Disk) : Prop :=
  wf t /\ bounded CKPT_PATH_A CKPT_PATH_B ck_writes load_either (writes (cp_ t)) d.

(** The last [persist_] reached flash in full. *)
Definition persisted {Disk} `{LittleFS Disk} (t : Totalizer) (d : Disk) : Prop :=
  lfs_read (slot CKPT_PATH_A CKPT_PATH_B (writes (cp_ t))) d = Some (bytes_of (cp_ t)).

(** Power fails when [n] bytes of the next checkpoint of [t] are in its slot. *)
Definition power_cut {Disk} `{LittleFS Disk} (n : nat) (t : Totalizer) (d d' : Disk) : Prop :=
  only_changes (slot CKPT_PATH_A CKPT_PATH_B (writes (stamp (cp_ t))))
    (Some (take n (bytes_of (stamp (cp_ t))))) d d'.

Lemma paths_ne : CKPT_PATH_A <> CKPT_PATH_B.
Proof. done. Qed.

Section recovery.
Context {HW Disk : Type} `{PcntLaws HW} `{LittleFSLaws Disk}.

Abbreviation recovered := (recover CKPT_PATH_A CKPT_PATH_B ck_writes load_either).
Abbreviation is_synced := (synced CKPT_PATH_A CKPT_PATH_B ck_writes load_either).

Lemma stamp_writes c : writes c + 1 < 2 ^ 32 -> 0 <= writes c -> writes (stamp c) = writes c + 1.
Proof.
  intros. destruct (stamp_spec c) as (_ & _ & _ & -> & _). apply u32_small. lia.
Qed.

Lemma persist_cp t d : cp_ (fst (persist_ t d)) = stamp (cp_ t).
Proof. done. Qed.

(** The outcomes of a checkpoint write. *)
Lemma persist_disk t (d : Disk) :
  snd (persist_ t d) = d \/ exists n, power_cut n t d (snd (persist_ t d)).
Proof.
  unfold persist_, power_cut. simpl. destruct (lfs_rewrite _ _ d) as [[n d']|] eqn:Hw; [|by left].
  apply lfs_rewrite_law in Hw as [_ Hw]. right. by exists n.
Qed.

Lemma load_either_bounded c n x leg :
  fields_fit c -> load_either (Some (take n (bytes_of (stamp c)))) = Some (x, leg) ->
  writes x = writes (stamp c).
Proof.
  intros Hf. pose proof (length_bytes_of (stamp c)) as Hl. rewrite sizeof_Checkpoint in Hl.
  destruct (decide (n < 36)%nat).
  - intros Hx. apply load_either_prefix in Hx as (_ & _ & _ & _ & -> & _); [|done..].
    by destruct (stamp_spec c) as (_ & _ & _ & -> & _).
  - rewrite take_ge by lia. rewrite load_either_stamp by done. by intros [= <- <-].
Qed.

Lemma fits_writes t : wf t -> 0 <= writes (cp_ t) < 2 ^ 32.
Proof. intros [Hf _]. apply fields_fit_iff in Hf. unfold is_u32 in Hf. tauto. Qed.

Lemma power_cut_bounded n t d d' :
  Inv t d -> writes (cp_ t) + 1 < 2 ^ 32 -> power_cut n t d d' ->
  bounded CKPT_PATH_A CKPT_PATH_B ck_writes load_either (writes (stamp (cp_ t))) d'.
Proof.
  intros [Hwf Hb] Hlt Hcut. pose proof (fits_writes _ Hwf).
  eapply (write_bounded CKPT_PATH_A CKPT_PATH_B ck_writes load_either _
            (stamp (cp_ t), false)); [exact Hb| | |exact Hcut].
  - unfold ck_writes. simpl. rewrite stamp_writes; lia.
  - intros [x leg] Hx. apply load_either_bounded in Hx; [|by destruct Hwf].
    unfold ck_writes. simpl. lia.
Qed.

Lemma persist_wf t d : wf t -> wf (fst (persist_ t d)).
Proof. intros (? & ? & ?). split_and!; [by apply stamp_fit|done..]. Qed.

Lemma persist_Inv t d :
  Inv t d -> writes (cp_ t) + 1 < 2 ^ 32 -> Inv (fst (persist_ t d)) (snd (persist_ t d)).
Proof.
  intros HI Hlt. split; [apply persist_wf, HI|]. rewrite persist_cp.
  destruct (persist_disk t d) as [->|[n Hcut]]; [|by eapply power_cut_bounded].
  destruct HI as [Hwf Hb]. pose proof (fits_writes _ Hwf).
  eapply bounded_le; [exact Hb|]. rewrite stamp_writes; lia.
Qed.

(** A write that completes is what the next boot finds. *)
Lemma persist_synced t d :
  Inv t d -> writes (cp_ t) + 1 < 2 ^ 32 ->
  persisted (fst (persist_ t d)) (snd (persist_ t d)) ->
  is_synced (stamp (cp_ t), false) (snd (persist_ t d)).
Proof.
  intros HI Hlt Hp. pose proof HI as [Hwf Hb]. pose proof (fits_writes _ Hwf).
  assert (Hw : writes (stamp (cp_ t)) = writes (cp_ t) + 1) by (apply stamp_writes; lia).
  assert (Hload : load_either (Some (bytes_of (stamp (cp_ t)))) = Some (stamp (cp_ t), false))
    by (apply load_either_stamp, Hwf).
  unfold persisted in Hp. rewrite persist_cp in Hp.
  destruct (persist_disk t d) as [E|[n Hcut]].
  - rewrite E in Hp |- *. exfalso.
    assert (Hs : slot_load load_either
                   (slot CKPT_PATH_A CKPT_PATH_B (writes (stamp (cp_ t)))) d
                 = Some (stamp (cp_ t), false)).
    { unfold slot_load. by rewrite Hp. }
    apply Hb in Hs. unfold ck_writes in Hs. simpl in Hs. lia.
  - pose proof (proj1 Hcut) as Hcut'. rewrite Hp in Hcut'.
    eapply (write_synced CKPT_PATH_A CKPT_PATH_B paths_ne); [exact Hb| | |exact Hcut].
    + exact Hw.
    + by rewrite <- Hcut'.
Qed.

(** The state [begin] builds from what it recovers. *)
Definition booted (bootId : Z) (t : Totalizer) (c : Checkpoint) : Totalizer :=
  {| cp_ := Build_Checkpoint (magic c) (total_ c) bootId (seq c) (writes c)
              (q_segment c) (q_offset c) (crc32 c);
     base_ := total_ c; accumulated_ := accumulated_ t |}.

Lemma begin_recovered bd bootId t d (h : HW) c leg :
  recovered d = Some (c, leg) ->
  begin bd bootId t d h =
    (if leg then persist_ (booted bootId t c) d else (booted bootId t c, d), setupPCNT_ bd h).
Proof.
  intros Hr. unfold begin. unfold recover, slot_load in Hr. fold ck_writes.
  change (fun x : Checkpoint * bool => writes (fst x)) with ck_writes.
  rewrite Hr. unfold booted. destruct leg; simpl; [|done].
  done.
Qed.
(** What a boot starts from: the newest slot, or nothing on a new flash. *)
Definition finds (c : Checkpoint) (d : Disk) : Prop :=
  recovered d = Some (c, false) \/
  (recovered d = None /\ c = Build_Checkpoint CKPT_MAGIC 0 0 0 0 0 0 0).

Lemma begin_finds bd bootId t d (h : HW) c :
  finds c d -> begin bd bootId t d h = (booted bootId t c, d, setupPCNT_ bd h).
Proof.
  intros [Hr|[Hr ->]]; [exact (begin_recovered bd bootId t d h c false Hr)|].
  unfold begin. unfold recover, slot_load in Hr. fold ck_writes.
  change (fun x : Checkpoint * bool => writes (fst x)) with ck_writes.
  by rewrite Hr.
Qed.

Lemma load_either_fits c x leg : load_either c = Some (x, leg) -> fields_fit x.
Proof.
  unfold load_either, load_slot. destruct c as [c|]; simpl; [|done].
  destruct (load_bytes (R := Checkpoint) c) eqn:E1.
  - intros [= <- <-]. by apply load_bytes_inv in E1 as (_ & _ & ?).
  - destruct (load_bytes (R := LegacyCheckpoint) c) as [l|] eqn:E2; [|done]. intros [= <- <-].
    apply load_bytes_inv in E2 as (_ & _ & Hf).
    unfold fields_fit in Hf. simpl in Hf. rewrite !Forall2_cons in Hf. unfold fits in Hf.
    apply fields_fit_iff. simpl in *. unfold is_u32, is_u64. destruct_and?. split_and!; lia.
Qed.

Lemma recovered_fits d c leg : recovered d = Some (c, leg) -> fields_fit c.
Proof. intros Hr. apply newest_some_l in Hr as [Hr|Hr]; by eapply load_either_fits. Qed.

Lemma booted_Inv bootId d c leg :
  is_u32 bootId -> recovered d = Some (c, leg) -> Inv (booted bootId new_totalizer c) d.
Proof.
  intros Hb Hr. split; [|by apply recover_bounded in Hr].
  apply recovered_fits, fields_fit_iff in Hr. unfold wf, booted. simpl.
  rewrite fields_fit_iff. simpl. unfold is_u64 at 3. intuition lia.
Qed.

Lemma finds_wf bootId d c : is_u32 bootId -> finds c d -> wf (booted bootId new_totalizer c).
Proof.
  intros Hb [Hr|[_ ->]]; [by eapply booted_Inv|].
  unfold wf, booted. rewrite fields_fit_iff. cbn. unfold is_u32, is_u64 in *. lia.
Qed.

Lemma begin_Inv bd bootId d (h : HW) :
  is_u32 bootId -> bounded CKPT_PATH_A CKPT_PATH_B ck_writes load_either (2 ^ 32 - 2) d ->
  let '(t, d', _) := begin bd bootId new_totalizer d h in Inv t d'.
Proof.
  intros Hb Hw. destruct (recovered d) as [[c leg]|] eqn:Hr.
  - rewrite (begin_recovered _ _ _ _ _ _ _ Hr). pose proof (booted_Inv _ _ _ _ Hb Hr) as HI.
    destruct leg; [|done].
    assert (writes c + 1 < 2 ^ 32).
    { apply newest_some_l in Hr as [Hr|Hr]; [apply (Hw 1) in Hr|apply (Hw 0) in Hr];
        unfold ck_writes in Hr; simpl in Hr; lia. }
    by apply persist_Inv.
  - unfold begin. apply recover_none in Hr as [HA HB]. unfold slot_load in HA, HB.
    rewrite HA, HB. simpl. split.
    + unfold wf. rewrite fields_fit_iff. simpl. unfold is_u64, is_u32 in *. intuition lia.
    + by apply fresh_bounded.
Qed.

Lemma Inv_ram t t' d :
  Inv t d -> wf t' -> writes (cp_ t') = writes (cp_ t) -> Inv t' d.
Proof. intros [_ Hb] Hwf Hw. split; [done|]. by rewrite Hw. Qed.

Lemma service_ram_Inv sq acc tot t d :
  Inv t d -> is_u32 sq -> is_u64 acc -> is_u64 tot ->
  let c0 := cp_ t in
  Inv {| cp_ := Build_Checkpoint (magic c0) tot (boot_id c0) sq (writes c0) (q_segment c0)
                  (q_offset c0) (crc32 c0);
         base_ := base_ t; accumulated_ := acc |} d.
Proof.
  intros HI Hs Hacc Htot. eapply Inv_ram; [exact HI| |done].
  destruct HI as [(Hf & Hb & Ha) _]. apply fields_fit_iff in Hf.
  unfold wf. rewrite fields_fit_iff. simpl. intuition auto with covio.
Qed.

(** What [service] writes, and that a write that completes is recovered. *)
Lemma service_durable sq n1 n2 t d (h : HW) :
  Inv t d -> is_u32 sq -> writes (cp_ t) + 1 < 2 ^ 32 ->
  let '(t', d', _) := service sq n1 n2 t d h in
  Inv t' d' /\
  (forall p, p <> CKPT_PATH_A -> p <> CKPT_PATH_B -> lfs_read p d' = lfs_read p d) /\
  (persisted t' d' -> recovered d' = Some (cp_ t', false)).
Proof.
  intros HI Hs Hw. unfold service.
  destruct (if 30000 <=? _ then _ else _) as [acc h'] eqn:Eacc.
  assert (is_u64 acc).
  { revert Eacc. case_match; intros [= <- <-]; [auto with covio|apply HI]. }
  match goal with |- context [persist_ ?x d] => set (t0 := x) end.
  assert (HI0 : Inv t0 d) by (apply service_ram_Inv; auto with covio).
  pose proof (persist_Inv t0 d HI0 Hw) as Hp. pose proof (persist_synced t0 d HI0 Hw) as Hsync.
  pose proof (persist_cp t0 d) as Hcp. pose proof (persist_disk t0 d) as Hd.
  destruct (persist_ t0 d) as [t' d']. cbn [fst snd] in *. split; [exact Hp|split].
  - intros p HA HB. destruct Hd as [->|(n & Hcut)]; [done|]. apply Hcut.
    by destruct (slot_cases CKPT_PATH_A CKPT_PATH_B (writes (stamp (cp_ t0)))) as [-> | ->].
  - intros Hper. rewrite Hcp. by apply recover_synced, Hsync.
Qed.

Lemma service_Inv sq n1 n2 t d (h : HW) :
  Inv t d -> is_u32 sq -> writes (cp_ t) + 1 < 2 ^ 32 ->
  let '(t', d', _) := service sq n1 n2 t d h in Inv t' d'.
Proof.
  intros HI Hs Hw. pose proof (service_durable sq n1 n2 t d h HI Hs Hw) as Hd.
  destruct (service sq n1 n2 t d h) as [[t' d'] h']. apply Hd.
Qed.

Lemma setQueueOffset_Inv sg off t d :
  Inv t d -> is_u32 sg -> is_u32 off -> writes (cp_ t) + 1 < 2 ^ 32 ->
  Inv (fst (setQueueOffset sg off t d)) (snd (setQueueOffset sg off t d)).
Proof.
  intros HI Hs Ho Hw. apply persist_Inv; [|done]. eapply Inv_ram; [exact HI| |done].
  destruct HI as [(Hf & Hb & Ha) _]. apply fields_fit_iff in Hf.
  unfold wf. rewrite fields_fit_iff. simpl. tauto.
Qed.

Lemma injectSoftPulses_Inv n t d : Inv t d -> Inv (injectSoftPulses n t) d.
Proof.
  intros HI. eapply Inv_ram; [exact HI| |done].
  destruct HI as [(Hf & Hb & Ha) _]. split_and!; simpl; auto with covio.
Qed.

(** A torn write of [t]: the boot finds the record before it, or the new one. *)
Lemma power_cut_recovered n c old t d d' :
  wf t -> is_synced (c, old) d -> writes (cp_ t) = writes c -> writes c + 1 < 2 ^ 32 ->
  power_cut n t d d' ->
  recovered d' = Some (c, old) \/
  exists x leg, recovered d' = Some (x, leg) /\ total_ x = total_ (cp_ t) /\
    seq x = seq (cp_ t) /\ (n = 28 \/ 36 <= n)%nat.
Proof.
  intros Hwf Hs Hw Hlt Hcut. pose proof (fits_writes _ Hwf).
  assert (Hw' : writes (stamp (cp_ t)) = ck_writes (c, old) + 1)
    by (rewrite stamp_writes; unfold ck_writes; simpl; lia).
  destruct (load_either (Some (take n (bytes_of (stamp (cp_ t)))))) as [[x leg]|] eqn:El.
  - right. exists x, leg. pose proof (load_either_bounded _ _ _ _ (proj1 Hwf) El) as Hxw.
    assert (Hsy : is_synced (x, leg) d').
    { eapply write_synced; [apply paths_ne|by apply synced_bounded, Hs| |exact El|].
      - unfold ck_writes at 1. simpl. lia.
      - unfold ck_writes. simpl. rewrite Hxw. exact Hcut. }
    apply recover_synced in Hsy. split; [done|].
    destruct (decide (n < 36)%nat).
    + apply load_either_prefix in El as (-> & -> & ? & ? & _); [|by destruct Hwf|done]. auto.
    + rewrite take_ge in El by (rewrite length_bytes_of, sizeof_Checkpoint; lia).
      rewrite load_either_stamp in El by apply Hwf.
      injection El as <- <-. destruct (stamp_spec (cp_ t)) as (? & _ & ? & _).
      split_and!; [done..|lia].
  - left. apply recover_synced. eapply torn_write; [apply paths_ne|exact Hs|exact El|].
    unfold power_cut in Hcut. by rewrite Hw' in Hcut.
Qed.

(** What the rest of the firmware reads of a booted totalizer. *)
Definition reading (t : Totalizer) : Z * Z * Z * Z :=
  (base_ t, lastSeq t, queueOffsetSegment t, queueOffsetOffset t).

Definition values (c : Checkpoint) : Z * Z * Z * Z :=
  (total_ c, seq c, q_segment c, q_offset c).

Lemma values_stamp c : values (stamp c) = values c.
Proof. unfold values. by destruct (stamp_spec c) as (-> & _ & -> & _ & -> & ->). Qed.

Lemma begin_reading bd bootId d (h : HW) c leg :
  recovered d = Some (c, leg) ->
  let '(t, _, h') := begin bd bootId new_totalizer d h in
  reading t = values c /\ total t h' = u64 (total_ c).
Proof.
  intros Hr. rewrite (begin_recovered _ _ _ _ _ _ _ Hr).
  assert (Hh : pcnt_get_counter_value (setupPCNT_ bd h) = 0)
    by (unfold setupPCNT_; by rewrite pcnt_resume_law, pcnt_clear_law).
  assert (Hrd : reading (fst (persist_ (booted bootId new_totalizer c) d)) = values c).
  { pose proof (stamp_spec (cp_ (booted bootId new_totalizer c)))
      as (_ & _ & Hv1 & _ & Hv2 & Hv3).
    unfold reading, lastSeq, queueOffsetSegment, queueOffsetOffset.
    rewrite persist_cp, Hv1, Hv2, Hv3. done. }
  unfold total. rewrite Hh. destruct leg.
  - destruct (persist_ (booted bootId new_totalizer c) d) as [t d'] eqn:Hp. split; [done|].
    injection Hp as <- <-. simpl. by rewrite !Z.add_0_r.
  - split; [done|]. simpl. by rewrite !Z.add_0_r.
Qed.

(** A checkpoint write that completes is found by the next boot. *)
Theorem checkpoint_survives_reboot bd bootId t t' d d' (h : HW) :
  Inv t d -> writes (cp_ t) + 1 < 2 ^ 32 ->
  persist_ t d = (t', d') -> persisted t' d' ->
  let '(tb, db, hb) := begin bd bootId new_totalizer d' h in
  reading tb = values (cp_ t) /\ total tb hb = total_ (cp_ t) /\ db = d' /\
  (is_u32 bootId -> Inv tb db).
Proof.
  intros HI Hw Hp Hd.
  assert (Hr : recovered d' = Some (stamp (cp_ t), false)).
  { apply recover_synced. replace d' with (snd (persist_ t d)) by by rewrite Hp.
    apply persist_synced; [done..|]. by rewrite Hp. }
  pose proof (begin_reading bd bootId _ h _ _ Hr) as Hb.
  rewrite (begin_recovered _ _ _ _ _ _ _ Hr) in *. rewrite values_stamp in Hb.
  destruct Hb as [-> ->]. destruct (stamp_spec (cp_ t)) as (-> & _).
  split_and!; [done| |done|].
  - apply u64_small. destruct HI as [[Hf _] _]. apply fields_fit_iff in Hf. apply Hf.
  - intros. by eapply booted_Inv.
Qed.

(** C12: power failing after any number of bytes of a checkpoint write. *)
Theorem torn_checkpoint_recovers bd bootId t0 t1 t2 d0 d1 d2 n (h : HW) :
  Inv t0 d0 -> writes (cp_ t0) + 2 < 2 ^ 32 ->
  persist_ t0 d0 = (t1, d1) -> persisted t1 d1 ->
  wf t2 -> writes (cp_ t2) = writes (cp_ t1) -> power_cut n t2 d1 d2 ->
  let '(tb, _, _) := begin bd bootId new_totalizer d2 h in
  reading tb = values (cp_ t1) \/
  (base_ tb = total_ (cp_ t2) /\ lastSeq tb = seq (cp_ t2) /\ (n = 28 \/ 36 <= n)%nat).
Proof.
  intros HI Hw Hp Hd Hwf Hw2 Hcut. pose proof (fits_writes _ (proj1 HI)).
  assert (Ht1 : cp_ t1 = stamp (cp_ t0)) by (by rewrite <- (persist_cp t0 d0), Hp).
  assert (Hs : is_synced (stamp (cp_ t0), false) d1).
  { replace d1 with (snd (persist_ t0 d0)) by by rewrite Hp.
    apply persist_synced; [done|lia|]. by rewrite Hp. }
  rewrite Ht1 in Hw2 |- *. assert (writes (stamp (cp_ t0)) + 1 < 2 ^ 32)
    by (rewrite stamp_writes; lia).
  pose proof (power_cut_recovered n _ _ _ _ _ Hwf Hs Hw2 ltac:(done) Hcut)
    as [Hr|(x & leg & Hr & Hx & Hq & Hn)];
    pose proof (begin_reading bd bootId _ h _ _ Hr) as Hb;
    destruct (begin _ _ _ d2 h) as [[tb db] hb]; destruct Hb as [Hb _]; [by left|right].
  unfold reading, values in Hb. rewrite Hx, Hq in Hb.
  by simplify_eq.
Qed.

Lemma load_either_legacy (l : LegacyCheckpoint) :
  fields_fit l -> load_either (Some (bytes_of (seal l))) = Some (upconvert (seal l), true).
Proof.
  intros Hf. unfold load_either, load_slot. simpl.
  rewrite load_bytes_seal; [done|apply CKPT_MAGIC_fits|done].
Qed.

Lemma seal_legacy l :
  l_total (seal l) = l_total l /\ l_seq (seal l) = l_seq l /\ l_writes (seal l) = l_writes l.
Proof.
  pose proof (seal_fields (R := LegacyCheckpoint) l) as Hs. revert Hs.
  generalize (seal l). simpl. intros s Hs. by simplify_eq.
Qed.

(** A slot that holds a pre-Phase-2 record, the other slot nothing. *)
Definition legacy_only (l : LegacyCheckpoint) (d : Disk) : Prop :=
  lfs_read (slot CKPT_PATH_A CKPT_PATH_B (l_writes l)) d = Some (bytes_of (seal l)) /\
  lfs_read (slot CKPT_PATH_A CKPT_PATH_B (l_writes l + 1)) d = None.

Lemma legacy_synced l d :
  fields_fit l -> legacy_only l d -> is_synced (upconvert (seal l), true) d.
Proof.
  intros Hf [Hl Ho]. destruct (seal_legacy l) as (_ & _ & Hw).
  unfold synced, slot_load, ck_writes. simpl. rewrite Hw, Hl, Ho.
  split; [by apply load_either_legacy|done].
Qed.

(** C26: the boot after the upgrade keeps the legacy total, and so does every
    later boot however much of the re-persist reached flash. *)
Theorem legacy_checkpoint_migrates bd bd' bootId bootId' l d d2 n (h h' : HW) :
  fields_fit l -> l_writes l + 1 < 2 ^ 32 -> is_u32 bootId -> legacy_only l d ->
  let '(t1, d1, _) := begin bd bootId new_totalizer d h in
  (base_ t1 = l_total l /\ lastSeq t1 = l_seq l /\
   queueOffsetSegment t1 = 0 /\ queueOffsetOffset t1 = 0 /\ Inv t1 d1) /\
  (power_cut n (booted bootId new_totalizer (upconvert (seal l))) d d2 ->
   let '(t2, _, _) := begin bd' bootId' new_totalizer d2 h' in
   base_ t2 = l_total l /\ lastSeq t2 = l_seq l).
Proof.
  intros Hf Hw Hb Hl. pose proof (legacy_synced _ _ Hf Hl) as Hs.
  destruct (seal_legacy l) as (Ht & Hq & Hws).
  pose proof (recover_synced CKPT_PATH_A CKPT_PATH_B ck_writes load_either _ _ Hs) as Hr.
  pose proof (booted_Inv _ _ _ _ Hb Hr) as HI.
  pose proof (begin_reading bd bootId _ h _ _ Hr) as Hrd.
  rewrite (begin_recovered _ _ _ _ _ _ _ Hr) in *.
  destruct (persist_ (booted bootId new_totalizer (upconvert (seal l))) d) as [t1 d1] eqn:Hp.
  split.
  - assert (Hi : Inv t1 d1).
    { replace t1 with (fst (persist_ (booted bootId new_totalizer (upconvert (seal l))) d))
        by by rewrite Hp.
      replace d1 with (snd (persist_ (booted bootId new_totalizer (upconvert (seal l))) d))
        by by rewrite Hp.
      apply persist_Inv; [done|]. simpl. by rewrite Hws. }
    destruct Hrd as [Hrd _]. unfold reading, values, upconvert in Hrd. simpl in Hrd.
    rewrite Ht, Hq in Hrd. by simplify_eq.
  - intros Hcut.
    assert (Hlt : writes (upconvert (seal l)) + 1 < 2 ^ 32) by (simpl; by rewrite Hws).
    destruct (power_cut_recovered n _ _ _ d d2 (proj1 HI) Hs eq_refl Hlt Hcut)
      as [Hr2|(x & leg & Hr2 & Hx & Hxq & _)];
      pose proof (begin_reading bd' bootId' _ h' _ _ Hr2) as Hb2;
      destruct (begin _ _ _ d2 h') as [[t2 db] hb]; destruct Hb2 as [Hb2 _];
      unfold reading, values, upconvert in Hb2; simpl in Hb2.
    + rewrite Ht, Hq in Hb2. by simplify_eq.
    + rewrite Hx, Hxq in Hb2. simpl in Hb2. rewrite Ht, Hq in Hb2. by simplify_eq.
Qed.

(** C25: what every method keeps true, whatever the flash does. *)
Theorem totalizer_invariant bd bootId sq sg off n1 n2 soft t d (h : HW) :
  is_u32 bootId -> is_u32 sq -> is_u32 sg -> is_u32 off ->
  bounded CKPT_PATH_A CKPT_PATH_B ck_writes load_either (2 ^ 32 - 2) d ->
  (let '(tb, db, _) := begin bd bootId new_totalizer d h in Inv tb db) /\
  (Inv t d -> writes (cp_ t) + 1 < 2 ^ 32 ->
   (let '(ts, ds, _) := service sq n1 n2 t d h in Inv ts ds) /\
   (let '(tq, dq) := setQueueOffset sg off t d in Inv tq dq) /\
   Inv (injectSoftPulses soft t) d).
Proof.
  intros Hb Hs Hg Ho Hd. split; [by apply begin_Inv|]. intros HI Hw. split_and!.
  - by apply service_Inv.
  - pose proof (setQueueOffset_Inv sg off _ _ HI Hg Ho Hw). by destruct (setQueueOffset _ _ t d).
  - by apply injectSoftPulses_Inv.
Qed.

(** After a checkpoint whose open failed, the next one is written over the
    newest good copy; cut short, only the older slot is left. *)
Theorem open_failure_exposes_newest bd bootId t0 t1 t3 d0 d1 df d2 n (h : HW) :
  Inv t0 d0 -> writes (cp_ t0) + 3 < 2 ^ 32 ->
  persist_ t0 d0 = (t1, d1) -> persisted t1 d1 ->
  same_files d1 df -> (forall p bs, lfs_rewrite p bs df = None) ->
  wf t3 -> writes (cp_ t3) = writes (cp_ (fst (persist_ t1 df))) ->
  power_cut n t3 (snd (persist_ t1 df)) d2 -> (n < 28)%nat ->
  let other := slot CKPT_PATH_A CKPT_PATH_B (writes (cp_ t0)) in
  base_ (fst (fst (begin bd bootId new_totalizer d2 h))) =
  match load_either (lfs_read other d0) with Some (c, _) => total_ c | None => 0 end.
Proof.
  intros HI Hw Hp Hd Hsame Hfail Hwf Hw3 Hcut Hn other. pose proof (fits_writes _ (proj1 HI)).
  assert (Ht1 : cp_ t1 = stamp (cp_ t0)) by (by rewrite <- (persist_cp t0 d0), Hp).
  assert (Hw1 : writes (cp_ t1) = writes (cp_ t0) + 1) by (rewrite Ht1; apply stamp_writes; lia).
  assert (Hd1 : snd (persist_ t1 df) = df) by (unfold persist_; simpl; by rewrite Hfail).
  rewrite Hd1 in Hcut. rewrite persist_cp, stamp_writes in Hw3 by lia.
  assert (Hw4 : writes (stamp (cp_ t3)) = writes (cp_ t0) + 1 + 2)
    by (rewrite stamp_writes; lia).
  unfold power_cut in Hcut. rewrite Hw4, slot_step2 in Hcut.
  assert (Ho : lfs_read other d2 = lfs_read other d0).
  { transitivity (lfs_read other d1).
    - rewrite <- Hsame. apply Hcut. apply not_eq_sym, slot_step. apply paths_ne.
    - destruct (persist_disk t0 d0) as [E|[m E]]; rewrite Hp in E; simpl in E; [by rewrite E|].
      unfold power_cut in E. rewrite stamp_writes in E by lia.
      apply E. apply not_eq_sym, slot_step. apply paths_ne. }
  assert (Hr : recovered d2 = load_either (lfs_read other d0)).
  { rewrite (recover_one _ _ _ _ (writes (cp_ t0) + 1)).
    - replace (writes (cp_ t0) + 1 + 1) with (writes (cp_ t0) + 2) by lia.
      unfold slot_load. rewrite slot_step2. by fold other; rewrite Ho.
    - unfold slot_load. rewrite (proj1 Hcut).
      destruct (load_either _) as [[x leg]|] eqn:E; [|done].
      apply load_either_prefix in E as (-> & _); [lia|apply Hwf|lia]. }
  destruct (load_either (lfs_read other d0)) as [[c leg]|].
  - pose proof (begin_reading bd bootId _ h _ _ Hr) as Hb.
    destruct (begin _ _ _ d2 h) as [[tb db] hb]. destruct Hb as [Hb _].
    unfold reading, values in Hb. by simplify_eq.
  - apply recover_none in Hr as [HA HB]. unfold begin, slot_load in *. by rewrite HA, HB.
Qed.
End recovery.

(** ** The totalizer as the queue's checkpoint *)

#[global] Instance Totalizer_checkpoint `{LittleFS Disk} :
    IQueueOffsetCheckpoint Totalizer Disk := {
  setQueueOffset := setQueueOffset;
  queueOffsetSegment := queueOffsetSegment;
  queueOffsetOffset := queueOffsetOffset;
}.

#[global] Instance Totalizer_checkpoint_laws `{LittleFSLaws Disk} :
  QueueOffsetLaws Totalizer Disk (fun p => p = CKPT_PATH_A \/ p = CKPT_PATH_B).
Proof.
  split.
  - intros s o t fs.
    by destruct (stamp_spec (with_offset s o (cp_ t))) as (_ & _ & _ & _ & E & _).
  - intros s o t fs.
    by destruct (stamp_spec (with_offset s o (cp_ t))) as (_ & _ & _ & _ & _ & E).
  - intros s o t fs p Hp.
    destruct (persist_disk (with_cp (with_offset s o (cp_ t)) t) fs) as [E|[n Hcut]].
    + change (lfs_read p (snd (persist_ (with_cp (with_offset s o (cp_ t)) t) fs))
              = lfs_read p fs). by rewrite E.
    + apply Hcut. intros ->. apply Hp. apply slot_cases.
Qed.

(** ** Where the edges go *)

Section accounting.
Context {HW Disk : Type} `{PcntLaws HW} `{LittleFS Disk}.

(** What happens to the meter between boots. *)
Inductive event :=
  | Edges (n : nat)                     (* the hardware counts [n] edges *)
  | Service (sq : Z) (n1 n2 : nat)      (* service(), edges inside it *)
  | Soft (n : Z)                        (* injectSoftPulses() *)
  | Offset (sg off : Z).                (* setQueueOffset() *)

Definition tstep (e : event) (st : Totalizer * Disk * HW) : Totalizer * Disk * HW :=
  let '(t, d, h) := st in
  match e with
  | Edges n => (t, d, pcnt_edges n h)
  | Service sq n1 n2 => service sq n1 n2 t d h
  | Soft n => (injectSoftPulses n t, d, h)
  | Offset sg off => (setQueueOffset sg off t d, h)
  end.

Definition run (es : list event) (st : Totalizer * Disk * HW) : Totalizer * Disk * HW :=
  foldl (fun st e => tstep e st) st es.

(** The pulses an event brings in. *)
Definition gained (e : event) : Z :=
  match e with
  | Edges n => Z.of_nat n
  | Service _ n1 n2 => Z.of_nat n1 + Z.of_nat n2
  | Soft n => n
  | Offset _ _ => 0
  end.

(** Edges that disappear when the 15-bit counter returns to 0 from [c]. *)
Definition wrapped (c : Z) (n : nat) : Z := 32767 * ((c + Z.of_nat n) / 32767).

(** The pulses an event loses: wraps of the counter, and the edges that
    arrive between the read of a drain and its clear. *)
Definition lost (e : event) (h : HW) : Z :=
  let c := pcnt_get_counter_value h in
  match e with
  | Edges n => wrapped c n
  | Service _ n1 n2 =>
      if 30000 <=? c then Z.of_nat n1 + wrapped 0 n2
      else wrapped c n1 + wrapped (pcnt_get_counter_value (pcnt_edges n1 h)) n2
  | Soft _ | Offset _ _ => 0
  end.

Fixpoint run_lost (es : list event) (st : Totalizer * Disk * HW) : Z :=
  match es with
  | [] => 0
  | e :: es => lost e (snd st) + run_lost es (tstep e st)
  end.

Definition run_gained (es : list event) : Z := foldr (fun e z => gained e + z) 0 es.

Definition meter (st : Totalizer * Disk * HW) : Z :=
  let '(t, _, h) := st in total t h.

Lemma counter_u16 (h : HW) : u16 (pcnt_get_counter_value h) = pcnt_get_counter_value h.
Proof. apply u16_small. pose proof (pcnt_range h). lia. Qed.

Lemma edges_count n (h : HW) :
  pcnt_get_counter_value (pcnt_edges n h) =
  pcnt_get_counter_value h + Z.of_nat n - wrapped (pcnt_get_counter_value h) n.
Proof. rewrite pcnt_edges_law. unfold wrapped. rewrite Z.mod_eq; lia. Qed.

Lemma u64_cong a b k : a = b + 2 ^ 64 * k -> u64 a = u64 b.
Proof. intros ->. unfold u64. rewrite Z.mul_comm. apply Z_mod_plus_full. Qed.

Lemma u64_unwrap z : exists k, u64 z = z + 2 ^ 64 * k.
Proof. exists (- (z / 2 ^ 64)). unfold u64. rewrite Z.mod_eq; lia. Qed.

Lemma tstep_meter e st :
  exists k, meter (tstep e st) = meter st + gained e - lost e (snd st) + 2 ^ 64 * k.
Proof.
  destruct st as [[t d] h]. unfold meter, total.
  destruct e as [n|sq n1 n2|n|sg off]; simpl.
  - rewrite !counter_u16, edges_count.
    destruct (u64_unwrap (base_ t + accumulated_ t + pcnt_get_counter_value h)) as [k1 ->].
    match goal with |- context [u64 ?z] => destruct (u64_unwrap z) as [k2 ->] end.
    exists (k2 - k1). lia.
  - unfold service, lost. rewrite !counter_u16.
    destruct (30000 <=? pcnt_get_counter_value h); simpl;
      rewrite ?counter_u16, !edges_count, ?pcnt_clear_law.
    + destruct (u64_unwrap (accumulated_ t + pcnt_get_counter_value h)) as [k0 ->].
      destruct (u64_unwrap (base_ t + accumulated_ t + pcnt_get_counter_value h)) as [k1 ->].
      match goal with |- context [u64 ?z] => destruct (u64_unwrap z) as [k2 ->] end.
      exists (k2 + k0 - k1). lia.
    + destruct (u64_unwrap (base_ t + accumulated_ t + pcnt_get_counter_value h)) as [k1 ->].
      match goal with |- context [u64 ?z] => destruct (u64_unwrap z) as [k2 ->] end.
      exists (k2 - k1). lia.
  - rewrite !counter_u16. destruct (u64_unwrap (accumulated_ t + n)) as [k0 ->].
    destruct (u64_unwrap (base_ t + accumulated_ t + pcnt_get_counter_value h)) as [k1 ->].
    match goal with |- context [u64 ?z] => destruct (u64_unwrap z) as [k2 ->] end.
    exists (k2 + k0 - k1). lia.
  - exists 0. rewrite Z.sub_0_r. lia.
Qed.

Lemma run_meter es st :
  exists k, meter (run es st) = meter st + run_gained es - run_lost es st + 2 ^ 64 * k.
Proof.
  revert st. induction es as [|e es IH]; intros st; simpl; [exists 0; lia|].
  destruct (IH (tstep e st)) as [k1 Hk1], (tstep_meter e st) as [k2 Hk2].
  exists (k1 + k2). unfold run in *. simpl. lia.
Qed.

Lemma meter_u64 st : u64 (meter st) = meter st.
Proof. destruct st as [[t d] h]. unfold meter, total. apply u64_small, u64_range. Qed.

(** C13: exact accounting of every edge over any run. *)
Theorem pulse_accounting es st :
  meter (run es st) = u64 (meter st + run_gained es - run_lost es st).
Proof.
  rewrite <- meter_u64. destruct (run_meter es st) as [k Hk].
  by apply (u64_cong _ _ k).
Qed.

(** Polling rounds: [n] edges, then a service() with none inside it. *)
Definition rounds (ns : list (nat * Z)) : list event :=
  ns ≫= (fun r => [Edges (fst r); Service (snd r) 0 0]).

Definition counter (st : Totalizer * Disk * HW) : Z := pcnt_get_counter_value (snd st).

Lemma wrapped_none c n : 0 <= c -> c + Z.of_nat n < 32767 -> wrapped c n = 0.
Proof. intros. unfold wrapped. rewrite Z.div_small; lia. Qed.

Lemma edges_none (h : HW) :
  pcnt_get_counter_value (pcnt_edges 0 h) = pcnt_get_counter_value h.
Proof. rewrite edges_count, wrapped_none; pose proof (pcnt_range h); lia. Qed.

Lemma service_calm sq t d (h : HW) :
  lost (Service sq 0 0) h = 0 /\ counter (tstep (Service sq 0 0) (t, d, h)) < 30000.
Proof.
  pose proof (pcnt_range h). unfold counter. simpl. unfold service.
  rewrite counter_u16. destruct (Z.leb_spec 30000 (pcnt_get_counter_value h)); simpl.
  - rewrite edges_none, pcnt_clear_law, wrapped_none; lia.
  - rewrite !edges_none, !wrapped_none; lia.
Qed.

Lemma round_calm n sq st :
  counter st < 30000 -> (n <= 2767)%nat ->
  run_lost [Edges n; Service sq 0 0] st = 0 /\
  counter (run [Edges n; Service sq 0 0] st) < 30000.
Proof.
  destruct st as [[t d] h]. intros Hc Hn. change (pcnt_get_counter_value h < 30000) in Hc.
  pose proof (pcnt_range h). destruct (service_calm sq t d (pcnt_edges n h)) as [Hl Hs].
  split; [|exact Hs]. cbn [run_lost snd tstep]. rewrite Hl. unfold lost.
  rewrite wrapped_none; lia.
Qed.

Lemma run_lost_app es1 es2 st :
  run_lost (es1 ++ es2) st = run_lost es1 st + run_lost es2 (run es1 st).
Proof.
  revert st. induction es1 as [|e es1 IH]; intros st; simpl; [done|].
  rewrite IH. unfold run. simpl. lia.
Qed.

Lemma rounds_calm ns st :
  counter st < 30000 -> Forall (fun r => (fst r <= 2767)%nat) ns ->
  run_lost (rounds ns) st = 0.
Proof.
  intros Hc Hns. revert st Hc. induction Hns as [|[n sq] ns Hn _ IH]; intros st Hc; [done|].
  destruct (round_calm n sq st Hc Hn) as [Hl Hc']. specialize (IH _ Hc').
  change (rounds ((n, sq) :: ns)) with ([Edges n; Service sq 0 0] ++ rounds ns).
  by rewrite run_lost_app, Hl, IH.
Qed.

Lemma rounds_gained ns :
  run_gained (rounds ns) = foldr (fun r z => Z.of_nat (fst r) + z) 0 ns.
Proof.
  induction ns as [|[n sq] ns IH]; [done|].
  change (rounds ((n, sq) :: ns)) with ([Edges n; Service sq 0 0] ++ rounds ns).
  unfold run_gained in *. rewrite foldr_app, IH. unfold gained. simpl. lia.
Qed.


(** The bound is tight: one more edge in a gap, and a whole turn of the
    counter can be missing from the total. *)
Theorem pulse_gap_loses_turn sq t d (h : HW) :
  pcnt_get_counter_value h = 29999 -> is_u64 (base_ t) -> accumulated_ t = 0 ->
  base_ t + 32767 < 2 ^ 64 ->
  meter (run (rounds [(2768%nat, sq)]) (t, d, h)) = meter (t, d, h) - 29999.
Proof.
  intros Hc Hb Ha Hlt. rewrite <- meter_u64.
  destruct (run_meter (rounds [(2768%nat, sq)]) (t, d, h)) as [k Hk].
  destruct (service_calm sq t d (pcnt_edges 2768 h)) as [Hl _].
  assert (Hm : meter (t, d, h) = base_ t + 29999).
  { unfold meter, total. rewrite Ha, counter_u16, Hc, Z.add_0_r. apply u64_small.
    unfold is_u64 in Hb. lia. }
  assert (Hlost : run_lost (rounds [(2768%nat, sq)]) (t, d, h) = 32767).
  { cbn [run_lost rounds snd tstep mbind list_bind app fst]. rewrite Hl. unfold lost.
    rewrite Hc. reflexivity. }
  rewrite Hlost, Hm in Hk. rewrite Hm.
  rewrite (u64_cong _ (base_ t) k).
  - rewrite u64_small by exact Hb. lia.
  - rewrite Hk. unfold run_gained, gained. simpl. lia.
Qed.
End accounting.

(** ** A pulse counter, and the theorems at concrete runs *)

#[global] Instance Z_pcnt : Pcnt Z := {
  pinMode_pullup _ h := h;
  pcnt_unit_config _ h := h;
  pcnt_set_filter_value _ h := h;
  pcnt_filter_enable h := h;
  pcnt_counter_pause h := h;
  pcnt_counter_clear _ := 0;
  pcnt_counter_resume h := h;
  pcnt_get_counter_value h := h mod 32767;
  pcnt_edges n h := (h + Z.of_nat n) mod 32767;
}.

#[global] Instance Z_pcnt_laws : PcntLaws Z.
Proof.
  split; simpl; intros.
  - by apply Z.mod_pos_bound.
  - done.
  - done.
  - by rewrite Z.mod_mod, Z.add_mod_idemp_l by done.
Qed.

Definition sample : Totalizer :=
  Build_Totalizer (Build_Checkpoint CKPT_MAGIC 123456 7 42 0 3 1800 0) 120000 3456.

Lemma sample_Inv : Inv sample mem_empty.
Proof.
  split; [|by apply fresh_bounded]. unfold wf. rewrite fields_fit_iff.
  unfold is_u32, is_u64. simpl. lia.
Qed.

Definition sample1 : Totalizer := Eval vm_compute in fst (persist_ sample mem_empty).
Definition disk1 : MemFs := Eval vm_compute in snd (persist_ sample mem_empty).

Lemma sample1_eq : persist_ sample mem_empty = (sample1, disk1).
Proof. by vm_compute. Qed.

Lemma sample1_persisted : persisted sample1 disk1.
Proof. by vm_compute. Qed.

Lemma checkpoint_survives_reboot_witness :
  let '(tb, _, _) := begin default_build 8 new_totalizer disk1 5 in
  reading tb = (123456, 42, 3, 1800).
Proof.
  pose proof (checkpoint_survives_reboot default_build 8 sample sample1 mem_empty disk1 5
                sample_Inv ltac:(done) sample1_eq sample1_persisted) as H.
  destruct (begin _ _ _ _ _) as [[tb db] hb]. exact (proj1 H).
Defined.

(** The next checkpoint, counting 50 pulses more. *)
Definition sample2 : Totalizer :=
  with_cp (Build_Checkpoint CKPT_MAGIC 123506 7 43 (writes (cp_ sample1)) 3 1836 0) sample1.

Lemma sample2_wf : wf sample2.
Proof. unfold wf. rewrite fields_fit_iff. unfold is_u32, is_u64. simpl. lia. Qed.

Definition cut_disk (n : nat) : MemFs :=
  mem_set CKPT_PATH_B (take n (bytes_of (stamp (cp_ sample2)))) disk1.

Lemma cut_disk_cut n : power_cut n sample2 disk1 (cut_disk n).
Proof. apply mem_set_only. Qed.

Lemma torn_checkpoint_recovers_witness :
  let '(tb, _, _) := begin default_build 8 new_totalizer (cut_disk 20) 0 in
  reading tb = (123456, 42, 3, 1800) \/
  (base_ tb = 123506 /\ lastSeq tb = 43 /\ (20 = 28 \/ 36 <= 20)%nat).
Proof.
  apply (torn_checkpoint_recovers default_build 8 sample sample1 sample2 mem_empty disk1
           (cut_disk 20) 20 0 sample_Inv); [done|apply sample1_eq|apply sample1_persisted|
           apply sample2_wf|done|apply cut_disk_cut].
Defined.

Definition legacy1 : LegacyCheckpoint := Build_LegacyCheckpoint 0 987654321 3 100 5 0.

Lemma legacy1_fits : fields_fit legacy1.
Proof. unfold fields_fit. simpl. rewrite !Forall2_cons, Forall2_nil. unfold fits. simpl. lia. Qed.

Definition legacy_disk : MemFs := mem_set CKPT_PATH_A (bytes_of (seal legacy1)) mem_empty.

Lemma legacy_checkpoint_migrates_witness :
  let '(t1, _, _) := begin default_build 4 new_totalizer legacy_disk 0 in
  base_ t1 = 987654321 /\ lastSeq t1 = 100.
Proof.
  pose proof (legacy_checkpoint_migrates default_build default_build 4 5 legacy1 legacy_disk
                legacy_disk 0 0 0 legacy1_fits ltac:(done) ltac:(done) ltac:(done)) as H.
  destruct (begin _ 4 _ _ _) as [[t1 d1] h1]. destruct H as [(Hb & Hq & _) _].
  split; [exact Hb|exact Hq].
Defined.

Lemma totalizer_invariant_witness :
  let '(ts, ds, _) := service 9 1 2 sample mem_empty 5 in Inv ts ds.
Proof.
  refine (proj1 (proj2 (totalizer_invariant default_build 8 9 0 36 1 2 6 sample mem_empty 5
            _ _ _ _ _) sample_Inv _)); by unfold is_u32.
Defined.

Definition failing (d : MemFs) : MemFs :=
  {| mf_files := mf_files d; mf_cap := mf_cap d; mf_fail := true |}.

Lemma failing_rewrite d p bs : lfs_rewrite p bs (failing d) = None.
Proof. done. Qed.
Definition sample3 : Totalizer :=
  with_cp (Build_Checkpoint CKPT_MAGIC 123556 7 44 (writes (cp_ sample1) + 1) 3 1872 0) sample1.

Lemma sample3_wf : wf sample3.
Proof. unfold wf. rewrite fields_fit_iff. unfold is_u32, is_u64. simpl. lia. Qed.

(** The first checkpoint of a meter, then a failed open, then a cut: the
    lifetime total is gone. *)
Lemma open_failure_exposes_newest_witness :
  base_ (fst (fst (begin default_build 8 new_totalizer
    (mem_set CKPT_PATH_A (take 20 (bytes_of (stamp (cp_ sample3)))) (failing disk1)) 0))) = 0.
Proof.
  apply (open_failure_exposes_newest default_build 8 sample sample1 sample3 mem_empty disk1
           (failing disk1) _ 20 0 sample_Inv);
    [done|apply sample1_eq|apply sample1_persisted|done|apply failing_rewrite
    |apply sample3_wf|done|apply mem_set_only|lia].
Defined.


Lemma pulse_gap_loses_turn_witness :
  meter (run (rounds [(2768%nat, 1)]) (injectSoftPulses (2 ^ 64 - 3456) sample, mem_empty, 29999))
  = meter (injectSoftPulses (2 ^ 64 - 3456) sample, mem_empty, 29999) - 29999.
Proof.
  apply (pulse_gap_loses_turn 1 (injectSoftPulses (2 ^ 64 - 3456) sample) mem_empty 29999);
    [done|unfold is_u64; simpl; lia|done|simpl; lia].
Defined.
(** A drain with two edges in its window: exactly those two are missing. *)
Lemma pulse_accounting_witness :
  meter (run [Edges 2000; Service 1 2 5; Soft 3] (sample, mem_empty, 29000)) =
  u64 (meter (sample, mem_empty, 29000) + 2010 - 2).
Proof. exact (pulse_accounting [Edges 2000; Service 1 2 5; Soft 3] (sample, mem_empty, 29000)). Defined.

End Tot.
