(* ===== verification/QueueData.v ===== *)
(** * Records and file names of the telemetry queue (queue.h)

    The three packed structs (QRow, AckRec, FailureState), the enumerations,
    the segment file names and the capacity alarm. *)

From S2P Require Import Prelude Config Arduino Crc32 Records Storage.
Open Scope Z_scope.

Definition QROW_MAGIC : Z := 0x51524F57.
Definition ACK_MAGIC : Z := 0xAC4ED000.
Definition FAIL_MAGIC : Z := 0xFA17ED00.
Definition LOG_PATH : string := "/queue/log.bin".
Definition ACK_PATH_A : string := "/queue/ackA.bin".
Definition ACK_PATH_B : string := "/queue/ackB.bin".
Definition FAIL_PATH_A : string := "/queue/failA.bin".
Definition FAIL_PATH_B : string := "/queue/failB.bin".

Definition SCHEMA_VERSION_CURRENT : Z := 1.
Definition RECORD_TYPE_TELEMETRY : Z := 1.

Definition QUALITY_OK : Z := 0x0000.
Definition QUALITY_BACKLOG_HIGH : Z := 0x0001.
Definition QUALITY_TIME_UNSYNCED : Z := 0x0002.
Definition QUALITY_SUSPECT_RATE : Z := 0x0004.
Definition QUALITY_SENSOR_SUSPECT : Z := 0x0008.

(** ** Capacity alarm *)

Inductive QueueCapacityAlarm :=
  | QCAP_NONE | QCAP_WARNING_80 | QCAP_WARNING_90 | QCAP_CRITICAL_95 | QCAP_CRITICAL_100.

Definition capacityAlarmLevel (pctUsed : f32) : QueueCapacityAlarm :=
  if f32_ge pctUsed (f32_of_Z 100) then QCAP_CRITICAL_100
  else if f32_ge pctUsed (f32_of_Z 95) then QCAP_CRITICAL_95
  else if f32_ge pctUsed (f32_of_Z 90) then QCAP_WARNING_90
  else if f32_ge pctUsed (f32_of_Z 80) then QCAP_WARNING_80
  else QCAP_NONE.

Inductive QueueFailCode := QFAIL_NONE | QFAIL_SEGMENT_OPEN | QFAIL_TRUNCATE | QFAIL_WRITE_SHORT.

#[export] Instance QueueFailCode_eq : EqDecision QueueFailCode.
Proof. solve_decision. Defined.

(** The enumerator's value, as stored in [last_error_code]. *)
Definition fail_code_value (c : QueueFailCode) : Z :=
  match c with
  | QFAIL_NONE => 0 | QFAIL_SEGMENT_OPEN => 1 | QFAIL_TRUNCATE => 2 | QFAIL_WRITE_SHORT => 3
  end.

(** [failCodeStr_((QueueFailCode)code)] *)
Definition failCodeStr_ (code : Z) : string :=
  if code =? 1 then "segment_open_failed"
  else if code =? 2 then "truncate_failed"
  else if code =? 3 then "write_failed_or_short"
  else "none".

(** ** The structs *)

Record QRow := {
  r_magic : Z;
  schema_version : Z;
  record_type : Z;
  r_boot_id : Z;
  r_seq : Z;
  ts : Z;
  totalizer : Z;
  quality : Z;
  rssi_abs : Z;
  r_crc32 : Z;
}.

Record AckRec := {
  a_magic : Z;
  acked_seq : Z;
  a_boot_id : Z;
  a_writes : Z;
  cursor_segment : Z;
  cursor_offset : Z;
  a_crc32 : Z;
}.

Record FailureState := {
  f_magic : Z;
  failed_write_count : Z;
  first_failure_uptime_s : Z;
  last_failure_uptime_s : Z;
  last_error_code : Z;
  f_writes : Z;
  f_crc32 : Z;
}.

#[export] Instance QRow_record : CrcRecord QRow := {
  cr_magic := QROW_MAGIC;
  cr_widths := [2; 2; 4; 4; 4; 8; 2; 2]%nat;
  cr_fields r := [schema_version r; record_type r; r_boot_id r; r_seq r; ts r;
                  totalizer r; quality r; rssi_abs r];
  cr_head := r_magic;
  cr_crc := r_crc32;
  cr_make m vs c :=
    match vs with
    | [sv; rt; b; s; t; tot; q; rs] => Build_QRow m sv rt b s t tot q rs c
    | _ => Build_QRow m 0 0 0 0 0 0 0 0 c
    end;
}.

#[export] Instance AckRec_record : CrcRecord AckRec := {
  cr_magic := ACK_MAGIC;
  cr_widths := [4; 4; 4; 4; 4]%nat;
  cr_fields r := [acked_seq r; a_boot_id r; a_writes r; cursor_segment r; cursor_offset r];
  cr_head := a_magic;
  cr_crc := a_crc32;
  cr_make m vs c :=
    match vs with
    | [s; b; w; cs; co] => Build_AckRec m s b w cs co c
    | _ => Build_AckRec m 0 0 0 0 0 c
    end;
}.

#[export] Instance FailureState_record : CrcRecord FailureState := {
  cr_magic := FAIL_MAGIC;
  cr_widths := [4; 4; 4; 4; 4]%nat;
  cr_fields r := [failed_write_count r; first_failure_uptime_s r; last_failure_uptime_s r;
                  last_error_code r; f_writes r];
  cr_head := f_magic;
  cr_crc := f_crc32;
  cr_make m vs c :=
    match vs with
    | [n; a; b; e; w] => Build_FailureState m n a b e w c
    | _ => Build_FailureState m 0 0 0 0 0 c
    end;
}.

#[export] Instance QRow_laws : CrcRecordLaws QRow.
Proof. crc_record_laws. Qed.
#[export] Instance AckRec_laws : CrcRecordLaws AckRec.
Proof. crc_record_laws. Qed.
#[export] Instance FailureState_laws : CrcRecordLaws FailureState.
Proof. crc_record_laws. Qed.

Lemma QROW_MAGIC_fits : fits 4 QROW_MAGIC.
Proof. unfold fits, QROW_MAGIC. lia. Qed.
Lemma ACK_MAGIC_fits : fits 4 ACK_MAGIC.
Proof. unfold fits, ACK_MAGIC. lia. Qed.
Lemma FAIL_MAGIC_fits : fits 4 FAIL_MAGIC.
Proof. unfold fits, FAIL_MAGIC. lia. Qed.

Lemma QRow_fits (r : QRow) :
  fields_fit r <->
  is_u16 (schema_version r) /\ is_u16 (record_type r) /\ is_u32 (r_boot_id r) /\
  is_u32 (r_seq r) /\ is_u32 (ts r) /\ is_u64 (totalizer r) /\ is_u16 (quality r) /\
  is_u16 (rssi_abs r).
Proof. unfold fields_fit. simpl. rewrite !Forall2_cons, Forall2_nil. tauto. Qed.

Lemma AckRec_fits (a : AckRec) :
  fields_fit a <->
  is_u32 (acked_seq a) /\ is_u32 (a_boot_id a) /\ is_u32 (a_writes a) /\
  is_u32 (cursor_segment a) /\ is_u32 (cursor_offset a).
Proof. unfold fields_fit. simpl. rewrite !Forall2_cons, Forall2_nil. tauto. Qed.

Lemma FailureState_fits (f : FailureState) :
  fields_fit f <->
  is_u32 (failed_write_count f) /\ is_u32 (first_failure_uptime_s f) /\
  is_u32 (last_failure_uptime_s f) /\ is_u32 (last_error_code f) /\ is_u32 (f_writes f).
Proof. unfold fields_fit. simpl. rewrite !Forall2_cons, Forall2_nil. tauto. Qed.

(** [sizeof(QRow)], [sizeof(AckRec)], [sizeof(FailureState)] *)
Lemma sizeof_QRow : sizeof (R := QRow) = 36%nat.
Proof. done. Qed.
Lemma sizeof_AckRec : sizeof (R := AckRec) = 28%nat.
Proof. done. Qed.
Lemma sizeof_FailureState : sizeof (R := FailureState) = 28%nat.
Proof. done. Qed.

(** ** Segment files *)

(** [snprintf(buf, sizeof(buf), "/queue/seg_%06u.bin", id)] *)
Definition segmentPath_ (id : Z) : string := "/queue/seg_" +:+ (pad 6 id +:+ ".bin").

(** Six decimal digits from position [i + k] on. *)
Fixpoint parse_digits (k : nat) (v : Z) (i : nat) (name : string) : option Z :=
  match k with
  | O => Some v
  | S k =>
      match charAt i name with
      | Some c =>
          if is_digit c then parse_digits k (u32 (v * 10 + (code c - 48))) (S i) name else None
      | None => None
      end
  end.

Definition parseSegmentId_ (name : string) : option Z :=
  match indexOf "seg_" name with
  | None => None
  | Some i =>
      let i := (i + 4)%nat in
      if (String.length name <? i + 6)%nat then None else parse_digits 6 0 i name
  end.

Lemma parse_digits_spec ds v pre rest :
  0 <= v -> all_digits ds = true -> dec_val v ds < 2 ^ 32 ->
  parse_digits (String.length ds) v (String.length pre) (pre +:+ (ds +:+ rest)) =
  Some (dec_val v ds).
Proof.
  revert v pre. induction ds as [|c ds IH]; intros v pre Hv Hd Hlt; [done|].
  cbn [String.length parse_digits dec_val all_digits] in *. bool_prop.
  rewrite str_cons_app, charAt_app. pose proof (is_digit_range c ltac:(done)).
  assert (E : is_digit c = true) by done. rewrite E.
  pose proof (dec_val_ge (v * 10 + (code c - 48)) ds ltac:(lia) ltac:(done)).
  rewrite u32_small by lia.
  replace (S (String.length pre)) with (String.length (pre +:+ String c EmptyString))
    by (rewrite str_length_app; simpl; lia).
  replace (pre +:+ String c (ds +:+ rest)) with ((pre +:+ String c EmptyString) +:+ (ds +:+ rest))
    by (by rewrite <- str_app_assoc).
  apply IH; [lia|done|done].
Qed.
