(* ===== verification/Telemetry.v ===== *)
(** * Telemetry records and the push body (telemetry.h)

    [WiFi.RSSI()], [esp_reset_reason()] and the MAC address are readings the
    methods take as arguments. *)

From S2P Require Import Prelude Config Arduino Parse Boot Store QueueData.

Module Tele.
Import St.

Definition build (s : Store) (totalizer seq uptimeSec : Z) (backlogHigh : bool) (rssi : Z) : QRow :=
  {| r_magic := 0; schema_version := SCHEMA_VERSION_CURRENT; record_type := RECORD_TYPE_TELEMETRY;
     r_boot_id := bootId s; r_seq := seq; ts := uptimeSec; totalizer := totalizer;
     quality := if backlogHigh then Z.lor QUALITY_OK QUALITY_BACKLOG_HIGH else QUALITY_OK;
     rssi_abs := u16 (Z.abs rssi); r_crc32 := 0 |}.

(** One element of "records". *)
Definition row_json (r : QRow) : string :=
  js "{'schema_version':" +:+ (dec (schema_version r) +:+ (
  js ",'record_type':" +:+ (dec (record_type r) +:+ (
  js ",'boot_id':" +:+ (dec (r_boot_id r) +:+ (
  js ",'seq':" +:+ (dec (r_seq r) +:+ (
  js ",'ts':" +:+ (dec (ts r) +:+ (
  js ",'totalizer':" +:+ (dec (totalizer r) +:+ (
  js ",'quality':" +:+ (dec (quality r) +:+ (
  js ",'rssi':-" +:+ (dec (rssi_abs r) +:+ "}"))))))))))))))).

(** The [for] loop: rows separated by commas. *)
Fixpoint rows_json (l : list QRow) : string :=
  match l with
  | [] => EmptyString
  | [r] => row_json r
  | r :: l => row_json r +:+ ("," +:+ rows_json l)
  end.

Definition boot_json {N} `{Preferences N} (s : Store) (rr : Z) (n : N) : string :=
  js ",'boot':{'boot_id':" +:+ (dec (bootId s) +:+ (
  js ",'reset_reason':'" +:+ (reset_reason_text rr +:+ (js "'" +:+ (
  js ",'reset_reason_raw':" +:+ (dec_signed rr +:+ (
  js ",'restart_count':" +:+ (dec (restartCount n) +:+ (
  js ",'watchdog_reset_count':" +:+ (dec (watchdogResetCount n) +:+ (
  js ",'brownout_reset_count':" +:+ (dec (brownoutResetCount n) +:+ "}")))))))))))).

(** [None] is a null pointer. *)
Definition ota_json {N} `{Preferences N} (otaState otaReject : option string) (n : N) : string :=
  match otaState, otaReject with
  | None, None => EmptyString
  | _, _ =>
      js ",'ota':{" +:+ (
      match otaState with Some st => js "'state':'" +:+ (st +:+ js "'") | None => EmptyString end +:+ (
      match otaReject with
      | Some rj =>
          match otaState with Some _ => "," | None => EmptyString end +:+ (
          js "'last_reject_reason':'" +:+ (rj +:+ js "'"))
      | None => EmptyString
      end +:+ (
      js ",'security_version':" +:+ (dec (securityVersion n) +:+ "}"))))
  end.

Definition toJson {N} `{Preferences N} (bd : Build) (mac : Z) (s : Store) (rr : Z) (n : N)
    (rows : list QRow) (otaState otaReject : option string) : string :=
  js "{'device_id':'" +:+ (deviceId mac +:+ (js "'" +:+ (
  js ",'fw':'" +:+ (FW_VERSION +:+ (js "'" +:+ (
  js ",'model':'" +:+ (DEVICE_MODEL bd +:+ (js "'" +:+ (
  js ",'kfactor_version':" +:+ (dec (cfgVer n) +:+ (
  boot_json s rr n +:+ (
  ota_json otaState otaReject n +:+ (
  js ",'records':[" +:+ (rows_json rows +:+ "]}")))))))))))))).

(** ** What a receiver can read back *)

(** The fields a record carries to the server. *)
Definition wire (r : QRow) : list Z :=
  [schema_version r; record_type r; r_boot_id r; r_seq r; ts r; totalizer r; quality r; rssi_abs r].

Definition wire_ok (r : QRow) : Prop := Forall (fun z => 0 <= z) (wire r).

Lemma str_app_cancel a b c : a +:+ b = a +:+ c -> b = c.
Proof. intros E. by apply (str_app_inj a a) in E as [_ E]. Qed.

(** One printed field: equal literals cancel, the number is read back. *)
Ltac field_eq E :=
  apply str_app_cancel in E; apply dec_app_inj in E as [? E]; [|assumption|assumption|reflexivity|reflexivity].

Lemma row_json_inj r r' s s' :
  wire_ok r -> wire_ok r' -> starts_nondigit s = true -> starts_nondigit s' = true ->
  row_json r +:+ s = row_json r' +:+ s' -> wire r = wire r' /\ s = s'.
Proof.
  unfold wire_ok, wire. rewrite !Forall_cons. intros Hr Hr' Hs Hs' E.
  destruct Hr as (?&?&?&?&?&?&?&?&_), Hr' as (?&?&?&?&?&?&?&?&_).
  unfold row_json in E. rewrite <- !str_app_assoc in E. do 8 field_eq E.
  rewrite !str_cons_app in E. injection E as E. split; [congruence|done].
Qed.

Lemma rows_json_cons r l : rows_json (r :: l) = row_json r +:+
  match l with [] => EmptyString | _ => "," +:+ rows_json l end.
Proof. destruct l; [by rewrite str_app_nil_r|done]. Qed.

(** C36: the push body says exactly what was queued: two batches that print to
    the same body, sent by the same device in the same state, hold the same
    records in the same order, every field of them. *)
Theorem push_body_faithful {N} `{Preferences N} bd mac s rr (n : N) st rj rows rows' :
  Forall wire_ok rows -> Forall wire_ok rows' ->
  toJson bd mac s rr n rows st rj = toJson bd mac s rr n rows' st rj ->
  wire <$> rows = wire <$> rows'.
Proof.
  intros Hr Hr' E. unfold toJson in E. repeat apply str_app_cancel in E.
  revert rows' Hr' E. induction Hr as [|r l Hr Hl IH]; intros [|r' l'] Hr' E; try done.
  - rewrite rows_json_cons, <- !str_app_assoc in E. discriminate E.
  - rewrite rows_json_cons, <- !str_app_assoc in E. discriminate E.
  - apply Forall_cons in Hr' as [Hr' Hl']. rewrite !rows_json_cons, <- !str_app_assoc in E.
    apply row_json_inj in E as [Ew E]; [|done|done|by destruct l|by destruct l'].
    rewrite !fmap_cons. f_equal; [done|]. apply IH; [done|].
    destruct l as [|r2 l], l' as [|r2' l']; try done.
    rewrite <- !str_app_assoc in E. by apply str_app_cancel in E.
Qed.

Import MemNvs.

Definition row_demo (sq : Z) : QRow :=
  build {| bootId_ := 7 |} (100 * sq) sq (60 * sq) (2 <? sq) (-61).

Lemma push_body_faithful_witness :
  toJson default_build 1 {| bootId_ := 7 |} 1 StoreSpec.nvs_demo [row_demo 1; row_demo 2] None None
  <> toJson default_build 1 {| bootId_ := 7 |} 1 StoreSpec.nvs_demo [row_demo 1; row_demo 3] None None.
Proof.
  intros E. apply push_body_faithful in E; [discriminate E| |];
    repeat constructor; vm_compute; congruence.
Defined.

End Tele.
