(* ===== verification/Queue.v ===== *)
(** * The persistent telemetry queue (queue.h, class EventQueue)

    [EventQueue] is the class's state; every method also passes the
    checkpoint owner behind [tot_] (a [T], reached through
    [IQueueOffsetCheckpoint]) and the flash.  [tot_wired] is [tot_ != nullptr].
    The readings of [millis()] a method takes are arguments.  Loops run on
    fuel; the lemmas of QueueSpec.v show the fuel is enough. *)

From S2P Require Import Prelude Config Arduino Crc32 Records Storage DualSlot QueueData.

Module EventQueue.

Record EventQueue := {
  ack_ : AckRec;
  fail_ : FailureState;
  tot_wired : bool;
  unackedCount_ : Z;
  haveRowWriteLatency_ : bool;
  lastRowWriteLatencyMs_ : Z;
  havePendingLatency_ : bool;
  lastPendingLatencyMs_ : Z;
}.

Definition new_queue : EventQueue :=
  Build_EventQueue (Build_AckRec 0 0 0 0 0 0 0) (Build_FailureState 0 0 0 0 0 0 0)
    false 0 false 0 false 0.

Definition with_ack (a : AckRec) (q : EventQueue) : EventQueue :=
  Build_EventQueue a (fail_ q) (tot_wired q) (unackedCount_ q) (haveRowWriteLatency_ q)
    (lastRowWriteLatencyMs_ q) (havePendingLatency_ q) (lastPendingLatencyMs_ q).
Definition with_fail (f : FailureState) (q : EventQueue) : EventQueue :=
  Build_EventQueue (ack_ q) f (tot_wired q) (unackedCount_ q) (haveRowWriteLatency_ q)
    (lastRowWriteLatencyMs_ q) (havePendingLatency_ q) (lastPendingLatencyMs_ q).
Definition with_unacked (n : Z) (q : EventQueue) : EventQueue :=
  Build_EventQueue (ack_ q) (fail_ q) (tot_wired q) n (haveRowWriteLatency_ q)
    (lastRowWriteLatencyMs_ q) (havePendingLatency_ q) (lastPendingLatencyMs_ q).
Definition with_write_latency (ms : Z) (q : EventQueue) : EventQueue :=
  Build_EventQueue (ack_ q) (fail_ q) (tot_wired q) (unackedCount_ q) true
    ms (havePendingLatency_ q) (lastPendingLatencyMs_ q).
Definition with_pending_latency (ms : Z) (q : EventQueue) : EventQueue :=
  Build_EventQueue (ack_ q) (fail_ q) (tot_wired q) (unackedCount_ q)
    (haveRowWriteLatency_ q) (lastRowWriteLatencyMs_ q) true ms.
Definition with_tot (b : bool) (q : EventQueue) : EventQueue :=
  Build_EventQueue (ack_ q) (fail_ q) b (unackedCount_ q) (haveRowWriteLatency_ q)
    (lastRowWriteLatencyMs_ q) (havePendingLatency_ q) (lastPendingLatencyMs_ q).

Definition set_cursor (acked boot seg off : Z) (a : AckRec) : AckRec :=
  Build_AckRec (a_magic a) acked boot (a_writes a) seg off (a_crc32 a).

(** A row as the segment readers see it: [None] for junk or a bad checksum. *)
Definition load_row (bs : list byte) : option QRow := load_bytes bs.

(** [row = rowIn; row.magic = QROW_MAGIC; row.crc32 = 0; row.crc32 = crc32_(...)] *)
Definition seal_row (rowIn : QRow) : QRow := seal rowIn.

Definition QROW_SIZE : nat := 36.

Section queue.
Context {T Disk : Type} `{LittleFS Disk} `{StorageBackend Disk} `{IQueueOffsetCheckpoint T Disk}.

(** ** Acknowledgement and failure records *)

Definition load_ack_content (got : Z * list byte) : option AckRec :=
  if fst got =? 28 then load_bytes (snd got) else None.
Definition loadAck_ (path : string) (d : Disk) : option AckRec :=
  load_ack_content (readWhole path 28 d).

Definition persistAck_ (q : EventQueue) (d : Disk) : EventQueue * Disk :=
  let a := ack_ q in
  let a := seal (Build_AckRec ACK_MAGIC (acked_seq a) (a_boot_id a) (u32 (a_writes a + 1))
                   (cursor_segment a) (cursor_offset a) (a_crc32 a)) in
  let path := slot ACK_PATH_A ACK_PATH_B (a_writes a) in
  (with_ack a q, snd (writeWhole path (bytes_of a) d)).

Definition load_fail_content (got : Z * list byte) : option FailureState :=
  if fst got =? 28 then load_bytes (snd got) else None.
Definition loadFail_ (path : string) (d : Disk) : option FailureState :=
  load_fail_content (readWhole path 28 d).

Definition persistFail_ (q : EventQueue) (d : Disk) : EventQueue * Disk :=
  let f := fail_ q in
  let f := seal (Build_FailureState FAIL_MAGIC (failed_write_count f)
                   (first_failure_uptime_s f) (last_failure_uptime_s f) (last_error_code f)
                   (u32 (f_writes f + 1)) (f_crc32 f)) in
  let path := slot FAIL_PATH_A FAIL_PATH_B (f_writes f) in
  (with_fail f q, snd (writeWhole path (bytes_of f) d)).

Definition recordWriteFailure_ (cd : QueueFailCode) (millis : Z) (q : EventQueue) (d : Disk)
  : EventQueue * Disk :=
  let nowS := millis / 1000 in
  let f := fail_ q in
  let first := if failed_write_count f =? 0 then nowS else first_failure_uptime_s f in
  let f := Build_FailureState (f_magic f) (u32 (failed_write_count f + 1)) first nowS
             (fail_code_value cd) (f_writes f) (f_crc32 f) in
  persistFail_ (with_fail f q) d.

(** ** Row adoption *)

(** The [for] loop over the rows of one chunk: the new [off], and [stop]. *)
Fixpoint adopt_chunk (rows : nat) (buf : list byte) (off : Z) : Z * bool :=
  match rows with
  | O => (off, false)
  | S rows =>
      match load_row (take QROW_SIZE buf) with
      | None => (off, true)
      | Some _ => adopt_chunk rows (drop QROW_SIZE buf) (u32 (off + 36))
      end
  end.

Fixpoint adopt_loop (fuel : nat) (path : string) (off fileSize : Z) (d : Disk) : Z :=
  match fuel with
  | O => off
  | S fuel =>
      if u32 (off + 36) <=? fileSize then
        let want := u32 (fileSize - off) in
        let want := if 36 * 32 <? want then 36 * 32 else want in
        let want := want - want mod 36 in
        let '(got, buf) := readAt path (Z.to_nat off) (Z.to_nat want) d in
        if got <? 36 then off
        else
          let '(off, stop) := adopt_chunk (Z.to_nat (got / 36)) buf off in
          if stop then off else adopt_loop fuel path off fileSize d
      else off
  end.

(** The chunks are of at least one row, so this fuel never runs out. *)
Definition adoptValidRows_ (path : string) (from fileSize : Z) (d : Disk) : Z :=
  adopt_loop (S (Z.to_nat fileSize)) path from fileSize d.

(** ** Append *)

Definition appendLegacy_ (rowIn : QRow) (d : Disk) : Disk :=
  match lfs_append LOG_PATH (bytes_of (seal_row rowIn)) d with
  | None => d
  | Some (_, d) => d
  end.

(** The truncate guard: [None] when append() returns early after a failed
    truncation, otherwise the offset the row will be written at. *)
Definition settle_tail (path : string) (goodOffset actualSize : Z) (d : Disk)
  : option Z * Disk :=
  if goodOffset <? actualSize then
    let goodOffset :=
      if 36 <? actualSize - goodOffset then adoptValidRows_ path goodOffset actualSize d
      else goodOffset in
    if goodOffset <? actualSize then
      let '(ok, d) := truncateTo path (Z.to_nat goodOffset) d in
      (if ok then Some goodOffset else None, d)
    else (Some goodOffset, d)
  else if actualSize <? goodOffset then (Some actualSize, d)
  else (Some goodOffset, d).

(** [ms0], [ms1]: [millis()] around the row write; [msf]: in
    recordWriteFailure_. *)
Definition append (rowIn : QRow) (ms0 ms1 msf : Z) (q : EventQueue) (t : T) (d : Disk)
  : EventQueue * T * Disk :=
  if negb (tot_wired q) then (q, t, appendLegacy_ rowIn d) else
  let row := seal_row rowIn in
  let activeSeg := queueOffsetSegment t in
  let goodOffset := queueOffsetOffset t in
  let '(activeSeg, goodOffset) :=
    if QUEUE_SEGMENT_ROWS * 36 <=? goodOffset then (u32 (activeSeg + 1), 0)
    else (activeSeg, goodOffset) in
  let path := segmentPath_ activeSeg in
  let '(actualSizeL, d) := appendOpenSize path d in
  if actualSizeL <? 0 then
    let '(q, d) := recordWriteFailure_ QFAIL_SEGMENT_OPEN msf q d in (q, t, d)
  else
  let '(settled, d) := settle_tail path goodOffset (u32 actualSizeL) d in
  match settled with
  | None => let '(q, d) := recordWriteFailure_ QFAIL_TRUNCATE msf q d in (q, t, d)
  | Some goodOffset =>
      let '(written, d) := appendWrite path (bytes_of row) d in
      let q := with_write_latency (u32 (ms1 - ms0)) q in
      if written <? 0 then
        let '(q, d) := recordWriteFailure_ QFAIL_WRITE_SHORT msf q d in (q, t, d)
      else if negb (written =? 36) then
        let '(q, d) := recordWriteFailure_ QFAIL_WRITE_SHORT msf q d in (q, t, d)
      else
        let '(t, d) := setQueueOffset activeSeg (u32 (goodOffset + 36)) t d in
        (with_unacked (u32 (unackedCount_ q + 1)) q, t, d)
  end.

(** ** Reading *)

(** Up to which byte a segment may be read: the confirmed offset of the
    active one, the file size of a closed one. *)
Definition seg_limit (seg activeSeg : Z) (t : T) (c : list byte) : Z :=
  if seg =? activeSeg then queueOffsetOffset t else Z.of_nat (length c).

(** [f.read((uint8_t* )&r, sizeof(r))] at [off] *)
Definition read_row (c : list byte) (off : Z) : list byte := take QROW_SIZE (drop (Z.to_nat off) c).

(** The inner [while] of pendingImpl_: rows collected, in order. *)
Fixpoint pending_rows (fuel : nat) (c : list byte) (limit acked : Z) (maxN : nat)
    (off : Z) (out : list QRow) : list QRow :=
  match fuel with
  | O => out
  | S fuel =>
      if (length out <? maxN)%nat && (u32 (off + 36) <=? limit) then
        let bs := read_row c off in
        if negb (length bs =? QROW_SIZE)%nat then out
        else
          let off := u32 (off + 36) in
          match load_row bs with
          | None => pending_rows fuel c limit acked maxN off out
          | Some r =>
              if r_seq r <=? acked then pending_rows fuel c limit acked maxN off out
              else pending_rows fuel c limit acked maxN off (out ++ [r])
          end
      else out
  end.

Fixpoint pending_segs (fuel : nat) (acked activeSeg : Z) (t : T) (d : Disk) (maxN : nat)
    (seg off : Z) (out : list QRow) : list QRow :=
  match fuel with
  | O => out
  | S fuel =>
      if (length out <? maxN)%nat && (seg <=? activeSeg) then
        match lfs_read (segmentPath_ seg) d with
        | None => out
        | Some c =>
            let limit := seg_limit seg activeSeg t c in
            let off := if limit <? off then limit else off in
            let out := pending_rows (S (length c)) c limit acked maxN off out in
            if seg =? activeSeg then out
            else pending_segs fuel acked activeSeg t d maxN (u32 (seg + 1)) 0 out
        end
      else out
  end.

(** [while (n < maxN && f.available() >= sizeof(QRow))] over the log file. *)
Fixpoint pending_legacy_rows (fuel : nat) (c : list byte) (acked : Z) (maxN : nat)
    (out : list QRow) : list QRow :=
  match fuel with
  | O => out
  | S fuel =>
      if (length out <? maxN)%nat && (QROW_SIZE <=? length c)%nat then
        let rest := drop QROW_SIZE c in
        match load_row (take QROW_SIZE c) with
        | None => pending_legacy_rows fuel rest acked maxN out
        | Some r =>
            pending_legacy_rows fuel rest acked maxN
              (if r_seq r <=? acked then out else out ++ [r])
        end
      else out
  end.

Definition pendingLegacy_ (maxN : nat) (q : EventQueue) (d : Disk) : list QRow :=
  match lfs_read LOG_PATH d with
  | None => []
  | Some c => pending_legacy_rows (S (length c)) c (acked_seq (ack_ q)) maxN []
  end.

(** Segments from [seg] to [activeSeg]. *)
Definition seg_fuel (seg activeSeg : Z) : nat := S (Z.to_nat (activeSeg - seg)).

Definition pendingImpl_ (maxN : nat) (q : EventQueue) (t : T) (d : Disk) : list QRow :=
  if negb (tot_wired q) then pendingLegacy_ maxN q d else
  let seg := cursor_segment (ack_ q) in
  let activeSeg := queueOffsetSegment t in
  pending_segs (seg_fuel seg activeSeg) (acked_seq (ack_ q)) activeSeg t d maxN
    seg (cursor_offset (ack_ q)) [].

Definition pending (maxN : nat) (ms0 ms1 : Z) (q : EventQueue) (t : T) (d : Disk)
  : list QRow * EventQueue :=
  let result := pendingImpl_ maxN q t d in
  (result, with_pending_latency (u32 (ms1 - ms0)) q).

(** ** Acknowledgement *)

(** The inner [while] of ackThrough: the offset reached and the rows consumed. *)
Fixpoint ack_rows (fuel : nat) (c : list byte) (limit ackedSeq : Z) (off consumed : Z)
  : Z * Z :=
  match fuel with
  | O => (off, consumed)
  | S fuel =>
      if u32 (off + 36) <=? limit then
        let bs := read_row c off in
        if negb (length bs =? QROW_SIZE)%nat then (off, consumed)
        else
          let consumable := match load_row bs with
                            | None => true
                            | Some r => r_seq r <=? ackedSeq
                            end in
          if negb consumable then (off, consumed)
          else ack_rows fuel c limit ackedSeq (u32 (off + 36)) (u32 (consumed + 1))
      else (off, consumed)
  end.

Fixpoint ack_segs (fuel : nat) (ackedSeq activeSeg : Z) (t : T) (d : Disk)
    (seg off consumed : Z) : Z * Z * Z :=
  match fuel with
  | O => (seg, off, consumed)
  | S fuel =>
      if seg <=? activeSeg then
        match lfs_read (segmentPath_ seg) d with
        | None => (seg, off, consumed)
        | Some c =>
            let limit := seg_limit seg activeSeg t c in
            let off := if limit <? off then limit else off in
            let '(off, consumed) := ack_rows (S (length c)) c limit ackedSeq off consumed in
            if (seg <? activeSeg) && (limit <=? off)
            then ack_segs fuel ackedSeq activeSeg t d (u32 (seg + 1)) 0 consumed
            else (seg, off, consumed)
        end
      else (seg, off, consumed)
  end.

(** [for (s = firstSeg; s < seg; s++) LittleFS.remove(segmentPath_(s))] *)
Fixpoint remove_segs (fuel : nat) (s seg : Z) (d : Disk) : Disk :=
  match fuel with
  | O => d
  | S fuel =>
      if s <? seg then remove_segs fuel (u32 (s + 1)) seg (lfs_remove (segmentPath_ s) d) else d
  end.

Definition maybeCompact_ (q : EventQueue) (t : T) (d : Disk) : Disk :=
  match pendingImpl_ 1 q t d with
  | _ :: _ => d
  | [] => if lfs_exists LOG_PATH d then lfs_remove LOG_PATH d else d
  end.

Definition ackThroughLegacy_ (ackedSeq bootId : Z) (q : EventQueue) (t : T) (d : Disk)
  : EventQueue * Disk :=
  if ackedSeq <=? acked_seq (ack_ q) then (q, d) else
  let a := ack_ q in
  let q := with_ack (set_cursor ackedSeq bootId (cursor_segment a) (cursor_offset a) a) q in
  let '(q, d) := persistAck_ q d in
  (q, maybeCompact_ q t d).

Definition ackThrough (ackedSeq bootId : Z) (q : EventQueue) (t : T) (d : Disk)
  : EventQueue * Disk :=
  if negb (tot_wired q) then ackThroughLegacy_ ackedSeq bootId q t d else
  if ackedSeq <=? acked_seq (ack_ q) then (q, d) else
  let firstSeg := cursor_segment (ack_ q) in
  let activeSeg := queueOffsetSegment t in
  let '(seg, off, consumedRows) :=
    ack_segs (seg_fuel firstSeg activeSeg) ackedSeq activeSeg t d
      firstSeg (cursor_offset (ack_ q)) 0 in
  let q := with_ack (set_cursor ackedSeq bootId seg off (ack_ q)) q in
  let q := with_unacked (if consumedRows <=? unackedCount_ q
                         then unackedCount_ q - consumedRows else 0) q in
  let '(q, d) := persistAck_ q d in
  (q, remove_segs (Z.to_nat (seg - firstSeg)) firstSeg seg d).

Definition empty (q : EventQueue) (t : T) (d : Disk) : bool :=
  match pendingImpl_ 1 q t d with [] => true | _ => false end.

Definition recoverQueueStorage (q : EventQueue) (t : T) (d : Disk) : EventQueue * T * Disk :=
  if negb (tot_wired q) then (q, t, d) else
  let d := lfs_remove (segmentPath_ 0) d in
  let '(t, d) := setQueueOffset 0 0 t d in
  let a := ack_ q in
  let q := with_ack (set_cursor (acked_seq a) (a_boot_id a) 0 0 a) q in
  let '(q, d) := persistAck_ q d in
  (q, t, d).

Definition resetAckToCurrentPosition (currentSeq : Z) (q : EventQueue) (t : T) (d : Disk)
  : EventQueue * Disk :=
  if negb (tot_wired q) then (q, d) else
  let a := ack_ q in
  let q := with_ack (set_cursor currentSeq (a_boot_id a) (queueOffsetSegment t)
                       (queueOffsetOffset t) a) q in
  persistAck_ (with_unacked 0 q) d.

(** ** Boot *)

Fixpoint count_rows (fuel : nat) (c : list byte) (limit acked off count : Z) : Z :=
  match fuel with
  | O => count
  | S fuel =>
      if u32 (off + 36) <=? limit then
        let bs := read_row c off in
        if negb (length bs =? QROW_SIZE)%nat then count
        else
          match load_row bs with
          | None => count_rows fuel c limit acked (u32 (off + 36)) count
          | Some r =>
              count_rows fuel c limit acked (u32 (off + 36))
                (if r_seq r <=? acked then count else u32 (count + 1))
          end
      else count
  end.

Fixpoint count_segs (fuel : nat) (acked activeSeg : Z) (t : T) (d : Disk) (seg off count : Z) : Z :=
  match fuel with
  | O => count
  | S fuel =>
      if seg <=? activeSeg then
        match lfs_read (segmentPath_ seg) d with
        | None => count
        | Some c =>
            let limit := seg_limit seg activeSeg t c in
            let off := if limit <? off then limit else off in
            let count := count_rows (S (length c)) c limit acked off count in
            if seg =? activeSeg then count
            else count_segs fuel acked activeSeg t d (u32 (seg + 1)) 0 count
        end
      else count
  end.

Definition computeUnackedCount_ (q : EventQueue) (t : T) (d : Disk) : Z :=
  let seg := cursor_segment (ack_ q) in
  let activeSeg := queueOffsetSegment t in
  count_segs (seg_fuel seg activeSeg) (acked_seq (ack_ q)) activeSeg t d
    seg (cursor_offset (ack_ q)) 0.

Definition MAX_ORPHAN_CANDIDATES : nat := 32.

(** Pass 1: the candidates for deletion, and the highest segment id seen. *)
Definition scan_entry (activeSeg cursorSeg : Z) (acc : list Z * option Z) (e : string * bool)
  : list Z * option Z :=
  let '(deleteIds, maxSegSeen) := acc in
  if snd e then acc
  else match parseSegmentId_ (fst e) with
       | None => acc
       | Some id =>
           let maxSegSeen := match maxSegSeen with
                             | None => Some id
                             | Some m => if m <? id then Some id else Some m
                             end in
           let deleteIds :=
             if (activeSeg <? id) || (id <? cursorSeg) then
               (if (length deleteIds <? MAX_ORPHAN_CANDIDATES)%nat
                then deleteIds ++ [id] else deleteIds)
             else deleteIds in
           (deleteIds, maxSegSeen)
       end.

Definition file_size (path : string) (d : Disk) : Z :=
  match lfs_read path d with Some c => Z.of_nat (length c) | None => 0 end.

Definition cleanupOrphanSegments_ (q : EventQueue) (t : T) (d : Disk) : T * Disk :=
  if negb (tot_wired q) then (t, d) else
  let activeSeg := queueOffsetSegment t in
  match lfs_list SD_QUEUE_DIR d with
  | None => (t, d)
  | Some entries =>
      let '(deleteIds, maxSegSeen) :=
        foldl (scan_entry activeSeg (cursor_segment (ack_ q))) ([], None) entries in
      match maxSegSeen with
      | Some m =>
          if u32 (activeSeg + 1) <? m then
            let p := segmentPath_ m in
            let adopted := adoptValidRows_ p 0 (u32 (file_size p d)) d in
            setQueueOffset m adopted t d
          else (t, foldl (fun d id => lfs_remove (segmentPath_ id) d) d deleteIds)
      | None => (t, d)
      end
  end.

Definition begin (wired : bool) (q : EventQueue) (t : T) (d : Disk) : EventQueue * T * Disk :=
  let q := with_tot wired q in
  let d := if lfs_exists SD_QUEUE_DIR d then d else lfs_mkdir SD_QUEUE_DIR d in
  let q := with_ack (default (Build_AckRec ACK_MAGIC 0 0 0 0 0 0)
                       (newest a_writes (loadAck_ ACK_PATH_A d) (loadAck_ ACK_PATH_B d))) q in
  let '(t, d) := cleanupOrphanSegments_ q t d in
  let q := with_fail (default (Build_FailureState FAIL_MAGIC 0 0 0 0 0 0)
                        (newest f_writes (loadFail_ FAIL_PATH_A d) (loadFail_ FAIL_PATH_B d))) q in
  ((if wired then with_unacked (computeUnackedCount_ q t d) q else q), t, d).

(** ** Observers *)

Definition pendingCount (q : EventQueue) : Z := unackedCount_ q.
Definition ackedSeq (q : EventQueue) : Z := acked_seq (ack_ q).
Definition hasFailedWrite (q : EventQueue) : bool := 0 <? failed_write_count (fail_ q).
Definition failedWriteCount (q : EventQueue) : Z := failed_write_count (fail_ q).
Definition firstFailureUptimeS (q : EventQueue) : Z := first_failure_uptime_s (fail_ q).
Definition lastFailureUptimeS (q : EventQueue) : Z := last_failure_uptime_s (fail_ q).
Definition lastFailureCodeStr (q : EventQueue) : string := failCodeStr_ (last_error_code (fail_ q)).

(** [(100.0f * (float)usedBytes()) / (float)totalBytes()] *)
Definition capacityPercentUsed (d : Disk) : f32 :=
  let total := totalBytes d in
  if total =? 0 then f32_of_Z 0
  else f32_div (f32_mul (f32_of_Z 100) (f32_of_Z (usedBytes d))) (f32_of_Z total).
End queue.

#[global] Arguments recordWriteFailure_ : simpl never.
#[global] Arguments persistAck_ : simpl never.
#[global] Arguments persistFail_ : simpl never.
#[global] Arguments append : simpl never.
#[global] Arguments ackThrough : simpl never.

End EventQueue.
