(* ===== verification/QueueSpec.v ===== *)
(** * What the queue promises (specification of queue.h)

    Abstractly the queue is the list of rows not yet acknowledged, oldest
    first ([unacked]).  The theorems show that the segment-walking code of
    Queue.v computes exactly this list, that append() adds to its end or
    reports a failure, and that only an acknowledgement takes rows away. *)

From S2P Require Import Prelude Config Arduino Crc32 Records Storage DualSlot QueueData Queue.
Import EventQueue.

(** ** Rows of a byte string *)

Fixpoint rows (n : nat) (bs : list byte) : list (option QRow) :=
  match n with
  | O => []
  | S n => load_row (take 36 bs) :: rows n (drop 36 bs)
  end.

Definition chunks (bs : list byte) : list (option QRow) := rows (length bs / 36) bs.

Lemma chunks_step bs :
  (36 <= length bs)%nat -> chunks bs = load_row (take 36 bs) :: chunks (drop 36 bs).
Proof.
  intros Hl. unfold chunks. rewrite length_drop.
  replace (length bs / 36)%nat with (S ((length bs - 36) / 36)); [done|].
  replace (length bs) with ((length bs - 36) + 1 * 36)%nat at 2 by lia.
  rewrite Nat.div_add by lia. lia.
Qed.

Lemma chunks_short bs : (length bs < 36)%nat -> chunks bs = [].
Proof. intros Hl. unfold chunks. by rewrite Nat.div_small. Qed.

Lemma chunks_app k a b :
  length a = (36 * k)%nat -> chunks (a ++ b) = chunks a ++ chunks b.
Proof.
  revert a. induction k as [|k IH]; intros a Hk.
  - by rewrite (nil_length_inv a) by lia.
  - rewrite (chunks_step (a ++ b)), (chunks_step a) by (rewrite ?length_app; lia).
    rewrite take_app_le, drop_app_le by lia. simpl. f_equal. apply IH.
    rewrite length_drop. lia.
Qed.

(** The rows of a segment's content from [off] up to [limit]. *)
Definition seg_rows (c : list byte) (limit off : Z) : list (option QRow) :=
  chunks (drop (Z.to_nat off) (take (Z.to_nat limit) c)).

Lemma seg_rows_step c limit off :
  0 <= off -> off + 36 <= limit -> off + 36 <= Z.of_nat (length c) ->
  seg_rows c limit off = load_row (read_row c off) :: seg_rows c limit (off + 36).
Proof.
  intros Ho Hl Hc. unfold seg_rows, read_row, QROW_SIZE.
  rewrite chunks_step by (rewrite length_drop, length_take; lia).
  rewrite drop_drop. replace (Z.to_nat off + 36)%nat with (Z.to_nat (off + 36)) by lia.
  f_equal. f_equal. rewrite skipn_firstn_comm, take_take. f_equal. lia.
Qed.

Lemma seg_rows_end c limit off :
  0 <= off -> limit < off + 36 \/ Z.of_nat (length c) < off + 36 -> seg_rows c limit off = [].
Proof.
  intros Ho Hl. unfold seg_rows. apply chunks_short. rewrite length_drop, length_take. lia.
Qed.

Lemma read_row_length c off :
  0 <= off ->
  (length (read_row c off) =? QROW_SIZE)%nat = (off + 36 <=? Z.of_nat (length c)).
Proof.
  intros Ho. unfold read_row, QROW_SIZE. rewrite length_take, length_drop.
  destruct (Z.leb_spec (off + 36) (Z.of_nat (length c))); [apply Nat.eqb_eq|apply Nat.eqb_neq]; lia.
Qed.

(** ** The row loops *)

Definition above (acked : Z) (r : QRow) : bool := acked <? r_seq r.

Definition unacked_rows (acked : Z) (rs : list (option QRow)) : list QRow :=
  List.filter (above acked) (omap id rs).

Lemma unacked_rows_app acked a b :
  unacked_rows acked (a ++ b) = unacked_rows acked a ++ unacked_rows acked b.
Proof. unfold unacked_rows. by rewrite omap_app, List.filter_app. Qed.

Lemma unacked_rows_cons acked r rs :
  unacked_rows acked (r :: rs) =
  match r with
  | Some r => if r_seq r <=? acked then unacked_rows acked rs else r :: unacked_rows acked rs
  | None => unacked_rows acked rs
  end.
Proof.
  destruct r as [r|]; [|done]. unfold unacked_rows. simpl. unfold above at 1.
  rewrite Z.ltb_antisym. by destruct (r_seq r <=? acked).
Qed.

(** One turn of any row loop: either the loop stops and the segment has no
    further row, or it reads the first of the remaining ones. *)
Lemma row_loop_step c limit off :
  0 <= off <= limit -> limit + 36 < 2 ^ 32 ->
  (u32 (off + 36) <=? limit) && (length (read_row c off) =? QROW_SIZE)%nat = true /\
    u32 (off + 36) = off + 36 /\ off + 36 <= limit /\ off + 36 <= Z.of_nat (length c) /\
    seg_rows c limit off = load_row (read_row c off) :: seg_rows c limit (off + 36) \/
  (u32 (off + 36) <=? limit) && (length (read_row c off) =? QROW_SIZE)%nat = false /\
    seg_rows c limit off = [].
Proof.
  intros Ho Hl. rewrite u32_small by lia. rewrite read_row_length by lia.
  destruct (Z.leb_spec (off + 36) limit), (Z.leb_spec (off + 36) (Z.of_nat (length c))); simpl.
  - left. split_and!; try done. by apply seg_rows_step; lia.
  - right. split; [done|]. apply seg_rows_end; lia.
  - right. split; [done|]. apply seg_rows_end; lia.
  - right. split; [done|]. apply seg_rows_end; lia.
Qed.

Lemma pending_rows_spec fuel c limit acked maxN off out :
  0 <= off <= limit -> limit + 36 < 2 ^ 32 -> (length out <= maxN)%nat ->
  Z.of_nat (length c) < off + 36 * Z.of_nat fuel ->
  pending_rows fuel c limit acked maxN off out =
  out ++ take (maxN - length out) (unacked_rows acked (seg_rows c limit off)).
Proof.
  intros Ho Hl Hn Hf. revert off out Ho Hn Hf.
  induction fuel as [|fuel IH]; intros off out Ho Hn Hf; cbn [pending_rows].
  { rewrite seg_rows_end by lia. unfold unacked_rows. simpl. by rewrite take_nil, app_nil_r. }
  destruct (row_loop_step c limit off Ho Hl) as [(E & -> & Hlim & Hc & ->)|[E ->]].
  - apply andb_prop in E as [E1 E2]. rewrite u32_small in E1 by lia. rewrite E1, E2. simpl.
    rewrite andb_true_r. destruct (Nat.ltb_spec (length out) maxN).
    2: { replace (maxN - length out)%nat with 0%nat by lia. by rewrite take_0, app_nil_r. }
    rewrite unacked_rows_cons. destruct (load_row (read_row c off)) as [r|].
    + destruct (r_seq r <=? acked); simpl.
      * apply IH; lia.
      * rewrite IH by (rewrite ?length_app; simpl; lia). rewrite length_app. simpl.
        replace (maxN - length out)%nat with (S (maxN - (length out + 1))) by lia.
        by rewrite <- app_assoc.
    + apply IH; lia.
  - unfold unacked_rows. simpl. rewrite take_nil, app_nil_r.
    destruct (length out <? maxN)%nat; [|done]. simpl.
    destruct (u32 (off + 36) <=? limit); [|done]. simpl in E. by rewrite E.
Qed.

Lemma count_rows_spec fuel c limit acked off count :
  0 <= off <= limit -> limit + 36 < 2 ^ 32 ->
  Z.of_nat (length c) < off + 36 * Z.of_nat fuel -> is_u32 count ->
  count_rows fuel c limit acked off count =
  u32 (count + Z.of_nat (length (unacked_rows acked (seg_rows c limit off)))).
Proof.
  intros Ho Hl Hf Hc. revert off count Ho Hf Hc.
  induction fuel as [|fuel IH]; intros off count Ho Hf Hc; cbn [count_rows].
  { rewrite seg_rows_end by lia. simpl. rewrite Z.add_0_r. by rewrite u32_small. }
  destruct (row_loop_step c limit off Ho Hl) as [(E & -> & Hlim & Hlc & ->)|[E ->]].
  - apply andb_prop in E as [E1 E2]. rewrite u32_small in E1 by lia. rewrite E1, E2. simpl.
    rewrite unacked_rows_cons. destruct (load_row (read_row c off)) as [r|].
    + destruct (r_seq r <=? acked).
      * apply IH; lia || done.
      * rewrite IH by (lia || auto with covio). cbn [length]. rewrite Nat2Z.inj_succ.
        unfold u32. rewrite Zplus_mod_idemp_l. f_equal. lia.
    + apply IH; lia || done.
  - unfold unacked_rows. simpl. rewrite Z.add_0_r, (u32_small count) by exact Hc.
    destruct (u32 (off + 36) <=? limit); [|done]. simpl in E. by rewrite E.
Qed.

(** The rows an acknowledgement of [ackedSeq] may step over. *)
Definition consumable (ackedSeq : Z) (r : option QRow) : bool :=
  match r with None => true | Some r => r_seq r <=? ackedSeq end.

Fixpoint consumed_prefix (ackedSeq : Z) (rs : list (option QRow)) : nat :=
  match rs with
  | r :: rs => if consumable ackedSeq r then S (consumed_prefix ackedSeq rs) else O
  | [] => O
  end.

Lemma ack_rows_spec fuel c limit ackedSeq off consumed :
  0 <= off <= limit -> limit + 36 < 2 ^ 32 ->
  Z.of_nat (length c) < off + 36 * Z.of_nat fuel -> is_u32 consumed ->
  let k := consumed_prefix ackedSeq (seg_rows c limit off) in
  ack_rows fuel c limit ackedSeq off consumed =
    (off + 36 * Z.of_nat k, u32 (consumed + Z.of_nat k)) /\
  off + 36 * Z.of_nat k <= limit /\
  seg_rows c limit (off + 36 * Z.of_nat k) = drop k (seg_rows c limit off).
Proof.
  intros Ho Hl Hf Hc. revert off consumed Ho Hf Hc.
  induction fuel as [|fuel IH]; intros off consumed Ho Hf Hc; cbn [ack_rows].
  { rewrite seg_rows_end by lia. simpl. rewrite !Z.add_0_r, (u32_small consumed) by exact Hc.
    split_and!; [done|lia|]. apply seg_rows_end; lia. }
  destruct (row_loop_step c limit off Ho Hl) as [(E & -> & Hlim & Hlc & Hs)|[E Hs]];
    rewrite Hs; simpl.
  - apply andb_prop in E as [E1 E2]. rewrite u32_small in E1 by lia. rewrite E1, E2. simpl.
    fold (consumable ackedSeq (load_row (read_row c off))).
    destruct (consumable ackedSeq (load_row (read_row c off))); simpl.
    + destruct (IH (off + 36) (u32 (consumed + 1))) as (-> & Hle & Hd); [lia|lia|apply u32_range|].
      replace (off + 36 * Z.of_nat (S _))
        with (off + 36 + 36 * Z.of_nat (consumed_prefix ackedSeq (seg_rows c limit (off + 36))))
        by lia.
      split_and!; [|done|done]. f_equal. unfold u32. rewrite Zplus_mod_idemp_l. f_equal. lia.
    + rewrite !Z.add_0_r, (u32_small consumed) by exact Hc. split_and!; [done|lia|done].
  - rewrite !Z.add_0_r, (u32_small consumed) by exact Hc. split_and!; [|lia|done].
    destruct (u32 (off + 36) <=? limit); [|done]. simpl in E. by rewrite E.
Qed.

Lemma unacked_filter acked ackedSeq rs :
  acked <= ackedSeq ->
  List.filter (above ackedSeq) (unacked_rows acked rs) = unacked_rows ackedSeq rs.
Proof.
  intros Hle. unfold unacked_rows. rewrite filter_filter_andb. apply List.filter_ext.
  intros r. unfold above.
  destruct (Z.ltb_spec ackedSeq (r_seq r)), (Z.ltb_spec acked (r_seq r)); simpl; lia || done.
Qed.

Lemma unacked_drop ackedSeq rs :
  unacked_rows ackedSeq (drop (consumed_prefix ackedSeq rs) rs) = unacked_rows ackedSeq rs.
Proof.
  induction rs as [|r rs IH]; simpl; [done|].
  destruct (consumable ackedSeq r) eqn:E; simpl; [|done].
  rewrite IH, unacked_rows_cons. destruct r as [r|]; [|done]. simpl in E. by rewrite E.
Qed.

(** ** The live segments *)

Section live.
Context {T Disk : Type} `{LittleFS Disk} `{IQueueOffsetCheckpoint T Disk}.

Definition active (t : T) : Z := queueOffsetSegment (T := T) (Disk := Disk) t.
Definition good (t : T) : Z := queueOffsetOffset (T := T) (Disk := Disk) t.

(** The rows of segment [seg] onwards, starting at [off], up to the
    confirmed frontier. *)
Fixpoint live_rows (fuel : nat) (t : T) (d : Disk) (seg off : Z) : list (option QRow) :=
  match fuel with
  | O => []
  | S fuel =>
      if seg <=? active t then
        match lfs_read (segmentPath_ seg) d with
        | None => []
        | Some c =>
            let limit := seg_limit (Disk := Disk) seg (active t) t c in
            seg_rows c limit (Z.min off limit) ++
            (if seg =? active t then [] else live_rows fuel t d (seg + 1) 0)
        end
      else []
  end.

Definition live (t : T) (d : Disk) (seg off : Z) : list (option QRow) :=
  live_rows (seg_fuel seg (active t)) t d seg off.

Lemma live_unfold t d seg off :
  live t d seg off =
  if seg <=? active t then
    match lfs_read (segmentPath_ seg) d with
    | None => []
    | Some c =>
        let limit := seg_limit (Disk := Disk) seg (active t) t c in
        seg_rows c limit (Z.min off limit) ++
        (if seg =? active t then [] else live t d (seg + 1) 0)
    end
  else [].
Proof.
  unfold live at 1, seg_fuel. cbn [live_rows].
  destruct (Z.leb_spec seg (active t)); [|done].
  destruct (lfs_read _ d); [|done]. f_equal.
  destruct (Z.eqb_spec seg (active t)); [done|]. unfold live, seg_fuel. f_equal. lia.
Qed.

(** A row that was read has a 32-bit number. *)
Lemma chunks_seq bs r : Some r ∈ chunks bs -> is_u32 (r_seq r).
Proof.
  unfold chunks. generalize (length bs / 36)%nat. intros n. revert bs.
  induction n as [|n IH]; intros bs; cbn [rows].
  { by intros ?%elem_of_nil. }
  intros [E|Hr]%elem_of_cons; [|by eapply IH]. symmetry in E. unfold load_row in E.
  destruct (load_bytes_inv _ _ E) as (_ & _ & Hf).
  apply QRow_fits in Hf. by destruct_and! Hf.
Qed.

Lemma live_rows_seq fuel t d seg off r : Some r ∈ live_rows fuel t d seg off -> is_u32 (r_seq r).
Proof.
  revert seg off. induction fuel as [|fuel IH]; intros seg off; cbn [live_rows].
  { by intros ?%elem_of_nil. }
  destruct (seg <=? active t); [|by intros ?%elem_of_nil].
  destruct (lfs_read _ d); [|by intros ?%elem_of_nil]. intros [Hr|Hr]%elem_of_app.
  - by eapply chunks_seq.
  - destruct (seg =? active t); [by apply elem_of_nil in Hr|by eapply IH].
Qed.

(** Induction over the segments from [seg] to the active one. *)
Lemma seg_ind t (P : Z -> Prop) :
  (forall seg, active t < seg -> P seg) ->
  (forall seg, seg <= active t -> P (seg + 1) -> P seg) ->
  forall seg, P seg.
Proof.
  intros Hout Hstep seg. remember (seg_fuel seg (active t)) as n eqn:Hn. unfold seg_fuel in Hn.
  revert seg Hn. induction n as [|n IH]; intros seg Hn; [done|].
  destruct (decide (active t < seg)); [by apply Hout|].
  apply Hstep; [lia|]. destruct (decide (seg = active t)) as [->|].
  - apply Hout. lia.
  - apply IH. lia.
Qed.

(** The live rows depend only on the files of the live segments. *)
Lemma live_ext t t' d d' seg off :
  active t' = active t -> good t' = good t ->
  (forall s, seg <= s <= active t -> lfs_read (segmentPath_ s) d' = lfs_read (segmentPath_ s) d) ->
  live t' d' seg off = live t d seg off.
Proof.
  intros Ha Hg. revert seg off. refine (seg_ind t _ _ _).
  - intros seg Hs off _. rewrite (live_unfold t'), (live_unfold t), Ha.
    by rewrite (proj2 (Z.leb_gt _ _)).
  - intros seg Hs IH off Hd. rewrite (live_unfold t'), (live_unfold t), Ha, Hd by lia.
    destruct (seg <=? active t); [|done]. destruct (lfs_read _ d) as [c|]; [|done].
    unfold seg_limit. fold (good t') (good t). rewrite Hg.
    destruct (seg =? active t); [done|]. f_equal. apply IH. intros s Hs'. apply Hd. lia.
Qed.

(** Sizes a real partition has: nothing below reaches the 32-bit limits. *)
Record in_range (t : T) (d : Disk) (seg off : Z) : Prop := {
  ir_seg : 0 <= seg;
  ir_off : 0 <= off;
  ir_active : active t + 1 < 2 ^ 32;
  ir_good : 0 <= good t /\ good t + 36 < 2 ^ 32;
  ir_files s c :
    seg <= s -> lfs_read (segmentPath_ s) d = Some c -> Z.of_nat (length c) + 36 < 2 ^ 32;
}.

Lemma in_range_next t d seg off : in_range t d seg off -> in_range t d (seg + 1) 0.
Proof.
  intros [Hs Ho Ha Hg Hf]. split; try done; try lia. intros s c Hsc. apply Hf. lia.
Qed.

Lemma in_range_limit t d seg off c :
  in_range t d seg off -> lfs_read (segmentPath_ seg) d = Some c ->
  0 <= seg_limit (Disk := Disk) seg (active t) t c /\
  seg_limit (Disk := Disk) seg (active t) t c + 36 < 2 ^ 32.
Proof.
  intros [_ _ _ Hg Hf] Hc. unfold seg_limit. fold (good t). case_match; [done|].
  apply Hf in Hc; lia.
Qed.

Lemma min_off (off limit : Z) : (if limit <? off then limit else off) = Z.min off limit.
Proof. destruct (Z.ltb_spec limit off); lia. Qed.

Lemma pending_segs_spec fuel acked t d maxN seg off out :
  in_range t d seg off -> (length out <= maxN)%nat -> fuel = seg_fuel seg (active t) ->
  pending_segs fuel acked (active t) t d maxN seg off out =
  out ++ take (maxN - length out) (unacked_rows acked (live t d seg off)).
Proof.
  revert seg off out. induction fuel as [|fuel IH]; intros seg off out Hr Hn Hf; [done|].
  cbn [pending_segs]. rewrite live_unfold.
  destruct (Nat.ltb_spec (length out) maxN); cbn [andb].
  2: { replace (maxN - length out)%nat with 0%nat by lia. by rewrite take_0, app_nil_r. }
  destruct (Z.leb_spec seg (active t)).
  2: { unfold unacked_rows. simpl. by rewrite take_nil, app_nil_r. }
  destruct (lfs_read (segmentPath_ seg) d) as [c|] eqn:Hc.
  2: { unfold unacked_rows. simpl. by rewrite take_nil, app_nil_r. }
  pose proof (in_range_limit _ _ _ _ _ Hr Hc) as Hlim. pose proof Hr as [Hs Ho Ha Hg Hfl].
  set (limit := seg_limit seg (active t) t c) in *. cbv zeta. rewrite min_off.
  rewrite pending_rows_spec by lia. rewrite unacked_rows_app, take_app.
  destruct (Z.eqb_spec seg (active t)).
  - change (unacked_rows acked []) with (@nil QRow). by rewrite take_nil, app_nil_r.
  - rewrite u32_small by lia. rewrite IH.
    + rewrite app_assoc, length_app, length_take. do 2 f_equal. lia.
    + by eapply in_range_next.
    + rewrite length_app, length_take. lia.
    + unfold seg_fuel in *. lia.
Qed.

Lemma count_segs_spec fuel acked t d seg off count :
  in_range t d seg off -> fuel = seg_fuel seg (active t) -> is_u32 count ->
  count_segs fuel acked (active t) t d seg off count =
  u32 (count + Z.of_nat (length (unacked_rows acked (live t d seg off)))).
Proof.
  revert seg off count. induction fuel as [|fuel IH]; intros seg off count Hr Hf Hct; [done|].
  assert (Hz : count = u32 (count + 0)) by (by rewrite Z.add_0_r, u32_small).
  cbn [count_segs]. rewrite live_unfold.
  destruct (Z.leb_spec seg (active t)); [|done].
  destruct (lfs_read (segmentPath_ seg) d) as [c|] eqn:Hc; [|done].
  pose proof (in_range_limit _ _ _ _ _ Hr Hc) as Hlim. pose proof Hr as [Hs Ho Ha Hg Hfl].
  set (limit := seg_limit seg (active t) t c) in *. cbv zeta. rewrite min_off.
  rewrite count_rows_spec by (lia || done). rewrite unacked_rows_app, length_app, Nat2Z.inj_add.
  destruct (Z.eqb_spec seg (active t)).
  - change (unacked_rows acked []) with (@nil QRow). simpl. by rewrite Z.add_0_r.
  - rewrite (u32_small (seg + 1)) by lia. rewrite IH.
    + rewrite Z.add_assoc. unfold u32. by rewrite Zplus_mod_idemp_l.
    + by eapply in_range_next.
    + unfold seg_fuel in *. lia.
    + apply u32_range.
Qed.

(** Where the walk of ackThrough may end up: [P] holds of its start and is
    kept by consuming rows and by moving to the next segment. *)
Definition walk_closed (t : T) (d : Disk) (P : Z -> Z -> Prop) : Prop :=
  (forall seg off c k,
     P seg off -> lfs_read (segmentPath_ seg) d = Some c -> 0 <= k ->
     let limit := seg_limit (Disk := Disk) seg (active t) t c in
     Z.min off limit + 36 * k <= limit -> P seg (Z.min off limit + 36 * k)) /\
  (forall seg off, P seg off -> seg < active t -> P (seg + 1) 0).

Lemma ack_segs_spec fuel ackedSeq t d seg off consumed P :
  in_range t d seg off -> fuel = seg_fuel seg (active t) -> is_u32 consumed ->
  walk_closed t d P -> P seg off ->
  exists seg' off' consumed',
    ack_segs fuel ackedSeq (active t) t d seg off consumed = (seg', off', consumed') /\
    in_range t d seg' off' /\ seg <= seg' /\ (seg <= active t -> seg' <= active t) /\
    P seg' off' /\ is_u32 consumed' /\
    unacked_rows ackedSeq (live t d seg' off') = unacked_rows ackedSeq (live t d seg off).
Proof.
  revert seg off consumed. induction fuel as [|fuel IH]; intros seg off consumed Hr Hf Hct Hw HP;
    [done|].
  cbn [ack_segs]. destruct (Z.leb_spec seg (active t)).
  2: { exists seg, off, consumed. split_and!; try done; lia. }
  destruct (lfs_read (segmentPath_ seg) d) as [c|] eqn:Hc.
  2: { exists seg, off, consumed. split_and!; try done; lia. }
  pose proof (in_range_limit _ _ _ _ _ Hr Hc) as Hlim. pose proof Hr as [Hs Ho Ha Hg Hfl].
  cbv zeta. rewrite min_off.
  destruct (ack_rows_spec (S (length c)) c (seg_limit seg (active t) t c) ackedSeq
              (Z.min off (seg_limit seg (active t) t c)) consumed)
    as (Ek & Hle & Hd); [lia|lia|lia|done|].
  pose proof (proj1 Hw _ _ _ _ HP Hc (Zle_0_nat (consumed_prefix ackedSeq
    (seg_rows c (seg_limit seg (active t) t c)
       (Z.min off (seg_limit seg (active t) t c))))) Hle) as HP1.
  rewrite Ek. clear Ek. revert Hle Hd HP1.
  set (limit := seg_limit seg (active t) t c) in *.
  set (k := consumed_prefix ackedSeq (seg_rows c limit (Z.min off limit))).
  set (off1 := Z.min off limit + 36 * Z.of_nat k). intros Hle Hd HP1.
  assert (Hlive : unacked_rows ackedSeq (live t d seg off1) =
                  unacked_rows ackedSeq (live t d seg off)).
  { rewrite (live_unfold t d seg off1), (live_unfold t d seg off), Hc. fold limit.
    destruct (Z.leb_spec seg (active t)); [|lia]. cbv zeta.
    rewrite !unacked_rows_app, (Z.min_l off1) by lia. f_equal. rewrite Hd. apply unacked_drop. }
  destruct (Z.ltb_spec seg (active t)), (Z.leb_spec limit off1); cbn [andb].
  - rewrite u32_small by lia.
    destruct (IH (seg + 1) 0 (u32 (consumed + Z.of_nat k)))
      as (seg' & off' & consumed' & E & Hr' & Hs' & Ha' & HP' & Hc' & Hu);
      [by eapply in_range_next|unfold seg_fuel in *; lia|apply u32_range|done|
       by eapply (proj2 Hw)|].
    exists seg', off', consumed'. split_and!; [done|done|lia|intros; apply Ha'; lia|done|done|].
    rewrite Hu, <- Hlive. rewrite (live_unfold t d seg off1), Hc. fold limit.
    destruct (Z.leb_spec seg (active t)); [|lia]. cbv zeta.
    rewrite (proj2 (Z.eqb_neq seg (active t))) by lia.
    rewrite unacked_rows_app, seg_rows_end by lia. done.
  - exists seg, off1, (u32 (consumed + Z.of_nat k)). split_and!; try done; try lia.
    + split; try done; lia.
    + apply u32_range.
  - exists seg, off1, (u32 (consumed + Z.of_nat k)). split_and!; try done; try lia.
    + split; try done; lia.
    + apply u32_range.
  - exists seg, off1, (u32 (consumed + Z.of_nat k)). split_and!; try done; try lia.
    + split; try done; lia.
    + apply u32_range.
Qed.
End live.

(** ** File names *)

Lemma segmentPath_inj s s' : 0 <= s -> 0 <= s' -> segmentPath_ s = segmentPath_ s' -> s = s'.
Proof.
  unfold segmentPath_. intros Hs Hs' E. apply (pad_inj 6); [done..|].
  apply (inj (String.append "/queue/seg_")) in E. by apply str_app_inj_r in E.
Qed.

(** The queue's other files are not segments. *)
Definition side_file (p : string) : Prop :=
  p = ACK_PATH_A \/ p = ACK_PATH_B \/ p = FAIL_PATH_A \/ p = FAIL_PATH_B \/ p = LOG_PATH.

Lemma segment_not_side s : ~ side_file (segmentPath_ s).
Proof. unfold side_file, segmentPath_. intros [E|[E|[E|[E|E]]]]; discriminate E. Qed.

Lemma slot_side_ack w : side_file (slot ACK_PATH_A ACK_PATH_B w).
Proof. unfold side_file, slot. case_match; tauto. Qed.

Lemma slot_side_fail w : side_file (slot FAIL_PATH_A FAIL_PATH_B w).
Proof. unfold side_file, slot. case_match; tauto. Qed.
