(* ===== verification/QueueRefine.v ===== *)
(** * The queue implements a FIFO of unacknowledged rows

    [QInv] is the invariant of queue.h and its files; [unacked] the abstract
    queue.  Every operation preserves the first and has the specified effect
    on the second, whatever the flash library does within its contract. *)

From S2P Require Import Prelude Config Arduino Crc32 Records Storage DualSlot QueueData Queue QueueSpec.
Import EventQueue.

(** Bytes of a full segment: [QUEUE_SEGMENT_ROWS * sizeof(QRow)]. *)
Definition cap : Z := 180000.

Section refine.
Context {T Disk : Type} `{LittleFSLaws Disk} `{SB : StorageBackend Disk}
  {SBL : StorageBackendLaws Disk} `{QO : IQueueOffsetCheckpoint T Disk}.
Context (own : string -> Prop) {QL : QueueOffsetLaws T Disk own}.
(** The checkpoint's own files are not the queue's. *)
Hypothesis own_segment : forall s, ~ own (segmentPath_ s).

Abbreviation active := (active (T := T) (Disk := Disk)).
Abbreviation good := (good (T := T) (Disk := Disk)).

(** The active segment's file: the confirmed bytes, and at most one row of
    unconfirmed tail, none once the segment is full. *)
Definition tail_ok (t : T) (c : option (list byte)) : Prop :=
  match c with
  | None => good t = 0
  | Some c => good t <= Z.of_nat (length c) <= good t + 36 /\
              (good t = cap -> Z.of_nat (length c) = cap)
  end.

Record QInv (q : EventQueue) (t : T) (d : Disk) : Prop := {
  qi_wired : tot_wired q = true;
  qi_seg : 0 <= cursor_segment (ack_ q) <= active t;
  qi_off : 0 <= cursor_offset (ack_ q) /\ cursor_offset (ack_ q) mod 36 = 0 /\
           cursor_offset (ack_ q) <=
             (if cursor_segment (ack_ q) =? active t then good t else cap);
  qi_good : 0 <= good t <= cap /\ good t mod 36 = 0;
  qi_closed s : cursor_segment (ack_ q) <= s < active t ->
    exists c, lfs_read (segmentPath_ s) d = Some c /\ Z.of_nat (length c) = cap;
  qi_active : tail_ok t (lfs_read (segmentPath_ (active t)) d);
  qi_next : (length (content (segmentPath_ (active t + 1)) d) <= 36)%nat;
  qi_later s : active t + 1 < s -> lfs_read (segmentPath_ s) d = None;
}.

(** The abstract queue. *)
Definition unacked (q : EventQueue) (t : T) (d : Disk) : list QRow :=
  unacked_rows (acked_seq (ack_ q))
    (live t d (cursor_segment (ack_ q)) (cursor_offset (ack_ q))).

Lemma QInv_in_range q t d :
  QInv q t d -> active t + 1 < 2 ^ 32 ->
  in_range t d (cursor_segment (ack_ q)) (cursor_offset (ack_ q)).
Proof.
  intros [] Ha. unfold cap in *. split; [lia|lia|lia|lia|]. intros s c Hs Hc.
  destruct (decide (s < active t)).
  { destruct (qi_closed0 s) as (c' & Hc' & Hl); [lia|]. simplify_eq. lia. }
  destruct (decide (s = active t)) as [->|].
  { unfold tail_ok in *. rewrite Hc in *. lia. }
  destruct (decide (s = active t + 1)) as [->|].
  { unfold content in *. rewrite Hc in *. simpl in *. lia. }
  rewrite qi_later0 in Hc by lia. done.
Qed.

Lemma pendingImpl_spec maxN q t d :
  QInv q t d -> active t + 1 < 2 ^ 32 -> pendingImpl_ maxN q t d = take maxN (unacked q t d).
Proof.
  intros HI Ha. unfold pendingImpl_. rewrite (qi_wired _ _ _ HI). cbn [negb]. cbv zeta.
  fold (active t).
  rewrite pending_segs_spec; [simpl; by rewrite Nat.sub_0_r|by apply QInv_in_range|simpl; lia|done].
Qed.

Lemma computeUnackedCount_spec q t d :
  QInv q t d -> active t + 1 < 2 ^ 32 ->
  computeUnackedCount_ q t d = u32 (Z.of_nat (length (unacked q t d))).
Proof.
  intros HI Ha. unfold computeUnackedCount_. cbv zeta. fold (active t).
  rewrite count_segs_spec; [done|by apply QInv_in_range|done|done].
Qed.

(** ** Changes that the queue cannot see *)

(** Only the live segments matter; others may go. *)
Definition live_kept (q : EventQueue) (t : T) (d d' : Disk) : Prop :=
  (forall s, cursor_segment (ack_ q) <= s <= active t ->
     lfs_read (segmentPath_ s) d' = lfs_read (segmentPath_ s) d) /\
  forall s, active t < s -> lfs_read (segmentPath_ s) d' = lfs_read (segmentPath_ s) d \/
                            lfs_read (segmentPath_ s) d' = None.

Lemma QInv_live q q' t d d' :
  ack_ q' = ack_ q -> tot_wired q' = tot_wired q -> live_kept q t d d' ->
  QInv q t d -> QInv q' t d' /\ unacked q' t d' = unacked q t d.
Proof.
  intros Ea Ew [Hd Hl] []. split.
  - split; rewrite ?Ea, ?Ew; try done.
    + intros s Hs. rewrite Hd by lia. by apply qi_closed0.
    + by rewrite Hd by lia.
    + unfold content in *. destruct (Hl (active t + 1)) as [->| ->]; [lia|done|simpl; lia].
    + intros s Hs. destruct (Hl s) as [->| ->]; [lia|by apply qi_later0|done].
  - unfold unacked. rewrite Ea. f_equal. by apply live_ext.
Qed.

Lemma QInv_from q q' t d d' :
  ack_ q' = ack_ q -> tot_wired q' = tot_wired q ->
  (forall s, cursor_segment (ack_ q) <= s ->
     lfs_read (segmentPath_ s) d' = lfs_read (segmentPath_ s) d) ->
  QInv q t d -> QInv q' t d' /\ unacked q' t d' = unacked q t d.
Proof.
  intros Ea Ew Hd HI. apply QInv_live; [done|done| |done]. pose proof (qi_seg _ _ _ HI).
  split; intros s Hs; [apply Hd; lia|left; apply Hd; lia].
Qed.

Lemma QInv_ext q q' t d d' :
  ack_ q' = ack_ q -> tot_wired q' = tot_wired q ->
  (forall s, lfs_read (segmentPath_ s) d' = lfs_read (segmentPath_ s) d) ->
  QInv q t d -> QInv q' t d' /\ unacked q' t d' = unacked q t d.
Proof. intros Ea Ew Hd. by apply QInv_from. Qed.

(** The totalizer counts only through the confirmed offset, the queue object
    through its wiring and its cursor. *)
Lemma QInv_ram q q' t t' (d : Disk) :
  ack_ q' = ack_ q -> tot_wired q' = true -> active t' = active t -> good t' = good t ->
  QInv q t d -> QInv q' t' d /\ unacked q' t' d = unacked q t d.
Proof.
  intros Eq Hw Ea Eg HI. split.
  - destruct HI. split; rewrite ?Ea, ?Eg, ?Eq; try done. unfold tail_ok in *. by rewrite Eg.
  - unfold unacked. rewrite Eq. f_equal. by apply live_ext.
Qed.

Lemma writeWhole_side p bs (d : Disk) s :
  side_file p -> lfs_read (segmentPath_ s) (snd (writeWhole p bs d)) =
                 lfs_read (segmentPath_ s) d.
Proof.
  intros Hp. destruct (writeWhole p bs d) as [b d'] eqn:Hw. apply writeWhole_law in Hw.
  assert (segmentPath_ s <> p) by (intros <-; by apply segment_not_side in Hp).
  destruct b; simpl; [by apply Hw|]. destruct Hw as [Hw|(n & _ & Hw)]; by apply Hw.
Qed.

Lemma recordWriteFailure_side cd ms q t (d : Disk) :
  QInv q t d ->
  let '(q', d') := recordWriteFailure_ cd ms q d in
  QInv q' t d' /\ unacked q' t d' = unacked q t d /\
  ack_ q' = ack_ q /\ failed_write_count (fail_ q') = u32 (failed_write_count (fail_ q) + 1) /\
  last_error_code (fail_ q') = fail_code_value cd.
Proof.
  intros HI. unfold recordWriteFailure_, persistFail_. simpl.
  match goal with |- context [seal ?x] => pose proof (seal_fields (R := FailureState) x) as Hs;
    revert Hs; generalize (seal x) end.
  simpl. intros f Hs. simplify_eq.
  match goal with |- QInv ?q' t ?d' /\ _ =>
    destruct (QInv_ext q q' t d d') as [HI' Hu]; [done|done| |done|] end.
  - intros s. apply writeWhole_side, slot_side_fail.
  - by split_and!.
Qed.

(** ** The append frontier *)

(** Where the next row goes: the next segment once the active one is full. *)
Definition next_seg (t : T) : Z := if cap <=? good t then active t + 1 else active t.
Definition next_off (t : T) : Z := if cap <=? good t then 0 else good t.

Lemma next_file q t d :
  QInv q t d ->
  next_off t <= Z.of_nat (length (content (segmentPath_ (next_seg t)) d)) <= next_off t + 36 /\
  0 <= next_off t /\ next_off t mod 36 = 0 /\ next_off t + 36 <= cap /\ 0 <= next_seg t /\
  active t <= next_seg t <= active t + 1.
Proof.
  intros []. unfold next_seg, next_off. unfold cap in *. destruct (Z.leb_spec 180000 (good t)).
  - simpl. split_and!; lia || done.
  - unfold tail_ok, content in *.
    destruct (lfs_read (segmentPath_ (active t)) d); simpl; split_and!; try lia;
      pose proof (Z.div_mod (good t) 36 ltac:(lia)); lia.
Qed.

Lemma seg_rows_take c limit off : 0 <= limit ->
  seg_rows (take (Z.to_nat limit) c) limit off = seg_rows c limit off.
Proof. intros. unfold seg_rows. by rewrite take_take, Nat.min_id. Qed.

(** Replacing the unconfirmed tail of the next file is invisible. *)
Lemma tail_invisible q t d d' c' :
  QInv q t d -> only_changes (segmentPath_ (next_seg t)) (Some c') d d' ->
  next_off t <= Z.of_nat (length c') <= next_off t + 36 ->
  take (Z.to_nat (next_off t)) c' =
    take (Z.to_nat (next_off t)) (content (segmentPath_ (next_seg t)) d) ->
  QInv q t d' /\ unacked q t d' = unacked q t d.
Proof.
  intros HI [Hc Ho] Hl Ht. pose proof (next_file _ _ _ HI) as Hn.
  assert (Hne : forall s, 0 <= s -> s <> next_seg t ->
            lfs_read (segmentPath_ s) d' = lfs_read (segmentPath_ s) d).
  { intros s Hs Hne. apply Ho. intros E. apply segmentPath_inj in E; [done|lia|lia]. }
  destruct HI. unfold next_seg, next_off in *. destruct (Z.leb_spec cap (good t)) as [Hcap|Hcap].
  - split.
    + split; try done.
      * intros s Hs. rewrite Hne by lia. by apply qi_closed0.
      * by rewrite Hne by lia.
      * unfold content. rewrite Hc. simpl. lia.
      * intros s Hs. rewrite Hne by lia. by apply qi_later0.
    + unfold unacked. f_equal. apply live_ext; [done|done|]. intros s Hs. apply Hne; lia.
  - split.
    + split; try done.
      * intros s Hs. rewrite Hne by lia. by apply qi_closed0.
      * rewrite Hc. simpl. lia.
      * unfold content in *. by rewrite Hne by lia.
      * intros s Hs. rewrite Hne by lia. by apply qi_later0.
    + unfold unacked. f_equal. clear qi_off0 qi_closed0. revert qi_seg0.
      generalize (cursor_offset (ack_ q)). generalize (cursor_segment (ack_ q)).
      refine (seg_ind (Disk := Disk) t _ _ _); [intros; lia|].
      intros seg Hs IH off Hseg. rewrite (live_unfold t d'), (live_unfold t d).
      destruct (Z.leb_spec seg (active t)); [|lia].
      destruct (Z.eqb_spec seg (active t)) as [->|Hns].
      * rewrite Hc. unfold content in *. unfold seg_limit. rewrite Z.eqb_refl. cbv zeta.
        fold (good t). rewrite <- (seg_rows_take c') by lia. rewrite Ht.
        destruct (lfs_read (segmentPath_ (active t)) d) as [c|]; simpl.
        -- by rewrite seg_rows_take by lia.
        -- rewrite app_nil_r. unfold seg_rows. by rewrite !take_nil, drop_nil.
      * rewrite Hne by lia. destruct (lfs_read (segmentPath_ seg) d); [|done].
        unfold seg_limit. rewrite (proj2 (Z.eqb_neq _ _)) by done. f_equal.
        destruct (decide (seg + 1 <= active t)); [|lia]. apply IH. lia.
Qed.

(** ** A confirmed row *)

Lemma seal_row_seq r : r_seq (seal_row r) = r_seq r.
Proof.
  pose proof (seal_fields r) as E. unfold seal_row. revert E. generalize (seal r).
  simpl. intros x E. by simplify_eq.
Qed.

Lemma row_length r : length (bytes_of (seal_row r)) = 36%nat.
Proof. unfold seal_row. by rewrite length_bytes_of. Qed.

Lemma row_loads r : fields_fit r -> load_row (bytes_of (seal_row r)) = Some (seal_row r).
Proof. intros. apply load_bytes_seal; [apply QROW_MAGIC_fits|done]. Qed.

Lemma chunks_row r : fields_fit r -> chunks (bytes_of (seal_row r)) = [Some (seal_row r)].
Proof.
  intros Hf. pose proof (row_length r). rewrite chunks_step by lia.
  rewrite take_ge, drop_ge by lia. rewrite chunks_short by (simpl; lia). by rewrite row_loads.
Qed.

(** Appending one row to the confirmed bytes [c0]. *)
Lemma seg_rows_snoc c0 r g off :
  fields_fit r -> Z.of_nat (length c0) = g -> 0 <= off <= g -> off mod 36 = 0 -> g mod 36 = 0 ->
  seg_rows (c0 ++ bytes_of (seal_row r)) (g + 36) off = seg_rows c0 g off ++ [Some (seal_row r)].
Proof.
  intros Hf Hl Ho Hm1 Hm2. unfold seg_rows.
  rewrite take_ge by (rewrite length_app, row_length; lia). rewrite (take_ge c0) by lia.
  rewrite drop_app_le by lia.
  pose proof (Z.div_mod g 36 ltac:(lia)). pose proof (Z.div_mod off 36 ltac:(lia)).
  rewrite (chunks_app (Z.to_nat (g / 36 - off / 36))) by (rewrite length_drop; lia).
  by rewrite chunks_row.
Qed.

(** The cursor's bounds, as an induction over segments needs them. *)
Definition off_ok (t : T) (seg off : Z) : Prop :=
  0 <= off /\ off mod 36 = 0 /\ off <= (if seg =? active t then good t else cap).

Lemma off_ok_0 q t d seg : QInv q t d -> off_ok t seg 0.
Proof.
  intros []. unfold off_ok, cap in *. split_and!; [lia|done|]. destruct (seg =? active t); lia.
Qed.

Definition closed_from (t : T) (d : Disk) (seg : Z) : Prop :=
  forall s, seg <= s < active t ->
    exists c, lfs_read (segmentPath_ s) d = Some c /\ Z.of_nat (length c) = cap.

(** The row starts a new segment: the full one is now a closed one. *)
Lemma live_rollover q t d t' d' r seg off ca :
  QInv q t d -> fields_fit r -> active t' = active t + 1 -> good t' = 36 -> good t = cap ->
  lfs_read (segmentPath_ (active t)) d = Some ca -> Z.of_nat (length ca) = cap ->
  lfs_read (segmentPath_ (active t + 1)) d' = Some (bytes_of (seal_row r)) ->
  (forall s, 0 <= s <= active t ->
     lfs_read (segmentPath_ s) d' = lfs_read (segmentPath_ s) d) ->
  closed_from t d seg -> 0 <= seg <= active t -> off_ok t seg off ->
  live t' d' seg off = live t d seg off ++ [Some (seal_row r)].
Proof.
  intros HI Hf Ha Hg Hcap Hca Hla Hc Hne. pose proof (row_length r) as Hrl.
  revert off. revert seg. refine (seg_ind (Disk := Disk) t _ _ _); [intros; lia|].
  intros seg Hs IH off Hcl Hseg (Ho0 & Hom & Hob).
  rewrite (live_unfold t' d'), (live_unfold t d), Ha.
  destruct (Z.leb_spec seg (active t)); [|lia].
  destruct (Z.leb_spec seg (active t + 1)); [|lia].
  rewrite Hne by lia. unfold seg_limit. rewrite (proj2 (Z.eqb_neq seg (active t + 1))) by lia.
  destruct (Z.eqb_spec seg (active t)) as [->|Hns].
  - rewrite Hca. fold (good t). rewrite Hla, Hcap, app_nil_r. cbv zeta. f_equal.
    rewrite (live_unfold t' d'), Ha, Z.leb_refl, Hc. unfold seg_limit. rewrite Z.eqb_refl.
    fold (good t'). rewrite Hg. cbv zeta. rewrite app_nil_r, Z.min_l by lia.
    unfold seg_rows. rewrite drop_0, take_ge by lia. by apply chunks_row.
  - destruct (Hcl seg) as (c & -> & Hlc); [lia|]. cbv zeta. rewrite <- app_assoc. f_equal.
    apply IH; [intros s Hs'; apply Hcl; lia|lia|by eapply off_ok_0].
Qed.

(** The row is added to the active segment. *)
Lemma live_same_segment q t d t' d' r seg off c0 :
  QInv q t d -> fields_fit r -> active t' = active t -> good t' = good t + 36 ->
  c0 = take (Z.to_nat (good t)) (content (segmentPath_ (active t)) d) ->
  Z.of_nat (length c0) = good t ->
  lfs_read (segmentPath_ (active t)) d' = Some (c0 ++ bytes_of (seal_row r)) ->
  (forall s, 0 <= s < active t ->
     lfs_read (segmentPath_ s) d' = lfs_read (segmentPath_ s) d) ->
  closed_from t d seg -> 0 <= seg <= active t -> off_ok t seg off ->
  live t' d' seg off = live t d seg off ++ [Some (seal_row r)].
Proof.
  intros HI Hf Ha Hg Hc0 Hl0 Hc Hne. pose proof (qi_good _ _ _ HI) as Hgood.
  revert off. revert seg. refine (seg_ind (Disk := Disk) t _ _ _); [intros; lia|].
  intros seg Hs IH off Hcl Hseg (Ho0 & Hom & Hob).
  rewrite (live_unfold t' d'), (live_unfold t d), Ha.
  destruct (Z.leb_spec seg (active t)); [|lia]. unfold seg_limit.
  destruct (Z.eqb_spec seg (active t)) as [->|Hns].
  - rewrite Hc. fold (good t') (good t). rewrite Hg, !app_nil_r. cbv zeta.
    rewrite !Z.min_l by lia. rewrite seg_rows_snoc by (done || lia). f_equal.
    unfold content in Hc0.
    destruct (lfs_read (segmentPath_ (active t)) d) as [c|]; simpl in Hc0.
    + rewrite ?app_nil_r, ?Z.min_l by lia. by rewrite Hc0, seg_rows_take by lia.
    + rewrite Hc0, take_nil. apply seg_rows_end; [lia|]. simpl. lia.
  - rewrite Hne by lia. destruct (Hcl seg) as (c & -> & Hlc); [lia|].
    rewrite <- app_assoc. f_equal. apply IH; [intros s Hs'; apply Hcl; lia|lia|].
    by eapply off_ok_0.
Qed.

Lemma unacked_snoc q t d t' d' r :
  live t' d' (cursor_segment (ack_ q)) (cursor_offset (ack_ q)) =
    live t d (cursor_segment (ack_ q)) (cursor_offset (ack_ q)) ++ [Some (seal_row r)] ->
  unacked q t' d' =
    unacked q t d ++ (if r_seq (seal_row r) <=? acked_seq (ack_ q) then [] else [seal_row r]).
Proof.
  intros E. unfold unacked. rewrite E, unacked_rows_app. f_equal.
  rewrite unacked_rows_cons. by case_match.
Qed.

(** Confirming the row written behind the next offset. *)
Definition row_written (q : EventQueue) (t : T) (d d' : Disk) (r : QRow) : Prop :=
  only_changes (segmentPath_ (next_seg t))
    (Some (take (Z.to_nat (next_off t)) (content (segmentPath_ (next_seg t)) d)
           ++ bytes_of (seal_row r))) d d'.

Lemma rollover_full q t d :
  QInv q t d -> cap <= good t ->
  good t = cap /\ exists c, lfs_read (segmentPath_ (active t)) d = Some c /\
                           Z.of_nat (length c) = cap.
Proof.
  intros [] Hcap. split; [lia|]. unfold tail_ok in *.
  destruct (lfs_read (segmentPath_ (active t)) d) as [c|]; [|unfold cap in *; lia].
  exists c. split; [done|]. apply qi_active0. lia.
Qed.

Lemma row_confirmed_rollover q t d t' d' r :
  QInv q t d -> fields_fit r -> row_written q t d d' r -> cap <= good t ->
  active t' = next_seg t -> good t' = next_off t + 36 ->
  QInv q t' d' /\
  unacked q t' d' =
    unacked q t d ++ (if r_seq (seal_row r) <=? acked_seq (ack_ q) then [] else [seal_row r]).
Proof.
  intros HI Hf [Hc Ho] Hcap Ha Hg. destruct (rollover_full _ _ _ HI Hcap) as (Hgc & ca & Hca & Hla).
  pose proof (qi_seg _ _ _ HI) as Hseg.
  unfold next_seg, next_off in *. destruct (Z.leb_spec cap (good t)); [|lia].
  simpl in Hc, Hg. pose proof (row_length r) as Hrl.
  assert (Hne : forall s, 0 <= s -> s <> active t + 1 ->
            lfs_read (segmentPath_ s) d' = lfs_read (segmentPath_ s) d).
  { intros s Hs Hne. apply Ho. intros E. apply segmentPath_inj in E; [done|lia|lia]. }
  split.
  - pose proof HI as []. split; rewrite ?Ha, ?Hg; try done; try lia.
    + split_and!; [lia|tauto|]. rewrite (proj2 (Z.eqb_neq _ _)) by lia.
      destruct qi_off0 as (_ & _ & Hle). destruct (_ =? _); lia.
    + intros s Hs. rewrite Hne by lia. destruct (decide (s = active t)) as [->|].
      * by exists ca.
      * apply qi_closed0. lia.
    + rewrite Hc. simpl. rewrite Hg. unfold cap. lia.
    + unfold content. rewrite Hne, qi_later0 by lia. simpl. lia.
    + intros s Hs. rewrite Hne by lia. apply qi_later0. lia.
  - apply unacked_snoc. eapply live_rollover; try done.
    + intros s Hs. apply Hne; lia.
    + exact (qi_closed _ _ _ HI).
    + exact (qi_off _ _ _ HI).
Qed.

Lemma row_confirmed_same q t d t' d' r :
  QInv q t d -> fields_fit r -> row_written q t d d' r -> good t < cap ->
  active t' = next_seg t -> good t' = next_off t + 36 ->
  QInv q t' d' /\
  unacked q t' d' =
    unacked q t d ++ (if r_seq (seal_row r) <=? acked_seq (ack_ q) then [] else [seal_row r]).
Proof.
  intros HI Hf [Hc Ho] Hcap Ha Hg. pose proof (next_file _ _ _ HI) as Hn.
  pose proof (qi_seg _ _ _ HI) as Hseg. pose proof (row_length r) as Hrl.
  unfold next_seg, next_off in *. destruct (Z.leb_spec cap (good t)); [lia|].
  set (c0 := take (Z.to_nat (good t)) (content (segmentPath_ (active t)) d)) in *.
  assert (Hl0 : Z.of_nat (length c0) = good t) by (unfold c0; rewrite length_take; lia).
  assert (Hne : forall s, 0 <= s -> s <> active t ->
            lfs_read (segmentPath_ s) d' = lfs_read (segmentPath_ s) d).
  { intros s Hs Hne. apply Ho. intros E. apply segmentPath_inj in E; [done|lia|lia]. }
  split.
  - pose proof HI as []. split; rewrite ?Ha, ?Hg; try done; try lia.
    + split_and!; [lia|tauto|]. destruct qi_off0 as (_ & _ & Hle). destruct (_ =? _); lia.
    + split; [lia|]. rewrite <- Z.add_mod_idemp_l by lia. by rewrite (proj2 qi_good0).
    + intros s Hs. rewrite Hne by lia. by apply qi_closed0.
    + rewrite Hc. simpl. rewrite length_app. rewrite Hg. lia.
    + unfold content in *. by rewrite Hne by lia.
    + intros s Hs. rewrite Hne by lia. by apply qi_later0.
  - apply unacked_snoc. eapply live_same_segment; try done.
    + intros s Hs. apply Hne; lia.
    + exact (qi_closed _ _ _ HI).
    + exact (qi_off _ _ _ HI).
Qed.

Lemma row_confirmed q t d t' d' r :
  QInv q t d -> fields_fit r -> row_written q t d d' r ->
  active t' = next_seg t -> good t' = next_off t + 36 ->
  QInv q t' d' /\
  unacked q t' d' =
    unacked q t d ++ (if r_seq (seal_row r) <=? acked_seq (ack_ q) then [] else [seal_row r]).
Proof.
  intros. destruct (decide (cap <= good t)).
  - by apply row_confirmed_rollover.
  - apply row_confirmed_same; try done. lia.
Qed.

(** ** append() *)

(** With at most one row behind the confirmed offset, the tail is cut off. *)
Lemma settle_tail_spec p g (d d' : Disk) s :
  0 <= g <= Z.of_nat (length (content p d)) ->
  Z.of_nat (length (content p d)) <= g + 36 -> is_Some (lfs_read p d) ->
  settle_tail p g (Z.of_nat (length (content p d))) d = (s, d') ->
  (s = None /\ same_files d d') \/
  (s = Some g /\ only_changes p (Some (take (Z.to_nat g) (content p d))) d d').
Proof.
  intros Hg Hle [c Hc]. unfold settle_tail.
  assert (Hcont : content p d = c) by (unfold content; by rewrite Hc). rewrite Hcont in *.
  rewrite (proj2 (Z.ltb_ge 36 _)) by lia.
  destruct (Z.ltb_spec g (Z.of_nat (length c))).
  - destruct (truncateTo p (Z.to_nat g) d) as [b d1] eqn:Ht. intros [= <- <-].
    apply truncateTo_law in Ht; [|rewrite Hcont; lia].
    rewrite Hcont in Ht. destruct b; [by right|by left].
  - rewrite (proj2 (Z.ltb_ge _ g)) by lia. intros [= <- <-]. right. split; [done|].
    rewrite take_ge by lia. split; [done|done].
Qed.

(** The state after the row's bytes, complete or not, are written. *)
Definition partly_written (n : nat) (t : T) (d d' : Disk) (r : QRow) : Prop :=
  only_changes (segmentPath_ (next_seg t))
    (Some (take (Z.to_nat (next_off t)) (content (segmentPath_ (next_seg t)) d)
           ++ take n (bytes_of (seal_row r)))) d d'.

Lemma partly_written_invisible n q t d d' r :
  QInv q t d -> partly_written n t d d' r -> QInv q t d' /\ unacked q t d' = unacked q t d.
Proof.
  intros HI Hw. pose proof (next_file _ _ _ HI) as Hn. pose proof (row_length r) as Hrl.
  eapply tail_invisible; [done|exact Hw| |].
  - rewrite length_app, !length_take. lia.
  - rewrite take_app_le by (rewrite length_take; lia). by rewrite take_take, Nat.min_id.
Qed.

Lemma next_seg_u32 t :
  0 <= active t -> active t + 2 < 2 ^ 32 ->
  (if QUEUE_SEGMENT_ROWS * 36 <=? good t then (u32 (active t + 1), 0) else (active t, good t)) =
  (next_seg t, next_off t).
Proof.
  intros. unfold next_seg, next_off, QUEUE_SEGMENT_ROWS. change (5000 * 36) with cap.
  destruct (cap <=? good t); [|done]. by rewrite u32_small by lia.
Qed.

(** What append() does to the abstract queue. *)
Definition append_outcome (r : QRow) (q q' : EventQueue) (t t' : T) (d d' : Disk) : Prop :=
  QInv q' t' d' /\ ack_ q' = ack_ q /\
  ((fail_ q' = fail_ q /\ active t' = next_seg t /\ good t' = next_off t + 36 /\
    pendingCount q' = u32 (pendingCount q + 1) /\
    unacked q' t' d' =
      unacked q t d ++ (if r_seq (seal_row r) <=? acked_seq (ack_ q) then [] else [seal_row r]))
   \/
   (failedWriteCount q' = u32 (failedWriteCount q + 1) /\ t' = t /\
    pendingCount q' = pendingCount q /\ unacked q' t' d' = unacked q t d)).

Lemma failure_outcome r cd ms q q1 t d d1 :
  QInv q1 t d1 -> unacked q1 t d1 = unacked q t d -> ack_ q1 = ack_ q -> fail_ q1 = fail_ q ->
  unackedCount_ q1 = unackedCount_ q ->
  let '(q', d') := recordWriteFailure_ cd ms q1 d1 in append_outcome r q q' t t d d'.
Proof.
  intros HI Hu Ha Hfl Hn. pose proof (recordWriteFailure_side cd ms q1 t d1 HI) as Hr.
  assert (Hc : unackedCount_ (fst (recordWriteFailure_ cd ms q1 d1)) = unackedCount_ q1) by done.
  destruct (recordWriteFailure_ cd ms q1 d1) as [q' d'].
  destruct Hr as (HI' & Hu' & Ha' & Hf & _). split_and!; [done|congruence|right].
  unfold failedWriteCount, pendingCount. simpl in Hc. rewrite Hf, Hfl. split_and!; congruence.
Qed.

Lemma latency_invisible ms q t d :
  QInv q t d ->
  QInv (with_write_latency ms q) t d /\ unacked (with_write_latency ms q) t d = unacked q t d.
Proof. intros. by apply QInv_ext. Qed.

(** The part of append() after the tail is settled. *)
Lemma append_write_outcome r ms0 ms1 msf q t d d2 :
  QInv q t d -> fields_fit r -> partly_written 0 t d d2 r ->
  let '(written, d3) := appendWrite (segmentPath_ (next_seg t)) (bytes_of (seal_row r)) d2 in
  let q1 := with_write_latency (u32 (ms1 - ms0)) q in
  let '(q', t', d') :=
    (if written <? 0 then
       let '(q1, d3) := recordWriteFailure_ QFAIL_WRITE_SHORT msf q1 d3 in (q1, t, d3)
     else if negb (written =? 36) then
       let '(q1, d3) := recordWriteFailure_ QFAIL_WRITE_SHORT msf q1 d3 in (q1, t, d3)
     else
       let '(t', d4) := setQueueOffset (next_seg t) (u32 (next_off t + 36)) t d3 in
       (with_unacked (u32 (unackedCount_ q1 + 1)) q1, t', d4)) in
  append_outcome r q q' t t' d d'.
Proof.
  intros HI Hf Hw. pose proof (next_file _ _ _ HI) as Hn. pose proof (row_length r) as Hrl.
  destruct (appendWrite _ _ d2) as [written d3] eqn:Ha. apply appendWrite_law in Ha.
  assert (Hd3 : exists n, partly_written n t d d3 r /\ (written = 36 -> n = 36%nat)).
  { destruct Ha as [[-> Hs]|[Hwr Hs]].
    - exists 0%nat. split; [by eapply only_same|lia].
    - exists (Z.to_nat written). split; [|lia]. rewrite (only_content _ _ _ _ Hw) in Hs.
      rewrite take_0, app_nil_r in Hs. by eapply only_trans. }
  destruct Hd3 as (n & Hd3 & Hfull).
  destruct (partly_written_invisible n q t d d3 r HI Hd3) as [HI3 Hu3].
  destruct (latency_invisible (u32 (ms1 - ms0)) q t d3 HI3) as [HI4 Hu4].
  cbv zeta. set (q1 := with_write_latency (u32 (ms1 - ms0)) q) in *.
  pose proof (failure_outcome r QFAIL_WRITE_SHORT msf q q1 t d d3 HI4) as Hfail.
  destruct (written <? 0).
  { destruct (recordWriteFailure_ _ msf q1 d3). apply Hfail; [congruence|done..]. }
  destruct (Z.eqb_spec written 36) as [->|]; cbn [negb].
  2: { destruct (recordWriteFailure_ _ msf q1 d3). apply Hfail; [congruence|done..]. }
  destruct (setQueueOffset (next_seg t) (u32 (next_off t + 36)) t d3) as [t' d4] eqn:Hs.
  assert (Hoff : u32 (next_off t + 36) = next_off t + 36)
    by (apply u32_small; unfold cap in *; lia).
  pose proof (setQueueOffset_segment (own := own) (next_seg t) (u32 (next_off t + 36)) t d3) as Hseg.
  pose proof (setQueueOffset_offset (own := own) (next_seg t) (u32 (next_off t + 36)) t d3) as Hgood.
  pose proof (fun s => setQueueOffset_files (own := own) (next_seg t) (u32 (next_off t + 36))
                         t d3 _ (own_segment s)) as Hfiles.
  rewrite Hs in Hseg, Hgood, Hfiles. simpl in Hseg, Hgood, Hfiles. rewrite Hoff in Hgood.
  assert (Hrow : row_written q t d d3 r).
  { unfold partly_written in Hd3. rewrite Hfull in Hd3 by done.
    unfold row_written. by rewrite (take_ge (bytes_of _)) in Hd3 by lia. }
  destruct (row_confirmed q t d t' d3 r HI Hf Hrow Hseg Hgood) as [HI5 Hu5].
  set (q2 := with_unacked (u32 (unackedCount_ q1 + 1)) q1).
  destruct (QInv_ext q q2 t' d3 d4) as [HI6 Hu6]; [done|done|done|done|].
  split_and!; [done|done|left]. split_and!; try done. by rewrite Hu6.
Qed.

Lemma append_opens p (d d1 : Disk) n :
  appendOpenSize p d = (n, d1) ->
  (n = -1 /\ same_files d d1) \/
  (n = Z.of_nat (length (content p d1)) /\ content p d1 = content p d /\
   lfs_read p d1 = Some (content p d) /\ only_changes p (Some (content p d)) d d1).
Proof.
  intros Ho%appendOpenSize_law. destruct Ho as [Ho|[-> Ho]]; [by left|right].
  pose proof (only_content _ _ _ _ Ho) as Hc. rewrite Hc. split_and!; [done|done|apply Ho|done].
Qed.

Lemma append_outcome_holds rowIn ms0 ms1 msf q t d :
  QInv q t d -> fields_fit rowIn -> active t + 2 < 2 ^ 32 ->
  let '(q', t', d') := append rowIn ms0 ms1 msf q t d in
  append_outcome rowIn q q' t t' d d'.
Proof.
  intros HI Hf Hact. unfold append. rewrite (qi_wired _ _ _ HI). cbn [negb]. cbv zeta.
  fold (active t) (good t). pose proof (next_file _ _ _ HI) as Hn.
  rewrite next_seg_u32 by (pose proof (qi_seg _ _ _ HI); lia).
  destruct (appendOpenSize (segmentPath_ (next_seg t)) d) as [n d1] eqn:Ho.
  apply append_opens in Ho as [[-> Hsame]|(-> & Hc & Hr1 & Ho)].
  { cbn [Z.ltb Z.compare]. pose proof (QInv_ext q q t d d1 eq_refl eq_refl (fun s => Hsame _) HI) as [HI1 Hu1].
    pose proof (failure_outcome rowIn QFAIL_SEGMENT_OPEN msf q q t d d1 HI1 Hu1
                  eq_refl eq_refl eq_refl) as Hfail.
    by destruct (recordWriteFailure_ _ msf q d1). }
  rewrite Hc. rewrite (proj2 (Z.ltb_ge _ 0)) by lia. rewrite u32_small by (unfold cap in *; lia).
  destruct (settle_tail _ _ _ d1) as [s d2] eqn:Hst. rewrite <- Hc in Hst.
  assert (Hw1 : only_changes (segmentPath_ (next_seg t))
                  (Some (content (segmentPath_ (next_seg t)) d)) d d1) by done.
  apply settle_tail_spec in Hst as [[-> Hsame]|[-> Hs]];
    [| |rewrite Hc; lia|rewrite Hc; lia|by rewrite Hr1].
  - assert (Hw2 : only_changes (segmentPath_ (next_seg t))
                    (Some (content (segmentPath_ (next_seg t)) d)) d d2) by by eapply only_same.
    destruct (tail_invisible q t d d2 (content (segmentPath_ (next_seg t)) d) HI Hw2)
      as [HI2 Hu2]; [lia|done|].
    pose proof (failure_outcome rowIn QFAIL_TRUNCATE msf q q t d d2 HI2 Hu2
                  eq_refl eq_refl eq_refl) as Hfail.
    by destruct (recordWriteFailure_ _ msf q d2).
  - assert (Hw2 : partly_written 0 t d d2 rowIn).
    { unfold partly_written. rewrite take_0, app_nil_r. rewrite Hc in Hs. by eapply only_trans. }
    pose proof (append_write_outcome rowIn ms0 ms1 msf q t d d2 HI Hf Hw2) as Ha.
    by destruct (appendWrite _ _ d2).
Qed.

(** ** ackThrough() *)

Definition on_walk (q : EventQueue) (t : T) (seg off : Z) : Prop :=
  cursor_segment (ack_ q) <= seg <= active t /\ off_ok t seg off.

Lemma on_walk_closed q t d : QInv q t d -> walk_closed t d (on_walk q t).
Proof.
  intros HI. pose proof (qi_good _ _ _ HI) as Hg. split.
  - intros seg off c k (Hs & Ho & Hm & Hle) Hc Hk limit Hlim. split; [done|].
    assert (Hlm : limit mod 36 = 0 /\ 0 <= limit <= (if seg =? active t then good t else cap)).
    { unfold limit, seg_limit. destruct (Z.eqb_spec seg (active t)).
      - fold (good t). lia.
      - destruct (qi_closed _ _ _ HI seg) as (c' & Hc' & Hl); [lia|]. simplify_eq.
        rewrite Hl. unfold cap. split; [done|lia]. }
    unfold off_ok. split_and!; [lia| |lia].
    rewrite (Z.mul_comm 36), Z.mod_add by lia.
    destruct (Z.min_spec off limit) as [[_ ->]|[_ ->]]; tauto.
  - intros seg off [Hs _] Hlt. split; [lia|]. by eapply off_ok_0.
Qed.

Lemma remove_segs_other fuel s seg (d : Disk) s' :
  0 <= s -> seg < 2 ^ 32 -> 0 <= s' -> (s' < s \/ seg <= s') ->
  lfs_read (segmentPath_ s') (remove_segs fuel s seg d) = lfs_read (segmentPath_ s') d.
Proof.
  revert s d. induction fuel as [|fuel IH]; intros s d Hs Hseg Hs' Hout; [done|].
  cbn [remove_segs]. destruct (Z.ltb_spec s seg); [|done].
  rewrite u32_small by lia. rewrite IH by lia.
  destruct (lfs_remove_law (segmentPath_ s) d) as [[_ Ho]|Ho]; [|done].
  apply Ho. intros E. apply segmentPath_inj in E; lia.
Qed.

Lemma persistAck_side q t d :
  QInv q t d ->
  let '(q', d') := persistAck_ q d in
  QInv q' t d' /\ unacked q' t d' = unacked q t d /\ fail_ q' = fail_ q /\
  pendingCount q' = pendingCount q /\ acked_seq (ack_ q') = acked_seq (ack_ q) /\
  cursor_segment (ack_ q') = cursor_segment (ack_ q) /\
  cursor_offset (ack_ q') = cursor_offset (ack_ q).
Proof.
  intros HI. unfold persistAck_.
  match goal with |- context [seal ?x] => pose proof (seal_fields (R := AckRec) x) as Hs;
    revert Hs; generalize (seal x) end.
  simpl. intros a Hs. simplify_eq.
  set (d' := snd (writeWhole (slot ACK_PATH_A ACK_PATH_B (a_writes a)) (bytes_of a) d)).
  assert (Hd : forall s, lfs_read (segmentPath_ s) d' = lfs_read (segmentPath_ s) d)
    by (intros; apply writeWhole_side, slot_side_ack).
  destruct HI. split_and!; try done.
  - split; simpl; rewrite ?H4, ?H5; try done.
    + intros s Hsg. rewrite Hd. by apply qi_closed0.
    + by rewrite Hd.
    + unfold content in *. by rewrite Hd.
    + intros s Hsg. rewrite Hd. by apply qi_later0.
  - unfold unacked. simpl. rewrite H1, H4, H5. f_equal. by apply live_ext.
Qed.

Lemma filter_above_le a s l :
  s <= a -> Forall (fun r => above a r = true) l -> List.filter (above s) l = l.
Proof.
  intros Hle Hl. apply filter_all. intros r Hr. rewrite Forall_forall in Hl. apply Hl in Hr.
  unfold above in *. bool_prop. apply Z.ltb_lt. lia.
Qed.

Lemma unacked_above q t d : Forall (fun r => above (acked_seq (ack_ q)) r = true) (unacked q t d).
Proof.
  apply Forall_forall. intros r Hr. unfold unacked, unacked_rows in Hr.
  apply list_elem_of_In, List.filter_In in Hr. tauto.
Qed.

Lemma ackThrough_outcome ackedSeq bootId q t d :
  QInv q t d -> active t + 1 < 2 ^ 32 ->
  let '(q', d') := ackThrough ackedSeq bootId q t d in
  QInv q' t d' /\ fail_ q' = fail_ q /\
  acked_seq (ack_ q') = Z.max (acked_seq (ack_ q)) ackedSeq /\
  unacked q' t d' = List.filter (above ackedSeq) (unacked q t d).
Proof.
  intros HI Ha. unfold ackThrough. rewrite (qi_wired _ _ _ HI). cbn [negb].
  destruct (Z.leb_spec ackedSeq (acked_seq (ack_ q))) as [Hle|Hlt].
  { split_and!; [done|done|lia|]. symmetry. by eapply filter_above_le, unacked_above. }
  cbv zeta. fold (active t). pose proof (QInv_in_range _ _ _ HI Ha) as Hr.
  destruct (ack_segs_spec (seg_fuel (cursor_segment (ack_ q)) (active t)) ackedSeq t d
              (cursor_segment (ack_ q)) (cursor_offset (ack_ q)) 0 (on_walk q t))
    as (seg & off & n & -> & Hr' & Hs1 & Hs2 & [_ Hok] & _ & Hu);
    [done|done|by unfold is_u32|by apply on_walk_closed| |].
  { split; [pose proof (qi_seg _ _ _ HI); lia|apply (qi_off _ _ _ HI)]. }
  set (q1 := with_unacked _ _).
  assert (HI1 : QInv q1 t d).
  { pose proof HI as []. split; simpl; try done; try lia.
    intros s Hs. apply qi_closed0. lia. }
  pose proof (persistAck_side q1 t d HI1) as Hp. destruct (persistAck_ q1 d) as [q2 d2].
  destruct Hp as (HI2 & Hu2 & Hf2 & _ & Hq2 & Hc2 & _). simpl in Hq2, Hc2.
  pose proof (qi_seg _ _ _ HI) as Hsg.
  assert (Hd : forall s, seg <= s ->
    lfs_read (segmentPath_ s) (remove_segs (Z.to_nat (seg - cursor_segment (ack_ q)))
      (cursor_segment (ack_ q)) seg d2) = lfs_read (segmentPath_ s) d2)
    by (intros; apply remove_segs_other; lia).
  destruct (QInv_from q2 q2 t d2 (remove_segs (Z.to_nat (seg - cursor_segment (ack_ q)))
    (cursor_segment (ack_ q)) seg d2)) as [HI3 Hu3]; [done|done|by rewrite Hc2|done|].
  split_and!; [done|by rewrite Hf2|rewrite Hq2; lia|].
  rewrite Hu3, Hu2. unfold unacked at 1. simpl. rewrite Hu. symmetry. apply unacked_filter. lia.
Qed.

(** ** An acknowledgement cut short *)

(** ackThrough() up to the point where [k] segments are removed. *)
Definition ack_cut (k : nat) (ackedSeq bootId : Z) (q : EventQueue) (t : T) (d : Disk)
  : EventQueue * Disk :=
  if ackedSeq <=? acked_seq (ack_ q) then (q, d) else
  let firstSeg := cursor_segment (ack_ q) in
  let '(seg, off, consumedRows) :=
    ack_segs (seg_fuel firstSeg (active t)) ackedSeq (active t) t d firstSeg (cursor_offset (ack_ q)) 0 in
  let q := with_ack (set_cursor ackedSeq bootId seg off (ack_ q)) q in
  let q := with_unacked (if consumedRows <=? unackedCount_ q
                         then unackedCount_ q - consumedRows else 0) q in
  let '(q, d) := persistAck_ q d in
  (q, remove_segs (Nat.min k (Z.to_nat (seg - firstSeg))) firstSeg seg d).

(** [d] lies between [d0] and [d1]: what differs from [d1] are segments below
    [cs] that are still there. *)
Definition half_pruned (cs : Z) (d0 d1 d : Disk) : Prop :=
  (forall p, lfs_read p d = lfs_read p d1 \/ lfs_read p d = lfs_read p d0) /\
  forall p, (forall s, 0 <= s < cs -> p <> segmentPath_ s) -> lfs_read p d = lfs_read p d1.

Lemma half_pruned_rows q t d0 d1 d :
  QInv q t d1 -> half_pruned (cursor_segment (ack_ q)) d0 d1 d ->
  QInv q t d /\ unacked q t d = unacked q t d1.
Proof.
  intros HI [_ Hd]. apply QInv_from; [done|done| |done]. intros s Hs. apply Hd. intros s' Hs' E.
  pose proof (qi_seg _ _ _ HI). apply segmentPath_inj in E; lia.
Qed.

Lemma remove_segs_half k n s seg (d : Disk) p :
  (k <= n)%nat -> 0 <= s -> seg < 2 ^ 32 ->
  lfs_read p (remove_segs k s seg d) = lfs_read p (remove_segs n s seg d) \/
  lfs_read p (remove_segs k s seg d) = lfs_read p d.
Proof.
  revert n s d. induction k as [|k IH]; intros n s d Hk Hs Hseg; [by right|].
  destruct n as [|n]; [lia|]. cbn [remove_segs]. destruct (Z.ltb_spec s seg); [|by right].
  rewrite u32_small by lia.
  destruct (IH n (s + 1) (lfs_remove (segmentPath_ s) d)) as [->|E]; [lia..|by left|].
  destruct (lfs_remove_law (segmentPath_ s) d) as [[Hn Ho]|Ho]; [|right; by rewrite E].
  destruct (decide (p = segmentPath_ s)) as [->|Hne]; [|right; by rewrite E, Ho].
  left. rewrite E. symmetry. apply remove_segs_other; lia.
Qed.

Lemma remove_segs_elsewhere fuel s seg (d : Disk) p :
  0 <= s -> seg < 2 ^ 32 -> (forall s', 0 <= s' < seg -> p <> segmentPath_ s') ->
  lfs_read p (remove_segs fuel s seg d) = lfs_read p d.
Proof.
  revert s d. induction fuel as [|fuel IH]; intros s d Hs Hseg Hp; [done|].
  cbn [remove_segs]. destruct (Z.ltb_spec s seg); [|done]. rewrite u32_small by lia.
  rewrite IH by (done || lia).
  destruct (lfs_remove_law (segmentPath_ s) d) as [[_ Ho]|Ho]; [apply Ho, Hp; lia|apply Ho].
Qed.

Lemma ack_cut_half k ackedSeq bootId q t d :
  QInv q t d -> active t + 1 < 2 ^ 32 ->
  let '(q', d') := ackThrough ackedSeq bootId q t d in
  let '(qk, dk) := ack_cut k ackedSeq bootId q t d in
  qk = q' /\ half_pruned (cursor_segment (ack_ q')) d d' dk.
Proof.
  intros HI Ha. unfold ackThrough, ack_cut. rewrite (qi_wired _ _ _ HI). cbn [negb].
  destruct (ackedSeq <=? acked_seq (ack_ q)); [split; [done|by split; [left|]]|].
  cbv zeta. fold (active t). pose proof (QInv_in_range _ _ _ HI Ha) as Hr.
  destruct (ack_segs_spec (seg_fuel (cursor_segment (ack_ q)) (active t)) ackedSeq t d
              (cursor_segment (ack_ q)) (cursor_offset (ack_ q)) 0 (on_walk q t))
    as (seg & off & n & -> & Hr' & Hs1 & Hs2 & [Hsg Hok] & _ & Hu);
    [done|done|by unfold is_u32|by apply on_walk_closed| |].
  { split; [pose proof (qi_seg _ _ _ HI); lia|apply (qi_off _ _ _ HI)]. }
  set (q1 := with_unacked _ _).
  assert (HI1 : QInv q1 t d).
  { pose proof HI as []. split; simpl; try done; try lia.
    intros s Hs. apply qi_closed0. lia. }
  pose proof (persistAck_side q1 t d HI1) as Hp. destruct (persistAck_ q1 d) as [q2 d2] eqn:Hp2.
  destruct Hp as (_ & _ & _ & _ & _ & Hc2 & _). simpl in Hc2. rewrite Hc2.
  pose proof (qi_seg _ _ _ HI) as Hcs. split; [done|].
  assert (Hsame : forall s, lfs_read (segmentPath_ s) d2 = lfs_read (segmentPath_ s) d).
  { intros s. injection Hp2 as _ <-. apply writeWhole_side, slot_side_ack. }
  set (full := Z.to_nat (seg - cursor_segment (ack_ q))).
  assert (Hin : forall p, (forall s, 0 <= s < seg -> p <> segmentPath_ s) \/ exists s, p = segmentPath_ s).
  { intros p. destruct (decide (Exists (fun s => p = segmentPath_ s) (seqZ 0 seg))) as [Hx|Hx].
    - right. apply Exists_exists in Hx as (s & _ & ->). by exists s.
    - left. intros s Hs E. apply Hx, Exists_exists. exists s. split; [apply elem_of_seqZ; lia|done]. }
  split; intros p.
  - destruct (Hin p) as [Hp|[s ->]].
    + left. by rewrite !remove_segs_elsewhere by (done || lia).
    + rewrite <- Hsame. apply remove_segs_half; lia.
  - intros Hp. by rewrite !remove_segs_elsewhere by (done || lia).
Qed.
End refine.
