(* ===== verification/QueueBoot.v ===== *)
(** * Row adoption, boot, and the failure history (queue.h)

    The chunked scan of adoptValidRows_ against its one-line specification,
    what begin() reconstructs from flash, and the durability of the
    failed-write counter. *)

From S2P Require Import Prelude Config Arduino Crc32 Records Storage DualSlot QueueData Queue QueueSpec QueueRefine.
Import EventQueue.

(** ** adoptValidRows_ *)

(** The rows a scan accepts: the leading ones with good magic and CRC. *)
Fixpoint valid_prefix (rs : list (option QRow)) : nat :=
  match rs with
  | Some _ :: rs => S (valid_prefix rs)
  | _ => O
  end.

Lemma valid_prefix_le rs : (valid_prefix rs <= length rs)%nat.
Proof. induction rs as [|[r|] rs IH]; simpl; lia. Qed.

Lemma valid_prefix_app a b :
  valid_prefix (a ++ b) =
  if (valid_prefix a =? length a)%nat then (length a + valid_prefix b)%nat else valid_prefix a.
Proof.
  induction a as [|[r|] a IH]; [done| |done].
  cbn [app valid_prefix length]. rewrite IH. simpl. by destruct (_ =? _)%nat.
Qed.

Lemma length_rows n bs : length (rows n bs) = n.
Proof. revert bs. induction n; intros; simpl; auto. Qed.

Lemma adopt_chunk_spec n buf off :
  0 <= off -> off + 36 * Z.of_nat n < 2 ^ 32 ->
  adopt_chunk n buf off =
  (off + 36 * Z.of_nat (valid_prefix (rows n buf)),
   negb (valid_prefix (rows n buf) =? n)%nat).
Proof.
  revert buf off. induction n as [|n IH]; intros buf off Ho Hn; cbn [adopt_chunk rows].
  { f_equal. simpl. lia. }
  unfold QROW_SIZE. destruct (load_row (take 36 buf)); simpl.
  - rewrite u32_small, IH by lia. f_equal. lia.
  - f_equal. lia.
Qed.

Section adopt.
Context {Disk : Type} `{LittleFSLaws Disk} `{SB : StorageBackend Disk}
  {SBL : StorageBackendLaws Disk}.

(** The whole rows of one chunk. *)
Lemma chunk_size (c : list byte) off :
  0 <= off -> off + 36 <= Z.of_nat (length c) -> Z.of_nat (length c) < 2 ^ 32 ->
  let want := u32 (Z.of_nat (length c) - off) in
  let want := if 36 * 32 <? want then 36 * 32 else want in
  exists n, want - want mod 36 = 36 * Z.of_nat n /\ (0 < n)%nat /\
            off + 36 * Z.of_nat n <= Z.of_nat (length c).
Proof.
  intros Ho Hle Hl. cbv zeta. rewrite u32_small by lia.
  set (want := if _ <? _ then _ else _).
  assert (36 <= want /\ off + want <= Z.of_nat (length c))
    by (unfold want; destruct (Z.ltb_spec (36 * 32) (Z.of_nat (length c) - off)); lia).
  exists (Z.to_nat (want / 36)). pose proof (Z.div_mod want 36 ltac:(lia)).
  pose proof (Z.mod_pos_bound want 36 ltac:(lia)). split_and!; lia.
Qed.

Lemma rows_chunks n bs : length bs = (36 * n)%nat -> rows n bs = chunks bs.
Proof. intros Hl. unfold chunks. rewrite Hl, Nat.mul_comm, Nat.div_mul by lia. done. Qed.

Lemma adopt_loop_spec fuel path c off (d : Disk) :
  lfs_read path d = Some c -> Z.of_nat (length c) + 36 < 2 ^ 32 ->
  0 <= off <= Z.of_nat (length c) -> Z.of_nat (length c) < off + 36 * Z.of_nat fuel ->
  adopt_loop fuel path off (Z.of_nat (length c)) d =
  off + 36 * Z.of_nat (valid_prefix (chunks (drop (Z.to_nat off) c))).
Proof.
  intros Hc Hl. revert off. induction fuel as [|fuel IH]; intros off Ho Hf; cbn [adopt_loop];
    [lia|].
  rewrite (u32_small (off + 36)) by lia.
  destruct (Z.leb_spec (off + 36) (Z.of_nat (length c))) as [Hle|Hgt].
  2: { rewrite chunks_short by (rewrite length_drop; lia). simpl. lia. }
  destruct (chunk_size c off) as (n & Hn & Hpos & Hoff); [lia..|]. cbv zeta in *. rewrite Hn.
  rewrite readAt_law, Hc. set (buf := take (Z.to_nat (36 * Z.of_nat n)) (drop (Z.to_nat off) c)).
  assert (Hbuf : length buf = (36 * n)%nat) by (unfold buf; rewrite length_take, length_drop; lia).
  rewrite Hbuf. rewrite (proj2 (Z.ltb_ge _ 36)) by lia.
  replace (Z.to_nat (Z.of_nat (36 * n) / 36)) with n
    by (rewrite Nat2Z.inj_mul, Z.mul_comm, Z.div_mul; lia).
  rewrite adopt_chunk_spec, rows_chunks by lia.
  replace (drop (Z.to_nat off) c) with (buf ++ drop (Z.to_nat (off + 36 * Z.of_nat n)) c).
  2: { unfold buf. rewrite <- (take_drop (Z.to_nat (36 * Z.of_nat n)) (drop (Z.to_nat off) c)) at 2.
       rewrite drop_drop. do 2 f_equal. lia. }
  rewrite (chunks_app n), valid_prefix_app by done.
  assert (Hlen : length (chunks buf) = n) by (rewrite <- (rows_chunks n) by done; apply length_rows).
  rewrite Hlen. destruct (Nat.eqb_spec (valid_prefix (chunks buf)) n) as [->|]; simpl; [|done].
  rewrite IH by lia. lia.
Qed.

Lemma adoptValidRows_spec path c from (d : Disk) :
  lfs_read path d = Some c -> Z.of_nat (length c) + 36 < 2 ^ 32 ->
  0 <= from <= Z.of_nat (length c) ->
  adoptValidRows_ path from (Z.of_nat (length c)) d =
  from + 36 * Z.of_nat (valid_prefix (chunks (drop (Z.to_nat from) c))).
Proof. intros. apply adopt_loop_spec; [done..|lia]. Qed.

Lemma length_chunks bs : length (chunks bs) = (length bs / 36)%nat.
Proof. apply length_rows. Qed.

Lemma valid_prefix_bytes bs : (36 * valid_prefix (chunks bs) <= length bs)%nat.
Proof.
  pose proof (valid_prefix_le (chunks bs)) as Hv. rewrite length_chunks in Hv.
  pose proof (Nat.Div0.mul_div_le (length bs) 36). lia.
Qed.

(** What append()'s truncate guard leaves of a segment whose checkpoint is
    [good] bytes: never less than [good] plus every whole valid row behind it,
    once more than one row is there. *)
Lemma settle_tail_keeps path c good s (d d' : Disk) :
  lfs_read path d = Some c -> Z.of_nat (length c) + 36 < 2 ^ 32 ->
  0 <= good -> good + 36 < Z.of_nat (length c) ->
  settle_tail path good (Z.of_nat (length c)) d = (Some s, d') ->
  s = good + 36 * Z.of_nat (valid_prefix (chunks (drop (Z.to_nat good) c))) /\
  lfs_read path d' = Some (take (Z.to_nat s) c).
Proof.
  intros Hc Hl Hg Hlt. unfold settle_tail. cbv zeta.
  rewrite (proj2 (Z.ltb_lt good _)), (proj2 (Z.ltb_lt 36 _)) by lia.
  rewrite (adoptValidRows_spec _ _ _ _ Hc) by lia.
  pose proof (valid_prefix_bytes (drop (Z.to_nat good) c)) as Hv. rewrite length_drop in Hv.
  set (g := good + 36 * Z.of_nat (valid_prefix _)) in *.
  destruct (Z.ltb_spec g (Z.of_nat (length c))).
  - destruct (truncateTo path (Z.to_nat g) d) as [b d1] eqn:Ht.
    apply truncateTo_law in Ht; [|unfold content; rewrite Hc; simpl; lia].
    destruct b; [|intros [=]]. intros [= <- <-]. split; [done|].
    destruct Ht as [-> _]. unfold content. by rewrite Hc.
  - intros [= <- <-]. split; [done|]. by rewrite Hc, take_ge by lia.
Qed.
End adopt.

(** ** The dual-slot records of the queue *)

Section slots.
Context {Disk : Type} `{LittleFSLaws Disk} `{SB : StorageBackend Disk}
  {SBL : StorageBackendLaws Disk}.

Definition ld_ack (c : option (list byte)) : option AckRec :=
  c ≫= fun c => load_bytes (take 28 c).
Definition ld_fail (c : option (list byte)) : option FailureState :=
  c ≫= fun c => load_bytes (take 28 c).

Lemma load_28 {R} `{CrcRecord R} (c : list byte) :
  sizeof (R := R) = 28%nat ->
  (if Z.of_nat (length (take 28 c)) =? 28 then load_bytes (R := R) (take 28 c) else None) =
  load_bytes (take 28 c).
Proof.
  intros Hs. destruct (Z.eqb_spec (Z.of_nat (length (take 28 c))) 28); [done|].
  symmetry. unfold load_bytes. by rewrite Hs, (proj2 (Nat.eqb_neq _ 28)) by lia.
Qed.

Lemma loadAck_ld p (d : Disk) : loadAck_ p d = ld_ack (lfs_read p d).
Proof.
  unfold loadAck_, load_ack_content. rewrite readWhole_law.
  destruct (lfs_read p d) as [c|]; [|done]. cbn [fst snd]. by rewrite load_28.
Qed.

Lemma loadFail_ld p (d : Disk) : loadFail_ p d = ld_fail (lfs_read p d).
Proof.
  unfold loadFail_, load_fail_content. rewrite readWhole_law.
  destruct (lfs_read p d) as [c|]; [|done]. cbn [fst snd]. by rewrite load_28.
Qed.

Abbreviation fail_recovered := (recover FAIL_PATH_A FAIL_PATH_B f_writes ld_fail).
Abbreviation fail_synced := (synced FAIL_PATH_A FAIL_PATH_B f_writes ld_fail).

(** Flash agrees with RAM on the failure history: the newest slot holds it,
    or nothing was ever recorded. *)
Definition fail_saved (f : FailureState) (d : Disk) : Prop :=
  fail_synced f d \/
  (lfs_read FAIL_PATH_A d = None /\ lfs_read FAIL_PATH_B d = None /\ f_writes f = 0).

Lemma fail_saved_bounded f d :
  fail_saved f d -> bounded FAIL_PATH_A FAIL_PATH_B f_writes ld_fail (f_writes f) d.
Proof.
  intros [Hs|(HA & HB & _)]; [by apply synced_bounded|].
  apply fresh_bounded; unfold slot_load; by rewrite ?HA, ?HB.
Qed.

Lemma ld_fail_seal f : fields_fit f -> ld_fail (Some (bytes_of (seal f))) = Some (seal f).
Proof.
  intros Hf. unfold ld_fail. cbn [mbind option_bind].
  rewrite take_ge by by rewrite length_bytes_of.
  apply load_bytes_seal; [apply FAIL_MAGIC_fits|done].
Qed.

Lemma ld_fail_short bs : (length bs < 28)%nat -> ld_fail (Some bs) = None.
Proof.
  intros Hl. unfold ld_fail. cbn [mbind option_bind]. apply load_bytes_short.
  rewrite length_take, sizeof_FailureState. lia.
Qed.

Definition stamped (f : FailureState) : FailureState :=
  seal (Build_FailureState FAIL_MAGIC (failed_write_count f) (first_failure_uptime_s f)
          (last_failure_uptime_s f) (last_error_code f) (u32 (f_writes f + 1)) (f_crc32 f)).

Lemma stamped_fields f :
  failed_write_count (stamped f) = failed_write_count f /\
  first_failure_uptime_s (stamped f) = first_failure_uptime_s f /\
  last_failure_uptime_s (stamped f) = last_failure_uptime_s f /\
  last_error_code (stamped f) = last_error_code f /\
  f_writes (stamped f) = u32 (f_writes f + 1).
Proof.
  unfold stamped. match goal with |- context [seal ?x] =>
    pose proof (seal_fields (R := FailureState) x) as Hs; revert Hs; generalize (seal x) end.
  simpl. intros x Hs. by simplify_eq.
Qed.

Lemma ld_fail_stamped f :
  fields_fit (stamped f) -> ld_fail (Some (bytes_of (stamped f))) = Some (stamped f).
Proof.
  unfold stamped, fields_fit. rewrite seal_fields. intros Hf. by rewrite ld_fail_seal.
Qed.

Lemma stamped_fit f : fields_fit f -> fields_fit (stamped f).
Proof.
  rewrite !FailureState_fits. destruct (stamped_fields f) as (-> & -> & -> & -> & ->).
  intuition auto with covio.
Qed.

#[local] Opaque stamped.

(** Whatever part of the record reaches flash, a reader finds the new record
    or the one before it. *)
Lemma persistFail_recovers f0 f (d d' : Disk) b :
  fail_saved f0 d -> f_writes f = f_writes f0 -> fields_fit (stamped f) -> 0 <= f_writes f -> f_writes f + 1 < 2 ^ 32 ->
  writeWhole (slot FAIL_PATH_A FAIL_PATH_B (f_writes (stamped f))) (bytes_of (stamped f)) d
    = (b, d') ->
  if b then fail_saved (stamped f) d' /\ fail_recovered d' = Some (stamped f)
  else fail_recovered d' = fail_recovered d.
Proof.
  intros Hsaved Hf0 Hfit H0w Hlt Hw. apply writeWhole_law in Hw.
  destruct (stamped_fields f) as (_ & _ & _ & _ & Hwr). rewrite u32_small, Hf0 in Hwr by lia.
  destruct b.
  - assert (Hs : fail_synced (stamped f) d').
    { eapply (write_synced FAIL_PATH_A FAIL_PATH_B);
        [discriminate|apply fail_saved_bounded, Hsaved|exact Hwr|by apply ld_fail_stamped|exact Hw]. }
    split; [by left|by apply recover_synced].
  - destruct Hw as [Hw|(n & Hn & Hw)]; [unfold recover, slot_load; by rewrite !Hw|].
    rewrite length_bytes_of, sizeof_FailureState in Hn.
    assert (Hshort : ld_fail (Some (take n (bytes_of (stamped f)))) = None)
      by (apply ld_fail_short; rewrite length_take; lia).
    rewrite Hwr in Hw. destruct Hsaved as [Hs|(HA & HB & Hz)].
    + rewrite (recover_synced _ _ _ _ _ _ Hs). apply recover_synced.
      eapply torn_write; [discriminate|exact Hs|exact Hshort|exact Hw].
    + rewrite Hz in Hw. unfold recover, slot_load. rewrite HA, HB.
      destruct Hw as [Hc Ho]. change (slot FAIL_PATH_A FAIL_PATH_B (0 + 1)) with FAIL_PATH_A in *.
      rewrite Hc, Hshort, Ho, HB by done. done.
Qed.
End slots.

(** ** begin() *)

Section boot.
Context {T Disk : Type} `{LittleFSLaws Disk} `{SB : StorageBackend Disk}
  {SBL : StorageBackendLaws Disk} `{QO : IQueueOffsetCheckpoint T Disk}.
Context (own : string -> Prop) {QL : QueueOffsetLaws T Disk own}.

Abbreviation active := (active (T := T) (Disk := Disk)).

(** Every file of the queue directory whose name parses as a segment is one
    the firmware made. *)
Definition names_ok (d : Disk) : Prop :=
  forall name id, is_Some (lfs_read (SD_QUEUE_DIR +:+ "/" +:+ name) d) ->
    parseSegmentId_ name = Some id -> SD_QUEUE_DIR +:+ "/" +:+ name = segmentPath_ id.

Lemma parse_digits_nonneg k v i name id : 0 <= v -> parse_digits k v i name = Some id -> 0 <= id.
Proof.
  revert v i. induction k as [|k IH]; intros v i Hv; simpl; [by intros [= <-]|].
  destruct (charAt i name); [|done]. case_match; [|done]. apply IH. apply u32_range.
Qed.

Lemma parseSegmentId_nonneg name id : parseSegmentId_ name = Some id -> 0 <= id.
Proof.
  unfold parseSegmentId_. destruct (indexOf _ _); [|done]. case_match; [done|].
  by apply parse_digits_nonneg.
Qed.

(** What the scan has collected so far is safe to act on. *)
Definition scan_ok (actv cs : Z) (acc : list Z * option Z) : Prop :=
  (forall id, id ∈ fst acc -> 0 <= id /\ (actv < id \/ id < cs)) /\
  (forall m, snd acc = Some m -> m <= actv + 1).

Lemma scan_entry_ok actv cs acc e :
  (snd e = false -> forall id, parseSegmentId_ (fst e) = Some id -> id <= actv + 1) ->
  scan_ok actv cs acc -> scan_ok actv cs (scan_entry actv cs acc e).
Proof.
  destruct acc as [ids mx], e as [name dir]. intros He [Hids Hmx]. unfold scan_entry. simpl in *.
  destruct dir; [done|]. destruct (parseSegmentId_ name) as [id|] eqn:Hp; [|done].
  specialize (He eq_refl id eq_refl). apply parseSegmentId_nonneg in Hp. split; simpl.
  - intros id' Hin. destruct (_ || _) eqn:Hor; [|by apply Hids].
    destruct (length ids <? _)%nat; [|by apply Hids].
    apply elem_of_app in Hin as [Hin|Hin]; [by apply Hids|].
    apply list_elem_of_singleton in Hin as ->. apply orb_true_iff in Hor. split; [done|].
    destruct Hor; bool_prop; lia.
  - intros m. destruct mx as [m'|]; [|by intros [= <-]].
    destruct (m' <? id); intros [= <-]; [done|by apply Hmx].
Qed.

Lemma scan_ok_all actv cs entries acc :
  (forall e, e ∈ entries -> snd e = false ->
     forall id, parseSegmentId_ (fst e) = Some id -> id <= actv + 1) ->
  scan_ok actv cs acc -> scan_ok actv cs (foldl (scan_entry actv cs) acc entries).
Proof.
  revert acc. induction entries as [|e es IH]; intros acc He Hacc; [done|]. simpl. apply IH.
  - intros e' He'. apply He. set_solver.
  - apply scan_entry_ok; [|done]. apply He. set_solver.
Qed.

(** Only segments that are not live go, and nothing appears. *)
Definition dead_removed (q : EventQueue) (t : T) (d d' : Disk) : Prop :=
  forall p, lfs_read p d' = lfs_read p d \/
    (lfs_read p d' = None /\
     exists s, p = segmentPath_ s /\ 0 <= s /\ (active t < s \/ s < cursor_segment (ack_ q))).

#[export] Instance dead_removed_preorder q t : PreOrder (dead_removed q t).
Proof.
  split; [by left|]. intros d1 d2 d3 H12 H23 p.
  destruct (H23 p) as [E|Hr]; [|by right]. rewrite E. apply H12.
Qed.

Lemma dead_removed_live q t d d' : QInv q t d -> dead_removed q t d d' -> live_kept q t d d'.
Proof.
  intros HI Hd. pose proof (qi_seg _ _ _ HI). split; intros s Hs;
    (destruct (Hd (segmentPath_ s)) as [E|(E & s' & Es & Hs' & Hdead)]; [by auto|]).
  - apply segmentPath_inj in Es; [|lia|done]. lia.
  - by right.
Qed.

Lemma dead_removed_files q t d d' :
  dead_removed q t d d' ->
  (forall p, (forall s, p <> segmentPath_ s) -> lfs_read p d' = lfs_read p d) /\
  (forall p, is_Some (lfs_read p d') -> is_Some (lfs_read p d)).
Proof.
  intros Hd. split; intros p Hp; (destruct (Hd p) as [E|(E & s & Es & _)]; [by rewrite ?E in *|]).
  - by destruct (Hp s).
  - rewrite E in Hp. by destruct Hp.
Qed.

Lemma remove_dead_removed q t (ids : list Z) (d : Disk) :
  (forall id, id ∈ ids -> 0 <= id /\ (active t < id \/ id < cursor_segment (ack_ q))) ->
  dead_removed q t d (foldl (fun d id => lfs_remove (segmentPath_ id) d) d ids).
Proof.
  revert d. induction ids as [|id ids IH]; intros d Hids; [done|]. simpl.
  etransitivity; [|apply IH; intros; apply Hids; set_solver]. intros p.
  destruct (lfs_remove_law (segmentPath_ id) d) as [[Hc Ho]|Ho]; [|by left].
  destruct (decide (p = segmentPath_ id)) as [->|]; [right|left; by apply Ho].
  split; [done|]. exists id. split; [done|]. apply Hids. set_solver.
Qed.

Lemma cleanup_keeps q t (d : Disk) :
  QInv q t d -> active t + 1 < 2 ^ 32 -> names_ok d ->
  let '(t', d') := cleanupOrphanSegments_ q t d in
  t' = t /\ QInv q t d' /\ unacked q t d' = unacked q t d /\ dead_removed q t d d'.
Proof.
  intros HI Ha Hnames. unfold cleanupOrphanSegments_. rewrite (qi_wired _ _ _ HI). cbn [negb].
  cbv zeta. fold (active t).
  destruct (lfs_list SD_QUEUE_DIR d) as [entries|] eqn:Hl; [|done].
  pose proof (scan_ok_all (active t) (cursor_segment (ack_ q)) entries ([], None)) as Hscan.
  destruct (foldl _ _ entries) as [ids mx]. destruct Hscan as [Hids Hmx].
  { intros [name dir] Hin Hd id Hp. simpl in *. subst dir.
    pose proof (lfs_list_law _ _ _ _ Hl Hin) as Hr. pose proof (Hnames _ _ Hr Hp) as E.
    rewrite E in Hr. destruct (decide (active t + 1 < id)); [|lia].
    rewrite (qi_later _ _ _ HI) in Hr by done. by destruct Hr. }
  { split; [|done]. intros id Hid. simpl in Hid. set_solver. }
  simpl in Hids, Hmx. destruct mx as [m|]; [|done].
  specialize (Hmx m eq_refl). rewrite u32_small by (pose proof (qi_seg _ _ _ HI); lia).
  rewrite (proj2 (Z.ltb_ge _ m)) by lia.
  pose proof (remove_dead_removed q t ids d Hids) as Hd.
  destruct (QInv_live q q t d _ eq_refl eq_refl (dead_removed_live _ _ _ _ HI Hd) HI) as [HI' Hu].
  by split_and!.
Qed.

(** The queue object begin() starts from, with the acknowledgement it found. *)
Definition recovered_ack (d : Disk) : AckRec :=
  default (Build_AckRec ACK_MAGIC 0 0 0 0 0 0)
    (newest a_writes (loadAck_ ACK_PATH_A d) (loadAck_ ACK_PATH_B d)).

Definition recovered_fail (d : Disk) : FailureState :=
  default (Build_FailureState FAIL_MAGIC 0 0 0 0 0 0)
    (newest f_writes (loadFail_ FAIL_PATH_A d) (loadFail_ FAIL_PATH_B d)).

Lemma fail_slot_not_segment p : p = FAIL_PATH_A \/ p = FAIL_PATH_B -> forall s, p <> segmentPath_ s.
Proof.
  intros Hp s ->. apply (segment_not_side s). unfold side_file. tauto.
Qed.

Lemma recovered_ack_same (d d' : Disk) : same_files d d' -> recovered_ack d' = recovered_ack d.
Proof. intros Hs. unfold recovered_ack. by rewrite !loadAck_ld, !Hs. Qed.

Lemma begin_outcome q0 t (d : Disk) :
  QInv (with_ack (recovered_ack d) (with_tot true q0)) t d -> active t + 1 < 2 ^ 32 ->
  names_ok d ->
  let '(q, t', d') := begin true q0 t d in
  t' = t /\ QInv q t d' /\ ack_ q = recovered_ack d /\ fail_ q = recovered_fail d /\
  unacked q t d' = unacked (with_ack (recovered_ack d) (with_tot true q0)) t d /\
  pendingCount q = u32 (Z.of_nat (length (unacked q t d'))) /\
  dead_removed (with_ack (recovered_ack d) (with_tot true q0)) t d d'.
Proof.
  intros HI Ha Hnames. unfold begin.
  set (d1 := if lfs_exists SD_QUEUE_DIR d then d else lfs_mkdir SD_QUEUE_DIR d).
  assert (Hs : same_files d d1)
    by (unfold d1; destruct (lfs_exists _ d); [done|apply lfs_mkdir_law]).
  fold (recovered_ack d1). rewrite (recovered_ack_same _ _ Hs).
  set (q1 := with_ack (recovered_ack d) (with_tot true q0)) in *.
  destruct (QInv_ext q1 q1 t d d1) as [HI1 Hu1]; [done|done|intros; apply Hs|done|].
  assert (Hn1 : names_ok d1) by (intros name id; rewrite Hs; apply Hnames).
  pose proof (cleanup_keeps q1 t d1 HI1 Ha Hn1) as Hc.
  destruct (cleanupOrphanSegments_ q1 t d1) as [t' d2]. destruct Hc as (-> & HI2 & Hu2 & Hgo).
  destruct (dead_removed_files _ _ _ _ Hgo) as [Hp _].
  fold (recovered_fail d2).
  assert (Hf : recovered_fail d2 = recovered_fail d).
  { unfold recovered_fail. rewrite !loadFail_ld.
    rewrite !Hp by (apply fail_slot_not_segment; tauto). by rewrite !Hs. }
  rewrite Hf. set (q2 := with_fail (recovered_fail d) q1).
  set (q3 := with_unacked (computeUnackedCount_ q2 t d2) q2).
  destruct (QInv_ext q1 q3 t d2 d2) as [HI3 Hu3]; [done..|].
  assert (Hgo' : dead_removed q1 t d d2).
  { intros p. rewrite <- Hs. apply Hgo. }
  split; [done|]. split; [done|]. split; [done|]. split; [done|]. split; [congruence|]. split; [|done].
  destruct (QInv_ext q1 q2 t d2 d2) as [HI4 Hu4]; [done..|].
  unfold q3, pendingCount. cbn [unackedCount_ with_unacked].
  rewrite computeUnackedCount_spec by done. done.
Qed.
End boot.
