(* ===== verification/QueueTheorems.v ===== *)
(** * Theorems about the telemetry queue

    The claims of queue.h over its implementation, each with an instance on
    an in-memory flash holding a few rows. *)

From S2P Require Import Prelude Config Arduino Crc32 Records Storage DualSlot Totalizer QueueData Queue QueueSpec QueueRefine QueueBoot.
Import EventQueue.

(** ** Operations and the abstract queue *)

(** The public operations, with the clock readings they take. *)
Inductive qop :=
  | OpAppend (r : QRow) (ms0 ms1 msf : Z)
  | OpAck (ackedSeq bootId : Z)
  | OpPending (maxN : nat) (ms0 ms1 : Z).

(** The contract: a list of rows, a cumulative acknowledgement, and a count
    of the rows that could not be stored. *)
Record Fifo := { fifo : list QRow; acked : Z; lost : Z }.

Inductive fifo_step : qop -> Fifo -> list QRow -> Fifo -> Prop :=
  | step_stored r ms0 ms1 msf l a n :
      fifo_step (OpAppend r ms0 ms1 msf) {| fifo := l; acked := a; lost := n |} []
        {| fifo := l ++ (if r_seq (seal_row r) <=? a then [] else [seal_row r]);
           acked := a; lost := n |}
  | step_lost r ms0 ms1 msf l a n :
      fifo_step (OpAppend r ms0 ms1 msf) {| fifo := l; acked := a; lost := n |} []
        {| fifo := l; acked := a; lost := u32 (n + 1) |}
  | step_ack s b l a n :
      fifo_step (OpAck s b) {| fifo := l; acked := a; lost := n |} []
        {| fifo := List.filter (above s) l; acked := Z.max a s; lost := n |}
  | step_pending k ms0 ms1 l a n :
      fifo_step (OpPending k ms0 ms1) {| fifo := l; acked := a; lost := n |} (take k l)
        {| fifo := l; acked := a; lost := n |}.

Inductive fifo_run : list qop -> Fifo -> list (list QRow) -> Fifo -> Prop :=
  | run_nil f : fifo_run [] f [] f
  | run_cons op ops f out f' outs f'' :
      fifo_step op f out f' -> fifo_run ops f' outs f'' ->
      fifo_run (op :: ops) f (out :: outs) f''.

Section ops.
Context {T Disk : Type} `{LittleFS Disk} `{SB : StorageBackend Disk}
  `{QO : IQueueOffsetCheckpoint T Disk}.

Definition qstep (op : qop) (st : EventQueue * T * Disk) : list QRow * (EventQueue * T * Disk) :=
  let '(q, t, d) := st in
  match op with
  | OpAppend r ms0 ms1 msf => ([], append r ms0 ms1 msf q t d)
  | OpAck s b => let '(q', d') := ackThrough s b q t d in ([], (q', t, d'))
  | OpPending k ms0 ms1 => let '(rs, q') := pending k ms0 ms1 q t d in (rs, (q', t, d))
  end.

Fixpoint qrun (ops : list qop) (st : EventQueue * T * Disk)
  : list (list QRow) * (EventQueue * T * Disk) :=
  match ops with
  | [] => ([], st)
  | op :: ops =>
      let '(out, st) := qstep op st in
      let '(outs, st) := qrun ops st in (out :: outs, st)
  end.

(** The abstract queue a concrete state stands for. *)
Definition abs (st : EventQueue * T * Disk) : Fifo :=
  let '(q, t, d) := st in
  {| fifo := unacked q t d; acked := acked_seq (ack_ q); lost := failedWriteCount q |}.

Definition op_fits (op : qop) : Prop :=
  match op with OpAppend r _ _ _ => fields_fit r | _ => True end.

Definition active_of (st : EventQueue * T * Disk) : Z :=
  active (T := T) (Disk := Disk) (snd (fst st)).
Definition Inv_of (st : EventQueue * T * Disk) : Prop :=
  let '(q, t, d) := st in QInv q t d.
End ops.

Section theorems.
Context {T Disk : Type} `{LittleFSLaws Disk} `{SB : StorageBackend Disk}
  {SBL : StorageBackendLaws Disk} `{QO : IQueueOffsetCheckpoint T Disk}.
Context (own : string -> Prop) {QL : QueueOffsetLaws T Disk own}.
Hypothesis own_segment : forall s, ~ own (segmentPath_ s).

Abbreviation active := (active (T := T) (Disk := Disk)).
Abbreviation good := (good (T := T) (Disk := Disk)).

Lemma qstep_simulated op (st : EventQueue * T * Disk) :
  Inv_of st -> op_fits op -> active_of st + 2 < 2 ^ 32 ->
  let '(out, st') := qstep op st in
  Inv_of st' /\ fifo_step op (abs st) out (abs st') /\ active_of st' <= active_of st + 1.
Proof.
  destruct st as [[q t] d]. intros HI Hf Ha. destruct op as [r ms0 ms1 msf|s b|k ms0 ms1]; simpl.
  - pose proof (append_outcome_holds own own_segment r ms0 ms1 msf q t d HI Hf Ha) as Ho.
    destruct (append r ms0 ms1 msf q t d) as [[q' t'] d'].
    destruct Ho as (HI' & Hack & [(Hfl & Hseg & _ & _ & Hu)|(Hfl & -> & _ & Hu)]).
    + split_and!; [done| |].
      * unfold abs, failedWriteCount. rewrite Hu, Hack, Hfl. apply step_stored.
      * unfold active_of. cbn [fst snd]. rewrite Hseg. unfold next_seg.
        destruct (cap <=? _); lia.
    + split_and!; [done| |unfold active_of; simpl; lia].
      unfold abs. rewrite Hu, Hack, Hfl. apply step_lost.
  - assert (Ha1 : active t + 1 < 2 ^ 32) by (unfold active_of in Ha; simpl in Ha; lia).
    pose proof (ackThrough_outcome s b q t d HI Ha1) as Ho.
    destruct (ackThrough s b q t d) as [q' d']. destruct Ho as (HI' & Hfl & Hack & Hu).
    split_and!; [done| |unfold active_of; simpl; lia].
    unfold abs, failedWriteCount. rewrite Hu, Hack, Hfl. apply step_ack.
  - assert (Ha1 : active t + 1 < 2 ^ 32) by (unfold active_of in Ha; simpl in Ha; lia).
    destruct (QInv_ext q (with_pending_latency (u32 (ms1 - ms0)) q) t d d) as [HI' Hu];
      [done..|].
    split_and!; [done| |unfold active_of; simpl; lia].
    unfold abs. rewrite Hu, pendingImpl_spec by done. apply step_pending.
Qed.

(** C6: every run of the queue is a run of the FIFO contract. *)
Theorem queue_refines_fifo ops (st : EventQueue * T * Disk) :
  Inv_of st -> Forall op_fits ops ->
  active_of st + Z.of_nat (length ops) + 2 < 2 ^ 32 ->
  let '(outs, st') := qrun ops st in
  Inv_of st' /\ fifo_run ops (abs st) outs (abs st').
Proof.
  intros HI Hf. revert st HI. induction Hf as [|op ops Hop Hops IH]; intros st HI Ha.
  { split; [done|constructor]. }
  cbn [qrun]. pose proof (qstep_simulated op st HI Hop) as Hs. simpl in Ha.
  destruct (qstep op st) as [out st1]. destruct Hs as (HI1 & Hs & Ha1); [lia|].
  specialize (IH st1 HI1). destruct (qrun ops st1) as [outs st2].
  destruct IH as [HI2 Hr]; [lia|]. split; [done|]. by econstructor.
Qed.

(** C7: append() on every branch. *)
Theorem append_stores_or_reports r ms0 ms1 msf q t d :
  QInv q t d -> fields_fit r -> acked_seq (ack_ q) < r_seq r -> active t + 2 < 2 ^ 32 ->
  let '(q', t', d') := append r ms0 ms1 msf q t d in
  QInv q' t' d' /\
  ((unacked q' t' d' = unacked q t d ++ [seal_row r] /\ fail_ q' = fail_ q /\
    active t' = (if good t =? cap then active t + 1 else active t) /\
    pendingCount q' = u32 (pendingCount q + 1)) \/
   (unacked q' t' d' = unacked q t d /\ t' = t /\ pendingCount q' = pendingCount q /\
    failedWriteCount q' = u32 (failedWriteCount q + 1))).
Proof.
  intros HI Hf Hs Ha.
  pose proof (append_outcome_holds own own_segment r ms0 ms1 msf q t d HI Hf Ha) as Ho.
  destruct (append r ms0 ms1 msf q t d) as [[q' t'] d'].
  destruct Ho as (HI' & _ & [(Hfl & Hseg & _ & Hp & Hu)|(Hfl & -> & Hp & Hu)]);
    (split; [done|]); [left|by right].
  rewrite seal_row_seq, (proj2 (Z.leb_gt _ _)) in Hu by done.
  split_and!; [done|done| |done].
  rewrite Hseg. unfold next_seg. pose proof (qi_good _ _ _ HI).
  destruct (Z.leb_spec cap (good t)), (Z.eqb_spec (good t) cap); lia.
Qed.


(** C9: an acknowledgement removes exactly the rows it covers. *)
Theorem ack_removes_exactly ackedSeq bootId q t d :
  QInv q t d -> active t + 1 < 2 ^ 32 ->
  let '(q', d') := ackThrough ackedSeq bootId q t d in
  QInv q' t d' /\
  unacked q' t d' = List.filter (fun r => ackedSeq <? r_seq r) (unacked q t d) /\
  acked_seq (ack_ q') = Z.max (acked_seq (ack_ q)) ackedSeq.
Proof.
  intros HI Ha. pose proof (ackThrough_outcome ackedSeq bootId q t d HI Ha) as Ho.
  destruct (ackThrough ackedSeq bootId q t d) as [q' d']. tauto.
Qed.

(** Pending() returns the oldest unacknowledged rows, in order. *)
Theorem pending_returns_oldest maxN ms0 ms1 q t d :
  QInv q t d -> active t + 1 < 2 ^ 32 ->
  fst (pending maxN ms0 ms1 q t d) = take maxN (unacked q t d) /\
  computeUnackedCount_ q t d = u32 (Z.of_nat (length (unacked q t d))) /\
  empty q t d = bool_decide (unacked q t d = []).
Proof.
  intros HI Ha. split_and!; [by apply pendingImpl_spec|by apply computeUnackedCount_spec|].
  unfold empty. rewrite pendingImpl_spec by done. by destruct (unacked q t d).
Qed.

(** A boot finds the queue the flash holds. *)
Theorem boot_recovers_queue q0 t (d : Disk) :
  QInv (with_ack (recovered_ack d) (with_tot true q0)) t d -> active t + 1 < 2 ^ 32 ->
  names_ok d ->
  let '(q, t', d') := begin true q0 t d in
  t' = t /\ QInv q t d' /\ fail_ q = recovered_fail d /\
  unacked q t d' = unacked (with_ack (recovered_ack d) (with_tot true q0)) t d /\
  pendingCount q = u32 (Z.of_nat (length (unacked q t d'))).
Proof.
  intros HI Ha Hn. pose proof (begin_outcome own q0 t d HI Ha Hn) as Ho.
  destruct (begin true q0 t d) as [[q t'] d']. tauto.
Qed.


(** The failure counter survives a reboot, and a torn update of it. *)
Theorem failure_count_survives cd ms q (d : Disk) :
  fail_saved (fail_ q) d -> fields_fit (fail_ q) -> 0 <= ms < 2 ^ 32 ->
  f_writes (fail_ q) + 1 < 2 ^ 32 ->
  let '(q', d') := recordWriteFailure_ cd ms q d in
  failedWriteCount q' = u32 (failedWriteCount q + 1) /\
  last_error_code (fail_ q') = fail_code_value cd /\
  lastFailureUptimeS q' = ms / 1000 /\
  ((recovered_fail d' = fail_ q' /\ fail_saved (fail_ q') d') \/
   recovered_fail d' = recovered_fail d).
Proof.
  intros Hsaved Hfit Hms Hw. unfold recordWriteFailure_, persistFail_.
  set (f := Build_FailureState (f_magic (fail_ q)) (u32 (failed_write_count (fail_ q) + 1))
    (if failed_write_count (fail_ q) =? 0 then ms / 1000 else first_failure_uptime_s (fail_ q))
    (ms / 1000) (fail_code_value cd) (f_writes (fail_ q)) (f_crc32 (fail_ q))).
  change (seal _) with (stamped f).
  destruct (stamped_fields f) as (E1 & _ & E3 & E4 & _).
  destruct (writeWhole _ _ d) as [b d'] eqn:Hwr. cbn [snd with_fail fail_].
  assert (Hff : fields_fit f /\ 0 <= f_writes f /\ f_writes f + 1 < 2 ^ 32).
  { rewrite FailureState_fits in *. simpl. destruct Hfit as (? & ? & ? & ? & ?).
    assert (is_u32 (ms / 1000))
      by (split; [apply Z.div_pos|apply Z.div_lt_upper_bound]; lia).
    unfold is_u32 in *. split_and!; try lia; try apply u32_range;
      [destruct (_ =? _); lia..|destruct cd; simpl; lia|destruct cd; simpl; lia]. }
  destruct Hff as (Hff & Hf0 & Hf1).
  unfold failedWriteCount, lastFailureUptimeS. cbn [fail_ with_fail].
  split_and!; [exact E1|exact E4|exact E3|].
  pose proof (persistFail_recovers (fail_ q) f d d' b Hsaved eq_refl (stamped_fit f Hff) Hf0 Hf1 Hwr)
    as Hr.
  unfold recovered_fail. rewrite !loadFail_ld. unfold recover, slot_load in Hr.
  destruct b; [left|right].
  - destruct Hr as [Hs' Hr]. by rewrite Hr.
  - by rewrite Hr.
Qed.
End theorems.

(** Segment ids print and parse as inverses, and never collide. *)
Theorem segment_name_roundtrip id id' :
  (0 <= id < 1000000 ->
   parseSegmentId_ ("seg_" +:+ (pad 6 id +:+ ".bin")) = Some id) /\
  (0 <= id -> 0 <= id' -> segmentPath_ id = segmentPath_ id' -> id = id').
Proof.
  split; [|by apply segmentPath_inj]. intros Hid. unfold parseSegmentId_.
  assert (Hl : String.length (pad 6 id) = 6%nat) by (apply pad_length; lia).
  assert (Hi : indexOf "seg_" ("seg_" +:+ (pad 6 id +:+ ".bin")) = Some 0%nat)
    by (generalize (pad 6 id +:+ ".bin"); by intros []).
  rewrite Hi. rewrite !str_length_app, Hl. cbn [Nat.ltb Nat.leb String.length Nat.add].
  pose proof (parse_digits_spec (pad 6 id) 0 "seg_" ".bin") as Hp.
  rewrite Hl, dec_val_pad in Hp by lia. apply Hp; [lia|apply pad_digits; lia|lia].
Qed.


(** ** Instances *)

#[local] Existing Instance LittleFsBackend.backend.

Definition tot_files (p : string) : Prop := p = Tot.CKPT_PATH_A \/ p = Tot.CKPT_PATH_B.

Lemma tot_files_segment s : ~ tot_files (segmentPath_ s).
Proof. unfold tot_files, segmentPath_. intros [E|E]; discriminate E. Qed.

Definition state0 : EventQueue * Tot.Totalizer * MemFs :=
  (with_tot true new_queue, Tot.new_totalizer, mem_empty).

Lemma state0_Inv : Inv_of state0.
Proof.
  split; try done.
  - intros s Hs. change (0 <= s < 0) in Hs. lia.
  - vm_compute. lia.
Qed.

Definition row_n (n : Z) : QRow := Build_QRow 0 1 1 7 n (10 * n) (1000 + n) 0 60 0.

Lemma row_n_fits n : 0 <= n < 1000 -> fields_fit (row_n n).
Proof. intros. apply QRow_fits. unfold is_u16, is_u32, is_u64. simpl. lia. Qed.

Lemma queue_refines_fifo_witness :
  let '(outs, st') := qrun [OpAppend (row_n 1) 0 3 3; OpAppend (row_n 2) 5 6 6;
                            OpPending 10 7 8; OpAck 1 7; OpPending 10 9 9] state0 in
  Inv_of st' /\
  fifo_run [OpAppend (row_n 1) 0 3 3; OpAppend (row_n 2) 5 6 6;
            OpPending 10 7 8; OpAck 1 7; OpPending 10 9 9] (abs state0) outs (abs st').
Proof.
  apply (queue_refines_fifo tot_files tot_files_segment).
  - exact state0_Inv.
  - repeat (apply Forall_cons; split; [first [exact I | apply row_n_fits; lia]|]).
    by apply Forall_nil.
  - by vm_compute.
Defined.

Definition state2 : EventQueue * Tot.Totalizer * MemFs :=
  Eval vm_compute in
    snd (qrun [OpAppend (row_n 1) 0 3 3; OpAppend (row_n 2) 5 6 6] state0).

Lemma state2_eq :
  qrun [OpAppend (row_n 1) 0 3 3; OpAppend (row_n 2) 5 6 6] state0 = ([[]; []], state2).
Proof. by vm_compute. Qed.

Lemma state2_Inv : Inv_of state2.
Proof.
  pose proof state2_eq as E. cbn [qrun] in E.
  pose proof (qstep_simulated tot_files tot_files_segment (OpAppend (row_n 1) 0 3 3) state0
                state0_Inv (row_n_fits 1 ltac:(lia)) ltac:(done)) as H1.
  destruct (qstep _ state0) as [o1 st1]. destruct H1 as (I1 & _ & A1).
  pose proof (qstep_simulated tot_files tot_files_segment (OpAppend (row_n 2) 5 6 6) st1
                I1 (row_n_fits 2 ltac:(lia))) as H2.
  destruct (qstep _ st1) as [o2 st2]. destruct H2 as (I2 & _ & _).
  - assert (E0 : active_of state0 = 0) by done. lia.
  - by simplify_eq.
Qed.

Lemma append_stores_or_reports_witness :
  let '(q, t, d) := state2 in
  let '(q', t', d') := append (row_n 3) 0 1 1 q t d in
  unacked q' t' d' = unacked q t d ++ [seal_row (row_n 3)] \/
  failedWriteCount q' = 1.
Proof.
  pose proof (append_stores_or_reports tot_files tot_files_segment (row_n 3) 0 1 1
    (fst (fst state2)) (snd (fst state2)) (snd state2) state2_Inv (row_n_fits 3 ltac:(lia))
    ltac:(done) ltac:(done)) as H.
  cbn [state2 fst snd] in *. destruct (append (row_n 3) _ _ _ _ _ _) as [[q' t'] d'].
  destruct H as [_ [[H _]|(_ & _ & _ & H)]]; [left; exact H|right; exact H].
Defined.

Definition cut_write (n : nat) : MemFs :=
  mem_set (segmentPath_ 0)
    (take 72 (content (segmentPath_ 0) (snd state2)) ++ take n (bytes_of (seal_row (row_n 3))))
    (snd state2).


Lemma ack_removes_exactly_witness :
  let '(q', d') := ackThrough 1 7 (fst (fst state2)) (snd (fst state2)) (snd state2) in
  unacked q' (snd (fst state2)) d' = [seal_row (row_n 2)].
Proof.
  pose proof (ack_removes_exactly 1 7 (fst (fst state2)) (snd (fst state2)) (snd state2)
                state2_Inv ltac:(done)) as H.
  destruct (ackThrough 1 7 _ _ _) as [q' d']. destruct H as (_ & -> & _).
  by vm_compute.
Defined.

Lemma pending_returns_oldest_witness :
  fst (pending 1 0 2 (fst (fst state2)) (snd (fst state2)) (snd state2)) = [seal_row (row_n 1)].
Proof.
  rewrite (proj1 (pending_returns_oldest 1 0 2 (fst (fst state2)) (snd (fst state2))
                    (snd state2) state2_Inv ltac:(done))).
  by vm_compute.
Defined.

Lemma mem_names_ok (fs : MemFs) l :
  (map_to_list (mf_files fs)).*1 = l ->
  Forall (fun p => forall name id, p = SD_QUEUE_DIR +:+ "/" +:+ name ->
                     parseSegmentId_ name = Some id -> p = segmentPath_ id) l ->
  names_ok fs.
Proof.
  intros El Hl name id [c Hc] Hp. rewrite Forall_forall in Hl. eapply Hl; [|done|exact Hp].
  rewrite <- El. change (mf_files fs !! (SD_QUEUE_DIR +:+ "/" +:+ name) = Some c) in Hc.
  apply elem_of_map_to_list in Hc. by apply (list_elem_of_fmap_2 fst) in Hc.
Qed.

Lemma segment_0_named name id :
  segmentPath_ 0 = SD_QUEUE_DIR +:+ "/" +:+ name -> parseSegmentId_ name = Some id ->
  segmentPath_ 0 = segmentPath_ id.
Proof.
  intros E Hp. apply (str_app_inj "/queue/" "/queue/") in E as [_ E]; [|done].
  subst name. revert Hp. vm_compute. by intros [= <-].
Qed.

(** The flash of [state2] carries no acknowledgement: boot starts at 0. *)
Lemma state2_names : names_ok (snd state2).
Proof.
  eapply mem_names_ok; [vm_compute; reflexivity|].
  repeat (apply Forall_cons; split; [first [exact segment_0_named|intros ? ? E; discriminate E]|]).
  by apply Forall_nil.
Qed.

Lemma state2_boot_Inv :
  QInv (with_ack (recovered_ack (snd state2)) (with_tot true new_queue))
    (snd (fst state2)) (snd state2).
Proof.
  assert (E : recovered_ack (snd state2) = Build_AckRec ACK_MAGIC 0 0 0 0 0 0) by by vm_compute.
  rewrite E. pose proof state2_Inv as HI.
  assert (Ea : cursor_segment (ack_ (fst (fst state2))) = 0 /\
               cursor_offset (ack_ (fst (fst state2))) = 0) by done.
  destruct Ea as [Es Eo]. change (QInv (fst (fst state2)) (snd (fst state2)) (snd state2)) in HI.
  pose proof (qi_wired _ _ _ HI). pose proof (qi_seg _ _ _ HI) as Hs.
  pose proof (qi_off _ _ _ HI) as Ho. pose proof (qi_closed _ _ _ HI) as Hc.
  rewrite Es in Hs, Ho, Hc. rewrite Eo in Ho.
  split; [done|exact Hs|exact Ho|apply HI|exact Hc|apply HI|apply HI|].
  intros s. by apply (qi_later _ _ _ HI).
Qed.

(** Two rows written, the power lost, nothing acknowledged: both are back. *)
Lemma boot_recovers_queue_witness :
  let '(q, t, d) := begin true new_queue (snd (fst state2)) (snd state2) in
  unacked q t d = [seal_row (row_n 1); seal_row (row_n 2)] /\ pendingCount q = 2.
Proof.
  pose proof (boot_recovers_queue tot_files new_queue (snd (fst state2)) (snd state2)
                state2_boot_Inv ltac:(done) state2_names) as H.
  destruct (begin true new_queue _ _) as [[q t] d]. destruct H as (-> & _ & _ & Hu & Hp).
  assert (E : unacked (with_ack (recovered_ack (snd state2)) (with_tot true new_queue))
                (snd (fst state2)) (snd state2) = [seal_row (row_n 1); seal_row (row_n 2)])
    by by vm_compute.
  rewrite Hp, Hu, E. split; reflexivity.
Defined.

(** A segment of three rows under a checkpoint gone back to 0. *)
Definition regressed : list byte :=
  bytes_of (seal_row (row_n 1)) ++ bytes_of (seal_row (row_n 2)) ++ repeat Byte.x00 20.


Lemma failure_count_survives_witness :
  let '(q', d') := recordWriteFailure_ QFAIL_WRITE_SHORT 5000 new_queue mem_empty in
  failedWriteCount q' = 1 /\ lastFailureUptimeS q' = 5.
Proof.
  assert (Hf : fields_fit (fail_ new_queue)) by (apply FailureState_fits; unfold is_u32; simpl; lia).
  pose proof (failure_count_survives QFAIL_WRITE_SHORT 5000 new_queue mem_empty
                (or_intror (conj eq_refl (conj eq_refl eq_refl))) Hf ltac:(done) ltac:(done)) as H.
  destruct (recordWriteFailure_ _ _ _ _) as [q' d']. destruct H as (H1 & _ & H3 & _).
  split; [exact H1|exact H3].
Defined.

Lemma segment_name_roundtrip_witness : parseSegmentId_ "seg_004711.bin" = Some 4711.
Proof. apply (proj1 (segment_name_roundtrip 4711 0)). lia. Defined.

(** ** A cursor whose segment is gone

    ackThrough() removes the segments it stepped over whether or not its
    cursor reached the flash.  If the write failed, the next boot finds the
    old cursor and no file under it: nothing is pending and nothing is counted,
    whatever the later segments hold. *)
Lemma missing_cursor_blocks_queue {T Disk : Type} `{LittleFS Disk} `{StorageBackend Disk}
    `{IQueueOffsetCheckpoint T Disk} maxN q (t : T) (d : Disk) :
  tot_wired q = true -> lfs_read (segmentPath_ (cursor_segment (ack_ q))) d = None ->
  pendingImpl_ maxN q t d = [] /\ computeUnackedCount_ q t d = 0.
Proof.
  intros Hw Hr. unfold pendingImpl_, computeUnackedCount_, seg_fuel. rewrite Hw.
  cbn [negb pending_segs count_segs]. rewrite Hr. split; by repeat case_match.
Qed.

(** ** The maintained backlog counter

    One confirmed row goes bad in flash.  The boot scan does not count it,
    the acknowledgement that steps over it subtracts it. *)

Definition bad_disk : MemFs :=
  mem_set (segmentPath_ 0)
    (bytes_of (seal_row (row_n 1)) ++ repeat Byte.x00 36 ++ bytes_of (seal_row (row_n 2)) ++
     bytes_of (seal_row (row_n 3))) mem_empty.

Definition bad_tot : Tot.Totalizer :=
  Tot.with_cp (Tot.with_offset 0 144 (Tot.cp_ Tot.new_totalizer)) Tot.new_totalizer.

(** After begin() and one acknowledgement the backlog counter says 0 while
    a row is still pending. *)
Theorem backlog_counter_drifts :
  let '(q, t, d) := begin true new_queue bad_tot bad_disk in
  let '(q', d') := ackThrough 2 7 q t d in
  pendingCount q = 3 /\ pendingCount q' = 0 /\
  pendingImpl_ 10 q' t d' = [seal_row (row_n 3)].
Proof. by vm_compute. Qed.

