(* ===== verification/QueueLegacy.v ===== *)
(** * The single-file queue (queue.h without a totalizer)

    What append(), pending() and ackThrough() do when begin() was given no
    offset checkpoint: one log file, compacted when it is drained.  The main
    program always passes one, so nothing else uses these lemmas. *)

From S2P Require Import Prelude Config Crc32 Records Storage DualSlot QueueData Queue QueueSpec QueueRefine.
Import EventQueue.

Section legacy.
Context {T Disk : Type} `{LittleFSLaws Disk} `{SB : StorageBackend Disk}
  {SBL : StorageBackendLaws Disk} `{QO : IQueueOffsetCheckpoint T Disk}.
Implicit Types (q : EventQueue) (t : T) (d : Disk).

(** The rows of the log that are not acknowledged. *)
Definition waiting q d : list QRow :=
  unacked_rows (acked_seq (ack_ q)) (chunks (content LOG_PATH d)).

(** The log ends at a row boundary. *)
Definition aligned d : Prop := (length (content LOG_PATH d) mod 36 = 0)%nat.

Lemma legacy_rows_spec fuel c acked maxN out :
  (length c < 36 * fuel)%nat -> (length out <= maxN)%nat ->
  pending_legacy_rows fuel c acked maxN out =
  out ++ take (maxN - length out) (unacked_rows acked (chunks c)).
Proof.
  revert c out. induction fuel as [|fuel IH]; intros c out Hc Ho; [lia|]. cbn [pending_legacy_rows].
  destruct (Nat.ltb_spec (length out) maxN); cbn [andb].
  2: { replace (maxN - length out)%nat with 0%nat by lia. by rewrite take_0, app_nil_r. }
  destruct (Nat.leb_spec QROW_SIZE (length c)) as [Hl|Hl]; unfold QROW_SIZE in *.
  2: { rewrite chunks_short by lia. unfold unacked_rows. simpl. by rewrite take_nil, app_nil_r. }
  rewrite chunks_step by lia. rewrite unacked_rows_cons.
  assert (Hd : (length (drop 36 c) < 36 * fuel)%nat) by (rewrite length_drop; lia).
  destruct (load_row (take 36 c)) as [r|]; [destruct (r_seq r <=? acked)|]; rewrite IH; try done.
  - rewrite length_app. simpl. replace (maxN - length out)%nat with (S (maxN - (length out + 1))) by lia.
    by rewrite <- app_assoc.
  - rewrite length_app. simpl. lia.
Qed.

(** pending() returns the oldest rows that wait. *)
Lemma legacy_pending maxN q t d : tot_wired q = false -> pendingImpl_ maxN q t d = take maxN (waiting q d).
Proof.
  intros Hw. unfold pendingImpl_, pendingLegacy_, waiting, content. rewrite Hw. cbn [negb].
  destruct (lfs_read LOG_PATH d) as [c|]; cbn [from_option]; unfold Datatypes.id.
  - rewrite legacy_rows_spec; [|lia|cbn [length]; lia]. cbn [app length]. by rewrite Nat.sub_0_r.
  - rewrite chunks_short by (cbn; lia). unfold unacked_rows. cbn. by rewrite take_nil.
Qed.

(** append() to an aligned log: the row is the last that waits, or nothing
    changed, or its write was cut short and the log is aligned no more. *)
Lemma legacy_append row ms0 ms1 msf q t d :
  tot_wired q = false -> aligned d -> fields_fit row ->
  let '(q', t', d') := append row ms0 ms1 msf q t d in
  q' = q /\ t' = t /\
  ((waiting q d' = waiting q d ++ (if r_seq row <=? acked_seq (ack_ q) then [] else [seal_row row]) /\
    aligned d') \/
   (waiting q d' = waiting q d /\ (d' = d \/ content LOG_PATH d' = content LOG_PATH d \/ ~ aligned d'))).
Proof.
  intros Hw Ha Hf. unfold append. rewrite Hw. cbn [negb]. split_and!; [done|done|].
  unfold appendLegacy_. destruct (lfs_append LOG_PATH (bytes_of (seal_row row)) d) as [[n d']|] eqn:E;
    [|right; by split; [|left]].
  apply lfs_append_law in E as [Hn Hd]. pose proof (only_content _ _ _ _ Hd) as Hc.
  rewrite row_length in Hn.
  apply Nat.Div0.mod_divides in Ha as [k Hk].
  assert (Hch : chunks (content LOG_PATH d') =
    chunks (content LOG_PATH d) ++ chunks (take n (bytes_of (seal_row row)))).
  { rewrite Hc. by apply (chunks_app k). }
  assert (Hlen : length (content LOG_PATH d') = (36 * k + n)%nat).
  { rewrite Hc, length_app, Hk, length_take, row_length. lia. }
  destruct (decide (n = 36%nat)) as [->|Hne]; [left|right].
  - rewrite take_ge in Hch by (rewrite row_length; done).
    assert (Hone : chunks (bytes_of (seal_row row)) = [Some (seal_row row)]).
    { rewrite chunks_step, take_ge, drop_ge by (rewrite row_length; done).
      rewrite chunks_short by (simpl; lia). by rewrite row_loads. }
    split; [|unfold aligned; rewrite Hlen; replace (36 * k + 36)%nat with ((k + 1) * 36)%nat by lia;
             by rewrite Nat.Div0.mod_mul].
    unfold waiting. rewrite Hch, unacked_rows_app, Hone, unacked_rows_cons, seal_row_seq.
    by destruct (_ <=? _).
  - split.
    + unfold waiting. rewrite Hch, (chunks_short (take n _)), app_nil_r; [done|].
      rewrite length_take. lia.
    + right. destruct (decide (n = 0%nat)) as [->|Hz]; [left; by rewrite Hc, take_0, app_nil_r|right].
      unfold aligned. rewrite Hlen, Nat.add_comm, (Nat.mul_comm 36), Nat.Div0.mod_add, Nat.mod_small; lia.
Qed.

Lemma content_frame p (d d' : Disk) : lfs_read p d' = lfs_read p d -> content p d' = content p d.
Proof. unfold content. by intros ->. Qed.

(** Persisting the cursor leaves the log alone. *)
Lemma persistAck_log q d :
  let '(q', d') := persistAck_ q d in
  waiting q' d' = waiting q d /\ acked_seq (ack_ q') = acked_seq (ack_ q) /\ tot_wired q' = tot_wired q.
Proof.
  unfold persistAck_.
  match goal with |- context [seal ?x] => pose proof (seal_fields (R := AckRec) x) as Hs;
    revert Hs; generalize (seal x) end.
  cbn. intros a Hs. injection Hs as Es _ _ _ _. unfold waiting. cbn [ack_ with_ack tot_wired].
  rewrite Es. split; [|done]. rewrite (content_frame LOG_PATH d); [done|].
  destruct (writeWhole _ (bytes_of a) d) as [b d'] eqn:Hw. cbn [snd]. apply writeWhole_law in Hw.
  assert (LOG_PATH <> slot ACK_PATH_A ACK_PATH_B (a_writes a))
    by (destruct (slot_cases ACK_PATH_A ACK_PATH_B (a_writes a)) as [-> | ->]; done).
  destruct b; [by apply Hw|]. destruct Hw as [Hw|(n & _ & Hw)]; by apply Hw.
Qed.

(** Compaction removes nothing that waits. *)
Lemma compact_waiting q t d :
  tot_wired q = false -> waiting q (maybeCompact_ q t d) = waiting q d.
Proof.
  intros Hw. unfold maybeCompact_. rewrite legacy_pending by done.
  destruct (waiting q d) as [|r l] eqn:E; cbn [take]; [|done]. rewrite <- E.
  destruct (lfs_exists LOG_PATH d); [|done].
  destruct (lfs_remove_law LOG_PATH d) as [[Hr _]|Hr].
  - rewrite E. unfold waiting, content. by rewrite Hr.
  - unfold waiting. by rewrite (same_content _ _ _ Hr).
Qed.

(** ackThrough() removes exactly the rows up to its number. *)
Lemma legacy_ack s bid q t d :
  tot_wired q = false ->
  let '(q', d') := ackThrough s bid q t d in
  waiting q' d' = List.filter (above s) (waiting q d) /\
  acked_seq (ack_ q') = Z.max (acked_seq (ack_ q)) s.
Proof.
  intros Hw. unfold ackThrough. rewrite Hw. cbn [negb]. unfold ackThroughLegacy_.
  assert (Habove : Forall (fun r => above (acked_seq (ack_ q)) r = true) (waiting q d)).
  { apply Forall_forall. intros r Hr. apply list_elem_of_In, List.filter_In in Hr. tauto. }
  destruct (Z.leb_spec s (acked_seq (ack_ q))) as [Hle|Hlt].
  { split; [|lia]. symmetry. by eapply filter_above_le. }
  cbv zeta. set (q1 := with_ack _ q).
  pose proof (persistAck_log q1 d) as Hp. destruct (persistAck_ q1 d) as [q2 d2].
  destruct Hp as (Hu & Ea & Hw2). rewrite compact_waiting by (rewrite Hw2; exact Hw). rewrite Hu, Ea.
  split; [|cbn; lia]. symmetry. apply unacked_filter. lia.
Qed.
End legacy.
