(* ===== verification/FlashFrame.v ===== *)
(** * What the steps of a cycle write

    The files an append and a checkpoint write may change, and what that
    leaves of the checkpoint's slots, of the acknowledgement and of the names
    in the queue directory. *)

From S2P Require Import Prelude Config Arduino Crc32 Records Storage DualSlot Totalizer QueueData Queue QueueSpec QueueRefine QueueBoot QueueTheorems.
Import EventQueue.

(** [d'] differs from [d] in files of [P] only. *)
Definition touches `{LittleFS Disk} (P : string -> Prop) (d d' : Disk) : Prop :=
  forall p, ~ P p -> lfs_read p d' = lfs_read p d.

#[export] Instance touches_preorder `{LittleFS Disk} P : PreOrder (touches (Disk := Disk) P).
Proof.
  split; [done|]. intros d1 d2 d3 H1 H2 p Hp. by rewrite H2, H1.
Qed.

Lemma same_touches `{LittleFS Disk} P (d d' : Disk) : same_files d d' -> touches P d d'.
Proof. intros Hs p _. apply Hs. Qed.

Lemma only_touches `{LittleFS Disk} (P : string -> Prop) p c (d d' : Disk) :
  P p -> only_changes p c d d' -> touches P d d'.
Proof. intros Hp [_ Ho] p' Hp'. apply Ho. by intros ->. Qed.

Lemma touches_mono `{LittleFS Disk} (P Q : string -> Prop) (d d' : Disk) :
  (forall p, P p -> Q p) -> touches P d d' -> touches Q d d'.
Proof. intros Hi Ht p Hp. apply Ht. auto. Qed.

(** ** append() *)

Definition fail_file (p : string) : Prop := p = FAIL_PATH_A \/ p = FAIL_PATH_B.

Section append.
Context {T Disk : Type} `{LittleFSLaws Disk} `{SB : StorageBackend Disk}
  {SBL : StorageBackendLaws Disk} `{QO : IQueueOffsetCheckpoint T Disk}.
Context (own : string -> Prop) {QL : QueueOffsetLaws T Disk own}.

Abbreviation active := (active (T := T) (Disk := Disk)).

(** The segment the next row goes to and the failure history. *)
Definition row_file (t : T) (p : string) : Prop :=
  p = segmentPath_ (next_seg (Disk := Disk) t) \/ fail_file p.

Lemma recordWriteFailure_touches cd ms q (d : Disk) :
  touches fail_file d (recordWriteFailure_ cd ms q d).2.
Proof.
  unfold recordWriteFailure_, persistFail_. cbn [snd]. set (p := slot _ _ _).
  assert (Hp : fail_file p) by (unfold fail_file, p; apply slot_cases).
  destruct (writeWhole p _ d) as [b d'] eqn:Hw. cbn [snd]. apply writeWhole_law in Hw.
  destruct b; [by eapply only_touches|]. destruct Hw as [Hw|(n & _ & Hw)];
    [by apply same_touches|by eapply only_touches].
Qed.

(** An append writes row files, then moves the offset or leaves it. *)
Definition append_writes (t t' : T) (d d' : Disk) : Prop :=
  exists d1, touches (row_file t) d d1 /\
    ((t' = t /\ d' = d1) \/
     (t', d') = setQueueOffset (next_seg (Disk := Disk) t) (next_off (Disk := Disk) t + 36) t d1).

Lemma failed_append_writes cd ms q t (d d1 : Disk) :
  touches (row_file t) d d1 ->
  let '(_, d') := recordWriteFailure_ cd ms q d1 in append_writes t t d d'.
Proof.
  intros Ht. pose proof (recordWriteFailure_touches cd ms q d1) as Hf.
  destruct (recordWriteFailure_ cd ms q d1) as [q' d']. exists d'. split; [|by left].
  etransitivity; [exact Ht|]. eapply touches_mono; [|exact Hf]. by right.
Qed.

Lemma append_files rowIn ms0 ms1 msf q t (d : Disk) :
  QInv q t d -> active t + 2 < 2 ^ 32 ->
  let '(_, t', d') := append rowIn ms0 ms1 msf q t d in append_writes t t' d d'.
Proof.
  intros HI Hact. unfold append. rewrite (qi_wired _ _ _ HI). cbn [negb]. cbv zeta.
  fold (active t) (good (Disk := Disk) t). pose proof (next_file _ _ _ HI) as Hn.
  rewrite next_seg_u32 by (pose proof (qi_seg _ _ _ HI); lia).
  assert (Hp : row_file t (segmentPath_ (next_seg (Disk := Disk) t))) by by left.
  destruct (appendOpenSize (segmentPath_ (next_seg t)) d) as [n d1] eqn:Ho.
  apply append_opens in Ho as [[-> Hsame]|(-> & Hc & Hr1 & Ho)].
  { cbn [Z.ltb Z.compare].
    pose proof (failed_append_writes QFAIL_SEGMENT_OPEN msf q t d d1 (same_touches _ _ _ Hsame)) as Hf.
    by destruct (recordWriteFailure_ _ msf q d1). }
  rewrite Hc. rewrite (proj2 (Z.ltb_ge _ 0)) by lia. rewrite u32_small by (unfold cap in *; lia).
  destruct (settle_tail _ _ _ d1) as [s d2] eqn:Hst. rewrite <- Hc in Hst.
  pose proof (only_touches _ _ _ _ _ Hp Ho) as Ht1.
  apply settle_tail_spec in Hst as [[-> Hsame]|[-> Hs]];
    [| |rewrite Hc; lia|rewrite Hc; lia|by rewrite Hr1].
  { pose proof (failed_append_writes QFAIL_TRUNCATE msf q t d d2
      (transitivity Ht1 (same_touches _ _ _ Hsame))) as Hf.
    by destruct (recordWriteFailure_ _ msf q d2). }
  pose proof (transitivity Ht1 (only_touches _ _ _ _ _ Hp Hs)) as Ht2.
  destruct (appendWrite _ _ d2) as [w d3] eqn:Ha.
  assert (Ht3 : touches (row_file t) d d3).
  { etransitivity; [exact Ht2|]. apply appendWrite_law in Ha as [[_ Ha]|[_ Ha]];
      [by apply same_touches|by eapply only_touches]. }
  set (q1 := with_write_latency _ q).
  pose proof (failed_append_writes QFAIL_WRITE_SHORT msf q1 t d d3 Ht3) as Hf.
  destruct (w <? 0); [by destruct (recordWriteFailure_ _ msf q1 d3)|].
  destruct (negb (w =? 36)); [by destruct (recordWriteFailure_ _ msf q1 d3)|].
  rewrite (u32_small (next_off t + 36)) by (unfold cap in *; lia).
  destruct (setQueueOffset _ _ t d3) as [t' d4] eqn:Es. exists d3. split; [done|right]. by rewrite Es.
Qed.
End append.

(** ** What survives *)

Section frames.
Context {Disk : Type} `{LittleFSLaws Disk} `{SB : StorageBackend Disk}
  {SBL : StorageBackendLaws Disk}.

Lemma tot_inv_frame P t (d d' : Disk) :
  touches P d d' -> ~ P Tot.CKPT_PATH_A -> ~ P Tot.CKPT_PATH_B -> Tot.Inv t d -> Tot.Inv t d'.
Proof.
  intros Ht HA HB [Hwf Hb]. split; [done|]. intros v r Hr. apply (Hb v r).
  unfold slot_load in *. rewrite <- Hr. f_equal. symmetry. apply Ht.
  by destruct (slot_cases Tot.CKPT_PATH_A Tot.CKPT_PATH_B v) as [-> | ->].
Qed.

Lemma ack_frame P (d d' : Disk) :
  touches P d d' -> ~ P ACK_PATH_A -> ~ P ACK_PATH_B -> recovered_ack d' = recovered_ack d.
Proof.
  intros Ht HA HB. unfold recovered_ack. rewrite !loadAck_ld. by rewrite !Ht.
Qed.

(** A file the firmware writes is no segment, or is named by its number. *)
Definition well_named (p : string) : Prop :=
  forall name id, p = SD_QUEUE_DIR +:+ "/" +:+ name -> parseSegmentId_ name = Some id ->
    p = segmentPath_ id.

Lemma names_frame P (d d' : Disk) :
  touches P d d' -> (forall p, P p \/ ~ P p) -> (forall p, P p -> well_named p) ->
  names_ok d -> names_ok d'.
Proof.
  intros Ht Hdec Hw Hn name id Hr Hp.
  destruct (Hdec (SD_QUEUE_DIR +:+ "/" +:+ name)) as [HP|HP]; [by eapply Hw|].
  rewrite (Ht _ HP) in Hr. by apply Hn.
Qed.

Lemma segment_well_named s : 0 <= s < 1000000 -> well_named (segmentPath_ s).
Proof.
  intros Hs name id E Hp. unfold segmentPath_ in E.
  apply (str_app_inj "/queue/" "/queue/") in E as [_ E]; [|done].
  subst name. pose proof (proj1 (segment_name_roundtrip s 0) Hs) as Hr.
  assert (Es : Some s = Some id) by (rewrite <- Hp; symmetry; exact Hr). congruence.
Qed.

Lemma side_well_named p :
  fail_file p \/ p = Tot.CKPT_PATH_A \/ p = Tot.CKPT_PATH_B -> well_named p.
Proof.
  intros [[-> | ->]|[-> | ->]] name id E Hp; try discriminate E;
    apply (str_app_inj "/queue/" "/queue/") in E as [_ E]; try done; subst name; vm_compute in Hp; done.
Qed.
End frames.

Lemma persist_touches `{LittleFSLaws Disk} t (d : Disk) : touches tot_files d (Tot.persist_ t d).2.
Proof.
  destruct (Tot.persist_disk t d) as [-> |[n Hcut]]; [done|].
  eapply only_touches; [|exact Hcut]. apply slot_cases.
Qed.

(** ** The files of a row *)

Section rows.
Context {Disk : Type} `{LittleFSLaws Disk} `{SB : StorageBackend Disk}
  {SBL : StorageBackendLaws Disk}.

Lemma row_file_cases (t : Tot.Totalizer) p :
  0 <= next_seg (Disk := Disk) t < 1000000 -> row_file (Disk := Disk) t p -> well_named p.
Proof.
  intros Hs [-> |Hf]; [by apply segment_well_named|apply side_well_named; by left].
Qed.

Lemma row_file_dec (t : Tot.Totalizer) p : row_file (Disk := Disk) t p \/ ~ row_file (Disk := Disk) t p.
Proof.
  unfold row_file, fail_file.
  destruct (decide (p = segmentPath_ (next_seg (Disk := Disk) t))), (decide (p = FAIL_PATH_A)),
    (decide (p = FAIL_PATH_B)); tauto.
Qed.

Lemma row_file_not (t : Tot.Totalizer) p :
  p = Tot.CKPT_PATH_A \/ p = Tot.CKPT_PATH_B \/ p = ACK_PATH_A \/ p = ACK_PATH_B ->
  ~ row_file (Disk := Disk) t p.
Proof.
  intros Hp [E|E]; destruct Hp as [-> |[-> |[-> | ->]]];
    try (destruct E as [E|E]); discriminate E.
Qed.

Lemma next_seg_range q (t : Tot.Totalizer) (d : Disk) :
  QInv q t d -> active (Disk := Disk) t + 1 < 1000000 -> 0 <= next_seg (Disk := Disk) t < 1000000.
Proof. intros HI Ha. pose proof (qi_seg _ _ _ HI). unfold next_seg. case_match; lia. Qed.
End rows.
