(* ===== verification/Net.v ===== *)
(** * HTTP exchanges

    HTTPClient and WiFiClientSecure are library code: a method that talks to
    the server takes the outcome of each exchange as an argument, [None] when
    [http.begin] refuses the URL, and returns the requests it made. *)

From S2P Require Import Prelude Config Arduino Parse.

Inductive http_method := GET | POST.

Record HttpReq := {
  rq_method : http_method;
  rq_url : string;
  (* WiFiClientSecure with setCACert(COVIO_PINNED_CA_CERT), and its
     handshake timeout in seconds; None for the plain client *)
  rq_pinned_tls : option Z;
  rq_json : bool;
  rq_api_key : option string;
  rq_connect_ms : Z;
  rq_io_ms : Z;
  rq_body : string;
}.

Record HttpReply := {
  rp_code : Z;
  rp_size : Z;       (* getSize(): Content-Length, negative if absent *)
  rp_body : string;
}.

(** The scheme dispatch and the timeouts, as every caller writes them. *)
Definition request (m : http_method) (url : string) (json : bool) (key : option string)
    (body : string) : HttpReq :=
  {| rq_method := m; rq_url := url;
     rq_pinned_tls := if covioIsHttpsUrl url then Some HTTPS_HANDSHAKE_TIMEOUT_S else None;
     rq_json := json; rq_api_key := key;
     rq_connect_ms := HTTPS_CONNECT_TIMEOUT_MS; rq_io_ms := HTTPS_IO_TIMEOUT_MS;
     rq_body := body |}.

(** An exchange of an https URL verifies the server against the pinned CA. *)
Definition pinned (r : HttpReq) : Prop :=
  covioIsHttpsUrl (rq_url r) = true -> is_Some (rq_pinned_tls r).

Lemma request_pinned m url j k b : pinned (request m url j k b).
Proof. intros H. unfold request. simpl in *. by rewrite H. Qed.
