(* ===== verification/Sync.v ===== *)
(** * The sync engine (sync.h)

    WiFi keep-alive, push with cumulative acknowledgement, configuration
    poll.  Clock readings, random numbers, WiFi status and HTTP outcomes are
    arguments; the store, the queue and the flash are passed through. *)

From S2P Require Import Prelude Config Arduino Crc32 Records Storage DualSlot Parse Boot Store QueueData Queue Telemetry Net.
Import St EventQueue.

Module Sync.

Record Sync := {
  otaState_ : option string;
  otaReject_ : option string;
  lastWifiTry_ : Z;
  backoff_ : Z;
  pushBackoffMs_ : Z;
  lastPushFailMs_ : Z;
  wifiAuthorityPaused_ : bool;
  haveSync_ : bool;
  lastSyncMs_ : Z;
  lastPushHttpCode_ : Z;
  lastPushRttMs_ : Z;
  haveServerTime_ : bool;
  serverUnixS_ : Z;
  serverTimeCapturedAtMs_ : Z;
}.

Definition new_sync : Sync :=
  {| otaState_ := None; otaReject_ := None; lastWifiTry_ := 0; backoff_ := WIFI_RETRY_MS;
     pushBackoffMs_ := 0; lastPushFailMs_ := 0; wifiAuthorityPaused_ := false;
     haveSync_ := false; lastSyncMs_ := 0; lastPushHttpCode_ := -1; lastPushRttMs_ := 0;
     haveServerTime_ := false; serverUnixS_ := 0; serverTimeCapturedAtMs_ := 0 |}.

Definition with_ota (st rj : option string) (s : Sync) : Sync :=
  {| otaState_ := st; otaReject_ := rj; lastWifiTry_ := lastWifiTry_ s; backoff_ := backoff_ s;
     pushBackoffMs_ := pushBackoffMs_ s; lastPushFailMs_ := lastPushFailMs_ s;
     wifiAuthorityPaused_ := wifiAuthorityPaused_ s; haveSync_ := haveSync_ s;
     lastSyncMs_ := lastSyncMs_ s; lastPushHttpCode_ := lastPushHttpCode_ s;
     lastPushRttMs_ := lastPushRttMs_ s; haveServerTime_ := haveServerTime_ s;
     serverUnixS_ := serverUnixS_ s; serverTimeCapturedAtMs_ := serverTimeCapturedAtMs_ s |}.
Definition with_wifi (try backoff : Z) (paused : bool) (s : Sync) : Sync :=
  {| otaState_ := otaState_ s; otaReject_ := otaReject_ s; lastWifiTry_ := try;
     backoff_ := backoff; pushBackoffMs_ := pushBackoffMs_ s; lastPushFailMs_ := lastPushFailMs_ s;
     wifiAuthorityPaused_ := paused; haveSync_ := haveSync_ s; lastSyncMs_ := lastSyncMs_ s;
     lastPushHttpCode_ := lastPushHttpCode_ s; lastPushRttMs_ := lastPushRttMs_ s;
     haveServerTime_ := haveServerTime_ s; serverUnixS_ := serverUnixS_ s;
     serverTimeCapturedAtMs_ := serverTimeCapturedAtMs_ s |}.
Definition with_push_backoff (b fail : Z) (s : Sync) : Sync :=
  {| otaState_ := otaState_ s; otaReject_ := otaReject_ s; lastWifiTry_ := lastWifiTry_ s;
     backoff_ := backoff_ s; pushBackoffMs_ := b; lastPushFailMs_ := fail;
     wifiAuthorityPaused_ := wifiAuthorityPaused_ s; haveSync_ := haveSync_ s;
     lastSyncMs_ := lastSyncMs_ s; lastPushHttpCode_ := lastPushHttpCode_ s;
     lastPushRttMs_ := lastPushRttMs_ s; haveServerTime_ := haveServerTime_ s;
     serverUnixS_ := serverUnixS_ s; serverTimeCapturedAtMs_ := serverTimeCapturedAtMs_ s |}.
Definition with_push_result (rtt code : Z) (s : Sync) : Sync :=
  {| otaState_ := otaState_ s; otaReject_ := otaReject_ s; lastWifiTry_ := lastWifiTry_ s;
     backoff_ := backoff_ s; pushBackoffMs_ := pushBackoffMs_ s;
     lastPushFailMs_ := lastPushFailMs_ s; wifiAuthorityPaused_ := wifiAuthorityPaused_ s;
     haveSync_ := haveSync_ s; lastSyncMs_ := lastSyncMs_ s; lastPushHttpCode_ := code;
     lastPushRttMs_ := rtt; haveServerTime_ := haveServerTime_ s;
     serverUnixS_ := serverUnixS_ s; serverTimeCapturedAtMs_ := serverTimeCapturedAtMs_ s |}.
Definition with_synced (now : Z) (s : Sync) : Sync :=
  {| otaState_ := otaState_ s; otaReject_ := otaReject_ s; lastWifiTry_ := lastWifiTry_ s;
     backoff_ := backoff_ s; pushBackoffMs_ := pushBackoffMs_ s;
     lastPushFailMs_ := lastPushFailMs_ s; wifiAuthorityPaused_ := wifiAuthorityPaused_ s;
     haveSync_ := true; lastSyncMs_ := now; lastPushHttpCode_ := lastPushHttpCode_ s;
     lastPushRttMs_ := lastPushRttMs_ s; haveServerTime_ := haveServerTime_ s;
     serverUnixS_ := serverUnixS_ s; serverTimeCapturedAtMs_ := serverTimeCapturedAtMs_ s |}.
Definition with_server_time (unix captured : Z) (s : Sync) : Sync :=
  {| otaState_ := otaState_ s; otaReject_ := otaReject_ s; lastWifiTry_ := lastWifiTry_ s;
     backoff_ := backoff_ s; pushBackoffMs_ := pushBackoffMs_ s;
     lastPushFailMs_ := lastPushFailMs_ s; wifiAuthorityPaused_ := wifiAuthorityPaused_ s;
     haveSync_ := haveSync_ s; lastSyncMs_ := lastSyncMs_ s;
     lastPushHttpCode_ := lastPushHttpCode_ s; lastPushRttMs_ := lastPushRttMs_ s;
     haveServerTime_ := true; serverUnixS_ := unix; serverTimeCapturedAtMs_ := captured |}.

(** ** WiFi *)

Definition setWifiAuthorityPaused (paused : bool) (s : Sync) : Sync :=
  with_wifi (lastWifiTry_ s) (backoff_ s) paused s.
Definition setOtaStatus (state reject : option string) (s : Sync) : Sync :=
  with_ota state reject s.

(** [min<uint32_t>(b * 2, 120000UL)] plus [esp_random() % 1000] *)
Definition doubled (b : Z) : Z := Z.min (u32 (b * 2)) 120000.
Definition jittered (b rnd : Z) : Z := u32 (b + rnd mod 1000).

Section methods.
Context {N T Disk : Type} `{Preferences N} `{LittleFS Disk} `{QO : IQueueOffsetCheckpoint T Disk}
  `{SB : StorageBackend Disk}.

(** The credentials handed to [WiFi.begin]. *)
Definition wifiConnect (n : N) : string * string := (wifiSsid n, wifiPass n).

(** The first component: the reconnect attempt, if one is made. *)
Definition wifiService (connected : bool) (now rnd : Z) (s : Sync) (n : N)
  : option (string * string) * Sync * N :=
  if wifiAuthorityPaused_ s then (None, s, n)
  else if connected then (None, with_wifi (lastWifiTry_ s) WIFI_RETRY_MS false s, n)
  else if u32 (now - lastWifiTry_ s) <? backoff_ s then (None, s, n)
  else
    let n := incrementWifiReconnectCount n in
    (Some (wifiSsid n, wifiPass n),
     with_wifi now (jittered (doubled (backoff_ s)) rnd) (wifiAuthorityPaused_ s) s, n).

(** ** Push *)

(** Readings taken during one call of pushOnce, in order. *)
Record PushEnv := {
  pe_online : bool;
  pe_now : Z;             (* millis() of the backoff test *)
  pe_pend0 : Z; pe_pend1 : Z;
  pe_rr : Z;              (* esp_reset_reason() *)
  pe_mac : Z;
  pe_rtt0 : Z; pe_rtt1 : Z;
  pe_fail_now : Z;        (* millis() and esp_random() of notePushFailureBackoff_ *)
  pe_rnd : Z;
  pe_sync_now : Z;
  pe_time_now : Z;
  pe_net : HttpReq -> option HttpReply;
}.

Definition notePushFailureBackoff_ (now rnd : Z) (s : Sync) : Sync :=
  let b := if negb (pushBackoffMs_ s =? 0) then doubled (pushBackoffMs_ s)
           else u32 (2 * PUSH_PERIOD_MS) in
  with_push_backoff (jittered b rnd) now s.

(** The capture of server_time_ms. *)
Definition note_server_time (resp : string) (now : Z) (s : Sync) : Sync :=
  match extractInt64_ resp "server_time_ms" with
  | Some v => if 0 <=? v then with_server_time (i32 (v / 1000)) now s else s
  | None => s
  end.

Definition pushOnce (bd : Build) (e : PushEnv) (st : Store) (s : Sync) (q : EventQueue) (t : T)
    (d : Disk) (n : N) : bool * list HttpReq * Sync * EventQueue * Disk * N :=
  if negb (pe_online e) then (false, [], s, q, d, n) else
  if negb (pushBackoffMs_ s =? 0) && (u32 (pe_now e - lastPushFailMs_ s) <? pushBackoffMs_ s)
  then (false, [], s, q, d, n) else
  let '(batch, q) := pending PUSH_BATCH_MAX (pe_pend0 e) (pe_pend1 e) q t d in
  match last batch with
  | None => (false, [], s, q, d, n)
  | Some newest =>
      let body := Tele.toJson bd (pe_mac e) st (pe_rr e) n batch (otaState_ s) (otaReject_ s) in
      let rq := request POST (serverUrl bd n +:+ PATH_PUSH) true (Some (apiKey n)) body in
      match pe_net e rq with
      | None => (false, [], s, q, d, n)
      | Some rep =>
          let s := with_push_result (u32 (pe_rtt1 e - pe_rtt0 e)) (rp_code rep) s in
          if negb (rp_code rep =? 200) then
            (false, [rq], notePushFailureBackoff_ (pe_fail_now e) (pe_rnd e) s, q, d,
             incrementPushFailCount n)
          else
            let resp := rp_body rep in
            let ackSeq := extractLong_ resp "ack_seq" in
            if ackSeq <? 0 then
              (false, [rq], notePushFailureBackoff_ (pe_fail_now e) (pe_rnd e) s, q, d,
               incrementPushFailCount n)
            else
              let s := with_push_backoff 0 (lastPushFailMs_ s) s in
              let boundedAck := fst (boundAckSeq (u32 ackSeq) (r_seq newest)) in
              let '(q, d) := ackThrough boundedAck (bootId st) q t d in
              let s := with_synced (pe_sync_now e) s in
              (true, [rq], note_server_time resp (pe_time_now e) s, q, d, n)
      end
  end.

Definition haveServerTime (s : Sync) : bool := haveServerTime_ s.
Definition havePush (s : Sync) : bool := negb (lastPushHttpCode_ s =? -1).

Definition estimatedUnixNow (now : Z) (s : Sync) : Z :=
  if negb (haveServerTime_ s) then -1
  else i32 (serverUnixS_ s + u32 (now - serverTimeCapturedAtMs_ s) / 1000).

(** ** Configuration poll *)

Record ConfigEnv := {
  ce_online : bool;
  ce_now : Z;
  ce_net : HttpReq -> option HttpReply;
}.

Variable toFloat : string -> f32.

(** What a 200 reply's body does to the store. *)
Definition apply_config (r : string) (n : N) : N :=
  let ver := extractLong_ r "version" in
  let k := extractFloat_ toFloat r "K_factor" in
  let d := extractFloat_ toFloat r "density" in
  let tr := extractFloat_ toFloat r "T_ref" in
  if (0 <=? ver) && negb (u32 ver =? cfgVer n) then
    let n := if f32_gt k (f32_of_Z 0) then setCalib k d tr n else n in
    setCfgVer (u32 ver) n
  else n.

Definition pollConfig (bd : Build) (e : ConfigEnv) (s : Sync) (n : N)
  : list HttpReq * Sync * N :=
  if negb (ce_online e) then ([], s, n) else
  let rq := request GET (serverUrl bd n +:+ PATH_CONFIG) false (Some (apiKey n)) EmptyString in
  match ce_net e rq with
  | None => ([], s, n)
  | Some rep =>
      if rp_code rep =? 200 then ([rq], with_synced (ce_now e) s, apply_config (rp_body rep) n)
      else ([rq], s, n)
  end.
End methods.

#[global] Arguments pushOnce : simpl never.
#[global] Arguments pollConfig : simpl never.

End Sync.
