(* ===== verification/SyncTheorems.v ===== *)
(** * Theorems about the sync engine *)

From S2P Require Import Prelude Config Arduino Crc32 Records Storage DualSlot Parse Boot Store Totalizer QueueData Queue QueueSpec QueueRefine QueueTheorems Telemetry Net Sync.
Import St EventQueue Sync.

(** ** Back-off *)

(** A retry window of the code: none, or 10 s up to 2 min plus jitter. *)
Definition window_ok (b : Z) : Prop := b = 0 \/ 10000 <= b <= 120999.

Lemma doubled_jittered b rnd : 10000 <= b <= 120999 -> 10000 <= jittered (doubled b) rnd <= 120999.
Proof.
  intros Hb. unfold jittered, doubled. pose proof (Z.mod_pos_bound rnd 1000 ltac:(lia)).
  rewrite (u32_small (b * 2)) by lia. rewrite u32_small; lia.
Qed.

Lemma note_failure_window now rnd s :
  window_ok (pushBackoffMs_ s) ->
  let s' := notePushFailureBackoff_ now rnd s in
  10000 <= pushBackoffMs_ s' <= 120999 /\ lastPushFailMs_ s' = now.
Proof.
  intros Hw. unfold notePushFailureBackoff_. cbn [pushBackoffMs_ lastPushFailMs_ with_push_backoff].
  split; [|done]. destruct Hw as [->|Hw].
  - change (negb (0 =? 0)) with false. cbn iota. unfold jittered.
    pose proof (Z.mod_pos_bound rnd 1000 ltac:(lia)).
    change (u32 (2 * PUSH_PERIOD_MS)) with 10000. rewrite u32_small; lia.
  - rewrite (proj2 (Z.eqb_neq _ _)) by lia. by apply doubled_jittered.
Qed.

Section theorems.
Context {N T Disk : Type} `{PreferencesLaws N} `{LittleFSLaws Disk} `{SB : StorageBackend Disk}
  {SBL : StorageBackendLaws Disk} `{QO : IQueueOffsetCheckpoint T Disk}.
Context (own : string -> Prop) {QL : QueueOffsetLaws T Disk own}.
Hypothesis own_segment : forall s, ~ own (segmentPath_ s).

Abbreviation active := (active (T := T) (Disk := Disk)).

(** ** What one push does to the queue *)

Definition increasing (l : list QRow) : Prop :=
  forall i j r r', (i < j)%nat -> l !! i = Some r -> l !! j = Some r' -> r_seq r < r_seq r'.

Lemma increasing_bounds l k last_row :
  increasing l -> last (take k l) = Some last_row ->
  (forall r, r ∈ take k l -> r_seq r <= r_seq last_row) /\
  (forall r, r ∈ drop k l -> r_seq last_row < r_seq r).
Proof.
  intros Hi Hl. rewrite last_lookup in Hl.
  set (i := Nat.pred (length (take k l))) in *.
  assert (Hk : (i < length (take k l))%nat) by (by apply lookup_lt_Some in Hl).
  assert (Hli : l !! i = Some last_row).
  { rewrite length_take in Hk. by rewrite lookup_take_lt in Hl by lia. }
  rewrite length_take in Hk. split.
  - intros r (j & Hj)%list_elem_of_lookup. pose proof (lookup_lt_Some _ _ _ Hj) as Hlt.
    rewrite length_take in Hlt. rewrite lookup_take_lt in Hj by lia.
    destruct (decide (j = i)) as [->|]; [simplify_eq; lia|].
    unfold i in *. rewrite length_take in *. 
    enough (r_seq r < r_seq last_row) by lia. eapply Hi; [|done|done]. lia.
  - intros r (j & Hj)%list_elem_of_lookup. rewrite lookup_drop in Hj.
    eapply Hi; [|done|done]. lia.
Qed.

Lemma filter_bounded l k a last_row :
  increasing l -> last (take k l) = Some last_row ->
  List.filter (above (fst (boundAckSeq a (r_seq last_row)))) l
  = List.filter (above a) (take k l) ++ drop k l.
Proof.
  intros Hi Hl. destruct (increasing_bounds l k last_row Hi Hl) as [Hb Hw].
  rewrite <- (take_drop k l) at 1. rewrite List.filter_app. f_equal.
  - apply List.filter_ext_in. intros r Hr%list_elem_of_In. apply Hb in Hr.
    unfold above, boundAckSeq. destruct (Z.ltb_spec (r_seq last_row) a); simpl; [|done].
    destruct (Z.ltb_spec (r_seq last_row) (r_seq r)), (Z.ltb_spec a (r_seq r)); lia || done.
  - apply filter_all. intros r Hr. apply Hw in Hr. unfold above, boundAckSeq. apply Z.ltb_lt.
    destruct (Z.ltb_spec (r_seq last_row) a); simpl; lia.
Qed.

Definition wire_request (bd : Build) (e : PushEnv) (st : Store) (s : Sync) (n : N)
    (batch : list QRow) : HttpReq :=
  request POST (serverUrl bd n +:+ PATH_PUSH) true (Some (apiKey n))
    (Tele.toJson bd (pe_mac e) st (pe_rr e) n batch (otaState_ s) (otaReject_ s)).

(** At most one request, whatever the state. *)
Lemma push_log bd e st s q (t : T) (d : Disk) (n : N) :
  let log := (pushOnce bd e st s q t d n).1.1.1.1.2 in
  (length log <= 1)%nat /\ Forall pinned log.
Proof.
  unfold pushOnce. destruct (negb (pe_online e)); [by split; [simpl; lia|]|].
  destruct (_ && _); [by split; [simpl; lia|]|].
  destruct (pending _ _ _ _ _ _) as [batch q1].
  destruct (last batch) as [newest|]; [|by split; [simpl; lia|]]. cbv zeta.
  set (rq := request _ _ _ _ _).
  assert (Hp : Forall pinned [rq]) by (apply Forall_singleton, request_pinned). clearbody rq.
  destruct (pe_net e rq); [|by split; [simpl; lia|]].
  destruct (negb _); [by split; [simpl; lia|]|].
  destruct (_ <? 0); [by split; [simpl; lia|]|].
  destruct (ackThrough _ _ _ _ _). by split; [simpl; lia|].
Qed.

(** What one push does, branch by branch. *)
Lemma push_cases bd e st s q t d n :
  QInv q t d -> active t + 1 < 2 ^ 32 ->
  let '(ok, log, s', q', d', n') := pushOnce bd e st s q t d n in
  let batch := take PUSH_BATCH_MAX (unacked q t d) in
  let rq := wire_request bd e st s n batch in
  if ok then exists rep newest,
    log = [rq] /\ pe_net e rq = Some rep /\ rp_code rep = 200 /\ last batch = Some newest /\
    let ack := extractLong_ (rp_body rep) "ack_seq" in
    let bound := fst (boundAckSeq ack (r_seq newest)) in
    0 <= ack /\ QInv q' t d' /\ acked_seq (ack_ q') = Z.max (acked_seq (ack_ q)) bound /\
    unacked q' t d' = List.filter (above bound) (unacked q t d) /\ pushBackoffMs_ s' = 0 /\
    fail_ q' = fail_ q
  else (log = [] \/ log = [rq]) /\ ack_ q' = ack_ q /\ fail_ q' = fail_ q /\ d' = d /\
       QInv q' t d /\ unacked q' t d = unacked q t d.
Proof.
  intros HI Ha. unfold pushOnce.
  assert (Hstay : forall ms, QInv (with_pending_latency ms q) t d /\
    unacked (with_pending_latency ms q) t d = unacked q t d)
    by (intros ms; by apply QInv_ext).
  destruct (pe_online e); cbn [negb]; [|split_and!; auto].
  destruct (negb (pushBackoffMs_ s =? 0) && _); [split_and!; auto|].
  unfold pending. rewrite pendingImpl_spec by done.
  set (q1 := with_pending_latency _ q). destruct (Hstay (u32 (pe_pend1 e - pe_pend0 e))) as [HI1 Hu1].
  fold q1 in HI1, Hu1. set (batch := take PUSH_BATCH_MAX (unacked q t d)).
  destruct (last batch) as [newest|] eqn:El; [|split_and!; auto].
  fold (wire_request bd e st s n batch).
  destruct (pe_net e (wire_request bd e st s n batch)) as [rep|] eqn:En; [|split_and!; auto].
  destruct (Z.eqb_spec (rp_code rep) 200) as [E200|]; cbn [negb]; [|split_and!; auto].
  destruct (Z.ltb_spec (extractLong_ (rp_body rep) "ack_seq") 0) as [|Hack]; [split_and!; auto|].
  pose proof (extractLong_range (rp_body rep) "ack_seq") as Hr.
  rewrite (u32_small (extractLong_ (rp_body rep) "ack_seq")) by lia.
  set (ack := extractLong_ (rp_body rep) "ack_seq") in *.
  pose proof (ackThrough_outcome (fst (boundAckSeq ack (r_seq newest))) (bootId st) q1 t d HI1 Ha)
    as Ho.
  destruct (ackThrough _ _ q1 t d) as [q2 d2]. destruct Ho as (HI2 & Hf2 & Hm & Hu2).
  exists rep, newest. split_and!; try done.
  unfold note_server_time. by repeat case_match.
Qed.


(** ** Draining the backlog *)

(** Sequence numbers never decrease along the queue; after a power cut between
    a row and its checkpoint two neighbours can share one. *)
Definition ordered (l : list QRow) : Prop :=
  forall i j r r', (i <= j)%nat -> l !! i = Some r -> l !! j = Some r' -> r_seq r <= r_seq r'.

Lemma ordered_cons r l : ordered (r :: l) <-> Forall (fun r' => r_seq r <= r_seq r') l /\ ordered l.
Proof.
  split.
  - intros Ho. split.
    + apply Forall_lookup. intros j r' Hj. by apply (Ho 0%nat (S j)); [lia| |].
    + intros i j a b Hij Hi Hj. by apply (Ho (S i) (S j)); [lia| |].
  - intros [Hf Ho] [|i] [|j] a b Hij Hi Hj; simpl in *; try lia.
    + by simplify_eq.
    + simplify_eq. rewrite Forall_lookup in Hf. by eapply Hf.
    + eapply (Ho i j); [lia|done|done].
Qed.

Lemma ordered_filter P l : ordered l -> ordered (List.filter P l).
Proof.
  induction l as [|r l IH]; [done|]. rewrite ordered_cons. intros [Hf Ho]. simpl.
  destruct (P r); [|by apply IH]. apply ordered_cons. split; [|by apply IH].
  rewrite Forall_forall in Hf |- *. intros x Hx. apply Hf.
  apply list_elem_of_In in Hx. apply List.filter_In in Hx as [Hx _]. by apply list_elem_of_In.
Qed.

Lemma ordered_batch k l newest :
  ordered l -> last (take k l) = Some newest ->
  List.filter (above (r_seq newest)) l = List.filter (above (r_seq newest)) (drop k l).
Proof.
  intros Ho Hl. rewrite <- (take_drop k l) at 1. rewrite List.filter_app.
  rewrite filter_none; [done|]. intros r Hr. apply list_elem_of_lookup in Hr as (i & Hi).
  rewrite last_lookup in Hl.
  assert (Hlt : (i < length (take k l))%nat) by (by eapply lookup_lt_Some).
  rewrite lookup_take_Some in Hl, Hi. unfold above. apply Z.ltb_ge.
  apply (Ho i (Nat.pred (length (take k l)))); [lia|apply Hi|apply Hl].
Qed.

(** The server is reachable and answers every batch with an acknowledgement
    of at least its newest row, as the signed 32-bit reply field can hold it. *)
Definition accepting (bd : Build) (st : Store) (e : PushEnv) : Prop :=
  pe_online e = true /\
  forall s (n : N) batch newest, last batch = Some newest -> r_seq newest < 2 ^ 31 ->
    exists rep, pe_net e (wire_request bd e st s n batch) = Some rep /\ rp_code rep = 200 /\
                r_seq newest <= extractLong_ (rp_body rep) "ack_seq".

(** Calls of pushOnce, one per environment. *)
Fixpoint push_run (bd : Build) (st : Store) (t : T) (es : list PushEnv)
    (x : Sync * EventQueue * Disk * N) : Sync * EventQueue * Disk * N :=
  match es with
  | [] => x
  | e :: es =>
      let '(s, q, d, n) := x in
      let '(_, _, s, q, d, n) := pushOnce bd e st s q t d n in
      push_run bd st t es (s, q, d, n)
  end.

Lemma push_accepted bd e st s q t d n :
  QInv q t d -> active t + 1 < 2 ^ 32 -> ordered (unacked q t d) ->
  Forall (fun r => 0 <= r_seq r < 2 ^ 31) (unacked q t d) ->
  accepting bd st e -> pushBackoffMs_ s = 0 ->
  let '(_, _, s', q', d', _) := pushOnce bd e st s q t d n in
  QInv q' t d' /\ pushBackoffMs_ s' = 0 /\
  exists P, unacked q' t d' = List.filter P (drop PUSH_BATCH_MAX (unacked q t d)).
Proof.
  intros HI Ha Ho Hs [Hon Hacc] Hb. pose proof (push_cases bd e st s q t d n HI Ha) as Hc.
  destruct (last (take PUSH_BATCH_MAX (unacked q t d))) as [newest|] eqn:El.
  - assert (Hnew : 0 <= r_seq newest < 2 ^ 31).
    { rewrite Forall_forall in Hs. apply Hs. apply (subseteq_take PUSH_BATCH_MAX).
      rewrite last_lookup in El. by eapply list_elem_of_lookup_2. }
    assert (Eok : (pushOnce bd e st s q t d n).1.1.1.1.1 = true).
    { unfold pushOnce. rewrite Hon, Hb. cbn [negb andb Z.eqb]. unfold pending.
      rewrite pendingImpl_spec by done. rewrite El. fold (wire_request bd e st s n
        (take PUSH_BATCH_MAX (unacked q t d))).
      destruct (Hacc s n _ newest El ltac:(lia)) as (rep & -> & -> & Hack).
      cbn [negb Z.eqb Pos.eqb]. rewrite (proj2 (Z.ltb_ge _ 0)) by lia.
      by destruct (ackThrough _ _ _ _ _). }
    destruct (pushOnce bd e st s q t d n) as [[[[[ok log] s'] q'] d'] n']. simpl in Eok. subst ok.
    destruct Hc as (rep & nw & _ & En & _ & El' & _ & HI' & _ & Hu & Hb' & _).
    rewrite El in El'. injection El' as <-.
    destruct (Hacc s n _ newest El ltac:(lia)) as (rep' & En' & _ & Hack).
    rewrite En in En'. injection En' as <-.
    split_and!; [done|done|]. eexists. rewrite Hu. unfold boundAckSeq.
    destruct (Z.ltb_spec (r_seq newest) (extractLong_ (rp_body rep) "ack_seq")) as [|Hle]; simpl.
    + by apply ordered_batch.
    + replace (extractLong_ (rp_body rep) "ack_seq") with (r_seq newest) by lia. by apply ordered_batch.
  - assert (En : unacked q t d = []).
    { apply last_None in El. by destruct (unacked q t d). }
    destruct (pushOnce bd e st s q t d n) as [[[[[ok log] s'] q'] d'] n'] eqn:Ep.
    destruct ok.
    + destruct Hc as (rep & nw & _ & _ & _ & Hnw & _). rewrite El in Hnw. done.
    + destruct Hc as (_ & _ & _ & -> & HI' & ->). split_and!; [done| |].
      * revert Ep. unfold pushOnce. rewrite Hon, Hb. cbn [negb andb Z.eqb]. unfold pending.
        rewrite pendingImpl_spec by done. rewrite El. congruence.
      * exists (fun _ => true). by rewrite En.
Qed.

(** The backlog drains.  While the server is reachable and acknowledges
    what it receives, every push of at most 50 rows takes them off the queue,
    so after ceil(n/50) pushes none of n pending rows is left. *)
Theorem push_drains_backlog bd es st s q t d n :
  QInv q t d -> active t + 1 < 2 ^ 32 -> ordered (unacked q t d) ->
  Forall (fun r => 0 <= r_seq r < 2 ^ 31) (unacked q t d) ->
  Forall (accepting bd st) es -> pushBackoffMs_ s = 0 ->
  (length (unacked q t d) <= PUSH_BATCH_MAX * length es)%nat ->
  let '(s', q', d', n') := push_run bd st t es (s, q, d, n) in
  QInv q' t d' /\ unacked q' t d' = [].
Proof.
  intros HI Ha Ho Hs Hes. revert s q d n HI Ho Hs.
  induction Hes as [|e es He _ IH]; intros s q d n HI Ho Hs Hb Hlen.
  - simpl in *. split; [done|]. apply nil_length_inv. lia.
  - cbn [push_run]. pose proof (push_accepted bd e st s q t d n HI Ha Ho Hs He Hb) as Hp.
    destruct (pushOnce bd e st s q t d n) as [[[[[ok log] s'] q'] d'] n'].
    destruct Hp as (HI' & Hb' & P & Hu). apply IH; [done| | |done|].
    + rewrite Hu. apply ordered_filter. intros i j r r' Hij Hi Hj.
      rewrite !lookup_drop in *. eapply Ho; [|done|done]. lia.
    + rewrite Hu. rewrite Forall_forall in Hs |- *. intros r Hr.
      apply list_elem_of_In, List.filter_In in Hr as [Hr _]. apply Hs.
      apply list_elem_of_In in Hr. by apply subseteq_drop in Hr.
    + rewrite Hu. etransitivity; [apply List.filter_length_le|]. rewrite length_drop.
      cbn [length] in Hlen. lia.
Qed.

(** C37: a failing server is retried with a bounded back-off.  Starting from no
    back-off, the push window is always 0 or between 10 s and 121 s, a failed
    attempt sets it, a genuine acknowledgement clears it; and once it has
    elapsed (121 s at most) an online device with pending rows transmits
    again. *)
Theorem push_backoff_bounded bd e st s q t d n :
  QInv q t d -> active t + 1 < 2 ^ 32 -> window_ok (pushBackoffMs_ s) ->
  let '(ok, log, s', q', d', n') := pushOnce bd e st s q t d n in
  window_ok (pushBackoffMs_ s') /\
  (ok = true -> pushBackoffMs_ s' = 0) /\
  (log <> [] -> ok = false ->
   pushBackoffMs_ s' <> 0 /\ lastPushFailMs_ s' = pe_fail_now e) /\
  (pe_online e = true -> unacked q t d <> [] ->
   (forall rq, pe_net e rq <> None) -> 120999 <= u32 (pe_now e - lastPushFailMs_ s) ->
   log <> []).
Proof.
  intros HI Ha Hw. unfold pushOnce.
  destruct (pe_online e); cbn [negb]; [|split_and!; done].
  destruct (negb (pushBackoffMs_ s =? 0) && _) eqn:Hb.
  { split_and!; try done. intros _ _ _ Hel. bool_prop. exfalso. destruct Hw; lia. }
  unfold pending. rewrite pendingImpl_spec by done.
  destruct (last (take PUSH_BATCH_MAX (unacked q t d))) as [newest|] eqn:El.
  2:{ split_and!; try done. intros _ Hne. apply last_None in El. by destruct (unacked q t d). }
  set (rq := request _ _ _ _ _). clearbody rq.
  destruct (pe_net e rq) as [rep|] eqn:En.
  2:{ split_and!; try done. intros _ _ Hnet. by destruct (Hnet rq). }
  pose proof (note_failure_window (pe_fail_now e) (pe_rnd e)
    (with_push_result (u32 (pe_rtt1 e - pe_rtt0 e)) (rp_code rep) s) Hw) as [Hf1 Hf2].
  destruct (rp_code rep =? 200); cbn [negb];
    [|split_and!; try done; [right; lia|intros; split; [lia|done]]].
  destruct (extractLong_ (rp_body rep) "ack_seq" <? 0);
    [split_and!; try done; [right; lia|intros; split; [lia|done]]|].
  destruct (ackThrough _ _ _ _ _) as [q2 d2].
  assert (E : forall s1, pushBackoffMs_ (note_server_time (rp_body rep) (pe_time_now e) s1)
    = pushBackoffMs_ s1) by (intros; unfold note_server_time; by repeat case_match).
  rewrite E. split_and!; try done. by left.
Qed.

(** The WiFi keep-alive stays out of the way while provisioning owns the
    radio, otherwise reconnects only when disconnected and only after its
    window, which stays between 10 s and 121 s and restarts at 10 s on every
    good connection; every attempt is counted. *)
Theorem wifi_keepalive_bounded connected now rnd s (n : N) :
  10000 <= backoff_ s <= 120999 -> pref_writable n ->
  let '(attempt, s', n') := wifiService connected now rnd s n in
  10000 <= backoff_ s' <= 120999 /\
  (is_Some attempt <-> wifiAuthorityPaused_ s = false /\ connected = false /\
                       backoff_ s <= u32 (now - lastWifiTry_ s)) /\
  wifiReconnectCount n' =
    (if attempt is Some _ then u32 (wifiReconnectCount n + 1) else wifiReconnectCount n) /\
  (connected = true -> wifiAuthorityPaused_ s = false -> backoff_ s' = WIFI_RETRY_MS).
Proof.
  intros Hb Hw. unfold wifiService.
  assert (Hno : ~ is_Some (@None (string * string))) by (by intros []).
  destruct (wifiAuthorityPaused_ s) eqn:Hp.
  { split; [done|]. split; [naive_solver|]. done. }
  destruct connected.
  { split; [done|]. split; [naive_solver|]. done. }
  destruct (Z.ltb_spec (u32 (now - lastWifiTry_ s)) (backoff_ s)).
  { split; [done|]. split; [naive_solver lia|]. done. }
  cbn [backoff_ with_wifi]. split; [by apply doubled_jittered|]. split; [naive_solver|].
  split; [|done].
  unfold wifiReconnectCount, incrementWifiReconnectCount, p_get, p_put. nvs_solve. done.
Qed.

Variable toFloat : string -> f32.

(** A configuration reply is applied all or nothing: only a 200 reply with
    a version other than the stored one changes the store, it then stores
    that version, and it changes the calibration only together with a
    positive K factor.  A newer version without one is therefore recorded
    with the old calibration still in effect, and the next poll no longer
    sees a difference. *)
Theorem config_poll_exact bd e s (n : N) :
  pref_writable n ->
  let '(log, s', n') := pollConfig toFloat bd e s n in
  (length log <= 1)%nat /\ Forall pinned log /\
  (n' = n \/
   exists rep, ce_online e = true /\ rp_code rep = 200 /\
     let r := rp_body rep in
     let ver := extractLong_ r "version" in
     let k := extractFloat_ toFloat r "K_factor" in
     0 <= ver /\ ver <> cfgVer n /\ cfgVer n' = ver /\
     kFactor n' = (if f32_gt k (f32_of_Z 0) then k else kFactor n) /\
     density n' = (if f32_gt k (f32_of_Z 0) then extractFloat_ toFloat r "density" else density n) /\
     tRef n' = (if f32_gt k (f32_of_Z 0) then extractFloat_ toFloat r "T_ref" else tRef n) /\
     apply_config toFloat r n' = n').
Proof.
  intros Hw. unfold pollConfig. destruct (ce_online e); cbn [negb]; [|split_and!; simpl; auto; lia].
  set (rq := request _ _ _ _ _). assert (Hp : pinned rq) by apply request_pinned.
  destruct (ce_net e rq) as [rep|]; [|split_and!; simpl; auto; lia].
  destruct (Z.eqb_spec (rp_code rep) 200) as [E|];
    [|split_and!; [simpl; lia|by apply Forall_singleton|by left]].
  split_and!; [simpl; lia|by apply Forall_singleton|].
  pose proof (extractLong_range (rp_body rep) "version") as Hr.
  set (m := if f32_gt (extractFloat_ toFloat (rp_body rep) "K_factor") (f32_of_Z 0)
            then setCalib (extractFloat_ toFloat (rp_body rep) "K_factor")
                   (extractFloat_ toFloat (rp_body rep) "density")
                   (extractFloat_ toFloat (rp_body rep) "T_ref") n
            else n).
  assert (Ea : apply_config toFloat (rp_body rep) n =
    if (0 <=? extractLong_ (rp_body rep) "version")
       && negb (u32 (extractLong_ (rp_body rep) "version") =? cfgVer n)
    then setCfgVer (u32 (extractLong_ (rp_body rep) "version")) m else n) by done.
  rewrite Ea. destruct (Z.leb_spec 0 (extractLong_ (rp_body rep) "version")); [|by left].
  cbn [andb]. rewrite (u32_small (extractLong_ (rp_body rep) "version")) by lia.
  destruct (Z.eqb_spec (extractLong_ (rp_body rep) "version") (cfgVer n)) as [|Hne]; [by left|].
  cbn [negb]. right. exists rep.
  assert (Ev : forall m, pref_writable m ->
    cfgVer (setCfgVer (extractLong_ (rp_body rep) "version") m)
    = extractLong_ (rp_body rep) "version") by (intros; unfold cfgVer, setCfgVer, p_get, p_put; nvs_solve; done).
  assert (Eid : forall m0, pref_writable m0 ->
    apply_config toFloat (rp_body rep) (setCfgVer (extractLong_ (rp_body rep) "version") m0)
    = setCfgVer (extractLong_ (rp_body rep) "version") m0).
  { intros m0 Hm. unfold apply_config. rewrite Ev by done. rewrite u32_small by lia.
    by rewrite Z.eqb_refl, andb_false_r. }
  assert (Hm : pref_writable m).
  { unfold m, setCalib, p_put. destruct (f32_gt _ _); [|done]. by repeat apply pref_put_writable. }
  rewrite Ev, Eid by done. split_and!; try done.
  all: unfold m, kFactor, density, tRef, setCfgVer, setCalib, p_get, p_put;
    destruct (f32_gt _ _); nvs_solve; reflexivity.
Qed.

End theorems.

(** ** Instances: two rows queued, the server acknowledges the first *)

Import MemNvs StoreSpec.
#[local] Existing Instance LittleFsBackend.backend.

Definition env_demo (code : Z) (body : string) : PushEnv :=
  {| pe_online := true; pe_now := 500000; pe_pend0 := 0; pe_pend1 := 1; pe_rr := 1; pe_mac := 1;
     pe_rtt0 := 2; pe_rtt1 := 40; pe_fail_now := 500040; pe_rnd := 77; pe_sync_now := 41;
     pe_time_now := 42;
     pe_net := fun _ => Some {| rp_code := code; rp_size := 0; rp_body := body |} |}.

Definition ack_reply (n : Z) : string := js "{'ack_seq':" +:+ (dec n +:+ "}").

Definition rows2 : list QRow := unacked (fst (fst state2)) (snd (fst state2)) (snd state2).

Lemma rows2_seqs : r_seq <$> rows2 = [1; 2].
Proof. vm_compute. reflexivity. Qed.

Lemma seqs_increasing l : r_seq <$> l = [1; 2] -> increasing l.
Proof.
  intros E i j r r' Hij Hi Hj.
  assert (Ei : [1; 2] !! i = Some (r_seq r)) by (by rewrite <- E, list_lookup_fmap, Hi).
  assert (Ej : [1; 2] !! j = Some (r_seq r')) by (by rewrite <- E, list_lookup_fmap, Hj).
  destruct i as [|[|i]], j as [|[|j]]; simpl in *; try lia; try done. congruence || (simplify_eq; lia).
Qed.

Lemma increasing_ordered l : increasing l -> ordered l.
Proof.
  intros Hi i j r r' Hij Hr Hr'. destruct (decide (i = j)) as [->|]; [simplify_eq; lia|].
  enough (r_seq r < r_seq r') by lia. by apply (Hi i j); [lia| |].
Qed.

Lemma increasing_demo : increasing rows2.
Proof. exact (seqs_increasing _ rows2_seqs). Qed.

Lemma seqs_demo : Forall (fun r => 0 <= r_seq r < 2 ^ 31) rows2.
Proof.
  apply (proj1 (Forall_fmap r_seq (fun z => 0 <= z < 2 ^ 31) rows2)). rewrite rows2_seqs.
  repeat constructor; lia.
Qed.

Lemma accepting_demo :
  accepting default_build {| bootId_ := 7 |} (env_demo 200 (ack_reply 2147483647)) (N := nvs).
Proof.
  split; [reflexivity|]. intros s n batch newest _ Hs. eexists. split; [reflexivity|].
  split; [reflexivity|]. simpl.
  replace (extractLong_ (ack_reply 2147483647) "ack_seq") with 2147483647 by (vm_compute; reflexivity).
  lia.
Qed.

Lemma push_drains_backlog_witness :
  let '(_, q', d', _) := push_run default_build {| bootId_ := 7 |} (snd (fst state2))
    [env_demo 200 (ack_reply 2147483647)] (new_sync, fst (fst state2), snd state2, nvs_demo) in
  length rows2 = 2%nat /\ unacked q' (snd (fst state2)) d' = [].
Proof.
  assert (Hl : length rows2 = 2%nat) by (vm_compute; reflexivity).
  pose proof (push_drains_backlog default_build
    [env_demo 200 (ack_reply 2147483647)] {| bootId_ := 7 |}
    new_sync (fst (fst state2)) (snd (fst state2)) (snd state2) nvs_demo
    state2_Inv ltac:(vm_compute; reflexivity) (increasing_ordered _ increasing_demo) seqs_demo
    (proj2 (Forall_singleton _ _) accepting_demo) eq_refl) as Hp.
  fold rows2 in Hp. specialize (Hp ltac:(rewrite Hl; vm_compute; lia)).
  destruct (push_run _ _ _ _ _) as [[[s' q'] d'] n']. destruct Hp as [_ Hp].
  split; [exact Hl|exact Hp].
Defined.


Lemma push_backoff_bounded_witness :
  let '(ok, log, s', _, _, _) := pushOnce default_build (env_demo 503 EmptyString)
    {| bootId_ := 7 |} new_sync (fst (fst state2)) (snd (fst state2)) (snd state2) nvs_demo in
  log <> [] /\ (ok = false -> pushBackoffMs_ s' <> 0).
Proof.
  pose proof (push_backoff_bounded default_build (env_demo 503 EmptyString)
    {| bootId_ := 7 |} new_sync (fst (fst state2)) (snd (fst state2)) (snd state2) nvs_demo
    state2_Inv ltac:(vm_compute; reflexivity) ltac:(left; reflexivity)) as Hp.
  destruct (pushOnce _ _ _ _ _ _ _ _) as [[[[[ok log] s'] q'] d'] n'].
  destruct Hp as (_ & _ & Hf & Hl).
  assert (Hlog : log <> []).
  { apply Hl; [reflexivity| |discriminate|vm_compute; congruence].
    intros E. apply (f_equal length) in E. vm_compute in E. discriminate E. }
  split; [exact Hlog|]. intros Hok. exact (proj1 (Hf Hlog Hok)).
Defined.

Lemma wifi_keepalive_bounded_witness :
  let '(attempt, s', n') := wifiService false 20000 5 new_sync nvs_demo in
  is_Some attempt /\ wifiReconnectCount n' = 1.
Proof.
  pose proof (wifi_keepalive_bounded false 20000 5 new_sync nvs_demo ltac:(vm_compute; split; congruence)
    eq_refl) as Hw.
  destruct (wifiService false 20000 5 new_sync nvs_demo) as [[att s'] n'].
  destruct Hw as (_ & [_ Hatt] & Hc & _).
  assert (Ha : is_Some att) by (apply Hatt; split; [reflexivity|split; [reflexivity|vm_compute; congruence]]).
  split; [exact Ha|]. rewrite Hc. destruct Ha as [x ->]. vm_compute. reflexivity.
Defined.

(** A version without a K factor is recorded and never applied. *)
Lemma config_poll_exact_witness :
  let e := {| ce_online := true; ce_now := 5;
              ce_net := fun _ => Some {| rp_code := 200; rp_size := 15;
                                         rp_body := js "{'version': 9}" |} |} in
  let '(_, _, n') := pollConfig (fun _ => f32_of_Z 1) default_build e new_sync nvs_demo in
  n' = nvs_demo \/ cfgVer n' = 9 /\ kFactor n' = kFactor nvs_demo.
Proof.
  intros e. pose proof (config_poll_exact (fun _ => f32_of_Z 1) default_build e new_sync nvs_demo
    eq_refl) as Hc.
  assert (En : forall rep, rep = {| rp_code := 200; rp_size := 15; rp_body := js "{'version': 9}" |} ->
    rp_body rep = js "{'version': 9}") by (intros ? ->; reflexivity).
  destruct (pollConfig (fun _ => f32_of_Z 1) default_build e new_sync nvs_demo)
    as [[log s'] n'] eqn:E.
  destruct Hc as (_ & _ & [->|(rep & _ & _ & _ & _ & Hv & Hk & _)]); [left; reflexivity|].
  right. vm_compute in E. injection E as _ _ <-. vm_compute. split; reflexivity.
Defined.
