(* ===== verification/Ota.v ===== *)
(** * Over-the-air update (ota.h)

    Manifest poll, authenticity check, streamed download with its hash, and
    the confirmation of a healthy boot.  Library code as parameters: mbedTLS
    ([Crypto]), the flash updater ([Updater], with [UpdaterLaws]), the OTA
    partition calls (their results), HTTP (Net.v).  The TCP stream of the
    image is the list of what [available()]/[readBytes()] deliver; a method
    that runs out of it has not returned. *)

From S2P Require Import Prelude Config Arduino Parse Store QueueData OtaPolicy Telemetry Net Sync.

(** ** Library parameters *)

Record Crypto := {
  sha256 : list byte -> list byte;
  (* mbedtls_base64_decode into a buffer of that size *)
  base64_decode : nat -> string -> option (list byte);
  (* mbedtls_pk_parse_public_key(COVIO_OTA_PUBLIC_KEY_PEM) succeeded *)
  pk_parses : bool;
  (* mbedtls_pk_verify(hash, sig) == 0 *)
  pk_verify : list byte -> list byte -> bool;
}.

Class Updater (U : Type) := {
  upd_begin : Z -> U -> bool * U;
  upd_write : list byte -> U -> nat * U;
  upd_end : U -> bool * U;
  upd_abort : U -> U;
  (* what the inactive partition holds of this session *)
  upd_staged : U -> list byte;
  (* the image the boot partition was switched to, None while unchanged *)
  upd_boot : U -> option (list byte);
}.

Class UpdaterLaws (U : Type) `{Updater U} := {
  upd_begin_law sz u ok u' :
    upd_begin sz u = (ok, u') ->
    upd_boot u' = upd_boot u /\ (ok = true -> upd_staged u' = []);
  upd_write_law d u w u' :
    upd_write d u = (w, u') ->
    upd_boot u' = upd_boot u /\ upd_staged u' = upd_staged u ++ take w d;
  upd_abort_law u : upd_boot (upd_abort u) = upd_boot u;
  upd_end_law u ok u' :
    upd_end u = (ok, u') ->
    upd_boot u' = if ok then Some (upd_staged u) else upd_boot u;
}.

Inductive OtaState :=
  OTA_STATE_NONE | OTA_STATE_PENDING_VERIFY | OTA_STATE_CONFIRMED | OTA_STATE_FAILED.

Definition otaStateStr (s : OtaState) : string :=
  match s with
  | OTA_STATE_PENDING_VERIFY => "pending_verify"
  | OTA_STATE_CONFIRMED => "confirmed"
  | OTA_STATE_FAILED => "failed"
  | OTA_STATE_NONE => "none"
  end.

Inductive OtaAuthVerdict :=
  | OTA_AUTH_OK
  | OTA_AUTH_MISSING_FIELDS
  | OTA_AUTH_UNKNOWN_KEY_ID
  | OTA_AUTH_NO_TIME_SOURCE
  | OTA_AUTH_TIME_INVALID
  | OTA_AUTH_BAD_SIGNATURE_ENCODING
  | OTA_AUTH_SIG_VERIFY_FAILED.
#[export] Instance OtaAuthVerdict_eq_dec : EqDecision OtaAuthVerdict.
Proof. solve_decision. Defined.

Definition otaAuthVerdictStr (v : OtaAuthVerdict) : string :=
  match v with
  | OTA_AUTH_OK => "ok"
  | OTA_AUTH_MISSING_FIELDS => "missing_signed_fields"
  | OTA_AUTH_UNKNOWN_KEY_ID => "unknown_key_id"
  | OTA_AUTH_NO_TIME_SOURCE => "no_time_source"
  | OTA_AUTH_TIME_INVALID => "time_invalid"
  | OTA_AUTH_BAD_SIGNATURE_ENCODING => "bad_signature_encoding"
  | OTA_AUTH_SIG_VERIFY_FAILED => "signature_verify_failed"
  end.

Definition OTA_MANIFEST_TIME_SKEW_S : Z := 3600.
Definition COVIO_OTA_KEY_ID : string := "covio-prod-erp-2026-07".

Module Ota.

(** ESP-IDF's esp_ota_img_states_t *)
Definition ESP_OTA_IMG_NEW : Z := 0.
Definition ESP_OTA_IMG_PENDING_VERIFY : Z := 1.
Definition ESP_OTA_IMG_VALID : Z := 2.
Definition ESP_OTA_IMG_INVALID : Z := 3.
Definition ESP_OTA_IMG_ABORTED : Z := 4.
Definition ESP_OTA_IMG_UNDEFINED : Z := 2 ^ 32 - 1.
Definition ESP_OK : Z := 0.
Definition ESP_FAIL : Z := -1.

(** The class's members; the last block is its diagnostic evidence. *)
Record Ota := {
  otaBackoffMs_ : Z;
  lastOtaFailMs_ : Z;
  pendingVerify_ : bool;
  confirmed_ : bool;
  failed_ : bool;
  lastRejectReason_ : OtaVerdict;
  lastAuthReject_ : OtaAuthVerdict;
  runningPartitionLabel_ : string;
  runningPartitionAddr_ : Z;
  bootPartitionLabel_ : string;
  bootPartitionAddr_ : Z;
  nextUpdatePartitionLabel_ : string;
  haveRawState_ : bool;
  stateReadErr_ : Z;
  rawImgState_ : Z;
  confirmAttempted_ : bool;
  confirmReturnCode_ : Z;
  floorWriteAttempted_ : bool;
  floorWriteOk_ : bool;
  floorReadAfterWrite_ : Z;
  bootloaderRollbackEngaged_ : bool;
}.

Definition new_ota : Ota :=
  Build_Ota 0 0 false false false OTA_ACCEPT OTA_AUTH_OK "?" 0 "?" 0 "?" false ESP_FAIL (-1)
    false ESP_FAIL false false 0 false.

Definition with_backoff (b t : Z) (o : Ota) : Ota :=
  Build_Ota b t (pendingVerify_ o) (confirmed_ o) (failed_ o) (lastRejectReason_ o)
    (lastAuthReject_ o) (runningPartitionLabel_ o) (runningPartitionAddr_ o)
    (bootPartitionLabel_ o) (bootPartitionAddr_ o) (nextUpdatePartitionLabel_ o)
    (haveRawState_ o) (stateReadErr_ o) (rawImgState_ o) (confirmAttempted_ o)
    (confirmReturnCode_ o) (floorWriteAttempted_ o) (floorWriteOk_ o) (floorReadAfterWrite_ o)
    (bootloaderRollbackEngaged_ o).
Definition with_result (failed : bool) (rj : OtaVerdict) (au : OtaAuthVerdict) (o : Ota) : Ota :=
  Build_Ota (otaBackoffMs_ o) (lastOtaFailMs_ o) (pendingVerify_ o) (confirmed_ o) failed rj au
    (runningPartitionLabel_ o) (runningPartitionAddr_ o)
    (bootPartitionLabel_ o) (bootPartitionAddr_ o) (nextUpdatePartitionLabel_ o)
    (haveRawState_ o) (stateReadErr_ o) (rawImgState_ o) (confirmAttempted_ o)
    (confirmReturnCode_ o) (floorWriteAttempted_ o) (floorWriteOk_ o) (floorReadAfterWrite_ o)
    (bootloaderRollbackEngaged_ o).
Definition with_failed (f : bool) (o : Ota) : Ota :=
  with_result f (lastRejectReason_ o) (lastAuthReject_ o) o.
(** [confirmed_], [bootloaderRollbackEngaged_] and the bootloader call. *)
Definition with_confirm (confirmed attempted : bool) (rc : Z) (engaged : bool) (o : Ota) : Ota :=
  Build_Ota (otaBackoffMs_ o) (lastOtaFailMs_ o) (pendingVerify_ o) confirmed (failed_ o)
    (lastRejectReason_ o) (lastAuthReject_ o) (runningPartitionLabel_ o)
    (runningPartitionAddr_ o) (bootPartitionLabel_ o) (bootPartitionAddr_ o)
    (nextUpdatePartitionLabel_ o) (haveRawState_ o) (stateReadErr_ o) (rawImgState_ o)
    attempted rc (floorWriteAttempted_ o) (floorWriteOk_ o) (floorReadAfterWrite_ o) engaged.
Definition with_floor (ok : bool) (readBack : Z) (o : Ota) : Ota :=
  Build_Ota (otaBackoffMs_ o) (lastOtaFailMs_ o) (pendingVerify_ o) (confirmed_ o) (failed_ o)
    (lastRejectReason_ o) (lastAuthReject_ o) (runningPartitionLabel_ o)
    (runningPartitionAddr_ o) (bootPartitionLabel_ o) (bootPartitionAddr_ o)
    (nextUpdatePartitionLabel_ o) (haveRawState_ o) (stateReadErr_ o) (rawImgState_ o)
    (confirmAttempted_ o) (confirmReturnCode_ o) true ok readBack
    (bootloaderRollbackEngaged_ o).

Definition state (o : Ota) : OtaState :=
  if confirmed_ o then OTA_STATE_CONFIRMED
  else if pendingVerify_ o then OTA_STATE_PENDING_VERIFY
  else if failed_ o then OTA_STATE_FAILED
  else OTA_STATE_NONE.

Definition otaImgStateStr_ (s : Z) : string :=
  if s =? ESP_OTA_IMG_NEW then "NEW"
  else if s =? ESP_OTA_IMG_PENDING_VERIFY then "PENDING_VERIFY"
  else if s =? ESP_OTA_IMG_VALID then "VALID"
  else if s =? ESP_OTA_IMG_INVALID then "INVALID"
  else if s =? ESP_OTA_IMG_ABORTED then "ABORTED"
  else if s =? ESP_OTA_IMG_UNDEFINED then "UNDEFINED"
  else "UNKNOWN_ENUM_VALUE".

(** The partitions as (label, address); [rc], [st]: the result and the out
    parameter of esp_ota_get_state_partition. *)
Definition noteBoot (running boot next : option (string * Z)) (rc st : Z) (o : Ota) : Ota :=
  let label p := match p with Some (l, _) => l | None => "?" end in
  let addr (p : option (string * Z)) := match p with Some (_, a) => a | None => 0 end in
  Build_Ota (otaBackoffMs_ o) (lastOtaFailMs_ o)
    (if rc =? ESP_OK then st =? ESP_OTA_IMG_PENDING_VERIFY else pendingVerify_ o)
    (confirmed_ o) (failed_ o) (lastRejectReason_ o) (lastAuthReject_ o)
    (label running) (addr running) (label boot) (addr boot) (label next)
    true rc (i32 st) (confirmAttempted_ o) (confirmReturnCode_ o) (floorWriteAttempted_ o)
    (floorWriteOk_ o) (floorReadAfterWrite_ o) (bootloaderRollbackEngaged_ o).

(** ** Field extraction *)

Definition extractStr_ (s key : string) : string :=
  match indexOf (quoted key) s with
  | None => EmptyString
  | Some i =>
      match indexOfFrom ":" i s with
      | None => EmptyString
      | Some i =>
          match indexOfFrom (String quote EmptyString) i s with
          | None => EmptyString
          | Some i =>
              match indexOfFrom (String quote EmptyString) (S i) s with
              | None => EmptyString
              | Some j => substring (S i) j s
              end
          end
      end
  end.

(** [while (isdigit) { v = v * 10 + digit; any = true; }]: the 32-bit [long]
    wraps. *)
Fixpoint read_long (v : Z) (any : bool) (s : string) : option Z :=
  match s with
  | String c r =>
      if is_digit c then read_long (i32 (v * 10 + (code c - 48))) true r
      else if any then Some v else None
  | EmptyString => if any then Some v else None
  end.

Definition ota_extractLong_ (s key : string) : Z :=
  match locate_digits s key with
  | None => -1
  | Some (start, _) => default (-1) (read_long 0 false (sdrop start s))
  end.

(** ** Confirming a healthy boot *)

(** [rc]: what esp_ota_mark_app_valid_cancel_rollback() returns. *)
Definition confirmHealthyBoot {N} `{Preferences N} (rc : Z) (o : Ota) (n : N) : Ota * N :=
  if confirmed_ o then (o, n) else
  let o := if pendingVerify_ o then with_confirm (confirmed_ o) true rc (bootloaderRollbackEngaged_ o) o
           else o in
  if pendingVerify_ o && negb (rc =? ESP_OK) then (o, n) else
  let o := with_confirm true (confirmAttempted_ o) (confirmReturnCode_ o) (pendingVerify_ o) o in
  let n := St.recordHealthyBoot FW_VERSION (u32 FW_SECURITY_VERSION) n in
  if i32 (St.securityVersion n) <? FW_SECURITY_VERSION then
    let newFloor := u32 FW_SECURITY_VERSION in
    let n := St.setSecurityVersion newFloor n in
    let readBack := St.securityVersion n in
    (with_floor (readBack =? newFloor) readBack o, n)
  else (o, n).

(** ** Authenticity of a manifest *)

Section methods.
Context {U : Type} `{Updater U} (C : Crypto).

Definition verifyManifestAuthenticity_ (f : SignedManifestFields) (keyId sigB64 : string)
    (now : Z) (sync : Sync.Sync) : OtaAuthVerdict :=
  if negb (String.eqb keyId COVIO_OTA_KEY_ID) then OTA_AUTH_UNKNOWN_KEY_ID
  else if negb (Sync.haveServerTime sync) then OTA_AUTH_NO_TIME_SOURCE
  else match checkManifestTimeValidity (m_issuedAt f) (m_expiresAt f)
               (Sync.estimatedUnixNow now sync) OTA_MANIFEST_TIME_SKEW_S with
  | MANIFEST_TIME_OK =>
      match buildCanonicalManifestString f 512 with
      | None => OTA_AUTH_MISSING_FIELDS
      | Some canonical =>
          match base64_decode C 256 sigB64 with
          | None => OTA_AUTH_BAD_SIGNATURE_ENCODING
          | Some sigDer =>
              if negb (pk_parses C) then OTA_AUTH_SIG_VERIFY_FAILED
              else if negb (pk_verify C (sha256 C (String.list_byte_of_string canonical)) sigDer)
              then OTA_AUTH_SIG_VERIFY_FAILED
              else OTA_AUTH_OK
          end
      end
  | _ => OTA_AUTH_TIME_INVALID
  end.

(** ** The download *)

Inductive stream_ev :=
  (* available() == 0; connected(); millis() *)
  | EvIdle (connected : bool) (now : Z)
  (* available() = S avail; readBytes() delivers from [data]; millis() *)
  | EvData (avail : nat) (data : list byte) (now : Z).

Record transfer := {
  totalWritten : nat;
  hashed : list byte;       (* what mbedtls_sha256_update has seen *)
  ioError : bool;
}.

(** The [while] loop; [None] while it is still waiting for the stream. *)
Fixpoint download (expectedSize : nat) (evs : list stream_ev) (lastDataMs : Z)
    (x : transfer) (u : U) : option (transfer * U) :=
  if (totalWritten x <? expectedSize)%nat then
    match evs with
    | [] => None
    | EvIdle connected now :: evs =>
        if negb connected then Some (x, u)
        else if 15000 <? u32 (now - lastDataMs)
        then Some ({| totalWritten := totalWritten x; hashed := hashed x; ioError := true |}, u)
        else download expectedSize evs lastDataMs x u
    | EvData avail data now :: evs =>
        let toRead := if (1024 <? S avail)%nat then 1024%nat else S avail in
        let buf := take toRead data in
        if (length buf =? 0)%nat then download expectedSize evs lastDataMs x u
        else
          let hashed := hashed x ++ buf in
          let '(written, u) := upd_write buf u in
          if negb (written =? length buf)%nat
          then Some ({| totalWritten := totalWritten x; hashed := hashed; ioError := true |}, u)
          else download expectedSize evs now
                 {| totalWritten := (totalWritten x + length buf)%nat; hashed := hashed;
                    ioError := ioError x |} u
    end
  else Some (x, u).

(** [snprintf("%02x")] of each byte *)
Definition lower_hex_digit (d : Z) : Ascii.ascii := if d <? 10 then chr (48 + d) else chr (87 + d).
Definition byte_hex (b : byte) : string :=
  let z := Z.of_N (Byte.to_N b) in
  String (lower_hex_digit (z / 16)) (String (lower_hex_digit (z mod 16)) EmptyString).
Fixpoint hex_of (bs : list byte) : string :=
  match bs with [] => EmptyString | b :: bs => byte_hex b +:+ hex_of bs end.

Record DownloadEnv := {
  de_net : HttpReq -> option HttpReply;   (* the GET of the image, up to its headers *)
  de_start : Z;                           (* millis() before the loop *)
  de_stream : list stream_ev;
}.

(** The requests made, the new [failed_], and whether ESP.restart() was
    reached; [None] while the download is still running. *)
Definition doVerifiedUpdate_ (e : DownloadEnv) (binUrl : string) (expectedSize : nat)
    (expectedSha256Hex : string) (u : U) : option (list HttpReq * bool * bool * U) :=
  let rq := request GET binUrl false None EmptyString in
  match de_net e rq with
  | None => Some ([], true, false, u)
  | Some rep =>
      if negb (rp_code rep =? 200) then Some ([rq], true, false, u)
      else if (0 <=? rp_size rep) && negb (rp_size rep =? Z.of_nat expectedSize)
      then Some ([rq], true, false, u)
      else
        let '(ok, u) := upd_begin (Z.of_nat expectedSize) u in
        if negb ok then Some ([rq], true, false, u)
        else
          match download expectedSize (de_stream e) (de_start e)
                  {| totalWritten := 0; hashed := []; ioError := false |} u with
          | None => None
          | Some (x, u) =>
              let computedHash := sha256 C (hashed x) in
              if ioError x || negb (totalWritten x =? expectedSize)%nat
              then Some ([rq], true, false, upd_abort u)
              else if negb (equalsIgnoreCase expectedSha256Hex (hex_of computedHash))
              then Some ([rq], true, false, upd_abort u)
              else
                let '(ok, u) := upd_end u in
                if negb ok then Some ([rq], true, false, u)
                else Some ([rq], false, true, u)
          end
  end.

(** ** Poll *)

Record OtaEnv := {
  oe_online : bool;
  oe_now : Z;
  oe_net : HttpReq -> option HttpReply;   (* the manifest *)
  oe_time_now : Z;                        (* millis() in estimatedUnixNow *)
  oe_download : DownloadEnv;
  oe_fail_now : Z;
}.

(** The manifest's signed fields, as poll() collects them. *)
Definition manifest_fields (body : string) : SignedManifestFields :=
  {| m_hwCompat := extractStr_ body "hw_compat";
     m_version := extractStr_ body "version";
     m_securityVersion := ota_extractLong_ body "security_version";
     m_schemaVersion := ota_extractLong_ body "schema_version";
     m_imageSize := ota_extractLong_ body "image_size";
     m_imageSha256Hex := extractStr_ body "image_sha256";
     m_imageUrl := extractStr_ body "url";
     m_channel := extractStr_ body "channel";
     m_issuedAt := ota_extractLong_ body "issued_at";
     m_expiresAt := ota_extractLong_ body "expires_at";
     m_manifestId := extractStr_ body "manifest_id" |}.

Definition candidate_of (f : SignedManifestFields) : OtaCandidate :=
  {| hasSecurityVersion := 0 <=? m_securityVersion f;
     securityVersion := m_securityVersion f;
     hasHwCompat := (0 <? String.length (m_hwCompat f))%nat;
     hwCompat := m_hwCompat f;
     hasSchemaVersion := 0 <=? m_schemaVersion f;
     schemaVersion := m_schemaVersion f |}.

(** The lines after doVerifiedUpdate_ has returned. *)
Definition after_attempt (now : Z) (failed : bool) (o : Ota) : Ota :=
  let o := with_failed failed o in
  if failed then
    with_backoff (if negb (otaBackoffMs_ o =? 0) then Z.min (u32 (otaBackoffMs_ o * 2)) 3600000
                  else u32 (2 * OTA_POLL_MS)) now o
  else with_backoff 0 (lastOtaFailMs_ o) o.

(** The last component: the device restarted. *)
Definition poll {N} `{Preferences N} (bd : Build) (e : OtaEnv) (sync : Sync.Sync) (n : N)
    (o : Ota) (u : U) : option (list HttpReq * Ota * U * bool) :=
  if negb (oe_online e) then Some ([], o, u, false) else
  if negb (otaBackoffMs_ o =? 0) && (u32 (oe_now e - lastOtaFailMs_ o) <? otaBackoffMs_ o)
  then Some ([], o, u, false) else
  let rq := request GET (St.serverUrl bd n +:+ PATH_OTA_MANIFEST) false (Some (St.apiKey n))
              EmptyString in
  match oe_net e rq with
  | None => Some ([], o, u, false)
  | Some rep =>
      if negb (rp_code rep =? 200) then Some ([rq], o, u, false)
      else if 4096 <? rp_size rep then Some ([rq], o, u, false)
      else
        let body := rp_body rep in
        let f := manifest_fields body in
        if (String.length (m_version f) =? 0)%nat || (String.length (m_imageUrl f) =? 0)%nat
        then Some ([rq], o, u, false)
        else if String.eqb (m_version f) FW_VERSION then Some ([rq], with_failed false o, u, false)
        else
          let verdict := evaluateOtaCandidate (candidate_of f) (St.securityVersion n)
                           (Some (DEVICE_MODEL bd)) SCHEMA_VERSION_CURRENT in
          if negb (bool_decide (verdict = OTA_ACCEPT))
          then Some ([rq], with_result (failed_ o) verdict (lastAuthReject_ o) o, u, false)
          else
            let keyId := extractStr_ body "key_id" in
            let sigB64 := extractStr_ body "signature" in
            if negb (manifestHasRequiredFields (m_imageSize f)
                       (String.length (m_imageSha256Hex f)) (String.length (m_channel f))
                       (m_issuedAt f) (m_expiresAt f) (String.length (m_manifestId f))
                       (String.length keyId) (String.length sigB64) (String.length (m_hwCompat f)))
            then Some ([rq], with_result (failed_ o) (lastRejectReason_ o) OTA_AUTH_MISSING_FIELDS o,
                       u, false)
            else
              let auth := verifyManifestAuthenticity_ f keyId sigB64 (oe_time_now e) sync in
              if negb (bool_decide (auth = OTA_AUTH_OK))
              then Some ([rq], with_result (failed_ o) (lastRejectReason_ o) auth o, u, false)
              else
                match doVerifiedUpdate_ (oe_download e) (m_imageUrl f)
                        (Z.to_nat (m_imageSize f)) (m_imageSha256Hex f) u with
                | None => None
                | Some (log, failed, true, u) => Some (rq :: log, with_failed failed o, u, true)
                | Some (log, failed, false, u) =>
                    Some (rq :: log, after_attempt (oe_fail_now e) failed o, u, false)
                end
  end.
End methods.

End Ota.
