(* ===== verification/OtaTheorems.v ===== *)
(** * Theorems about the update path *)

From S2P Require Import Prelude Config Arduino Parse Store QueueData OtaPolicy Telemetry Net Sync Ota.
Import Ota.

Section theorems.
Context {U : Type} `{UpdaterLaws U} {N : Type} `{PreferencesLaws N} (C : Crypto).

(** ** The download *)

(** So far every received byte was hashed and staged. *)
Definition in_step (x : transfer) (u : U) : Prop :=
  upd_staged u = hashed x /\ length (hashed x) = totalWritten x /\ ioError x = false.

Lemma download_spec sz evs t x u x' u' :
  in_step x u -> download sz evs t x u = Some (x', u') ->
  upd_boot u' = upd_boot u /\ (ioError x' = false -> in_step x' u').
Proof.
  revert t x u. induction evs as [|ev evs IH]; intros t x u Hx.
  { cbn [download]. case_match; [done|]. by intros [= <- <-]. }
  cbn [download]. case_match; [|by intros [= <- <-]].
  destruct ev as [conn now|avail data now].
  - destruct conn; cbn [negb]; [|by intros [= <- <-]].
    case_match; [|by apply IH]. by intros [= <- <-].
  - set (buf := take _ data). case_match; [by apply IH|].
    destruct (upd_write buf u) as [w u1] eqn:Ew. apply upd_write_law in Ew as [Hb Hs].
    destruct (Nat.eqb_spec w (length buf)) as [->|]; cbn [negb]; [|by intros [= <- <-]].
    intros Hd. apply IH in Hd; [by rewrite Hb in Hd|].
    destruct Hx as (Hst & Hl & Hio). split; cbn [hashed totalWritten ioError]; [|split; [|done]].
    + by rewrite Hs, Hst, firstn_all.
    + by rewrite length_app, Hl.
Qed.

(** A stream as the loop polls it from time [t] on: the clock goes forward,
    [delay(5)] follows an empty poll, and a readBytes() that has bytes waiting
    returns at least one.  The polls carry the 32-bit readings. *)
Inductive advances : Z -> list stream_ev -> Prop :=
  | adv_end t : advances t []
  | adv_idle t t' connected evs :
      t <= t' <= t + 2 ^ 31 -> advances (t' + 5) evs ->
      advances t (EvIdle connected (u32 t') :: evs)
  | adv_data t t' avail data evs :
      t <= t' -> data <> [] -> advances t' evs ->
      advances t (EvData avail data (u32 t') :: evs).

(** 15000 ms hold at most 3001 empty polls, and each data poll starts anew. *)
Lemma download_ends sz evs t last x (u : U) :
  advances t evs -> last <= t <= last + 15005 ->
  (Z.of_nat sz - Z.of_nat (totalWritten x)) * 3002 - (t - last) / 5 <= Z.of_nat (length evs) ->
  is_Some (download sz evs (u32 last) x u).
Proof.
  intros Ha. revert last x u. induction Ha as [t|t t' conn evs Ht Ha IH|t t' avail data evs Ht Hd Ha IH];
    intros last x u Hl Hlen; cbn [download];
    destruct (Nat.ltb_spec (totalWritten x) sz) as [Hlt|]; try (by eexists).
  - cbn [length] in Hlen. assert ((t - last) / 5 < 3002) by (apply Z.div_lt_upper_bound; lia). lia.
  - destruct conn; cbn [negb]; [|by eexists]. rewrite u32_since by lia.
    destruct (Z.ltb_spec 15000 (t' - last)); [by eexists|]. apply IH; [lia|]. cbn [length] in Hlen.
    assert ((t - last) / 5 + 1 <= (t' + 5 - last) / 5).
    { replace (t' + 5 - last) with (t' - last + 1 * 5) by lia. rewrite Z.div_add by lia.
      apply Z.add_le_mono_r, Z.div_le_mono; lia. }
    lia.
  - set (buf := take _ data).
    assert (Hb : (0 < length buf)%nat).
    { unfold buf. rewrite length_take. destruct data; [done|]. cbn [length]. case_match; lia. }
    destruct (Nat.eqb_spec (length buf) 0); [lia|].
    destruct (upd_write buf u) as [w u1]. case_match; [by eexists|]. apply IH; [lia|].
    cbn [totalWritten length] in *. rewrite Z.sub_diag, Z.div_0_l by lia.
    assert ((t - last) / 5 <= 3001) by (apply Z.div_le_upper_bound; lia). lia.
Qed.

(** C16: the streaming download ends.  With a clock that goes forward, wherever it
    wraps, and a stream whose readBytes() returns a byte when available() says
    so, the loop runs at most 3002 times per byte of the image: a silent server
    ends it through the 15 s stall test, a closed connection or a failed flash
    write at once, and otherwise it reads the image to the end. *)
Theorem ota_download_terminates e url sz sha (u : U) (t : Z) :
  de_start e = u32 t -> advances t (de_stream e) -> (3002 * sz <= length (de_stream e))%nat ->
  is_Some (doVerifiedUpdate_ C e url sz sha u).
Proof.
  intros Es Ha Hlen. unfold doVerifiedUpdate_. rewrite Es.
  destruct (de_net e _) as [rep|]; [|by eexists].
  case_match; [by eexists|]. case_match; [by eexists|].
  destruct (upd_begin (Z.of_nat sz) u) as [ok u1]. case_match; [by eexists|].
  destruct (download_ends sz (de_stream e) t t {| totalWritten := 0; hashed := []; ioError := false |} u1 Ha)
    as [[x u2] ->]; [lia|cbn [totalWritten]; rewrite Z.sub_diag, Z.div_0_l by lia; lia|].
  case_match; [by eexists|]. case_match; [by eexists|].
  destruct (upd_end u2) as [ok2 u3]. case_match; by eexists.
Qed.

(** The hypothesis on readBytes() is needed: polls that report bytes and return
    none keep the loop going for ever, past any stall limit. *)
Lemma empty_reads_never_end sz nows last x (u : U) :
  (totalWritten x < sz)%nat -> download sz (EvData 0 [] <$> nows) last x u = None.
Proof.
  intros Hlt. apply Nat.ltb_lt in Hlt.
  induction nows as [|now nows IH]; cbn [fmap list_fmap download]; rewrite Hlt; [done|exact IH].
Qed.

(** What doVerifiedUpdate_ guarantees when it reaches the restart. *)
Lemma verified_update_spec e url sz sha u log failed restarted u' :
  doVerifiedUpdate_ C e url sz sha u = Some (log, failed, restarted, u') ->
  (length log <= 1)%nat /\ Forall pinned log /\
  (if restarted then
     failed = false /\
     exists img, upd_boot u' = Some img /\ length img = sz /\
       equalsIgnoreCase sha (hex_of (sha256 C img)) = true
   else upd_boot u' = upd_boot u).
Proof.
  unfold doVerifiedUpdate_. set (rq := request _ _ _ _ _).
  assert (Hp : Forall pinned [rq]) by (apply Forall_singleton, request_pinned).
  assert (Hl : (length [rq] <= 1)%nat) by (simpl; lia).
  destruct (de_net e rq) as [rep|]; [|intros [= <- <- <- <-]; split_and!; simpl; auto; lia].
  case_match; [by intros [= <- <- <- <-]|]. case_match; [by intros [= <- <- <- <-]|].
  destruct (upd_begin (Z.of_nat sz) u) as [ok u1] eqn:Eb. apply upd_begin_law in Eb as [Hb Hs].
  destruct ok; cbn [negb]; [|by intros [= <- <- <- <-]].
  destruct (download _ _ _ _ u1) as [[x u2]|] eqn:Ed; [|done].
  apply download_spec in Ed as [Hb2 Hin]; [|split; [by apply Hs|done]].
  destruct (ioError x || _) eqn:Eio.
  { intros [= <- <- <- <-]. split_and!; try done. rewrite upd_abort_law. congruence. }
  apply orb_false_iff in Eio as [Eio Esz]. apply negb_false_iff, Nat.eqb_eq in Esz.
  destruct (Hin Eio) as (Hst & Hlen & _).
  destruct (equalsIgnoreCase sha (hex_of (sha256 C (hashed x)))) eqn:Eh; cbn [negb].
  2:{ intros [= <- <- <- <-]. split_and!; try done. rewrite upd_abort_law. congruence. }
  destruct (upd_end u2) as [ok u3] eqn:Ee. apply upd_end_law in Ee.
  destruct ok; cbn [negb]; intros [= <- <- <- <-]; (split; [done|split; [done|]]).
  - split; [done|]. exists (hashed x). split_and!; [congruence|congruence|done].
  - congruence.
Qed.

(** ** The whole poll *)

Definition manifest_request (bd : Build) (n : N) : HttpReq :=
  request GET (St.serverUrl bd n +:+ PATH_OTA_MANIFEST) false (Some (St.apiKey n)) EmptyString.

(** Everything the device has checked about a manifest before it downloads. *)
Definition authentic (bd : Build) (sync : Sync.Sync) (now : Z) (n : N) (body : string) : Prop :=
  let f := manifest_fields body in
  m_hwCompat f = DEVICE_MODEL bd /\
  m_version f <> FW_VERSION /\
  0 <= m_securityVersion f /\ St.securityVersion n <= u32 (m_securityVersion f) /\
  (0 <= m_schemaVersion f -> m_schemaVersion f = SCHEMA_VERSION_CURRENT) /\
  extractStr_ body "key_id" = COVIO_OTA_KEY_ID /\
  Sync.haveServerTime sync = true /\
  checkManifestTimeValidity (m_issuedAt f) (m_expiresAt f) (Sync.estimatedUnixNow now sync)
    OTA_MANIFEST_TIME_SKEW_S = MANIFEST_TIME_OK /\
  exists text sig,
    buildCanonicalManifestString f 512 = Some text /\
    base64_decode C 256 (extractStr_ body "signature") = Some sig /\
    pk_verify C (sha256 C (String.list_byte_of_string text)) sig = true.

Lemma verify_ok f keyId sig now sync :
  verifyManifestAuthenticity_ C f keyId sig now sync = OTA_AUTH_OK ->
  keyId = COVIO_OTA_KEY_ID /\ Sync.haveServerTime sync = true /\
  checkManifestTimeValidity (m_issuedAt f) (m_expiresAt f) (Sync.estimatedUnixNow now sync)
    OTA_MANIFEST_TIME_SKEW_S = MANIFEST_TIME_OK /\
  exists text der, buildCanonicalManifestString f 512 = Some text /\
    base64_decode C 256 sig = Some der /\
    pk_verify C (sha256 C (String.list_byte_of_string text)) der = true.
Proof.
  unfold verifyManifestAuthenticity_.
  destruct (String.eqb_spec keyId COVIO_OTA_KEY_ID); cbn [negb]; [|done].
  destruct (Sync.haveServerTime sync); cbn [negb]; [|done].
  destruct (checkManifestTimeValidity _ _ _ _); [|done..].
  destruct (buildCanonicalManifestString f 512) as [text|]; [|done].
  destruct (base64_decode C 256 sig) as [der|]; [|done].
  destruct (pk_parses C); cbn [negb]; [|done].
  destruct (pk_verify C _ der) eqn:Ev; [|done]. intros _. split_and!; try done.
  by exists text, der.
Qed.

(** The manifest stage lets a download start only for an authentic one. *)
Lemma poll_stages bd e sync (n : N) o u log o' u' restarted :
  poll C bd e sync n o u = Some (log, o', u', restarted) ->
  (restarted = false /\ u' = u /\ (length log <= 1)%nat /\ Forall pinned log /\
   otaBackoffMs_ o' = otaBackoffMs_ o /\ (failed_ o' = true -> failed_ o = true)) \/
  exists rep log2 failed,
    oe_online e = true /\
    oe_net e (manifest_request bd n) = Some rep /\ authentic bd sync (oe_time_now e) n (rp_body rep) /\
    let f := manifest_fields (rp_body rep) in
    doVerifiedUpdate_ C (oe_download e) (m_imageUrl f) (Z.to_nat (m_imageSize f))
      (m_imageSha256Hex f) u = Some (log2, failed, restarted, u') /\
    log = manifest_request bd n :: log2 /\
    o' = (if restarted then with_failed failed o else after_attempt (oe_fail_now e) failed o).
Proof.
  unfold poll. fold (manifest_request bd n).
  assert (Hp : Forall pinned [manifest_request bd n]) by (apply Forall_singleton, request_pinned).
  assert (Hl : (length [manifest_request bd n] <= 1)%nat) by (simpl; lia).
  assert (Hl0 : (length (@nil HttpReq) <= 1)%nat) by (simpl; lia).
  destruct (oe_online e) eqn:Eon; cbn [negb]; [|by intros [= <- <- <- <-]; left].
  destruct (negb (otaBackoffMs_ o =? 0) && _); [by intros [= <- <- <- <-]; left|].
  destruct (oe_net e (manifest_request bd n)) as [rep|]; [|by intros [= <- <- <- <-]; left].
  destruct (rp_code rep =? 200); cbn [negb]; [|by intros [= <- <- <- <-]; left].
  destruct (4096 <? rp_size rep); [by intros [= <- <- <- <-]; left|]. cbv zeta.
  set (f := manifest_fields (rp_body rep)).
  destruct ((String.length (m_version f) =? 0)%nat || _); [by intros [= <- <- <- <-]; left|].
  destruct (String.eqb_spec (m_version f) FW_VERSION) as [|Hver]; [by intros [= <- <- <- <-]; left|].
  destruct (bool_decide_reflect (evaluateOtaCandidate (candidate_of f) (St.securityVersion n)
    (Some (DEVICE_MODEL bd)) SCHEMA_VERSION_CURRENT = OTA_ACCEPT)) as [Hacc|]; cbn [negb];
    [|by intros [= <- <- <- <-]; left].
  destruct (manifestHasRequiredFields _ _ _ _ _ _ _ _ _) eqn:Ereq; cbn [negb];
    [|by intros [= <- <- <- <-]; left].
  destruct (bool_decide_reflect (verifyManifestAuthenticity_ C f (extractStr_ (rp_body rep) "key_id")
    (extractStr_ (rp_body rep) "signature") (oe_time_now e) sync = OTA_AUTH_OK)) as [Hauth|];
    cbn [negb]; [|by intros [= <- <- <- <-]; left].
  destruct (doVerifiedUpdate_ C _ _ _ _ u) as [[[[log2 failed] rs] u2]|] eqn:Ed; [|done].
  intros Hres. right. exists rep, log2, failed.
  apply evaluate_accept in Hacc as (_ & Hsec0 & Hsec & Hhw & Hsch).
  apply verify_ok in Hauth as (Hk & Ht & Htv & Hsig).
  unfold manifestHasRequiredFields in Ereq. apply andb_prop in Ereq as [_ Ehw].
  split; [done|]. split; [done|]. split; [|cbv zeta; fold f; rewrite Ed; destruct rs; simplify_eq; done].
  split; [|split; [done|split; [done|split; [done|split; [|done]]]]].
  - specialize (Hhw Ehw). cbn [candidate_of hwCompat] in Hhw. fold f. congruence.
  - intros Hs. apply Hsch. by apply Z.leb_le.
Qed.

(** C14: the boot partition is switched only to an authentic image.  Whatever
    the server answers, poll() either leaves the boot partition alone or it
    restarts, and then the image it switched to has the signed length and the
    signed SHA-256, and comes from a manifest that names this device's model,
    another version, a security version not below the floor and, if any, the
    current schema, is within its validity window on the device's clock,
    and carries a valid signature by the pinned key over exactly these
    fields. *)
Theorem ota_installs_only_authentic bd e sync (n : N) o u log o' u' restarted :
  poll C bd e sync n o u = Some (log, o', u', restarted) ->
  if restarted then
    exists rep img,
      oe_net e (manifest_request bd n) = Some rep /\
      authentic bd sync (oe_time_now e) n (rp_body rep) /\
      upd_boot u' = Some img /\
      let f := manifest_fields (rp_body rep) in
      length img = Z.to_nat (m_imageSize f) /\
      equalsIgnoreCase (m_imageSha256Hex f) (hex_of (sha256 C img)) = true
  else upd_boot u' = upd_boot u.
Proof.
  intros [(-> & -> & _)|(rep & log2 & failed & _ & Hn & Ha & Hd & _)]%poll_stages; [done|].
  apply verified_update_spec in Hd as (_ & _ & Hd). destruct restarted; [|done].
  destruct Hd as (_ & img & Hb & Hl & Hh). by exists rep, img.
Qed.

(** The requests of one poll: the manifest, then perhaps the image it names. *)
Lemma poll_log bd e sync (n : N) o u log o' u' restarted :
  poll C bd e sync n o u = Some (log, o', u', restarted) ->
  Forall pinned log /\
  ((length log <= 1)%nat \/
   (length log = 2%nat /\ exists rep,
      oe_net e (manifest_request bd n) = Some rep /\
      authentic bd sync (oe_time_now e) n (rp_body rep))).
Proof.
  intros Hpoll.
  apply poll_stages in Hpoll as [(_ & _ & Hl & Hp & _)|(rep & log2 & failed & _ & Hn & Ha & Hd & -> & _)];
    [by split; [|left]|].
  apply verified_update_spec in Hd as (Hl & Hp & _).
  split; [constructor; [apply request_pinned|done]|].
  destruct log2 as [|rq [|? ?]]; simpl in *; [left; lia|right; eauto|lia].
Qed.

(** A poll makes at most two requests, each verified against the pinned CA
    if its URL is https; the second, for the image, only after the manifest
    has passed every check.  A failed attempt is retried after a window
    between 10 minutes and an hour; a poll that does not attempt a download
    leaves the window alone. *)
Theorem ota_poll_requests bd e sync (n : N) o u log o' u' restarted :
  otaBackoffMs_ o = 0 \/ 600000 <= otaBackoffMs_ o <= 3600000 ->
  poll C bd e sync n o u = Some (log, o', u', restarted) ->
  (length log <= 2)%nat /\
  ((1 < length log)%nat -> exists rep,
     oe_net e (manifest_request bd n) = Some rep /\
     authentic bd sync (oe_time_now e) n (rp_body rep)) /\
  Forall pinned log /\
  (otaBackoffMs_ o' = 0 \/ 600000 <= otaBackoffMs_ o' <= 3600000) /\
  (restarted = false -> failed_ o' = true -> failed_ o = false -> otaBackoffMs_ o' <> 0).
Proof.
  intros Hw Hpoll. apply poll_stages in Hpoll as [(-> & -> & Hl & Hp & Hb & Hf)|(rep & log2 & failed & Hon & Hn & Ha & Hd & -> & ->)].
  - split; [lia|]. split; [lia|]. split; [done|]. rewrite Hb.
    split; [done|]. intros _ Hf' Hf0. apply Hf in Hf'. congruence.
  - apply verified_update_spec in Hd as (Hl & Hp & Hd). simpl length.
    split; [lia|]. split; [by eauto|].
    split; [constructor; [apply request_pinned|done]|].
    destruct restarted; [split; [exact Hw|done]|].
    unfold after_attempt. destruct failed; simpl; [|split; [by left|done]].
    change (u32 (2 * OTA_POLL_MS)) with 600000.
    destruct Hw as [->|Hw]; simpl; [split; [right; lia|lia]|].
    rewrite (proj2 (Z.eqb_neq _ _)) by lia. simpl. rewrite u32_small by lia.
    split; [right; lia|lia].
Qed.

Lemma confirmed_store v z (n : N) :
  pref_writable n ->
  St.securityVersion (St.recordHealthyBoot v z n) = St.securityVersion n /\
  St.lastConfirmedFwVersion (St.recordHealthyBoot v z n) = v /\
  St.lastConfirmedSecurityVersion (St.recordHealthyBoot v z n) = z /\
  St.unhealthyBootStreak (St.recordHealthyBoot v z n) = 0 /\
  pref_writable (St.recordHealthyBoot v z n).
Proof.
  intros Hw. pose proof (StoreSpec.record_healthy_boot default_build v z n Hw) as E.
  unfold StoreSpec.observe, StoreSpec.observe_security in E.
  apply app_inj_2 in E; [|reflexivity]. destruct E as [_ E]. injection E as E1 E2 E3 E4.
  split_and!; try done. unfold St.recordHealthyBoot. case_match; repeat apply pref_put_writable; done.
Qed.

(** Confirming health.  Without a failed bootloader call the running image
    becomes the last confirmed one, the unhealthy streak returns to 0 and the
    security floor becomes the larger of itself and this build's version,
    read back; with a pending trial whose cancellation fails nothing is
    confirmed and nothing stored; a second call does nothing. *)
Theorem confirm_raises_floor rc o (n : N) :
  pref_writable n -> confirmed_ o = false -> 0 <= St.securityVersion n < 2 ^ 31 ->
  let '(o', n') := confirmHealthyBoot rc o n in
  (pendingVerify_ o = true -> rc <> ESP_OK -> confirmed_ o' = false /\ n' = n) /\
  (pendingVerify_ o = false \/ rc = ESP_OK ->
   state o' = OTA_STATE_CONFIRMED /\
   St.lastConfirmedFwVersion n' = FW_VERSION /\
   St.lastConfirmedSecurityVersion n' = FW_SECURITY_VERSION /\
   St.unhealthyBootStreak n' = 0 /\
   St.securityVersion n' = Z.max (St.securityVersion n) FW_SECURITY_VERSION /\
   confirmHealthyBoot rc o' n' = (o', n')).
Proof.
  intros Hw Hc Hf. unfold confirmHealthyBoot at 1. rewrite Hc.
  set (o1 := if pendingVerify_ o then _ else o).
  assert (Ep : pendingVerify_ o1 = pendingVerify_ o) by (unfold o1; destruct (pendingVerify_ o) eqn:Epv; simpl; congruence).
  assert (Ec : confirmed_ o1 = false) by (unfold o1; destruct (pendingVerify_ o); simpl; congruence).
  cbv zeta. rewrite Ep. destruct (pendingVerify_ o && negb (rc =? ESP_OK)) eqn:Eb.
  { apply andb_prop in Eb as [-> Erc]. cbv beta iota. split; [done|]. apply negb_true_iff, Z.eqb_neq in Erc.
    by intros [?|?]. }
  change (u32 FW_SECURITY_VERSION) with FW_SECURITY_VERSION.
  destruct (confirmed_store FW_VERSION FW_SECURITY_VERSION n Hw) as (Es & Ev & Esv & Est & Hw1).
  set (n1 := St.recordHealthyBoot _ _ n) in *. clearbody n1.
  assert (Hno : pendingVerify_ o = true -> rc <> ESP_OK -> False).
  { intros Hp Hrc. rewrite Hp in Eb. cbn [andb] in Eb. apply negb_false_iff, Z.eqb_eq in Eb. done. }
  rewrite Es, (i32_small (St.securityVersion n)) by lia.
  destruct (Z.ltb_spec (St.securityVersion n) FW_SECURITY_VERSION) as [Hlt|Hge]; cbv beta iota.
  - split; [intros Hp Hrc; by destruct (Hno Hp Hrc)|]. intros _.
    assert (Hset : forall k t (d : pref_val t), (NVS_NS_SECURITY, NVS_KEY_SEC_VER) <> (NVS_NS_SECURITY, k) ->
      St.s_get t k d (St.setSecurityVersion FW_SECURITY_VERSION n1) = St.s_get t k d n1).
    { intros. unfold St.s_get, St.setSecurityVersion, St.s_put. by apply pref_put_other. }
    unfold St.lastConfirmedFwVersion, St.lastConfirmedSecurityVersion, St.unhealthyBootStreak in *.
    rewrite !Hset by nvs_ne. split_and!; try done.
    unfold St.securityVersion at 1, St.s_get, St.setSecurityVersion, St.s_put.
    rewrite pref_get_put by done. lia.
  - split; [intros Hp Hrc; by destruct (Hno Hp Hrc)|]. intros _. split_and!; try done. lia.
Qed.

End theorems.

(** ** Instances *)

(** An updater over one byte buffer. *)
Record MemUpd := { mu_staged : list byte; mu_boot : option (list byte) }.
#[export] Instance mem_updater : Updater MemUpd := {
  upd_begin _ u := (true, {| mu_staged := []; mu_boot := mu_boot u |});
  upd_write d u := (length d, {| mu_staged := mu_staged u ++ d; mu_boot := mu_boot u |});
  upd_end u := (true, {| mu_staged := mu_staged u; mu_boot := Some (mu_staged u) |});
  upd_abort u := u;
  upd_staged := mu_staged;
  upd_boot := mu_boot;
}.
#[export] Instance mem_updater_laws : UpdaterLaws MemUpd.
Proof.
  split; simpl; intros; simplify_eq; try done. split; [done|]. simpl. by rewrite firstn_all.
Qed.

(** A stand-in for mbedTLS: the digest is the first 32 bytes, the only valid
    signature is "ok". *)
Definition toy_crypto : Crypto :=
  {| sha256 := fun bs => take 32 (bs ++ repeat Byte.x00 32);
     base64_decode := fun _ s => Some (String.list_byte_of_string s);
     pk_parses := true;
     pk_verify := fun h sig => (length h =? 32)%nat
                               && String.eqb (String.string_of_list_byte sig) "ok" |}.

Definition image_demo : list byte := [Byte.x01; Byte.x02; Byte.x03; Byte.x04].

Definition manifest_body (secver : string) : string :=
  js "{'version':'1.5.0','url':'http://h/fw.bin','security_version':" +:+ (secver +:+
  js ",'schema_version':1,'hw_compat':'covio-oilflow-v1','image_size':4,'image_sha256':'0102030400000000000000000000000000000000000000000000000000000000','channel':'stable','issued_at':900,'expires_at':2000,'manifest_id':'m1','key_id':'covio-prod-erp-2026-07','signature':'ok'}").

Definition ota_env_demo (body : string) (ev : list stream_ev) : OtaEnv :=
  {| oe_online := true; oe_now := 0;
     oe_net := fun _ => Some {| rp_code := 200; rp_size := 300; rp_body := body |};
     oe_time_now := 0;
     oe_download := {| de_net := fun _ => Some {| rp_code := 200; rp_size := 4; rp_body := "" |};
                       de_start := 0; de_stream := ev |};
     oe_fail_now := 5 |}.

Definition sync_demo : Sync.Sync := Sync.with_server_time 1000 0 Sync.new_sync.

Import MemNvs StoreSpec.

Definition poll_demo (secver : string) (ev : list stream_ev) :=
  poll toy_crypto default_build (ota_env_demo (manifest_body secver) ev) sync_demo nvs_demo
    new_ota {| mu_staged := []; mu_boot := None |}.

(** The good image in two pieces is installed; a stalled transfer is not. *)
Lemma ota_installs_only_authentic_witness :
  match poll_demo "3" [EvData 1 [Byte.x01; Byte.x02] 10; EvIdle true 20;
                       EvData 1 [Byte.x03; Byte.x04] 30] with
  | Some (_, _, u, true) => upd_boot u = Some image_demo
  | _ => False
  end /\
  match poll_demo "3" [EvData 1 [Byte.x01; Byte.x02] 10; EvIdle true 20000] with
  | Some (_, _, u, restarted) => restarted = false /\ upd_boot u = None
  | None => False
  end.
Proof.
  pose proof (ota_installs_only_authentic toy_crypto default_build
    (ota_env_demo (manifest_body "3") [EvData 1 [Byte.x01; Byte.x02] 10; EvIdle true 20000])
    sync_demo nvs_demo new_ota {| mu_staged := []; mu_boot := None |}) as Hthm.
  split; [vm_compute; reflexivity|].
  unfold poll_demo.
  destruct (poll toy_crypto default_build _ sync_demo nvs_demo new_ota _)
    as [[[[log o'] u'] restarted]|] eqn:E; [|vm_compute in E; discriminate E].
  specialize (Hthm log o' u' restarted eq_refl).
  assert (Er : restarted = false) by (vm_compute in E; injection E as _ _ _ <-; reflexivity).
  rewrite Er in *. split; [reflexivity|exact Hthm].
Defined.

(** A server that sends the headers and nothing else, the clock wrapping. *)
Fixpoint silence (n : nat) (t : Z) : list stream_ev :=
  match n with O => [] | S n => EvIdle true (u32 t) :: silence n (t + 5) end.

Lemma silence_advances n t : advances t (silence n t).
Proof. revert t. induction n as [|n IH]; intros t; cbn [silence]; constructor; [lia|apply IH]. Qed.

Definition silent_env : DownloadEnv :=
  {| de_net := fun _ => Some {| rp_code := 200; rp_size := 1; rp_body := EmptyString |};
     de_start := u32 (2 ^ 32 - 7000); de_stream := silence 3002 (2 ^ 32 - 7000) |}.

Lemma ota_download_terminates_witness :
  exists log u, doVerifiedUpdate_ toy_crypto silent_env EmptyString 1 EmptyString
    {| mu_staged := []; mu_boot := None |} = Some (log, true, false, u).
Proof.
  destruct (ota_download_terminates toy_crypto silent_env EmptyString 1 EmptyString
    {| mu_staged := []; mu_boot := None |} (2 ^ 32 - 7000) eq_refl (silence_advances _ _)
    ltac:(vm_compute; lia)) as [r E].
  assert (Er : option_map (fun r => snd (fst (fst r))) (Some r) = Some true /\
    option_map (fun r => snd (fst r)) (Some r) = Some false)
    by (rewrite <- E; vm_compute; split; reflexivity).
  destruct r as [[[log failed] restarted] u]. cbn in Er. destruct Er as [[= ->] [= ->]].
  exists log, u. exact E.
Defined.

Lemma ota_poll_requests_witness :
  match poll toy_crypto default_build (ota_env_demo (manifest_body "1") []) sync_demo
          (St.setSecurityVersion 2 nvs_demo) new_ota {| mu_staged := []; mu_boot := None |} with
  | Some (log, o', _, _) =>
      (length log <= 2)%nat /\ Forall pinned log /\ lastRejectReason_ o' = OTA_REJECT_DOWNGRADE
  | None => False
  end.
Proof.
  pose proof (ota_poll_requests toy_crypto default_build (ota_env_demo (manifest_body "1") [])
    sync_demo (St.setSecurityVersion 2 nvs_demo) new_ota {| mu_staged := []; mu_boot := None |})
    as Hthm.
  destruct (poll toy_crypto default_build _ sync_demo _ new_ota _)
    as [[[[log o'] u'] restarted]|] eqn:E; [|vm_compute in E; discriminate E].
  specialize (Hthm log o' u' restarted (or_introl eq_refl) eq_refl).
  destruct Hthm as (Hl & _ & Hp & _). split; [exact Hl|]. split; [exact Hp|].
  vm_compute in E. injection E as _ <- _ _. reflexivity.
Defined.

Lemma confirm_raises_floor_witness :
  St.securityVersion (snd (confirmHealthyBoot ESP_OK new_ota nvs_demo)) = 2.
Proof.
  pose proof (confirm_raises_floor ESP_OK new_ota nvs_demo eq_refl eq_refl
    ltac:(vm_compute; split; congruence)) as H.
  destruct (confirmHealthyBoot ESP_OK new_ota nvs_demo) as [o' n'].
  destruct H as [_ H]. destruct (H (or_introl eq_refl)) as (_ & _ & _ & _ & E & _).
  cbn [snd]. rewrite E. vm_compute. reflexivity.
Defined.
