(* ===== verification/OtaInstall.v ===== *)
(** * An authentic update is installed

    The converse of [ota_installs_only_authentic]: what the checks let
    through is written to the inactive partition and booted. *)

From S2P Require Import Prelude Config Arduino Parse Store QueueData OtaPolicy Telemetry Net Sync Ota OtaTheorems.
Import Ota.

(** A flash partition that takes what it is given. *)
Class ReliableUpdater (U : Type) `{Updater U} : Prop := {
  begin_takes sz (u : U) : (upd_begin sz u).1 = true;
  write_takes d (u : U) : (upd_write d u).1 = length d;
  end_takes (u : U) : (upd_end u).1 = true;
}.

#[export] Instance mem_updater_reliable : ReliableUpdater MemUpd.
Proof. by split. Qed.

(** What one readBytes() of the loop takes. *)
Definition chunk (avail : nat) (data : list byte) : list byte :=
  take (if (1024 <? S avail)%nat then 1024%nat else S avail) data.

(** The stream delivers exactly [img] from the millis() reading [last] on, with
    no silence of more than 15 s; what follows its last byte is not read. *)
Fixpoint serves (last : Z) (evs : list stream_ev) (img : list byte) : Prop :=
  img = [] \/
  match evs with
  | [] => False
  | EvIdle connected now :: evs =>
      connected = true /\ u32 (now - last) <= 15000 /\ serves last evs img
  | EvData avail data now :: evs =>
      exists rest, img = chunk avail data ++ rest /\
        serves (if (length (chunk avail data) =? 0)%nat then last else now) evs rest
  end.

Section install.
Context {U : Type} `{UpdaterLaws U} `{!ReliableUpdater U} {N : Type} `{PreferencesLaws N} (C : Crypto).

(** A served image is read to its end. *)
Lemma download_serves sz evs last x img (u : U) :
  serves last evs img -> ioError x = false -> (totalWritten x + length img = sz)%nat ->
  upd_staged u = hashed x ->
  exists u', download sz evs last x u =
      Some ({| totalWritten := sz; hashed := hashed x ++ img; ioError := false |}, u') /\
    upd_staged u' = hashed x ++ img /\ upd_boot u' = upd_boot u.
Proof.
  assert (Hend : forall evs last x (u : U), ioError x = false -> totalWritten x = sz ->
    upd_staged u = hashed x -> exists u', download sz evs last x u =
      Some ({| totalWritten := sz; hashed := hashed x ++ []; ioError := false |}, u') /\
    upd_staged u' = hashed x ++ [] /\ upd_boot u' = upd_boot u).
  { intros evs' last' [tw h io] u' Hio Hlen Hst. simpl in Hio, Hlen, Hst. subst io tw.
    exists u'. rewrite app_nil_r. split; [|done].
    destruct evs'; cbn [download totalWritten]; by rewrite Nat.ltb_irrefl. }
  revert last x img u. induction evs as [|ev evs IH]; intros last x img u Hs Hio Hlen Hst.
  { destruct Hs as [->|[]]. apply Hend; [done|simpl in Hlen; lia|done]. }
  destruct (decide (img = [])) as [->|Hne]; [apply Hend; [done|simpl in Hlen; lia|done]|].
  destruct Hs as [|Hs]; [done|]. cbn [download].
  assert (Hlt : (totalWritten x < sz)%nat) by (destruct img; [done|simpl in Hlen; lia]).
  apply Nat.ltb_lt in Hlt. rewrite Hlt. destruct ev as [conn now|avail data now].
  - destruct Hs as (-> & Hq & Hs). cbn [negb]. rewrite (proj2 (Z.ltb_ge _ _)) by done. by apply IH.
  - destruct Hs as (rest & -> & Hs). cbv zeta. fold (chunk avail data).
    set (buf := chunk avail data) in *. clearbody buf.
    destruct (Nat.eqb_spec (length buf) 0) as [E|Hb].
    { apply nil_length_inv in E as ->. by apply IH. }
    destruct (upd_write buf u) as [w u1] eqn:Ew. pose proof (write_takes buf u) as Hw.
    rewrite Ew in Hw. cbn [fst] in Hw. subst w. rewrite Nat.eqb_refl. cbn [negb].
    apply upd_write_law in Ew as [Hb1 Hs1]. rewrite firstn_all in Hs1.
    destruct (IH now {| totalWritten := (totalWritten x + length buf)%nat;
                        hashed := hashed x ++ buf; ioError := ioError x |} rest u1) as (u' & -> & Hs' & Hb');
      [done|done|simpl; rewrite length_app in Hlen; lia|simpl; by rewrite Hs1, Hst|].
    simpl in *. exists u'. rewrite <- app_assoc in *. split; [done|]. split; [done|congruence].
Qed.

(** The server of the image: a 200 reply with the signed length, or with none,
    then the image. *)
Definition delivers (e : DownloadEnv) (url : string) (img : list byte) : Prop :=
  exists rep, de_net e (request GET url false None EmptyString) = Some rep /\ rp_code rep = 200 /\
    (rp_size rep < 0 \/ rp_size rep = Z.of_nat (length img)) /\ serves (de_start e) (de_stream e) img.

Lemma update_installs e url img sha (u : U) :
  delivers e url img -> equalsIgnoreCase sha (hex_of (sha256 C img)) = true ->
  exists u', doVerifiedUpdate_ C e url (length img) sha u =
      Some ([request GET url false None EmptyString], false, true, u') /\ upd_boot u' = Some img.
Proof.
  intros (rep & Hn & Hc & Hsz & Hs) Hh. unfold doVerifiedUpdate_. rewrite Hn, Hc. cbn [negb Z.eqb Pos.eqb].
  replace ((0 <=? rp_size rep) && negb (rp_size rep =? Z.of_nat (length img))) with false.
  2: { symmetry. destruct Hsz as [Hsz| ->]; [by rewrite (proj2 (Z.leb_gt _ _))|].
       by rewrite Z.eqb_refl, andb_false_r. }
  destruct (upd_begin _ u) as [ok u1] eqn:Eb. pose proof (begin_takes (Z.of_nat (length img)) u) as Hok.
  rewrite Eb in Hok. cbn [fst] in Hok. subst ok. apply upd_begin_law in Eb as [_ Hst]. cbn [negb].
  destruct (download_serves (length img) (de_stream e) (de_start e)
    {| totalWritten := 0; hashed := []; ioError := false |} img u1 Hs eq_refl eq_refl (Hst eq_refl))
    as (u2 & -> & Hs2 & _). cbn [ioError totalWritten hashed app] in *.
  rewrite Nat.eqb_refl, Hh. cbn [negb orb].
  destruct (upd_end u2) as [ok u3] eqn:Ee. pose proof (end_takes u2) as Hok. rewrite Ee in Hok.
  cbn [fst] in Hok. subst ok. cbn [negb]. exists u3. split; [done|].
  apply upd_end_law in Ee. by rewrite Ee, Hs2.
Qed.

Lemma verify_complete f keyId sig now sync text der :
  keyId = COVIO_OTA_KEY_ID -> Sync.haveServerTime sync = true ->
  checkManifestTimeValidity (m_issuedAt f) (m_expiresAt f) (Sync.estimatedUnixNow now sync)
    OTA_MANIFEST_TIME_SKEW_S = MANIFEST_TIME_OK ->
  buildCanonicalManifestString f 512 = Some text -> base64_decode C 256 sig = Some der ->
  pk_parses C = true -> pk_verify C (sha256 C (String.list_byte_of_string text)) der = true ->
  verifyManifestAuthenticity_ C f keyId sig now sync = OTA_AUTH_OK.
Proof.
  intros -> Ht Hv Htext Hder Hpk Hsig. unfold verifyManifestAuthenticity_.
  by rewrite String.eqb_refl, Ht, Hv, Htext, Hder, Hpk, Hsig.
Qed.

(** A manifest that names all it must. *)
Definition complete (body : string) : Prop :=
  let f := manifest_fields body in
  (0 < String.length (m_version f))%nat /\ (0 < String.length (m_imageUrl f))%nat /\
  manifestHasRequiredFields (m_imageSize f) (String.length (m_imageSha256Hex f))
    (String.length (m_channel f)) (m_issuedAt f) (m_expiresAt f) (String.length (m_manifestId f))
    (String.length (extractStr_ body "key_id")) (String.length (extractStr_ body "signature"))
    (String.length (m_hwCompat f)) = true.

End install.

(** ** Witness *)

Import MemNvs StoreSpec.

Definition offer : string := manifest_body "3".

(** The image in three pieces, the first of them empty. *)
Definition pieces : list stream_ev :=
  [EvData 0 [] 5; EvData 1 [Byte.x01; Byte.x02] 10; EvIdle true 20; EvData 1 [Byte.x03; Byte.x04] 30].

Definition offer_env : OtaEnv := ota_env_demo offer pieces.

Lemma offer_complete : complete offer.
Proof. unfold complete. cbv zeta. split; [vm_compute; lia|]. split; [vm_compute; lia|vm_compute; reflexivity]. Qed.

Lemma offer_text : is_Some (buildCanonicalManifestString (manifest_fields offer) 512).
Proof. eexists. vm_compute. reflexivity. Qed.

Lemma offer_authentic : authentic toy_crypto default_build sync_demo 0 nvs_demo offer.
Proof.
  unfold authentic. cbv zeta. destruct offer_text as [text Et].
  split; [vm_compute; reflexivity|]. split; [vm_compute; discriminate|].
  split; [vm_compute; discriminate|]. split; [vm_compute; discriminate|].
  split; [intros _; vm_compute; reflexivity|]. split; [vm_compute; reflexivity|].
  split; [reflexivity|]. split; [vm_compute; reflexivity|].
  exists text, (String.list_byte_of_string "ok"). split; [exact Et|].
  split; [vm_compute; reflexivity|]. cbn [pk_verify toy_crypto sha256].
  rewrite length_take, length_app, repeat_length. rewrite Nat.min_l by lia. reflexivity.
Qed.

Lemma offer_delivers url : delivers (oe_download offer_env) url image_demo.
Proof.
  eexists. split; [reflexivity|]. split; [reflexivity|]. split; [right; reflexivity|].
  cbn [oe_download offer_env ota_env_demo de_start de_stream pieces serves].
  right. exists image_demo. split; [reflexivity|]. cbn.
  right. exists [Byte.x03; Byte.x04]. split; [reflexivity|]. cbn.
  right. split; [reflexivity|]. split; [vm_compute; discriminate|].
  right. exists []. split; [reflexivity|]. left. reflexivity.
Qed.

