(* ===== verification/Diagnostics.v ===== *)
(** * Local diagnostics (diagnostics.h)

    The JSON bodies of the LAN API and the health rule they share.  Readings
    of the chip and the radio are arguments ([Readings]); [ftoa x k] is
    String(float, k) and [err_name] is esp_err_to_name, library code. *)

From S2P Require Import Prelude Config Arduino Crc32 Records Storage DualSlot Parse Boot Store Totalizer QueueData Queue OtaPolicy Telemetry Net Sync Ota.
Import St EventQueue.

Module Diag.

(** BUILD_COMMIT, BUILD_DIRTY, BUILD_TIME_UTC: defines the build injects. *)
Record BuildId := { BUILD_COMMIT : string; BUILD_DIRTY : bool; BUILD_TIME_UTC : string }.

(** One body reads the clock more than once: [rd_millis] is the reading of the
    uptime, [rd_health_now] that of computeHealth_, [rd_sync_now] that of
    last_sync_ms_ago.  [rd_stack] is in bytes. *)
Record Readings := {
  rd_millis : Z;
  rd_health_now : Z;
  rd_sync_now : Z;
  rd_rssi : Z;
  rd_reset : Z;         (* esp_reset_reason() *)
  rd_heap : Z; rd_heap_min : Z; rd_stack : Z;
  rd_cpu_mhz : Z; rd_flash : Z;
  rd_online : bool;     (* WiFi.status() == WL_CONNECTED *)
}.

Definition json_bool (b : bool) : string := if b then "true" else "false".

(** [String(v, HEX)] *)
Fixpoint hex_go (fuel : nat) (n : Z) (acc : string) : string :=
  let d := n mod 16 in
  let acc := String (if d <? 10 then chr (48 + d) else chr (87 + d)) acc in
  if n <? 16 then acc else match fuel with O => acc | S f => hex_go f (n / 16) acc end.
Definition hex (n : Z) : string := hex_go 8 n EmptyString.

Section diag.
Context {N HW T Disk : Type} `{Preferences N} `{Pcnt HW} `{LittleFS Disk} `{SB : StorageBackend Disk}
  `{QO : IQueueOffsetCheckpoint T Disk}.
Variable ftoa : f32 -> nat -> string.
Variable err_name : Z -> string.

Definition apiKeyStatus_ (n : N) : string :=
  let key := apiKey n in
  if (String.length key =? 0)%nat then "missing"
  else if String.eqb key DEFAULT_API_KEY then "default"
  else "configured".

Definition otaStateStr_ (s : OtaState) : string := otaStateStr s.

Definition resetReasonStr_ (r : Z) : string := reset_reason_text r.

(** ** Health *)

(** [alarms], [first], [haveCritical], [haveWarning] *)
Record Alarms := { al_text : string; al_first : bool; al_critical : bool; al_warning : bool }.

Definition raise (critical : bool) (type message : string) (a : Alarms) : Alarms :=
  {| al_text :=
       cat [al_text a; if al_first a then EmptyString else ",";
            js "{'type':'"; type; js "','severity':'";
            if critical then "CRITICAL" else "WARNING";
            js "','raised_at_ms_ago':0,'message':'"; message; js "'}"];
     al_first := false;
     al_critical := critical || al_critical a;
     al_warning := negb critical || al_warning a |}.

Definition raise_if (c critical : bool) (type message : string) (a : Alarms) : Alarms :=
  if c then raise critical type message a else a.

Definition alarms_of (q : EventQueue) (ota : Ota.Ota) (d : Disk) (sdPresent : bool)
    (crashResetStreak : Z) (sensorStuck : bool) : Alarms :=
  let a := {| al_text := "["; al_first := true; al_critical := false; al_warning := false |} in
  let backlog := pendingCount q in
  let a :=
    if 10000 <? backlog then
      raise true "QUEUE_CRITICAL" "Unacked queue backlog exceeds 10000 rows" a
    else raise_if (1000 <? backlog) false "QUEUE_HIGH" "Unacked queue backlog exceeds 1000 rows" a in
  let a := raise_if (match Ota.state ota with OTA_STATE_FAILED => true | _ => false end) false
             "OTA_FAILED" "Last OTA update attempt failed" a in
  let a := raise_if (negb sdPresent) true "SD_REMOVED"
             "Internal flash storage (LittleFS) not mounted" a in
  let a := raise_if (hasFailedWrite q) true "QUEUE_WRITE_FAILURE"
             (cat [dec (failedWriteCount q); " measurement(s) failed to persist durably (last: ";
                   lastFailureCodeStr q; ")"]) a in
  let a :=
    match capacityAlarmLevel (capacityPercentUsed d) with
    | QCAP_CRITICAL_100 => raise true "STORAGE_FULL" "Queue storage partition is full" a
    | QCAP_CRITICAL_95 => raise true "STORAGE_CRITICAL" "Queue storage >=95% full" a
    | QCAP_WARNING_90 => raise false "STORAGE_HIGH" "Queue storage >=90% full" a
    | QCAP_WARNING_80 => raise false "STORAGE_WARNING" "Queue storage >=80% full" a
    | QCAP_NONE => a
    end in
  let a := raise_if sensorStuck false "SENSOR_STOPPED"
             "No pulse count change for an extended period -- possible stuck/failed flow sensor, or a genuinely idle line" a in
  raise_if (CRASH_RESET_STREAK_ALARM <=? crashResetStreak) true "REBOOT_LOOP"
    (dec crashResetStreak +:+
     " consecutive abnormal resets (watchdog/brownout/panic) without a sustained healthy run") a.

Definition computeHealth_ (millis : Z) (q : EventQueue) (sync : Sync.Sync) (ota : Ota.Ota) (d : Disk)
    (sdPresent : bool) (crashResetStreak : Z) (sensorStuck : bool) : string * string :=
  let a := alarms_of q ota d sdPresent crashResetStreak sensorStuck in
  let offline := negb (Sync.haveSync_ sync) || (300000 <? u32 (millis - Sync.lastSyncMs_ sync)) in
  let healthState :=
    if offline then "offline"
    else if al_critical a then "degraded"
    else if al_warning a then "degraded"
    else "ok" in
  (healthState, al_text a +:+ "]").

Definition healthStateOnly millis q sync ota d sdPresent streak stuck : string :=
  fst (computeHealth_ millis q sync ota d sdPresent streak stuck).

Definition buildHealthJson millis q sync ota d sdPresent streak stuck : string :=
  let '(healthState, alarmsJson) := computeHealth_ millis q sync ota d sdPresent streak stuck in
  cat [js "{'health_state':'"; healthState; js "','alarms':"; alarmsJson; "}"].

(** ** The other bodies *)

Definition buildInfoJson (bd : Build) (id : BuildId) (mac : Z) (st : Store) (n : N) : string :=
  let logicalId := logicalDeviceId n in
  cat [
  js "{'hardware_id':'"; deviceId mac; js "'";
  js ",'logical_device_id':";
  (if (String.length logicalId =? 0)%nat then "null" else cat [js "'"; logicalId; js "'"]);
  js ",'asset_id':null";
  js ",'fw_version':'"; FW_VERSION; js "'";
  js ",'model':'"; DEVICE_MODEL bd; js "'";
  js ",'boot_id':"; dec (bootId st);
  js ",'schema_version_current':"; dec SCHEMA_VERSION_CURRENT;
  js ",'build_commit':'"; BUILD_COMMIT id; js "'";
  js ",'build_dirty':"; json_bool (BUILD_DIRTY id);
  js ",'build_time_utc':'"; BUILD_TIME_UTC id; js "'";
  js ",'security_version':"; dec FW_SECURITY_VERSION;
  js ",'accepted_security_floor':"; dec (securityVersion n); "}"
  ].

(** The "queue" object. *)
Definition queue_json (q : EventQueue) (t : Tot.Totalizer) (d : Disk) : string :=
  cat [
  js ",'queue':{'backlog':"; dec (pendingCount q);
  js ",'acked_seq':"; dec (ackedSeq q);
  js ",'last_seq':"; dec (Tot.lastSeq t);
  js ",'capacity_pct_used':"; ftoa (capacityPercentUsed d) 1;
  js ",'failed_write_count':"; dec (failedWriteCount q);
  (if hasFailedWrite q then
     cat [js ",'last_write_failure':{'error_code':'"; lastFailureCodeStr q; js "'";
          js ",'first_failure_uptime_s':"; dec (firstFailureUptimeS q);
          js ",'last_failure_uptime_s':"; dec (lastFailureUptimeS q); "}"]
   else js ",'last_write_failure':null"); "}"
  ].

(** The "ota_debug" object. *)
Definition ota_debug_json (o : Ota.Ota) : string :=
  cat [
  js ",'ota_debug':{";
  js "'running_partition':'"; Ota.runningPartitionLabel_ o; js "'";
  js ",'running_partition_addr':'0x"; hex (Ota.runningPartitionAddr_ o); js "'";
  js ",'boot_partition':'"; Ota.bootPartitionLabel_ o; js "'";
  js ",'boot_partition_addr':'0x"; hex (Ota.bootPartitionAddr_ o); js "'";
  js ",'next_update_partition':'"; Ota.nextUpdatePartitionLabel_ o; js "'";
  js ",'raw_state_read_ok':"; json_bool (Ota.haveRawState_ o);
  js ",'raw_state_read_err':"; dec_signed (Ota.stateReadErr_ o);
  js ",'raw_state_read_err_name':'"; err_name (Ota.stateReadErr_ o); js "'";
  js ",'raw_img_state':"; dec_signed (Ota.rawImgState_ o);
  js ",'raw_img_state_name':'"; Ota.otaImgStateStr_ (u32 (Ota.rawImgState_ o)); js "'";
  js ",'confirm_attempted':"; json_bool (Ota.confirmAttempted_ o);
  js ",'confirm_return_code':"; dec_signed (Ota.confirmReturnCode_ o);
  js ",'confirm_return_name':'"; err_name (Ota.confirmReturnCode_ o); js "'";
  js ",'floor_write_attempted':"; json_bool (Ota.floorWriteAttempted_ o);
  js ",'floor_write_ok':"; json_bool (Ota.floorWriteOk_ o);
  js ",'floor_read_after_write':"; dec (Ota.floorReadAfterWrite_ o);
  js ",'bootloader_rollback_engaged':"; json_bool (Ota.bootloaderRollbackEngaged_ o);
  "}"
  ].

(** The "ota" object, with the debug object inside. *)
Definition ota_status_json (n : N) (o : Ota.Ota) : string :=
  cat [
  js ",'ota':{'state':'"; otaStateStr_ (Ota.state o); js "'";
  js ",'running_version':'"; FW_VERSION; js "'";
  js ",'security_version':"; dec FW_SECURITY_VERSION;
  js ",'accepted_security_floor':"; dec (securityVersion n);
  (if bool_decide (Ota.lastRejectReason_ o = OTA_ACCEPT) then js ",'last_reject_reason':null"
   else cat [js ",'last_reject_reason':'"; otaVerdictStr (Ota.lastRejectReason_ o); js "'"]);
  (if bool_decide (Ota.lastAuthReject_ o = OTA_AUTH_OK) then js ",'last_auth_reject_reason':null"
   else cat [js ",'last_auth_reject_reason':'"; otaAuthVerdictStr (Ota.lastAuthReject_ o); js "'"]);
  ota_debug_json o; "}"
  ].

Definition buildStatusJson (bd : Build) (r : Readings) (n : N) (t : Tot.Totalizer) (h : HW)
    (q : EventQueue) (sync : Sync.Sync) (o : Ota.Ota) (d : Disk) (sdPresent : bool)
    (crashResetStreak : Z) (sensorStuck : bool) : string :=
  let healthState := healthStateOnly (rd_health_now r) q sync o d sdPresent crashResetStreak sensorStuck in
  cat [
  js "{'uptime_ms':"; dec (rd_millis r);
  js ",'wifi':{'connected':"; json_bool (rd_online r);
  js ",'ssid':'"; wifiSsid n; js "'";
  js ",'rssi_dbm':"; dec_signed (rd_rssi r); "}";
  js ",'server_url':'"; serverUrl bd n; js "'";
  js ",'api_key_status':'"; apiKeyStatus_ n; js "'";
  js ",'sd_status':'"; (if sdPresent then "ok" else "absent"); js "'";
  queue_json q t d;
  js ",'totalizer_raw_pulses':"; dec (Tot.total t h);
  js ",'last_sync_ms_ago':";
  (if Sync.haveSync_ sync then dec (u32 (rd_sync_now r - Sync.lastSyncMs_ sync)) else "null");
  js ",'last_push_http_code':";
  (if Sync.havePush sync then dec_signed (Sync.lastPushHttpCode_ sync) else "null");
  ota_status_json n o;
  js ",'health_state':'"; healthState; js "'}"
  ].

Fixpoint ints_json (l : list Z) : string :=
  match l with
  | [] => EmptyString
  | [z] => dec_signed z
  | z :: l => dec_signed z +:+ ("," +:+ ints_json l)
  end.

Definition buildMetricsJson (r : Readings) (q : EventQueue) (sync : Sync.Sync) (sdPresent : bool)
    (havePulseFreqHz : bool) (pulseFreqHz : f32) (rssiHistory : list Z)
    (n : N) (sensorStuck : bool) (msSinceLastPulseChange : Z) : string :=
  let haveSdLatency := sdPresent && haveRowWriteLatency_ q in
  let haveRtt := rd_online r && Sync.havePush sync in
  cat [
  js "{'free_heap_bytes':"; dec (rd_heap r);
  js ",'heap_low_water_mark_bytes':"; dec (rd_heap_min r);
  js ",'stack_high_water_mark_bytes':"; dec (rd_stack r);
  js ",'reset_reason':'"; resetReasonStr_ (rd_reset r); js "'";
  js ",'reset_reason_raw':"; dec_signed (rd_reset r);
  js ",'cpu_freq_mhz':"; dec (rd_cpu_mhz r);
  js ",'flash_size_bytes':"; dec (rd_flash r);
  js ",'sd_write_latency_ms':";
  (if haveSdLatency then dec (lastRowWriteLatencyMs_ q) else "null");
  js ",'queue_read_latency_ms':";
  (if havePendingLatency_ q then dec (lastPendingLatencyMs_ q) else "null");
  js ",'pulse_frequency_hz':";
  (if havePulseFreqHz then ftoa pulseFreqHz 3 else "null");
  js ",'network_rtt_ms':";
  (if haveRtt then dec (Sync.lastPushRttMs_ sync) else "null");
  js ",'rssi_history_dbm':["; ints_json rssiHistory; "]";
  js ",'temperature_c':null";
  js ",'restart_count':"; dec (restartCount n);
  js ",'watchdog_reset_count':"; dec (watchdogResetCount n);
  js ",'brownout_reset_count':"; dec (brownoutResetCount n);
  js ",'push_fail_count':"; dec (pushFailCount n);
  js ",'wifi_reconnect_count':"; dec (wifiReconnectCount n);
  js ",'crash_reset_streak':"; dec (crashResetStreak n);
  js ",'sensor_stuck':"; json_bool sensorStuck;
  js ",'ms_since_last_pulse_change':"; dec msSinceLastPulseChange; "}"
  ].

(** ** The health rule *)

(** The alarm conditions and what each reports: (condition, critical, type,
    message). *)
Definition alarm_table (q : EventQueue) (ota : Ota.Ota) (d : Disk) (sdPresent : bool)
    (crashResetStreak : Z) (sensorStuck : bool) : list (bool * (bool * string * string)) :=
  let b := pendingCount q in
  let cap l := match capacityAlarmLevel (capacityPercentUsed d), l with
               | QCAP_CRITICAL_100, 100 | QCAP_CRITICAL_95, 95
               | QCAP_WARNING_90, 90 | QCAP_WARNING_80, 80 => true
               | _, _ => false
               end in
  [(10000 <? b, (true, "QUEUE_CRITICAL", "Unacked queue backlog exceeds 10000 rows"));
   (negb (10000 <? b) && (1000 <? b),
    (false, "QUEUE_HIGH", "Unacked queue backlog exceeds 1000 rows"));
   (match Ota.state ota with OTA_STATE_FAILED => true | _ => false end,
    (false, "OTA_FAILED", "Last OTA update attempt failed"));
   (negb sdPresent, (true, "SD_REMOVED", "Internal flash storage (LittleFS) not mounted"));
   (hasFailedWrite q,
    (true, "QUEUE_WRITE_FAILURE",
     cat [dec (failedWriteCount q); " measurement(s) failed to persist durably (last: ";
          lastFailureCodeStr q; ")"]));
   (cap 100, (true, "STORAGE_FULL", "Queue storage partition is full"));
   (cap 95, (true, "STORAGE_CRITICAL", "Queue storage >=95% full"));
   (cap 90, (false, "STORAGE_HIGH", "Queue storage >=90% full"));
   (cap 80, (false, "STORAGE_WARNING", "Queue storage >=80% full"));
   (sensorStuck,
    (false, "SENSOR_STOPPED",
     "No pulse count change for an extended period -- possible stuck/failed flow sensor, or a genuinely idle line"));
   (CRASH_RESET_STREAK_ALARM <=? crashResetStreak,
    (true, "REBOOT_LOOP",
     dec crashResetStreak +:+
     " consecutive abnormal resets (watchdog/brownout/panic) without a sustained healthy run"))].

Definition active_alarms q ota d sd streak stuck : list (bool * string * string) :=
  snd <$> filter (fun e => fst e = true) (alarm_table q ota d sd streak stuck).

Definition alarm_json (a : bool * string * string) : string :=
  let '(critical, type, message) := a in
  cat [js "{'type':'"; type; js "','severity':'"; if critical then "CRITICAL" else "WARNING";
       js "','raised_at_ms_ago':0,'message':'"; message; js "'}"].

(** A JSON array's elements. *)
Fixpoint commas (l : list string) : string :=
  match l with
  | [] => EmptyString
  | [x] => x
  | x :: l => x +:+ ("," +:+ commas l)
  end.

Definition is_critical (a : bool * string * string) : bool := fst (fst a).

(** What the accumulators hold after the alarms [l]. *)
Definition holds (a : Alarms) (l : list (bool * string * string)) : Prop :=
  al_text a = "[" +:+ commas (alarm_json <$> l) /\
  al_first a = match l with [] => true | _ => false end /\
  al_critical a = existsb is_critical l /\
  al_warning a = existsb (negb ∘ is_critical) l.

Lemma commas_snoc l x :
  commas (l ++ [x]) = commas l +:+ (match l with [] => EmptyString | _ => "," end +:+ x).
Proof.
  induction l as [|y [|z l] IH]; [done|done|].
  change (y +:+ ("," +:+ commas ((z :: l) ++ [x])) =
          (y +:+ ("," +:+ commas (z :: l))) +:+ ("," +:+ x)).
  by rewrite IH, !str_app_assoc.
Qed.

Lemma raise_holds a l critical type message :
  holds a l -> holds (raise critical type message a) (l ++ [(critical, type, message)]).
Proof.
  intros (Et & Ef & Ec & Ew). unfold holds, raise. cbn [al_text al_first al_critical al_warning].
  rewrite fmap_app, !existsb_app, Et, Ef, Ec, Ew. cbn [fmap list_fmap]. rewrite commas_snoc.
  split_and!.
  - unfold alarm_json, cat. cbn [foldr]. destruct l; rewrite ?str_app_nil_r, <- ?str_app_assoc;
      rewrite ?str_nil_app; done.
  - by destruct l.
  - unfold is_critical. simpl. by rewrite orb_false_r, orb_comm.
  - unfold is_critical. simpl. by rewrite orb_false_r, orb_comm.
Qed.

Lemma raise_if_holds a l (c : bool) critical type message :
  holds a l ->
  holds (raise_if c critical type message a) (l ++ if c then [(critical, type, message)] else []).
Proof. intros Ha. unfold raise_if. destruct c; [by apply raise_holds|by rewrite app_nil_r]. Qed.

Lemma alarms_hold q ota d sd streak stuck :
  holds (alarms_of q ota d sd streak stuck) (active_alarms q ota d sd streak stuck).
Proof.
  assert (Hsel : forall (c : bool) (x : bool * string * string) t,
    snd <$> filter (fun e => fst e = true) ((c, x) :: t)
    = (if c then [x] else []) ++ (snd <$> filter (fun e : bool * _ => fst e = true) t)).
  { intros [] x t; rewrite filter_cons; done. }
  unfold active_alarms, alarm_table, alarms_of. cbv zeta. rewrite !Hsel. cbn [filter list_filter fmap list_fmap].
  rewrite app_nil_r, !app_assoc. apply raise_if_holds, raise_if_holds.
  assert (Hz : holds {| al_text := "["; al_first := true; al_critical := false; al_warning := false |} [])
    by done.
  assert (Hcap : forall a l, holds a l ->
    holds (match capacityAlarmLevel (capacityPercentUsed d) with
           | QCAP_CRITICAL_100 => raise true "STORAGE_FULL" "Queue storage partition is full" a
           | QCAP_CRITICAL_95 => raise true "STORAGE_CRITICAL" "Queue storage >=95% full" a
           | QCAP_WARNING_90 => raise false "STORAGE_HIGH" "Queue storage >=90% full" a
           | QCAP_WARNING_80 => raise false "STORAGE_WARNING" "Queue storage >=80% full" a
           | QCAP_NONE => a
           end) (l ++ match capacityAlarmLevel (capacityPercentUsed d) with
           | QCAP_CRITICAL_100 => [(true, "STORAGE_FULL", "Queue storage partition is full")]
           | QCAP_CRITICAL_95 => [(true, "STORAGE_CRITICAL", "Queue storage >=95% full")]
           | QCAP_WARNING_90 => [(false, "STORAGE_HIGH", "Queue storage >=90% full")]
           | QCAP_WARNING_80 => [(false, "STORAGE_WARNING", "Queue storage >=80% full")]
           | QCAP_NONE => []
           end)).
  { intros a l Ha. case_match; rewrite ?app_nil_r; auto using raise_holds. }
  assert (Hb : forall (c : bool) a1 a2 l1 l2, holds a1 l1 -> holds a2 l2 ->
    holds (if c then a1 else a2) (if c then l1 else l2)) by (intros []; auto).
  pose proof (Hb (10000 <? pendingCount q) _ _ _ _
    (raise_holds _ [] true "QUEUE_CRITICAL" "Unacked queue backlog exceeds 10000 rows" Hz)
    (raise_if_holds _ [] (1000 <? pendingCount q) false "QUEUE_HIGH"
       "Unacked queue backlog exceeds 1000 rows" Hz)) as Hq.
  eapply (eq_rect _ (holds _)).
  { apply Hcap, raise_if_holds, raise_if_holds, raise_if_holds, Hq. }
  rewrite <- !app_assoc. cbn [app].
  destruct (10000 <? pendingCount q), (1000 <? pendingCount q); cbn [negb andb app];
    by destruct (capacityAlarmLevel (capacityPercentUsed d)).
Qed.

(** The health rule.  The alarm array is exactly the JSON array of the
    conditions that hold, each once and in the fixed order; the state is
    "offline" when the device never synced this boot or the last sync is more
    than 300 s old, and otherwise "ok" exactly when no condition holds. *)
Theorem health_state_rule millis q sync ota d sd streak stuck :
  computeHealth_ millis q sync ota d sd streak stuck =
  (let offline := negb (Sync.haveSync_ sync) || (300000 <? u32 (millis - Sync.lastSyncMs_ sync)) in
   if offline then "offline"
   else match active_alarms q ota d sd streak stuck with [] => "ok" | _ => "degraded" end,
   cat ["["; commas (alarm_json <$> active_alarms q ota d sd streak stuck); "]"]).
Proof.
  unfold computeHealth_. destruct (alarms_hold q ota d sd streak stuck) as (Et & _ & Ec & Ew).
  rewrite Et, Ec, Ew. f_equal.
  cbv zeta. destruct (_ || _); [done|]. destruct (active_alarms _ _ _ _ _ _) as [|a l]; [done|].
  cbn [existsb]. unfold compose. destruct (is_critical a); cbn [negb orb]; [done|].
  by destruct (existsb is_critical l).
Qed.
End diag.

End Diag.
