(* ===== verification/LocalApi.v ===== *)
(** * The local HTTP API (local_api.h)

    The read-only LAN server: its route table, the handlers and their
    responses, the factory provisioning handler, the mDNS advertisement and
    the two periodic samplers.  WebServer and ESPmDNS are library code: which
    handler a request reaches, and whether mDNS starts, are arguments. *)

From S2P Require Import Prelude Config Arduino Crc32 Records Storage DualSlot Parse Sensors Boot Store Totalizer QueueData Queue OtaPolicy Telemetry Net Sync Ota Diagnostics.
Import St EventQueue.

(** What [server_.send(code, type, body)] sends. *)
Record Response := { rs_code : Z; rs_type : string; rs_body : string }.
Definition send (code : Z) (type body : string) : Response :=
  {| rs_code := code; rs_type := type; rs_body := body |}.

(** The same function is in wifi_provision.h. *)
Fixpoint htmlEscape_ (s : string) : string :=
  match s with
  | EmptyString => EmptyString
  | String c s =>
      (if Ascii.eqb c "&" then "&amp;"
       else if Ascii.eqb c "<" then "&lt;"
       else if Ascii.eqb c ">" then "&gt;"
       else if Ascii.eqb c (chr 34) then "&quot;"
       else String c EmptyString) +:+ htmlEscape_ s
  end.

Definition htmlRow_ (label value : string) : string :=
  cat ["<tr><td>"; label; "</td><td>"; value; "</td></tr>"].

(** The objects begin() is handed, with the flash and the counter behind
    them. *)
Record Objects (N HW Disk : Type) := {
  o_store : Store; o_nvs : N;
  o_tot : Tot.Totalizer; o_hw : HW;
  o_queue : EventQueue; o_sync : Sync.Sync; o_ota : Ota.Ota;
  o_stuck : Stuck.SensorStuckDetector;
  o_disk : Disk;
}.
Arguments Build_Objects {N HW Disk}.
Arguments o_store {N HW Disk}. Arguments o_nvs {N HW Disk}. Arguments o_tot {N HW Disk}.
Arguments o_hw {N HW Disk}. Arguments o_queue {N HW Disk}. Arguments o_sync {N HW Disk}.
Arguments o_ota {N HW Disk}. Arguments o_stuck {N HW Disk}. Arguments o_disk {N HW Disk}.

Module Lan.

Inductive Handler :=
  | handleInfo_ | handleStatus_ | handleHealth_ | handleMetrics_ | handleLogsNotImplemented_
  | handleConfigForbidden_ | handleFactoryProvision_ | handleHtml_ | handleNotFound_.

(** [server_.on(...)] in the order of begin(). *)
Definition routes (bd : Build) : list (string * http_method * Handler) :=
  [("/api/v1/info", GET, handleInfo_); ("/api/v1/status", GET, handleStatus_);
   ("/api/v1/health", GET, handleHealth_); ("/api/v1/metrics", GET, handleMetrics_);
   ("/api/v1/logs", GET, handleLogsNotImplemented_);
   ("/api/v1/config", POST, handleConfigForbidden_)] ++
  (if FACTORY_TEST_BUILD bd
   then [("/api/v1/factory/provision", POST, handleFactoryProvision_)] else []) ++
  [("/", GET, handleHtml_)].

(** A handler the server can call: a registered one or the onNotFound one. *)
Definition registered (bd : Build) (h : Handler) : Prop :=
  h = handleNotFound_ \/ exists p m, (p, m, h) ∈ routes bd.

Definition RSSI_HISTORY_LEN : nat := 10.

Record LocalApi := {
  mdnsStarted_ : bool;
  lastSampleMs_ : Z;
  rssiHistory_ : list Z;
  rssiCount_ : nat;
  rssiNext_ : nat;
  havePulseSample_ : bool;
  prevPulseTotal_ : Z;
  prevPulseSampleMs_ : Z;
  havePulseFreqHz_ : bool;
  lastPulseFreqHz_ : f32;
}.

Definition new_api : LocalApi :=
  {| mdnsStarted_ := false; lastSampleMs_ := 0; rssiHistory_ := replicate RSSI_HISTORY_LEN 0;
     rssiCount_ := 0; rssiNext_ := 0; havePulseSample_ := false; prevPulseTotal_ := 0;
     prevPulseSampleMs_ := 0; havePulseFreqHz_ := false; lastPulseFreqHz_ := f32_of_Z 0 |}.

Definition with_mdns (b : bool) (l : LocalApi) : LocalApi :=
  {| mdnsStarted_ := b; lastSampleMs_ := lastSampleMs_ l; rssiHistory_ := rssiHistory_ l;
     rssiCount_ := rssiCount_ l; rssiNext_ := rssiNext_ l; havePulseSample_ := havePulseSample_ l;
     prevPulseTotal_ := prevPulseTotal_ l; prevPulseSampleMs_ := prevPulseSampleMs_ l;
     havePulseFreqHz_ := havePulseFreqHz_ l; lastPulseFreqHz_ := lastPulseFreqHz_ l |}.
Definition with_sample_time (t : Z) (l : LocalApi) : LocalApi :=
  {| mdnsStarted_ := mdnsStarted_ l; lastSampleMs_ := t; rssiHistory_ := rssiHistory_ l;
     rssiCount_ := rssiCount_ l; rssiNext_ := rssiNext_ l; havePulseSample_ := havePulseSample_ l;
     prevPulseTotal_ := prevPulseTotal_ l; prevPulseSampleMs_ := prevPulseSampleMs_ l;
     havePulseFreqHz_ := havePulseFreqHz_ l; lastPulseFreqHz_ := lastPulseFreqHz_ l |}.

(** ** Samplers *)

(** [rssi]: WiFi.RSSI(). *)
Definition sampleRssi_ (connected : bool) (rssi : Z) (l : LocalApi) : LocalApi :=
  if negb connected then l else
  {| mdnsStarted_ := mdnsStarted_ l; lastSampleMs_ := lastSampleMs_ l;
     rssiHistory_ := <[rssiNext_ l := i16 rssi]> (rssiHistory_ l);
     rssiCount_ := if (rssiCount_ l <? RSSI_HISTORY_LEN)%nat then S (rssiCount_ l)
                   else rssiCount_ l;
     rssiNext_ := ((rssiNext_ l + 1) mod RSSI_HISTORY_LEN)%nat;
     havePulseSample_ := havePulseSample_ l;
     prevPulseTotal_ := prevPulseTotal_ l; prevPulseSampleMs_ := prevPulseSampleMs_ l;
     havePulseFreqHz_ := havePulseFreqHz_ l; lastPulseFreqHz_ := lastPulseFreqHz_ l |}.

Definition snapshotRssiHistory_ (l : LocalApi) : list Z :=
  let n := rssiCount_ l in
  let start := ((rssiNext_ l + RSSI_HISTORY_LEN - n) mod RSSI_HISTORY_LEN)%nat in
  (fun i => default 0 (rssiHistory_ l !! ((start + i) mod RSSI_HISTORY_LEN)%nat)) <$> seq 0 n.

(** [total]: tot_->total(). *)
Definition samplePulseFreq_ (total now : Z) (l : LocalApi) : LocalApi :=
  let elapsedMs := u32 (now - prevPulseSampleMs_ l) in
  let fresh := havePulseSample_ l && (0 <? elapsedMs) in
  let delta := if prevPulseTotal_ l <=? total then total - prevPulseTotal_ l else 0 in
  {| mdnsStarted_ := mdnsStarted_ l; lastSampleMs_ := lastSampleMs_ l;
     rssiHistory_ := rssiHistory_ l; rssiCount_ := rssiCount_ l; rssiNext_ := rssiNext_ l;
     havePulseSample_ := true; prevPulseTotal_ := total; prevPulseSampleMs_ := now;
     havePulseFreqHz_ := havePulseFreqHz_ l || fresh;
     lastPulseFreqHz_ :=
       if fresh then f32_div (f32_of_Z delta) (f32_div (f32_of_Z elapsedMs) (f32_of_Z 1000))
       else lastPulseFreqHz_ l |}.

(** ** mDNS *)

Record Advert := { ad_host : string; ad_service : string * string * Z; ad_txt : list (string * string) }.

Section handlers.
Context {N HW Disk : Type} `{Preferences N} `{Pcnt HW} `{LittleFS Disk} `{SB : StorageBackend Disk}.
Variable ftoa : f32 -> nat -> string.
Variable err_name : Z -> string.
Variable bd : Build.
Variable id : Diag.BuildId.
Variable mac : Z.

Definition mdnsInstanceName_ : string :=
  let hwid := deviceId mac in "covio-" +:+ sdrop (String.length hwid - 6) hwid.

(** [ok]: MDNS.begin(). *)
Definition startMdns_ (ok : bool) (n : N) (l : LocalApi) : option Advert * LocalApi :=
  if negb ok then (None, l) else
  (Some {| ad_host := mdnsInstanceName_; ad_service := ("covio", "tcp", 80);
           ad_txt := [("hardware_id", deviceId mac); ("fw", FW_VERSION);
                      ("model", DEVICE_MODEL bd); ("logical_device_id", logicalDeviceId n)] |},
   with_mdns true l).

(** ** Route handlers *)

(** LittleFS.exists(SD_QUEUE_DIR) *)
Definition sdPresent_ (d : Disk) : bool := lfs_exists SD_QUEUE_DIR d.

(** [html_now]: the reading of "Last sync", [stuck_now] that of isStuck. *)
Definition html (r : Diag.Readings) (stuck_now : Z) (x : Objects N HW Disk) : string :=
  let sdOk := sdPresent_ (o_disk x) in
  let health := Diag.healthStateOnly (Diag.rd_health_now r) (o_queue x) (o_sync x) (o_ota x)
                  (o_disk x) sdOk (crashResetStreak (o_nvs x)) (Stuck.isStuck stuck_now (o_stuck x)) in
  cat [
  js "<html><head><title>Covio Device</title><meta charset='utf-8'>";
  "<style>body{font-family:system-ui;margin:2rem;max-width:640px}";
  "table{border-collapse:collapse;width:100%}";
  "td,th{border:1px solid #ccc;padding:.4rem .6rem;text-align:left}";
  "</style></head><body>";
  cat ["<h2>Covio Device — "; htmlEscape_ (deviceId mac); "</h2>"];
  cat ["<p><b>Health:</b> "; htmlEscape_ health; "</p>"];
  "<table>";
  htmlRow_ "Firmware" FW_VERSION;
  htmlRow_ "Uptime (ms)" (dec (Diag.rd_millis r));
  htmlRow_ "WiFi" (cat [if Diag.rd_online r then "connected to " else "disconnected from ";
                        htmlEscape_ (wifiSsid (o_nvs x));
                        " ("; dec_signed (Diag.rd_rssi r); " dBm)"]);
  htmlRow_ "Server URL" (htmlEscape_ (serverUrl bd (o_nvs x)));
  htmlRow_ "API key" (Diag.apiKeyStatus_ (o_nvs x));
  htmlRow_ "Internal flash storage" (if sdOk then "ok" else "absent");
  htmlRow_ "Queue backlog" (dec (pendingCount (o_queue x)));
  htmlRow_ "Total pulses" (dec (Tot.total (o_tot x) (o_hw x)));
  htmlRow_ "Last sync"
    (if Sync.haveSync_ (o_sync x)
     then dec (u32 (Diag.rd_sync_now r - Sync.lastSyncMs_ (o_sync x))) +:+ " ms ago" else "never");
  htmlRow_ "OTA state" (Diag.otaStateStr_ (Ota.state (o_ota x)));
  "</table></body></html>"
  ].

(** [server_.arg("plain")] is the request body. *)
Definition factory_provision (body : string) (n : N) : Response * N :=
  let newLogicalId := Ota.extractStr_ body "logical_device_id" in
  let newApiKey := Ota.extractStr_ body "api_key" in
  if (String.length newLogicalId =? 0)%nat && (String.length newApiKey =? 0)%nat then
    (send 400 "application/json"
       (js "{'error':{'code':'FACTORY_PROVISION_EMPTY','message':'at least one of logical_device_id or api_key is required'}}"), n)
  else
    let existing := logicalDeviceId n in
    let idConflict := (0 <? String.length newLogicalId)%nat && (0 <? String.length existing)%nat
                      && negb (String.eqb existing newLogicalId) in
    let n := if (0 <? String.length newLogicalId)%nat && negb idConflict
             then setLogicalDeviceId newLogicalId n else n in
    let n := if (0 <? String.length newApiKey)%nat then setApiKey newApiKey n else n in
    let lid := logicalDeviceId n in
    if idConflict then
      (send 409 "application/json"
         (cat [js "{'error':{'code':'LOGICAL_ID_ALREADY_ASSIGNED','message':'this device already has a different logical_device_id'},'logical_device_id':'";
               lid; js "','api_key_status':'"; Diag.apiKeyStatus_ n; js "'}"]), n)
    else
      (send 200 "application/json"
         (cat [js "{'logical_device_id':";
               (if (String.length lid =? 0)%nat then "null" else cat [js "'"; lid; js "'"]);
               js ",'api_key_status':'"; Diag.apiKeyStatus_ n; js "'}"]), n).

(** One request: the response, and the flash behind the store. *)
Definition handle (h : Handler) (body : string) (r : Diag.Readings) (stuck_now : Z)
    (l : LocalApi) (x : Objects N HW Disk) : Response * N :=
  let n := o_nvs x in
  let stuck := Stuck.isStuck stuck_now (o_stuck x) in
  match h with
  | handleInfo_ => (send 200 "application/json" (Diag.buildInfoJson bd id mac (o_store x) n), n)
  | handleStatus_ =>
      (send 200 "application/json"
         (Diag.buildStatusJson ftoa err_name bd r n (o_tot x) (o_hw x) (o_queue x) (o_sync x)
            (o_ota x) (o_disk x) (sdPresent_ (o_disk x)) (crashResetStreak n) stuck), n)
  | handleHealth_ =>
      (send 200 "application/json"
         (Diag.buildHealthJson (Diag.rd_health_now r) (o_queue x) (o_sync x) (o_ota x) (o_disk x)
            (sdPresent_ (o_disk x)) (crashResetStreak n) stuck), n)
  | handleMetrics_ =>
      (send 200 "application/json"
         (Diag.buildMetricsJson ftoa r (o_queue x) (o_sync x) (sdPresent_ (o_disk x))
            (havePulseFreqHz_ l) (lastPulseFreqHz_ l) (snapshotRssiHistory_ l) n stuck
            (Stuck.msSinceLastChange stuck_now (o_stuck x))), n)
  | handleLogsNotImplemented_ =>
      (send 501 "application/json"
         (js "{'error':{'code':'NOT_IMPLEMENTED','message':'Log ring buffer requires ADR-012'}}"), n)
  | handleNotFound_ =>
      (send 404 "application/json"
         (js "{'error':{'code':'NOT_FOUND','message':'Unknown path'}}"), n)
  | handleConfigForbidden_ =>
      (send 403 "application/json"
         (js "{'error':{'code':'CONFIG_WRITE_FORBIDDEN_NOT_IN_AP_MODE','message':'Config writes are only accepted while the device is in provisioning mode'}}"), n)
  | handleFactoryProvision_ => factory_provision body n
  | handleHtml_ => (send 200 "text/html" (html r stuck_now x), n)
  end.

(** ** service() *)

Record ApiEnv := {
  ae_request : option (Handler * string * Diag.Readings * Z);
  ae_now : Z;
  ae_connected : bool;        (* WiFi.status() before startMdns_ *)
  ae_mdns_ok : bool;
  ae_rssi_connected : bool;   (* WiFi.status() and RSSI() in sampleRssi_ *)
  ae_rssi : Z;
  ae_freq_now : Z;            (* millis() in samplePulseFreq_ *)
}.

Definition with_nvs (n : N) (x : Objects N HW Disk) : Objects N HW Disk :=
  {| o_store := o_store x; o_nvs := n; o_tot := o_tot x; o_hw := o_hw x; o_queue := o_queue x;
     o_sync := o_sync x; o_ota := o_ota x; o_stuck := o_stuck x; o_disk := o_disk x |}.

Definition service (e : ApiEnv) (l : LocalApi) (x : Objects N HW Disk)
  : option Response * option Advert * LocalApi * Objects N HW Disk :=
  let '(resp, x) :=
    match ae_request e with
    | None => (None, x)
    | Some (h, body, r, stuck_now) =>
        let '(resp, n) := handle h body r stuck_now l x in (Some resp, with_nvs n x)
    end in
  if 1000 <=? u32 (ae_now e - lastSampleMs_ l) then
    let l := with_sample_time (ae_now e) l in
    let '(ad, l) := if negb (mdnsStarted_ l) && ae_connected e
                    then startMdns_ (ae_mdns_ok e) (o_nvs x) l else (None, l) in
    let l := sampleRssi_ (ae_rssi_connected e) (ae_rssi e) l in
    let l := samplePulseFreq_ (Tot.total (o_tot x) (o_hw x)) (ae_freq_now e) l in
    (resp, ad, l, x)
  else (resp, None, l, x).
End handlers.

End Lan.
