(* ===== verification/LanTheorems.v ===== *)
(** * Properties of the local HTTP API

    The RSSI ring against the list of samples taken, the escaping of HTML,
    the write-once logical id, and what no response can reveal. *)

From S2P Require Import Prelude Config Arduino Crc32 Records Storage DualSlot Parse Sensors Boot Store Totalizer QueueData Queue OtaPolicy Telemetry Net Sync Ota Diagnostics LocalApi.
Import St EventQueue Lan StoreSpec.

(** ** HTML escaping *)

Fixpoint all_chars (P : Ascii.ascii -> bool) (s : string) : bool :=
  match s with EmptyString => true | String c s => P c && all_chars P s end.

Lemma all_chars_app P a b : all_chars P (a +:+ b) = all_chars P a && all_chars P b.
Proof.
  induction a as [|c a IH]; [done|]. rewrite str_cons_app. simpl. by rewrite IH, andb_assoc.
Qed.

(** A character that cannot open a tag or close an attribute. *)
Definition inert (c : Ascii.ascii) : bool :=
  negb (Ascii.eqb c "<") && negb (Ascii.eqb c ">") && negb (Ascii.eqb c (chr 34)).

(** Escaped text is inert in element content and in a double-quoted
    attribute, whatever the configured name or URL, and loses nothing: two
    texts with the same escape are equal. *)
Theorem html_escape_safe (s s' : string) :
  all_chars inert (htmlEscape_ s) = true /\ (htmlEscape_ s = htmlEscape_ s' -> s = s').
Proof.
  split.
  - induction s as [|c s IH]; [done|]. cbn [htmlEscape_]. rewrite all_chars_app, IH, andb_true_r.
    destruct (Ascii.eqb c "&"); [done|]. destruct (Ascii.eqb c "<") eqn:E1; [done|].
    destruct (Ascii.eqb c ">") eqn:E2; [done|]. destruct (Ascii.eqb c (chr 34)) eqn:E3; [done|].
    cbn [all_chars]. unfold inert. by rewrite E1, E2, E3.
  - revert s'. induction s as [|c s IH]; intros [|c' s']; [done| | |]; cbn [htmlEscape_];
      repeat match goal with
      | |- context [if Ascii.eqb ?a ?b then _ else _] => destruct (Ascii.eqb_spec a b); subst
      end; rewrite ?str_cons_app, ?str_nil_app; intros E; try discriminate E;
      injection E; intros; subst; try (congruence || discriminate); f_equal; auto.
Qed.

(** ** The RSSI ring *)

(** [hist]: every sample taken so far, oldest first. *)
Record ring (l : LocalApi) (hist : list Z) : Prop := {
  ring_length : length (rssiHistory_ l) = 10%nat;
  ring_count : rssiCount_ l = Nat.min 10 (length hist);
  ring_next : rssiNext_ l = (length hist mod 10)%nat;
  ring_cells : forall j, (length hist - Nat.min 10 (length hist) <= j < length hist)%nat ->
    rssiHistory_ l !! (j mod 10)%nat = hist !! j;
}.

Lemma ring_new : ring new_api [].
Proof. split; [done..|]. simpl. lia. Qed.

Lemma ring_sample l hist rssi :
  ring l hist -> ring (sampleRssi_ true rssi l) (hist ++ [i16 rssi]).
Proof.
  intros [Hl Hc Hn Hj]. unfold sampleRssi_, RSSI_HISTORY_LEN. cbn [negb].
  split; cbn [rssiHistory_ rssiCount_ rssiNext_]; rewrite ?length_app; cbn [length].
  - by rewrite length_insert.
  - rewrite Hc. destruct (Nat.ltb_spec (Nat.min 10 (length hist)) 10); lia.
  - rewrite Hn. by rewrite Nat.Div0.add_mod_idemp_l.
  - intros j Hb. rewrite Hn. destruct (decide (j = length hist)) as [->|Hne].
    + rewrite list_lookup_insert_eq by (rewrite Hl; apply Nat.mod_upper_bound; lia).
      by rewrite lookup_app_r, Nat.sub_diag by lia.
    + rewrite list_lookup_insert_ne.
      * rewrite lookup_app_l by lia. apply Hj. lia.
      * intros E. pose proof (Nat.div_mod_eq j 10). pose proof (Nat.div_mod_eq (length hist) 10).
        lia.
Qed.

Lemma ring_snapshot l hist : ring l hist -> snapshotRssiHistory_ l = drop (length hist - 10) hist.
Proof.
  intros [Hl Hc Hn Hj]. unfold snapshotRssiHistory_, RSSI_HISTORY_LEN. rewrite Hc, Hn.
  set (h := length hist) in *. set (n := Nat.min 10 h).
  assert (Es : ((h mod 10 + 10 - n) mod 10 = (h - n) mod 10)%nat).
  { pose proof (Nat.div_mod_eq h 10). pose proof (Nat.mod_upper_bound h 10 ltac:(lia)).
    destruct (decide (h < 10)%nat) as [Hlt|Hge].
    - replace (h mod 10)%nat with h by (symmetry; by apply Nat.mod_small). unfold n.
      replace (Nat.min 10 h) with h by lia. by rewrite Nat.add_comm, Nat.add_sub, Nat.sub_diag.
    - unfold n. replace (Nat.min 10 h) with 10%nat by lia.
      rewrite Nat.add_sub, Nat.Div0.mod_mod.
      rewrite <- (Nat.Div0.mod_add (h - 10) 1 10). f_equal. lia. }
  rewrite Es. apply list_eq. intros i. rewrite list_lookup_fmap, lookup_drop.
  destruct (decide (i < n)%nat) as [Hi|Hi].
  - rewrite lookup_seq_lt by done. cbn [fmap option_fmap option_map]. rewrite Nat.add_0_l.
    rewrite Nat.Div0.add_mod_idemp_l, Hj by (fold h; unfold n in *; lia).
    replace (h - 10 + i)%nat with (h - n + i)%nat by (unfold n in *; lia).
    destruct (lookup_lt_is_Some_2 hist (h - n + i)) as [v Ev]; [fold h; unfold n in *; lia|].
    by rewrite Ev.
  - rewrite lookup_seq_ge by lia. symmetry. apply lookup_ge_None_2. fold h. unfold n in *. lia.
Qed.

Section theorems.
Context {N HW Disk : Type} `{PreferencesLaws N} `{Pcnt HW} `{LittleFS Disk} `{SB : StorageBackend Disk}.
Variable ftoa : f32 -> nat -> string.
Variable err_name : Z -> string.
Variable bd : Build.
Variable id : Diag.BuildId.
Variable mac : Z.

#[local] Abbreviation handle := (handle (N := N) (HW := HW) (Disk := Disk) ftoa err_name bd id mac).
#[local] Abbreviation service := (service (N := N) (HW := HW) (Disk := Disk) ftoa err_name bd id mac).

(** The sample one call of service() takes. *)
Definition taken (e : ApiEnv) (l : LocalApi) : list Z :=
  if (1000 <=? u32 (ae_now e - lastSampleMs_ l)) && ae_rssi_connected e then [i16 (ae_rssi e)] else [].

(** Successive calls, the objects changing freely between them. *)
Fixpoint api_run (es : list (ApiEnv * Objects N HW Disk)) (l : LocalApi) : list Z * LocalApi :=
  match es with
  | [] => ([], l)
  | (e, x) :: es =>
      let '(_, _, l', _) := service e l x in
      let '(zs, l'') := api_run es l' in (taken e l ++ zs, l'')
  end.

Lemma service_ring e l x hist :
  ring l hist -> ring (service e l x).1.2 (hist ++ taken e l).
Proof.
  intros Hr. unfold Lan.service, taken.
  destruct (match ae_request e with None => _ | _ => _ end) as [resp x'].
  destruct (1000 <=? _); cbn [andb fst snd]; [|by rewrite app_nil_r].
  set (p := if negb _ && _ then _ else _).
  assert (Hp : ring (snd p) hist).
  { unfold p. destruct (negb _ && _); [|by destruct Hr].
    unfold startMdns_. destruct (negb _); by destruct Hr. }
  destruct p as [ad l']. cbn [fst snd] in *.
  assert (Hs : forall b, ring (sampleRssi_ b (ae_rssi e) l') (hist ++ if b then [i16 (ae_rssi e)] else [])).
  { intros []; [by apply ring_sample|by rewrite app_nil_r]. }
  by destruct (Hs (ae_rssi_connected e)).
Qed.

Lemma api_run_ring es l hist :
  ring l hist -> ring (snd (api_run es l)) (hist ++ fst (api_run es l)).
Proof.
  revert l hist. induction es as [|[e x] es IH]; intros l hist Hr; cbn [api_run].
  - by rewrite app_nil_r.
  - pose proof (service_ring e l x hist Hr) as Hs. destruct (service e l x) as [[[resp ad] l'] x'].
    cbn [fst snd] in Hs. specialize (IH l' _ Hs). destruct (api_run es l') as [zs l''].
    cbn [fst snd] in *. by rewrite app_assoc.
Qed.

(** After any sequence of service() calls since boot, the
    rssi_history_dbm array of /api/v1/metrics is exactly the last ten
    readings taken while connected, oldest first (fewer before there are
    ten), although they are kept in a ring that wraps. *)
Theorem rssi_history_is_last_ten es :
  let '(zs, l) := api_run es new_api in
  snapshotRssiHistory_ l = drop (length zs - 10) zs.
Proof.
  pose proof (api_run_ring es new_api [] ring_new) as Hr.
  destruct (api_run es new_api) as [zs l]. by apply ring_snapshot.
Qed.

(** ** Writes *)

(** Reading back after the two setters the factory route calls. *)
Lemma setters_of (n : N) v :
  pref_writable n ->
  observe bd (setApiKey v n) = <[1%nat := OS v]> (observe bd n) /\
  observe bd (setLogicalDeviceId v n) = <[2%nat := OS v]> (observe bd n).
Proof. intros Hw. split; observe_solve. Qed.

Lemma eqb_nonempty s : (0 <? String.length s)%nat = negb (String.length s =? 0)%nat.
Proof. by destruct s. Qed.

Definition or_else (s d : string) : string := if (String.length s =? 0)%nat then d else s.

(** C32: of all handlers only the factory route writes, and only a factory
    build registers it.  The logical id is write-once: a stored one is never
    replaced, an unset one takes the submitted id; the API key is replaced
    exactly when one is submitted, a conflicting id notwithstanding; nothing
    else changes.  The status is 400 when both fields are missing, 409 exactly
    on a different id, 200 otherwise. *)
Theorem lan_writes_exact h body r s l x :
  pref_writable (o_nvs x) -> registered bd h ->
  let n := o_nvs x in
  let '(resp, n') := handle h body r s l x in
  let lid := Ota.extractStr_ body "logical_device_id" in
  let key := Ota.extractStr_ body "api_key" in
  match h with
  | handleFactoryProvision_ =>
      FACTORY_TEST_BUILD bd = true /\
      observe bd n' = <[2%nat := OS (or_else (logicalDeviceId n) lid)]>
                        (<[1%nat := OS (or_else key (apiKey n))]> (observe bd n)) /\
      rs_code resp = if decide (lid = EmptyString /\ key = EmptyString) then 400
                     else if decide (lid <> EmptyString /\ logicalDeviceId n <> EmptyString /\
                                     logicalDeviceId n <> lid) then 409 else 200
  | _ => n' = n
  end.
Proof.
  intros Hw Hreg n. destruct h; cbn [Lan.handle]; try reflexivity.
  assert (Hf : FACTORY_TEST_BUILD bd = true).
  { destruct Hreg as [|(p & m & Hin)]; [done|]. unfold routes in Hin.
    destruct (FACTORY_TEST_BUILD bd); [done|]. set_solver. }
  fold n. unfold factory_provision.
  set (lid := Ota.extractStr_ body "logical_device_id"). set (key := Ota.extractStr_ body "api_key").
  clearbody lid key. change (o_nvs x) with n in Hw. clearbody n.
  assert (Hk := fun m Hm => proj1 (setters_of m key Hm)).
  assert (Hl := proj2 (setters_of n lid Hw)).
  assert (Hwl : pref_writable (setLogicalDeviceId lid n)) by by apply pref_put_writable.
  assert (E1 : <[1%nat := OS (apiKey n)]> (observe bd n) = observe bd n) by reflexivity.
  assert (E2 : <[2%nat := OS (logicalDeviceId n)]> (observe bd n) = observe bd n) by reflexivity.
  rewrite !eqb_nonempty. unfold or_else.
  destruct lid as [|c lid]; cbn [String.length Nat.eqb negb andb].
  - replace (if (String.length (logicalDeviceId n) =? 0)%nat then EmptyString else logicalDeviceId n)
      with (logicalDeviceId n) by (by destruct (logicalDeviceId n)).
    destruct key as [|k key]; cbn [String.length Nat.eqb negb andb]; cbv beta iota; split_and!;
      rewrite ?E1, ?E2, ?Hk by done; done.
  - set (v := String c lid) in *.
    destruct (String.eqb_spec (logicalDeviceId n) v) as [Ex|Ex].
    + rewrite andb_false_r. rewrite Ex. cbn [String.length Nat.eqb negb andb v].
      destruct key as [|k key]; cbn [String.length Nat.eqb negb andb]; cbv beta iota; split_and!;
        rewrite ?E1, ?Hk, ?Hl by done; try done; by rewrite !decide_False by naive_solver.
    + rewrite andb_true_r. destruct (logicalDeviceId n) as [|y ex] eqn:En;
        cbn [String.length Nat.eqb negb andb];
        (destruct key as [|k key]; cbn [String.length Nat.eqb negb andb]; cbv beta iota; split_and!;
         rewrite ?E1, ?E2, ?Hk, ?Hl by done; try done).
      2: by rewrite list_insert_insert_ne, E2 by done.
      all: by rewrite decide_False, decide_True by naive_solver.
Qed.

(** ** What a response can reveal *)

(** Everything the accessors show except the WiFi password and the API key,
    of which only the three-way status. *)
Definition public (n : N) : string * list obs :=
  (Diag.apiKeyStatus_ n, <[1%nat := OS EmptyString]> (<[4%nat := OS EmptyString]> (observe bd n))).

Lemma public_spec n1 n2 :
  public n1 = public n2 ->
  Diag.apiKeyStatus_ n1 = Diag.apiKeyStatus_ n2 /\ serverUrl bd n1 = serverUrl bd n2 /\
  logicalDeviceId n1 = logicalDeviceId n2 /\ wifiSsid n1 = wifiSsid n2 /\
  restartCount n1 = restartCount n2 /\ watchdogResetCount n1 = watchdogResetCount n2 /\
  brownoutResetCount n1 = brownoutResetCount n2 /\ pushFailCount n1 = pushFailCount n2 /\
  wifiReconnectCount n1 = wifiReconnectCount n2 /\ crashResetStreak n1 = crashResetStreak n2 /\
  St.securityVersion n1 = St.securityVersion n2.
Proof. unfold public, observe, observe_config, observe_security. cbn. intros [=]. split_and!; congruence. Qed.

Lemma public_spec_calib n1 n2 :
  public n1 = public n2 ->
  cfgVer n1 = cfgVer n2 /\ kFactor n1 = kFactor n2 /\ density n1 = density n2 /\
  tRef n1 = tRef n2 /\ mikiMaxPulseHz n1 = mikiMaxPulseHz n2 /\ mikiSuspectGapS n1 = mikiSuspectGapS n2.
Proof. unfold public, observe, observe_config, observe_security. cbn. intros [=]. split_and!; congruence. Qed.

Lemma factory_provision_public body n1 n2 :
  pref_writable n1 -> pref_writable n2 -> public n1 = public n2 ->
  fst (factory_provision body n1) = fst (factory_provision body n2).
Proof.
  intros Hw1 Hw2 Hp. destruct (public_spec _ _ Hp) as (Ek & _ & El & _).
  unfold factory_provision. rewrite !eqb_nonempty, <- El.
  set (lid := Ota.extractStr_ body "logical_device_id"). set (key := Ota.extractStr_ body "api_key").
  clearbody lid key. destruct (_ && _); [done|].
  set (cf := _ && _ && _). clearbody cf.
  set (w := negb _ && negb cf). clearbody w.
  assert (Ew : forall n, pref_writable n ->
    let n' := if w then setLogicalDeviceId lid n else n in
    pref_writable n' /\ Diag.apiKeyStatus_ n' = Diag.apiKeyStatus_ n /\
    logicalDeviceId n' = if w then lid else logicalDeviceId n).
  { intros n Hn. destruct w; [|done]. split; [by apply pref_put_writable|].
    unfold Diag.apiKeyStatus_, apiKey, logicalDeviceId, setLogicalDeviceId, p_get, p_put.
    nvs_solve. done. }
  destruct (Ew n1 Hw1) as (Hw1' & Ek1 & El1), (Ew n2 Hw2) as (Hw2' & Ek2 & El2). clear Ew.
  set (m1 := if w then _ else n1) in *. set (m2 := if w then _ else n2) in *. clearbody m1 m2.
  assert (Em : logicalDeviceId (if negb (String.length key =? 0)%nat then setApiKey key m1 else m1)
             = logicalDeviceId (if negb (String.length key =? 0)%nat then setApiKey key m2 else m2) /\
               Diag.apiKeyStatus_ (if negb (String.length key =? 0)%nat then setApiKey key m1 else m1)
             = Diag.apiKeyStatus_ (if negb (String.length key =? 0)%nat then setApiKey key m2 else m2)).
  { destruct (negb _); [|by rewrite El1, El2, Ek1, Ek2, El, Ek].
    unfold Diag.apiKeyStatus_, apiKey, logicalDeviceId, setApiKey, p_get, p_put in *.
    nvs_solve. by rewrite El1, El2, El. }
  destruct Em as [El' Ek']. rewrite El', Ek'. by destruct cf.
Qed.

(** C33: no response of the LAN API tells two devices apart that differ only
    in the WiFi password and in the API key: whatever the request and the
    state of the device, the answer is a function of the other settings and
    of the key's status (missing, default or configured). *)
Theorem lan_leaks_no_secret h body r s l x n1 n2 :
  pref_writable n1 -> pref_writable n2 -> public n1 = public n2 ->
  fst (handle h body r s l (with_nvs n1 x)) = fst (handle h body r s l (with_nvs n2 x)).
Proof.
  intros Hw1 Hw2 Hp.
  destruct (public_spec _ _ Hp) as (E1 & E2 & E3 & E4 & E5 & E6 & E7 & E8 & E9 & E10 & E11).
  destruct h; cbn [Lan.handle with_nvs o_nvs o_store o_tot o_hw o_queue o_sync o_ota o_stuck o_disk fst];
    try done.
  - unfold Diag.buildInfoJson. by rewrite E3, E11.
  - rewrite E10. unfold Diag.buildStatusJson, Diag.ota_status_json. by rewrite E1, E2, E4, E11.
  - by rewrite E10.
  - unfold Diag.buildMetricsJson. by rewrite E5, E6, E7, E8, E9, E10.
  - by apply factory_provision_public.
  - unfold html. cbn [with_nvs o_nvs o_store o_tot o_hw o_queue o_sync o_ota o_stuck o_disk].
    by rewrite E1, E2, E4, E10.
Qed.
End theorems.

(** ** Witnesses *)

#[local] Existing Instance LittleFsBackend.backend.
#[local] Existing Instance Tot.Z_pcnt.
#[local] Existing Instance MemNvs.preferences.
#[local] Existing Instance MemNvs.preferences_laws.

Definition factory_build : Build :=
  {| MIKI_WIRE_PROFILE := false; BOARD_MODE := BOARD_RELAY1CH; SENSOR_MODE := SENSOR_MODE_NPN;
     RELEASE_BUILD := false; FACTORY_TEST_BUILD := true; WDT_TEST_BUILD := false; WATCHDOG_ENABLE := true;
     WATCHDOG_TIMEOUT_S := 90 |}.
Definition demo_id : Diag.BuildId :=
  {| Diag.BUILD_COMMIT := "0000000"; Diag.BUILD_DIRTY := false; Diag.BUILD_TIME_UTC := "0" |}.
Definition demo_readings : Diag.Readings :=
  {| Diag.rd_millis := 60000; Diag.rd_health_now := 60000; Diag.rd_sync_now := 60000;
     Diag.rd_rssi := -60; Diag.rd_reset := 1; Diag.rd_heap := 200000; Diag.rd_heap_min := 150000;
     Diag.rd_stack := 4000; Diag.rd_cpu_mhz := 240; Diag.rd_flash := 16777216; Diag.rd_online := true |}.
Definition demo_objects (n : MemNvs.nvs) : Objects MemNvs.nvs Z MemFs :=
  {| o_store := {| bootId_ := 1 |}; o_nvs := n; o_tot := Tot.new_totalizer; o_hw := 0;
     o_queue := new_queue; o_sync := Sync.new_sync; o_ota := Ota.new_ota;
     o_stuck := Stuck.new SENSOR_STUCK_THRESHOLD_MS; o_disk := mem_empty |}.
Definition no_ftoa (_ : f32) (_ : nat) : string := "0".
Definition no_name (_ : Z) : string := "ESP_OK".

Definition demo_handle h body :=
  handle no_ftoa no_name factory_build demo_id 0 h body demo_readings 60000 new_api
    (demo_objects (setLogicalDeviceId "M-1" nvs_demo)).

Definition provision_body : string := js "{'logical_device_id':'M-2','api_key':'k'}".

Lemma factory_route : ("/api/v1/factory/provision", POST, handleFactoryProvision_) ∈ routes factory_build.
Proof. apply list_elem_of_In. vm_compute. tauto. Qed.

Lemma lan_writes_exact_witness :
  rs_code (fst (demo_handle handleFactoryProvision_ provision_body)) = 409 /\
  logicalDeviceId (snd (demo_handle handleFactoryProvision_ provision_body)) = "M-1" /\
  apiKey (snd (demo_handle handleFactoryProvision_ provision_body)) = "k".
Proof.
  pose proof (lan_writes_exact no_ftoa no_name factory_build demo_id 0 handleFactoryProvision_
    provision_body demo_readings 60000 new_api
    (demo_objects (setLogicalDeviceId "M-1" nvs_demo)) eq_refl
    (or_intror (ex_intro _ "/api/v1/factory/provision" (ex_intro _ POST
       factory_route)))) as H.
  fold (demo_handle handleFactoryProvision_ provision_body) in H.
  destruct (demo_handle handleFactoryProvision_ provision_body) as [resp n'] eqn:E.
  destruct H as (_ & Ho & Hc). cbn [fst snd]. split; [exact Hc|].
  vm_compute in E. injection E as <- <-. split; reflexivity.
Defined.

Lemma lan_leaks_no_secret_witness :
  fst (handle no_ftoa no_name default_build demo_id 0 handleStatus_ EmptyString demo_readings 60000
         new_api (with_nvs (setApiKey "first" nvs_demo) (demo_objects nvs_demo))) =
  fst (handle no_ftoa no_name default_build demo_id 0 handleStatus_ EmptyString demo_readings 60000
         new_api (with_nvs (setWifi DEFAULT_WIFI_SSID "pw" (setApiKey "second" nvs_demo))
                    (demo_objects nvs_demo))).
Proof.
  apply (lan_leaks_no_secret no_ftoa no_name default_build demo_id 0); vm_compute; reflexivity.
Defined.
