(* ===== verification/WifiProvision.v ===== *)
(** * Provisioning over SoftAP (wifi_provision.h)

    The captive portal: its one-shot request flag, its two entry points, the
    validation and the live test of the credentials, and the configuration
    write.  WebServer, DNSServer and the radio are library code: the request
    that arrives, its form arguments and the WiFi status are arguments.  A
    handler that ends in ESP.restart() says so in its outcome. *)

From S2P Require Import Prelude Config Arduino Crc32 Records Storage DualSlot Parse Sensors Boot Store Totalizer QueueData Queue OtaPolicy Telemetry Net Sync Ota Diagnostics LocalApi.
Import St.

Module Portal.

(** [g_wifiProvisionForceAp], kept in RTC memory. *)
Definition requestReprovision (g : bool) : bool := true.
Definition consumeReprovisionRequest (g : bool) : bool * bool := (g, false).

Record WifiProvision := { active_ : bool }.
Definition new_portal : WifiProvision := {| active_ := false |}.
Definition active (w : WifiProvision) : bool := active_ w.

(** "Covio-Setup-<last4>" *)
Definition apSsid_ (mac : Z) : string :=
  let hwid := deviceId mac in "Covio-Setup-" +:+ sdrop (String.length hwid - 4) hwid.

Inductive Handler := handleFormGet_ | handleSubmit_ | handleConfigApi_.

Definition routes : list (string * http_method * Handler) :=
  [("/", GET, handleFormGet_); ("/", POST, handleSubmit_); ("/api/v1/config", POST, handleConfigApi_)].

(** The name of the access point started (softAP, with no password). *)
Definition begin (mac : Z) (w : WifiProvision) : string * WifiProvision :=
  (apSsid_ mac, {| active_ := true |}).

Definition stop_ (w : WifiProvision) : WifiProvision := {| active_ := false |}.

(** ** Validation and the live test *)

(** [None], or (errCode, errMsg). *)
Definition validateFields_ (ssid pass url key : string) : option (string * string) :=
  if (String.length ssid =? 0)%nat || (String.length pass =? 0)%nat ||
     (String.length url =? 0)%nat || (String.length key =? 0)%nat
  then Some ("CONFIG_MISSING_FIELD",
             "wifi_ssid, wifi_pass, server_url, and api_key are all required together")
  else if negb (starts_with "http://" url || starts_with "https://" url)
  then Some ("CONFIG_INVALID_URL", "server_url must start with http:// or https://")
  else None.

(** [te_polls]: at each evaluation of the loop condition, whether the station
    is connected, and millis(); [te_final]: the status returned. *)
Record TestEnv := { te_start : Z; te_polls : list (bool * Z); te_final : bool }.

(** The [while] loop; [None] while it is still waiting. *)
Fixpoint test_loop (start : Z) (polls : list (bool * Z)) : option unit :=
  match polls with
  | [] => None
  | (connected, now) :: polls =>
      if negb connected && (u32 (now - start) <? AP_TEST_CONNECT_TIMEOUT_MS)
      then test_loop start polls else Some tt
  end.

Definition testWifiCredentials_ (e : TestEnv) : option bool :=
  match test_loop (te_start e) (te_polls e) with
  | None => None
  | Some _ => Some (te_final e)
  end.

Section handlers.
Context {N : Type} `{Preferences N}.
Variable bd : Build.

Definition writeConfig_ (ssid pass url key : string) (n : N) : N :=
  setApiKey key (setServerUrl url (setWifi ssid pass n)).

(** ** The pages *)

Definition form (error : string) (n : N) : string :=
  cat [
  js "<html><head><title>Covio Setup</title><meta charset='utf-8'>";
  js "<meta name='viewport' content='width=device-width,initial-scale=1'>";
  "<style>body{font-family:system-ui;margin:2rem;max-width:420px}";
  "label{display:block;margin-top:1rem;font-weight:600}";
  "input{width:100%;padding:.5rem;box-sizing:border-box;margin-top:.25rem}";
  "button{margin-top:1.5rem;padding:.6rem 1.2rem}";
  ".err{background:#fee;border:1px solid #c33;padding:.6rem;border-radius:4px;color:#900}";
  "</style></head><body>";
  "<h2>Covio Device Setup</h2>";
  (if (String.length error =? 0)%nat then EmptyString
   else cat [js "<div class='err'>"; htmlEscape_ error; "</div>"]);
  js "<form method='POST' action='/'>";
  "<label>WiFi network name</label>";
  cat [js "<input name='wifi_ssid' required value='"; htmlEscape_ (wifiSsid n); js "'>"];
  "<label>WiFi password</label>";
  js "<input name='wifi_pass' type='password' required>";
  "<label>Server URL</label>";
  cat [js "<input name='server_url' required value='"; htmlEscape_ (serverUrl bd n); js "'>"];
  "<label>API key</label>";
  js "<input name='api_key' type='password' required>";
  js "<button type='submit'>Save &amp; Connect</button>";
  "</form>";
  "<p><small>WiFi password and API key are never pre-filled or displayed -- re-enter them each time, even if unchanged.</small></p>";
  "</body></html>"
  ].

Definition handleForm_ (error : string) (n : N) : Response := send 200 "text/html" (form error n).

Definition successPageHtml_ : string :=
  js "<html><head><title>Covio Setup</title><meta charset='utf-8'></head><body style='font-family:system-ui;margin:2rem'><h2>Saved</h2><p>Rebooting and connecting to your WiFi network now. This setup network will disappear shortly.</p></body></html>".

(** ** The entry points *)

Record Outcome := {
  oc_response : Response;
  oc_nvs : N;
  oc_tested : option (string * string);   (* WiFi.begin of the live test *)
  oc_restart : bool;                      (* ESP.restart() *)
}.

Definition submit (arg : string -> string) (t : TestEnv) (n : N) : option Outcome :=
  let ssid := arg "wifi_ssid" in
  let pass := arg "wifi_pass" in
  let url := arg "server_url" in
  let key := arg "api_key" in
  match validateFields_ ssid pass url key with
  | Some (_, errMsg) =>
      Some {| oc_response := handleForm_ errMsg n; oc_nvs := n; oc_tested := None; oc_restart := false |}
  | None =>
      match testWifiCredentials_ t with
      | None => None
      | Some false =>
          Some {| oc_response :=
                    handleForm_ (cat [js "Could not connect to '"; ssid;
                      js "' -- check the WiFi network name and password and try again."]) n;
                  oc_nvs := n; oc_tested := Some (ssid, pass); oc_restart := false |}
      | Some true =>
          Some {| oc_response := send 200 "text/html" successPageHtml_;
                  oc_nvs := writeConfig_ ssid pass url key n;
                  oc_tested := Some (ssid, pass); oc_restart := true |}
      end
  end.

Definition config_api (body : string) (n : N) : Outcome :=
  let ssid := Ota.extractStr_ body "wifi_ssid" in
  let pass := Ota.extractStr_ body "wifi_pass" in
  let url := Ota.extractStr_ body "server_url" in
  let key := Ota.extractStr_ body "api_key" in
  match validateFields_ ssid pass url key with
  | Some (errCode, errMsg) =>
      {| oc_response := send 400 "application/json"
           (cat [js "{'error':{'code':'"; errCode; js "','message':'"; errMsg; js "'}}"]);
         oc_nvs := n; oc_tested := None; oc_restart := false |}
  | None =>
      {| oc_response := send 200 "application/json" (js "{'success':true}");
         oc_nvs := writeConfig_ ssid pass url key n; oc_tested := None; oc_restart := true |}
  end.

(** [rq_arg]: server_.arg; the body of a JSON request is arg("plain"). *)
Record Request := { rq_handler : Handler; rq_arg : string -> string; rq_test : TestEnv }.

Definition handle (r : Request) (n : N) : option Outcome :=
  match rq_handler r with
  | handleFormGet_ =>
      Some {| oc_response := handleForm_ EmptyString n; oc_nvs := n; oc_tested := None;
              oc_restart := false |}
  | handleSubmit_ => submit (rq_arg r) (rq_test r) n
  | handleConfigApi_ => Some (config_api (rq_arg r "plain") n)
  end.

(** What service() leaves: the reboot a handler ended in, or its result. *)
Inductive served := Restarted | Returned (handover : bool).

(** [connected]: WiFi.status() after the request. *)
Definition service (r : option Request) (connected : bool) (w : WifiProvision) (n : N)
  : option (option Outcome * WifiProvision * N * served) :=
  if negb (active_ w) then Some (None, w, n, Returned false) else
  let finish oc n :=
    if connected then (oc, stop_ w, n, Returned true) else (oc, w, n, Returned false) in
  match r with
  | None => Some (finish None n)
  | Some r =>
      match handle r n with
      | None => None
      | Some oc => if oc_restart oc then Some (Some oc, w, oc_nvs oc, Restarted)
                   else Some (finish (Some oc) (oc_nvs oc))
      end
  end.
End handlers.

End Portal.

(** ** Properties *)

Module PortalSpec.
Import Portal StoreSpec.

Section theorems.
Context {N : Type} `{PreferencesLaws N}.
Variable bd : Build.

(** The four fields a request submits. *)
Definition submitted (r : Request) : option (string * string * string * string) :=
  match rq_handler r with
  | handleFormGet_ => None
  | handleSubmit_ => Some (rq_arg r "wifi_ssid", rq_arg r "wifi_pass", rq_arg r "server_url", rq_arg r "api_key")
  | handleConfigApi_ =>
      let f k := Ota.extractStr_ (rq_arg r "plain") k in
      Some (f "wifi_ssid", f "wifi_pass", f "server_url", f "api_key")
  end.

Definition complete (x : string * string * string * string) : Prop :=
  let '(ssid, pass, url, key) := x in
  ssid <> EmptyString /\ pass <> EmptyString /\ key <> EmptyString /\
  exists rest, url = "http://" +:+ rest \/ url = "https://" +:+ rest.

Lemma validate_complete ssid pass url key :
  validateFields_ ssid pass url key = None <-> complete (ssid, pass, url, key).
Proof.
  unfold validateFields_, complete. split.
  - destruct ssid, pass, url as [|c url], key; cbn [String.length Nat.eqb orb]; try done.
    destruct (starts_with "http://" _) eqn:E1.
    { apply starts_with_spec in E1 as [r ->]. intros _. split_and!; try done. eauto. }
    destruct (starts_with "https://" _) eqn:E2; [|done].
    apply starts_with_spec in E2 as [r ->]. intros _. split_and!; try done. eauto.
  - intros (Hs & Hp & Hk & r & Hu).
    destruct ssid, pass, key; try done. cbn [String.length Nat.eqb orb].
    destruct Hu as [-> | ->]; rewrite starts_with_app, ?orb_true_r; done.
Qed.

Lemma write_config_observe ssid pass url key (n : N) :
  pref_writable n ->
  observe bd (writeConfig_ ssid pass url key n) =
  <[0%nat := OS url]> (<[1%nat := OS key]> (<[3%nat := OS ssid]> (<[4%nat := OS pass]> (observe bd n)))).
Proof. intros Hw. unfold writeConfig_. observe_solve. Qed.


(** The pages and answers of the portal never show the stored WiFi
    password or API key: a request is answered alike by two devices that
    differ only there. *)
Theorem portal_leaks_no_secret r (n1 n2 : N) oc1 :
  wifiSsid n1 = wifiSsid n2 -> serverUrl bd n1 = serverUrl bd n2 ->
  handle bd r n1 = Some oc1 ->
  exists oc2, handle bd r n2 = Some oc2 /\ oc_response oc1 = oc_response oc2.
Proof.
  intros Es Eu. assert (Ef : forall e, handleForm_ bd e n1 = handleForm_ bd e n2)
    by (intros e; unfold handleForm_, form; by rewrite Es, Eu).
  unfold handle, submit, config_api. rewrite !Ef.
  destruct (rq_handler r); repeat case_match; intros [= <-]; eexists; split; try done;
    cbn [oc_response]; by rewrite ?Ef.
Qed.
End theorems.

(** The clock readings of the loop: [t i] is the true time of the [i]-th
    evaluation, at least the 50 ms of delay(50) after the one before. *)
Definition paced (t : nat -> Z) : Prop := forall i, t i + 50 <= t (S i) <= t i + 2 ^ 31.

Lemma test_loop_ends (t : nat -> Z) (c : nat -> bool) start i k :
  paced t -> start <= t i < start + 2 ^ 32 -> 15000 <= t i - start + 50 * Z.of_nat k ->
  test_loop (u32 start) ((fun j => (c j, u32 (t j))) <$> seq i (S k)) = Some tt.
Proof.
  intros Hp. revert i. induction k as [|k IH]; intros i Hi Hk; cbn [seq fmap list_fmap test_loop];
    rewrite (u32_since start (t i)) by lia; unfold AP_TEST_CONNECT_TIMEOUT_MS.
  - destruct (Z.ltb_spec (t i - start) 15000); [lia|by rewrite andb_false_r].
  - destruct (Z.ltb_spec (t i - start) 15000); [|by rewrite andb_false_r].
    destruct (c i); cbn [negb andb]; [done|]. specialize (Hp i). apply IH; lia.
Qed.

(** C28: the live test of submitted credentials ends: whatever the radio does
    and wherever the 32-bit clock wraps, the loop is left after at most 301
    evaluations of its condition, so the portal answers the form. *)
Theorem portal_test_terminates (t : nat -> Z) (c : nat -> bool) start final :
  paced t -> start <= t 0%nat < start + 2 ^ 31 ->
  testWifiCredentials_ {| te_start := u32 start;
    te_polls := (fun j => (c j, u32 (t j))) <$> seq 0 301; te_final := final |} = Some final.
Proof.
  intros Hp H0. unfold testWifiCredentials_. cbn [te_start te_polls te_final].
  by rewrite test_loop_ends by (done || lia).
Qed.

Lemma portal_test_terminates_witness :
  testWifiCredentials_ {| te_start := u32 (2 ^ 32 - 100);
    te_polls := (fun j => (false, u32 (2 ^ 32 - 100 + 50 * Z.of_nat j))) <$> seq 0 301;
    te_final := false |} = Some false.
Proof.
  apply (portal_test_terminates (fun j => 2 ^ 32 - 100 + 50 * Z.of_nat j) (fun _ => false) (2 ^ 32 - 100)).
  - intros i. lia.
  - lia.
Defined.

#[local] Existing Instance MemNvs.preferences.
#[local] Existing Instance MemNvs.preferences_laws.

Definition demo_args (k : string) : string :=
  if String.eqb k "wifi_ssid" then "plant" else if String.eqb k "wifi_pass" then "secret"
  else if String.eqb k "server_url" then "https://lcs.local" else "key-1".
Definition demo_request : Request :=
  {| rq_handler := handleSubmit_; rq_arg := demo_args;
     rq_test := {| te_start := 0; te_polls := [(false, 10); (true, 60)]; te_final := true |} |}.

Definition demo_outcome : Outcome :=
  {| oc_response := send 200 "text/html" successPageHtml_;
     oc_nvs := writeConfig_ "plant" "secret" "https://lcs.local" "key-1" nvs_demo;
     oc_tested := Some ("plant", "secret"); oc_restart := true |}.


Lemma portal_leaks_no_secret_witness :
  exists oc2, handle default_build demo_request (setApiKey "other" nvs_demo) = Some oc2 /\
              oc_response demo_outcome = oc_response oc2.
Proof.
  exact (portal_leaks_no_secret default_build demo_request nvs_demo (setApiKey "other" nvs_demo)
    demo_outcome eq_refl eq_refl eq_refl).
Defined.

End PortalSpec.
