(* ===== verification/Provision.v ===== *)
(** * The serial provisioning console (provision.h)

    Line assembly, the commands and what they print.  The reset, the clock
    and String::toInt are library code; [q_] and [tot_] are wired, as
    covio_firmware.ino wires them, and WDT_TEST_BUILD (a bench build with a
    deliberate hang) is off. *)

From S2P Require Import Prelude Config Arduino Crc32 Records Storage DualSlot Parse Sensors Boot Store Totalizer QueueData Queue OtaPolicy Telemetry Net Sync Ota Diagnostics LocalApi WifiProvision.
Import St EventQueue.

Module Console.

Record Provision := { buf_ : string }.
Definition new_console : Provision := {| buf_ := EmptyString |}.

(** What a command ends in: the console goes on, ESP.restart(), or never. *)
Inductive ctl :=
  | Go
  | Restart
  | Hang.                         (* the busy loop of test_hang *)
#[global] Instance ctl_eq_dec : EqDecision ctl.
Proof. solve_decision. Defined.

(** [isspace] *)
Definition is_space (c : Ascii.ascii) : bool :=
  (code c =? 32) || ((9 <=? code c) && (code c <=? 13)).

Fixpoint skip_spaces (s : string) : string :=
  match s with
  | String c r => if is_space c then skip_spaces r else s
  | EmptyString => EmptyString
  end.
Fixpoint chop_spaces (s : string) : string :=
  match s with
  | EmptyString => EmptyString
  | String c r =>
      match chop_spaces r with
      | EmptyString => if is_space c then EmptyString else String c EmptyString
      | r => String c r
      end
  end.
(** [line.trim()] *)
Definition trim (s : string) : string := chop_spaces (skip_spaces s).

Section console.
Context {N HW Disk : Type} `{Preferences N} `{Pcnt HW} `{LittleFS Disk} `{SB : StorageBackend Disk}.
Variable C : Crypto.
Variable ftoa : f32 -> nat -> string.
Variable toInt : string -> Z.
Variable bd : Build.
Variable mac : Z.

#[local] Abbreviation Objects := (Objects N HW Disk).

Definition with_queue (q : EventQueue) (t : Tot.Totalizer) (d : Disk) (x : Objects) : Objects :=
  {| o_store := o_store x; o_nvs := o_nvs x; o_tot := t; o_hw := o_hw x; o_queue := q;
     o_sync := o_sync x; o_ota := o_ota x; o_stuck := o_stuck x; o_disk := d |}.

Definition apiKeyDisplay_ (n : N) : string :=
  let key := apiKey n in
  let status := credentialDisplayStatusStr (classifyCredential (Some key) (Some DEFAULT_API_KEY)) in
  let fp := Ota.hex_of (take 6 (sha256 C (String.list_byte_of_string key))) in
  cat [status; " (fingerprint="; fp; ")"].

(** The lines of [show]. *)
Definition show_text (st : Store) (n : N) : list string :=
  [cat ["device_id : "; deviceId mac];
   cat ["fw        : "; FW_VERSION];
   cat ["boot_id   : "; dec (bootId st)];
   cat ["server_url: "; serverUrl bd n];
   cat ["api_key   : "; apiKeyDisplay_ n];
   cat ["wifi_ssid : "; wifiSsid n];
   cat ["calib     : v"; dec (cfgVer n); "  K="; ftoa (kFactor n) 4; "  density="; ftoa (density n) 3;
        "  Tref="; ftoa (tRef n) 1];
   cat ["diag      : restarts="; dec (restartCount n); " watchdog="; dec (watchdogResetCount n);
        " brownout="; dec (brownoutResetCount n); " wifi_reconnects="; dec (wifiReconnectCount n);
        " push_fails="; dec (pushFailCount n); " crash_streak="; dec (crashResetStreak n)]] ++
  (if MIKI_WIRE_PROFILE bd
   then [cat ["miki      : maxhz="; dec (mikiMaxPulseHz n); " suspect_gap_s="; dec (mikiSuspectGapS n)]]
   else []).

(** The text after the command word [p], if the line starts with it. *)
Definition after (p line : string) : option string :=
  if starts_with p line then Some (sdrop (String.length p) line) else None.

Definition set_wifi (rest : string) (x : Objects) : list string * Objects :=
  match indexOf " " rest with
  | Some (S sp) =>
      (["[PROV] wifi saved. 'reboot' to apply."],
       Lan.with_nvs (setWifi (String.substring 0 (S sp) rest) (sdrop (S (S sp)) rest) (o_nvs x)) x)
  | _ => (["[PROV] usage: set wifi <ssid> <pass>"], x)
  end.

Definition set_maxhz (rest : string) (x : Objects) : list string * Objects :=
  let v := u32 (toInt rest) in
  let '(ok, n) := setMikiMaxPulseHz v (o_nvs x) in
  (if ok then [cat ["[PROV] miki maxhz="; dec v; " saved (0=monitor off). Applies within 1s."]]
   else [cat ["[PROV] REFUSED: maxhz must be 0.."; dec MIKI_MAX_PULSE_HZ_LIMIT]],
   Lan.with_nvs n x).

Definition set_suspects (rest : string) (x : Objects) : list string * Objects :=
  let v := u32 (toInt rest) in
  let '(ok, n) := setMikiSuspectGapS v (o_nvs x) in
  (if ok then [cat ["[PROV] miki suspect_gap_s="; dec v; " saved (0=off). Applies within 1s."]]
   else [cat ["[PROV] REFUSED: suspects must be 0 or "; dec MIKI_SUSPECT_GAP_S_MIN; "..";
              dec MIKI_SUSPECT_GAP_S_MAX; " seconds"]],
   Lan.with_nvs n x).

(** The commands with an argument, in the order of their tests. *)
Definition handle_set (line : string) (x : Objects) : option (list string * Objects) :=
  match after "set url " line with
  | Some v => Some (["[PROV] server_url saved. 'reboot' to apply cleanly."],
                    Lan.with_nvs (setServerUrl v (o_nvs x)) x)
  | None =>
  match after "set key " line with
  | Some v => Some (["[PROV] api_key saved."], Lan.with_nvs (setApiKey v (o_nvs x)) x)
  | None =>
  match after "set wifi " line with
  | Some rest => Some (set_wifi rest x)
  | None =>
  if negb (MIKI_WIRE_PROFILE bd) then None else
  match after "set maxhz " line with
  | Some v => Some (set_maxhz v x)
  | None =>
  match after "set suspects " line with
  | Some v => Some (set_suspects v x)
  | None => None
  end end end end end.

(** One line; [g] is the RTC flag of wifi_provision.h. *)
Definition handle_ (line : string) (x : Objects) (g : bool) : list string * Objects * bool * ctl :=
  let line := trim line in
  if String.eqb line "help" then
    (["cmds: show | set url <u> | set key <k> | set wifi <ssid> <pass> | reboot | factory | provision | reset_ack | recover_queue"] ++
     (if MIKI_WIRE_PROFILE bd then
        ["miki: set maxhz <0..2000> (pulse plausibility ceiling, 0=off) | set suspects <0|60..604800> (longest plausible idle, seconds, 0=off)"]
      else []), x, g, Go)
  else if String.eqb line "show" then (show_text (o_store x) (o_nvs x), x, g, Go)
  else match handle_set line x with
  | Some (out, x) => (out, x, g, Go)
  | None =>
      if String.eqb line "reboot" then (["[PROV] rebooting..."], x, g, Restart)
      else if String.eqb line "factory" then
        (["[PROV] factory reset: wiping NVS, rebooting..."],
         Lan.with_nvs (factoryReset (o_nvs x)) x, g, Restart)
      else if String.eqb line "provision" then
        (["[PROV] will re-enter AP-mode setup on next boot. Rebooting..."], x,
         Portal.requestReprovision g, Restart)
      else if String.eqb line "reset_ack" then
        let currentSeq := Tot.lastSeq (o_tot x) in
        let '(q, d) := resetAckToCurrentPosition currentSeq (o_queue x) (o_tot x) (o_disk x) in
        ([cat ["[PROV] ack cursor reset to current position: seq="; dec currentSeq;
               ". 'reboot' to apply cleanly."]],
         with_queue q (o_tot x) d x, g, Go)
      else if String.eqb line "recover_queue" then
        let '(q, t, d) := recoverQueueStorage (o_queue x) (o_tot x) (o_disk x) in
        (["[PROV] queue storage recovered: seg_000000.bin removed, write cursor reset to 0/0."],
         with_queue q t d x, g, Go)
      else if WDT_TEST_BUILD bd && String.eqb line "test_hang" then
        ([cat ["[WDT-TEST] simulating firmware hang NOW -- expect a watchdog reset within ";
               dec (WATCHDOG_TIMEOUT_S bd); "s..."]], x, g, Hang)
      else (["[PROV] unknown. type: help"], x, g, Go)
  end.

(** [c == '\n' || c == '\r'] *)
Definition eol (c : Ascii.ascii) : bool := (code c =? 10) || (code c =? 13).

(** service() over the characters Serial holds; a restart or a hang ends it. *)
Fixpoint service (input : string) (p : Provision) (x : Objects) (g : bool)
  : list string * Provision * Objects * bool * ctl :=
  match input with
  | EmptyString => ([], p, x, g, Go)
  | String c input =>
      if eol c then
        if (0 <? String.length (buf_ p))%nat then
          let '(out, x, g, k) := handle_ (buf_ p) x g in
          match k with
          | Go =>
              let '(out', p, x, g, k) := service input {| buf_ := EmptyString |} x g in
              (out ++ out', p, x, g, k)
          | _ => (out, p, x, g, k)
          end
        else service input {| buf_ := EmptyString |} x g
      else if (String.length (buf_ p) <? 220)%nat
      then service input {| buf_ := buf_ p +:+ String c EmptyString |} x g
      else service input p x g
  end.
End console.

End Console.
