(* ===== verification/ConsoleTheorems.v ===== *)
(** * Properties of the serial console

    The character loop against a line splitter, the footprint of every
    command, and what the console can print. *)

From S2P Require Import Prelude Config Arduino Crc32 Records Storage DualSlot Parse Sensors Boot Store Totalizer QueueData Queue OtaPolicy Telemetry Net Sync Ota Diagnostics LocalApi LanTheorems WifiProvision Provision.
Import St EventQueue Console StoreSpec.

(** ** Lines *)

(** The complete lines of a text, and what follows the last line end. *)
Fixpoint split_lines (s : string) : list string * string :=
  match s with
  | EmptyString => ([], EmptyString)
  | String c s =>
      let '(ls, rest) := split_lines s in
      if eol c then (EmptyString :: ls, rest)
      else match ls with
           | [] => ([], String c rest)
           | l :: ls => (String c l :: ls, rest)
           end
  end.

(** The first 220 characters. *)
Definition clip (s : string) : string := String.substring 0 220 s.

Definition nonempty (s : string) : bool := negb (String.length s =? 0)%nat.

Fixpoint no_eol (s : string) : bool :=
  match s with EmptyString => true | String c s => negb (eol c) && no_eol s end.

Lemma sub_snoc n l c :
  String.substring 0 n (l +:+ String c EmptyString) =
  if (String.length (String.substring 0 n l) <? n)%nat
  then String.substring 0 n l +:+ String c EmptyString else String.substring 0 n l.
Proof.
  revert n. induction l as [|x l IH]; intros [|n]; try done; rewrite ?str_cons_app; cbn [String.substring].
  - by destruct n.
  - rewrite IH. cbn [String.length].
    destruct (Nat.ltb_spec (String.length (String.substring 0 n l)) n),
      (Nat.ltb_spec (S (String.length (String.substring 0 n l))) (S n)); done || lia.
Qed.

Lemma sub_length n l : (String.length (String.substring 0 n l) <= n)%nat.
Proof. revert n. induction l as [|x l IH]; intros [|n]; simpl; try lia. specialize (IH n). lia. Qed.

Lemma sub_whole n l : (String.length l <= n)%nat -> String.substring 0 n l = l.
Proof.
  revert n. induction l as [|x l IH]; intros [|n]; simpl; try done; [lia|]. intros. by rewrite IH by lia.
Qed.

Lemma clip_nonempty l : nonempty (clip l) = nonempty l.
Proof. by destruct l. Qed.

Lemma no_eol_snoc l c : no_eol (l +:+ String c EmptyString) = no_eol l && negb (eol c).
Proof.
  induction l as [|x l IH]; [by rewrite str_nil_app; simpl; rewrite andb_true_r|].
  rewrite str_cons_app. simpl. by rewrite IH, andb_assoc.
Qed.

Lemma split_lines_app l s :
  no_eol l = true ->
  split_lines (l +:+ s) =
  match fst (split_lines s) with
  | [] => ([], l +:+ snd (split_lines s))
  | x :: ls => ((l +:+ x) :: ls, snd (split_lines s))
  end.
Proof.
  induction l as [|c l IH]; intros Hl; rewrite ?str_nil_app, ?str_cons_app.
  - destruct (split_lines s) as [[|x ls] rest]; done.
  - cbn [no_eol] in Hl. apply andb_prop in Hl as [Hc Hl]. apply negb_true_iff in Hc.
    cbn [split_lines]. rewrite (IH Hl), Hc. by destruct (fst (split_lines s)).
Qed.

Section theorems.
Context {N HW Disk : Type} `{PreferencesLaws N} `{Pcnt HW} `{LittleFS Disk} `{SB : StorageBackend Disk}.
Variable C : Crypto.
Variable ftoa : f32 -> nat -> string.
Variable toInt : string -> Z.
Variable bd : Build.
Variable mac : Z.

#[local] Abbreviation Objects := (Objects N HW Disk).
#[local] Abbreviation handle_ := (handle_ (N := N) (HW := HW) (Disk := Disk) C ftoa toInt bd mac).
#[local] Abbreviation service := (service (N := N) (HW := HW) (Disk := Disk) C ftoa toInt bd mac).

(** One command per line, until one restarts or hangs the device. *)
Fixpoint run_lines (ls : list string) (x : Objects) (g : bool) : list string * Objects * bool * ctl :=
  match ls with
  | [] => ([], x, g, Go)
  | l :: ls =>
      let '(out, x, g, k) := handle_ l x g in
      match k with
      | Go => let '(out', x, g, k) := run_lines ls x g in (out ++ out', x, g, k)
      | _ => (out, x, g, k)
      end
  end.

Lemma service_lines input l p x g :
  buf_ p = clip l -> no_eol l = true ->
  let '(out, p', x', g', k) := service input p x g in
  let '(ls, rest) := split_lines (l +:+ input) in
  (out, x', g', k) = run_lines (List.filter nonempty (clip <$> ls)) x g /\
  (k = Go -> buf_ p' = clip rest) /\ (String.length (buf_ p') <= 220)%nat.
Proof.
  revert l p x g. induction input as [|c input IH]; intros l p x g Hb Hl; cbn [Console.service].
  - rewrite split_lines_app by done. cbn. rewrite str_app_nil_r. split_and!; [done|done|].
    rewrite Hb. apply sub_length.
  - destruct (eol c) eqn:Ec.
    + rewrite split_lines_app by done. cbn [split_lines]. rewrite Ec.
      specialize (IH EmptyString {| buf_ := EmptyString |}). rewrite str_nil_app in IH.
      destruct (split_lines input) as [ls rest]. cbn [fst snd fmap list_fmap List.filter].
      rewrite str_app_nil_r, clip_nonempty. rewrite eqb_nonempty. fold (nonempty (buf_ p)).
      rewrite Hb, clip_nonempty. destruct (nonempty l); [|by apply IH].
      cbn [run_lines]. destruct (handle_ (clip l) x g) as [[[out x1] g1] []].
      * specialize (IH x1 g1 eq_refl eq_refl).
        destruct (service input _ x1 g1) as [[[[out' p'] x'] g'] k].
        destruct (run_lines _ x1 g1) as [[[o2 x2] g2] k2]. destruct IH as ([= -> -> -> ->] & IH2). done.
      * split_and!; [done|done|]. rewrite Hb. apply sub_length.
      * split_and!; [done|done|]. rewrite Hb. apply sub_length.
    + replace (l +:+ String c input) with ((l +:+ String c EmptyString) +:+ input)
        by (by rewrite <- str_app_assoc).
      assert (Hn : no_eol (l +:+ String c EmptyString) = true) by (by rewrite no_eol_snoc, Hl, Ec).
      assert (Hc : clip (l +:+ String c EmptyString) =
        if (String.length (buf_ p) <? 220)%nat then buf_ p +:+ String c EmptyString else buf_ p)
        by (rewrite Hb; apply sub_snoc).
      destruct (String.length (buf_ p) <? 220)%nat; by apply IH.
Qed.

(** C29: the console's character loop is line discipline: feeding it any text
    in any pieces runs exactly the non-empty lines of that text, each cut to
    its first 220 characters, in order, stopping at the first that restarts
    or hangs the device; what follows the last line end waits in the buffer, which
    never holds more than 220 characters. *)
Theorem console_runs_lines input p x g :
  (String.length (buf_ p) <= 220)%nat -> no_eol (buf_ p) = true ->
  let '(out, p', x', g', k) := service input p x g in
  let '(ls, rest) := split_lines (buf_ p +:+ input) in
  (out, x', g', k) = run_lines (List.filter nonempty (clip <$> ls)) x g /\
  (k = Go -> buf_ p' = clip rest) /\ (String.length (buf_ p') <= 220)%nat.
Proof. intros Hl Hn. apply service_lines; [|done]. symmetry. by apply sub_whole. Qed.

(** ** Footprint *)

(** The settings a console command may change, by their place in [observe]:
    server_url, api_key, wifi ssid and password, the two Miki tunables. *)
Definition settable (i : nat) : bool := existsb (Nat.eqb i) [0; 1; 3; 4; 9; 10]%nat.

Definition same_but (i : nat -> bool) (n n' : N) : Prop :=
  forall j, i j = false -> observe bd n' !! j = observe bd n !! j.

Ltac settable_solve :=
  let j := fresh "j" in let Hj := fresh "Hj" in
  intros j Hj; do 22 (destruct j as [|j]; [first [discriminate Hj | observe_solve]|]); reflexivity.

Lemma set_footprint line (x : Objects) out x' :
  pref_writable (o_nvs x) -> handle_set toInt bd line x = Some (out, x') ->
  exists n, x' = Lan.with_nvs n x /\ same_but settable (o_nvs x) n.
Proof.
  intros Hw. unfold handle_set.
  destruct (after "set url " line); [intros [= _ <-]; eexists; split; [done|settable_solve]|].
  destruct (after "set key " line); [intros [= _ <-]; eexists; split; [done|settable_solve]|].
  assert (Hx : x = Lan.with_nvs (o_nvs x) x) by by destruct x.
  destruct (after "set wifi " line).
  { unfold set_wifi. destruct (indexOf _ _) as [[|sp]|]; intros [= _ <-]; eauto.
    - exists (o_nvs x). done.
    - eexists; split; [done|settable_solve].
    - exists (o_nvs x). done. }
  destruct (MIKI_WIRE_PROFILE bd); [|done]. cbn [negb].
  destruct (after "set maxhz " line).
  { unfold set_maxhz, setMikiMaxPulseHz. destruct (_ <? _); intros [= _ <-];
      (eexists; split; [done|]); [done|settable_solve]. }
  destruct (after "set suspects " line); [|done].
  unfold set_suspects, setMikiSuspectGapS. destruct (_ && _); intros [= _ <-];
    (eexists; split; [done|]); [done|settable_solve].
Qed.

(** The queue, the totalizer and the flash a storage command leaves. *)
Lemma reset_ack_spec (x : Objects) :
  let '(q, d) := resetAckToCurrentPosition (Tot.lastSeq (o_tot x)) (o_queue x) (o_tot x) (o_disk x) in
  tot_wired (o_queue x) = true -> ackedSeq q = Tot.lastSeq (o_tot x) /\ pendingCount q = 0.
Proof.
  unfold resetAckToCurrentPosition. destruct (tot_wired (o_queue x)); cbn [negb]; [|done].
  by unfold persistAck_.
Qed.

Lemma recover_spec (x : Objects) :
  let '(q, t, d) := recoverQueueStorage (o_queue x) (o_tot x) (o_disk x) in
  Tot.base_ t = Tot.base_ (o_tot x) /\ Tot.accumulated_ t = Tot.accumulated_ (o_tot x) /\
  Tot.lastSeq t = Tot.lastSeq (o_tot x) /\ ackedSeq q = ackedSeq (o_queue x).
Proof.
  unfold recoverQueueStorage. destruct (tot_wired (o_queue x)); cbn [negb]; [|done].
  destruct (setQueueOffset 0 0 (o_tot x) _) as [t d] eqn:E.
  cbn in E. unfold Tot.setQueueOffset, Tot.persist_ in E. injection E as <- _.
  unfold persistAck_. done.
Qed.

Definition storage_cmd (cmd : string) : bool := String.eqb cmd "reset_ack" || String.eqb cmd "recover_queue".
Definition restart_cmd (cmd : string) : bool :=
  String.eqb cmd "reboot" || String.eqb cmd "factory" || String.eqb cmd "provision".
Definition hang_cmd (cmd : string) : bool := String.eqb cmd "test_hang".

Lemma set_not_cmd line (x : Objects) r :
  handle_set toInt bd line x = Some r ->
  storage_cmd line = false /\ restart_cmd line = false /\ hang_cmd line = false.
Proof.
  unfold storage_cmd, restart_cmd, hang_cmd.
  repeat match goal with |- context [String.eqb line ?c] => destruct (String.eqb_spec line c) as [->|_] end;
    try done; unfold handle_set; cbn; by destruct (MIKI_WIRE_PROFILE bd).
Qed.

(** C30: what a console line can touch.  No line changes the lifetime count,
    the sequence number or the security settings (anti-downgrade floor,
    confirmed image, unhealthy-boot streak); outside "factory" the settings
    that change are among the six with a "set" command; the two storage
    commands leave every setting alone and all others leave queue, totalizer
    and flash alone; exactly "reboot", "factory" and "provision" restart,
    only "provision" asks for the portal, and only the "test_hang" of a
    watchdog test build never returns. *)
Theorem console_footprint line (x : Objects) g :
  pref_writable (o_nvs x) ->
  let '(_, x', g', k) := handle_ line x g in
  let cmd := trim line in
  observe_security (o_nvs x') = observe_security (o_nvs x) /\
  (cmd <> "factory" -> same_but settable (o_nvs x) (o_nvs x')) /\
  Tot.total (o_tot x') (o_hw x') = Tot.total (o_tot x) (o_hw x) /\
  Tot.lastSeq (o_tot x') = Tot.lastSeq (o_tot x) /\
  (if storage_cmd cmd then x' = with_queue (o_queue x') (o_tot x') (o_disk x') x
   else x' = Lan.with_nvs (o_nvs x') x) /\
  (k = Restart <-> restart_cmd cmd = true) /\
  (k = Hang <-> hang_cmd cmd && WDT_TEST_BUILD bd = true) /\
  g' = (g || String.eqb cmd "provision").
Proof.
  intros Hw. unfold Console.handle_. set (cmd := trim line). clearbody cmd.
  assert (Hx : x = Lan.with_nvs (o_nvs x) x) by by destruct x.
  assert (Hs : same_but settable (o_nvs x) (o_nvs x)) by done.
  destruct (String.eqb_spec cmd "help") as [->|]; [by rewrite orb_false_r|].
  destruct (String.eqb_spec cmd "show") as [->|]; [by rewrite orb_false_r|].
  destruct (handle_set toInt bd cmd x) as [[out x']|] eqn:Eset.
  { destruct (set_not_cmd _ _ _ Eset) as (E1 & E2 & E3).
    destruct (set_footprint _ _ _ _ Hw Eset) as (n & -> & Hn). rewrite E1, E2, E3.
    assert (Esec : observe_security n = observe_security (o_nvs x)).
    { assert (Hd : forall m : N, observe_security m = drop 18 (observe bd m)) by done.
      rewrite !Hd. apply list_eq. intros i. rewrite !lookup_drop. apply Hn. by destruct i. }
    split_and!; try done. unfold restart_cmd in E2. apply orb_false_iff in E2 as [_ ->].
    by rewrite orb_false_r. }
  destruct (String.eqb_spec cmd "reboot") as [->|N1]; [by rewrite orb_false_r|].
  destruct (String.eqb_spec cmd "factory") as [->|N2].
  { split_and!; try done; [|by rewrite orb_false_r]. unfold factoryReset.
    cbn [Lan.with_nvs o_nvs]. observe_solve. }
  destruct (String.eqb_spec cmd "provision") as [->|N3]; [by rewrite orb_true_r|].
  destruct (String.eqb_spec cmd "reset_ack") as [->|N4].
  { destruct (resetAckToCurrentPosition _ _ _ _) as [q d].
    split_and!; try done. by rewrite orb_false_r. }
  destruct (String.eqb_spec cmd "recover_queue") as [->|N5].
  { pose proof (recover_spec x) as Hr. destruct (recoverQueueStorage _ _ _) as [[q t] d].
    destruct Hr as (Eb & Ea & El & _). cbn [with_queue o_nvs o_tot o_hw o_queue o_disk].
    split_and!; try done; [|by rewrite orb_false_r]. unfold Tot.total. by rewrite Eb, Ea. }
  destruct (WDT_TEST_BUILD bd && String.eqb cmd "test_hang") eqn:Eh.
  { apply andb_prop in Eh as [-> ->%String.eqb_eq]. by rewrite orb_false_r. }
  unfold storage_cmd, restart_cmd, hang_cmd. rewrite andb_comm, Eh.
  rewrite !(proj2 (String.eqb_neq cmd _)) by done. cbn [orb]. by rewrite orb_false_r.
Qed.

(** ** What the console prints *)

(** The console's classification of the key is the LAN API's. *)
Lemma credential_status (n : N) :
  credentialDisplayStatusStr (classifyCredential (Some (apiKey n)) (Some DEFAULT_API_KEY))
  = Diag.apiKeyStatus_ n.
Proof.
  unfold classifyCredential, Diag.apiKeyStatus_. destruct (apiKey n) as [|c k]; [done|].
  cbn [String.length Nat.eqb]. rewrite same_to_end_eq. by destruct (String.eqb _ _).
Qed.

(** The first six bytes of the key's SHA-256. *)
Definition fingerprint (n : N) : list byte := take 6 (sha256 C (String.list_byte_of_string (apiKey n))).

(** C31: the console prints no secret: two devices that differ only in the WiFi
    password and in API keys of the same status and the same 48-bit
    fingerprint print the same lines for every command. *)
Theorem console_leaks_no_secret line (x : Objects) g n1 n2 :
  public bd n1 = public bd n2 -> fingerprint n1 = fingerprint n2 ->
  (handle_ line (Lan.with_nvs n1 x) g).1.1.1 = (handle_ line (Lan.with_nvs n2 x) g).1.1.1.
Proof.
  intros Hp Hf. unfold Console.handle_. set (cmd := trim line). clearbody cmd.
  destruct (String.eqb cmd "help"); [done|].
  destruct (String.eqb cmd "show").
  { cbn [fst o_store o_nvs Lan.with_nvs]. unfold show_text, apiKeyDisplay_.
    unfold fingerprint in Hf. rewrite !credential_status, Hf.
    destruct (public_spec bd _ _ Hp) as (E1 & E2 & _ & E4 & E5 & E6 & E7 & E8 & E9 & E10 & _).
    destruct (public_spec_calib bd _ _ Hp) as (F1 & F2 & F3 & F4 & F5 & F6).
    by rewrite E1, E2, E4, E5, E6, E7, E8, E9, E10, F1, F2, F3, F4, F5, F6. }
  assert (Hset : option_map fst (handle_set toInt bd cmd (Lan.with_nvs n1 x))
               = option_map fst (handle_set toInt bd cmd (Lan.with_nvs n2 x))).
  { unfold handle_set, set_wifi, set_maxhz, set_suspects, setMikiMaxPulseHz, setMikiSuspectGapS.
    repeat (case_match; try done). }
  destruct (handle_set toInt bd cmd (Lan.with_nvs n1 x)) as [[o1 x1]|],
    (handle_set toInt bd cmd (Lan.with_nvs n2 x)) as [[o2 x2]|]; try done.
  { by injection Hset as ->. }
  repeat (destruct (String.eqb cmd _); [done|]).
  cbn [o_tot o_queue o_disk Lan.with_nvs].
  destruct (String.eqb cmd "reset_ack"); [by destruct (resetAckToCurrentPosition _ _ _ _)|].
  destruct (String.eqb cmd "recover_queue");
    [by destruct (recoverQueueStorage _ _ _) as [[??]?]|]. by destruct (_ && _).
Qed.
End theorems.

(** ** Witnesses *)

#[local] Existing Instance LittleFsBackend.backend.
#[local] Existing Instance Tot.Z_pcnt.
#[local] Existing Instance MemNvs.preferences.
#[local] Existing Instance MemNvs.preferences_laws.

Definition demo_crypto : Crypto :=
  {| sha256 bs := take 32 (bs ++ replicate 32 Byte.x00); base64_decode _ _ := None;
     pk_parses := true; pk_verify _ _ := false |}.
Definition no_toInt (_ : string) : Z := 0.
Definition line_end : string := String (chr 10) EmptyString.
Definition demo_x : Objects MemNvs.nvs Z MemFs := demo_objects nvs_demo.

Lemma console_runs_lines_witness :
  let '(out, p', _, _, _) :=
    service demo_crypto no_ftoa no_toInt default_build 0 ("frob" +:+ (line_end +:+ "set k")) new_console
      demo_x false in
  out = ["[PROV] unknown. type: help"] /\ buf_ p' = "set k".
Proof.
  pose proof (console_runs_lines demo_crypto no_ftoa no_toInt default_build 0
    ("frob" +:+ (line_end +:+ "set k")) new_console demo_x false ltac:(cbn; lia) eq_refl) as H.
  destruct (service _ _ _ _ _ _ _ _ _) as [[[[out p'] x'] g'] k].
  destruct H as (E & Hb & _). injection E as -> _ _ ->. split; [reflexivity|exact (Hb eq_refl)].
Defined.

Lemma console_footprint_witness :
  let '(_, x', _, k) :=
    handle_ demo_crypto no_ftoa no_toInt default_build 0 "factory" demo_x false in
  St.securityVersion (o_nvs x') = St.securityVersion nvs_demo /\ k = Restart.
Proof.
  pose proof (console_footprint demo_crypto no_ftoa no_toInt default_build 0 "factory" demo_x false eq_refl)
    as H.
  destruct (handle_ _ _ _ _ _ _ _ _) as [[[out x'] g'] k].
  destruct H as (Hs & _ & _ & _ & _ & Hk & _). split; [|by apply Hk].
  unfold observe_security in Hs. injection Hs as Hs _ _ _. exact Hs.
Defined.

Lemma console_leaks_no_secret_witness :
  let run n := (handle_ demo_crypto no_ftoa no_toInt default_build 0 "show"
                  (Lan.with_nvs n demo_x) false).1.1.1 in
  run (setApiKey "prefix-1" nvs_demo) = run (setWifi DEFAULT_WIFI_SSID "pw" (setApiKey "prefix-2" nvs_demo)).
Proof.
  apply (console_leaks_no_secret demo_crypto no_ftoa no_toInt default_build 0); vm_compute; reflexivity.
Defined.
