(* ===== verification/Main.v ===== *)
(** * The main program (covio_firmware.ino)

    setup() and loop() over the objects of the other files.  Everything the
    world decides during one call (the clock, the radio, the serial line, the
    server, pulse edges, failing writes) is a field of [BootEnv] or
    [LoopEnv]; Serial output is dropped.  [None] means that a wait the code
    performs has not ended with the readings given.  SIM_PULSES is 0, as
    config.h sets it. *)

From coqutil Require Import Datatypes.RecordSetters.
From S2P Require Import Prelude Config Arduino Crc32 Records Storage DualSlot Parse Sensors Boot Store Totalizer QueueData Queue OtaPolicy Telemetry Net Sync Ota Diagnostics LocalApi WifiProvision Provision.
Import St EventQueue DoubleBraceUpdate.

Module Main.

Record Device (N HW Disk U : Type) := {
  x_ : Objects N HW Disk;          (* store, totalizer, eventQueue, syncEngine, ota, sensorStuck *)
  console_ : Console.Provision;
  api_ : option Lan.LocalApi;      (* localApi, once begin() has run *)
  portal_ : Portal.WifiProvision;
  plaus_ : Plaus.PulsePlausibilityMonitor;   (* Miki builds *)
  sensor_ : Health.SensorHealthMonitor;      (* Miki builds *)
  ct_ : Ct.SensorCt;                         (* CT builds *)
  upd_ : U;                        (* the update partition *)
  forceAp_ : bool;                 (* g_wifiProvisionForceAp, in RTC memory *)
  seq_ : Z;
  tTelemetry : Z; tPush : Z; tConfig : Z; tOta : Z; tBgTot : Z;
  healthySignalled : bool;
  crashStreakCleared : bool;
}.
Arguments x_ {N HW Disk U}. Arguments console_ {N HW Disk U}. Arguments api_ {N HW Disk U}.
Arguments portal_ {N HW Disk U}. Arguments plaus_ {N HW Disk U}. Arguments sensor_ {N HW Disk U}.
Arguments ct_ {N HW Disk U}. Arguments upd_ {N HW Disk U}. Arguments forceAp_ {N HW Disk U}.
Arguments seq_ {N HW Disk U}. Arguments tTelemetry {N HW Disk U}. Arguments tPush {N HW Disk U}.
Arguments tConfig {N HW Disk U}. Arguments tOta {N HW Disk U}. Arguments tBgTot {N HW Disk U}.
Arguments healthySignalled {N HW Disk U}. Arguments crashStreakCleared {N HW Disk U}.

Section program.
Context {N HW Disk U : Type} `{Preferences N} `{Pcnt HW} `{LittleFS Disk} `{SB : StorageBackend Disk}
  `{Updater U}.
Variable C : Crypto.
Variable ftoa : f32 -> nat -> string.
Variable err_name : Z -> string.
Variable toInt : string -> Z.
Variable toFloat : string -> f32.
Variable bd : Build.
Variable id : Diag.BuildId.
Variable mac : Z.

#[local] Abbreviation Device := (Device N HW Disk U).
#[local] Abbreviation Objects := (Objects N HW Disk).

(** ** Background service *)

(** covioBackgroundService(): edges [n1], [n2] arrive while the totalizer is
    serviced. *)
Definition covioBackgroundService (now : Z) (n1 n2 : nat) (dv : Device) : Device :=
  if 30000 <=? u32 (now - tBgTot dv) then
    let x := x_ dv in
    let '(t, d, h) := Tot.service (Tot.lastSeq (o_tot x)) n1 n2 (o_tot x) (o_disk x) (o_hw x) in
    dv{{tBgTot := now; x_ := x{{o_tot := t; o_disk := d; o_hw := h}}}}
  else dv.

Definition background_calls (l : list (Z * nat * nat)) (dv : Device) : Device :=
  fold_left (fun dv '(now, n1, n2) => covioBackgroundService now n1 n2 dv) l dv.

(** ** setup() *)

(** The unhealthy-boot safety net: whether the roll-back is requested. *)
Definition boot_trial (n : N) : bool * N :=
  let onTrial := isBootOnTrial (lastConfirmedFwVersion n) (lastConfirmedSecurityVersion n)
                   FW_VERSION (u32 FW_SECURITY_VERSION) in
  if onTrial then
    let n := incrementUnhealthyBootStreak n in
    (UNHEALTHY_BOOT_STREAK_LIMIT <=? unhealthyBootStreak n, n)
  else (false, n).

(** The cause of this boot, counted. *)
Definition count_reset (rr : Z) (n : N) : N :=
  let '(abnormal, n) :=
    if is_wdt rr then (true, incrementWatchdogResetCount n)
    else if rr =? ESP_RST_BROWNOUT then (true, incrementBrownoutResetCount n)
    else if rr =? ESP_RST_PANIC then (true, n)
    else (false, n) in
  if abnormal then incrementCrashResetStreak n else n.

(** One round of the wait for the station: whether it is connected, millis()
    of the loop condition, the characters on the serial line, and
    wifiService's readings. *)
Record StaPoll := { sp_connected : bool; sp_now : Z; sp_serial : string;
                    sp_wifi_connected : bool; sp_wifi_now : Z; sp_rnd : Z }.

Record BootEnv := {
  be_rollback_ok : bool;          (* another valid partition to roll back to *)
  be_reset : Z;                   (* esp_reset_reason() *)
  be_mounted : bool;              (* LittleFS.begin(true) *)
  be_running : option (string * Z); be_boot : option (string * Z); be_next : option (string * Z);
  be_state_rc : Z; be_state : Z;  (* esp_ota_get_state_partition *)
  be_sta_start : Z;
  be_sta : list StaPoll;
  be_connected : bool;            (* WiFi.status() after the wait *)
}.

Inductive boot_outcome :=
  | Booted (dv : Device)
  | RolledBack (n : N)            (* reboots into the previous image *)
  | Halted (n : N)                (* only the serial console is serviced *)
  | BootRestarted (n : N)         (* an operator restarted it from the console *)
  | BootHung (n : N).             (* ... or hung it: the watchdog is not armed yet *)

Definition wifi_service (connected : bool) (now rnd : Z) (dv : Device) : Device :=
  let x := x_ dv in
  let '(_, s, n) := Sync.wifiService connected now rnd (o_sync x) (o_nvs x) in
  dv{{x_ := x{{o_sync := s; o_nvs := n}}}}.

Definition console_service (input : string) (dv : Device) : Device * Console.ctl :=
  let '(_, p, x, g, k) :=
    Console.service C ftoa toInt bd mac input (console_ dv) (x_ dv) (forceAp_ dv) in
  (dv{{console_ := p; x_ := x; forceAp_ := g}}, k).

(** The [while] of the wait, entered with forceAp false; [None]: still
    waiting. *)
Fixpoint sta_wait (start : Z) (polls : list StaPoll) (dv : Device) : option (Device * Console.ctl) :=
  match polls with
  | [] => None
  | p :: polls =>
      if negb (sp_connected p) && (u32 (sp_now p - start) <? AP_FALLBACK_TIMEOUT_MS) then
        let '(dv, k) := console_service (sp_serial p) dv in
        match k with
        | Console.Go =>
            sta_wait start polls (wifi_service (sp_wifi_connected p) (sp_wifi_now p) (sp_rnd p) dv)
        | _ => Some (dv, k)
        end
      else Some (dv, Console.Go)
  end.

(** The last step: the LAN API, or the portal with Sync's authority paused. *)
Definition choose_mode (station : bool) (dv : Device) : Device :=
  if station then dv{{api_ := Some Lan.new_api}}
  else
    let x := x_ dv in
    dv{{x_ := x{{o_sync := Sync.setWifiAuthorityPaused true (o_sync x)}};
        portal_ := snd (Portal.begin mac (portal_ dv))}}.

(** The state of RAM when setup() has recovered totalizer and queue. *)
Definition recovered (st : Store) (n : N) (h : HW) (d : Disk) (u : U) (g : bool) (e : BootEnv) : Device :=
  let '(t, d, h) := Tot.begin bd (bootId st) Tot.new_totalizer d h in
  let '(q, t, d) := begin true new_queue t d in
  {| x_ := {| o_store := st; o_nvs := n; o_tot := t; o_hw := h; o_queue := q;
              o_sync := Sync.new_sync;
              o_ota := Ota.noteBoot (be_running e) (be_boot e) (be_next e) (be_state_rc e)
                         (be_state e) Ota.new_ota;
              o_stuck := Stuck.new SENSOR_STUCK_THRESHOLD_MS; o_disk := d |};
     console_ := Console.new_console; api_ := None; portal_ := Portal.new_portal;
     plaus_ := if MIKI_WIRE_PROFILE bd then Plaus.setMaxHz (mikiMaxPulseHz n) (Plaus.new 0) else Plaus.new 0;
     sensor_ := if MIKI_WIRE_PROFILE bd
                then Health.setSuspectThresholdMs (u32 (mikiSuspectGapS n * 1000)) (Health.new 0)
                else Health.new 0;
     ct_ := Ct.new CT_PULSE_HZ CT_DEBOUNCE_MS;
     upd_ := u; forceAp_ := g;
     seq_ := resumeSeqFloor (Tot.lastSeq t) (ackedSeq q);
     tTelemetry := 0; tPush := 0; tConfig := 0; tOta := 0; tBgTot := 0;
     healthySignalled := false; crashStreakCleared := false |}.

(** [n], [d], [u]: the flash; [h]: the counter; [g]: the RTC flag. *)
Definition setup (e : BootEnv) (n : N) (d : Disk) (h : HW) (u : U) (g : bool) : option boot_outcome :=
  let '(st, n) := St.begin bd n in
  let '(rollback, n) := boot_trial n in
  if rollback && be_rollback_ok e then Some (RolledBack n) else
  let n := count_reset (be_reset e) n in
  if RELEASE_BUILD bd && String.eqb (Diag.apiKeyStatus_ n) "default" then Some (Halted n) else
  if negb (be_mounted e) then Some (Halted n) else
  let dv := recovered st n h d u g e in
  let '(forceAp, g) := Portal.consumeReprovisionRequest (forceAp_ dv) in
  let dv := dv{{forceAp_ := g}} in
  match (if forceAp then Some (dv, Console.Go) else sta_wait (be_sta_start e) (be_sta e) dv) with
  | None => None
  | Some (dv, Console.Restart) => Some (BootRestarted (o_nvs (x_ dv)))
  | Some (dv, Console.Hang) => Some (BootHung (o_nvs (x_ dv)))
  | Some (dv, Console.Go) => Some (Booted (choose_mode (negb forceAp && be_connected e) dv))
  end.

(** ** loop() *)

Record LoopEnv := {
  le_now : Z;
  le_edges : nat;                 (* edges since the last iteration *)
  le_serial : string;
  le_wifi_connected : bool; le_wifi_now : Z; le_rnd : Z;
  le_portal : option Portal.Request; le_portal_connected : bool;
  le_bg_now : Z; le_bg_n1 : nat; le_bg_n2 : nat;
  le_api : Lan.ApiEnv;
  le_ct_active : bool;            (* digitalRead(PIN_CT_STATE) == LOW *)
  le_rssi : Z;
  le_append : Z * Z * Z;          (* the clock readings of append() *)
  le_tot_n1 : nat; le_tot_n2 : nat;
  le_push : Sync.PushEnv;
  le_mark_rc : Z;                 (* esp_ota_mark_app_valid_cancel_rollback() *)
  le_config : Sync.ConfigEnv; le_config_online : bool;
  le_ota : Ota.OtaEnv;
  le_ota_bg : list (Z * nat * nat);   (* the service callbacks of the download *)
}.

(** The Miki block: live-reload the tunables and stamp the quality bits. *)
Definition stamp_quality (total now : Z) (row : QRow) (dv : Device) : QRow * Device :=
  if negb (MIKI_WIRE_PROFILE bd) then (row, dv) else
  let n := o_nvs (x_ dv) in
  let plaus := Plaus.update total now (Plaus.setMaxHz (mikiMaxPulseHz n) (plaus_ dv)) in
  let sensor := Health.update total now
                  (Health.setSuspectThresholdMs (u32 (mikiSuspectGapS n * 1000)) (sensor_ dv)) in
  let q1 := if Plaus.suspect_ plaus then Z.lor (quality row) QUALITY_SUSPECT_RATE else quality row in
  let q2 := match Health.state_ sensor with
            | Health.SENSOR_HEALTH_SUSPECT => Z.lor q1 QUALITY_SENSOR_SUSPECT
            | _ => q1
            end in
  (row{{quality := q2}}, dv{{plaus_ := plaus; sensor_ := sensor}}).

(** The row of this cycle. *)
Definition build_row (now rssi : Z) (dv : Device) : QRow * Device :=
  let x := x_ dv in
  let total := Tot.total (o_tot x) (o_hw x) in
  let row := Tele.build (o_store x) total (seq_ dv) (now / 1000)
               (QUEUE_HIGHWATER <? pendingCount (o_queue x)) rssi in
  stamp_quality total now row dv.

(** 1) the durable row first *)
Definition append_row (ms : Z * Z * Z) (row : QRow) (dv : Device) : Device :=
  let x := x_ dv in
  let '(ms0, ms1, msf) := ms in
  let '(q, t, d) := append row ms0 ms1 msf (o_queue x) (o_tot x) (o_disk x) in
  dv{{x_ := x{{o_queue := q; o_tot := t; o_disk := d}}}}.

(** 2) then the checkpoint of total and seq *)
Definition checkpoint (n1 n2 : nat) (dv : Device) : Device :=
  let x := x_ dv in
  let '(t, d, h) := Tot.service (seq_ dv) n1 n2 (o_tot x) (o_disk x) (o_hw x) in
  dv{{x_ := x{{o_tot := t; o_disk := d; o_hw := h}}}}.

Definition telemetry_cycle (e : LoopEnv) (dv : Device) : Device :=
  let now := le_now e in
  if TELEMETRY_PERIOD_MS <=? u32 (now - tTelemetry dv) then
    let dv := dv{{tTelemetry := now; seq_ := u32 (seq_ dv + 1)}} in
    let total := Tot.total (o_tot (x_ dv)) (o_hw (x_ dv)) in
    let '(row, dv) := build_row now (le_rssi e) dv in
    let dv := append_row (le_append e) row dv in
    let dv := checkpoint (le_tot_n1 e) (le_tot_n2 e) dv in
    dv{{x_ := (x_ dv){{o_stuck := snd (Stuck.update total now (o_stuck (x_ dv)))}}}}
  else dv.

Definition clear_streak (now : Z) (dv : Device) : Device :=
  if negb (crashStreakCleared dv) && (HEALTHY_UPTIME_CLEARS_CRASH_STREAK_MS <=? now) then
    dv{{x_ := (x_ dv){{o_nvs := clearCrashResetStreak (o_nvs (x_ dv))}}; crashStreakCleared := true}}
  else dv.

Definition signal_healthy (proven : bool) (rc : Z) (dv : Device) : Device :=
  if proven && negb (healthySignalled dv) then
    let '(o, n) := Ota.confirmHealthyBoot rc (o_ota (x_ dv)) (o_nvs (x_ dv)) in
    dv{{x_ := (x_ dv){{o_ota := o; o_nvs := n}}; healthySignalled := true}}
  else dv.

Definition push_step (e : LoopEnv) (dv : Device) : list HttpReq * Device :=
  let x := x_ dv in
  let '(acked, log, s, q, d, n) :=
    Sync.pushOnce bd (le_push e) (o_store x) (o_sync x) (o_queue x) (o_tot x) (o_disk x) (o_nvs x) in
  (log, signal_healthy acked (le_mark_rc e)
          dv{{tPush := le_now e;
              x_ := x{{o_sync := s; o_queue := q; o_disk := d; o_nvs := n}}}}).

Definition config_step (e : LoopEnv) (dv : Device) : list HttpReq * Device :=
  let x := x_ dv in
  let '(log, s, n) := Sync.pollConfig toFloat bd (le_config e) (o_sync x) (o_nvs x) in
  (log, signal_healthy (le_config_online e) (le_mark_rc e)
          dv{{tConfig := le_now e; x_ := x{{o_sync := s; o_nvs := n}}}}).

Definition ota_step (e : LoopEnv) (dv : Device) : option (list HttpReq * Device * Console.ctl) :=
  let x := x_ dv in
  match Ota.poll C bd (le_ota e) (o_sync x) (o_nvs x) (o_ota x) (upd_ dv) with
  | None => None
  | Some (log, o, u, restarted) =>
      let dv := background_calls (le_ota_bg e) dv{{tOta := le_now e; upd_ := u}} in
      if restarted then Some (log, dv, Console.Restart) else
      let s := Sync.setOtaStatus (Some (otaStateStr (Ota.state o)))
                 (if bool_decide (Ota.lastRejectReason_ o = OTA_ACCEPT) then None
                  else Some (otaVerdictStr (Ota.lastRejectReason_ o))) (o_sync (x_ dv)) in
      Some (log, dv{{x_ := (x_ dv){{o_ota := o; o_sync := s}}}}, Console.Go)
  end.

(** The network slot: at most one of the three per iteration. *)
Definition network (e : LoopEnv) (dv : Device) : option (list HttpReq * Device * Console.ctl) :=
  let now := le_now e in
  let '(netSlotUsed, log, dv) :=
    if PUSH_PERIOD_MS <=? u32 (now - tPush dv)
    then let '(log, dv) := push_step e dv in (true, log, dv) else (false, [], dv) in
  let '(netSlotUsed, log, dv) :=
    if negb netSlotUsed && (CONFIG_POLL_MS <=? u32 (now - tConfig dv))
    then let '(log', dv) := config_step e dv in (true, log ++ log', dv) else (netSlotUsed, log, dv) in
  if negb netSlotUsed && (OTA_POLL_MS <=? u32 (now - tOta dv)) then
    match ota_step e dv with
    | None => None
    | Some (log', dv, k) => Some (log ++ log', dv, k)
    end
  else Some (log, dv, Console.Go).

(** The branch taken while provisioning is active. *)
Definition provisioning (e : LoopEnv) (dv : Device) : option (list HttpReq * Device * Console.ctl) :=
  let x := x_ dv in
  match Portal.service bd (le_portal e) (le_portal_connected e) (portal_ dv) (o_nvs x) with
  | None => None
  | Some (_, w, n, Portal.Restarted) => Some ([], dv{{x_ := x{{o_nvs := n}}}}, Console.Restart)
  | Some (_, w, n, Portal.Returned handover) =>
      let dv := dv{{x_ := x{{o_nvs := n}}; portal_ := w}} in
      let dv := if handover then
                  dv{{x_ := (x_ dv){{o_sync := Sync.setWifiAuthorityPaused false (o_sync (x_ dv))}};
                      api_ := Some Lan.new_api}}
                else dv in
      Some ([], covioBackgroundService (le_bg_now e) (le_bg_n1 e) (le_bg_n2 e) dv, Console.Go)
  end.

Definition api_service (e : LoopEnv) (dv : Device) : Device :=
  match api_ dv with
  | None => dv
  | Some l =>
      let '(_, _, l, x) := Lan.service ftoa err_name bd id mac (le_api e) l (x_ dv) in
      dv{{api_ := Some l; x_ := x}}
  end.

Definition ct_service (e : LoopEnv) (dv : Device) : Device :=
  match SENSOR_MODE bd with
  | SENSOR_MODE_NPN => dv
  | SENSOR_MODE_CT =>
      let '(n, ct) := Ct.service (le_ct_active e) (le_now e) (ct_ dv) in
      dv{{ct_ := ct; x_ := (x_ dv){{o_tot := Tot.injectSoftPulses n (o_tot (x_ dv))}}}}
  end.

(** One iteration: the requests made, and whether it ended in a restart or in
    the loop only the watchdog ends. *)
Definition loop (e : LoopEnv) (dv : Device) : option (list HttpReq * Device * Console.ctl) :=
  let dv := dv{{x_ := (x_ dv){{o_hw := pcnt_edges (le_edges e) (o_hw (x_ dv))}}}} in
  let '(dv, k) := console_service (le_serial e) dv in
  match k with
  | Console.Go =>
      let dv := wifi_service (le_wifi_connected e) (le_wifi_now e) (le_rnd e) dv in
      if Portal.active (portal_ dv) then provisioning e dv
      else
        let dv := api_service e dv in
        let dv := ct_service e dv in
        let dv := telemetry_cycle e dv in
        let dv := clear_streak (le_now e) dv in
        network e dv
  | _ => Some ([], dv, k)
  end.
End program.

End Main.
