(* ===== verification/MainInv.v ===== *)
(** * What one step of the main program leaves alone

    The state the queue depends on, step by step: which parts of loop() can
    reach it at all, and the invariant of the whole device that all of them
    keep. *)

From coqutil Require Import Datatypes.RecordSetters.
From S2P Require Import Prelude Config Arduino Crc32 Records Storage DualSlot Parse Sensors Boot Store Totalizer QueueData Queue QueueSpec QueueRefine QueueTheorems OtaPolicy Telemetry Net Sync SyncTheorems Ota OtaTheorems Diagnostics LocalApi LanTheorems WifiProvision Provision ConsoleTheorems Main.
Import St EventQueue DoubleBraceUpdate Main.

(** ** The totalizer keeps the queue's frontier *)

Section totalizer.
Context {HW Disk : Type} `{Pcnt HW} `{LittleFSLaws Disk}.

Lemma tot_service_keeps sq n1 n2 t (d : Disk) (h : HW) :
  let '(t', d', _) := Tot.service sq n1 n2 t d h in
  Tot.lastSeq t' = sq /\ Tot.queueOffsetSegment t' = Tot.queueOffsetSegment t /\
  Tot.queueOffsetOffset t' = Tot.queueOffsetOffset t /\
  forall s, lfs_read (segmentPath_ s) d' = lfs_read (segmentPath_ s) d.
Proof.
  unfold Tot.service. destruct (if 30000 <=? _ then _ else _) as [acc h'].
  match goal with |- context [Tot.persist_ ?x d] => set (t0 := x) end.
  pose proof (Tot.persist_cp t0 d) as Hcp. pose proof (Tot.persist_disk t0 d) as Hd.
  destruct (Tot.persist_ t0 d) as [t' d']. cbn [fst snd] in Hcp, Hd.
  unfold Tot.lastSeq, Tot.queueOffsetSegment, Tot.queueOffsetOffset. rewrite Hcp.
  destruct (Tot.stamp_spec (Tot.cp_ t0)) as (_ & _ & -> & _ & -> & ->).
  split_and!; [done|done|done|]. intros s.
  destruct Hd as [->|(n & Hcut)]; [done|]. apply Hcut.
  intros E. apply (tot_files_segment s). rewrite E. apply slot_cases.
Qed.
End totalizer.

Section program.
Context {N HW Disk U : Type} `{Preferences N} `{Pcnt HW} `{LittleFSLaws Disk}
  `{SB : StorageBackend Disk} {SBL : StorageBackendLaws Disk} `{UpdaterLaws U}.
Variable C : Crypto.
Variable ftoa : f32 -> nat -> string.
Variable err_name : Z -> string.
Variable toInt : string -> Z.
Variable toFloat : string -> f32.
Variable bd : Build.
Variable id : Diag.BuildId.
Variable mac : Z.

#[local] Abbreviation Device := (Device N HW Disk U).
#[local] Abbreviation Objects := (Objects N HW Disk).

(** The rows a device still owes the server. *)
Definition backlog (dv : Device) : list QRow :=
  unacked (o_queue (x_ dv)) (o_tot (x_ dv)) (o_disk (x_ dv)).

Definition acked_upto (dv : Device) : Z := ackedSeq (o_queue (x_ dv)).

Definition failures (dv : Device) : Z := failedWriteCount (o_queue (x_ dv)).

Definition write_segment (dv : Device) : Z := Tot.queueOffsetSegment (o_tot (x_ dv)).

(** [x'] holds the queue of [x]: same cursor, same frontier, same segments. *)
Record same_rows (x x' : Objects) : Prop := {
  sq_queue : o_queue x' = o_queue x;
  sq_seg : Tot.queueOffsetSegment (o_tot x') = Tot.queueOffsetSegment (o_tot x);
  sq_off : Tot.queueOffsetOffset (o_tot x') = Tot.queueOffsetOffset (o_tot x);
  sq_files s : lfs_read (segmentPath_ s) (o_disk x') = lfs_read (segmentPath_ s) (o_disk x);
  sq_store : o_store x' = o_store x;
}.

(** ... and the same checkpointed number. *)
Record same_queue (x x' : Objects) : Prop := {
  sq_rows :> same_rows x x';
  sq_last : Tot.lastSeq (o_tot x') = Tot.lastSeq (o_tot x);
}.

#[export] Instance same_queue_preorder : PreOrder same_queue.
Proof.
  split; [by split|]. intros x y z [[]] [[]]. split; [split|]; congruence.
Qed.

(** A step that touches neither the queue, nor the sequence number, nor the
    console's line buffer. *)
Record untouched (dv dv' : Device) : Prop := {
  un_queue : same_queue (x_ dv) (x_ dv');
  un_seq : seq_ dv' = seq_ dv;
  un_console : console_ dv' = console_ dv;
}.

#[export] Instance untouched_preorder : PreOrder untouched.
Proof.
  split; [split; reflexivity|]. intros x y z [] [].
  split; [by etransitivity|congruence|congruence].
Qed.

Lemma same_rows_inv x x' :
  same_rows x x' -> QInv (o_queue x) (o_tot x) (o_disk x) ->
  QInv (o_queue x') (o_tot x') (o_disk x') /\
  unacked (o_queue x') (o_tot x') (o_disk x') = unacked (o_queue x) (o_tot x) (o_disk x).
Proof.
  intros [Hq Hs Ho Hf _] HI. rewrite Hq.
  destruct (QInv_ext (o_queue x) (o_queue x) (o_tot x) (o_disk x) (o_disk x') eq_refl eq_refl Hf HI)
    as [HI' Hu].
  assert (Ea : active (Disk := Disk) (o_tot x') = active (Disk := Disk) (o_tot x)) by exact Hs.
  assert (Eg : good (Disk := Disk) (o_tot x') = good (Disk := Disk) (o_tot x)) by exact Ho.
  destruct (QInv_ram _ (o_queue x) _ _ _ eq_refl (qi_wired _ _ _ HI) Ea Eg HI') as [HI'' Hu'].
  split; [done|]. by rewrite Hu', Hu.
Qed.

(** ** The steps that leave the queue alone *)

Lemma untouched_nvs dv n : untouched dv dv{{x_ := Lan.with_nvs n (x_ dv)}}.
Proof. by split. Qed.

Lemma background_untouched now n1 n2 (dv : Device) :
  untouched dv (covioBackgroundService now n1 n2 dv).
Proof.
  unfold covioBackgroundService. destruct (30000 <=? _); [|reflexivity].
  pose proof (tot_service_keeps (Tot.lastSeq (o_tot (x_ dv))) n1 n2 (o_tot (x_ dv))
                (o_disk (x_ dv)) (o_hw (x_ dv))) as Hk.
  destruct (Tot.service _ n1 n2 _ _ _) as [[t d] h]. destruct Hk as (Hl & Hs & Ho & Hf).
  by split.
Qed.

Lemma background_calls_untouched l (dv : Device) : untouched dv (background_calls l dv).
Proof.
  revert dv. induction l as [|[[now n1] n2] l IH]; intros dv; [reflexivity|].
  etransitivity; [apply (background_untouched now n1 n2)|apply IH].
Qed.

Lemma wifi_untouched c now rnd (dv : Device) : untouched dv (wifi_service c now rnd dv).
Proof. unfold wifi_service. destruct (Sync.wifiService c now rnd _ _) as [[? ?] ?]. by split. Qed.

Lemma lan_service_queue e l (x : Objects) :
  same_queue x (snd (Lan.service ftoa err_name bd id mac e l x)).
Proof.
  unfold Lan.service.
  destruct (Lan.ae_request e) as [[[[h body] r] sn]|].
  - destruct (Lan.handle _ _ _ _ _ h body r sn l x) as [resp n].
    destruct (1000 <=? _); [destruct (if negb _ && _ then _ else _)|]; by split.
  - destruct (1000 <=? _); [destruct (if negb _ && _ then _ else _)|]; by split.
Qed.

Lemma api_untouched e (dv : Device) : untouched dv (api_service ftoa err_name bd id mac e dv).
Proof.
  unfold api_service. destruct (api_ dv) as [l|]; [|reflexivity].
  pose proof (lan_service_queue (le_api e) l (x_ dv)) as Hq.
  by destruct (Lan.service _ _ _ _ _ _ l _) as [[[? ?] ?] ?].
Qed.

Lemma ct_untouched e (dv : Device) : untouched dv (ct_service bd e dv).
Proof.
  unfold ct_service. destruct (SENSOR_MODE bd); [reflexivity|].
  destruct (Ct.service _ _ _). by split.
Qed.

Lemma clear_streak_untouched now (dv : Device) : untouched dv (clear_streak now dv).
Proof. unfold clear_streak. destruct (_ && _); by split. Qed.

Lemma signal_untouched b rc (dv : Device) : untouched dv (signal_healthy b rc dv).
Proof.
  unfold signal_healthy. destruct (b && _); [|reflexivity].
  destruct (Ota.confirmHealthyBoot rc _ _). by split.
Qed.

Lemma config_untouched e (dv : Device) : untouched dv (snd (config_step toFloat bd e dv)).
Proof.
  unfold config_step. destruct (Sync.pollConfig toFloat bd _ _ _) as [[log s] n]. cbn [snd].
  etransitivity; [|apply signal_untouched]. by split.
Qed.

Lemma ota_untouched e (dv : Device) r :
  ota_step C bd e dv = Some r -> untouched dv r.1.2.
Proof.
  unfold ota_step. destruct (Ota.poll C bd _ _ _ _ _) as [[[[log o] u] restarted]|]; [|done].
  pose proof (background_calls_untouched (le_ota_bg e) dv{{tOta := le_now e; upd_ := u}}) as Hb.
  assert (Hb' : untouched dv (background_calls (le_ota_bg e) dv{{tOta := le_now e; upd_ := u}}))
    by (etransitivity; [|exact Hb]; by split).
  revert Hb'. generalize (background_calls (le_ota_bg e) dv{{tOta := le_now e; upd_ := u}}).
  intros dv1 Hb'. destruct restarted; intros [= <-]; [done|].
  cbn [fst snd]. etransitivity; [exact Hb'|]. by split.
Qed.

Lemma provisioning_untouched e (dv : Device) r :
  provisioning bd e dv = Some r -> untouched dv r.1.2 /\ r.1.1 = [].
Proof.
  unfold provisioning. destruct (Portal.service bd _ _ _ _) as [[[[? w] n] [|h]]|]; [| |done].
  - intros [= <-]. by split.
  - intros [= <-]. split; [|done]. cbn [fst snd].
    etransitivity; [|apply background_untouched]. destruct h; by split.
Qed.

(** ** The console *)

Lemma handle_stores line (x : Objects) g :
  storage_cmd (Console.trim line) = false ->
  exists n, (Console.handle_ C ftoa toInt bd mac line x g).1.1.2 = Lan.with_nvs n x.
Proof.
  unfold storage_cmd, Console.handle_. set (cmd := Console.trim line). clearbody cmd.
  assert (Hx : x = Lan.with_nvs (o_nvs x) x) by by destruct x.
  intros [E1 E2]%orb_false_iff. rewrite E1, E2.
  destruct (String.eqb cmd "help"); [by eexists|].
  destruct (String.eqb cmd "show"); [by eexists|].
  destruct (Console.handle_set toInt bd cmd x) as [[out x']|] eqn:Eset.
  { revert Eset. unfold Console.handle_set, Console.set_wifi, Console.set_maxhz, Console.set_suspects.
    intros Eset. repeat case_match; simplify_eq/=; by eexists. }
  destruct (String.eqb cmd "reboot"); [by eexists|].
  destruct (String.eqb cmd "factory"); [by eexists|].
  destruct (String.eqb cmd "provision"); [by eexists|].
  destruct (_ && _); by eexists.
Qed.

(** The console's buffer holds the beginning of one line. *)
Definition console_ok (p : Console.Provision) : Prop :=
  (String.length (Console.buf_ p) <= 220)%nat /\ no_eol (Console.buf_ p) = true.

(** No line that is completed by [input] is a storage command. *)
Definition no_storage_cmd (p : Console.Provision) (input : string) : Prop :=
  Forall (fun l => storage_cmd (Console.trim (clip l)) = false)
    (split_lines (Console.buf_ p +:+ input)).1.

Lemma run_lines_stores ls (x : Objects) g :
  Forall (fun l => storage_cmd (Console.trim l) = false) ls ->
  exists n, (run_lines C ftoa toInt bd mac ls x g).1.1.2 = Lan.with_nvs n x.
Proof.
  intros Hls. revert x g. induction Hls as [|l ls Hl _ IH]; intros x g.
  { exists (o_nvs x). by destruct x. }
  cbn [run_lines]. destruct (handle_stores l x g Hl) as [n Hn].
  destruct (Console.handle_ C ftoa toInt bd mac l x g) as [[[out x1] g1] k]. simpl in Hn. subst x1.
  destruct k; [|by exists n..]. destruct (IH (Lan.with_nvs n x) g1) as [n' Hn'].
  destruct (run_lines _ _ _ _ _ ls _ g1) as [[[o x'] g'] k']. cbn [fst snd] in Hn' |- *.
  by exists n'.
Qed.

Lemma no_eol_substring n l : no_eol l = true -> no_eol (String.substring 0 n l) = true.
Proof.
  revert n. induction l as [|c l IH]; intros [|n] Hl; try done. cbn [String.substring no_eol] in *.
  apply andb_prop in Hl as [-> Hl]. by apply IH.
Qed.

Lemma split_rest_no_eol s : no_eol (split_lines s).2 = true.
Proof.
  induction s as [|c s IH]; [done|]. cbn [split_lines].
  destruct (split_lines s) as [ls rest]. destruct (Console.eol c) eqn:Ec; [done|].
  destruct ls as [|l ls]; [|done]. cbn [snd no_eol] in *. by rewrite Ec.
Qed.

Lemma console_service_keeps input (dv : Device) :
  console_ok (console_ dv) -> no_storage_cmd (console_ dv) input ->
  let '(dv', k) := console_service C ftoa toInt bd mac input dv in
  (exists n, x_ dv' = Lan.with_nvs n (x_ dv)) /\ seq_ dv' = seq_ dv /\
  (k = Console.Go -> console_ok (console_ dv')).
Proof.
  intros [Hl Hn] Hq. unfold console_service.
  pose proof (service_lines C ftoa toInt bd mac input (Console.buf_ (console_ dv)) (console_ dv)
    (x_ dv) (forceAp_ dv) ltac:(symmetry; by apply sub_whole) Hn) as Hs.
  destruct (Console.service _ _ _ _ _ input _ _ _) as [[[[out p] x] g] k].
  pose proof (split_rest_no_eol (Console.buf_ (console_ dv) +:+ input)) as Hr.
  unfold no_storage_cmd in Hq.
  destruct (split_lines _) as [ls rest]. cbn [fst snd] in Hq, Hr. destruct Hs as (Hrun & Hgo & Hlen).
  pose proof (run_lines_stores (List.filter nonempty (clip <$> ls)) (x_ dv) (forceAp_ dv)) as Hsq.
  rewrite <- Hrun in Hsq. cbn [fst snd x_ seq_ console_] in *.
  split_and!; [|done|].
  - apply Hsq. apply Forall_forall. intros l Hin.
    apply list_elem_of_In, List.filter_In in Hin as [Hin _].
    apply list_elem_of_In, list_elem_of_fmap in Hin as (l0 & -> & Hin).
    rewrite Forall_forall in Hq. by apply Hq.
  - intros Hk. change (console_ok p). split; [done|]. rewrite (Hgo Hk). by apply no_eol_substring.
Qed.

End program.

Section cycle.
Context {N HW Disk U : Type} `{Preferences N} `{Pcnt HW} `{LittleFSLaws Disk}
  `{SB : StorageBackend Disk} {SBL : StorageBackendLaws Disk} `{UpdaterLaws U}.
Variable bd : Build.
Variable slack : Z.

#[local] Abbreviation Device := (Device N HW Disk U).
#[local] Abbreviation Objects := (Objects N HW Disk).

(** ** The invariant *)

(** Rows wait in the order of their numbers, none beyond the current one
    ([slack] = 0); after a power cut between a row and its checkpoint one row
    carries the number the next row will get ([slack] = 1).  A boot from this
    flash would not resume below the current number. *)
Record sys_inv (dv : Device) : Prop := {
  si_slack : 0 <= slack <= 1;
  si_console : console_ok (console_ dv);
  si_queue : QInv (o_queue (x_ dv)) (o_tot (x_ dv)) (o_disk (x_ dv));
  si_ordered : ordered (backlog dv);
  si_rows : Forall (fun r => r_seq r <= seq_ dv + slack) (backlog dv);
  si_acked : acked_upto dv <= seq_ dv + slack;
  si_seq : 0 <= seq_ dv;
  si_last : 0 <= Tot.lastSeq (o_tot (x_ dv));
  si_resume : seq_ dv <= Z.max (Tot.lastSeq (o_tot (x_ dv))) (acked_upto dv);
  si_boot : is_u32 (bootId (o_store (x_ dv)));
}.

Lemma same_queue_sys dv dv' :
  same_queue (x_ dv) (x_ dv') -> seq_ dv' = seq_ dv -> console_ok (console_ dv') ->
  sys_inv dv -> sys_inv dv' /\ backlog dv' = backlog dv.
Proof.
  intros Hq Es Hc [Hsl _ HI Ho Hr Ha Hz Hl Hre Hb]. destruct (same_rows_inv _ _ Hq HI) as [HI' Hu].
  assert (Eb : backlog dv' = backlog dv) by exact Hu.
  assert (Ea : acked_upto dv' = acked_upto dv) by (unfold acked_upto; by rewrite (sq_queue _ _ Hq)).
  pose proof (sq_last _ _ Hq) as El. pose proof (sq_store _ _ Hq) as Eo.
  split; [|done]. by split; rewrite ?Eb, ?Ea, ?Es, ?El, ?Eo.
Qed.

Lemma untouched_sys dv dv' :
  untouched dv dv' -> sys_inv dv -> sys_inv dv' /\ backlog dv' = backlog dv.
Proof.
  intros [Hq Es Ec] HI. apply same_queue_sys; [done..|rewrite Ec; by apply si_console|done].
Qed.

Lemma untouched_failures (dv dv' : Device) : untouched dv dv' -> failures dv' = failures dv.
Proof. intros [Hq _ _]. unfold failures. by rewrite (sq_queue _ _ Hq). Qed.

(** ** One telemetry cycle *)

Lemma quality_u16 now total row (dv : Device) :
  quality row = 0 \/ quality row = 1 -> is_u16 (quality (stamp_quality bd total now row dv).1).
Proof.
  intros Hq. unfold stamp_quality. destruct (negb (MIKI_WIRE_PROFILE bd)).
  { cbn [fst]. destruct Hq as [-> | ->]; unfold is_u16; lia. }
  cbn [fst quality]. destruct (Plaus.suspect_ _), (Health.state_ _), Hq as [E|E]; rewrite E;
    vm_compute; split; congruence.
Qed.

(** The row the main program writes, and what it took to make it. *)
Lemma build_row_spec now rssi (dv : Device) :
  is_u32 now -> is_u32 (seq_ dv) -> is_u32 (bootId (o_store (x_ dv))) ->
  let '(row, dv') := build_row bd now rssi dv in
  untouched dv dv' /\ x_ dv' = x_ dv /\ fields_fit row /\
  r_seq row = seq_ dv /\ totalizer row = Tot.total (o_tot (x_ dv)) (o_hw (x_ dv)) /\
  ts row = now / 1000 /\ r_boot_id row = bootId (o_store (x_ dv)).
Proof.
  intros Hn Hs Hb. unfold build_row.
  set (total := Tot.total (o_tot (x_ dv)) (o_hw (x_ dv))).
  assert (Ht : is_u64 total) by apply u64_range. clearbody total.
  set (row := Tele.build _ total _ _ _ _).
  assert (Hq0 : quality row = 0 \/ quality row = 1)
    by (unfold row, Tele.build; cbn [quality]; destruct (_ <? _); [right|left]; done).
  pose proof (quality_u16 now total row dv Hq0) as Hq.
  assert (Hq1 : is_u16 (quality row)) by (destruct Hq0 as [-> | ->]; unfold is_u16; lia).
  assert (Hf : fields_fit row <-> is_u16 (quality row)).
  { rewrite QRow_fits. unfold row, Tele.build. cbn.
    assert (is_u32 (now / 1000)) by (unfold is_u32 in Hn |- *; split; [apply Z.div_pos|apply Z.div_lt_upper_bound]; lia).
    pose proof (u16_range (Z.abs rssi)).
    split; [tauto|]. intros. split_and!; done. }
  revert Hq. unfold stamp_quality. destruct (negb (MIKI_WIRE_PROFILE bd)); cbn [fst]; intros Hq.
  - split_and!; try done. by apply Hf.
  - split_and!; try done. apply Hf in Hq1. revert Hq1 Hq. rewrite !QRow_fits. cbn. tauto.
Qed.

Lemma checkpoint_spec n1 n2 (dv : Device) :
  let dv' := checkpoint n1 n2 dv in
  same_rows (x_ dv) (x_ dv') /\ seq_ dv' = seq_ dv /\ console_ dv' = console_ dv /\
  Tot.lastSeq (o_tot (x_ dv')) = seq_ dv.
Proof.
  unfold checkpoint.
  pose proof (tot_service_keeps (seq_ dv) n1 n2 (o_tot (x_ dv)) (o_disk (x_ dv)) (o_hw (x_ dv))) as Hk.
  destruct (Tot.service _ n1 n2 _ _ _) as [[t d] h]. destruct Hk as (Hl & Hs & Ho & Hf).
  split_and!; [by split|done|done|exact Hl].
Qed.

Lemma ordered_snoc l r :
  ordered l -> Forall (fun r' => r_seq r' <= r_seq r) l -> ordered (l ++ [r]).
Proof.
  induction l as [|x l IH]; intros Ho Hf; cbn [app]; apply ordered_cons.
  - split; [constructor|]. intros i j a b _ Hi. by rewrite lookup_nil in Hi.
  - apply ordered_cons in Ho as [Hx Ho]. apply Forall_cons in Hf as [Hxr Hf]. split; [|by apply IH].
    apply Forall_app. split; [done|]. by apply Forall_singleton.
Qed.

(** The row is in the queue, or its loss is counted. *)
Definition stored_or_counted (row : QRow) (dv dv' : Device) : Prop :=
  (backlog dv' = backlog dv ++ (if r_seq row <=? acked_upto dv then [] else [seal_row row]) /\
   failures dv' = failures dv) \/
  (backlog dv' = backlog dv /\
   failures dv' = u32 (failures dv + 1)).

Lemma set_offset_last_seq seg off (t : Tot.Totalizer) (d : Disk) :
  Tot.lastSeq (fst (setQueueOffset (Disk := Disk) seg off t d)) = Tot.lastSeq t.
Proof.
  change (Tot.seq (Tot.cp_ (fst (Tot.persist_ (Tot.with_cp (Tot.with_offset seg off (Tot.cp_ t)) t) d))) = Tot.seq (Tot.cp_ t)).
  rewrite Tot.persist_cp.
  exact (proj1 (proj2 (proj2 (Tot.stamp_spec (Tot.with_offset seg off (Tot.cp_ t)))))).
Qed.

(** Appending moves the confirmed offset and leaves the checkpoint's sequence
    number alone. *)
Lemma append_last_seq row ms0 ms1 msf q (t : Tot.Totalizer) (d : Disk) :
  let '(_, t', _) := append row ms0 ms1 msf q t d in Tot.lastSeq t' = Tot.lastSeq t.
Proof.
  unfold append. destruct (negb (tot_wired q)); [done|].
  destruct (if _ <=? _ then _ else _) as [seg off].
  destruct (appendOpenSize _ d) as [n d1]. destruct (n <? 0).
  { by destruct (recordWriteFailure_ _ _ _ _). }
  destruct (settle_tail _ _ _ _) as [[o|] d2].
  2:{ by destruct (recordWriteFailure_ _ _ _ _). }
  destruct (appendWrite _ _ _) as [w d3].
  destruct (w <? 0); [by destruct (recordWriteFailure_ _ _ _ _)|].
  destruct (negb (w =? 36)); [by destruct (recordWriteFailure_ _ _ _ _)|].
  pose proof (set_offset_last_seq seg (u32 (o + 36)) t d3) as Hl.
  by destruct (setQueueOffset _ _ _ _) as [t' d'].
Qed.

Lemma append_row_spec ms row (dv : Device) :
  QInv (o_queue (x_ dv)) (o_tot (x_ dv)) (o_disk (x_ dv)) -> fields_fit row ->
  write_segment dv + 2 < 2 ^ 32 ->
  let dv' := append_row ms row dv in
  QInv (o_queue (x_ dv')) (o_tot (x_ dv')) (o_disk (x_ dv')) /\
  acked_upto dv' = acked_upto dv /\ stored_or_counted row dv dv' /\
  seq_ dv' = seq_ dv /\ console_ dv' = console_ dv /\ o_store (x_ dv') = o_store (x_ dv) /\
  Tot.lastSeq (o_tot (x_ dv')) = Tot.lastSeq (o_tot (x_ dv)) /\
  write_segment dv' <= write_segment dv + 1.
Proof.
  intros HI Hf Ha. unfold append_row. destruct ms as [[ms0 ms1] msf].
  pose proof (append_outcome_holds tot_files tot_files_segment row ms0 ms1 msf (o_queue (x_ dv))
                (o_tot (x_ dv)) (o_disk (x_ dv)) HI Hf Ha) as Ho.
  pose proof (append_last_seq row ms0 ms1 msf (o_queue (x_ dv)) (o_tot (x_ dv)) (o_disk (x_ dv))) as Hl.
  destruct (append row ms0 ms1 msf _ _ _) as [[q t] d].
  destruct Ho as (HI' & Eack & Hcase). cbv zeta.
  assert (Ea : ackedSeq q = ackedSeq (o_queue (x_ dv))) by (unfold ackedSeq; by rewrite Eack).
  split_and!; try done.
  - destruct Hcase as [(Efl & _ & _ & _ & Hu)|(Efl & -> & _ & Hu)]; [left|right].
    + split; [|exact (f_equal failed_write_count Efl)]. rewrite seal_row_seq in Hu. exact Hu.
    + by split.
  - change (active (Disk := Disk) t <= active (Disk := Disk) (o_tot (x_ dv)) + 1).
    destruct Hcase as [(_ & Es & _)|(_ & -> & _)]; [|lia].
    rewrite Es. unfold next_seg. case_match; lia.
Qed.

Definition telemetry_due (e : LoopEnv) (dv : Device) : Prop :=
  TELEMETRY_PERIOD_MS <= u32 (le_now e - tTelemetry dv).

(** The row of the cycle that starts in [dv]. *)
Definition row_of_cycle (e : LoopEnv) (dv : Device) (row : QRow) : Prop :=
  r_seq row = seq_ dv + 1 /\ totalizer row = Tot.total (o_tot (x_ dv)) (o_hw (x_ dv)) /\
  ts row = le_now e / 1000 /\ r_boot_id row = bootId (o_store (x_ dv)).

Lemma stored_inv row dv dv' :
  sys_inv dv -> r_seq row = seq_ dv + 1 -> stored_or_counted row dv dv' ->
  ordered (backlog dv') /\ Forall (fun r => r_seq r <= seq_ dv + 1) (backlog dv').
Proof.
  intros HI Es Hst. pose proof (si_slack _ HI). pose proof (si_ordered _ HI) as Ho.
  assert (Hr : Forall (fun r => r_seq r <= seq_ dv + 1) (backlog dv)).
  { eapply Forall_impl; [exact (si_rows _ HI)|]. intros r. simpl. lia. }
  destruct Hst as [[-> _]|[-> _]]; [|done].
  destruct (r_seq row <=? acked_upto dv); [by rewrite app_nil_r|]. split.
  - apply ordered_snoc; [by apply HI|]. by rewrite seal_row_seq, Es.
  - apply Forall_app. split; [done|]. apply Forall_singleton. rewrite seal_row_seq. lia.
Qed.

Definition new_row (e : LoopEnv) (dv : Device) : QRow :=
  (build_row bd (le_now e) (le_rssi e) dv{{tTelemetry := le_now e; seq_ := u32 (seq_ dv + 1)}}).1.

(** The cycle up to the point where its row is in the queue and its checkpoint
    is not yet written. *)
Definition row_appended (e : LoopEnv) (dv : Device) : Device :=
  let '(row, dv1) := build_row bd (le_now e) (le_rssi e)
                       dv{{tTelemetry := le_now e; seq_ := u32 (seq_ dv + 1)}} in
  append_row (le_append e) row dv1.

Lemma appended_spec e (dv : Device) :
  sys_inv dv -> is_u32 (le_now e) -> seq_ dv + 1 < 2 ^ 32 -> write_segment dv + 2 < 2 ^ 32 ->
  let dv' := row_appended e dv in
  QInv (o_queue (x_ dv')) (o_tot (x_ dv')) (o_disk (x_ dv')) /\
  seq_ dv' = seq_ dv + 1 /\ console_ dv' = console_ dv /\ o_store (x_ dv') = o_store (x_ dv) /\
  acked_upto dv' = acked_upto dv /\ Tot.lastSeq (o_tot (x_ dv')) = Tot.lastSeq (o_tot (x_ dv)) /\
  write_segment dv' <= write_segment dv + 1 /\
  ordered (backlog dv') /\ Forall (fun r => r_seq r <= seq_ dv + 1) (backlog dv') /\
  row_of_cycle e dv (new_row e dv) /\ stored_or_counted (new_row e dv) dv dv'.
Proof.
  intros HI Hn Hs Ha. unfold row_appended, new_row. pose proof (si_seq _ HI) as Hz.
  rewrite (u32_small (seq_ dv + 1)) by lia.
  set (dv0 := dv{{tTelemetry := le_now e; seq_ := seq_ dv + 1}}).
  assert (E0 : seq_ dv0 = seq_ dv + 1) by done.
  assert (Hx0 : x_ dv0 = x_ dv) by done. assert (Hc0 : console_ dv0 = console_ dv) by done.
  clearbody dv0.
  pose proof (build_row_spec (le_now e) (le_rssi e) dv0 Hn) as Hrow.
  rewrite Hx0, E0 in Hrow. specialize (Hrow ltac:(unfold is_u32; lia) (si_boot _ HI)).
  destruct (build_row bd (le_now e) (le_rssi e) dv0) as [row dv1].
  destruct Hrow as (Hu1 & Ex1 & Hf & Hseq & Htot & Hts & Hbid).
  assert (HI1 : QInv (o_queue (x_ dv1)) (o_tot (x_ dv1)) (o_disk (x_ dv1))) by (rewrite Ex1; apply HI).
  assert (Ew1 : write_segment dv1 = write_segment dv) by (unfold write_segment; by rewrite Ex1).
  pose proof (append_row_spec (le_append e) row dv1 HI1 Hf ltac:(lia)) as Hap. cbv zeta in Hap |- *.
  set (dv2 := append_row (le_append e) row dv1) in *. clearbody dv2.
  destruct Hap as (HI2 & Ea2 & Hst2 & Es2 & Ec2 & Eo2 & El2 & Ew2).
  assert (Est : stored_or_counted row dv dv2).
  { unfold stored_or_counted, backlog, acked_upto, failures in Hst2 |- *. by rewrite Ex1 in Hst2. }
  destruct (stored_inv row dv dv2 HI Hseq Est) as [Ho Hr].
  split_and!; try done; [by rewrite Es2, (un_seq _ _ Hu1)|by rewrite Ec2, (un_console _ _ Hu1)|
    by rewrite Eo2, Ex1|by rewrite Ea2; unfold acked_upto; rewrite Ex1|by rewrite El2, Ex1|lia].
Qed.

Lemma telemetry_spec e (dv : Device) :
  sys_inv dv -> is_u32 (le_now e) -> seq_ dv + 1 < 2 ^ 32 -> write_segment dv + 2 < 2 ^ 32 ->
  let dv' := telemetry_cycle bd e dv in
  (~ telemetry_due e dv /\ dv' = dv) \/
  (telemetry_due e dv /\ sys_inv dv' /\ seq_ dv' = seq_ dv + 1 /\
   Tot.lastSeq (o_tot (x_ dv')) = seq_ dv' /\ acked_upto dv' = acked_upto dv /\
   write_segment dv' <= write_segment dv + 1 /\
   row_of_cycle e dv (new_row e dv) /\ stored_or_counted (new_row e dv) dv dv').
Proof.
  intros HI Hn Hs Ha dv'. subst dv'. unfold telemetry_cycle, telemetry_due.
  destruct (Z.leb_spec TELEMETRY_PERIOD_MS (u32 (le_now e - tTelemetry dv))); [right|left; split; [lia|done]].
  pose proof (appended_spec e dv HI Hn Hs Ha) as Hap. unfold row_appended in Hap. cbv zeta in *.
  set (dv0 := dv{{tTelemetry := le_now e; seq_ := u32 (seq_ dv + 1)}}) in *.
  destruct (build_row bd (le_now e) (le_rssi e) dv0) as [row dv1].
  set (dv2 := append_row (le_append e) row dv1) in *. clearbody dv2.
  destruct Hap as (HI2 & Es2 & Ec2 & Eo2 & Ea2 & _ & Ew2 & Ho & Hr & Hrow & Hst2).
  set (row' := new_row e dv) in *. clearbody row'.
  destruct (checkpoint_spec (le_tot_n1 e) (le_tot_n2 e) dv2) as (Hq3 & Es3 & Ec3 & Hl3).
  set (dv3 := checkpoint (le_tot_n1 e) (le_tot_n2 e) dv2) in *. clearbody dv3.
  destruct (same_rows_inv _ _ Hq3 HI2) as [HI3 Hb3].
  match goal with |- context [sys_inv ?d] => set (dv4 := d) end.
  assert (Eb : backlog dv4 = backlog dv2) by exact Hb3.
  assert (Ea : acked_upto dv4 = acked_upto dv)
    by (unfold acked_upto in *; rewrite <- Ea2; by rewrite <- (sq_queue _ _ Hq3)).
  assert (Es : seq_ dv4 = seq_ dv + 1) by (rewrite <- Es2; exact Es3).
  assert (El : Tot.lastSeq (o_tot (x_ dv4)) = seq_ dv + 1) by (rewrite <- Es2; exact Hl3).
  assert (Ec : console_ dv4 = console_ dv) by (rewrite <- Ec2; exact Ec3).
  assert (Eo : o_store (x_ dv4) = o_store (x_ dv)) by (rewrite <- Eo2; exact (sq_store _ _ Hq3)).
  assert (Ew : write_segment dv4 = write_segment dv2) by exact (sq_seg _ _ Hq3).
  assert (Ef : failures dv4 = failures dv2) by exact (f_equal failedWriteCount (sq_queue _ _ Hq3)).
  pose proof HI as [Hsl Hco _ _ _ Hak Hz _ _ Hbo].
  split; [done|]. split; [|split; [done|split; [by rewrite El, Es|split; [done|split; [by rewrite Ew|split; [done|]]]]]].
  - split; rewrite ?Eb, ?Ea, ?Es, ?El, ?Ec, ?Eo; try done; try lia.
    eapply Forall_impl; [exact Hr|]. intros r Hle. simpl in Hle |- *. lia.
  - unfold stored_or_counted in *. by rewrite Eb, Ef.
Qed.

(** ** One push *)

(** [r], or a row with its number, was in a batch that went out in [log] and
    that the server acknowledged in a 200 reply. *)
Definition delivered (e : LoopEnv) (log : list HttpReq) (r : QRow) : Prop :=
  exists st s (n : N) batch r0 rep,
    let rq := wire_request bd (le_push e) st s n batch in
    rq ∈ log /\ Sync.pe_net (le_push e) rq = Some rep /\ rp_code rep = 200 /\
    r0 ∈ batch /\ r_seq r0 = r_seq r /\ r_seq r <= extractLong_ (rp_body rep) "ack_seq".

(** [l'] is what is left of [l] when only delivered rows may go. *)
Definition kept_or_delivered (e : LoopEnv) (log : list HttpReq) (l l' : list QRow) : Prop :=
  (forall r, r ∈ l -> r ∈ l' \/ delivered e log r) /\ (forall r, r ∈ l' -> r ∈ l).

Lemma same_kept e log l : kept_or_delivered e log l l.
Proof. split; [by left|done]. Qed.

Lemma batch_bound k l newest (r : QRow) ack :
  ordered l -> last (take k l) = Some newest -> r ∈ l ->
  r_seq r <= (boundAckSeq ack (r_seq newest)).1 ->
  r_seq r <= ack /\ exists r0, r0 ∈ take k l /\ r_seq r0 = r_seq r.
Proof.
  intros Ho Hl Hr Hb.
  assert (Hack : r_seq r <= ack /\ r_seq r <= r_seq newest).
  { revert Hb. unfold boundAckSeq. destruct (Z.ltb_spec (r_seq newest) ack); simpl; lia. }
  split; [lia|]. rewrite <- (take_drop k l) in Hr. apply elem_of_app in Hr as [Hr|Hr]; [by exists r|].
  rewrite last_lookup in Hl. pose proof (list_elem_of_lookup_2 _ _ _ Hl) as Hin.
  exists newest. split; [done|].
  apply list_elem_of_lookup in Hr as (j & Hj). rewrite lookup_drop in Hj.
  pose proof (lookup_lt_Some _ _ _ Hl) as Hlt. rewrite length_take in Hlt.
  apply lookup_take_Some in Hl as [Hl Hk].
  enough (r_seq newest <= r_seq r) by lia. eapply Ho; [|exact Hl|exact Hj]. lia.
Qed.

Lemma filter_kept e rq rep (s : Sync.Sync) st (n : N) l newest ack :
  ordered l -> last (take PUSH_BATCH_MAX l) = Some newest ->
  rq = wire_request bd (le_push e) st s n (take PUSH_BATCH_MAX l) ->
  Sync.pe_net (le_push e) rq = Some rep -> rp_code rep = 200 ->
  ack = extractLong_ (rp_body rep) "ack_seq" ->
  kept_or_delivered e [rq] l (List.filter (above (boundAckSeq ack (r_seq newest)).1) l).
Proof.
  intros Ho Hl -> Hn Hc ->. set (bound := (boundAckSeq _ (r_seq newest)).1). split; intros r Hr.
  - destruct (above bound r) eqn:Ha.
    + left. apply list_elem_of_In, List.filter_In. split; [by apply list_elem_of_In|done].
    + right. unfold above in Ha. apply Z.ltb_ge in Ha.
      destruct (batch_bound _ _ _ _ (extractLong_ (rp_body rep) "ack_seq") Ho Hl Hr Ha) as (Hack & r0 & Hr0 & E0).
      exists st, s, n, (take PUSH_BATCH_MAX l), r0, rep. cbv zeta. split_and!; try done.
      by apply list_elem_of_singleton.
  - apply list_elem_of_In, List.filter_In in Hr as [Hr _]. by apply list_elem_of_In.
Qed.

Lemma push_step_spec e (dv : Device) :
  sys_inv dv -> write_segment dv + 1 < 2 ^ 32 ->
  let '(log, dv') := push_step bd e dv in
  sys_inv dv' /\ (length log <= 1)%nat /\ Forall pinned log /\
  seq_ dv' = seq_ dv /\ failures dv' = failures dv /\
  kept_or_delivered e log (backlog dv) (backlog dv').
Proof.
  intros HI Ha. unfold push_step.
  pose proof (push_cases bd (le_push e) (o_store (x_ dv)) (o_sync (x_ dv)) (o_queue (x_ dv))
    (o_tot (x_ dv)) (o_disk (x_ dv)) (o_nvs (x_ dv)) (si_queue _ HI) Ha) as Hc.
  destruct (Sync.pushOnce bd _ _ _ _ _ _ _) as [[[[[ok log] s'] q'] d'] n'].
  match goal with |- context [signal_healthy ok _ ?d] => set (dv1 := d) end.
  pose proof (signal_untouched ok (le_mark_rc e) dv1) as Hsig.
  set (dv2 := signal_healthy ok (le_mark_rc e) dv1) in *. clearbody dv2.
  enough (sys_inv dv1 /\ (length log <= 1)%nat /\ Forall pinned log /\ failures dv1 = failures dv /\
    kept_or_delivered e log (backlog dv) (backlog dv1)) as (HI1 & Hl & Hp & Hfl & Hk).
  { destruct (untouched_sys _ _ Hsig HI1) as [HI2 Eb].
    rewrite Eb, (un_seq _ _ Hsig), (untouched_failures _ _ Hsig). by split_and!. }
  clear Hsig dv2. pose proof HI as [Hsl Hcon HQ Ho Hr Hak Hz Hl Hre Hb]. fold (backlog dv) in Hc.
  destruct ok.
  - destruct Hc as (rep & newest & -> & En & E200 & El & Hack & HI' & Eacked & Hu & _ & Hfl).
    set (bound := (boundAckSeq _ _).1) in *.
    assert (Hnew : bound <= seq_ dv + slack).
    { assert (r_seq newest <= seq_ dv + slack).
      { rewrite Forall_forall in Hr. apply Hr. apply (subseteq_take PUSH_BATCH_MAX).
        rewrite last_lookup in El. by eapply list_elem_of_lookup_2. }
      unfold bound, boundAckSeq. destruct (_ <? _) eqn:E; bool_prop; simpl; lia. }
    assert (Eb : backlog dv1 = List.filter (above bound) (backlog dv)) by exact Hu.
    split_and!; [|simpl; lia|apply Forall_singleton, request_pinned|exact (f_equal failed_write_count Hfl)|].
    + split; try done.
      * rewrite Eb. by apply ordered_filter.
      * rewrite Eb. rewrite Forall_forall in Hr |- *. intros r Hin. apply Hr.
        apply list_elem_of_In, List.filter_In in Hin as [Hin _]. by apply list_elem_of_In.
      * change (acked_seq (ack_ q') <= seq_ dv + slack). rewrite Eacked.
        unfold acked_upto, ackedSeq in Hak. lia.
      * change (seq_ dv <= Z.max (Tot.lastSeq (o_tot (x_ dv))) (acked_seq (ack_ q'))).
        rewrite Eacked. unfold acked_upto, ackedSeq in Hre. lia.
    + rewrite Eb. by eapply filter_kept.
  - destruct Hc as (Hlog & Eack & Hfl & -> & HI' & Hu).
    assert (Eb : backlog dv1 = backlog dv) by exact Hu.
    split_and!.
    + split; try done; rewrite ?Eb; try done.
      * change (acked_seq (ack_ q') <= seq_ dv + slack). by rewrite Eack.
      * change (seq_ dv <= Z.max (Tot.lastSeq (o_tot (x_ dv))) (acked_seq (ack_ q'))). by rewrite Eack.
    + destruct Hlog as [-> | ->]; simpl; lia.
    + destruct Hlog as [-> | ->]; [done|]. apply Forall_singleton, request_pinned.
    + exact (f_equal failed_write_count Hfl).
    + rewrite Eb. apply same_kept.
Qed.

Variable C : Crypto.
Variable toFloat : string -> f32.

(** ** The network slot *)

Definition network_push e (dv : Device) : bool := PUSH_PERIOD_MS <=? u32 (le_now e - tPush dv).

(** The image behind an authentic manifest is being downloaded. *)
Definition ota_download (e : LoopEnv) (dv : Device) : Prop :=
  exists rep,
    Ota.oe_net (le_ota e) (manifest_request bd (o_nvs (x_ dv))) = Some rep /\
    authentic C bd (o_sync (x_ dv)) (Ota.oe_time_now (le_ota e)) (o_nvs (x_ dv)) (rp_body rep).

Lemma network_cases e (dv : Device) :
  network C toFloat bd e dv =
  if network_push e dv
  then let '(log, dv') := push_step bd e dv in Some (log, dv', Console.Go)
  else if CONFIG_POLL_MS <=? u32 (le_now e - tConfig dv)
  then let '(log, dv') := config_step toFloat bd e dv in Some (log, dv', Console.Go)
  else if OTA_POLL_MS <=? u32 (le_now e - tOta dv) then ota_step C bd e dv
  else Some ([], dv, Console.Go).
Proof.
  unfold network, network_push. destruct (PUSH_PERIOD_MS <=? _).
  { destruct (push_step bd e dv) as [log dv']. done. }
  cbn [negb andb]. destruct (CONFIG_POLL_MS <=? _).
  { destruct (config_step toFloat bd e dv) as [log dv']. done. }
  cbn [negb andb]. destruct (OTA_POLL_MS <=? _); [|done].
  by destruct (ota_step C bd e dv) as [[[log dv'] k]|].
Qed.

Lemma config_log e (dv : Device) :
  let log := (config_step toFloat bd e dv).1 in (length log <= 1)%nat /\ Forall pinned log.
Proof.
  unfold config_step, Sync.pollConfig.
  destruct (negb _); [by split; [simpl; lia|]|]. cbv zeta. set (rq := request _ _ _ _ _).
  assert (Hp : Forall pinned [rq]) by (apply Forall_singleton, request_pinned). clearbody rq.
  destruct (Sync.ce_net _ rq) as [rep|]; [|by split; [simpl; lia|]].
  destruct (rp_code rep =? 200); by split; [simpl; lia|].
Qed.

Lemma network_requests e (dv : Device) log dv' k :
  network C toFloat bd e dv = Some (log, dv', k) ->
  Forall pinned log /\ ((length log <= 1)%nat \/ (length log = 2%nat /\ ota_download e dv)).
Proof.
  rewrite network_cases. destruct (network_push e dv).
  { unfold push_step. pose proof (push_log bd (le_push e) (o_store (x_ dv)) (o_sync (x_ dv))
      (o_queue (x_ dv)) (o_tot (x_ dv)) (o_disk (x_ dv)) (o_nvs (x_ dv))) as [Hl Hp].
    destruct (Sync.pushOnce _ _ _ _ _ _ _ _) as [[[[[ok l] s] q] d] n]. intros [= <- <- <-].
    by split; [|left]. }
  destruct (CONFIG_POLL_MS <=? _).
  { pose proof (config_log e dv) as [Hl Hp]. destruct (config_step _ _ _ _). intros [= <- <- <-].
    by split; [|left]. }
  destruct (OTA_POLL_MS <=? _); [|by intros [= <- <- <-]; split; [|left; simpl; lia]].
  unfold ota_step. destruct (Ota.poll C bd _ _ _ _ _) as [[[[l o] u] rs]|] eqn:Hpoll; [|done].
  apply poll_log in Hpoll as [Hp Hl].
  destruct rs; intros [= <- <- <-]; (split; [done|]); exact Hl.
Qed.

Lemma network_spec e (dv : Device) log dv' k :
  sys_inv dv -> write_segment dv + 1 < 2 ^ 32 ->
  network C toFloat bd e dv = Some (log, dv', k) ->
  sys_inv dv' /\ seq_ dv' = seq_ dv /\ failures dv' = failures dv /\
  kept_or_delivered e log (backlog dv) (backlog dv').
Proof.
  intros HI Ha. rewrite network_cases. destruct (network_push e dv).
  { pose proof (push_step_spec e dv HI Ha) as Hp. destruct (push_step bd e dv). intros [= <- <- <-].
    destruct Hp as (HI' & _ & _ & Es & Hfl & Hk). by split_and!. }
  assert (Hstep : forall dv1, untouched dv dv1 ->
    sys_inv dv1 /\ seq_ dv1 = seq_ dv /\ failures dv1 = failures dv /\ forall log, kept_or_delivered e log (backlog dv) (backlog dv1)).
  { intros dv1 Hu. destruct (untouched_sys _ _ Hu HI) as [HI1 Eb]. rewrite Eb.
    split_and!; [done|by apply un_seq|by apply untouched_failures|]. intros. apply same_kept. }
  destruct (CONFIG_POLL_MS <=? _).
  { destruct (Hstep _ (config_untouched toFloat bd e dv)) as (HI1 & Es & Hfl & Hk).
    destruct (config_step _ _ _ _). intros [= <- <- <-]. by split_and!. }
  destruct (OTA_POLL_MS <=? _).
  { intros Hr. by destruct (Hstep _ (ota_untouched C bd e dv _ Hr)) as (HI1 & Es & Hfl & Hk). }
  intros [= <- <- <-]. destruct (Hstep dv ltac:(reflexivity)) as (HI1 & Es & Hfl & Hk). by split_and!.
Qed.

End cycle.
