(* ===== verification/FlashAgree.v ===== *)
(** * Flash that works

    On a flash whose writes take effect ([ReliableFlash]) the slots of the
    checkpoint and of the acknowledgement hold what the device knows
    ([agree]); every step of the program keeps it so, and a power cut that
    tears one write leaves it so. *)

From coqutil Require Import Datatypes.RecordSetters.
From S2P Require Import Prelude Config Arduino Crc32 Records Storage DualSlot Parse Sensors Boot Store Totalizer QueueData Queue QueueSpec QueueRefine QueueBoot QueueTheorems FlashFrame OtaPolicy Telemetry Net Sync SyncTheorems Ota OtaTheorems Diagnostics LocalApi LanTheorems WifiProvision Provision ConsoleTheorems Main MainInv.
Import St EventQueue DoubleBraceUpdate Main.

Section saved.
Context {Disk : Type} `{LittleFSLaws Disk} `{SB : StorageBackend Disk}
  {SBL : StorageBackendLaws Disk}.
Implicit Types (d : Disk) (c : Tot.Checkpoint) (a : AckRec).

Abbreviation ckpt_synced := (synced Tot.CKPT_PATH_A Tot.CKPT_PATH_B Tot.ck_writes Tot.load_either).
Abbreviation ckpt_bounded := (bounded Tot.CKPT_PATH_A Tot.CKPT_PATH_B Tot.ck_writes Tot.load_either).
Abbreviation ack_synced := (synced ACK_PATH_A ACK_PATH_B a_writes ld_ack).
Abbreviation ack_bounded := (bounded ACK_PATH_A ACK_PATH_B a_writes ld_ack).

(** ** The checkpoint's slots *)

(** What a boot takes from a checkpoint besides the total. *)
Definition place c : Z * Z * Z * Z :=
  (Tot.writes c, Tot.seq c, Tot.q_segment c, Tot.q_offset c).

(** The newest slot has the device's place, or nothing was ever written. *)
Definition ckpt_saved c d : Prop :=
  (exists c0, ckpt_synced (c0, false) d /\ place c0 = place c) \/
  (recover Tot.CKPT_PATH_A Tot.CKPT_PATH_B Tot.ck_writes Tot.load_either d = None /\ place c = (0, 0, 0, 0)).

Lemma ckpt_saved_bounded c d : ckpt_saved c d -> ckpt_bounded (Tot.writes c) d.
Proof.
  intros [(c0 & Hs & [= <- _ _ _])|[[HA HB]%recover_none _]].
  - exact (synced_bounded _ _ _ _ _ _ Hs).
  - by apply fresh_bounded.
Qed.

Lemma ckpt_saved_frame c c' d d' :
  place c' = place c ->
  lfs_read Tot.CKPT_PATH_A d' = lfs_read Tot.CKPT_PATH_A d ->
  lfs_read Tot.CKPT_PATH_B d' = lfs_read Tot.CKPT_PATH_B d ->
  ckpt_saved c d -> ckpt_saved c' d'.
Proof.
  intros Ep EA EB. unfold ckpt_saved. rewrite Ep.
  destruct (slots_ext _ _ Tot.ck_writes Tot.load_either d d' EA EB) as [Hs ->].
  intros [(c0 & Hc & E)|Hn]; [left|by right]. exists c0. split; [by apply Hs|done].
Qed.

(** ** The acknowledgement's slots *)

Definition no_ack : AckRec := Build_AckRec ACK_MAGIC 0 0 0 0 0 0.

Definition ack_saved a d : Prop :=
  ack_synced a d \/ (recover ACK_PATH_A ACK_PATH_B a_writes ld_ack d = None /\ a = no_ack).

Lemma ack_saved_recovered a d : ack_saved a d -> recovered_ack d = a.
Proof.
  intros Hs. unfold recovered_ack. rewrite !loadAck_ld.
  change (default no_ack (recover ACK_PATH_A ACK_PATH_B a_writes ld_ack d) = a).
  destruct Hs as [Hs|[-> ->]]; [|done]. by rewrite (recover_synced _ _ _ _ _ _ Hs).
Qed.

Lemma ack_saved_bounded a d : ack_saved a d -> ack_bounded (a_writes a) d.
Proof.
  intros [Hs|[[HA HB]%recover_none _]]; [by apply synced_bounded|by apply fresh_bounded].
Qed.

Lemma ack_saved_frame a d d' :
  lfs_read ACK_PATH_A d' = lfs_read ACK_PATH_A d -> lfs_read ACK_PATH_B d' = lfs_read ACK_PATH_B d ->
  ack_saved a d -> ack_saved a d'.
Proof.
  intros EA EB. unfold ack_saved.
  destruct (slots_ext _ _ a_writes ld_ack d d' EA EB) as [Hs ->]. intros [Hc|Hn]; [left; by apply Hs|by right].
Qed.

Lemma ld_ack_seal a : fields_fit a -> ld_ack (Some (bytes_of (seal a))) = Some (seal a).
Proof.
  intros Hf. unfold ld_ack. cbn [mbind option_bind].
  rewrite take_ge by by rewrite length_bytes_of.
  apply load_bytes_seal; [apply ACK_MAGIC_fits|done].
Qed.

Definition ack_file (p : string) : Prop := p = ACK_PATH_A \/ p = ACK_PATH_B.

Lemma ack_files_names d d' : touches ack_file d d' -> names_ok d -> names_ok d'.
Proof.
  intros Ht Hn. eapply names_frame; [exact Ht| | |exact Hn].
  - intros p. unfold ack_file. destruct (decide (p = ACK_PATH_A)), (decide (p = ACK_PATH_B)); tauto.
  - intros p [-> | ->] name id E Hp; apply (str_app_inj "/queue/" "/queue/") in E as [_ E]; try done;
      subst name; vm_compute in Hp; done.
Qed.

Definition restamped a : AckRec :=
  seal (Build_AckRec ACK_MAGIC (acked_seq a) (a_boot_id a) (u32 (a_writes a + 1))
          (cursor_segment a) (cursor_offset a) (a_crc32 a)).

Lemma restamped_fields a :
  acked_seq (restamped a) = acked_seq a /\ a_boot_id (restamped a) = a_boot_id a /\
  a_writes (restamped a) = u32 (a_writes a + 1) /\
  cursor_segment (restamped a) = cursor_segment a /\ cursor_offset (restamped a) = cursor_offset a.
Proof.
  unfold restamped. match goal with |- context [seal ?x] =>
    pose proof (seal_fields (R := AckRec) x) as Hs; revert Hs; generalize (seal x) end.
  simpl. intros s Hs. by simplify_eq.
Qed.

Lemma restamped_loads a : fields_fit a -> ld_ack (Some (bytes_of (restamped a))) = Some (restamped a).
Proof.
  intros Hf. apply AckRec_fits in Hf. unfold restamped. apply ld_ack_seal. rewrite AckRec_fits.
  cbn [acked_seq a_boot_id a_writes cursor_segment cursor_offset].
  pose proof (u32_range (a_writes a + 1)). tauto.
Qed.

Lemma restamped_fit a : fields_fit a -> fields_fit (restamped a).
Proof.
  rewrite !AckRec_fits. destruct (restamped_fields a) as (-> & -> & -> & -> & ->).
  pose proof (u32_range (a_writes a + 1)). tauto.
Qed.

(** A written acknowledgement is what the flash holds. *)
Lemma persistAck_saved `{!ReliableFlash Disk} q d :
  fields_fit (ack_ q) -> ack_bounded (a_writes (ack_ q)) d -> a_writes (ack_ q) + 1 < 2 ^ 32 ->
  let '(q', d') := persistAck_ q d in
  ack_ q' = restamped (ack_ q) /\ ack_saved (ack_ q') d' /\ touches ack_file d d'.
Proof.
  intros Hf Hb Hw. unfold persistAck_. fold (restamped (ack_ q)).
  pose proof (restamped_loads _ Hf) as Hld.
  destruct (restamped_fields (ack_ q)) as (_ & _ & Ew & _).
  assert (Hw0 : 0 <= a_writes (ack_ q)) by (apply AckRec_fits in Hf; unfold is_u32 in Hf; lia).
  rewrite u32_small in Ew by lia. generalize dependent (restamped (ack_ q)). intros a Hld Ew.
  cbv zeta. set (p := slot ACK_PATH_A ACK_PATH_B (a_writes a)).
  assert (Hp : ack_file p) by apply slot_cases.
  pose proof (whole_ok p (bytes_of a) d) as Hok.
  destruct (writeWhole p (bytes_of a) d) as [b d'] eqn:Hd. cbn [fst snd] in Hok |- *. subst b.
  apply writeWhole_law in Hd. split_and!; [done| |by eapply only_touches]. left.
  exact (write_synced ACK_PATH_A ACK_PATH_B ltac:(done) _ _ _ _ _ _ _ Hb Ew Hld Hd).
Qed.

#[local] Opaque restamped.

(** ** Names *)

Lemma names_shrink d d' :
  (forall p, is_Some (lfs_read p d') -> is_Some (lfs_read p d)) -> names_ok d -> names_ok d'.
Proof. intros Hs Hn name id Hr. by apply Hn, Hs. Qed.

Lemma remove_segs_shrinks fuel s seg d :
  0 <= s -> seg < 2 ^ 32 ->
  touches (fun p => exists s', p = segmentPath_ s') d (remove_segs fuel s seg d) /\
  forall p, is_Some (lfs_read p (remove_segs fuel s seg d)) -> is_Some (lfs_read p d).
Proof.
  revert s d. induction fuel as [|fuel IH]; intros s d Hs Hseg; [done|].
  cbn [remove_segs]. destruct (Z.ltb_spec s seg); [|done]. rewrite u32_small by lia.
  destruct (IH (s + 1) (lfs_remove (segmentPath_ s) d)) as [Ht Hsh]; [lia|lia|].
  destruct (lfs_remove_law (segmentPath_ s) d) as [Ho|Ho]; (split; [etransitivity; [|exact Ht]|]).
  - eapply only_touches; [|exact Ho]. by exists s.
  - intros p Hp%Hsh. destruct Ho as [E Ho]. destruct (decide (p = segmentPath_ s)) as [->|Hne].
    + rewrite E in Hp. by destruct Hp.
    + by rewrite <- (Ho p Hne).
  - by apply same_touches.
  - intros p Hp%Hsh. by rewrite <- (Ho p).
Qed.

(** ** Checkpoint writes *)

Lemma persist_saved `{!ReliableFlash Disk} t d :
  Tot.wf t -> ckpt_bounded (Tot.writes (Tot.cp_ t)) d -> Tot.writes (Tot.cp_ t) + 1 < 2 ^ 32 ->
  let '(t', d') := Tot.persist_ t d in
  Tot.wf t' /\ Tot.cp_ t' = Tot.stamp (Tot.cp_ t) /\ ckpt_saved (Tot.cp_ t') d' /\ touches tot_files d d'.
Proof.
  intros Hwf Hb Hw. pose proof (Tot.persist_Inv t d (conj Hwf Hb) Hw) as [Hwf' _].
  pose proof (Tot.persist_synced t d (conj Hwf Hb) Hw) as Hs.
  pose proof (persist_touches t d) as Ht. pose proof (Tot.persist_cp t d) as Hcp.
  assert (Hp : Tot.persisted (Tot.persist_ t d).1 (Tot.persist_ t d).2).
  { unfold Tot.persisted. rewrite Hcp. unfold Tot.persist_. cbv zeta. cbn [snd].
    set (p := slot _ _ _). set (bs := bytes_of _). destruct (rewrite_ok p bs d) as [d' Hd]. rewrite Hd.
    apply lfs_rewrite_law in Hd as [_ [Hr _]]. by rewrite firstn_all in Hr. }
  specialize (Hs Hp). destruct (Tot.persist_ t d) as [t' d']. cbn [fst snd] in *.
  split_and!; [done|done| |done]. left. exists (Tot.stamp (Tot.cp_ t)). by rewrite Hcp.
Qed.

Lemma tot_touches d d' :
  touches tot_files d d' ->
  lfs_read ACK_PATH_A d' = lfs_read ACK_PATH_A d /\ lfs_read ACK_PATH_B d' = lfs_read ACK_PATH_B d.
Proof. intros Ht. split; apply Ht; by intros [E|E]. Qed.

(** ** Appending on flash that works *)

Lemma append_works `{!ReliableFlash Disk} row ms0 ms1 msf q (t : Tot.Totalizer) d :
  QInv q t d -> active (Disk := Disk) t + 2 < 2 ^ 32 ->
  let '(q', _, _) := append row ms0 ms1 msf q t d in fail_ q' = fail_ q /\ ack_ q' = ack_ q.
Proof.
  intros HI Hact. unfold append. rewrite (qi_wired _ _ _ HI). cbn [negb]. cbv zeta.
  fold (active (Disk := Disk) t) (good (Disk := Disk) t). pose proof (next_file _ _ _ HI) as Hn.
  rewrite next_seg_u32 by (pose proof (qi_seg _ _ _ HI); lia).
  pose proof (open_ok (segmentPath_ (next_seg t)) d) as Hok.
  destruct (appendOpenSize (segmentPath_ (next_seg t)) d) as [n d1] eqn:Ho.
  apply append_opens in Ho as [[-> _]|(-> & Hc & Hr1 & _)]; [done|].
  rewrite Hc. rewrite (proj2 (Z.ltb_ge _ 0)) by lia. rewrite u32_small by (unfold cap in *; lia).
  destruct (settle_tail _ _ _ d1) as [s d2] eqn:Hst.
  assert (Hs : s <> None).
  { revert Hst. unfold settle_tail. rewrite (proj2 (Z.ltb_ge 36 _)) by lia.
    destruct (Z.ltb_spec (next_off t) (Z.of_nat (length (content (segmentPath_ (next_seg t)) d)))).
    - pose proof (truncate_ok (segmentPath_ (next_seg t)) (Z.to_nat (next_off t)) d1
        ltac:(by rewrite Hr1) ltac:(rewrite Hc; lia)) as Htr.
      destruct (truncateTo _ _ d1) as [b d3]. cbn [fst] in Htr. subst b. by intros [= <- _].
    - case_match; by intros [= <- _]. }
  destruct s as [off|]; [|done].
  pose proof (append_ok (segmentPath_ (next_seg t)) (bytes_of (seal_row row)) d2) as Hap.
  destruct (appendWrite _ _ d2) as [w d3]. cbn [fst] in Hap. rewrite Hap, row_length.
  cbn [Z.of_nat Pos.of_succ_nat Z.ltb Z.compare Z.eqb Pos.eqb negb].
  by destruct (setQueueOffset _ _ t d3) as [t' d4].
Qed.

(** ** Acknowledging on flash that works *)

(** Files an acknowledgement changes. *)
Definition acked_file (p : string) : Prop := ack_file p \/ exists s, p = segmentPath_ s.

Lemma acked_not_ckpt p : tot_files p -> ~ acked_file p.
Proof.
  intros Hp [[-> | ->]|[s ->]]; [destruct Hp as [E|E]; discriminate E..|].
  by apply (tot_files_segment s).
Qed.

Lemma ack_walk_range bound q (t : Tot.Totalizer) d :
  QInv q t d -> active (Disk := Disk) t + 1 < 2 ^ 32 ->
  let '(seg, off, _) := ack_segs (seg_fuel (cursor_segment (ack_ q)) (active (Disk := Disk) t)) bound
    (active (Disk := Disk) t) t d (cursor_segment (ack_ q)) (cursor_offset (ack_ q)) 0 in
  cursor_segment (ack_ q) <= seg <= active (Disk := Disk) t /\ 0 <= off <= cap.
Proof.
  intros HI Ha. pose proof (QInv_in_range _ _ _ HI Ha) as Hr.
  destruct (ack_segs_spec (seg_fuel (cursor_segment (ack_ q)) (active (Disk := Disk) t)) bound t d
              (cursor_segment (ack_ q)) (cursor_offset (ack_ q)) 0 (on_walk q t))
    as (seg & off & n & -> & Hr' & Hs1 & Hs2 & [_ Hok] & _ & _);
    [done|done|by unfold is_u32|by apply on_walk_closed| |].
  { split; [pose proof (qi_seg _ _ _ HI); lia|apply (qi_off _ _ _ HI)]. }
  pose proof (qi_good _ _ _ HI) as [Hg _]. pose proof (qi_seg _ _ _ HI) as [_ Hcs].
  split; [by split; [|apply Hs2]|]. destruct Hok as (H1 & _ & H3). split; [done|].
  etransitivity; [exact H3|]. case_match; [apply Hg|done].
Qed.

Lemma ackThrough_saved `{!ReliableFlash Disk} bound boot q (t : Tot.Totalizer) d :
  QInv q t d -> active (Disk := Disk) t + 1 < 2 ^ 32 ->
  fields_fit (ack_ q) -> ack_saved (ack_ q) d -> a_writes (ack_ q) + 1 < 2 ^ 32 ->
  bound < 2 ^ 32 -> is_u32 boot ->
  let '(q', d') := ackThrough bound boot q t d in
  fields_fit (ack_ q') /\ ack_saved (ack_ q') d' /\ a_writes (ack_ q') <= a_writes (ack_ q) + 1 /\
  touches acked_file d d' /\ (names_ok d -> names_ok d').
Proof.
  intros HI Ha Hf Hsv Hw Hb Hboot. unfold ackThrough. rewrite (qi_wired _ _ _ HI). cbn [negb].
  destruct (Z.leb_spec bound (acked_seq (ack_ q))) as [Hle|Hlt].
  { split_and!; [done|done|lia|done|done]. }
  cbv zeta. fold (active (Disk := Disk) t). pose proof (ack_walk_range bound q t d HI Ha) as Hwalk.
  destruct (ack_segs _ _ _ _ _ _ _ _) as [[seg off] n]. destruct Hwalk as [Hsg Hoff].
  pose proof (qi_seg _ _ _ HI) as Hc. apply AckRec_fits in Hf as (Hf1 & Hf2 & Hf3 & Hf4 & Hf5).
  set (q1 := with_unacked _ _).
  assert (Hf' : fields_fit (ack_ q1)).
  { apply AckRec_fits. cbn. unfold is_u32, cap in *. split_and!; lia. }
  pose proof (persistAck_saved q1 d Hf' (ack_saved_bounded _ _ Hsv) Hw) as Hp.
  destruct (persistAck_ q1 d) as [q2 d2]. destruct Hp as (Eq2 & Hs2 & Ht2).
  destruct (remove_segs_shrinks (Z.to_nat (seg - cursor_segment (ack_ q))) (cursor_segment (ack_ q)) seg d2)
    as [Ht3 Hsh]; [lia|lia|].
  set (d3 := remove_segs _ _ _ d2) in Ht3, Hsh |- *. clearbody d3.
  assert (Hra : forall p, ack_file p -> lfs_read p d3 = lfs_read p d2).
  { intros p Hp. apply Ht3. intros [s ->]. destruct Hp as [E|E]; discriminate E. }
  split_and!.
  - rewrite Eq2. by apply restamped_fit.
  - eapply ack_saved_frame; [apply Hra; by left|apply Hra; by right|done].
  - rewrite Eq2. destruct (restamped_fields (ack_ q1)) as (_ & _ & -> & _).
    change (a_writes (ack_ q1)) with (a_writes (ack_ q)). unfold is_u32 in Hf3. rewrite u32_small by lia. lia.
  - etransitivity; [eapply touches_mono; [|exact Ht2]; by left|].
    eapply touches_mono; [|exact Ht3]. by right.
  - intros Hn. eapply names_shrink; [exact Hsh|]. by eapply ack_files_names.
Qed.

Lemma push_saved {N} `{Preferences N} `{!ReliableFlash Disk} bd e st s q (t : Tot.Totalizer) d (n : N) :
  QInv q t d -> active (Disk := Disk) t + 1 < 2 ^ 32 ->
  fields_fit (ack_ q) -> ack_saved (ack_ q) d -> a_writes (ack_ q) + 1 < 2 ^ 32 -> is_u32 (bootId st) ->
  let '(_, _, _, q', d', _) := Sync.pushOnce bd e st s q t d n in
  fields_fit (ack_ q') /\ ack_saved (ack_ q') d' /\ a_writes (ack_ q') <= a_writes (ack_ q) + 1 /\
  touches acked_file d d' /\ (names_ok d -> names_ok d').
Proof.
  intros HI Ha Hf Hsv Hw Hboot. unfold Sync.pushOnce.
  assert (Hstay : forall q', ack_ q' = ack_ q ->
    fields_fit (ack_ q') /\ ack_saved (ack_ q') d /\ a_writes (ack_ q') <= a_writes (ack_ q) + 1 /\
    touches acked_file d d /\ (names_ok d -> names_ok d)).
  { intros q' ->. split_and!; [done|done|lia|done|done]. }
  destruct (Sync.pe_online e); cbn [negb]; [|by apply Hstay].
  destruct (negb (Sync.pushBackoffMs_ s =? 0) && _); [by apply Hstay|].
  unfold pending. set (q1 := with_pending_latency _ q). set (batch := pendingImpl_ _ q t d).
  assert (HI1 : QInv q1 t d) by (by apply (QInv_ext q q1 t d d)).
  destruct (last batch) as [newest|]; [|by apply Hstay]. cbv zeta.
  destruct (Sync.pe_net e _) as [rep|]; [|by apply Hstay].
  destruct (rp_code rep =? 200); cbn [negb]; [|by apply Hstay].
  destruct (_ <? 0); [by apply Hstay|].
  set (ack := u32 _). pose proof (u32_range (extractLong_ (rp_body rep) "ack_seq")) as Hr. fold ack in Hr.
  assert (Hb : (boundAckSeq ack (r_seq newest)).1 < 2 ^ 32).
  { unfold boundAckSeq. unfold is_u32 in Hr. destruct (Z.ltb_spec (r_seq newest) ack); simpl; lia. }
  pose proof (ackThrough_saved _ (bootId st) q1 t d HI1 Ha Hf Hsv Hw Hb Hboot) as Hs.
  by destruct (ackThrough _ _ q1 t d) as [q2 d2].
Qed.
End saved.

(** ** The device and its flash *)

Section agree.
Context {N HW Disk U : Type} `{Preferences N} `{PcntLaws HW} `{LittleFSLaws Disk}
  `{SB : StorageBackend Disk} {SBL : StorageBackendLaws Disk} `{!ReliableFlash Disk} `{UpdaterLaws U}.

#[local] Abbreviation Device := (Device N HW Disk U).
#[local] Abbreviation Objects := (Objects N HW Disk).
Implicit Types (x : Objects) (dv : Device).

(** The flash [d] knows what the device knows. *)
Record agree x (d : Disk) : Prop := {
  ag_wf : Tot.wf (o_tot x);
  ag_ckpt : ckpt_saved (Tot.cp_ (o_tot x)) d;
  ag_fit : fields_fit (ack_ (o_queue x));
  ag_ack : ack_saved (ack_ (o_queue x)) d;
  ag_names : names_ok d;
}.

(** The two write counters. *)
Definition ckpt_count x : Z := Tot.writes (Tot.cp_ (o_tot x)).
Definition ack_count x : Z := a_writes (ack_ (o_queue x)).

(** [x'] comes from [x] by [k] checkpoint writes and steps that touch neither
    the flash, nor the queue, nor the checkpoint. *)
Inductive saves : nat -> Objects -> Objects -> Prop :=
  | saves_same x x' :
      o_disk x' = o_disk x -> o_queue x' = o_queue x ->
      Tot.cp_ (o_tot x') = Tot.cp_ (o_tot x) -> (Tot.wf (o_tot x) -> Tot.wf (o_tot x')) ->
      saves 0 x x'
  | saves_service sq n1 n2 h x x' :
      (Tot.wf (o_tot x) -> is_u32 sq) ->
      Tot.service sq n1 n2 (o_tot x) (o_disk x) (o_hw x) = (o_tot x', o_disk x', h) ->
      o_queue x' = o_queue x -> saves 1 x x'
  | saves_seq j k x y z : saves j x y -> saves k y z -> saves (j + k) x z.

Lemma saves_mono_r k x y z : saves k x y -> saves 0 y z -> saves k x z.
Proof. intros Ha Hb. rewrite <- (Nat.add_0_r k). by eapply saves_seq. Qed.

Lemma saves_mono_l k x y z : saves 0 x y -> saves k y z -> saves k x z.
Proof. intros Ha Hb. by eapply (saves_seq 0). Qed.

Lemma service_saved sq n1 n2 t (d : Disk) (h : HW) :
  is_u32 sq -> Tot.wf t -> ckpt_saved (Tot.cp_ t) d -> Tot.writes (Tot.cp_ t) + 1 < 2 ^ 32 ->
  let '(t', d', _) := Tot.service sq n1 n2 t d h in
  Tot.wf t' /\ ckpt_saved (Tot.cp_ t') d' /\ touches tot_files d d' /\
  Tot.writes (Tot.cp_ t') = Tot.writes (Tot.cp_ t) + 1.
Proof.
  intros Hs Hwf Hck Hw. pose proof (ckpt_saved_bounded _ _ Hck) as Hb. unfold Tot.service.
  destruct (if 30000 <=? _ then _ else _) as [acc h'] eqn:Eacc.
  assert (is_u64 acc).
  { revert Eacc. case_match; intros [= <- <-]; [auto with covio|apply Hwf]. }
  match goal with |- context [Tot.persist_ ?x d] => set (t0 := x) end.
  assert (Hwf0 : Tot.wf t0).
  { apply (Tot.service_ram_Inv sq acc _ t d (conj Hwf Hb)); auto with covio. }
  assert (E0 : Tot.writes (Tot.cp_ t0) = Tot.writes (Tot.cp_ t)) by done.
  rewrite <- E0 in Hb, Hw. pose proof (persist_saved t0 d Hwf0 Hb Hw) as Hp.
  rewrite E0 in Hw. destruct (Tot.persist_ t0 d) as [t' d']. destruct Hp as (Hwf' & Hcp & Hck' & Ht).
  split_and!; [done|done|done|]. rewrite Hcp, <- E0.
  apply Tot.stamp_writes; [by rewrite E0|]. apply (Tot.fits_writes _ Hwf0).
Qed.

(** The file system's other users do not matter. *)
Lemma agree_tot_files x x' d d' :
  ack_ (o_queue x') = ack_ (o_queue x) -> Tot.wf (o_tot x') -> ckpt_saved (Tot.cp_ (o_tot x')) d' ->
  touches tot_files d d' -> agree x d -> agree x' d'.
Proof.
  intros Eq Hwf Hck Ht [_ _ Hf Ha Hn]. destruct (tot_touches _ _ Ht) as [EA EB].
  split; rewrite ?Eq; [done|done|done|by eapply ack_saved_frame|].
  eapply names_frame; [exact Ht| | |exact Hn].
  - intros p. unfold tot_files.
    destruct (decide (p = Tot.CKPT_PATH_A)), (decide (p = Tot.CKPT_PATH_B)); tauto.
  - intros p Hp. apply side_well_named. by right.
Qed.

Lemma saves_agree k x x' :
  saves k x x' -> agree x (o_disk x) -> ckpt_count x + Z.of_nat k < 2 ^ 32 ->
  agree x' (o_disk x') /\ o_queue x' = o_queue x /\ ckpt_count x' = ckpt_count x + Z.of_nat k.
Proof.
  intros Hs. induction Hs as [x x' Ed Eq Ec Hwf|sq n1 n2 h x x' Hsq Es Eq|j k x y z _ IH1 _ IH2];
    intros Ha Hw.
  - unfold ckpt_count. rewrite Ec. split_and!; [|done|lia].
    destruct Ha as [Hw' Hc Hf Hk Hn]. split; rewrite ?Ed, ?Ec, ?Eq; auto.
  - pose proof (service_saved sq n1 n2 _ _ (o_hw x) (Hsq (ag_wf _ _ Ha)) (ag_wf _ _ Ha) (ag_ckpt _ _ Ha)) as Hv.
    rewrite Es in Hv. destruct Hv as (Hwf' & Hck' & Ht & Ew); [unfold ckpt_count in Hw; lia|].
    unfold ckpt_count. split_and!; [by eapply agree_tot_files; [by rewrite Eq|..]|done|rewrite Ew; lia].
  - destruct IH1 as (Ha1 & Eq1 & Ew1); [done|lia|].
    destruct IH2 as (Ha2 & Eq2 & Ew2); [done|lia|]. split_and!; [done|congruence|lia].
Qed.

Lemma agree_ext x x' d :
  ack_ (o_queue x') = ack_ (o_queue x) -> o_tot x' = o_tot x -> agree x d -> agree x' d.
Proof. intros Eq Et [Hwf Hck Hf Ha Hn]. by split; rewrite ?Eq, ?Et. Qed.

Lemma agree_row_files x d d1 :
  0 <= next_seg (Disk := Disk) (o_tot x) < 1000000 ->
  touches (row_file (Disk := Disk) (o_tot x)) d d1 -> agree x d -> agree x d1.
Proof.
  intros Hs Ht [Hwf Hck Hf Ha Hn]. split; [done| |done| |].
  - eapply ckpt_saved_frame; [done| | |exact Hck]; apply Ht, row_file_not; tauto.
  - eapply ack_saved_frame; [| |exact Ha]; apply Ht, row_file_not; tauto.
  - eapply names_frame; [exact Ht|apply row_file_dec| |exact Hn]. intros p. by apply row_file_cases.
Qed.

Lemma acked_files_agree x x' d d' :
  o_tot x' = o_tot x -> fields_fit (ack_ (o_queue x')) -> ack_saved (ack_ (o_queue x')) d' ->
  touches acked_file d d' -> (names_ok d -> names_ok d') -> agree x d -> agree x' d'.
Proof.
  intros Et Hf Hs Ht Hn [Hwf Hck _ _ Hnm]. split; rewrite ?Et; auto.
  eapply ckpt_saved_frame; [done| | |exact Hck]; apply Ht, acked_not_ckpt; unfold tot_files; tauto.
Qed.

(** ** The steps of an iteration *)

Variable C : Crypto.
Variable ftoa : f32 -> nat -> string.
Variable err_name : Z -> string.
Variable toInt : string -> Z.
Variable toFloat : string -> f32.
Variable bd : Build.
Variable id : Diag.BuildId.
Variable mac : Z.

(** At most [k] checkpoint writes; the timers of row and push stand still. *)
Record keeps (k : nat) dv dv' : Prop := {
  kp_saves : exists j, (j <= k)%nat /\ saves j (x_ dv) (x_ dv');
  kp_telemetry : tTelemetry dv' = tTelemetry dv;
  kp_push : tPush dv' = tPush dv;
}.

Lemma keeps_trans j k dv1 dv2 dv3 : keeps j dv1 dv2 -> keeps k dv2 dv3 -> keeps (j + k) dv1 dv3.
Proof.
  intros [(a & Ha & Sa) T1 P1] [(b & Hb & Sb) T2 P2]. split; [|congruence..].
  exists (a + b)%nat. split; [lia|by eapply saves_seq].
Qed.

Lemma keeps_le j k dv1 dv2 : keeps j dv1 dv2 -> (j <= k)%nat -> keeps k dv1 dv2.
Proof. intros [(a & Ha & Sa) T1 P1] Hle. split; [|done..]. exists a. split; [lia|done]. Qed.

Lemma keeps_same dv dv' :
  o_disk (x_ dv') = o_disk (x_ dv) -> o_queue (x_ dv') = o_queue (x_ dv) ->
  Tot.cp_ (o_tot (x_ dv')) = Tot.cp_ (o_tot (x_ dv)) ->
  (Tot.wf (o_tot (x_ dv)) -> Tot.wf (o_tot (x_ dv'))) ->
  tTelemetry dv' = tTelemetry dv -> tPush dv' = tPush dv -> keeps 0 dv dv'.
Proof. intros. split; [|done..]. exists 0%nat. split; [done|by apply saves_same]. Qed.

Lemma keeps_agree k dv dv' :
  keeps k dv dv' -> agree (x_ dv) (o_disk (x_ dv)) -> ckpt_count (x_ dv) + Z.of_nat k < 2 ^ 32 ->
  agree (x_ dv') (o_disk (x_ dv')) /\ ack_count (x_ dv') = ack_count (x_ dv) /\
  ckpt_count (x_ dv') <= ckpt_count (x_ dv) + Z.of_nat k.
Proof.
  intros [(j & Hj & Hs) _ _] Ha Hw. destruct (saves_agree _ _ _ Hs Ha) as (Ha' & Eq & Ew); [lia|].
  split_and!; [done|unfold ack_count; by rewrite Eq|lia].
Qed.

Lemma wifi_keeps c now rnd dv : keeps 0 dv (wifi_service c now rnd dv).
Proof. unfold wifi_service. destruct (Sync.wifiService c now rnd _ _) as [[? ?] ?]. by apply keeps_same. Qed.

Lemma lan_service_saves e l x : saves 0 x (snd (Lan.service ftoa err_name bd id mac e l x)).
Proof.
  unfold Lan.service.
  destruct (Lan.ae_request e) as [[[[h body] r] sn]|].
  - destruct (Lan.handle _ _ _ _ _ h body r sn l x) as [resp n].
    destruct (1000 <=? _); [destruct (if negb _ && _ then _ else _)|]; by apply saves_same.
  - destruct (1000 <=? _); [destruct (if negb _ && _ then _ else _)|]; by apply saves_same.
Qed.

Lemma api_keeps e dv : keeps 0 dv (api_service ftoa err_name bd id mac e dv).
Proof.
  unfold api_service. destruct (api_ dv) as [l|]; [|by apply keeps_same].
  pose proof (lan_service_saves (le_api e) l (x_ dv)) as Hs.
  destruct (Lan.service _ _ _ _ _ _ l _) as [[[? ?] ?] x']. split; [by exists 0%nat|done..].
Qed.

Lemma ct_keeps e dv : keeps 0 dv (ct_service bd e dv).
Proof.
  unfold ct_service. destruct (SENSOR_MODE bd); [by apply keeps_same|].
  destruct (Ct.service _ _ _) as [n ct]. apply keeps_same; try done.
  intros (Hf & Hb & Ha). split_and!; [done|done|]. apply u64_range.
Qed.

Lemma clear_streak_keeps now dv : keeps 0 dv (clear_streak now dv).
Proof. unfold clear_streak. destruct (_ && _); by apply keeps_same. Qed.

Lemma signal_keeps b rc dv : keeps 0 dv (signal_healthy b rc dv).
Proof.
  unfold signal_healthy. destruct (b && _); [|by apply keeps_same].
  destruct (Ota.confirmHealthyBoot rc _ _). by apply keeps_same.
Qed.

Lemma config_keeps e dv : keeps 0 dv (config_step toFloat bd e dv).2.
Proof.
  unfold config_step. destruct (Sync.pollConfig toFloat bd _ _ _) as [[log s] n]. cbn [snd].
  eapply (keeps_trans 0 0); [|apply signal_keeps]. by apply keeps_same.
Qed.

Lemma background_keeps now n1 n2 dv : keeps 1 dv (covioBackgroundService now n1 n2 dv).
Proof.
  unfold covioBackgroundService. destruct (30000 <=? _); [|apply (keeps_le 0); [by apply keeps_same|lia]].
  destruct (Tot.service _ n1 n2 _ _ _) as [[t d] h] eqn:Es. split; [|done..].
  exists 1%nat. split; [done|]. eapply saves_service; [|exact Es|done].
  intros (Hf & _). apply Tot.fields_fit_iff in Hf. apply Hf.
Qed.

Lemma background_calls_keeps l dv : keeps (length l) dv (background_calls l dv).
Proof.
  revert dv. induction l as [|[[now n1] n2] l IH]; intros dv; [by apply keeps_same|].
  exact (keeps_trans 1 _ _ _ _ (background_keeps now n1 n2 dv) (IH _)).
Qed.

Lemma console_keeps input dv :
  console_ok (console_ dv) -> no_storage_cmd (console_ dv) input ->
  keeps 0 dv (console_service C ftoa toInt bd mac input dv).1.
Proof.
  intros Hc Hq. pose proof (console_service_keeps C ftoa toInt bd mac input dv Hc Hq) as Hk.
  assert (Ht : let dv' := (console_service C ftoa toInt bd mac input dv).1 in
    tTelemetry dv' = tTelemetry dv /\ tPush dv' = tPush dv).
  { unfold console_service. by destruct (Console.service _ _ _ _ _ input _ _ _) as [[[[? ?] ?] ?] ?]. }
  destruct (console_service _ _ _ _ _ input dv) as [dv' k]. destruct Hk as ([n Ex] & _).
  destruct Ht as [Et Ep]. cbn [fst] in *. by apply keeps_same; rewrite ?Ex.
Qed.

Lemma provisioning_keeps e dv r : provisioning bd e dv = Some r -> keeps 1 dv r.1.2.
Proof.
  unfold provisioning. destruct (Portal.service bd _ _ _ _) as [[[[? w] n] [|h]]|]; [| |done].
  - intros [= <-]. apply (keeps_le 0); [by apply keeps_same|lia].
  - intros [= <-]. cbn [fst snd]. eapply (keeps_trans 0 1); [|apply background_keeps].
    destruct h; by apply keeps_same.
Qed.

Lemma ota_keeps e dv r : ota_step C bd e dv = Some r -> keeps (length (le_ota_bg e)) dv r.1.2.
Proof.
  unfold ota_step. destruct (Ota.poll C bd _ _ _ _ _) as [[[[log o] u] restarted]|]; [|done].
  set (dv0 := dv{{tOta := le_now e; upd_ := u}}).
  assert (Hk : keeps 0 dv dv0) by by apply keeps_same.
  pose proof (keeps_trans _ _ _ _ _ Hk (background_calls_keeps (le_ota_bg e) dv0)) as Hb.
  set (dv1 := background_calls (le_ota_bg e) dv0) in *. clearbody dv1.
  destruct restarted; intros [= <-]; [done|]. cbn [fst snd].
  rewrite <- (Nat.add_0_r (length _)). eapply keeps_trans; [exact Hb|]. by apply keeps_same.
Qed.

End agree.

Section cycle.
Context {N HW Disk U : Type} `{Preferences N} `{PcntLaws HW} `{LittleFSLaws Disk}
  `{SB : StorageBackend Disk} {SBL : StorageBackendLaws Disk} `{!ReliableFlash Disk} `{UpdaterLaws U}.
Variable bd : Build.

#[local] Abbreviation Device := (Device N HW Disk U).
#[local] Abbreviation Objects := (Objects N HW Disk).
Implicit Types (x : Objects) (dv : Device).

(** ** The telemetry cycle *)

#[local] Abbreviation agrees dv := (agree (x_ dv) (o_disk (x_ dv))).

Lemma with_offset_wf sg off (t : Tot.Totalizer) :
  Tot.wf t -> is_u32 sg -> is_u32 off -> Tot.wf (Tot.with_cp (Tot.with_offset sg off (Tot.cp_ t)) t).
Proof.
  intros (Hf & Hb & Ha) Hs Ho. apply Tot.fields_fit_iff in Hf.
  unfold Tot.wf. rewrite Tot.fields_fit_iff. simpl. tauto.
Qed.

Lemma append_agree row ms dv :
  QInv (o_queue (x_ dv)) (o_tot (x_ dv)) (o_disk (x_ dv)) -> write_segment dv + 2 < 1000000 ->
  agrees dv -> ckpt_count (x_ dv) + 1 < 2 ^ 32 ->
  let dv' := append_row ms row dv in
  agrees dv' /\ ack_count (x_ dv') = ack_count (x_ dv) /\
  ckpt_count (x_ dv') <= ckpt_count (x_ dv) + 1 /\ failures dv' = failures dv /\
  tTelemetry dv' = tTelemetry dv /\ tPush dv' = tPush dv.
Proof.
  intros HI Ha Hag Hw. unfold append_row. destruct ms as [[ms0 ms1] msf].
  assert (Hact : active (Disk := Disk) (o_tot (x_ dv)) + 2 < 1000000) by exact Ha.
  pose proof (append_works row ms0 ms1 msf _ _ _ HI ltac:(lia)) as Hok.
  pose proof (append_files row ms0 ms1 msf _ _ _ HI ltac:(lia)) as Hs.
  pose proof (next_seg_range _ _ _ HI ltac:(lia)) as Hns.
  pose proof (qi_good _ _ _ HI) as [Hg _].
  destruct (append row ms0 ms1 msf _ _ _) as [[q t] d]. destruct Hok as [Efl Eack].
  destruct Hs as (d1 & Ht & Hs). cbv zeta.
  set (dv' := dv{{x_ := (x_ dv){{o_queue := q; o_tot := t; o_disk := d}}}}).
  assert (Eak : ack_count (x_ dv') = ack_count (x_ dv)) by exact (f_equal a_writes Eack).
  assert (Ef : failures dv' = failures dv) by exact (f_equal failed_write_count Efl).
  enough (agrees dv' /\ ckpt_count (x_ dv') <= ckpt_count (x_ dv) + 1) by tauto.
  pose proof (agree_row_files _ _ _ Hns Ht Hag) as [Hwf Hck Hfit Hack Hn].
  destruct Hs as [[-> ->]|Es].
  { split; [eapply (agree_ext (x_ dv)); [exact Eack|done|by split]|].
    change (ckpt_count (x_ dv) <= ckpt_count (x_ dv) + 1). lia. }
  set (sg := next_seg _) in Es, Hns. set (off := next_off _ + 36) in Es.
  set (t0 := Tot.with_cp (Tot.with_offset sg off (Tot.cp_ (o_tot (x_ dv)))) (o_tot (x_ dv))).
  assert (Hwf0 : Tot.wf t0).
  { apply with_offset_wf; [done|unfold is_u32; lia|].
    unfold off, next_off, is_u32, cap in Hg |- *. case_match; lia. }
  pose proof (persist_saved t0 d1 Hwf0 (ckpt_saved_bounded _ _ Hck) Hw) as Hp.
  change (setQueueOffset sg off (o_tot (x_ dv)) d1) with (Tot.persist_ t0 d1) in Es.
  rewrite <- Es in Hp. destruct Hp as (Hwf' & Ecp & Hck' & Htf). split.
  - eapply (agree_tot_files (x_ dv) (x_ dv') d1 d); [exact Eack|exact Hwf'|exact Hck'|exact Htf|by split].
  - change (Tot.writes (Tot.cp_ t) <= Tot.writes (Tot.cp_ (o_tot (x_ dv))) + 1). rewrite Ecp.
    rewrite Tot.stamp_writes; [|exact Hw|apply (Tot.fits_writes _ Hwf)].
    apply Z.le_refl.
Qed.

Lemma checkpoint_keeps n1 n2 dv : is_u32 (seq_ dv) -> keeps 1 dv (checkpoint n1 n2 dv).
Proof.
  intros Hs. unfold checkpoint. destruct (Tot.service _ n1 n2 _ _ _) as [[t d] h] eqn:Es.
  split; [|done..]. exists 1%nat. split; [done|]. by eapply saves_service; [|exact Es|].
Qed.

Lemma build_row_timers now rssi dv :
  let dv' := (build_row bd now rssi dv).2 in tTelemetry dv' = tTelemetry dv /\ tPush dv' = tPush dv.
Proof. unfold build_row, stamp_quality. by destruct (negb _). Qed.

Lemma appended_agree slack e dv :
  sys_inv slack dv -> is_u32 (le_now e) -> seq_ dv + 1 < 2 ^ 32 -> write_segment dv + 2 < 1000000 ->
  agrees dv -> ckpt_count (x_ dv) + 1 < 2 ^ 32 ->
  let dv' := row_appended bd e dv in
  agrees dv' /\ ack_count (x_ dv') = ack_count (x_ dv) /\
  ckpt_count (x_ dv') <= ckpt_count (x_ dv) + 1 /\ failures dv' = failures dv /\ tPush dv' = tPush dv.
Proof.
  intros HI Hn Hs Hw Ha Hc. unfold row_appended. pose proof (si_seq _ _ HI) as Hz.
  rewrite (u32_small (seq_ dv + 1)) by lia.
  set (dv0 := dv{{tTelemetry := le_now e; seq_ := seq_ dv + 1}}).
  assert (E0 : x_ dv0 = x_ dv /\ seq_ dv0 = seq_ dv + 1 /\ tPush dv0 = tPush dv) by done.
  clearbody dv0. destruct E0 as (Ex0 & Es0 & Ep0).
  pose proof (build_row_spec bd (le_now e) (le_rssi e) dv0 Hn
    ltac:(rewrite Es0; unfold is_u32; lia) ltac:(rewrite Ex0; exact (si_boot _ _ HI))) as Hrow.
  pose proof (build_row_timers (le_now e) (le_rssi e) dv0) as [_ Hp].
  destruct (build_row bd (le_now e) (le_rssi e) dv0) as [row dv1]. cbn [snd] in Hp.
  destruct Hrow as (_ & Ex & _).
  assert (Ex1 : x_ dv1 = x_ dv) by congruence.
  pose proof (append_agree row (le_append e) dv1) as Hap. cbv zeta in Hap |- *.
  unfold write_segment, failures in Hap, Hw |- *. rewrite Ex1 in Hap.
  destruct (Hap (si_queue _ _ HI) Hw Ha Hc) as (G1 & G2 & G3 & G4 & _ & G5).
  split; [exact G1|]. split_and!; [done..|by rewrite G5, Hp].
Qed.

Lemma telemetry_agree slack e dv :
  sys_inv slack dv -> is_u32 (le_now e) -> seq_ dv + 1 < 2 ^ 32 -> write_segment dv + 2 < 1000000 ->
  agrees dv -> ckpt_count (x_ dv) + 2 < 2 ^ 32 ->
  let dv' := telemetry_cycle bd e dv in
  agrees dv' /\ ack_count (x_ dv') = ack_count (x_ dv) /\
  ckpt_count (x_ dv') <= ckpt_count (x_ dv) + 2 /\ failures dv' = failures dv /\ tPush dv' = tPush dv.
Proof.
  intros HI Hn Hs Hw Ha Hc. unfold telemetry_cycle.
  destruct (TELEMETRY_PERIOD_MS <=? u32 (le_now e - tTelemetry dv)); [|split; [done|split_and!; lia || done]].
  pose proof (appended_agree slack e dv HI Hn Hs Hw Ha ltac:(lia)) as Hap.
  pose proof (appended_spec bd slack e dv HI Hn Hs ltac:(lia)) as (_ & Es & _).
  unfold row_appended in Hap, Es. cbv zeta in *.
  set (dv0 := dv{{tTelemetry := le_now e; seq_ := u32 (seq_ dv + 1)}}) in *.
  destruct (build_row bd (le_now e) (le_rssi e) dv0) as [row dv1].
  set (dv2 := append_row (le_append e) row dv1) in *. clearbody dv2.
  destruct Hap as (Ha2 & Ek2 & Hc2 & Ef2 & Ep2).
  assert (Hk3 : keeps 1 dv2 (checkpoint (le_tot_n1 e) (le_tot_n2 e) dv2)).
  { apply checkpoint_keeps. rewrite Es. pose proof (si_seq _ _ HI). unfold is_u32. lia. }
  set (dv3 := checkpoint (le_tot_n1 e) (le_tot_n2 e) dv2) in *.
  assert (Ef3 : failures dv3 = failures dv2).
  { unfold dv3, checkpoint, failures. by destruct (Tot.service _ _ _ _ _ _) as [[? ?] ?]. }
  clearbody dv3. destruct (keeps_agree _ _ _ Hk3 Ha2 ltac:(lia)) as (Ha3 & Ek3 & Hc3).
  pose proof (kp_push _ _ _ Hk3) as Ep3.
  match goal with |- agrees ?d /\ _ => set (dv4 := d) end.
  assert (Hk4 : keeps 0 dv3 dv4) by by apply keeps_same.
  destruct (keeps_agree _ _ _ Hk4 Ha3 ltac:(lia)) as (Ha4 & Ek4 & Hc4).
  assert (E4 : failures dv4 = failures dv3 /\ tPush dv4 = tPush dv3) by done.
  clearbody dv4. destruct E4 as [Ef4 Ep4]. split; [done|]. split_and!; [congruence|lia|congruence|congruence].
Qed.

(** ** The network slot *)

Lemma push_agree e dv :
  QInv (o_queue (x_ dv)) (o_tot (x_ dv)) (o_disk (x_ dv)) -> write_segment dv + 1 < 2 ^ 32 ->
  is_u32 (bootId (o_store (x_ dv))) -> agrees dv ->
  ckpt_count (x_ dv) < 2 ^ 32 -> ack_count (x_ dv) + 1 < 2 ^ 32 ->
  let dv' := (push_step bd e dv).2 in
  agrees dv' /\ ack_count (x_ dv') <= ack_count (x_ dv) + 1 /\ ckpt_count (x_ dv') <= ckpt_count (x_ dv).
Proof.
  intros HI Hw Hb Ha Hc Hk. unfold push_step.
  pose proof (push_saved bd (le_push e) (o_store (x_ dv)) (o_sync (x_ dv)) (o_queue (x_ dv))
    (o_tot (x_ dv)) (o_disk (x_ dv)) (o_nvs (x_ dv)) HI Hw (ag_fit _ _ Ha) (ag_ack _ _ Ha) Hk Hb) as Hp.
  destruct (Sync.pushOnce bd _ _ _ _ _ _ _) as [[[[[ok log] s] q] d] n].
  destruct Hp as (Hf & Hs & Hk' & Ht & Hn). cbn [snd]. cbv zeta.
  set (dv1 := dv{{tPush := le_now e; x_ := (x_ dv){{o_sync := s; o_queue := q; o_disk := d; o_nvs := n}}}}).
  assert (Ha1 : agrees dv1).
  { eapply (acked_files_agree (x_ dv) (x_ dv1) (o_disk (x_ dv)) d); done. }
  assert (Hk1 : ack_count (x_ dv1) <= ack_count (x_ dv) + 1) by exact Hk'.
  assert (Hc1 : ckpt_count (x_ dv1) = ckpt_count (x_ dv)) by done. clearbody dv1.
  pose proof (signal_keeps ok (le_mark_rc e) dv1) as Hsg.
  destruct (keeps_agree _ _ _ Hsg Ha1 ltac:(lia)) as (Ha2 & Ek2 & Hc2). split; [done|]. lia.
Qed.

Variable C : Crypto.
Variable toFloat : string -> f32.

Lemma network_agree e dv log dv' k :
  QInv (o_queue (x_ dv)) (o_tot (x_ dv)) (o_disk (x_ dv)) -> write_segment dv + 1 < 2 ^ 32 ->
  is_u32 (bootId (o_store (x_ dv))) -> agrees dv ->
  ckpt_count (x_ dv) + Z.of_nat (length (le_ota_bg e)) < 2 ^ 32 -> ack_count (x_ dv) + 1 < 2 ^ 32 ->
  network C toFloat bd e dv = Some (log, dv', k) ->
  agrees dv' /\ ack_count (x_ dv') <= ack_count (x_ dv) + 1 /\
  ckpt_count (x_ dv') <= ckpt_count (x_ dv) + Z.of_nat (length (le_ota_bg e)) /\
  (network_push e dv = false -> tTelemetry dv' = tTelemetry dv /\ tPush dv' = tPush dv).
Proof.
  intros HI Hw Hb Ha Hc Hk. rewrite network_cases. destruct (network_push e dv).
  { pose proof (push_agree e dv HI Hw Hb Ha ltac:(lia) Hk) as Hp. destruct (push_step bd e dv) as [l dv1].
    intros [= _ <- _]. cbn [snd] in Hp. destruct Hp as (Ha1 & Hk1 & Hc1). split; [done|]. split_and!; [lia|lia|done]. }
  assert (Hstep : forall j dv1, keeps j dv dv1 -> (j <= length (le_ota_bg e))%nat ->
    agrees dv1 /\ ack_count (x_ dv1) <= ack_count (x_ dv) + 1 /\
    ckpt_count (x_ dv1) <= ckpt_count (x_ dv) + Z.of_nat (length (le_ota_bg e)) /\
    (false = false -> tTelemetry dv1 = tTelemetry dv /\ tPush dv1 = tPush dv)).
  { intros j dv1 Hkp Hj. destruct (keeps_agree _ _ _ Hkp Ha ltac:(lia)) as (Ha1 & Ek1 & Hc1).
    split; [done|]. split_and!; [lia|lia|]. intros _. by destruct Hkp. }
  destruct (CONFIG_POLL_MS <=? _).
  { pose proof (Hstep _ _ (config_keeps toFloat bd e dv) ltac:(lia)) as Hp. destruct (config_step toFloat bd e dv).
    by intros [= _ <- _]. }
  destruct (OTA_POLL_MS <=? _); [intros Hr; exact (Hstep _ _ (ota_keeps C bd e dv _ Hr) ltac:(lia))|].
  intros [= _ <- _]. apply (Hstep 0%nat); [by apply keeps_same|lia].
Qed.
End cycle.
