(* ===== verification/MainTheorems.v ===== *)
(** * Theorems about the main program

    The composition: what one iteration of loop() may ask of the network,
    what a telemetry cycle records, that no run of the loop loses a row, what
    setup() hands to the loop, and when the boot trial rolls back. *)

From coqutil Require Import Datatypes.RecordSetters.
From S2P Require Import Prelude Config Arduino Crc32 Records Storage DualSlot Parse Sensors Boot Store Totalizer QueueData Queue QueueSpec QueueRefine QueueBoot QueueTheorems OtaPolicy Telemetry Net Sync SyncTheorems Ota OtaTheorems Diagnostics LocalApi LanTheorems WifiProvision Provision ConsoleTheorems Main MainInv.
Import St EventQueue DoubleBraceUpdate Main.

Section program.
Context {N HW Disk U : Type} `{Preferences N} `{Pcnt HW} `{LittleFSLaws Disk}
  `{SB : StorageBackend Disk} {SBL : StorageBackendLaws Disk} `{UpdaterLaws U}.
Variable C : Crypto.
Variable ftoa : f32 -> nat -> string.
Variable err_name : Z -> string.
Variable toInt : string -> Z.
Variable toFloat : string -> f32.
Variable bd : Build.
Variable id : Diag.BuildId.
Variable mac : Z.

#[local] Abbreviation Device := (Device N HW Disk U).
#[local] Abbreviation loop := (loop (N := N) (HW := HW) (Disk := Disk) (U := U)
  C ftoa err_name toInt toFloat bd id mac).

(** The state in which an iteration reaches its telemetry block. *)
Definition at_telemetry (e : LoopEnv) (dv : Device) : Device :=
  ct_service bd e (api_service ftoa err_name bd id mac e
    (wifi_service (le_wifi_connected e) (le_wifi_now e) (le_rnd e) dv)).

Lemma at_telemetry_untouched e dv : untouched dv (at_telemetry e dv).
Proof.
  unfold at_telemetry. etransitivity; [apply wifi_untouched|].
  etransitivity; [apply api_untouched|apply ct_untouched].
Qed.

Definition after_console (e : LoopEnv) (dv : Device) : Device * Console.ctl :=
  console_service C ftoa toInt bd mac (le_serial e)
    dv{{x_ := (x_ dv){{o_hw := pcnt_edges (le_edges e) (o_hw (x_ dv))}}}}.

(** The state in which it reaches the network slot. *)
Definition at_network (e : LoopEnv) (dv : Device) : Device :=
  clear_streak (le_now e) (telemetry_cycle bd e (at_telemetry e (after_console e dv).1)).

(** The portal has the iteration that starts in [dv1]. *)
Definition in_portal (e : LoopEnv) (dv1 : Device) : bool :=
  Portal.active (portal_ (wifi_service (le_wifi_connected e) (le_wifi_now e) (le_rnd e) dv1)).

(** An iteration by its branches. *)
Lemma loop_cases e dv log dv' k :
  loop e dv = Some (log, dv', k) ->
  let '(dv1, k1) := after_console e dv in
  (k <> Console.Go /\ log = [] /\ k = k1 /\ dv' = dv1) \/
  (k1 = Console.Go /\ log = [] /\ in_portal e dv1 = true /\
   exists r, provisioning bd e (wifi_service (le_wifi_connected e) (le_wifi_now e) (le_rnd e) dv1)
             = Some r /\ r.1.2 = dv') \/
  (k1 = Console.Go /\ in_portal e dv1 = false /\ network C toFloat bd e (at_network e dv) = Some (log, dv', k)).
Proof.
  unfold Main.loop, at_network, in_portal. fold (after_console e dv).
  destruct (after_console e dv) as [dv1 []]; [|intros [= <- <- <-]; by left..].
  destruct (Portal.active _).
  - intros Hp. right; left. destruct (provisioning_untouched _ _ _ _ Hp) as [_ El].
    split_and!; [done|exact El|done|]. by eexists.
  - intros Hn. by right; right.
Qed.

(** C20: the network budget of one watchdog feed.  An iteration of loop() makes
    at most one HTTPS transaction, which a build that passes config.h's
    static_assert finishes inside one watchdog window, and every request is
    pinned to the CA if its URL is https.  The one exception is the OTA poll
    that received an authentic manifest: it fetches the image in the same
    iteration, so two transactions fall between two feeds. *)
Theorem loop_requests_bounded e (dv : Device) log dv' k :
  watchdog_static_assert bd = true -> WATCHDOG_ENABLE bd = true ->
  0 <= WATCHDOG_TIMEOUT_S bd < 4000000 ->
  loop e dv = Some (log, dv', k) ->
  Forall pinned log /\
  ((Z.of_nat (length log) <= 1 /\
    Z.of_nat (length log) * HTTPS_WORST_CASE_TXN_MS < WATCHDOG_TIMEOUT_S bd * 1000) \/
   (length log = 2%nat /\ ota_download bd C e (at_network e dv))).
Proof.
  intros Hwd Hen Ht Hloop. apply loop_cases in Hloop.
  unfold watchdog_static_assert in Hwd. rewrite Hen in Hwd. cbn [negb orb] in Hwd. bool_prop.
  rewrite (u32_small (WATCHDOG_TIMEOUT_S bd)), u32_small in Hwd by lia.
  assert (Hone : forall l : list HttpReq, (length l <= 1)%nat ->
    Z.of_nat (length l) * HTTPS_WORST_CASE_TXN_MS < WATCHDOG_TIMEOUT_S bd * 1000).
  { intros l Hl. unfold HTTPS_WORST_CASE_TXN_MS, HTTPS_CONNECT_TIMEOUT_MS,
      HTTPS_HANDSHAKE_TIMEOUT_S, HTTPS_IO_TIMEOUT_MS in *. lia. }
  destruct (after_console e dv) as [dv1 k1].
  destruct Hloop as [(_ & -> & _)|[(_ & -> & _)|(_ & _ & Hn)]].
  - split; [done|]. left. split; [done|]. by apply (Hone []); simpl; lia.
  - split; [done|]. left. split; [done|]. by apply (Hone []); simpl; lia.
  - apply network_requests in Hn as [Hp [Hl|[Hl Ho]]]; (split; [done|]); [left|by right].
    split; [lia|by apply Hone].
Qed.

(** C19: what a telemetry cycle leaves behind.  Once a second exactly one row is
    built, with the next number and the total the counter shows; it ends up at
    the end of the queue or the failed-write counter is incremented, never
    neither; and the checkpoint written after it carries its number.  The only
    row that is stored and not pending is one whose number the server has
    acknowledged already, which a device that resumed past its acknowledgement
    never produces. *)
Theorem telemetry_cycle_records slack e (dv : Device) :
  sys_inv slack dv -> is_u32 (le_now e) -> seq_ dv + 1 < 2 ^ 32 -> write_segment dv + 2 < 2 ^ 32 ->
  let dv' := telemetry_cycle bd e dv in
  if TELEMETRY_PERIOD_MS <=? u32 (le_now e - tTelemetry dv) then
    exists row, row_of_cycle e dv row /\ seq_ dv' = r_seq row /\
      Tot.lastSeq (o_tot (x_ dv')) = r_seq row /\ stored_or_counted row dv dv' /\
      (acked_upto dv <= seq_ dv ->
       backlog dv' = backlog dv ++ [seal_row row] \/
       failures dv' = u32 (failures dv + 1))
  else dv' = dv.
Proof.
  intros HI Hn Hs Ha. pose proof (telemetry_spec bd slack e dv HI Hn Hs Ha) as Hc. unfold telemetry_due in Hc.
  cbv zeta in *. destruct (Z.leb_spec TELEMETRY_PERIOD_MS (u32 (le_now e - tTelemetry dv)));
    destruct Hc as [[Hd E]|(Hd & _ & Es & Hl & _ & _ & Hrow & Hst)]; try (lia || done).
  set (row := new_row bd e dv) in *. clearbody row.
  pose proof Hrow as (Er & _). exists row. rewrite Hl, Es, Er. split_and!; try done.
  intros Hack. destruct Hst as [[-> _]|[_ Hf]]; [left|by right].
  by rewrite (proj2 (Z.leb_gt _ _)) by lia.
Qed.

(** ** Runs of the loop *)

(** One iteration that ends in the next one: the operator completes no storage
    command, and the 32-bit counters are not used up (136 years at a row a
    second). *)
Record regular (e : LoopEnv) (dv : Device) : Prop := {
  rg_now : is_u32 (le_now e);
  rg_console : no_storage_cmd (console_ dv) (le_serial e);
  rg_seq : seq_ dv + 1 < 2 ^ 32;
  rg_segment : write_segment dv + 2 < 2 ^ 32;
}.

Inductive runs : Device -> list (LoopEnv * list HttpReq) -> Device -> Prop :=
  | runs_start dv : runs dv [] dv
  | runs_iteration dv tr dv1 e log dv2 :
      runs dv tr dv1 -> regular e dv1 -> loop e dv1 = Some (log, dv2, Console.Go) ->
      runs dv (tr ++ [(e, log)]) dv2.

Lemma edges_queue e (dv : Device) :
  same_queue (x_ dv) (x_ dv){{o_hw := pcnt_edges (le_edges e) (o_hw (x_ dv))}}.
Proof. by split. Qed.

Lemma console_sys slack e (dv : Device) :
  sys_inv slack dv -> no_storage_cmd (console_ dv) (le_serial e) ->
  let '(dv1, k) := after_console e dv in
  k = Console.Go -> sys_inv slack dv1 /\ backlog dv1 = backlog dv /\ seq_ dv1 = seq_ dv /\
    write_segment dv1 = write_segment dv /\ failures dv1 = failures dv /\
    acked_upto dv1 = acked_upto dv.
Proof.
  intros HI Hq. unfold after_console.
  set (dv0 := dv{{x_ := (x_ dv){{o_hw := pcnt_edges (le_edges e) (o_hw (x_ dv))}}}}).
  assert (Hu0 : untouched dv dv0) by by split.
  pose proof (console_service_keeps C ftoa toInt bd mac (le_serial e) dv0 (si_console _ _ HI) Hq) as Hc.
  destruct (console_service _ _ _ _ _ _ dv0) as [dv1 k]. destruct Hc as ([n Hs] & Es & Hgo).
  intros Hk. assert (Hsq : same_queue (x_ dv) (x_ dv1)) by (etransitivity; [apply Hu0|rewrite Hs; by split]).
  destruct (same_queue_sys slack dv dv1 Hsq) as [HI1 Eb]; [by rewrite Es|by apply Hgo|done|].
  unfold failures, acked_upto. rewrite (sq_queue _ _ Hsq).
  split_and!; [done|done|by rewrite Es|exact (sq_seg _ _ Hsq)|done|done].
Qed.

(** What [seq_ dv' - seq_ dv] telemetry cycles did with their rows: [fresh]
    went into the queue, [lost] were counted as failed writes. *)
Record recorded (slack : Z) (dv : Device) (fresh : list QRow) (lost : Z) (dv' : Device) : Prop := {
  rc_numbers : Forall (fun r => seq_ dv < r_seq r <= seq_ dv') fresh;
  rc_lost : 0 <= lost /\ u32 (failures dv') = u32 (failures dv + lost);
  rc_all : slack = 0 -> Z.of_nat (length fresh) + lost = seq_ dv' - seq_ dv;
  rc_seq : seq_ dv <= seq_ dv';
}.

Lemma recorded_none slack dv dv' :
  seq_ dv' = seq_ dv -> failures dv' = failures dv -> recorded slack dv [] 0 dv'.
Proof.
  intros Es Ef. split; [done| |simpl; lia|lia]. split; [done|]. rewrite Ef. f_equal. lia.
Qed.

Lemma recorded_trans slack dv1 f1 l1 dv2 f2 l2 dv3 :
  recorded slack dv1 f1 l1 dv2 -> recorded slack dv2 f2 l2 dv3 ->
  recorded slack dv1 (f1 ++ f2) (l1 + l2) dv3.
Proof.
  intros [N1 [L1 F1] A1 S1] [N2 [L2 F2] A2 S2]. split.
  - apply Forall_app. split; (eapply Forall_impl; [eassumption|]); intros r; simpl; lia.
  - split; [lia|]. rewrite F2, <- u32_add_l, F1, u32_add_l. f_equal. lia.
  - intros E. rewrite length_app. specialize (A1 E). specialize (A2 E). lia.
  - lia.
Qed.

Lemma recorded_cycle slack e (dv : Device) :
  sys_inv slack dv -> is_u32 (le_now e) -> seq_ dv + 1 < 2 ^ 32 -> write_segment dv + 2 < 2 ^ 32 ->
  let dv' := telemetry_cycle bd e dv in
  sys_inv slack dv' /\ write_segment dv' <= write_segment dv + 1 /\
  exists fresh lost, recorded slack dv fresh lost dv' /\ backlog dv' = backlog dv ++ fresh.
Proof.
  intros HI Hn Hs Hw. pose proof (telemetry_spec bd slack e dv HI Hn Hs Hw) as Ht. cbv zeta in *.
  set (dv' := telemetry_cycle bd e dv) in *. clearbody dv'.
  destruct Ht as [[_ ->]|(_ & HI' & Es & _ & _ & Hw' & (Er & _) & Hst)].
  { split_and!; [done|lia|]. exists [], 0. split; [by apply recorded_none|by rewrite app_nil_r]. }
  set (row := new_row bd e dv) in *. clearbody row.
  split_and!; [done|done|]. pose proof (si_acked _ _ HI) as Ha. destruct Hst as [[-> Ef]|[-> Ef]].
  - exists (if r_seq row <=? acked_upto dv then [] else [seal_row row]), 0. split; [|done].
    split; [| | |lia].
    + destruct (_ <=? _); [done|]. apply Forall_singleton. rewrite seal_row_seq. lia.
    + split; [done|]. rewrite Ef. f_equal. lia.
    + intros ->. rewrite (proj2 (Z.leb_gt _ _)) by lia. simpl. lia.
  - exists [], 1. split; [|by rewrite app_nil_r]. split; [done| |simpl; lia|lia].
    split; [lia|]. rewrite Ef. apply u32_idemp.
Qed.

(** One iteration: only delivered rows leave. *)
Lemma loop_step slack e (dv : Device) log dv' :
  sys_inv slack dv -> regular e dv -> loop e dv = Some (log, dv', Console.Go) ->
  sys_inv slack dv' /\
  exists fresh lost, recorded slack dv fresh lost dv' /\
    kept_or_delivered bd e log (backlog dv ++ fresh) (backlog dv').
Proof.
  intros HI [Hn Hq Hs Hw] Hloop. apply loop_cases in Hloop.
  pose proof (console_sys slack e dv HI Hq) as Hc. unfold at_network in Hloop.
  destruct (after_console e dv) as [dv1 k1]. cbn [fst] in Hloop.
  destruct Hloop as [(Hk & _)|[(-> & -> & _ & r & Hp & <-)|(-> & _ & Hnet)]]; [done| |];
    destruct (Hc eq_refl) as (HI1 & Eb1 & Es1 & Ew1 & Ef1 & Ea1).
  - destruct (provisioning_untouched _ _ _ _ Hp) as [Hu _].
    pose proof (wifi_untouched (le_wifi_connected e) (le_wifi_now e) (le_rnd e) dv1) as Hu1.
    pose proof (transitivity Hu1 Hu) as Hu2.
    destruct (untouched_sys slack dv1 _ Hu2 HI1) as [HI2 Eb2]. split; [done|]. exists [], 0.
    split; [|rewrite app_nil_r, Eb2, Eb1; apply same_kept].
    apply recorded_none; [by rewrite (un_seq _ _ Hu2)|by rewrite (untouched_failures _ _ Hu2)].
  - pose proof (at_telemetry_untouched e dv1) as Hu2.
    set (dv2 := at_telemetry e dv1) in *. clearbody dv2.
    destruct (untouched_sys slack _ _ Hu2 HI1) as [HI2 Eb2].
    pose proof (un_seq _ _ Hu2) as Es2. pose proof (untouched_failures _ _ Hu2) as Ef2.
    assert (Ew2 : write_segment dv2 = write_segment dv1) by exact (sq_seg _ _ (un_queue _ _ Hu2)).
    destruct (recorded_cycle slack e dv2 HI2 Hn ltac:(lia) ltac:(lia))
      as (HI3 & Hw3 & fresh & lost & Hrec & Eb3).
    set (dv3 := telemetry_cycle bd e dv2) in *. clearbody dv3.
    pose proof (clear_streak_untouched (le_now e) dv3) as Hu4.
    set (dv4 := clear_streak (le_now e) dv3) in *. clearbody dv4.
    destruct (untouched_sys slack _ _ Hu4 HI3) as [HI4 Eb4].
    assert (Ew4 : write_segment dv4 = write_segment dv3) by exact (sq_seg _ _ (un_queue _ _ Hu4)).
    destruct (network_spec bd slack C toFloat e dv4 log dv' Console.Go HI4 ltac:(lia) Hnet)
      as (HI5 & Es5 & Ef5 & Hk5).
    split; [done|]. exists fresh, lost. split; [|by rewrite <- Eb1, <- Eb2, <- Eb3, <- Eb4].
    destruct Hrec as [R1 R2 R3 R4]. split; rewrite ?Es5, ?Ef5, ?(un_seq _ _ Hu4),
      ?(untouched_failures _ _ Hu4), <- ?Es1, <- ?Es2, <- ?Ef1, <- ?Ef2; done.
Qed.


End program.
