(* ===== verification/BootTheorems.v ===== *)
(** * Theorems about setup()

    The unhealthy-boot safety net over a sequence of boots, and the state in
    which setup() hands the device to the loop. *)

From coqutil Require Import Datatypes.RecordSetters.
From S2P Require Import Prelude Config Arduino Crc32 Records Storage DualSlot Parse Sensors Boot Store Totalizer QueueData Queue QueueSpec QueueRefine QueueBoot QueueTheorems OtaPolicy Telemetry Net Sync SyncTheorems Ota OtaTheorems Diagnostics LocalApi LanTheorems WifiProvision Provision ConsoleTheorems Main MainInv FlashAgree.
Import St EventQueue DoubleBraceUpdate Main StoreSpec.

(** ** The boot trial *)

Section trial.
Context {N : Type} `{PreferencesLaws N}.
Variable bd : Build.

(** What one boot with reset cause [rr] does to the flash before anything can
    crash it, and whether it asks for the previous image. *)
Definition boot_once (n : N) (rr : Z) : N := count_reset rr (boot_trial (St.begin bd n).2).2.
Definition asks_rollback (n : N) : bool := (boot_trial (St.begin bd n).2).1.
Definition boots (rrs : list Z) (n : N) : N := fold_left boot_once rrs n.

Definition on_trial (n : N) : bool :=
  isBootOnTrial (lastConfirmedFwVersion n) (lastConfirmedSecurityVersion n)
    FW_VERSION (u32 FW_SECURITY_VERSION).

Lemma begin_security n :
  pref_writable n ->
  observe_security (St.begin bd n).2 = observe_security n /\ pref_writable (St.begin bd n).2.
Proof.
  intros Hw. unfold St.begin. destruct (negb (pref_isKey NVS_NS NVS_KEY_SEEDED n)); cbn [snd];
    (split; [observe_solve|unfold p_put; nvs_ok]).
Qed.

(** Booting keeps the key of a device that has one. *)
Lemma begin_key n :
  pref_writable n ->
  apiKey (St.begin bd n).2 =
  (if pref_isKey NVS_NS NVS_KEY_SEEDED n then apiKey n else DEFAULT_API_KEY).
Proof.
  intros Hw. unfold St.begin. destruct (pref_isKey NVS_NS NVS_KEY_SEEDED n); cbn [negb snd];
    unfold apiKey, p_get, p_put; nvs_solve; reflexivity.
Qed.

Lemma boot_once_key n rr : pref_writable n -> apiKey (boot_once n rr) = apiKey (St.begin bd n).2.
Proof.
  intros Hw. destruct (begin_security n Hw) as [_ Hw1]. unfold boot_once.
  set (n1 := (St.begin bd n).2) in *. clearbody n1. unfold boot_trial.
  assert (Ht : forall m : N, pref_writable m -> apiKey (count_reset rr m) = apiKey m).
  { intros m Hm. unfold count_reset, incrementWatchdogResetCount, incrementBrownoutResetCount,
      incrementCrashResetStreak, apiKey, p_get, p_put.
    destruct (is_wdt rr); [|destruct (rr =? ESP_RST_BROWNOUT); [|destruct (rr =? ESP_RST_PANIC)]];
      nvs_solve; reflexivity. }
  destruct (isBootOnTrial _ _ _ _); cbn [snd]; [|by apply Ht].
  assert (Hw2 : pref_writable (incrementUnhealthyBootStreak n1))
    by (unfold incrementUnhealthyBootStreak, s_put; nvs_ok).
  rewrite Ht by done. unfold incrementUnhealthyBootStreak, apiKey, p_get, s_put, s_get. nvs_solve. reflexivity.
Qed.

Lemma count_reset_security rr n :
  pref_writable n ->
  observe_security (count_reset rr n) = observe_security n /\ pref_writable (count_reset rr n).
Proof.
  intros Hw. unfold count_reset. destruct (is_wdt rr); [|destruct (rr =? ESP_RST_BROWNOUT);
    [|destruct (rr =? ESP_RST_PANIC)]]; (split; [try done; observe_solve|]); try done;
    unfold incrementCrashResetStreak, incrementWatchdogResetCount, incrementBrownoutResetCount, p_put; nvs_ok.
Qed.

Lemma trial_security n :
  pref_writable n ->
  let '(rb, n') := boot_trial n in
  let s := u32 (unhealthyBootStreak n + 1) in
  pref_writable n' /\ rb = on_trial n && (UNHEALTHY_BOOT_STREAK_LIMIT <=? s) /\
  observe_security n' = if on_trial n then <[3%nat := OZ s]> (observe_security n) else observe_security n.
Proof.
  intros Hw. unfold boot_trial. fold (on_trial n). destruct (on_trial n); [|done].
  assert (E : observe_security (incrementUnhealthyBootStreak n)
    = <[3%nat := OZ (u32 (unhealthyBootStreak n + 1))]> (observe_security n)) by observe_solve.
  split_and!; [unfold incrementUnhealthyBootStreak, s_put; nvs_ok| |exact E].
  pose proof (f_equal (lookup 3%nat) E) as E3. cbn in E3. injection E3 as ->. done.
Qed.

Lemma security_reads n n' :
  observe_security n' = observe_security n ->
  on_trial n' = on_trial n /\ unhealthyBootStreak n' = unhealthyBootStreak n.
Proof. intros [= _ E1 E2 E3]. unfold on_trial. by rewrite E1, E2, E3. Qed.

Lemma boot_once_spec n rr :
  pref_writable n ->
  let s := u32 (unhealthyBootStreak n + 1) in
  pref_writable (boot_once n rr) /\
  asks_rollback n = on_trial n && (UNHEALTHY_BOOT_STREAK_LIMIT <=? s) /\
  on_trial (boot_once n rr) = on_trial n /\
  unhealthyBootStreak (boot_once n rr) = if on_trial n then s else unhealthyBootStreak n.
Proof.
  intros Hw. unfold boot_once, asks_rollback.
  destruct (begin_security n Hw) as [E1 Hw1]. destruct (security_reads _ _ E1) as [Et1 Es1].
  pose proof (trial_security _ Hw1) as Ht.
  destruct (boot_trial (St.begin bd n).2) as [rb n2]. cbn [fst snd]. destruct Ht as (Hw2 & Erb & E2).
  destruct (count_reset_security rr n2 Hw2) as [E3 Hw3]. destruct (security_reads _ _ E3) as [-> ->].
  rewrite Et1, Es1 in Erb, E2. split_and!; [done|exact Erb| |]; destruct (on_trial n) eqn:Eo.
  - injection E2 as _ E1' E2' _. rewrite <- Et1. unfold on_trial. by rewrite E1', E2'.
  - rewrite <- Et1. by apply security_reads.
  - by injection E2.
  - rewrite <- Es1. by apply security_reads.
Qed.

Lemma boots_spec rrs n :
  pref_writable n ->
  (on_trial n = true ->
   0 <= unhealthyBootStreak n /\ unhealthyBootStreak n + Z.of_nat (length rrs) < 2 ^ 32) ->
  pref_writable (boots rrs n) /\ on_trial (boots rrs n) = on_trial n /\
  unhealthyBootStreak (boots rrs n) =
    unhealthyBootStreak n + (if on_trial n then Z.of_nat (length rrs) else 0).
Proof.
  revert n. induction rrs as [|rr rrs IH]; intros n Hw Hlen; cbn [boots fold_left length] in *.
  { split_and!; [done|done|]. destruct (on_trial n); simpl; lia. }
  destruct (boot_once_spec n rr Hw) as (Hw1 & _ & Eo & Es).
  destruct (IH (boot_once n rr) Hw1) as (Hw2 & Eo2 & Es2).
  { rewrite Eo, Es. intros E. rewrite E. specialize (Hlen E). rewrite u32_small by lia. lia. }
  fold (boots rrs (boot_once n rr)). rewrite Eo2, Es2, Eo, Es. split_and!; [done|done|].
  destruct (on_trial n); [|lia]. specialize (Hlen eq_refl). rewrite u32_small by lia. lia.
Qed.

(** C18: the app-level rollback.  While no boot of an image is ever confirmed
    healthy, the k-th boot leaves the streak at k and asks the bootloader for
    the previous image exactly from the third on, whatever resets it; the
    security settings are not touched otherwise.  Once the running image is
    recorded as healthy, no later boot of it is on trial or asks again, and
    its crashes do not bring the streak back. *)
Theorem unconfirmed_boots_roll_back rrs (n : N) :
  pref_writable n -> unhealthyBootStreak n = 0 -> Z.of_nat (length rrs) + 1 < 2 ^ 32 ->
  on_trial n = true ->
  unhealthyBootStreak (boots rrs n) = Z.of_nat (length rrs) /\
  asks_rollback (boots rrs n) = (3 <=? Z.of_nat (length rrs) + 1) /\
  forall rrs',
    let m := boots rrs' (recordHealthyBoot FW_VERSION (u32 FW_SECURITY_VERSION) (boots rrs n)) in
    asks_rollback m = false /\ unhealthyBootStreak m = 0.
Proof.
  intros Hw Hs Hlen Hon.
  destruct (boots_spec rrs n Hw) as (Hw1 & Eo1 & Es1); [intros _; lia|]. rewrite Hon, Hs in *.
  split; [done|]. split.
  { destruct (boot_once_spec (boots rrs n) 0 Hw1) as (_ & -> & _).
    rewrite Eo1, Es1, u32_small by lia. done. }
  intros rrs' m. subst m.
  destruct (confirmed_store FW_VERSION (u32 FW_SECURITY_VERSION) (boots rrs n) Hw1)
    as (_ & Ev & Ez & Est & Hw2).
  set (n1 := recordHealthyBoot _ _ _) in *. clearbody n1.
  assert (Eo : on_trial n1 = false)
    by (unfold on_trial, isBootOnTrial; by rewrite Ev, Ez, String.eqb_refl, Z.eqb_refl).
  destruct (boots_spec rrs' n1 Hw2) as (Hw3 & Eo3 & Es3); [congruence|]. rewrite Eo in *.
  destruct (boot_once_spec (boots rrs' n1) 0 Hw3) as (_ & -> & _). rewrite Eo3, Es3. split; [done|lia].
Qed.
End trial.

(** ** What setup() hands over *)

Section resume.
Context {N HW Disk U : Type} `{Preferences N} `{Pcnt HW} `{LittleFSLaws Disk}
  `{SB : StorageBackend Disk} {SBL : StorageBackendLaws Disk} `{Updater U}.
Variable C : Crypto.
Variable ftoa : f32 -> nat -> string.
Variable toInt : string -> Z.
Variable bd : Build.
Variable mac : Z.

#[local] Abbreviation Device := (Device N HW Disk U).

(** The totalizer, the queue's cursor and the files as a boot finds them. *)
Definition found (bid : Z) (d : Disk) (h : HW) : EventQueue * Tot.Totalizer * Disk :=
  let '(t, d, _) := Tot.begin bd bid Tot.new_totalizer d h in
  (with_ack (recovered_ack d) (with_tot true new_queue), t, d).

(** A flash whose power failed at most between a row and its checkpoint. *)
Record flash_ok (bid : Z) (d : Disk) (h : HW) : Prop := {
  fo_queue : let '(q, t, d) := found bid d h in QInv q t d;
  fo_names : let '(_, _, d) := found bid d h in names_ok d;
  fo_segment : let '(_, t, _) := found bid d h in Tot.queueOffsetSegment t + 1 < 2 ^ 32;
  fo_seq : let '(q, t, _) := found bid d h in 0 <= Tot.lastSeq t;
  fo_ordered : let '(q, t, d) := found bid d h in ordered (unacked q t d);
  fo_rows : let '(q, t, d) := found bid d h in
    Forall (fun r => r_seq r <= Z.max (Tot.lastSeq t) (ackedSeq q) + 1) (unacked q t d);
}.

(** Nobody types while setup() waits for the station. *)
Definition unattended (e : BootEnv) : Prop := Forall (fun p => sp_serial p = EmptyString) (be_sta e).

Lemma console_idle (dv : Device) :
  console_service C ftoa toInt bd mac EmptyString dv = (dv, Console.Go).
Proof. unfold console_service. cbn. by destruct dv. Qed.

Lemma sta_wait_untouched start polls (dv : Device) r :
  Forall (fun p => sp_serial p = EmptyString) polls ->
  sta_wait C ftoa toInt bd mac start polls dv = Some r ->
  untouched dv r.1 /\ keeps 0 dv r.1 /\ api_ r.1 = api_ dv /\ portal_ r.1 = portal_ dv.
Proof.
  intros Hp. revert dv. induction Hp as [|p polls Hp _ IH]; intros dv; cbn [sta_wait]; [done|].
  destruct (_ && _); cycle 1.
  { intros [= <-]. split_and!; [done|by apply keeps_same|done..]. }
  rewrite Hp, console_idle. intros Hr.
  pose proof (wifi_untouched (sp_wifi_connected p) (sp_wifi_now p) (sp_rnd p) dv) as Hu.
  pose proof (wifi_keeps (sp_wifi_connected p) (sp_wifi_now p) (sp_rnd p) dv) as Hk.
  destruct (IH _ Hr) as (Hu' & Hk' & -> & ->).
  split_and!; [by etransitivity|exact (keeps_trans 0 0 _ _ _ Hk Hk')| |];
    unfold wifi_service; by destruct (Sync.wifiService _ _ _ _ _) as [[? ?] ?].
Qed.

Lemma recovered_sys st n h d u g e :
  is_u32 (bootId st) -> flash_ok (bootId st) d h ->
  let '(q, t, d1) := found (bootId st) d h in
  let dv := recovered (N := N) (U := U) bd st n h d u g e in
  sys_inv 1 dv /\ backlog dv = unacked q t d1 /\
  seq_ dv = Z.max (Tot.lastSeq t) (ackedSeq q) /\ acked_upto dv = ackedSeq q /\
  Tot.lastSeq (o_tot (x_ dv)) = Tot.lastSeq t /\
  pendingCount (o_queue (x_ dv)) = u32 (Z.of_nat (length (backlog dv))).
Proof.
  intros Hb [Hq Hn Hs Hz Ho Hr]. unfold recovered, found in *.
  destruct (Tot.begin bd (bootId st) Tot.new_totalizer d h) as [[t d1] h1].
  pose proof (begin_outcome tot_files new_queue t d1 Hq Hs Hn) as Hbeg.
  destruct (begin true new_queue t d1) as [[q' t'] d2].
  destruct Hbeg as (-> & HI & Eack & _ & Eu & Hc & _).
  assert (Eseq : resumeSeqFloor (Tot.lastSeq t) (ackedSeq q')
    = Z.max (Tot.lastSeq t) (ackedSeq q')) by (unfold resumeSeqFloor; case_match; bool_prop; lia).
  assert (Ea : ackedSeq q' = ackedSeq (with_ack (recovered_ack d1) (with_tot true new_queue)))
    by (unfold ackedSeq; by rewrite Eack).
  cbv zeta. match goal with |- sys_inv 1 ?x /\ _ => set (dv := x) end.
  assert (Ebl : backlog dv = unacked q' t d2) by done.
  assert (Es : seq_ dv = Z.max (Tot.lastSeq t) (ackedSeq q')) by exact Eseq.
  assert (Eq : acked_upto dv = ackedSeq q') by done.
  rewrite <- Eu in Ho, Hr. rewrite <- Ea in Hr. rewrite Es, Eq, Ebl, Ea.
  split_and!; try done.
  split; rewrite ?Ebl, ?Es, ?Eq; try done; try lia. split; [simpl; lia|done].
Qed.

(** Which of its two modes the device is in. *)
Definition mode_ok (dv : Device) : Prop :=
  if Portal.active (portal_ dv)
  then api_ dv = None /\ Sync.wifiAuthorityPaused_ (o_sync (x_ dv)) = true
  else api_ dv = Some Lan.new_api.

Lemma choose_mode_ok station (dv : Device) :
  api_ dv = None -> Portal.active (portal_ dv) = false ->
  untouched dv (choose_mode mac station dv) /\ keeps 0 dv (choose_mode mac station dv) /\
  mode_ok (choose_mode mac station dv).
Proof.
  intros Ha Hp. unfold mode_ok. destruct station; (split; [by split|split; [by apply keeps_same|]]).
  - by replace (Portal.active (portal_ (choose_mode mac true dv))) with false by done.
  - by replace (Portal.active (portal_ (choose_mode mac false dv))) with true by done.
Qed.

Lemma recovered_idle st (n : N) h d u g e :
  let dv := recovered (U := U) bd st n h d u g e in
  api_ dv = None /\ Portal.active (portal_ dv) = false.
Proof.
  unfold recovered. destruct (Tot.begin _ _ _ _ _) as [[? ?] ?]. by destruct (begin _ _ _ _) as [[? ?] ?].
Qed.

(** A boot that reaches the loop hands over what it recovered from the flash. *)
Lemma setup_untouched e (n : N) d h u g (dv : Device) :
  unattended e -> setup C ftoa toInt bd mac e n d h u g = Some (Booted dv) ->
  (exists n', untouched (recovered bd (St.begin bd n).1 n' h d u g e) dv /\
              keeps 0 (recovered bd (St.begin bd n).1 n' h d u g e) dv) /\ mode_ok dv.
Proof.
  intros Hun. unfold setup. destruct (St.begin bd n) as [st n1]. cbn [fst].
  destruct (boot_trial n1) as [rb n2]. destruct (rb && _); [done|].
  set (n3 := count_reset (be_reset e) n2).
  destruct (RELEASE_BUILD bd && _); [done|]. destruct (negb (be_mounted e)); [done|].
  cbv zeta. pose proof (recovered_idle st n3 h d u g e) as [Hapi Hpo].
  set (dv0 := recovered bd st n3 h d u g e) in *. intros Hset.
  enough (untouched dv0 dv /\ keeps 0 dv0 dv /\ mode_ok dv) as (Hu & Hk & Hm) by (split; [by exists n3|done]).
  clearbody dv0. revert Hset.
  destruct (Portal.consumeReprovisionRequest (forceAp_ dv0)) as [forceAp g'].
  set (dv1 := dv0{{forceAp_ := g'}}). assert (Hu1 : untouched dv0 dv1) by by split.
  assert (Hk1 : keeps 0 dv0 dv1) by by apply keeps_same.
  assert (Hbooted : forall a b : Device, Some (Booted a) = Some (Booted b) -> a = b) by congruence.
  destruct forceAp; [|destruct (sta_wait _ _ _ _ _ _ _ dv1) as [[dv2 []]|] eqn:Ew; [|done..]];
    intros <-%Hbooted.
  - destruct (choose_mode_ok false dv1 Hapi Hpo) as (Hu & Hk & Hm).
    split; [etransitivity; [exact Hu1|exact Hu]|split; [exact (keeps_trans 0 0 _ _ _ Hk1 Hk)|exact Hm]].
  - destruct (sta_wait_untouched _ _ _ _ Hun Ew) as (Hu2 & Hk2 & Ea & Ep). cbn [fst] in *.
    destruct (choose_mode_ok (negb false && be_connected e) dv2) as (Hu & Hk & Hm);
      [rewrite Ea; exact Hapi|rewrite Ep; exact Hpo|].
    split; [etransitivity; [exact Hu1|]; etransitivity; [exact Hu2|exact Hu]|].
    split; [|exact Hm]. exact (keeps_trans 0 0 _ _ _ Hk1 (keeps_trans 0 0 _ _ _ Hk2 Hk)).
Qed.

Lemma begin_bootId (n : N) : is_u32 (bootId (St.begin bd n).1).
Proof. unfold St.begin. destruct (negb _); apply u32_range. Qed.

(** What a boot makes of a flash in order. *)
Lemma setup_state e (n : N) d h u g (dv : Device) :
  let bid := bootId (St.begin bd n).1 in
  flash_ok bid d h -> unattended e ->
  setup C ftoa toInt bd mac e n d h u g = Some (Booted dv) ->
  let '(q, t, d1) := found bid d h in
  sys_inv 1 dv /\ backlog dv = unacked q t d1 /\
  seq_ dv = Z.max (Tot.lastSeq t) (ackedSeq q) /\ acked_upto dv = ackedSeq q /\
  pendingCount (o_queue (x_ dv)) = u32 (Z.of_nat (length (backlog dv))).
Proof.
  cbv zeta. intros Hf Hun Hset. destruct (setup_untouched _ _ _ _ _ _ _ Hun Hset) as [(n' & Hu & _) _].
  pose proof (recovered_sys (St.begin bd n).1 n' h d u g e (begin_bootId n) Hf) as Hr.
  destruct (found _ d h) as [[q t] d1]. cbv zeta in Hr.
  set (dv0 := recovered bd (St.begin bd n).1 n' h d u g e) in *. clearbody dv0.
  destruct Hr as (HI & Eb & Es & Ea & _ & Ec).
  destruct (untouched_sys 1 _ _ Hu HI) as [HI' Eb']. pose proof (un_seq _ _ Hu) as Es'.
  unfold acked_upto in *. rewrite Eb', (sq_queue _ _ (un_queue _ _ Hu)), Es'. split_and!; done.
Qed.

(** C17: setup() resumes where the flash stands.  On a flash whose power failed
    at most between a row and its checkpoint, a boot that reaches the loop
    hands it a device in good order: exactly the rows the flash holds wait,
    they are counted, the next number lies above both the checkpoint and the
    acknowledgement (so no new row is taken for an acknowledged one), and
    either the LAN API or the portal runs, the portal with Sync's WiFi
    authority paused. *)
Theorem setup_resumes e (n : N) d h u g (dv : Device) :
  let bid := bootId (St.begin bd n).1 in
  flash_ok bid d h -> unattended e ->
  setup C ftoa toInt bd mac e n d h u g = Some (Booted dv) ->
  let '(q, t, d1) := found bid d h in
  sys_inv 1 dv /\ backlog dv = unacked q t d1 /\
  seq_ dv = Z.max (Tot.lastSeq t) (ackedSeq q) /\ acked_upto dv <= seq_ dv /\
  pendingCount (o_queue (x_ dv)) = u32 (Z.of_nat (length (backlog dv))) /\
  (if Portal.active (portal_ dv)
   then api_ dv = None /\ Sync.wifiAuthorityPaused_ (o_sync (x_ dv)) = true
   else api_ dv = Some Lan.new_api).
Proof.
  cbv zeta. intros Hf Hun Hset. pose proof (setup_state _ _ _ _ _ _ _ Hf Hun Hset) as Hs.
  cbv zeta in Hs. destruct (found _ d h) as [[q t] d1]. destruct Hs as (HI & Eb & Es & Ea & Ec).
  split_and!; try done; [lia|]. by destruct (setup_untouched _ _ _ _ _ _ _ Hun Hset) as [_ Hm].
Qed.
End resume.

(** ** Release builds *)

Section release.
Context {N HW Disk U : Type} `{PreferencesLaws N} `{Pcnt HW} `{LittleFS Disk}
  `{SB : StorageBackend Disk} `{Updater U}.
Variable C : Crypto.
Variable ftoa : f32 -> nat -> string.
Variable toInt : string -> Z.
Variable bd : Build.
Variable mac : Z.

(** A release build never runs on the default key: it halts in its console. *)
Lemma release_needs_key e (n : N) d h u g (dv : Device N HW Disk U) :
  pref_writable n -> RELEASE_BUILD bd = true ->
  setup C ftoa toInt bd mac e n d h u g = Some (Booted dv) ->
  pref_isKey NVS_NS NVS_KEY_SEEDED n = true /\ apiKey n <> DEFAULT_API_KEY.
Proof.
  intros Hw Hrel. unfold setup. pose proof (boot_once_key bd n (be_reset e) Hw) as Hk.
  rewrite begin_key in Hk by done. unfold boot_once in Hk.
  destruct (St.begin bd n) as [st n1]. cbn [snd] in Hk. destruct (boot_trial n1) as [rb n2].
  cbn [snd] in Hk. destruct (rb && _); [done|]. rewrite Hrel. cbn [andb].
  unfold Diag.apiKeyStatus_. rewrite Hk. intros Hset.
  destruct (pref_isKey NVS_NS NVS_KEY_SEEDED n); [split; [done|]|by cbn in Hset].
  intros E. by rewrite E in Hset.
Qed.
End release.
