(* ===== verification/PowerTheorems.v ===== *)
(** * Power cuts

    The device over its whole life: iterations of loop(), power cuts between
    them, inside a row's write, between a row and its checkpoint, in the
    network slot and while acknowledged segments are removed, and the boots
    that follow.  A boot resumes exactly the rows
    that were pending, so the run theorem extends over power cuts. *)

From coqutil Require Import Datatypes.RecordSetters.
From S2P Require Import Prelude Config Arduino Crc32 Records Storage DualSlot Parse Sensors Boot Store Totalizer QueueData Queue QueueSpec QueueRefine QueueBoot QueueTheorems FlashFrame OtaPolicy Telemetry Net Sync SyncTheorems Ota OtaTheorems Diagnostics LocalApi LanTheorems WifiProvision Provision ConsoleTheorems Main MainInv MainTheorems BootTheorems.
Import St EventQueue DoubleBraceUpdate Main StoreSpec.

Section power.
Context {N HW Disk U : Type} `{Preferences N} `{Pcnt HW} `{LittleFSLaws Disk}
  `{SB : StorageBackend Disk} {SBL : StorageBackendLaws Disk} `{UpdaterLaws U}.
Variable C : Crypto.
Variable ftoa : f32 -> nat -> string.
Variable err_name : Z -> string.
Variable toInt : string -> Z.
Variable toFloat : string -> f32.
Variable bd : Build.
Variable id : Diag.BuildId.
Variable mac : Z.

#[local] Abbreviation Device := (Device N HW Disk U).
#[local] Abbreviation Objects := (Objects N HW Disk).
#[local] Abbreviation loop := (loop (N := N) (HW := HW) (Disk := Disk) (U := U)
  C ftoa err_name toInt toFloat bd id mac).
#[local] Abbreviation at_telemetry := (at_telemetry (N := N) (HW := HW) (Disk := Disk) (U := U)
  ftoa err_name bd id mac).
#[local] Abbreviation after_console := (after_console (N := N) (HW := HW) (Disk := Disk) (U := U)
  C ftoa toInt bd mac).
#[local] Abbreviation at_network := (at_network (N := N) (HW := HW) (Disk := Disk) (U := U)
  C ftoa err_name toInt bd id mac).

(** ** What a boot needs to find *)

Definition resume_floor (dv : Device) : Z := Z.max (Tot.lastSeq (o_tot (x_ dv))) (acked_upto dv).

Record resumable (dv : Device) : Prop := {
  rs_queue : QInv (o_queue (x_ dv)) (o_tot (x_ dv)) (o_disk (x_ dv));
  rs_ordered : ordered (backlog dv);
  rs_rows : Forall (fun r => r_seq r <= resume_floor dv + 1) (backlog dv);
  rs_last : 0 <= Tot.lastSeq (o_tot (x_ dv));
}.

Lemma sys_resumable slack (dv : Device) : sys_inv slack dv -> resumable dv.
Proof.
  intros HI. pose proof (si_slack _ _ HI). pose proof (si_resume _ _ HI).
  split; [apply HI..| |apply HI]. unfold resume_floor.
  eapply Forall_impl; [exact (si_rows _ _ HI)|]. intros r. simpl. lia.
Qed.

(** The flash a power cut leaves of the files [x] had.  The checkpoint, if one
    was ever written, has the queue offset and the number the running device
    had checkpointed, the acknowledgement is the one it had, of the rows at most the last write
    is there in part. *)
Record left_by_cut (x : Objects) (d : Disk) : Prop := {
  lc_checkpoint : exists c, Tot.finds c d /\
    Tot.seq c = Tot.lastSeq (o_tot x) /\ Tot.q_segment c = Tot.queueOffsetSegment (o_tot x) /\
    Tot.q_offset c = Tot.queueOffsetOffset (o_tot x);
  lc_ack : recovered_ack d = ack_ (o_queue x);
  lc_names : names_ok d;
  lc_rows : exists d1,
    (d1 = o_disk x \/ exists n r, partly_written n (o_tot x) (o_disk x) d1 r) /\
    live_kept (o_queue x) (o_tot x) d1 d;
}.

Lemma rows_left x (d : Disk) :
  left_by_cut x d -> QInv (o_queue x) (o_tot x) (o_disk x) ->
  QInv (o_queue x) (o_tot x) d /\
  unacked (o_queue x) (o_tot x) d = unacked (o_queue x) (o_tot x) (o_disk x).
Proof.
  intros [_ _ _ (d1 & Hd1 & Hs)] HI.
  enough (QInv (o_queue x) (o_tot x) d1 /\
    unacked (o_queue x) (o_tot x) d1 = unacked (o_queue x) (o_tot x) (o_disk x)) as [HI1 <-]
    by by apply QInv_live.
  destruct Hd1 as [->|(n & r & Hp)]; [done|by eapply partly_written_invisible].
Qed.

(** The boot finds the queue, the offset and the acknowledgement of the device
    that lost power. *)
Lemma found_left bid (dv : Device) d h :
  left_by_cut (x_ dv) d -> resumable dv ->
  let '(q, t, d1) := found bd bid d h in
  QInv q t d1 /\ unacked q t d1 = backlog dv /\ ackedSeq q = acked_upto dv /\ d1 = d /\
  Tot.lastSeq t = Tot.lastSeq (o_tot (x_ dv)) /\ Tot.queueOffsetSegment t = write_segment dv.
Proof.
  intros Hl [HI _ _ _]. destruct (rows_left _ _ Hl HI) as [HI' Hu].
  destruct Hl as [(c & Hrec & Es & Eg & Eo) Hack _ _]. unfold found.
  rewrite (Tot.begin_finds _ _ _ _ _ _ Hrec).
  set (t := Tot.booted bid Tot.new_totalizer c). set (q := with_ack _ _).
  assert (Ea : active (Disk := Disk) t = active (Disk := Disk) (o_tot (x_ dv))) by exact Eg.
  assert (Ego : good (Disk := Disk) t = good (Disk := Disk) (o_tot (x_ dv))) by exact Eo.
  destruct (QInv_ram (o_queue (x_ dv)) q (o_tot (x_ dv)) t d Hack eq_refl Ea Ego HI') as [HI2 Hu2].
  split_and!; [done|by rewrite Hu2, Hu| |done|exact Es|exact Eg].
  unfold acked_upto, ackedSeq. by rewrite <- Hack.
Qed.

Lemma left_flash_ok bid (dv : Device) d h :
  left_by_cut (x_ dv) d -> resumable dv -> write_segment dv + 1 < 2 ^ 32 -> flash_ok bd bid d h.
Proof.
  intros Hl Hr Hw. pose proof (found_left bid dv d h Hl Hr) as Hf. pose proof (lc_names _ _ Hl).
  destruct Hr as [_ Ho Hrows Hz]. unfold resume_floor in Hrows.
  split; destruct (found bd bid d h) as [[q t] d1]; destruct Hf as (HI & Eu & Ea & -> & El & Eg);
    rewrite ?Eu, ?El, ?Eg, ?Ea; done.
Qed.

(** ** One power cut *)

(** Where in the cycle that starts in [dv] the power can fail, after [k]
    checkpoints of the background service: between two iterations; after the
    row and before its checkpoint; in the network slot, also while an image is
    downloaded; while the segments an acknowledgement frees are being removed.
    [tr]: the push that was answered before. *)
Inductive cut_at (dv : Device) : nat -> list (LoopEnv * list HttpReq) -> Device -> Prop :=
  | cut_idle : cut_at dv 0 [] dv
  | cut_before_checkpoint e dv1 :
      regular e dv -> after_console e dv = (dv1, Console.Go) ->
      telemetry_due e (at_telemetry e dv1) ->
      cut_at dv 0 [] (row_appended bd e (at_telemetry e dv1))
  | cut_in_network e dv1 l :
      regular e dv -> after_console e dv = (dv1, Console.Go) -> l `prefix_of` le_ota_bg e ->
      cut_at dv (length l) [] (background_calls l (at_network e dv))
  | cut_in_prune e dv1 log dva d :
      regular e dv -> after_console e dv = (dv1, Console.Go) ->
      push_step bd e (at_network e dv) = (log, dva) ->
      half_pruned (cursor_segment (ack_ (o_queue (x_ dva)))) (o_disk (x_ (at_network e dv)))
        (o_disk (x_ dva)) d ->
      cut_at dv 0 [(e, log)] dva{{x_ := (x_ dva){{o_disk := d}}}}.

Lemma before_telemetry slack e (dv dv1 : Device) :
  sys_inv slack dv -> regular e dv -> after_console e dv = (dv1, Console.Go) ->
  let dv2 := at_telemetry e dv1 in
  sys_inv slack dv2 /\ backlog dv2 = backlog dv /\ seq_ dv2 = seq_ dv /\
  write_segment dv2 = write_segment dv.
Proof.
  intros HI [_ Hq _ _] Hc. pose proof (console_sys C ftoa toInt bd mac slack e dv HI Hq) as Hs.
  rewrite Hc in Hs. destruct (Hs eq_refl) as (HI1 & Eb & Es & Ew & _).
  pose proof (at_telemetry_untouched ftoa err_name bd id mac e dv1) as Hu.
  destruct (untouched_sys slack _ _ Hu HI1) as [HI2 Eb2]. cbv zeta.
  split_and!; [done|congruence|rewrite <- Es; apply Hu|].
  rewrite <- Ew. exact (sq_seg _ _ (un_queue _ _ Hu)).
Qed.

(** [r], or a row with its number, was acknowledged in [tr]. *)
Definition delivered_in (tr : list (LoopEnv * list HttpReq)) (r : QRow) : Prop :=
  exists e log, (e, log) ∈ tr /\ delivered bd (N := N) e log r.

Lemma delivered_in_mono tr tr' r : tr ⊆ tr' -> delivered_in tr r -> delivered_in tr' r.
Proof. intros Hs (e & log & Hin & Hd). exists e, log. split; [by apply Hs|done]. Qed.

(** The state in which the network slot is entered. *)
Lemma network_entered slack e (dv dv1 : Device) :
  sys_inv slack dv -> regular e dv -> after_console e dv = (dv1, Console.Go) ->
  let dvn := at_network e dv in
  sys_inv slack dvn /\ write_segment dvn + 1 < 2 ^ 32 /\ (forall r, r ∈ backlog dv -> r ∈ backlog dvn) /\
  seq_ dv <= seq_ dvn.
Proof.
  intros HI Hreg Hc. destruct (before_telemetry slack e dv dv1 HI Hreg Hc) as (HI2 & Eb2 & Es2 & Ew2).
  destruct Hreg as [Hn _ Hs Hw]. unfold MainTheorems.at_network. rewrite Hc. cbn [fst].
  set (dv2 := at_telemetry e dv1) in *. clearbody dv2.
  destruct (recorded_cycle bd slack e dv2 HI2 Hn ltac:(lia) ltac:(lia))
    as (HI3 & Hw3 & fresh & lost & Hrec & Eb3).
  set (dv3 := telemetry_cycle bd e dv2) in *. clearbody dv3.
  pose proof (clear_streak_untouched (le_now e) dv3) as Hu4. cbv zeta.
  set (dv4 := clear_streak (le_now e) dv3) in *. clearbody dv4.
  destruct (untouched_sys slack _ _ Hu4 HI3) as [HI4 Eb4].
  assert (Ew4 : write_segment dv4 = write_segment dv3) by exact (sq_seg _ _ (un_queue _ _ Hu4)).
  split_and!; [done|lia| |].
  - intros r Hin. rewrite Eb4, Eb3, Eb2. apply elem_of_app. by left.
  - rewrite (un_seq _ _ Hu4). pose proof (rc_seq _ _ _ _ _ Hrec). lia.
Qed.

Lemma cut_resumable slack (dv : Device) k tr (dvc : Device) :
  sys_inv slack dv -> cut_at dv k tr dvc ->
  resumable dvc /\ (forall r, r ∈ backlog dv -> r ∈ backlog dvc \/ delivered_in tr r) /\
  seq_ dv <= resume_floor dvc.
Proof.
  intros HI Hcut. destruct Hcut as [|e dv1 Hreg Hc Hdue|e dv1 l Hreg Hc _|e dv1 log dva d Hreg Hc Hpush Hd].
  - split; [by eapply sys_resumable|]. split; [by left|apply HI].
  - destruct (before_telemetry slack e dv dv1 HI Hreg Hc) as (HI2 & Eb2 & Es2 & Ew2).
    destruct Hreg as [Hn _ Hs Hw]. set (dv2 := at_telemetry e dv1) in *. clearbody dv2.
    pose proof (appended_spec bd slack e dv2 HI2 Hn ltac:(lia) ltac:(lia)) as Ha. cbv zeta in Ha.
    set (dv3 := row_appended bd e dv2) in *. clearbody dv3.
    destruct Ha as (HQ & _ & _ & _ & Eack & El & _ & Ho & Hr & _ & Hst).
    pose proof (si_resume _ _ HI2) as Hre. pose proof (si_last _ _ HI2) as Hz.
    assert (Ef : resume_floor dv3 = Z.max (Tot.lastSeq (o_tot (x_ dv2))) (acked_upto dv2))
      by (unfold resume_floor; by rewrite El, Eack).
    split; [split; [done|done| |by rewrite El]|split; [|lia]].
    + eapply Forall_impl; [exact Hr|]. intros r. simpl. lia.
    + intros r Hin. left. rewrite <- Eb2 in Hin. destruct Hst as [[-> _]|[-> _]]; [|done].
      apply elem_of_app. by left.
  - destruct (network_entered slack e dv dv1 HI Hreg Hc) as (HIn & _ & Hsub & Hsq). cbv zeta in *.
    set (dvn := at_network e dv) in *. clearbody dvn.
    pose proof (background_calls_untouched l dvn) as Hu.
    destruct (untouched_sys slack _ _ Hu HIn) as [HI' Eb].
    split; [by eapply sys_resumable|]. split; [intros r Hin; left; rewrite Eb; by apply Hsub|].
    pose proof (si_resume _ _ HI') as Hre. rewrite (un_seq _ _ Hu) in Hre. unfold resume_floor. lia.
  - destruct (network_entered slack e dv dv1 HI Hreg Hc) as (HIn & Hwn & Hsub & Hsq). cbv zeta in *.
    set (dvn := at_network e dv) in *. clearbody dvn.
    pose proof (push_step_spec bd slack e dvn HIn Hwn) as Hp. rewrite Hpush in Hp.
    destruct Hp as (HI' & _ & _ & Es' & _ & Hk & _).
    destruct (half_pruned_rows _ _ _ _ _ (si_queue _ _ HI') Hd) as [HQ Eu].
    set (dvc := dva{{x_ := (x_ dva){{o_disk := d}}}}).
    assert (Eb : backlog dvc = backlog dva) by exact Eu.
    pose proof (sys_resumable _ _ HI') as [_ Ho Hr Hz].
    split; [split; [exact HQ|by rewrite Eb|by rewrite Eb|exact Hz]|]. split.
    + intros r Hin. rewrite Eb. destruct (Hk r (Hsub r Hin)) as [|Hdel]; [by left|right].
      exists e, log. split; [by apply list_elem_of_singleton|done].
    + pose proof (si_resume _ _ HI'). change (seq_ dv <= resume_floor dva). unfold resume_floor. lia.
Qed.

Lemma resumable_boot (dvc : Device) d e (n : N) h u g (dv' : Device) :
  resumable dvc -> left_by_cut (x_ dvc) d -> write_segment dvc + 1 < 2 ^ 32 ->
  unattended e -> setup C ftoa toInt bd mac e n d h u g = Some (Booted dv') ->
  sys_inv 1 dv' /\ backlog dv' = backlog dvc /\ seq_ dv' = resume_floor dvc /\
  acked_upto dv' = acked_upto dvc.
Proof.
  intros Hr Hl Hw Hun Hset.
  pose proof (left_flash_ok (bootId (St.begin bd n).1) dvc d h Hl Hr Hw) as Hf.
  pose proof (setup_state C ftoa toInt bd mac e n d h u g dv' Hf Hun Hset) as Hs. cbv zeta in Hs.
  pose proof (found_left (bootId (St.begin bd n).1) dvc d h Hl Hr) as Hfound.
  destruct (found bd _ d h) as [[q t] d1]. destruct Hfound as (_ & Eu & Eq & _ & El & _).
  destruct Hs as (HI' & Eb & Es & Ea & _). rewrite Eu in Eb. rewrite El, Eq in Es.
  fold (resume_floor dvc) in Es. split_and!; [done..|by rewrite Ea].
Qed.

Lemma cut_and_boot slack (dv : Device) k tr (dvc : Device) d e (n : N) h u g (dv' : Device) :
  sys_inv slack dv -> cut_at dv k tr dvc -> left_by_cut (x_ dvc) d -> write_segment dvc + 1 < 2 ^ 32 ->
  unattended e -> setup C ftoa toInt bd mac e n d h u g = Some (Booted dv') ->
  sys_inv 1 dv' /\ backlog dv' = backlog dvc /\ seq_ dv' = resume_floor dvc /\
  acked_upto dv' = acked_upto dvc /\
  (forall r, r ∈ backlog dv -> r ∈ backlog dv' \/ delivered_in tr r) /\ seq_ dv <= seq_ dv'.
Proof.
  intros HI Hcut Hl Hw Hun Hset. destruct (cut_resumable _ _ _ _ _ HI Hcut) as (Hr & Hsub & Hfl).
  destruct (resumable_boot _ _ _ _ _ _ _ _ Hr Hl Hw Hun Hset) as (HI' & Eb & Es & Ea).
  split_and!; [done..|by rewrite Eb|by rewrite Es].
Qed.


(** The comment on the order of row and checkpoint: power failing between the
    two, the number of the stored row is given again, to a row of the next
    boot with its own time and total. *)
Lemma number_regenerates slack (dv : Device) e dv1 d be (n : N) h u g (dv' : Device) :
  let dv2 := at_telemetry e dv1 in
  let dvc := row_appended bd e dv2 in
  sys_inv slack dv -> regular e dv -> after_console e dv = (dv1, Console.Go) ->
  telemetry_due e dv2 -> Tot.lastSeq (o_tot (x_ dv2)) = seq_ dv2 -> acked_upto dv2 <= seq_ dv2 ->
  failures dvc <> u32 (failures dv2 + 1) ->
  left_by_cut (x_ dvc) d -> write_segment dvc + 1 < 2 ^ 32 -> unattended be ->
  setup C ftoa toInt bd mac be n d h u g = Some (Booted dv') ->
  exists r, r ∈ backlog dv' /\ forall e' row, row_of_cycle e' dv' row -> r_seq row = r_seq r.
Proof.
  cbv zeta. intros HI Hreg Hc Hdue El Ha Hfail Hl Hw Hun Hset.
  destruct (cut_and_boot _ _ _ _ _ _ _ _ _ _ _ _ HI (cut_before_checkpoint _ _ _ Hreg Hc Hdue) Hl Hw Hun Hset)
    as (_ & Eb & Es & _).
  destruct (before_telemetry slack e dv dv1 HI Hreg Hc) as (HI2 & _ & Es2 & Ew2).
  destruct Hreg as [Hn _ Hs Hw2]. set (dv2 := at_telemetry e dv1) in *. clearbody dv2.
  pose proof (appended_spec bd slack e dv2 HI2 Hn ltac:(lia) ltac:(lia)) as Hap. cbv zeta in Hap.
  set (dv3 := row_appended bd e dv2) in *. clearbody dv3.
  destruct Hap as (_ & _ & _ & _ & Eack & El3 & _ & _ & _ & (Er & _) & [[Eb3 _]|[_ Hf]]); [|done].
  set (row := new_row bd e dv2) in *. clearbody row.
  unfold resume_floor in Es. rewrite El3, Eack, El in Es.
  exists (seal_row row). rewrite seal_row_seq, Er. split.
  - rewrite Eb, Eb3, (proj2 (Z.leb_gt _ _)) by lia. apply elem_of_app. right. by apply list_elem_of_singleton.
  - intros e' row' (-> & _). lia.
Qed.

(** ** The life of a device *)

Inductive lives : Device -> list (LoopEnv * list HttpReq) -> Device -> Prop :=
  | lives_start dv : lives dv [] dv
  | lives_iteration dv tr dv1 e log dv2 :
      lives dv tr dv1 -> regular e dv1 -> loop e dv1 = Some (log, dv2, Console.Go) ->
      lives dv (tr ++ [(e, log)]) dv2
  | lives_power_cut dv tr dv1 k trc dvc d e n h u g dv2 :
      lives dv tr dv1 -> cut_at dv1 k trc dvc -> left_by_cut (x_ dvc) d ->
      write_segment dvc + 1 < 2 ^ 32 -> unattended e ->
      setup C ftoa toInt bd mac e n d h u g = Some (Booted dv2) ->
      lives dv (tr ++ trc) dv2.

Lemma sys_weaken slack (dv : Device) : sys_inv slack dv -> sys_inv 1 dv.
Proof.
  intros [Hs Hc HQ Ho Hr Ha Hz Hl Hre Hb]. split; try done; try lia.
  eapply Forall_impl; [exact Hr|]. intros r. simpl. lia.
Qed.

End power.

Section durable.
Context {N HW Disk U : Type} `{Preferences N} `{Pcnt HW} `{LittleFSLaws Disk}
  `{SB : StorageBackend Disk} {SBL : StorageBackendLaws Disk}.

#[local] Abbreviation Device := (Device N HW Disk U).
#[local] Abbreviation Objects := (Objects N HW Disk).

(** ** The flash a cycle leaves

    [left_by_cut] from the writes themselves: no slot is newer than the device
    knows, its acknowledgement is the one on flash, the queue directory holds
    no foreign segment. *)

Record durable (x : Objects) : Prop := {
  du_tot : Tot.Inv (o_tot x) (o_disk x);
  du_ack : recovered_ack (o_disk x) = ack_ (o_queue x);
  du_names : names_ok (o_disk x);
}.

Definition ckpt_writes (dv : Device) : Z := Tot.writes (Tot.cp_ (o_tot (x_ dv))).

(** Writing row files keeps everything a boot reads but rows. *)
Lemma row_files_durable x (d : Disk) :
  0 <= next_seg (Disk := Disk) (o_tot x) < 1000000 -> durable x ->
  touches (row_file (Disk := Disk) (o_tot x)) (o_disk x) d ->
  Tot.Inv (o_tot x) d /\ recovered_ack d = ack_ (o_queue x) /\ names_ok d.
Proof.
  intros Hs [HT Ha Hn] Ht. split_and!.
  - eapply tot_inv_frame; [exact Ht|apply row_file_not; tauto..|exact HT].
  - rewrite <- Ha. eapply ack_frame; [exact Ht|apply row_file_not; tauto..].
  - eapply names_frame; [exact Ht|apply row_file_dec| |exact Hn]. intros p. by apply row_file_cases.
Qed.

Lemma tot_files_durable (d d' : Disk) :
  touches tot_files d d' ->
  recovered_ack d' = recovered_ack d /\ (names_ok d -> names_ok d').
Proof.
  intros Ht. split.
  - eapply ack_frame; [exact Ht|by intros [E|E]; discriminate E..].
  - eapply names_frame; [exact Ht| |].
    + intros p. unfold tot_files.
      destruct (decide (p = Tot.CKPT_PATH_A)), (decide (p = Tot.CKPT_PATH_B)); tauto.
    + intros p Hp. apply side_well_named. by right.
Qed.

Lemma append_durable row ms (dv : Device) :
  QInv (o_queue (x_ dv)) (o_tot (x_ dv)) (o_disk (x_ dv)) -> fields_fit row ->
  write_segment dv + 2 < 1000000 -> durable (x_ dv) -> ckpt_writes dv + 1 < 2 ^ 32 ->
  let dv' := append_row ms row dv in durable (x_ dv') /\ ckpt_writes dv' <= ckpt_writes dv + 1.
Proof.
  intros HI Hf Ha Hd Hw. unfold append_row. destruct ms as [[ms0 ms1] msf].
  assert (Hact : active (Disk := Disk) (o_tot (x_ dv)) + 2 < 1000000) by exact Ha.
  pose proof (append_outcome_holds tot_files tot_files_segment row ms0 ms1 msf (o_queue (x_ dv))
    (o_tot (x_ dv)) (o_disk (x_ dv)) HI Hf ltac:(lia)) as Ho.
  pose proof (append_files row ms0 ms1 msf (o_queue (x_ dv))
    (o_tot (x_ dv)) (o_disk (x_ dv)) HI ltac:(lia)) as Hs.
  destruct (append row ms0 ms1 msf _ _ _) as [[q t] d].
  destruct Ho as (_ & Eack & _). destruct Hs as (d1 & Ht & Hs).
  pose proof (next_seg_range _ _ _ HI ltac:(lia)) as Hns.
  destruct (row_files_durable (x_ dv) d1 Hns Hd Ht) as (HT & Hack & Hn). cbv zeta.
  destruct Hs as [[-> ->]|Es].
  - split; [split; [exact HT|exact (eq_trans Hack (eq_sym Eack))|exact Hn]|].
    change (ckpt_writes dv <= ckpt_writes dv + 1). lia.
  - pose proof (qi_good _ _ _ HI) as Hg.
    set (sg := next_seg _) in Es, Hns. set (off := next_off _ + 36) in Es.
    assert (Hoff : is_u32 off).
    { unfold off, next_off, is_u32, cap in Hg |- *. case_match; lia. }
    pose proof (Tot.setQueueOffset_Inv sg off (o_tot (x_ dv)) d1 HT
      ltac:(unfold is_u32; lia) Hoff Hw) as HT'.
    set (t0 := Tot.with_cp (Tot.with_offset sg off (Tot.cp_ (o_tot (x_ dv)))) (o_tot (x_ dv))).
    destruct (tot_files_durable d1 (Tot.persist_ t0 d1).2 (persist_touches t0 d1)) as [Ea Hn'].
    assert (Ew : Tot.writes (Tot.cp_ (Tot.persist_ t0 d1).1) = ckpt_writes dv + 1).
    { rewrite Tot.persist_cp. exact (Tot.stamp_writes (Tot.cp_ t0) Hw (proj1 (Tot.fits_writes _ (proj1 HT)))). }
    change (setQueueOffset sg off (o_tot (x_ dv)) d1) with (Tot.persist_ t0 d1) in Es.
    change (Tot.setQueueOffset sg off (o_tot (x_ dv)) d1) with (Tot.persist_ t0 d1) in HT'.
    destruct (Tot.persist_ t0 d1) as [t2 d2]. injection Es as -> ->. cbn [fst snd] in HT', Ea, Hn', Ew |- *.
    split; [split; [exact HT'|exact (eq_trans Ea (eq_trans Hack (eq_sym Eack)))|by apply Hn']|].
    change (Tot.writes (Tot.cp_ t2) <= ckpt_writes dv + 1). lia.
Qed.

Lemma checkpoint_durable n1 n2 (dv : Device) :
  durable (x_ dv) -> is_u32 (seq_ dv) -> ckpt_writes dv + 1 < 2 ^ 32 ->
  let dv' := checkpoint n1 n2 dv in
  durable (x_ dv') /\
  (Tot.persisted (o_tot (x_ dv')) (o_disk (x_ dv')) ->
   recover Tot.CKPT_PATH_A Tot.CKPT_PATH_B Tot.ck_writes Tot.load_either (o_disk (x_ dv'))
   = Some (Tot.cp_ (o_tot (x_ dv')), false)).
Proof.
  intros [HT Ha Hn] Hs Hw. unfold checkpoint.
  pose proof (Tot.service_durable (seq_ dv) n1 n2 _ _ (o_hw (x_ dv)) HT Hs Hw) as Hd.
  destruct (Tot.service _ n1 n2 _ _ _) as [[t d] h]. destruct Hd as (HT' & Hf & Hrec).
  assert (Ht : touches tot_files (o_disk (x_ dv)) d).
  { intros p Hp. apply Hf; intros ->; apply Hp; unfold tot_files; tauto. }
  destruct (tot_files_durable _ _ Ht) as [Ea Hn']. cbv zeta.
  split; [|exact Hrec]. split; [exact HT'|exact (eq_trans Ea Ha)|by apply Hn'].
Qed.

(** Of a durable device whose last checkpoint is on flash a power cut, now or
    inside the next row's write, leaves enough. *)
Lemma durable_left (dv : Device) d :
  QInv (o_queue (x_ dv)) (o_tot (x_ dv)) (o_disk (x_ dv)) -> write_segment dv + 1 < 1000000 ->
  durable (x_ dv) ->
  recover Tot.CKPT_PATH_A Tot.CKPT_PATH_B Tot.ck_writes Tot.load_either (o_disk (x_ dv))
    = Some (Tot.cp_ (o_tot (x_ dv)), false) ->
  d = o_disk (x_ dv) \/ (exists n r, partly_written n (o_tot (x_ dv)) (o_disk (x_ dv)) d r) ->
  left_by_cut (x_ dv) d.
Proof.
  intros HI Ha Hd Hrec Hcut. pose proof (next_seg_range _ _ _ HI Ha) as Hns.
  assert (Ht : touches (row_file (Disk := Disk) (o_tot (x_ dv))) (o_disk (x_ dv)) d).
  { destruct Hcut as [->|(n & r & Hp)]; [done|]. eapply only_touches; [|exact Hp]. by left. }
  destruct (row_files_durable _ _ Hns Hd Ht) as (_ & Hack & Hn). split; [|exact Hack|exact Hn|].
  - exists (Tot.cp_ (o_tot (x_ dv))). split; [left|done]. rewrite <- Hrec. unfold recover, slot_load.
    by rewrite !Ht by (apply row_file_not; tauto).
  - exists d. split; [done|]. by split; [|left].
Qed.
End durable.

Section cycle.
Context {N HW Disk U : Type} `{Preferences N} `{Pcnt HW} `{LittleFSLaws Disk}
  `{SB : StorageBackend Disk} {SBL : StorageBackendLaws Disk} `{UpdaterLaws U}.
Variable C : Crypto.
Variable ftoa : f32 -> nat -> string.
Variable toInt : string -> Z.
Variable bd : Build.
Variable mac : Z.

#[local] Abbreviation Device := (Device N HW Disk U).

(** C5: one cycle makes its row durable.  From a device in good order whose flash
    agrees with it, run a telemetry cycle whose checkpoint write takes effect,
    and cut the power, right then or inside the next row's write: the next
    boot holds the old rows and, unless its loss was counted, the row of the
    cycle, and resumes at its number.  The agreement holds again after the
    cycle, whatever the flash did. *)
Theorem cycle_row_survives slack e (dv : Device) d be (n : N) h u g (dv2 : Device) :
  let dv' := telemetry_cycle bd e dv in
  sys_inv slack dv -> durable (x_ dv) -> is_u32 (le_now e) -> telemetry_due e dv ->
  seq_ dv + 1 < 2 ^ 32 -> write_segment dv + 2 < 1000000 -> ckpt_writes dv + 2 < 2 ^ 32 ->
  durable (x_ dv') /\
  (Tot.persisted (o_tot (x_ dv')) (o_disk (x_ dv')) ->
   d = o_disk (x_ dv') \/ (exists k r, partly_written k (o_tot (x_ dv')) (o_disk (x_ dv')) d r) ->
   unattended be -> setup C ftoa toInt bd mac be n d h u g = Some (Booted dv2) ->
   exists row, row_of_cycle e dv row /\
     (backlog dv2 = backlog dv ++ (if r_seq row <=? acked_upto dv then [] else [seal_row row]) \/
      (backlog dv2 = backlog dv /\ failures dv' = u32 (failures dv + 1))) /\
     seq_ dv2 = Z.max (r_seq row) (acked_upto dv)).
Proof.
  cbv zeta. intros HI Hd Hn Hdue Hs Hw Hwr.
  pose proof (telemetry_spec bd slack e dv HI Hn Hs ltac:(lia)) as Hspec. cbv zeta in Hspec.
  destruct Hspec as [[Hno _]|(_ & HI' & Es' & El' & Ea' & Hw' & Hrow & Hst)]; [done|].
  set (row := new_row bd e dv) in *.
  enough (Hdur : durable (x_ (telemetry_cycle bd e dv)) /\
    (Tot.persisted (o_tot (x_ (telemetry_cycle bd e dv))) (o_disk (x_ (telemetry_cycle bd e dv))) ->
     recover Tot.CKPT_PATH_A Tot.CKPT_PATH_B Tot.ck_writes Tot.load_either
       (o_disk (x_ (telemetry_cycle bd e dv)))
     = Some (Tot.cp_ (o_tot (x_ (telemetry_cycle bd e dv))), false))).
  - destruct Hdur as [Hd' Hrec]. split; [exact Hd'|]. intros Hp Hcut Hun Hset.
    set (dv' := telemetry_cycle bd e dv) in HI', Es', El', Ea', Hw', Hst, Hd', Hrec, Hp, Hcut |- *.
    clearbody dv'.
    pose proof (durable_left dv' d (si_queue _ _ HI') ltac:(lia) Hd' (Hrec Hp) Hcut) as Hl.
    destruct (resumable_boot C ftoa toInt bd mac dv' d be n h u g dv2 (sys_resumable _ _ HI') Hl
      ltac:(lia) Hun Hset) as (_ & Eb & Es & _).
    exists row. unfold resume_floor in Es. rewrite El', Ea' in Es. destruct Hrow as (Er & Hrow).
    split; [by split|]. rewrite Eb, Es, Es', Er. split; [|done].
    destruct Hst as [[-> _]|[-> Hf]]; [left; by rewrite Er|by right].
  - unfold telemetry_cycle. unfold telemetry_due in Hdue. rewrite (proj2 (Z.leb_le _ _) Hdue).
    rewrite (u32_small (seq_ dv + 1)) by (pose proof (si_seq _ _ HI); lia).
    set (dv0 := dv{{tTelemetry := le_now e; seq_ := seq_ dv + 1}}).
    assert (Hsq : is_u32 (seq_ dv0)) by (pose proof (si_seq _ _ HI); change (is_u32 (seq_ dv + 1)); unfold is_u32; lia).
    pose proof (build_row_spec bd (le_now e) (le_rssi e) dv0 Hn Hsq (si_boot _ _ HI)) as Hb.
    destruct (build_row bd (le_now e) (le_rssi e) dv0) as [row1 dv1].
    destruct Hb as (Hu & Ex & Hf & _).
    assert (Esq : seq_ dv1 = seq_ dv0) by apply Hu. change (x_ dv0) with (x_ dv) in Ex.
    assert (Hwr1 : ckpt_writes dv1 + 2 < 2 ^ 32) by (unfold ckpt_writes in Hwr |- *; by rewrite Ex).
    assert (Hw1 : write_segment dv1 + 2 < 1000000) by (unfold write_segment in Hw |- *; by rewrite Ex).
    rewrite <- Ex in Hd. pose proof (si_queue _ _ HI) as HQ. rewrite <- Ex in HQ.
    assert (Hwr2 : ckpt_writes dv1 + 1 < 2 ^ 32) by lia.
    destruct (append_durable row1 (le_append e) dv1 HQ Hf Hw1 Hd Hwr2) as [Hd2 Hw2].
    pose proof (append_row_spec (le_append e) row1 dv1 HQ Hf ltac:(lia)) as (_ & _ & _ & Esq2 & _).
    set (dv2' := append_row (le_append e) row1 dv1) in Hd2, Hw2, Esq2 |- *. clearbody dv2'.
    destruct (checkpoint_durable (le_tot_n1 e) (le_tot_n2 e) dv2' Hd2) as [[HT Hack Hnm] Hrec];
      [by rewrite Esq2, Esq|lia|].
    split; [split; [exact HT|exact Hack|exact Hnm]|exact Hrec].
Qed.
End cycle.
