(* ===== verification/FlashLife.v ===== *)
(** * A device's life on flash that works

    When writes take effect ([ReliableFlash]) nothing has to be assumed of the
    flash a power cut leaves: every state of the device's life agrees with its
    flash, so every boot finds what the device knew, and every row a telemetry
    cycle records waits until the server has acknowledged it. *)

From coqutil Require Import Datatypes.RecordSetters.
From S2P Require Import Prelude Config Arduino Crc32 Records Storage DualSlot Parse Sensors Boot Store Totalizer QueueData Queue QueueSpec QueueRefine QueueBoot QueueTheorems FlashFrame OtaPolicy Telemetry Net Sync SyncTheorems Ota OtaTheorems Diagnostics LocalApi LanTheorems WifiProvision Provision ConsoleTheorems Main MainInv FlashAgree MainTheorems BootTheorems PowerTheorems.
Import St EventQueue DoubleBraceUpdate Main StoreSpec.

(** ** Torn writes *)

Section torn.
Context {N HW Disk : Type} `{Preferences N} `{Pcnt HW} `{LittleFSLaws Disk}
  `{SB : StorageBackend Disk} {SBL : StorageBackendLaws Disk}.

#[local] Abbreviation Objects := (Objects N HW Disk).
Implicit Types (x : Objects) (d : Disk).

(** The flash when the power fails in the device [x]: the next row may be there
    in part or in full, ... *)
Definition row_cut x d : Prop := d = o_disk x \/ exists n r, partly_written n (o_tot x) (o_disk x) d r.

(** ... and the next write of a slot, of the checkpoint or of the
    acknowledgement, may have begun.  (A checkpoint cut at 28 bytes has the
    size of a legacy one; [Tot.torn_checkpoint_recovers] treats it.) *)
Inductive slot_cut x : Disk -> Prop :=
  | cut_no_slot d : row_cut x d -> slot_cut x d
  | cut_ckpt d1 n c d :
      row_cut x d1 -> fields_fit c -> (n < 36)%nat -> n <> 28%nat ->
      only_changes (slot Tot.CKPT_PATH_A Tot.CKPT_PATH_B (ckpt_count x + 1))
        (Some (take n (bytes_of (Tot.stamp c)))) d1 d ->
      slot_cut x d
  | cut_ack d1 n a d :
      row_cut x d1 -> (n < sizeof (R := AckRec))%nat ->
      only_changes (slot ACK_PATH_A ACK_PATH_B (ack_count x + 1))
        (Some (take n (bytes_of (a : AckRec)))) d1 d ->
      slot_cut x d.

(** Boots that lost power on the way may have removed segments that are not
    live. *)
Definition torn x d : Prop := exists d1, slot_cut x d1 /\ dead_removed (o_queue x) (o_tot x) d1 d.

Lemma torn_ckpt_none c n :
  fields_fit c -> (n < 36)%nat -> n <> 28%nat ->
  Tot.load_either (Some (take n (bytes_of (Tot.stamp c)))) = None.
Proof.
  intros Hf Hn Hne. destruct (Tot.load_either _) as [[c' leg]|] eqn:El; [|done].
  by apply Tot.load_either_prefix in El as (-> & _).
Qed.

Lemma torn_ack_none (a : AckRec) n :
  (n < sizeof (R := AckRec))%nat -> ld_ack (Some (take n (bytes_of a))) = None.
Proof.
  intros Hn. unfold ld_ack. cbn [mbind option_bind].
  apply load_bytes_short. rewrite !length_take. lia.
Qed.

(** Garbage on a new flash. *)
Lemma torn_fresh {X} A B (writes : X -> Z) ld v c d d' :
  ld c = None -> only_changes (slot A B v) c d d' ->
  recover A B writes ld d = None -> recover A B writes ld d' = None.
Proof.
  intros Hc Ho [HA HB]%recover_none. destruct (changed_slot ld _ _ _ _ Ho) as [Hs Hq]. rewrite Hc in Hs.
  assert (Hn : slot_load ld A d' = None /\ slot_load ld B d' = None).
  { split; [destruct (decide (A = slot A B v)) as [->|]|destruct (decide (B = slot A B v)) as [->|]];
      rewrite ?Hq by done; done. }
  unfold recover. by destruct Hn as [-> ->].
Qed.

Lemma slot_cut_agree x d :
  QInv (o_queue x) (o_tot x) (o_disk x) -> Tot.queueOffsetSegment (o_tot x) + 1 < 1000000 ->
  slot_cut x d -> agree x (o_disk x) -> agree x d.
Proof.
  intros HI Hw Ht Ha0. pose proof (next_seg_range _ _ _ HI Hw) as Hns.
  assert (Hrow : forall d1, row_cut x d1 -> agree x d1).
  { intros d1 [->|(n & r & Hp)]; [done|]. eapply agree_row_files; [exact Hns| |exact Ha0].
    eapply only_touches; [|exact Hp]. by left. }
  destruct Ht as [d Hd|d1 n c d Hd1%Hrow Hf Hn Hne Ho|d1 n a d Hd1%Hrow Hn Ho]; [by apply Hrow| |].
  - rename Hd1 into Ha.
    assert (Htf : touches tot_files d1 d) by (eapply only_touches; [apply slot_cases|exact Ho]).
    eapply (agree_tot_files x x); [done|apply Ha| |exact Htf|exact Ha].
    pose proof (torn_ckpt_none c n Hf Hn Hne) as Hld.
    destruct (ag_ckpt _ _ Ha) as [(c0 & Hs & Ep)|[Hr Ep]].
    + left. exists c0. split; [|done]. injection Ep as Ew _ _ _.
      unfold ckpt_count in Ho. rewrite <- Ew in Ho.
      eapply (torn_write _ _ Tot.paths_ne Tot.ck_writes); [exact Hs|exact Hld|exact Ho].
    + right. split; [|done]. by eapply torn_fresh.
  - rename Hd1 into Ha.
    assert (Htf : touches acked_file d1 d) by (eapply only_touches; [left; apply slot_cases|exact Ho]).
    pose proof (torn_ack_none a n Hn) as Hld.
    eapply (acked_files_agree x x); [done|apply Ha| |exact Htf| |exact Ha].
    + destruct (ag_ack _ _ Ha) as [Hs|[Hr Ea]].
      * left. eapply (torn_write ACK_PATH_A ACK_PATH_B ltac:(done) a_writes); [exact Hs|exact Hld|exact Ho].
      * right. split; [|done]. by eapply torn_fresh.
    + apply (ack_files_names d1). eapply only_touches; [apply slot_cases|exact Ho].
Qed.

Lemma dead_removed_agree q t x d d' : dead_removed q t d d' -> agree x d -> agree x d'.
Proof.
  intros Hd%dead_removed_files [Hwf Hck Hf Ha Hn]. destruct Hd as [Hsame Hsh]. split; [done| |done| |].
  - eapply ckpt_saved_frame; [done| | |exact Hck]; apply Hsame; intros s E;
      apply (tot_files_segment s); rewrite <- E; unfold tot_files; tauto.
  - eapply ack_saved_frame; [| |exact Ha]; apply Hsame; intros s E;
      apply (segment_not_side s); rewrite <- E; unfold side_file; tauto.
  - exact (names_shrink d d' Hsh Hn).
Qed.

Lemma torn_agree x d :
  QInv (o_queue x) (o_tot x) (o_disk x) -> Tot.queueOffsetSegment (o_tot x) + 1 < 1000000 ->
  torn x d -> agree x (o_disk x) -> agree x d.
Proof.
  intros HI Hw (d1 & Hs & Hd) Ha. eapply dead_removed_agree; [exact Hd|]. by eapply slot_cut_agree.
Qed.

Lemma slot_cut_rows x d :
  slot_cut x d -> exists d1, row_cut x d1 /\ forall s, lfs_read (segmentPath_ s) d = lfs_read (segmentPath_ s) d1.
Proof.
  intros [d0 Hd|d1 n c' d0 Hd _ _ _ Ho|d1 n a d0 Hd _ Ho]; [by exists d0|exists d1; split; [done|]..];
    intros s; apply Ho; intros E; destruct (slot_cases Tot.CKPT_PATH_A Tot.CKPT_PATH_B (ckpt_count x + 1)) as [E'|E'],
      (slot_cases ACK_PATH_A ACK_PATH_B (ack_count x + 1)) as [E''|E'']; rewrite ?E', ?E'' in E; discriminate E.
Qed.

(** The flash still shows the rows of the queue. *)
Lemma torn_rows x d :
  QInv (o_queue x) (o_tot x) (o_disk x) -> torn x d ->
  exists d1, row_cut x d1 /\ live_kept (o_queue x) (o_tot x) d1 d.
Proof.
  intros HI (d2 & Hs & Hd). destruct (slot_cut_rows x d2 Hs) as (d1 & Hr & Hsame).
  exists d1. split; [done|].
  assert (HI1 : QInv (o_queue x) (o_tot x) d1).
  { destruct Hr as [->|(n & r & Hp)]; [done|by eapply partly_written_invisible]. }
  destruct (QInv_ext (o_queue x) (o_queue x) (o_tot x) d1 d2 eq_refl eq_refl Hsame HI1) as [HI2 _].
  destruct (dead_removed_live _ _ _ _ HI2 Hd) as [Hl Hg].
  split; intros s; rewrite <- !Hsame; auto.
Qed.
End torn.

(** ** Boots *)

Section boot.
Context {N HW Disk U : Type} `{Preferences N} `{Pcnt HW} `{LittleFSLaws Disk}
  `{SB : StorageBackend Disk} {SBL : StorageBackendLaws Disk} `{UpdaterLaws U}.
Variable bd : Build.

#[local] Abbreviation Device := (Device N HW Disk U).
#[local] Abbreviation Objects := (Objects N HW Disk).
#[local] Abbreviation agrees dv := (agree (x_ dv) (o_disk (x_ dv))).

Lemma ckpt_saved_finds cp (d : Disk) : ckpt_saved cp d -> exists c, Tot.finds c d /\ place c = place cp.
Proof.
  intros [(c & Hs & Ep)|[Hr Ep]].
  - exists c. split; [left; by apply recover_synced|done].
  - eexists. split; [right; by split|done].
Qed.

Lemma torn_left (x : Objects) (d : Disk) :
  QInv (o_queue x) (o_tot x) (o_disk x) -> torn x d -> agree x d -> left_by_cut x d.
Proof.
  intros HI Ht Ha. destruct (ckpt_saved_finds _ _ (ag_ckpt _ _ Ha)) as (c & Hf & Ep).
  split; [exists c; split; [done|by injection Ep]|by apply ack_saved_recovered, Ha|apply Ha|].
  by apply torn_rows.
Qed.

(** A boot knows what the flash knows. *)
Lemma recovered_agree st (n : N) h d u g e cp a :
  is_u32 (bootId st) -> flash_ok bd (bootId st) d h ->
  ckpt_saved cp d -> fields_fit a -> ack_saved a d -> names_ok d ->
  let dv := recovered (U := U) bd st n h d u g e in
  agrees dv /\ ckpt_count (x_ dv) = Tot.writes cp /\ tTelemetry dv = 0 /\ tPush dv = 0.
Proof.
  intros Hb [Hq Hnm Hw _ _ _] Hck Hfit Hack Hn. unfold recovered, found in *.
  destruct (ckpt_saved_finds _ _ Hck) as (c & Hf & Ep).
  rewrite (Tot.begin_finds _ _ _ _ _ _ Hf) in *.
  set (t := Tot.booted _ _ _) in *.
  pose proof (begin_outcome tot_files new_queue t d Hq Hw Hnm) as Hbeg.
  destruct (begin true new_queue t d) as [[q t'] d'].
  destruct Hbeg as (-> & _ & Eack & _ & _ & _ & [Hgo Hsh]%dead_removed_files).
  rewrite (ack_saved_recovered _ _ Hack) in Eack.
  cbv zeta. match goal with |- agrees ?y /\ _ => set (dv := y) end.
  assert (Ec : ckpt_count (x_ dv) = Tot.writes cp) by by injection Ep.
  enough (agrees dv) by done.
  split.
  - exact (Tot.finds_wf _ _ _ Hb Hf).
  - eapply (ckpt_saved_frame cp (Tot.cp_ t) d d'); [exact Ep| | |exact Hck];
      apply Hgo; intros s E; apply (tot_files_segment s); rewrite <- E; unfold tot_files; tauto.
  - change (fields_fit (ack_ q)). by rewrite Eack.
  - change (ack_saved (ack_ q) d'). rewrite Eack.
    eapply (ack_saved_frame a d d'); [| |exact Hack]; apply Hgo; intros s E;
      apply (segment_not_side s); rewrite <- E; unfold side_file; tauto.
  - exact (names_shrink d d' Hsh Hn).
Qed.

(** ** A new flash *)

Lemma fresh_saved (d : Disk) :
  (forall p, lfs_read p d = None) ->
  ckpt_saved Tot.zero_checkpoint d /\ ack_saved no_ack d /\ names_ok d.
Proof.
  intros Hd. split_and!.
  - right. split; [|done]. unfold recover, slot_load. by rewrite !Hd.
  - right. split; [|done]. unfold recover, slot_load. by rewrite !Hd.
  - intros name i Hr. rewrite Hd in Hr. by destruct Hr.
Qed.

Lemma no_ack_fits : fields_fit no_ack.
Proof. apply AckRec_fits. unfold is_u32. simpl. split_and!; lia. Qed.

Lemma fresh_flash_ok bid (d : Disk) h : (forall p, lfs_read p d = None) -> flash_ok bd bid d h.
Proof.
  intros Hd. destruct (fresh_saved d Hd) as (Hck & Hack & Hn).
  destruct (ckpt_saved_finds _ _ Hck) as (c & Hf & [= _ Es Eg Eo]).
  assert (E : found bd bid d h = (with_ack no_ack (with_tot true new_queue),
                                  Tot.booted bid Tot.new_totalizer c, d)).
  { unfold found. by rewrite (Tot.begin_finds _ _ _ _ _ _ Hf), (ack_saved_recovered _ _ Hack). }
  set (t := Tot.booted bid Tot.new_totalizer c) in E.
  assert (Ea : active (Disk := Disk) t = 0) by exact Eg.
  assert (Ego : good (Disk := Disk) t = 0) by exact Eo.
  assert (El : Tot.lastSeq t = 0) by exact Es.
  set (q := with_ack no_ack (with_tot true new_queue)) in E.
  assert (Eu : unacked q t d = []).
  { unfold unacked. rewrite live_unfold, Hd. by destruct (_ <=? _). }
  split; rewrite E.
  - split; rewrite ?Ea, ?Ego; cbn [q]; try done.
    + intros s Hs. change (0 <= s < 0) in Hs. lia.
    + by rewrite Hd.
    + unfold content. rewrite Hd. simpl. lia.
  - done.
  - change (active (Disk := Disk) t + 1 < 2 ^ 32). rewrite Ea. lia.
  - by rewrite El.
  - rewrite Eu. intros i j r r' _ Hi. by rewrite lookup_nil in Hi.
  - by rewrite Eu.
Qed.
End boot.

(** ** Numbers in step

    After a power cut between a row and its checkpoint one waiting row has the
    number the next row will get.  Were it acknowledged before the next row is
    recorded, that row would be taken for an acknowledged one.  The timers of
    row and push start equal, and rows are due five times as often. *)

Section step.
Context {N HW Disk U : Type} `{Preferences N} `{PcntLaws HW} `{LittleFSLaws Disk}
  `{SB : StorageBackend Disk} {SBL : StorageBackendLaws Disk} `{!ReliableFlash Disk} `{UpdaterLaws U}.
Variable bd : Build.

#[local] Abbreviation Device := (Device N HW Disk U).
#[local] Abbreviation agrees dv := (agree (x_ dv) (o_disk (x_ dv))).

Definition in_step (dv : Device) : Prop :=
  sys_inv 0 dv \/ (sys_inv 1 dv /\ acked_upto dv <= seq_ dv /\ tTelemetry dv = tPush dv).

Lemma in_step_weak (dv : Device) : in_step dv -> sys_inv 1 dv /\ acked_upto dv <= seq_ dv.
Proof.
  intros [HI|(HI & Ha & _)]; [|done]. split; [by eapply sys_weaken|]. pose proof (si_acked _ _ HI). lia.
Qed.

Lemma sys_zero (dv : Device) :
  sys_inv 1 dv -> acked_upto dv <= seq_ dv -> Forall (fun r => r_seq r <= seq_ dv) (backlog dv) ->
  sys_inv 0 dv.
Proof.
  intros [_ Hc HQ Ho _ _ Hz Hl Hre Hb] Ha Hr. split; try done; try lia.
  eapply Forall_impl; [exact Hr|]. intros r. simpl. lia.
Qed.

Lemma in_step_keeps k (dv dv' : Device) :
  keeps k dv dv' -> untouched dv dv' -> in_step dv -> in_step dv' /\ backlog dv' = backlog dv.
Proof.
  intros [_ Et Ep] Hu [HI|(HI & Ha & E)].
  - destruct (untouched_sys 0 _ _ Hu HI). split; [by left|done].
  - destruct (untouched_sys 1 _ _ Hu HI) as [HI' Eb]. split; [right|done].
    unfold acked_upto in *. rewrite (sq_queue _ _ (un_queue _ _ Hu)), (un_seq _ _ Hu), Et, Ep. by split_and!.
Qed.

Lemma u32_succ_ne z : z <> u32 (z + 1).
Proof.
  unfold u32. intros E. pose proof (Z.div_mod (z + 1) (2 ^ 32) ltac:(lia)). rewrite <- E in *.
  pose proof (Z.mod_pos_bound (z + 1) (2 ^ 32) ltac:(lia)). rewrite <- E in *. lia.
Qed.

(** The row of the cycle that starts in [dv], if one is due. *)
Definition cycle_rows (e : LoopEnv) (dv : Device) : list QRow :=
  if TELEMETRY_PERIOD_MS <=? u32 (le_now e - tTelemetry dv) then [seal_row (new_row bd e dv)] else [].

(** No push can overtake the cycle. *)
Definition row_first (e : LoopEnv) (dv : Device) : Prop :=
  sys_inv 0 dv \/ (sys_inv 1 dv /\ acked_upto dv <= seq_ dv /\ tTelemetry dv = tPush dv /\
                   network_push e dv = false).

Lemma cycle_in_step e (dv : Device) :
  in_step dv -> is_u32 (le_now e) -> seq_ dv + 1 < 2 ^ 32 -> write_segment dv + 2 < 1000000 ->
  agrees dv -> ckpt_count (x_ dv) + 2 < 2 ^ 32 ->
  let dv' := telemetry_cycle bd e dv in
  row_first e dv' /\ backlog dv' = backlog dv ++ cycle_rows e dv /\
  seq_ dv <= seq_ dv' /\ write_segment dv' <= write_segment dv + 1.
Proof.
  intros Hst Hn Hs Hw Hag Hc. destruct (in_step_weak _ Hst) as [HI Ha].
  pose proof (telemetry_spec bd 1 e dv HI Hn Hs ltac:(lia)) as Ht.
  pose proof (telemetry_agree bd 1 e dv HI Hn Hs Hw Hag Hc) as (_ & _ & _ & Ef & _).
  cbv zeta in *. unfold cycle_rows.
  destruct Ht as [[Hno E]|(Hdue & HI' & Es & _ & Ea & Hw' & (Er & _) & Hstored)].
  - rewrite E. unfold telemetry_due in Hno. rewrite (proj2 (Z.leb_gt _ _)), app_nil_r by lia.
    split_and!; [|done|lia|lia]. destruct Hst as [|(HI1 & Ha1 & Et)]; [by left|right].
    split_and!; try done. unfold network_push. rewrite <- Et. apply Z.leb_gt.
    unfold TELEMETRY_PERIOD_MS, PUSH_PERIOD_MS in *. lia.
  - set (dv' := telemetry_cycle bd e dv) in *. clearbody dv'. unfold telemetry_due in Hdue.
    rewrite (proj2 (Z.leb_le _ _)) by done. rewrite Es.
    destruct Hstored as [[Eb _]|[_ Hf]]; [|rewrite Ef in Hf; by apply u32_succ_ne in Hf].
    rewrite Er, (proj2 (Z.leb_gt _ _)) in Eb by lia. split_and!; [left|done|lia|lia].
    apply sys_zero; [done|lia|]. rewrite Eb, Es. apply Forall_app. split.
    + eapply Forall_impl; [exact (si_rows _ _ HI)|]. intros r. simpl. lia.
    + apply Forall_singleton. rewrite seal_row_seq. lia.
Qed.
End step.

(** ** The life of a device *)

Section life.
Context {N HW Disk U : Type} `{Preferences N} `{PcntLaws HW} `{LittleFSLaws Disk}
  `{SB : StorageBackend Disk} {SBL : StorageBackendLaws Disk} `{!ReliableFlash Disk} `{UpdaterLaws U}.
Variable C : Crypto.
Variable ftoa : f32 -> nat -> string.
Variable err_name : Z -> string.
Variable toInt : string -> Z.
Variable toFloat : string -> f32.
Variable bd : Build.
Variable id : Diag.BuildId.
Variable mac : Z.

#[local] Abbreviation Device := (Device N HW Disk U).
#[local] Abbreviation agrees dv := (agree (x_ dv) (o_disk (x_ dv))).
#[local] Abbreviation loop := (loop (N := N) (HW := HW) (Disk := Disk) (U := U)
  C ftoa err_name toInt toFloat bd id mac).
#[local] Abbreviation at_telemetry := (at_telemetry (N := N) (HW := HW) (Disk := Disk) (U := U)
  ftoa err_name bd id mac).
#[local] Abbreviation after_console := (after_console (N := N) (HW := HW) (Disk := Disk) (U := U)
  C ftoa toInt bd mac).
#[local] Abbreviation at_network := (at_network (N := N) (HW := HW) (Disk := Disk) (U := U)
  C ftoa err_name toInt bd id mac).

(** Neither the segment names (six digits) nor the write counters are used up;
    [k] checkpoint writes may come on top of an iteration's own. *)
Record room (k : nat) (dv : Device) : Prop := {
  rm_segment : write_segment dv + 3 < 1000000;
  rm_ckpt : ckpt_count (x_ dv) + 3 + Z.of_nat k < 2 ^ 32;
  rm_ack : ack_count (x_ dv) + 1 < 2 ^ 32;
}.

(** [dv'] comes from [dv] without a checkpoint write. *)
Lemma still (dv dv' : Device) :
  keeps 0 dv dv' -> untouched dv dv' -> in_step dv -> agrees dv -> ckpt_count (x_ dv) < 2 ^ 32 ->
  in_step dv' /\ agrees dv' /\ backlog dv' = backlog dv /\ seq_ dv' = seq_ dv /\
  write_segment dv' = write_segment dv /\ ack_count (x_ dv') = ack_count (x_ dv) /\
  ckpt_count (x_ dv') <= ckpt_count (x_ dv).
Proof.
  intros Hk Hu Hst Ha Hc. destruct (in_step_keeps _ _ _ Hk Hu Hst) as [Hst' Eb].
  destruct (keeps_agree _ _ _ Hk Ha ltac:(lia)) as (Ha' & Ek & Ec).
  split; [done|]. split; [done|].
  split_and!; [done|by apply un_seq|exact (sq_seg _ _ (un_queue _ _ Hu))|done|lia].
Qed.

Lemma after_console_step e (dv dv1 : Device) :
  regular e dv -> room 0 dv -> in_step dv -> agrees dv -> after_console e dv = (dv1, Console.Go) ->
  in_step dv1 /\ agrees dv1 /\ backlog dv1 = backlog dv /\ seq_ dv1 = seq_ dv /\
  write_segment dv1 = write_segment dv /\ ack_count (x_ dv1) = ack_count (x_ dv) /\
  ckpt_count (x_ dv1) <= ckpt_count (x_ dv).
Proof.
  intros [_ Hq _ _] [_ Hc _] Hst Ha Hac. destruct (in_step_weak _ Hst) as [HI _].
  assert (Hk : keeps 0 dv dv1).
  { unfold MainTheorems.after_console in Hac.
    set (dv0 := dv{{x_ := (x_ dv){{o_hw := pcnt_edges (le_edges e) (o_hw (x_ dv))}}}}) in Hac.
    assert (H0' : keeps 0 dv dv0) by by apply keeps_same.
    pose proof (console_keeps C ftoa toInt bd mac (le_serial e) dv0 (si_console _ _ HI) Hq) as Hk0.
    rewrite Hac in Hk0. exact (keeps_trans 0 0 _ _ _ H0' Hk0). }
  destruct (keeps_agree _ _ _ Hk Ha ltac:(lia)) as (Ha' & Ek & Ec).
  assert (Hs : forall slack, sys_inv slack dv -> sys_inv slack dv1 /\ backlog dv1 = backlog dv /\
    seq_ dv1 = seq_ dv /\ write_segment dv1 = write_segment dv /\ acked_upto dv1 = acked_upto dv).
  { intros slack HI'. pose proof (console_sys C ftoa toInt bd mac slack e dv HI' Hq) as Hs.
    rewrite Hac in Hs. destruct (Hs eq_refl) as (G1 & G2 & G3 & G4 & _ & G6). by split_and!. }
  destruct (Hs 1 HI) as (HI1 & Eb & Es & Ew & Eak).
  split; [|split; [done|split_and!; lia || done]].
  destruct Hst as [HI0|(_ & Hak & Et)]; [left; by apply Hs|right].
  rewrite Eak, Es, (kp_telemetry _ _ _ Hk), (kp_push _ _ _ Hk). by split_and!.
Qed.

(** The row an iteration records, if one is due, no console command stopped it
    and the portal is off. *)
Definition rows_of (e : LoopEnv) (dv : Device) : list QRow :=
  match after_console e dv with
  | (dv1, Console.Go) => if in_portal e dv1 then [] else cycle_rows bd e (at_telemetry e dv1)
  | _ => []
  end.

Lemma at_telemetry_keeps e (dv : Device) : keeps 0 dv (at_telemetry e dv).
Proof.
  unfold MainTheorems.at_telemetry. eapply (keeps_trans 0 0); [apply wifi_keeps|].
  eapply (keeps_trans 0 0); [apply api_keeps|apply ct_keeps].
Qed.

Lemma reach_network e (dv dv1 : Device) :
  regular e dv -> room 0 dv -> in_step dv -> agrees dv -> after_console e dv = (dv1, Console.Go) ->
  let dvn := at_network e dv in
  row_first e dvn /\ agrees dvn /\ backlog dvn = backlog dv ++ cycle_rows bd e (at_telemetry e dv1) /\
  seq_ dv <= seq_ dvn /\ write_segment dvn <= write_segment dv + 1 /\
  ack_count (x_ dvn) = ack_count (x_ dv) /\ ckpt_count (x_ dvn) <= ckpt_count (x_ dv) + 2.
Proof.
  intros Hreg Hrm Hst Ha Hac.
  destruct (after_console_step e dv dv1 Hreg Hrm Hst Ha Hac) as (Hst1 & Ha1 & Eb1 & Es1 & Ew1 & Ek1 & Ec1).
  destruct Hreg as [Hn _ Hs Hw], Hrm as [Hsg Hc _].
  unfold MainTheorems.at_network. rewrite Hac. cbn [fst].
  destruct (still _ _ (at_telemetry_keeps e dv1) (at_telemetry_untouched ftoa err_name bd id mac e dv1)
    Hst1 Ha1 ltac:(lia)) as (Hst2 & Ha2 & Eb2 & Es2 & Ew2 & Ek2 & Ec2).
  set (dv2 := at_telemetry e dv1) in *. clearbody dv2.
  destruct (cycle_in_step bd e dv2 Hst2 Hn ltac:(lia) ltac:(lia) Ha2 ltac:(lia)) as (Hst3 & Eb3 & Es3 & Ew3).
  destruct (telemetry_agree bd 1 e dv2 (proj1 (in_step_weak _ Hst2)) Hn ltac:(lia) ltac:(lia) Ha2 ltac:(lia))
    as (Ha3 & Ek3 & Ec3 & _). cbv zeta in *.
  set (dv3 := telemetry_cycle bd e dv2) in *. clearbody dv3.
  pose proof (clear_streak_keeps (le_now e) dv3) as Hk4.
  pose proof (clear_streak_untouched (le_now e) dv3) as Hu4.
  set (dv4 := clear_streak (le_now e) dv3) in *. clearbody dv4.
  destruct (keeps_agree _ _ _ Hk4 Ha3 ltac:(lia)) as (Ha4 & Ek4 & Ec4).
  assert (Eb4 : backlog dv4 = backlog dv3).
  { destruct Hst3 as [HI3|(HI3 & _)]; eapply untouched_sys; [exact Hu4|exact HI3|exact Hu4|exact HI3]. }
  assert (Ew4 : write_segment dv4 = write_segment dv3) by exact (sq_seg _ _ (un_queue _ _ Hu4)).
  pose proof (un_seq _ _ Hu4) as Es4.
  split; [|split; [done|split_and!; [congruence|lia|lia|lia|lia]]].
  destruct Hst3 as [HI3|(HI3 & Hak & Et & Hp)]; [left; by eapply untouched_sys|right].
  split_and!; [by eapply untouched_sys| | |].
  - unfold acked_upto in *. by rewrite (sq_queue _ _ (un_queue _ _ Hu4)), Es4.
  - by rewrite (kp_telemetry _ _ _ Hk4), (kp_push _ _ _ Hk4).
  - unfold network_push in *. by rewrite (kp_push _ _ _ Hk4).
Qed.

Lemma quiet_network e (dv : Device) log dv' k :
  network_push e dv = false -> network C toFloat bd e dv = Some (log, dv', k) -> untouched dv dv'.
Proof.
  intros Hp. rewrite network_cases, Hp. destruct (CONFIG_POLL_MS <=? _).
  { pose proof (config_untouched toFloat bd e dv) as Hu. destruct (config_step toFloat bd e dv).
    by intros [= _ <- _]. }
  destruct (OTA_POLL_MS <=? _); [intros Hr; exact (ota_untouched C bd e dv _ Hr)|].
  by intros [= _ <- _].
Qed.

Lemma push_segment e (dv : Device) : write_segment (push_step bd e dv).2 = write_segment dv.
Proof.
  unfold push_step. destruct (Sync.pushOnce bd _ _ _ _ _ _ _) as [[[[[ok log] s] q] d] n]. cbn [snd].
  match goal with |- context [signal_healthy ok ?rc ?y] => pose proof (signal_untouched ok rc y) as Hu end.
  exact (sq_seg _ _ (un_queue _ _ Hu)).
Qed.

Lemma network_segment e (dv : Device) log dv' k :
  network C toFloat bd e dv = Some (log, dv', k) -> write_segment dv' = write_segment dv.
Proof.
  intros Hnet. destruct (network_push e dv) eqn:Hp.
  - rewrite network_cases, Hp in Hnet. pose proof (push_segment e dv) as Hs.
    destruct (push_step bd e dv). by injection Hnet as _ <- _.
  - exact (sq_seg _ _ (un_queue _ _ (quiet_network _ _ _ _ _ Hp Hnet))).
Qed.

(** One iteration that the console lets go on, whatever ends it: the row it
    records waits, and only delivered rows leave. *)
Lemma iteration_records e (dv dv1 : Device) log dv' k :
  regular e dv -> room (length (le_ota_bg e)) dv -> in_step dv -> agrees dv ->
  after_console e dv = (dv1, Console.Go) -> loop e dv = Some (log, dv', k) ->
  in_step dv' /\ agrees dv' /\ seq_ dv <= seq_ dv' /\ write_segment dv' <= write_segment dv + 1 /\
  kept_or_delivered bd e log (backlog dv ++ rows_of e dv) (backlog dv').
Proof.
  intros Hreg Hrm Hst Ha Hac Hloop. apply loop_cases in Hloop. unfold rows_of. rewrite Hac in Hloop |- *.
  assert (Hrm0 : room 0 dv) by (destruct Hrm; split; lia).
  destruct Hloop as [(Hk & _ & -> & _)|[(_ & -> & -> & r & Hp & <-)|(_ & -> & Hnet)]]; [done| |].
  - destruct (after_console_step e dv dv1 Hreg Hrm0 Hst Ha Hac) as (Hst1 & Ha1 & Eb1 & Es1 & Ew1 & _ & Ec1).
    pose proof (wifi_untouched (le_wifi_connected e) (le_wifi_now e) (le_rnd e) dv1) as Hu1.
    pose proof (wifi_keeps (le_wifi_connected e) (le_wifi_now e) (le_rnd e) dv1) as Hk1.
    destruct (provisioning_untouched _ _ _ _ Hp) as [Hu2 _].
    pose proof (keeps_trans _ _ _ _ _ Hk1 (provisioning_keeps _ _ _ _ Hp)) as Hk2.
    pose proof (transitivity Hu1 Hu2) as Hu3.
    destruct (in_step_keeps _ _ _ Hk2 Hu3 Hst1) as [Hst2 Eb2].
    destruct (keeps_agree _ _ _ Hk2 Ha1) as (Ha2 & _); [pose proof (rm_ckpt _ _ Hrm); lia|].
    pose proof (un_seq _ _ Hu3). assert (Ew2 : write_segment r.1.2 = write_segment dv1) by exact (sq_seg _ _ (un_queue _ _ Hu3)).
    split; [done|]. split; [done|]. split; [lia|]. split; [lia|].
    rewrite app_nil_r, <- Eb1, <- Eb2. apply same_kept.
  - destruct (reach_network e dv dv1 Hreg Hrm0 Hst Ha Hac) as (Hf & Han & Eb & Es & Ew & Ek & Ec).
    cbv zeta in *. pose proof (network_segment _ _ _ _ _ Hnet) as Ews.
    set (dvn := at_network e dv) in *. clearbody dvn. rewrite <- Eb.
    destruct Hrm as [R1 R2 R3].
    assert (Hsys : exists slack, sys_inv slack dvn) by (destruct Hf as [|[]]; eauto).
    destruct Hsys as [slack HI].
    destruct (network_agree bd C toFloat e dvn log dv' k (si_queue _ _ HI) ltac:(lia)
      (si_boot _ _ HI) Han ltac:(lia) ltac:(lia) Hnet) as (Ha' & _ & _ & Htm).
    destruct Hf as [HI0|(HI1 & Hak & Et & Hp)].
    + destruct (network_spec bd 0 C toFloat e dvn log dv' k HI0 ltac:(lia) Hnet) as (HI' & Es' & _ & Hk).
      split; [by left|]. split; [done|]. split; [lia|]. split; [lia|done].
    + destruct (network_spec bd 1 C toFloat e dvn log dv' k HI1 ltac:(lia) Hnet) as (HI' & Es' & _ & Hk).
      pose proof (quiet_network _ _ _ _ _ Hp Hnet) as Hu. destruct (Htm Hp) as [Et' Ep'].
      split; [right|split; [done|split; [lia|split; [lia|done]]]]. split; [done|]. split; [|congruence].
      unfold acked_upto in *. rewrite (sq_queue _ _ (un_queue _ _ Hu)). lia.
Qed.

(** ... and one that ends in the next. *)
Lemma loop_records e (dv : Device) log dv' :
  regular e dv -> room (length (le_ota_bg e)) dv -> in_step dv -> agrees dv ->
  loop e dv = Some (log, dv', Console.Go) ->
  in_step dv' /\ agrees dv' /\ seq_ dv <= seq_ dv' /\
  kept_or_delivered bd e log (backlog dv ++ rows_of e dv) (backlog dv').
Proof.
  intros Hreg Hrm Hst Ha Hloop. destruct (after_console e dv) as [dv1 k1] eqn:Hac.
  assert (k1 = Console.Go) as ->.
  { apply loop_cases in Hloop. rewrite Hac in Hloop. by destruct Hloop as [(Hk & _)|[(-> & _)|(-> & _)]]. }
  destruct (iteration_records e dv dv1 log dv' Console.Go Hreg Hrm Hst Ha Hac Hloop) as (? & ? & ? & _ & ?).
  done.
Qed.

(** What a restart or a hang leaves to the next boot. *)
Record left_off (dv dvc : Device) : Prop := {
  lo_resumable : resumable dvc;
  lo_agrees : agrees dvc;
  lo_segment : write_segment dvc <= write_segment dv + 1;
  lo_number : seq_ dv <= resume_floor dvc;
}.

(** A console command that restarts or hangs the device changes no row. *)
Lemma console_stops e (dv : Device) :
  regular e dv -> room 0 dv -> in_step dv -> agrees dv ->
  left_off dv (after_console e dv).1 /\ backlog (after_console e dv).1 = backlog dv.
Proof.
  intros [_ Hq _ _] [_ Hc _] Hst Ha. destruct (in_step_weak _ Hst) as [HI _].
  unfold MainTheorems.after_console.
  set (dv0 := dv{{x_ := (x_ dv){{o_hw := pcnt_edges (le_edges e) (o_hw (x_ dv))}}}}).
  assert (Hk0 : keeps 0 dv dv0) by by apply keeps_same.
  pose proof (keeps_trans 0 0 _ _ _ Hk0
    (console_keeps C ftoa toInt bd mac (le_serial e) dv0 (si_console _ _ HI) Hq)) as Hk.
  pose proof (console_service_keeps C ftoa toInt bd mac (le_serial e) dv0 (si_console _ _ HI) Hq) as Hs.
  destruct (console_service _ _ _ _ _ _ dv0) as [dv1 k]. destruct Hs as ([n Ex] & Es & _). cbn [fst] in *.
  destruct (keeps_agree _ _ _ Hk Ha ltac:(lia)) as (Ha1 & _).
  assert (Hsq : same_queue (x_ dv) (x_ dv1)) by (rewrite Ex; by split).
  destruct (same_rows_inv _ _ (sq_rows _ _ Hsq) (si_queue _ _ HI)) as [HQ Eb].
  assert (Ebl : backlog dv1 = backlog dv) by exact Eb.
  assert (Ef : resume_floor dv1 = resume_floor dv)
    by (unfold resume_floor, acked_upto; by rewrite (sq_queue _ _ Hsq), (sq_last _ _ Hsq)).
  pose proof (sys_resumable _ _ HI) as [_ Ho Hr Hz]. pose proof (si_resume _ _ HI).
  split; [|exact Ebl]. split; [|done|..].
  - split; [done|by rewrite Ebl|by rewrite Ebl, Ef|by rewrite (sq_last _ _ Hsq)].
  - assert (Ew : write_segment dv1 = write_segment dv) by exact (sq_seg _ _ Hsq). lia.
  - rewrite Ef. unfold resume_floor. lia.
Qed.

(** An iteration that ends in a restart or a hang. *)
Lemma loop_stops e (dv : Device) log dv' k :
  regular e dv -> room (length (le_ota_bg e)) dv -> in_step dv -> agrees dv ->
  loop e dv = Some (log, dv', k) ->
  left_off dv dv' /\ kept_or_delivered bd e log (backlog dv ++ rows_of e dv) (backlog dv').
Proof.
  intros Hreg Hrm Hst Ha Hloop. destruct (after_console e dv) as [dv1 k1] eqn:Hac.
  destruct (decide (k1 = Console.Go)) as [->|Hne].
  - destruct (iteration_records e dv dv1 log dv' k Hreg Hrm Hst Ha Hac Hloop) as (Hst' & Ha' & Hs & Hw & Hk).
    split; [|done]. destruct (in_step_weak _ Hst') as [HI' _]. split; [by eapply sys_resumable|done|done|].
    pose proof (si_resume _ _ HI'). unfold resume_floor. lia.
  - apply loop_cases in Hloop. rewrite Hac in Hloop.
    destruct Hloop as [(_ & -> & _ & ->)|[(? & _)|(? & _)]]; [|done..].
    assert (Hrm0 : room 0 dv) by (destruct Hrm; split; lia).
    destruct (console_stops e dv Hreg Hrm0 Hst Ha) as [Hl Eb]. unfold rows_of. rewrite Hac in *.
    split; [done|]. cbn [fst] in Eb. rewrite Eb. destruct k1; [done|rewrite app_nil_r; apply same_kept..].
Qed.

Lemma agree_half_pruned cs (x x' : Objects N HW Disk) (d : Disk) :
  agree x' (o_disk x') -> names_ok (o_disk x) -> half_pruned cs (o_disk x) (o_disk x') d -> agree x' d.
Proof.
  intros [Hwf Hck Hf Hk Hn] Hn0 [Hor Hsame]. split; [done| |done| |].
  - eapply ckpt_saved_frame; [done| | |exact Hck]; apply Hsame; intros s _ E;
      apply (tot_files_segment s); rewrite <- E; unfold tot_files; tauto.
  - eapply ack_saved_frame; [| |exact Hk]; apply Hsame; intros s _ E;
      apply (segment_not_side s); rewrite <- E; unfold side_file; tauto.
  - intros name i Hr. destruct (Hor (SD_QUEUE_DIR +:+ "/" +:+ name)) as [E|E]; rewrite E in Hr;
      [by apply Hn|by apply Hn0].
Qed.

(** Wherever the power fails, the flash knows what the device knew. *)
Lemma cut_agrees (dv : Device) k tr (dvc : Device) :
  room k dv -> in_step dv -> agrees dv -> cut_at C ftoa err_name toInt bd id mac dv k tr dvc ->
  agrees dvc /\ write_segment dvc <= write_segment dv + 1.
Proof.
  intros Hrm Hst Ha Hcut.
  assert (Hrm0 : room 0 dv) by (destruct Hrm; split; lia).
  destruct Hcut as [|e dv1 Hreg Hac Hdue|e dv1 l Hreg Hac _|e dv1 log dva d Hreg Hac Hpush Hd]; [split; [done|lia]| | |].
  - destruct (after_console_step e dv dv1 Hreg Hrm0 Hst Ha Hac) as (Hst1 & Ha1 & _ & Es1 & Ew1 & _ & Ec1).
    destruct Hrm as [R1 R2 _], Hreg as [Hn _ Hs _].
    destruct (still _ _ (at_telemetry_keeps e dv1) (at_telemetry_untouched ftoa err_name bd id mac e dv1)
      Hst1 Ha1 ltac:(lia)) as (Hst2 & Ha2 & _ & Es2 & Ew2 & _ & Ec2).
    set (dv2 := at_telemetry e dv1) in *. clearbody dv2.
    pose proof (proj1 (in_step_weak _ Hst2)) as HI2.
    destruct (appended_agree bd 1 e dv2 HI2 Hn ltac:(lia) ltac:(lia) Ha2 ltac:(lia)) as (Ha3 & _).
    destruct (appended_spec bd 1 e dv2 HI2 Hn ltac:(lia) ltac:(lia)) as (_ & _ & _ & _ & _ & _ & Ew3 & _).
    split; [exact Ha3|lia].
  - destruct (reach_network e dv dv1 Hreg Hrm0 Hst Ha Hac) as (_ & Han & _ & _ & Ew & _ & Ec). cbv zeta in *.
    set (dvn := at_network e dv) in *. clearbody dvn. pose proof (rm_ckpt _ _ Hrm).
    destruct (keeps_agree _ _ _ (background_calls_keeps l dvn) Han ltac:(lia)) as (Hab & _).
    split; [exact Hab|]. rewrite <- Ew. apply Z.eq_le_incl.
    exact (sq_seg _ _ (un_queue _ _ (background_calls_untouched l dvn))).
  - destruct (reach_network e dv dv1 Hreg Hrm0 Hst Ha Hac) as (Hf & Han & _ & _ & Ew & Ek & Ec). cbv zeta in *.
    set (dvn := at_network e dv) in *. clearbody dvn. destruct Hrm as [R1 R2 R3].
    assert (Hsys : exists slack, sys_inv slack dvn) by (destruct Hf as [|[]]; eauto).
    destruct Hsys as [slack HI].
    destruct (push_agree bd e dvn (si_queue _ _ HI) ltac:(lia) (si_boot _ _ HI) Han ltac:(lia) ltac:(lia)) as [Hap _].
    pose proof (push_segment e dvn) as Ews. rewrite Hpush in Hap, Ews. cbn [snd] in Hap, Ews.
    split; [|change (write_segment dva <= write_segment dv + 1); lia].
    apply (agree_ext (x_ dva)); [done|done|].
    exact (agree_half_pruned _ (x_ dvn) (x_ dva) d Hap (ag_names _ _ Han) Hd).
Qed.

(** A boot from the flash of [dvc], which its last write may have torn. *)
Lemma boot_resumed (dvc : Device) d e (n : N) h u g (dv' : Device) :
  resumable dvc -> agrees dvc -> write_segment dvc + 1 < 1000000 ->
  torn (x_ dvc) d -> unattended e -> setup C ftoa toInt bd mac e n d h u g = Some (Booted dv') ->
  in_step dv' /\ agrees dv' /\ backlog dv' = backlog dvc /\ seq_ dv' = resume_floor dvc.
Proof.
  intros Hres Hac Hwc Htorn Hun Hset.
  pose proof (torn_agree (x_ dvc) d (rs_queue _ Hres) Hwc Htorn Hac) as Had.
  pose proof (torn_left _ _ (rs_queue _ Hres) Htorn Had) as Hl.
  assert (Hwc2 : write_segment dvc + 1 < 2 ^ 32) by lia.
  destruct (resumable_boot C ftoa toInt bd mac dvc d e n h u g dv' Hres Hl Hwc2 Hun Hset) as (HI' & Eb & Es & Eak).
  destruct (setup_untouched _ _ _ _ _ _ _ _ _ _ _ _ Hun Hset) as [(n' & Hu & Hk) _].
  pose proof (recovered_agree (U := U) bd (St.begin bd n).1 n' h d u g e _ _ (begin_bootId bd n)
    (left_flash_ok bd _ dvc d h Hl Hres Hwc2) (ag_ckpt _ _ Had) (ag_fit _ _ Had) (ag_ack _ _ Had)
    (ag_names _ _ Had)) as Hrec.
  cbv zeta in Hrec. set (dv0 := recovered bd (St.begin bd n).1 n' h d u g e) in *. clearbody dv0.
  destruct Hrec as (Ha0 & Ec0 & Et0 & Ep0).
  assert (Hcc : ckpt_count (x_ dv0) < 2 ^ 32).
  { rewrite Ec0. exact (proj2 (Tot.fits_writes _ (ag_wf _ _ Had))). }
  destruct (keeps_agree _ _ _ Hk Ha0 ltac:(lia)) as (Ha' & _ & _).
  split; [right|split_and!; done]. split; [done|]. split.
  - rewrite Eak, Es. unfold resume_floor. lia.
  - by rewrite (kp_telemetry _ _ _ Hk), (kp_push _ _ _ Hk), Et0, Ep0.
Qed.

Lemma boot_step (dv : Device) k tr (dvc : Device) d e (n : N) h u g (dv' : Device) :
  room k dv -> in_step dv -> agrees dv -> cut_at C ftoa err_name toInt bd id mac dv k tr dvc ->
  torn (x_ dvc) d -> unattended e -> setup C ftoa toInt bd mac e n d h u g = Some (Booted dv') ->
  in_step dv' /\ agrees dv' /\ seq_ dv <= seq_ dv' /\
  (forall r, r ∈ backlog dv -> r ∈ backlog dv' \/ delivered_in bd tr r).
Proof.
  intros Hrm Hst Ha Hcut Htorn Hun Hset. destruct (in_step_weak _ Hst) as [HI _].
  destruct (cut_agrees dv k tr dvc Hrm Hst Ha Hcut) as [Hac Hw].
  destruct (cut_resumable C ftoa err_name toInt bd id mac 1 dv k tr dvc HI Hcut) as (Hres & Hsub & Hseq).
  pose proof (rm_segment _ _ Hrm).
  destruct (boot_resumed dvc d e n h u g dv' Hres Hac ltac:(lia) Htorn Hun Hset) as (Hst' & Ha' & Eb & Es).
  split; [done|]. split; [done|]. split; [by rewrite Es|by rewrite Eb].
Qed.

(** A device on a new flash is in order. *)
Lemma new_device e (n : N) (d : Disk) h u g (dv : Device) :
  (forall p, lfs_read p d = None) -> unattended e ->
  setup C ftoa toInt bd mac e n d h u g = Some (Booted dv) -> in_step dv /\ agrees dv.
Proof.
  intros Hd Hun Hset. destruct (fresh_saved d Hd) as (Hck & Hack & Hn).
  pose proof (fresh_flash_ok bd (bootId (St.begin bd n).1) d h Hd) as Hok.
  pose proof (setup_state _ _ _ _ _ _ _ _ _ _ _ _ Hok Hun Hset) as Hs. cbv zeta in Hs.
  destruct (found bd _ d h) as [[q t] d1] eqn:Ef. destruct Hs as (HI & _ & Es & Eak & _).
  destruct (setup_untouched _ _ _ _ _ _ _ _ _ _ _ _ Hun Hset) as [(n' & _ & Hk) _].
  pose proof (recovered_agree (U := U) bd (St.begin bd n).1 n' h d u g e _ _ (begin_bootId bd n) Hok
    Hck no_ack_fits Hack Hn) as Hrec.
  cbv zeta in Hrec. set (dv0 := recovered bd (St.begin bd n).1 n' h d u g e) in *. clearbody dv0.
  destruct Hrec as (Ha0 & Ec0 & Et0 & Ep0).
  destruct (keeps_agree _ _ _ Hk Ha0 ltac:(rewrite Ec0; done)) as (Ha' & _ & _).
  split; [right|done]. split; [done|]. split; [lia|].
  by rewrite (kp_telemetry _ _ _ Hk), (kp_push _ _ _ Hk), Et0, Ep0.
Qed.

(** A life from [dv] to [dv']: iterations, in which the rows [rows] were
    recorded and the requests [tr] were made; restarts the program asks for
    (console, portal, update) and hangs the watchdog ends; power cuts. *)
Inductive endures : Device -> list QRow -> list (LoopEnv * list HttpReq) -> Device -> Prop :=
  | endures_start dv : endures dv [] [] dv
  | endures_iteration dv rows tr dv1 e log dv2 :
      endures dv rows tr dv1 -> regular e dv1 -> room (length (le_ota_bg e)) dv1 ->
      loop e dv1 = Some (log, dv2, Console.Go) ->
      endures dv (rows ++ rows_of e dv1) (tr ++ [(e, log)]) dv2
  | endures_restart dv rows tr dv1 e log dvc k d eb n h u g dv2 :
      endures dv rows tr dv1 -> regular e dv1 -> room (length (le_ota_bg e)) dv1 ->
      loop e dv1 = Some (log, dvc, k) -> k <> Console.Go ->
      torn (x_ dvc) d -> unattended eb -> setup C ftoa toInt bd mac eb n d h u g = Some (Booted dv2) ->
      endures dv (rows ++ rows_of e dv1) (tr ++ [(e, log)]) dv2
  | endures_power_cut dv rows tr dv1 k trc dvc d e n h u g dv2 :
      endures dv rows tr dv1 -> room k dv1 -> cut_at C ftoa err_name toInt bd id mac dv1 k trc dvc ->
      torn (x_ dvc) d -> unattended e -> setup C ftoa toInt bd mac e n d h u g = Some (Booted dv2) ->
      endures dv rows (tr ++ trc) dv2.

(** Rows kept so far and through one more iteration. *)
Lemma then_kept (l l1 rows fresh l2 : list QRow) tr e log :
  (forall r, r ∈ l ++ rows -> r ∈ l1 \/ delivered_in bd tr r) ->
  (forall r, r ∈ l1 ++ fresh -> r ∈ l2 \/ delivered bd (N := N) e log r) ->
  forall r, r ∈ l ++ rows ++ fresh -> r ∈ l2 \/ delivered_in bd (N := N) (tr ++ [(e, log)]) r.
Proof.
  intros Hk1 Hk2 r Hr.
  assert (Hnow : r ∈ l1 ++ fresh -> r ∈ l2 \/ delivered_in bd (N := N) (tr ++ [(e, log)]) r).
  { intros Hin. destruct (Hk2 r Hin) as [|Hd]; [by left|right]. exists e, log. split; [set_solver|done]. }
  rewrite app_assoc in Hr. apply elem_of_app in Hr as [Hr|Hr]; [|apply Hnow; set_solver].
  destruct (Hk1 r Hr) as [Hb|Hd]; [apply Hnow; set_solver|right].
  eapply delivered_in_mono; [|exact Hd]. set_solver.
Qed.

(** C1: end to end, on flash that works.  Over any life of iterations, restarts
    (asked for by the console, the portal or an update, or forced by the
    watchdog) and power cuts, each of which finds at most the next row and the
    next slot partly written and may be followed by boots that lose power
    again, every row that
    waited at its beginning and every row a telemetry cycle recorded is still
    waiting at its end, or it (or a row with its number) went out in a batch
    that the server acknowledged in a 200 reply with a number at least the
    row's.  In particular no row is lost to a failed write, to a torn slot or
    to a number that had been acknowledged.  The flash agrees with the device
    again after every boot, and the numbers never go back. *)
Theorem recorded_rows_endure (dv : Device) rows tr dv' :
  endures dv rows tr dv' -> in_step dv -> agrees dv ->
  in_step dv' /\ agrees dv' /\ seq_ dv <= seq_ dv' /\
  forall r, r ∈ backlog dv ++ rows -> r ∈ backlog dv' \/ delivered_in bd tr r.
Proof.
  intros Hl Hst Ha.
  induction Hl as [dv|dv rows tr dv1 e log dv2 _ IH Hreg Hrm Hloop|dv rows tr dv1 e log dvc k d eb n h u g dv2 _ IH Hreg Hrm Hloop _ Htorn Hun Hset|
    dv rows tr dv1 k trc dvc d e n h u g dv2 _ IH Hrm Hcut Htorn Hun Hset].
  - split; [done|]. split; [done|]. split; [lia|]. intros r Hr. left. by rewrite app_nil_r in Hr.
  - destruct (IH Hst Ha) as (Hst1 & Ha1 & Hs1 & Hk1).
    destruct (loop_records e dv1 log dv2 Hreg Hrm Hst1 Ha1 Hloop) as (Hst2 & Ha2 & Hs2 & Hk2 & _).
    split; [done|]. split; [done|]. split; [lia|]. by eapply then_kept.
  - destruct (IH Hst Ha) as (Hst1 & Ha1 & Hs1 & Hk1).
    destruct (loop_stops e dv1 log dvc k Hreg Hrm Hst1 Ha1 Hloop) as ([Hres Hac Hw Hf] & Hk2 & _).
    pose proof (rm_segment _ _ Hrm).
    destruct (boot_resumed dvc d eb n h u g dv2 Hres Hac ltac:(lia) Htorn Hun Hset) as (Hst2 & Ha2 & Eb & Es).
    split; [done|]. split; [done|]. split; [lia|]. rewrite Eb. by eapply then_kept.
  - destruct (IH Hst Ha) as (Hst1 & Ha1 & Hs1 & Hk1).
    destruct (boot_step dv1 k trc dvc d e n h u g dv2 Hrm Hst1 Ha1 Hcut Htorn Hun Hset) as (Hst2 & Ha2 & Hs2 & Hsub).
    split; [done|]. split; [done|]. split; [lia|]. intros r Hr. destruct (Hk1 r Hr) as [Hb|Hd].
    + destruct (Hsub r Hb) as [|Hd]; [by left|right]. eapply delivered_in_mono; [|exact Hd]. set_solver.
    + right. eapply delivered_in_mono; [|exact Hd]. set_solver.
Qed.
End life.
