(* ===== verification/Delivery.v ===== *)
(** * Delivery

    While the server is reachable and acknowledges what it receives, every row
    that waits reaches it within a time that depends on the backlog only. *)

From coqutil Require Import Datatypes.RecordSetters.
From S2P Require Import Prelude Config Arduino Crc32 Records Storage DualSlot Parse Sensors Boot Store Totalizer QueueData Queue QueueSpec QueueRefine QueueBoot QueueTheorems OtaPolicy Telemetry Net Sync SyncTheorems Ota OtaTheorems Diagnostics LocalApi LanTheorems WifiProvision Provision ConsoleTheorems Main MainInv MainTheorems BootTheorems PowerTheorems.
Import St EventQueue DoubleBraceUpdate Main.

(** ** What only a push changes *)

Section calm.
Context {N HW Disk U : Type} `{Preferences N} `{Pcnt HW} `{LittleFS Disk}
  `{SB : StorageBackend Disk} `{Updater U}.

#[local] Abbreviation Device := (Device N HW Disk U).
Implicit Types dv : Device.

(** The mode and the three timers of the network slot. *)
Record clocks dv dv' : Prop := {
  ck_portal : portal_ dv' = portal_ dv;
  ck_push : tPush dv' = tPush dv;
  ck_config : tConfig dv' = tConfig dv;
  ck_ota : tOta dv' = tOta dv;
}.

(** ... and the identity, the push back-off and the telemetry timer. *)
Record calm dv dv' : Prop := {
  cm_clocks :> clocks dv dv';
  cm_store : o_store (x_ dv') = o_store (x_ dv);
  cm_backoff : Sync.pushBackoffMs_ (o_sync (x_ dv')) = Sync.pushBackoffMs_ (o_sync (x_ dv));
  cm_telemetry : tTelemetry dv' = tTelemetry dv;
}.

#[export] Instance clocks_preorder : PreOrder clocks.
Proof. split; [by split|]. intros x y z [] []. split; congruence. Qed.

#[export] Instance calm_preorder : PreOrder calm.
Proof.
  split; [by repeat split|]. intros x y z [] []. split; [by etransitivity|congruence..].
Qed.

Lemma wifi_calm c now rnd dv : calm dv (wifi_service c now rnd dv).
Proof.
  unfold wifi_service, Sync.wifiService. destruct (Sync.wifiAuthorityPaused_ _); [by repeat split|].
  destruct c; [by repeat split|]. by destruct (_ <? _).
Qed.

Lemma api_calm ftoa err_name bd id mac e dv : calm dv (api_service ftoa err_name bd id mac e dv).
Proof.
  unfold api_service. destruct (api_ dv) as [l|]; [|done]. unfold Lan.service.
  destruct (Lan.ae_request _) as [[[[h body] r] sn]|].
  - destruct (Lan.handle _ _ _ _ _ h body r sn l (x_ dv)) as [resp n].
    destruct (1000 <=? _); [destruct (if negb _ && _ then _ else _)|]; by repeat split.
  - destruct (1000 <=? _); [destruct (if negb _ && _ then _ else _)|]; by repeat split.
Qed.

Lemma ct_calm bd e dv : calm dv (ct_service bd e dv).
Proof. unfold ct_service. destruct (SENSOR_MODE bd); [done|]. destruct (Ct.service _ _ _). by repeat split. Qed.

Lemma clear_streak_calm now dv : calm dv (clear_streak now dv).
Proof. unfold clear_streak. by destruct (_ && _). Qed.

Lemma signal_calm b rc dv : calm dv (signal_healthy b rc dv).
Proof.
  unfold signal_healthy. destruct (b && _); [|done]. by destruct (Ota.confirmHealthyBoot rc _ _).
Qed.

(** A configuration poll moves its own timer only. *)
Lemma config_calm toFloat bd e dv :
  let dv' := (config_step toFloat bd e dv).2 in
  calm dv dv'{{tConfig := tConfig dv}} /\ tConfig dv' = le_now e.
Proof.
  unfold config_step. destruct (Sync.pollConfig toFloat bd _ _ _) as [[log s] n] eqn:E. cbn [snd].
  assert (Eb : Sync.pushBackoffMs_ s = Sync.pushBackoffMs_ (o_sync (x_ dv))).
  { revert E. unfold Sync.pollConfig. destruct (negb _); [by intros [= _ <- _]|].
    destruct (Sync.ce_net _ _) as [rep|]; [destruct (rp_code rep =? 200)|]; by intros [= _ <- _]. }
  match goal with |- context [signal_healthy ?b ?rc ?d] => pose proof (signal_calm b rc d) as [Hk K5 K6 K7] end.
  destruct Hk as [K1 K2 K3 K4]. split; [split; [by split|exact K5|exact (eq_trans K6 Eb)|exact K7]|].
  unfold signal_healthy. destruct (_ && _); [by destruct (Ota.confirmHealthyBoot _ _ _)|done].
Qed.

Lemma background_calm l dv : calm dv (background_calls l dv).
Proof.
  revert dv. induction l as [|[[now n1] n2] l IH]; intros dv; [done|].
  etransitivity; [|apply IH]. unfold covioBackgroundService. destruct (_ <=? _); [|done].
  destruct (Tot.service _ _ _ _ _ _) as [[? ?] ?]. by repeat split.
Qed.

(** An OTA poll that does not restart moves its own timer only. *)
Lemma ota_calm C bd e dv log dv' :
  ota_step C bd e dv = Some (log, dv', Console.Go) ->
  calm dv dv'{{tOta := tOta dv}} /\ tOta dv' = le_now e.
Proof.
  unfold ota_step. destruct (Ota.poll C bd _ _ _ _ _) as [[[[l o] u] restarted]|]; [|done].
  set (dv0 := dv{{tOta := le_now e; upd_ := u}}).
  pose proof (background_calm (le_ota_bg e) dv0) as [[K1 K2 K3 K4] K5 K6 K7].
  set (dv1 := background_calls _ dv0) in *. clearbody dv1.
  destruct restarted; [done|]. intros [= _ <-]. split; [split; [by split|exact K5|exact K6|exact K7]|exact K4].
Qed.

Lemma console_calm C ftoa toInt bd mac input dv :
  (exists n, x_ (console_service C ftoa toInt bd mac input dv).1 = Lan.with_nvs n (x_ dv)) ->
  calm dv (console_service C ftoa toInt bd mac input dv).1.
Proof.
  unfold console_service. destruct (Console.service _ _ _ _ _ input _ _ _) as [[[[? ?] x] ?] ?].
  cbn [fst]. intros [n E]. change (x = Lan.with_nvs n (x_ dv)) in E. subst x. by repeat split.
Qed.

Lemma quality_calm bd total now row dv : calm dv (stamp_quality bd total now row dv).2.
Proof. unfold stamp_quality. by destruct (negb _). Qed.

Lemma append_calm ms row dv : calm dv (append_row ms row dv).
Proof.
  unfold append_row. destruct ms as [[? ?] ?]. by destruct (append _ _ _ _ _ _ _) as [[? ?] ?].
Qed.

Lemma checkpoint_calm n1 n2 dv : calm dv (checkpoint n1 n2 dv).
Proof. unfold checkpoint. by destruct (Tot.service _ _ _ _ _ _) as [[? ?] ?]. Qed.

(** The telemetry cycle moves its own timer only. *)
Lemma telemetry_calm bd e dv :
  let dv' := telemetry_cycle bd e dv in
  calm dv dv'{{tTelemetry := tTelemetry dv}} /\
  tTelemetry dv' = (if TELEMETRY_PERIOD_MS <=? u32 (le_now e - tTelemetry dv) then le_now e
                    else tTelemetry dv).
Proof.
  cbv zeta. unfold telemetry_cycle. destruct (_ <=? _); [|by split].
  set (dv0 := dv{{tTelemetry := le_now e; seq_ := _}}).
  assert (Hd0 : calm dv dv0{{tTelemetry := tTelemetry dv}}) by by split.
  assert (E0 : tTelemetry dv0 = le_now e) by done. clearbody dv0. unfold build_row.
  match goal with |- context [stamp_quality bd ?a ?b ?r dv0] =>
    pose proof (quality_calm bd a b r dv0) as Hc1; destruct (stamp_quality bd a b r dv0) as [row dv1] end.
  pose proof (append_calm (le_append e) row dv1) as Hc2.
  set (dv2 := append_row (le_append e) row dv1) in *. clearbody dv2.
  pose proof (checkpoint_calm (le_tot_n1 e) (le_tot_n2 e) dv2) as Hc3.
  set (dv3 := checkpoint _ _ dv2) in *. clearbody dv3. cbn [snd] in Hc1.
  destruct (transitivity Hc1 (transitivity Hc2 Hc3)) as [[A1 A2 A3 A4] A5 A6 A7],
    Hd0 as [[B1 B2 B3 B4] B5 B6 _].
  split; [split; [split|..]|by rewrite <- E0, <- A7].
  - exact (eq_trans A1 B1).
  - exact (eq_trans A2 B2).
  - exact (eq_trans A3 B3).
  - exact (eq_trans A4 B4).
  - exact (eq_trans A5 B5).
  - exact (eq_trans A6 B6).
  - done.
Qed.
End calm.

(** ** What one iteration does to the backlog *)

Section delivery.
Context {N HW Disk U : Type} `{Preferences N} `{Pcnt HW} `{LittleFSLaws Disk}
  `{SB : StorageBackend Disk} {SBL : StorageBackendLaws Disk} `{UpdaterLaws U}.
Variable C : Crypto.
Variable ftoa : f32 -> nat -> string.
Variable err_name : Z -> string.
Variable toInt : string -> Z.
Variable toFloat : string -> f32.
Variable bd : Build.
Variable id : Diag.BuildId.
Variable mac : Z.

#[local] Abbreviation Device := (Device N HW Disk U).
#[local] Abbreviation loop := (loop (N := N) (HW := HW) (Disk := Disk) (U := U)
  C ftoa err_name toInt toFloat bd id mac).
#[local] Abbreviation at_telemetry := (at_telemetry (N := N) (HW := HW) (Disk := Disk) (U := U)
  ftoa err_name bd id mac).
#[local] Abbreviation after_console := (after_console (N := N) (HW := HW) (Disk := Disk) (U := U)
  C ftoa toInt bd mac).
#[local] Abbreviation at_network := (at_network (N := N) (HW := HW) (Disk := Disk) (U := U)
  C ftoa err_name toInt bd id mac).
Implicit Types dv : Device.

Lemma backlog_seq dv r : r ∈ backlog dv -> 0 <= r_seq r.
Proof.
  intros Hr%list_elem_of_In. apply List.filter_In in Hr as [Hr _].
  apply list_elem_of_In, list_elem_of_omap in Hr as (o & Hr & Eo). unfold Datatypes.id in Eo. subst o.
  by apply live_rows_seq in Hr as [? _].
Qed.

Lemma after_console_calm slack e dv :
  sys_inv slack dv -> no_storage_cmd (console_ dv) (le_serial e) -> calm dv (after_console e dv).1.
Proof.
  intros HI Hq. unfold MainTheorems.after_console.
  set (dv0 := dv{{x_ := (x_ dv){{o_hw := pcnt_edges (le_edges e) (o_hw (x_ dv))}}}}).
  pose proof (console_service_keeps C ftoa toInt bd mac (le_serial e) dv0 (si_console _ _ HI) Hq) as Hc.
  etransitivity; [|apply console_calm]; [by split|].
  destruct (console_service _ _ _ _ _ _ dv0) as [dv1 k]. apply Hc.
Qed.

Lemma at_telemetry_calm e dv : calm dv (at_telemetry e dv).
Proof.
  unfold MainTheorems.at_telemetry. etransitivity; [apply wifi_calm|].
  etransitivity; [apply api_calm|apply ct_calm].
Qed.

(** The push of an iteration whose server accepts. *)
Lemma push_step_accepted slack e dv :
  sys_inv slack dv -> write_segment dv + 1 < 2 ^ 32 -> seq_ dv + 1 < 2 ^ 31 ->
  accepting bd (o_store (x_ dv)) (le_push e) ->
  Sync.pushBackoffMs_ (o_sync (x_ dv)) = 0 ->
  let dv' := (push_step bd e dv).2 in
  calm dv dv'{{tPush := tPush dv}} /\ tPush dv' = le_now e /\
  exists P, backlog dv' = List.filter P (drop PUSH_BATCH_MAX (backlog dv)).
Proof.
  intros HI Hw Hs Hacc Hb. unfold push_step.
  assert (Hr : Forall (fun r => 0 <= r_seq r < 2 ^ 31) (backlog dv)).
  { pose proof (si_rows _ _ HI) as Hr. pose proof (si_slack _ _ HI). rewrite Forall_forall in Hr |- *.
    intros r Hin. pose proof (Hr r Hin). pose proof (backlog_seq dv r Hin). simpl in *. lia. }
  pose proof (push_accepted bd (le_push e) (o_store (x_ dv)) (o_sync (x_ dv)) (o_queue (x_ dv))
    (o_tot (x_ dv)) (o_disk (x_ dv)) (o_nvs (x_ dv)) (si_queue _ _ HI) Hw (si_ordered _ _ HI) Hr Hacc Hb) as Hp.
  destruct (Sync.pushOnce bd _ _ _ _ _ _ _) as [[[[[ok log] s'] q'] d'] n'].
  destruct Hp as (HI' & Hb' & P & Hu). cbn [snd].
  match goal with |- context [signal_healthy ok _ ?d] => set (dv1 := d) end.
  pose proof (signal_calm ok (le_mark_rc e) dv1) as [[E1 E2 E3 E4] E5 E6 E7].
  pose proof (signal_untouched ok (le_mark_rc e) dv1) as Hsig.
  set (dv2 := signal_healthy ok (le_mark_rc e) dv1) in *. clearbody dv2. cbv zeta.
  split; [split; [by split|exact E5| |exact E7]|split; [exact E2|exists P]].
  - change (Sync.pushBackoffMs_ (o_sync (x_ dv2)) = Sync.pushBackoffMs_ (o_sync (x_ dv))).
    rewrite E6, Hb. exact Hb'.
  - destruct (same_rows_inv _ _ (sq_rows _ _ (un_queue _ _ Hsig))) as [_ Eb];
      [exact HI'|]. etransitivity; [exact Eb|exact Hu].
Qed.

#[local] Abbreviation row_due e dv := (TELEMETRY_PERIOD_MS <=? u32 (le_now e - tTelemetry dv)).
#[local] Abbreviation push_due e dv := (PUSH_PERIOD_MS <=? u32 (le_now e - tPush dv)).

(** The network slot is entered with at most the row of this iteration more. *)
Lemma slot_reached slack e dv dv1 :
  sys_inv slack dv -> regular e dv -> after_console e dv = (dv1, Console.Go) ->
  let dvn := at_network e dv in
  calm dv dvn{{tTelemetry := tTelemetry dv}} /\
  tTelemetry dvn = (if row_due e dv then le_now e else tTelemetry dv) /\
  sys_inv slack dvn /\ write_segment dvn + 1 < 2 ^ 32 /\ seq_ dvn <= seq_ dv + 1 /\
  (length (backlog dvn) <= length (backlog dv) + (if row_due e dv then 1 else 0))%nat.
Proof.
  intros HI Hreg Hc.
  destruct (before_telemetry C ftoa err_name toInt bd id mac slack e dv dv1 HI Hreg Hc)
    as (HI2 & Eb2 & Es2 & Ew2).
  pose proof (after_console_calm slack e dv HI (rg_console _ _ Hreg)) as Hc1. rewrite Hc in Hc1.
  pose proof (transitivity Hc1 (at_telemetry_calm e dv1)) as Hc2. cbn [fst] in Hc2.
  destruct Hreg as [Hn _ Hs Hw]. unfold MainTheorems.at_network. rewrite Hc. cbn [fst].
  set (dv2 := at_telemetry e dv1) in *. clearbody dv2.
  pose proof (telemetry_spec bd slack e dv2 HI2 Hn ltac:(lia) ltac:(lia)) as Ht.
  destruct (telemetry_calm bd e dv2) as [Hc3 Et3]. unfold telemetry_due in Ht. cbv zeta in *.
  set (dv3 := telemetry_cycle bd e dv2) in *. clearbody dv3.
  pose proof (clear_streak_calm (le_now e) dv3) as Hc4.
  pose proof (clear_streak_untouched (le_now e) dv3) as Hu4.
  set (dv4 := clear_streak (le_now e) dv3) in *. clearbody dv4.
  assert (Hmid : sys_inv slack dv3 /\ write_segment dv3 <= write_segment dv2 + 1 /\
    seq_ dv3 <= seq_ dv2 + 1 /\
    (length (backlog dv3) <= length (backlog dv2) + (if row_due e dv2 then 1 else 0))%nat).
  { destruct Ht as [[Hd ->]|(Hd & HI3 & Es3 & _ & _ & Ew3 & _ & Hst)].
    - rewrite (proj2 (Z.leb_gt _ _)) by lia. split_and!; [done|lia|lia|lia].
    - rewrite (proj2 (Z.leb_le _ _)) by lia. split_and!; [done|lia|lia|].
      destruct Hst as [[-> _]|[-> _]]; [|lia]. rewrite length_app. destruct (r_seq _ <=? _); simpl; lia. }
  destruct Hmid as (HI3 & Ew3 & Es3 & El3).
  destruct (untouched_sys slack _ _ Hu4 HI3) as [HI4 Eb4].
  assert (Ew4 : write_segment dv4 = write_segment dv3) by exact (sq_seg _ _ (un_queue _ _ Hu4)).
  pose proof (transitivity Hc2 Hc3) as [[A1 A2 A3 A4] A5 A6 _].
  destruct Hc4 as [[D1 D2 D3 D4] D5 D6 D7]. rewrite (cm_telemetry _ _ Hc2) in *.
  rewrite Eb4, (un_seq _ _ Hu4). split; [split; [split|..]|].
  - exact (eq_trans D1 A1).
  - exact (eq_trans D2 A2).
  - exact (eq_trans D3 A3).
  - exact (eq_trans D4 A4).
  - exact (eq_trans D5 A5).
  - exact (eq_trans D6 A6).
  - done.
  - split_and!; [by rewrite D7|done|lia|lia|congruence].
Qed.

(** The device is in station mode and waits for no back-off. *)
Definition ready dv : Prop :=
  Portal.active (portal_ dv) = false /\ Sync.pushBackoffMs_ (o_sync (x_ dv)) = 0.

(** One iteration: a row at most comes, a due push takes a batch away. *)
Lemma online_step slack e dv log dv' :
  sys_inv slack dv -> regular e dv -> ready dv -> seq_ dv + 2 < 2 ^ 31 ->
  accepting bd (o_store (x_ dv)) (le_push e) -> loop e dv = Some (log, dv', Console.Go) ->
  ready dv' /\
  tTelemetry dv' = (if row_due e dv then le_now e else tTelemetry dv) /\
  tPush dv' = (if push_due e dv then le_now e else tPush dv) /\
  (length (backlog dv') <= length (backlog dv) + (if row_due e dv then 1 else 0)
                           - (if push_due e dv then PUSH_BATCH_MAX else 0))%nat.
Proof.
  intros HI Hreg [Hp Hb] Hs Hacc Hloop. apply loop_cases in Hloop.
  pose proof (after_console_calm slack e dv HI (rg_console _ _ Hreg)) as Hc1.
  pose proof (slot_reached slack e dv) as Hsl.
  destruct (after_console e dv) as [dv1 k1]. cbn [fst] in Hc1.
  destruct Hloop as [(Hk & _)|[(_ & _ & Hin & _)|(-> & _ & Hnet)]]; [done| |].
  { exfalso. unfold in_portal in Hin.
    rewrite (ck_portal _ _ (wifi_calm (le_wifi_connected e) (le_wifi_now e) (le_rnd e) dv1)) in Hin.
    rewrite (ck_portal _ _ Hc1), Hp in Hin. done. }
  destruct (Hsl dv1 HI Hreg eq_refl) as ([[A2 A5 _ _] A1 A3 _] & Et & HIn & Hw & Hsn & Hl).
  set (dvn := at_network e dv) in *. clearbody dvn. cbn [o_store x_] in A1.
  change (o_store (x_ dvn) = o_store (x_ dv)) in A1. change (portal_ dvn = portal_ dv) in A2.
  change (tPush dvn = tPush dv) in A5.
  change (Sync.pushBackoffMs_ (o_sync (x_ dvn)) = Sync.pushBackoffMs_ (o_sync (x_ dv))) in A3.
  rewrite network_cases in Hnet. unfold network_push in Hnet. rewrite A5 in Hnet.
  destruct (push_due e dv) eqn:Hpd.
  { rewrite <- A1 in Hacc. rewrite Hb in A3.
    destruct (push_step_accepted slack e dvn HIn Hw ltac:(lia) Hacc A3) as ([[B2 _ _ _] B1 B3 B4] & Ep & P & Eb).
    destruct (push_step bd e dvn) as [l dv2]. injection Hnet as <- <-. cbn [snd] in *.
    change (portal_ dv2 = portal_ dvn) in B2. change (tTelemetry dv2 = tTelemetry dvn) in B4.
    change (Sync.pushBackoffMs_ (o_sync (x_ dv2)) = Sync.pushBackoffMs_ (o_sync (x_ dvn))) in B3.
    split; [by split; congruence|]. split; [congruence|]. split; [done|]. rewrite Eb.
    pose proof (filter_length P (drop PUSH_BATCH_MAX (backlog dvn))) as Hf.
    rewrite length_drop in Hf. lia. }
  assert (Hquiet : ready dv' /\ tTelemetry dv' = tTelemetry dvn /\ tPush dv' = tPush dvn /\
                   backlog dv' = backlog dvn).
  { destruct (CONFIG_POLL_MS <=? _).
    { destruct (config_calm toFloat bd e dvn) as [[[B1 B2 _ _] B3 B4 B5] _].
      pose proof (config_untouched toFloat bd e dvn) as Hu.
      destruct (config_step toFloat bd e dvn) as [l dv2]. injection Hnet as <- <-.
      split; [split; [exact (eq_trans (f_equal Portal.active (eq_trans B1 A2)) Hp)|
                      exact (eq_trans B4 (eq_trans A3 Hb))]|].
      split; [exact B5|]. split; [exact B2|]. by apply (untouched_sys slack dvn dv2 Hu). }
    destruct (OTA_POLL_MS <=? _).
    2: { injection Hnet as <- <-. split; [|done].
         split; [by rewrite A2|exact (eq_trans A3 Hb)]. }
    destruct (ota_calm C bd e dvn _ _ Hnet) as [[[B1 B2 _ _] B3 B4 B5] _].
    pose proof (ota_untouched C bd e dvn _ Hnet) as Hu.
    split; [split; [exact (eq_trans (f_equal Portal.active (eq_trans B1 A2)) Hp)|
                    exact (eq_trans B4 (eq_trans A3 Hb))]|].
    split; [exact B5|]. split; [exact B2|]. by apply (untouched_sys slack dvn dv' Hu). }
  destruct Hquiet as (Hr & B4 & B5 & Eb).
  split; [done|]. split; [congruence|]. split; [congruence|]. rewrite Eb. lia.
Qed.

(** ** Runs with a server that answers *)

(** Iterations at most [gap] ms apart, from the time [T0] to the time [T], each
    with a server that acknowledges what it is sent.  Times are unbounded; the
    device sees them modulo 2^32. *)
Inductive online (gap : Z) (dv : Device) (T0 : Z) : Z -> list (LoopEnv * list HttpReq) -> Device -> Prop :=
  | online_start : online gap dv T0 T0 [] dv
  | online_iteration T tr dv1 T' e log dv2 :
      online gap dv T0 T tr dv1 -> T <= T' <= T + gap -> le_now e = u32 T' ->
      regular e dv1 -> seq_ dv1 + 2 < 2 ^ 31 ->
      accepting bd (o_store (x_ dv1)) (le_push e) ->
      loop e dv1 = Some (log, dv2, Console.Go) ->
      online gap dv T0 T' (tr ++ [(e, log)]) dv2.

(** The timer [t] last fired at [T'], less than [period] ms before [T]. *)
Definition fired (period T T' t : Z) : Prop := t = u32 T' /\ T - period < T' <= T.

Definition fired_lately (period T t : Z) : Prop := exists T', fired period T T' t.

Lemma timer_step period gap T T1 T' t :
  0 <= gap < 2 ^ 31 -> 0 < period < 2 ^ 31 -> fired period T T1 t -> T <= T' <= T + gap ->
  let due := period <=? u32 (u32 T' - t) in
  exists T2, fired period T' T2 (if due then u32 T' else t) /\ T1 <= T2 /\
    (if due then T1 + period <= T2 else T2 = T1) /\ (if due then T2 <= T1 + period + gap else T2 = T1).
Proof.
  intros Hg Hp (-> & HT) HT'. rewrite u32_since by lia. unfold fired.
  destruct (Z.leb_spec period (T' - T1)); [exists T'|exists T1]; split_and!; done || lia.
Qed.

(** What an online run has done to a backlog of [n] rows when it has not
    delivered all of them: [p] pushes, each of a full batch, and [r] rows. *)
Lemma online_progress slack gap dv T0 P0 C0 T tr dv' :
  0 <= gap < 2 ^ 31 -> sys_inv slack dv -> ready dv ->
  fired PUSH_PERIOD_MS T0 P0 (tPush dv) -> fired TELEMETRY_PERIOD_MS T0 C0 (tTelemetry dv) ->
  online gap dv T0 T tr dv' ->
  sys_inv slack dv' /\ ready dv' /\
  (forall r, r ∈ backlog dv -> r ∈ backlog dv' \/ delivered_in bd tr r) /\
  exists p r P R, fired PUSH_PERIOD_MS T P (tPush dv') /\ fired TELEMETRY_PERIOD_MS T R (tTelemetry dv') /\
    0 <= p /\ 0 <= r /\ P <= P0 + p * (PUSH_PERIOD_MS + gap) /\ C0 + TELEMETRY_PERIOD_MS * r <= R /\
    ((forall r, r ∈ backlog dv -> delivered_in bd tr r) \/
     Z.of_nat (length (backlog dv')) + Z.of_nat PUSH_BATCH_MAX * p <= Z.of_nat (length (backlog dv)) + r).
Proof.
  intros Hg HI Hr HP HC Hrun.
  induction Hrun as [|T tr dv1 T' e log dv2 _ IH HT Hnow Hreg Hs Hacc Hloop].
  - split; [done|split; [done|split; [by left|]]]. exists 0, 0, P0, C0.
    do 2 (split; [done|]). split_and!; [lia|lia|lia|lia|right; lia].
  - destruct IH as (HI1 & Hr1 & Hk1 & p & r & P & R & HP1 & HC1 & Hp & Hr0 & HPb & HRb & Hor).
    destruct (loop_step C ftoa err_name toInt toFloat bd id mac slack e dv1 log dv2 HI1 Hreg Hloop)
      as (HI2 & fresh & lost & _ & Hk2 & _).
    destruct (online_step slack e dv1 log dv2 HI1 Hreg Hr1 Hs Hacc Hloop) as (Hr2 & Et & Ep & Hlen).
    rewrite Hnow in Et, Ep, Hlen.
    destruct (timer_step PUSH_PERIOD_MS gap T P T' (tPush dv1)) as (P' & HP2 & HPm & HPl & HPu);
      [done|done|done|done|].
    destruct (timer_step TELEMETRY_PERIOD_MS gap T R T' (tTelemetry dv1)) as (R' & HC2 & HRm & HRl & HRu);
      [done|done|done|done|].
    rewrite <- Ep in HP2. rewrite <- Et in HC2.
    assert (Hstay : forall x, x ∈ backlog dv ->
      x ∈ backlog dv2 \/ delivered_in bd (tr ++ [(e, log)]) x).
    { intros x Hx. destruct (Hk1 x Hx) as [Hin|Hd].
      - destruct (Hk2 x ltac:(apply elem_of_app; by left)) as [|Hd]; [by left|right].
        exists e, log. split; [|done]. apply elem_of_app. right. by apply list_elem_of_singleton.
      - right. eapply delivered_in_mono; [|exact Hd]. set_solver. }
    do 3 (split; [done|]). cbv zeta in *.
    set (pd := PUSH_PERIOD_MS <=? u32 (u32 T' - tPush dv1)) in *. clearbody pd.
    set (rd := TELEMETRY_PERIOD_MS <=? u32 (u32 T' - tTelemetry dv1)) in *. clearbody rd.
    exists (p + (if pd : bool then 1 else 0)),
      (r + (if rd : bool then 1 else 0)), P', R'.
    do 2 (split; [done|]). split_and!; [destruct pd; lia|destruct rd; lia|destruct pd; lia|destruct rd; lia|].
    destruct (nil_or_length_pos (backlog dv2)) as [E|Hpos].
    { left. intros x Hx. destruct (Hstay x Hx) as [Hin|]; [|done]. rewrite E in Hin.
      by apply elem_of_nil in Hin. }
    destruct Hor as [Hall|Hcount].
    { left. intros x Hx. eapply delivered_in_mono; [|by apply Hall]. set_solver. }
    right. destruct pd, rd; unfold PUSH_BATCH_MAX in *; lia.
Qed.

(** C11: every waiting row reaches the server, and when.  While the device is in
    station mode with no back-off open and the server acknowledges what it is
    sent, a backlog of n rows has left after D ms of the main loop, for every D
    with (5000+gap)*(1000*(n+1)+D) <= 50000*(D-5000), where [gap] bounds the
    time between two iterations: although a new row joins every second, the
    push slot, which comes first, takes 50 away at each turn.  For iterations
    at most 5 s apart that is 0.25 s a row and 6.5 s; for 200 ms apart, 0.12 s
    a row and 5.7 s.  The 32-bit millis() may wrap on the way. *)
Theorem online_backlog_delivered slack gap dv T0 T tr dv' :
  sys_inv slack dv -> Portal.active (portal_ dv) = false ->
  Sync.pushBackoffMs_ (o_sync (x_ dv)) = 0 ->
  fired_lately PUSH_PERIOD_MS T0 (tPush dv) -> fired_lately TELEMETRY_PERIOD_MS T0 (tTelemetry dv) ->
  0 <= gap < 2 ^ 31 -> online gap dv T0 T tr dv' ->
  (PUSH_PERIOD_MS + gap) * (1000 * (Z.of_nat (length (backlog dv)) + 1) + (T - T0))
    <= 50000 * (T - T0 - PUSH_PERIOD_MS) ->
  forall r, r ∈ backlog dv -> exists e log, (e, log) ∈ tr /\ delivered bd (N := N) e log r.
Proof.
  intros HI Hp Hb (P0 & HP) (C0 & HC) Hg Hrun Htime.
  destruct (online_progress slack gap dv T0 P0 C0 T tr dv' Hg HI (conj Hp Hb) HP HC Hrun)
    as (_ & _ & _ & p & r & P & R & (_ & HP1) & (_ & HR1) & Hp0 & Hr0 & HPb & HRb & [Hall|Hcount]).
  { intros x Hx. exact (Hall x Hx). }
  exfalso. destruct HP as [_ HP], HC as [_ HC]. unfold PUSH_PERIOD_MS, TELEMETRY_PERIOD_MS, PUSH_BATCH_MAX in *.
  nia.
Qed.
End delivery.
