(* ===== verification/NetworkSlot.v ===== *)
(** * The network slot

    At most one of push, configuration poll and OTA poll runs per iteration of
    loop(); which of them gets its turn depends on how fast the loop is. *)

From coqutil Require Import Datatypes.RecordSetters.
From S2P Require Import Prelude Config Arduino Crc32 Records Storage DualSlot Parse Sensors Boot Store Totalizer QueueData Queue OtaPolicy Telemetry Net Sync Ota Diagnostics LocalApi WifiProvision Provision Main MainInv MainTheorems Delivery.
Import St EventQueue DoubleBraceUpdate Main.

(** What uses the slot of an iteration. *)
Inductive turn := Push | Config | Update | Nothing.

Section slot.
Context {N HW Disk U : Type} `{Preferences N} `{Pcnt HW} `{LittleFSLaws Disk}
  `{SB : StorageBackend Disk} `{UpdaterLaws U}.
Variable C : Crypto.
Variable ftoa : f32 -> nat -> string.
Variable err_name : Z -> string.
Variable toInt : string -> Z.
Variable toFloat : string -> f32.
Variable bd : Build.
Variable id : Diag.BuildId.
Variable mac : Z.

#[local] Abbreviation Device := (Device N HW Disk U).
#[local] Abbreviation loop := (loop (N := N) (HW := HW) (Disk := Disk) (U := U)
  C ftoa err_name toInt toFloat bd id mac).
#[local] Abbreviation after_console := (after_console (N := N) (HW := HW) (Disk := Disk) (U := U)
  C ftoa toInt bd mac).
#[local] Abbreviation at_network := (at_network (N := N) (HW := HW) (Disk := Disk) (U := U)
  C ftoa err_name toInt bd id mac).
Implicit Types dv : Device.

(** Whose turn it is, by the timers. *)
Definition turn_of (e : LoopEnv) dv : turn :=
  if PUSH_PERIOD_MS <=? u32 (le_now e - tPush dv) then Push
  else if CONFIG_POLL_MS <=? u32 (le_now e - tConfig dv) then Config
  else if OTA_POLL_MS <=? u32 (le_now e - tOta dv) then Update
  else Nothing.

(** The slot by turns. *)
Lemma network_turn e dv :
  network C toFloat bd e dv =
  match turn_of e dv with
  | Push => let '(log, dv') := push_step bd e dv in Some (log, dv', Console.Go)
  | Config => let '(log, dv') := config_step toFloat bd e dv in Some (log, dv', Console.Go)
  | Update => ota_step C bd e dv
  | Nothing => Some ([], dv, Console.Go)
  end.
Proof.
  rewrite network_cases. unfold turn_of, network_push.
  destruct (PUSH_PERIOD_MS <=? _); [done|]. destruct (CONFIG_POLL_MS <=? _); [done|].
  by destruct (OTA_POLL_MS <=? _).
Qed.

(** Nothing before the slot moves its timers. *)
Lemma at_network_clocks e dv : clocks dv (at_network e dv).
Proof.
  unfold MainTheorems.at_network, MainTheorems.at_telemetry.
  assert (Hc : clocks dv (after_console e dv).1).
  { unfold MainTheorems.after_console, console_service. 
    by destruct (Console.service _ _ _ _ _ _ _ _ _) as [[[[? ?] ?] ?] ?]. }
  set (dv1 := (after_console e dv).1) in *. clearbody dv1.
  pose proof (wifi_calm (le_wifi_connected e) (le_wifi_now e) (le_rnd e) dv1) as Hw.
  set (dv2 := wifi_service _ _ _ dv1) in *. clearbody dv2.
  pose proof (api_calm ftoa err_name bd id mac e dv2) as Ha.
  set (dv3 := api_service _ _ _ _ _ e dv2) in *. clearbody dv3.
  pose proof (ct_calm bd e dv3) as Hct. set (dv4 := ct_service bd e dv3) in *. clearbody dv4.
  destruct (telemetry_calm bd e dv4) as [[Ht _ _ _] _].
  set (dv5 := telemetry_cycle bd e dv4) in *. clearbody dv5.
  pose proof (clear_streak_calm (le_now e) dv5) as Hs.
  assert (Ht' : clocks dv4 dv5) by (destruct Ht; by split).
  etransitivity; [exact Hc|]. etransitivity; [apply Hw|]. etransitivity; [apply Ha|].
  etransitivity; [apply Hct|]. etransitivity; [exact Ht'|apply Hs].
Qed.

(** The iteration from [dv] did what its turn says, and nothing else on the
    network. *)
Definition slot_used (e : LoopEnv) dv (log : list HttpReq) dv' : Prop :=
  let dvn := at_network e dv in
  match turn_of e dv with
  | Push => push_step bd e dvn = (log, dv')
  | Config => config_step toFloat bd e dvn = (log, dv')
  | Update => ota_step C bd e dvn = Some (log, dv', Console.Go)
  | Nothing => log = [] /\ dv' = dvn
  end.

(** What an iteration in station mode does to the timers. *)
Lemma loop_turn e dv log dv' :
  Portal.active (portal_ dv) = false -> loop e dv = Some (log, dv', Console.Go) ->
  Portal.active (portal_ dv') = false /\
  tPush dv' = (match turn_of e dv with Push => le_now e | _ => tPush dv end) /\
  tConfig dv' = (match turn_of e dv with Config => le_now e | _ => tConfig dv end) /\
  tOta dv' = (match turn_of e dv with Update => le_now e | _ => tOta dv end) /\
  slot_used e dv log dv'.
Proof.
  intros Hp Hloop. apply loop_cases in Hloop. pose proof (at_network_clocks e dv) as [K1 K2 K3 K4].
  assert (Hc : portal_ (after_console e dv).1 = portal_ dv).
  { unfold MainTheorems.after_console, console_service. 
    by destruct (Console.service _ _ _ _ _ _ _ _ _) as [[[[? ?] ?] ?] ?]. }
  destruct (after_console e dv) as [dv1 k1]. cbn [fst] in Hc.
  destruct Hloop as [(Hk & _)|[(_ & _ & Hin & _)|(_ & _ & Hnet)]]; [done| |].
  { exfalso. unfold in_portal in Hin.
    rewrite (ck_portal _ _ (wifi_calm (le_wifi_connected e) (le_wifi_now e) (le_rnd e) dv1)) in Hin.
    rewrite Hc, Hp in Hin. done. }
  assert (Et : turn_of e (at_network e dv) = turn_of e dv) by (unfold turn_of; by rewrite K2, K3, K4).
  pose proof Hnet as Hturn. rewrite network_turn, Et in Hturn. unfold slot_used. cbv zeta.
  set (dvn := at_network e dv) in *. clearbody dvn.
  assert (Hused : match turn_of e dv with
    | Push => push_step bd e dvn = (log, dv')
    | Config => config_step toFloat bd e dvn = (log, dv')
    | Update => ota_step C bd e dvn = Some (log, dv', Console.Go)
    | Nothing => log = [] /\ dv' = dvn
    end).
  { destruct (turn_of e dv); [destruct (push_step bd e dvn)|destruct (config_step toFloat bd e dvn)|done|];
      by injection Hturn as <- <-. }
  enough (portal_ dv' = portal_ dvn /\
    tPush dv' = (match turn_of e dv with Push => le_now e | _ => tPush dvn end) /\
    tConfig dv' = (match turn_of e dv with Config => le_now e | _ => tConfig dvn end) /\
    tOta dv' = (match turn_of e dv with Update => le_now e | _ => tOta dvn end))
    as (P1 & P2 & P3 & P4) by (rewrite P1, K1, P2, P3, P4, K2, K3, K4; by split_and!).
  clear Hused. destruct (turn_of e dv).
  - revert Hturn. unfold push_step.
    destruct (Sync.pushOnce bd _ _ _ _ _ _ _) as [[[[[ok l] s] q] d] n].
    match goal with |- context [signal_healthy ?b ?rc ?d] => pose proof (signal_calm b rc d) as [[] _ _ _] end.
    intros [= _ <-]. by split_and!.
  - destruct (config_calm toFloat bd e dvn) as [[[B1 B2 _ B4] _ _ _] E].
    destruct (config_step toFloat bd e dvn) as [l dv2]. injection Hturn as _ <-. by split_and!.
  - destruct (ota_calm C bd e dvn _ _ Hturn) as [[[B1 B2 B3 _] _ _ _] E]. by split_and!.
  - injection Hturn as _ <-. done.
Qed.

(** ** Rounds *)

(** Iterations in station mode, each at its time and with the turn it gave.
    Times are unbounded; the device sees them modulo 2^32. *)
Inductive rounds : Device -> list (Z * turn) -> Device -> Prop :=
  | rounds_start dv : rounds dv [] dv
  | rounds_next dv T e log dv1 l dv2 :
      le_now e = u32 T -> loop e dv = Some (log, dv1, Console.Go) -> rounds dv1 l dv2 ->
      rounds dv ((T, turn_of e dv) :: l) dv2.

(** Each at least a push period, and less than 2^32 ms, after the one before. *)
Fixpoint slow (T : Z) (l : list (Z * turn)) : Prop :=
  match l with
  | [] => True
  | (T', _) :: l => T + PUSH_PERIOD_MS <= T' < T + 2 ^ 32 /\ slow T' l
  end.

(** A timer that last fired at [T'], less than 49 days before [T]. *)
Definition running (T T' t : Z) : Prop := fired (2 ^ 32 - PUSH_PERIOD_MS) T T' t.

(** The device is in station mode and its timers last fired at [P], [K], [O]. *)
Definition at_times dv (P K O : Z) : Prop :=
  Portal.active (portal_ dv) = false /\ tPush dv = u32 P /\ tConfig dv = u32 K /\ tOta dv = u32 O.

Definition pick (T P K O : Z) : turn :=
  if PUSH_PERIOD_MS <=? T - P then Push else if CONFIG_POLL_MS <=? T - K then Config
  else if OTA_POLL_MS <=? T - O then Update else Nothing.

(** A round gives the turn to the first timer that is due, and moves that timer. *)
Lemma round_spec dv T s l dv' P K O :
  at_times dv P K O -> P <= T < P + 2 ^ 32 -> K <= T < K + 2 ^ 32 -> O <= T < O + 2 ^ 32 ->
  rounds dv ((T, s) :: l) dv' ->
  s = pick T P K O /\
  exists dv1, rounds dv1 l dv' /\
    at_times dv1 (match s with Push => T | _ => P end) (match s with Config => T | _ => K end)
      (match s with Update => T | _ => O end).
Proof.
  intros (Hp & EP & EC & EO) HP HC HO Hr.
  inversion Hr as [|? ? e log dv1 l1 ? En L Hr1]; subst. unfold at_times.
  destruct (loop_turn e dv log dv1 Hp L) as (Hp1 & P1 & P2 & P3 & _).
  split.
  - unfold turn_of, pick. by rewrite En, EP, EC, EO, !u32_since by lia.
  - exists dv1. split; [done|]. rewrite P1, P2, P3, En, EP, EC, EO. by destruct (turn_of e dv).
Qed.

(** C21: who gets the network slot.  An iteration in station mode does one thing
    on the network: the push if it is due, else the configuration poll if it
    is due, else the OTA poll if it is due.  When three iterations in station mode fall
    within one push period, a push that is due is made by the first, a
    configuration poll that is due by the second, and an OTA poll that is due
    by the third, as the comment in loop() says.  When every iteration takes
    a push period or longer, as with pushes that succeed over a slow link,
    each of them is a push: neither the configuration nor the OTA poll is
    ever made, however long they are due. *)
Theorem polls_get_their_turn :
  (forall e dv log dv', Portal.active (portal_ dv) = false ->
     loop e dv = Some (log, dv', Console.Go) -> slot_used e dv log dv') /\
  (forall dv T1 T2 T3 s1 s2 s3 dv' TP TC TO,
     Portal.active (portal_ dv) = false -> rounds dv [(T1, s1); (T2, s2); (T3, s3)] dv' ->
     T1 <= T2 <= T3 -> T3 < T1 + PUSH_PERIOD_MS ->
     running T1 TP (tPush dv) -> running T1 TC (tConfig dv) -> running T1 TO (tOta dv) ->
     (PUSH_PERIOD_MS <= T1 - TP -> s1 = Push) /\
     (CONFIG_POLL_MS <= T1 - TC -> Config ∈ [s1; s2]) /\
     (OTA_POLL_MS <= T1 - TO -> Update ∈ [s1; s2; s3])) /\
  (forall dv T0 l dv',
     Portal.active (portal_ dv) = false -> rounds dv l dv' -> tPush dv = u32 T0 -> slow T0 l ->
     Forall (fun x => x.2 = Push) l /\ tConfig dv' = tConfig dv /\ tOta dv' = tOta dv).
Proof.
  split; [|split].
  - intros e dv log dv' Hp Hl. by destruct (loop_turn e dv log dv' Hp Hl) as (_ & _ & _ & _ & Hu).
  - intros dv T1 T2 T3 s1 s2 s3 dv' TP TC TO Hp Hr HT HT3 [EP HP] [EC HC] [EO HO].
    unfold PUSH_PERIOD_MS in HT3, HP, HC, HO.
    destruct (round_spec dv T1 s1 [(T2, s2); (T3, s3)] dv' TP TC TO) as (S1 & dv1 & Hr1 & A1); [done|lia..|done|].
    destruct (round_spec dv1 T2 s2 [(T3, s3)] dv' _ _ _ A1) as (S2 & dv2 & Hr2 & A2);
      [destruct s1; lia..|done|].
    destruct (round_spec dv2 T3 s3 [] dv' _ _ _ A2) as (S3 & _); [destruct s1, s2; lia..|done|].
    clear - S1 S2 S3 HT HT3. unfold pick, PUSH_PERIOD_MS, CONFIG_POLL_MS, OTA_POLL_MS in *.
    split_and!; intros Hdue.
    + by rewrite S1, (proj2 (Z.leb_le _ _)).
    + revert S1 S2. repeat case_match; bool_prop; intros; subst; try lia; set_solver.
    + revert S1 S2 S3. repeat case_match; bool_prop; intros; subst; try lia; set_solver.
  - intros dv T0 l dv' Hp Hr. revert T0 Hp.
    induction Hr as [dv|dv T e log dv1 l dv2 En L _ IH]; intros T0 Hp Et Hs; [done|].
    destruct Hs as [HT Hs]. unfold PUSH_PERIOD_MS in *.
    assert (Etn : turn_of e dv = Push).
    { unfold turn_of. rewrite Et, En, u32_since by lia. unfold PUSH_PERIOD_MS.
      by rewrite (proj2 (Z.leb_le _ _)) by lia. }
    destruct (loop_turn e dv log dv1 Hp L) as (Hp1 & P1 & P2 & P3 & _). rewrite Etn in *.
    destruct (IH T Hp1 ltac:(by rewrite P1) Hs) as (Hl & -> & ->). by split_and!; [constructor|..].
Qed.
End slot.
