(* ===== verification/MainDemo.v ===== *)
(** * The main program at work

    A device on the in-memory libraries, run for two iterations of loop():
    the theorems about the main program applied to it. *)

From coqutil Require Import Datatypes.RecordSetters.
From S2P Require Import Prelude Config Arduino Crc32 Records Storage DualSlot Parse Sensors Boot Store Totalizer QueueData Queue QueueSpec QueueRefine QueueBoot QueueTheorems OtaPolicy Telemetry Net Sync SyncTheorems Ota OtaTheorems Diagnostics LocalApi LanTheorems WifiProvision Provision ConsoleTheorems Main MainInv MainTheorems BootTheorems PowerTheorems Delivery NetworkSlot.
Import St EventQueue Main MemNvs StoreSpec.

#[local] Existing Instance LittleFsBackend.backend.
#[local] Existing Instance Tot.Z_pcnt.
#[local] Existing Instance MemNvs.preferences.
#[local] Existing Instance MemNvs.preferences_laws.

#[local] Abbreviation Device := (Device MemNvs.nvs Z MemFs MemUpd).

Definition dev0 : Device :=
  {| x_ := {| o_store := {| bootId_ := 7 |}; o_nvs := nvs_demo; o_tot := Tot.new_totalizer; o_hw := 0;
              o_queue := with_tot true new_queue; o_sync := Sync.new_sync; o_ota := Ota.new_ota;
              o_stuck := Stuck.new SENSOR_STUCK_THRESHOLD_MS; o_disk := mem_empty |};
     console_ := Console.new_console; api_ := Some Lan.new_api; portal_ := Portal.new_portal;
     plaus_ := Plaus.new 0; sensor_ := Health.new 0; ct_ := Ct.new CT_PULSE_HZ CT_DEBOUNCE_MS;
     upd_ := {| mu_staged := []; mu_boot := None |}; forceAp_ := false;
     seq_ := 0; tTelemetry := 0; tPush := 0; tConfig := 0; tOta := 0; tBgTot := 0;
     healthySignalled := false; crashStreakCleared := false |}.

(** One iteration at [now] with [edges] pulses since the last and the server's
    side of a push. *)
Definition env_with (push : Sync.PushEnv) (now : Z) (edges : nat) : LoopEnv :=
  {| le_now := now; le_edges := edges; le_serial := EmptyString;
     le_wifi_connected := true; le_wifi_now := now; le_rnd := 5;
     le_portal := None; le_portal_connected := true;
     le_bg_now := now; le_bg_n1 := 0; le_bg_n2 := 0;
     le_api := {| Lan.ae_request := None; Lan.ae_now := now; Lan.ae_connected := true;
                  Lan.ae_mdns_ok := true; Lan.ae_rssi_connected := true; Lan.ae_rssi := -60;
                  Lan.ae_freq_now := now |};
     le_ct_active := false; le_rssi := -60; le_append := (now, now + 2, now + 3);
     le_tot_n1 := 0; le_tot_n2 := 0;
     le_push := push;
     le_mark_rc := Ota.ESP_OK;
     le_config := {| Sync.ce_online := true; Sync.ce_now := now; Sync.ce_net := fun _ => None |};
     le_config_online := true;
     le_ota := ota_env_demo EmptyString []; le_ota_bg := [] |}.

(** ... that acknowledges everything. *)
Definition env_at : Z -> nat -> LoopEnv := env_with (env_demo 200 (ack_reply 2147483647)).

#[local] Abbreviation iterate :=
  (loop toy_crypto no_ftoa no_name no_toInt (fun _ => f32_of_Z 1) default_build demo_id 1
     (N := nvs) (HW := Z) (Disk := MemFs) (U := MemUpd)).

Definition log_of (o : option (list HttpReq * Device * Console.ctl)) : list HttpReq :=
  match o with Some (log, _, _) => log | None => [] end.
Definition dev_of (o : option (list HttpReq * Device * Console.ctl)) : Device :=
  match o with Some (_, dv, _) => dv | None => dev0 end.
Definition goes_on (o : option (list HttpReq * Device * Console.ctl)) : bool :=
  match o with Some (_, _, Console.Go) => true | _ => false end.

Lemma goes_on_spec o : goes_on o = true -> o = Some (log_of o, dev_of o, Console.Go).
Proof. by destruct o as [[[log dv] []]|]. Qed.

Definition dev1 : Device := dev_of (iterate (env_at 1000 40) dev0).
Definition dev2 : Device := dev_of (iterate (env_at 5000 60) dev1).

Lemma dev0_sys : sys_inv 0 dev0.
Proof.
  assert (Eb : backlog dev0 = []) by (vm_compute; reflexivity).
  split; rewrite ?Eb; [lia|split; [simpl; lia|done]|exact state0_Inv| |done|by vm_compute|by vm_compute|by vm_compute|by vm_compute|].
  - intros i j r r' _ Hi. by rewrite lookup_nil in Hi.
  - unfold is_u32. simpl. lia.
Qed.

Lemma step1 : iterate (env_at 1000 40) dev0 = Some (log_of (iterate (env_at 1000 40) dev0), dev1, Console.Go).
Proof. apply goes_on_spec. vm_compute. reflexivity. Qed.

Lemma step2 : iterate (env_at 5000 60) dev1 = Some (log_of (iterate (env_at 5000 60) dev1), dev2, Console.Go).
Proof. apply goes_on_spec. vm_compute. reflexivity. Qed.

Lemma loop_requests_bounded_witness :
  Forall pinned (log_of (iterate (env_at 5000 60) dev1)) /\
  length (log_of (iterate (env_at 5000 60) dev1)) = 1%nat.
Proof.
  pose proof (loop_requests_bounded toy_crypto no_ftoa no_name no_toInt (fun _ => f32_of_Z 1)
    default_build demo_id 1 (env_at 5000 60) dev1 _ _ _ eq_refl eq_refl
    ltac:(vm_compute; split; congruence) step2) as [Hp _].
  split; [exact Hp|vm_compute; reflexivity].
Defined.

Lemma telemetry_cycle_records_witness :
  let dv := telemetry_cycle default_build (env_at 1000 40) dev0 in
  seq_ dv = 1 /\ Tot.lastSeq (o_tot (x_ dv)) = 1 /\ exists r, backlog dv = [r].
Proof.
  pose proof (telemetry_cycle_records default_build 0 (env_at 1000 40) dev0 dev0_sys
    ltac:(vm_compute; split; congruence) ltac:(vm_compute; reflexivity)
    ltac:(vm_compute; reflexivity)) as H.
  change (TELEMETRY_PERIOD_MS <=? u32 (le_now (env_at 1000 40) - tTelemetry dev0)) with true in H.
  cbv zeta iota in H. destruct H as (row & (Er & _) & Es & El & _ & Hb).
  assert (E1 : r_seq row = 1) by (rewrite Er; reflexivity).
  cbv zeta. split; [rewrite Es; exact E1|]. split; [rewrite El; exact E1|].
  destruct Hb as [Hb|Hf]; [vm_compute; congruence| |].
  - exists (seal_row row). rewrite Hb. assert (E0 : backlog dev0 = []) by (vm_compute; reflexivity).
    rewrite E0. reflexivity.
  - vm_compute in Hf. discriminate Hf.
Defined.

Lemma regular1 : regular (env_at 1000 40) dev0.
Proof. split; [vm_compute; split; congruence|by vm_compute|by vm_compute|by vm_compute]. Qed.

Lemma regular2 : regular (env_at 5000 60) dev1.
Proof.
  split; [vm_compute; split; congruence| |vm_compute; reflexivity|vm_compute; reflexivity].
  assert (E : console_ dev1 = Console.new_console) by (vm_compute; reflexivity).
  unfold no_storage_cmd. rewrite E. by vm_compute.
Qed.

Definition demo_trace : list (LoopEnv * list HttpReq) :=
  ([] ++ [(env_at 1000 40, log_of (iterate (env_at 1000 40) dev0))])
  ++ [(env_at 5000 60, log_of (iterate (env_at 5000 60) dev1))].

Lemma demo_run :
  runs toy_crypto no_ftoa no_name no_toInt (fun _ => f32_of_Z 1) default_build demo_id 1
    dev0 demo_trace dev2.
Proof.
  eapply runs_iteration; [|exact regular2|exact step2].
  eapply runs_iteration; [|exact regular1|exact step1]. apply runs_start.
Qed.


Lemma unconfirmed_boots_roll_back_witness :
  asks_rollback default_build (boots default_build [ESP_RST_PANIC; ESP_RST_TASK_WDT] nvs_demo) = true /\
  asks_rollback default_build (boots default_build [ESP_RST_PANIC] nvs_demo) = false.
Proof.
  split.
  - pose proof (unconfirmed_boots_roll_back default_build [ESP_RST_PANIC; ESP_RST_TASK_WDT] nvs_demo
      eq_refl eq_refl ltac:(vm_compute; reflexivity) eq_refl) as (_ & E & _). exact E.
  - pose proof (unconfirmed_boots_roll_back default_build [ESP_RST_PANIC] nvs_demo
      eq_refl eq_refl ltac:(vm_compute; reflexivity) eq_refl) as (_ & E & _). exact E.
Defined.

(** A first boot that reaches its access point. *)
Definition boot_env : BootEnv :=
  {| be_rollback_ok := false; be_reset := ESP_RST_POWERON; be_mounted := true;
     be_running := None; be_boot := None; be_next := None; be_state_rc := 0; be_state := 0;
     be_sta_start := 0;
     be_sta := [{| sp_connected := true; sp_now := 900; sp_serial := EmptyString;
                   sp_wifi_connected := true; sp_wifi_now := 900; sp_rnd := 0 |}];
     be_connected := true |}.

Definition first_boot : option (boot_outcome (N := nvs) (HW := Z) (Disk := MemFs) (U := MemUpd)) :=
  setup toy_crypto no_ftoa no_toInt default_build 1 boot_env nvs_demo mem_empty 0
    {| mu_staged := []; mu_boot := None |} false.

Definition no_file (p : string) : lfs_read p mem_empty = None := eq_refl.

Lemma empty_flash_ok : flash_ok default_build 2 mem_empty (HW := Z) 0.
Proof.
  assert (E : found default_build 2 mem_empty (HW := Z) 0 =
    (with_ack (Build_AckRec ACK_MAGIC 0 0 0 0 0 0) (with_tot true new_queue),
     Tot.booted 2 Tot.new_totalizer (Tot.Build_Checkpoint Tot.CKPT_MAGIC 0 0 0 0 0 0 0), mem_empty))
    by (vm_compute; reflexivity).
  split; rewrite E.
  - split; try done.
    + intros s Hs. change (0 <= s < 0) in Hs. lia.
    + vm_compute. lia.
  - intros name id [c Hc]. rewrite no_file in Hc. discriminate Hc.
  - vm_compute. reflexivity.
  - vm_compute. congruence.
  - intros i j r r' _ Hi. vm_compute in Hi. by destruct i.
  - by vm_compute.
Qed.

Lemma setup_resumes_witness :
  match first_boot with
  | Some (Booted dv) => backlog dv = [] /\ seq_ dv = 0 /\ api_ dv = Some Lan.new_api
  | _ => False
  end.
Proof.
  pose proof (setup_resumes toy_crypto no_ftoa no_toInt default_build 1 boot_env nvs_demo mem_empty 0
    {| mu_staged := []; mu_boot := None |} false (HW := Z)) as H.
  assert (Hok : match first_boot with
    | Some (Booted dv) => Portal.active (portal_ dv) = false | _ => False end) by (vm_compute; reflexivity).
  unfold first_boot in *. destruct (setup _ _ _ _ _ _ _ _ _ _ _) as [[dv|n|n|n|n]|]; try contradiction.
  specialize (H dv empty_flash_ok ltac:(repeat constructor) eq_refl).
  destruct (found default_build _ mem_empty 0) as [[q t] d1] eqn:Ef.
  vm_compute in Ef. injection Ef as <- <- <-. destruct H as (_ & Eb & Es & _ & _ & Hm).
  rewrite Hok in Hm. split; [rewrite Eb; vm_compute; reflexivity|].
  split; [rewrite Es; reflexivity|exact Hm].
Defined.

(** ** A power cut

    The first row is recorded while the server is away, the power fails 17
    bytes into the second, and after the second boot the row goes out. *)

Definition booted_dev (o : option (boot_outcome (N := nvs) (HW := Z) (Disk := MemFs) (U := MemUpd))) : Device :=
  match o with Some (Booted dv) => dv | _ => dev0 end.

Lemma booted_spec o :
  match o with Some (Booted _) => true | _ => false end = true -> o = Some (Booted (booted_dev o)).
Proof. by destruct o as [[]|]. Qed.

Definition dev_first : Device := booted_dev first_boot.

Lemma first_booted : first_boot = Some (Booted dev_first).
Proof. apply booted_spec. vm_compute. reflexivity. Qed.

Lemma dev_first_sys : sys_inv 1 dev_first.
Proof.
  pose proof (setup_state toy_crypto no_ftoa no_toInt default_build 1 boot_env nvs_demo mem_empty 0
    {| mu_staged := []; mu_boot := None |} false dev_first empty_flash_ok ltac:(repeat constructor)
    first_booted) as Hs. cbv zeta in Hs.
  destruct (found default_build _ mem_empty 0) as [[q t] d1]. exact (proj1 Hs).
Qed.

Definition env_away : LoopEnv := env_with (env_demo 503 EmptyString) 1000 40.
Definition dev_away : Device := dev_of (iterate env_away dev_first).

Definition flash_cut : MemFs :=
  mem_set (segmentPath_ 0)
    (take 36 (content (segmentPath_ 0) (o_disk (x_ dev_away)))
     ++ take 17 (bytes_of (seal_row (row_n 2)))) (o_disk (x_ dev_away)).

Definition second_boot : option (boot_outcome (N := nvs) (HW := Z) (Disk := MemFs) (U := MemUpd)) :=
  setup toy_crypto no_ftoa no_toInt default_build 1 boot_env (o_nvs (x_ dev_away)) flash_cut 0
    {| mu_staged := []; mu_boot := None |} false.

Definition dev_back : Device := booted_dev second_boot.

Lemma second_booted :
  setup toy_crypto no_ftoa no_toInt default_build 1 boot_env (o_nvs (x_ dev_away)) flash_cut 0
    {| mu_staged := []; mu_boot := None |} false = Some (Booted dev_back).
Proof. vm_compute. reflexivity. Qed.

Lemma step_away :
  iterate env_away dev_first = Some (log_of (iterate env_away dev_first), dev_away, Console.Go).
Proof. apply goes_on_spec. vm_compute. reflexivity. Qed.

Lemma regular_away : regular env_away dev_first.
Proof.
  split; [vm_compute; split; congruence| |vm_compute; reflexivity|vm_compute; reflexivity].
  assert (E : console_ dev_first = Console.new_console) by (vm_compute; reflexivity).
  unfold no_storage_cmd. rewrite E. by vm_compute.
Qed.

Lemma dev_away_sys : sys_inv 1 dev_away.
Proof.
  exact (proj1 (loop_step toy_crypto no_ftoa no_name no_toInt (fun _ => f32_of_Z 1)
    default_build demo_id 1 1 env_away dev_first _ _ dev_first_sys regular_away step_away)).
Qed.

Lemma checkpoint_left o (t : Tot.Totalizer) :
  option_map (fun p => (Tot.values (fst p), snd p)) o = Some (Tot.values (Tot.cp_ t), false) ->
  exists c, o = Some (c, false) /\ Tot.seq c = Tot.lastSeq t /\
    Tot.q_segment c = Tot.queueOffsetSegment t /\ Tot.q_offset c = Tot.queueOffsetOffset t.
Proof.
  destruct o as [[c leg]|]; [|done]. intros [= _ Es Eg Eo ->]. by exists c.
Qed.

Lemma away_left : left_by_cut (x_ dev_away) flash_cut.
Proof.
  split.
  - assert (E : option_map (fun p => (Tot.values (fst p), snd p))
      (recover Tot.CKPT_PATH_A Tot.CKPT_PATH_B Tot.ck_writes Tot.load_either flash_cut)
      = Some (Tot.values (Tot.cp_ (o_tot (x_ dev_away))), false)) by (vm_compute; reflexivity).
    destruct (checkpoint_left _ _ E) as (c & Hc & Hv). exists c. split; [left; exact Hc|exact Hv].
  - vm_compute. reflexivity.
  - eapply mem_names_ok; [vm_compute; reflexivity|].
    repeat (apply Forall_cons; split; [first [exact segment_0_named|intros ? ? E; discriminate E]|]).
    by apply Forall_nil.
  - exists flash_cut. split; [right|by split; [|left]]. exists 17%nat, (row_n 2).
    assert (E : next_seg (Disk := MemFs) (o_tot (x_ dev_away)) = 0 /\
      next_off (Disk := MemFs) (o_tot (x_ dev_away)) = 36)
      by (vm_compute; split; reflexivity).
    unfold partly_written. destruct E as [-> ->]. apply mem_set_only.
Qed.

Lemma away_segment : write_segment dev_away + 1 < 2 ^ 32.
Proof. vm_compute. reflexivity. Qed.

Lemma boot_env_unattended : unattended boot_env.
Proof. repeat constructor. Qed.

Lemma back_counts : length (backlog dev_back) = 1%nat /\ seq_ dev_back = 1.
Proof. split; vm_compute; reflexivity. Qed.


Definition dev_sent : Device := dev_of (iterate (env_at 5000 60) dev_back).

Lemma step_sent :
  iterate (env_at 5000 60) dev_back =
  Some (log_of (iterate (env_at 5000 60) dev_back), dev_sent, Console.Go).
Proof. apply goes_on_spec. vm_compute. reflexivity. Qed.

Lemma regular_sent : regular (env_at 5000 60) dev_back.
Proof.
  split; [vm_compute; split; congruence| |vm_compute; reflexivity|vm_compute; reflexivity].
  assert (E : console_ dev_back = Console.new_console) by (vm_compute; reflexivity).
  unfold no_storage_cmd. rewrite E. by vm_compute.
Qed.

Definition demo_life : list (LoopEnv * list HttpReq) :=
  ([] ++ []) ++ [(env_at 5000 60, log_of (iterate (env_at 5000 60) dev_back))].

Lemma demo_lives :
  lives toy_crypto no_ftoa no_name no_toInt (fun _ => f32_of_Z 1) default_build demo_id 1
    dev_away demo_life dev_sent.
Proof.
  eapply lives_iteration; [|exact regular_sent|exact step_sent].
  eapply lives_power_cut; [apply lives_start|apply cut_idle|exact away_left|exact away_segment
    |exact boot_env_unattended|exact second_booted].
Qed.


(** The first cycle, the power cut right after its checkpoint. *)

Lemma dev_first_durable : durable (x_ dev_first).
Proof.
  assert (E : mf_files (o_disk (x_ dev_first)) = ∅) by (vm_compute; reflexivity).
  assert (Hr : forall p, lfs_read p (o_disk (x_ dev_first)) = None)
    by (intros p; change (mf_files (o_disk (x_ dev_first)) !! p = None); rewrite E; apply lookup_empty).
  split.
  - split.
    + assert (Et : o_tot (x_ dev_first) = Tot.booted 2 Tot.new_totalizer
        (Tot.Build_Checkpoint Tot.CKPT_MAGIC 0 0 0 0 0 0 0)) by (vm_compute; reflexivity).
      rewrite Et. unfold Tot.wf. rewrite Tot.fields_fit_iff. vm_compute.
      repeat split; congruence.
    + intros v r Hl. unfold slot_load in Hl. rewrite Hr in Hl. discriminate Hl.
  - vm_compute. reflexivity.
  - intros name id [c Hc]. rewrite Hr in Hc. discriminate Hc.
Qed.

Definition dev_cycle : Device := telemetry_cycle default_build env_away dev_first.

Definition dev_again : Device :=
  booted_dev (setup toy_crypto no_ftoa no_toInt default_build 1 boot_env nvs_demo
    (o_disk (x_ dev_cycle)) 0 {| mu_staged := []; mu_boot := None |} false).

Lemma again_booted :
  setup toy_crypto no_ftoa no_toInt default_build 1 boot_env nvs_demo
    (o_disk (x_ dev_cycle)) 0 {| mu_staged := []; mu_boot := None |} false = Some (Booted dev_again).
Proof. vm_compute. reflexivity. Qed.

Lemma cycle_row_survives_witness :
  exists row, row_of_cycle env_away dev_first row /\ backlog dev_again = [seal_row row] /\
    seq_ dev_again = 1.
Proof.
  assert (Ef : failures dev_first = 0 /\ failures dev_cycle = 0) by (vm_compute; split; reflexivity).
  assert (Eb : backlog dev_first = []) by (vm_compute; reflexivity).
  assert (Ea : acked_upto dev_first = 0 /\ seq_ dev_first = 0) by (vm_compute; split; reflexivity).
  pose proof (cycle_row_survives toy_crypto no_ftoa no_toInt default_build 1 1 env_away dev_first
    (o_disk (x_ dev_cycle)) boot_env nvs_demo 0 {| mu_staged := []; mu_boot := None |} false dev_again
    dev_first_sys dev_first_durable ltac:(vm_compute; split; congruence)
    ltac:(vm_compute; congruence) ltac:(vm_compute; reflexivity) ltac:(vm_compute; reflexivity)
    ltac:(vm_compute; reflexivity)) as [_ H].
  assert (Hp : Tot.persisted (o_tot (x_ dev_cycle)) (o_disk (x_ dev_cycle))) by (vm_compute; reflexivity).
  destruct (H Hp (or_introl eq_refl) boot_env_unattended again_booted) as (row & Hrow & Hb & Es).
  destruct Ef as [Ef1 Ef2], Ea as [Ea1 Ea2]. rewrite Ea1 in Hb, Es. rewrite Eb in Hb.
  assert (Er : r_seq row = 1) by (rewrite (proj1 Hrow), Ea2; reflexivity).
  exists row. split; [exact Hrow|]. rewrite Er in Hb, Es. split; [|exact Es].
  destruct Hb as [Hb|[_ Hf]]; [exact Hb|]. change (failures dev_cycle = u32 (failures dev_first + 1)) in Hf.
  rewrite Ef1, Ef2 in Hf. discriminate Hf.
Defined.

(** ** A server that answers

    The row of the first iteration waits; two iterations later, 6.75 s, it is
    with the server, as the time bound says. *)

Definition dev3 : Device := dev_of (iterate (env_at 7750 10) dev2).

Lemma step3 : iterate (env_at 7750 10) dev2 = Some (log_of (iterate (env_at 7750 10) dev2), dev3, Console.Go).
Proof. apply goes_on_spec. vm_compute. reflexivity. Qed.

Lemma regular3 : regular (env_at 7750 10) dev2.
Proof.
  split; [vm_compute; split; congruence| |vm_compute; reflexivity|vm_compute; reflexivity].
  assert (E : console_ dev2 = Console.new_console) by (vm_compute; reflexivity).
  unfold no_storage_cmd. rewrite E. by vm_compute.
Qed.

Lemma dev1_sys : sys_inv 0 dev1.
Proof.
  exact (proj1 (loop_step toy_crypto no_ftoa no_name no_toInt (fun _ => f32_of_Z 1)
    default_build demo_id 1 0 (env_at 1000 40) dev0 _ _ dev0_sys regular1 step1)).
Qed.

Lemma accepting_at now edges (dv : Device) :
  o_store (x_ dv) = {| bootId_ := 7 |} ->
  accepting default_build (o_store (x_ dv)) (le_push (env_at now edges)) (N := nvs).
Proof. intros ->. exact accepting_demo. Qed.

Definition online_trace : list (LoopEnv * list HttpReq) :=
  ([] ++ [(env_at 5000 60, log_of (iterate (env_at 5000 60) dev1))])
  ++ [(env_at 7750 10, log_of (iterate (env_at 7750 10) dev2))].

Lemma online_demo :
  online toy_crypto no_ftoa no_name no_toInt (fun _ => f32_of_Z 1) default_build demo_id 1
    5000 dev1 1000 7750 online_trace dev3.
Proof.
  eapply (online_iteration _ _ _ _ _ _ _ _ _ _ _ 5000); [|lia|reflexivity|exact regular3|
    vm_compute; reflexivity|apply accepting_at; vm_compute; reflexivity|exact step3].
  eapply (online_iteration _ _ _ _ _ _ _ _ _ _ _ 1000); [|lia|reflexivity|exact regular2|
    vm_compute; reflexivity|apply accepting_at; vm_compute; reflexivity|exact step2].
  apply online_start.
Qed.

Lemma dev1_ready :
  length (backlog dev1) = 1%nat /\ Portal.active (portal_ dev1) = false /\
  Sync.pushBackoffMs_ (o_sync (x_ dev1)) = 0 /\ tPush dev1 = 0 /\ tTelemetry dev1 = 1000.
Proof. repeat split; vm_compute; reflexivity. Qed.

Lemma online_backlog_delivered_witness :
  exists r, backlog dev1 = [r] /\
    exists e log, (e, log) ∈ online_trace /\ delivered default_build (N := nvs) e log r.
Proof.
  destruct dev1_ready as (El & Ep & Eb & Et & Er).
  pose proof (online_backlog_delivered toy_crypto no_ftoa no_name no_toInt (fun _ => f32_of_Z 1)
    default_build demo_id 1 0 5000 dev1 1000 7750 online_trace dev3 dev1_sys Ep Eb) as H.
  rewrite El, Et, Er in H.
  specialize (H ltac:(exists 0; split; [reflexivity|unfold PUSH_PERIOD_MS; lia])
    ltac:(exists 1000; split; [reflexivity|unfold TELEMETRY_PERIOD_MS; lia]) ltac:(lia) online_demo
    ltac:(unfold PUSH_PERIOD_MS; lia)).
  destruct (backlog dev1) as [|r [|]]; try discriminate El. exists r. split; [reflexivity|].
  apply H. apply elem_of_cons. left. reflexivity.
Defined.

(** ** The network slot

    Five minutes after boot all three polls are due: they go one after the
    other while the loop is fast, and only pushes go while it is slow. *)

#[local] Abbreviation rounds_of :=
  (rounds toy_crypto no_ftoa no_name no_toInt (fun _ => f32_of_Z 1) default_build demo_id 1
     (N := nvs) (HW := Z) (Disk := MemFs) (U := MemUpd)).

Definition fast1 : Device := dev_of (iterate (env_at 300000 9) dev0).
Definition fast2 : Device := dev_of (iterate (env_at 300010 0) fast1).
Definition fast3 : Device := dev_of (iterate (env_at 300020 0) fast2).
Definition slow2 : Device := dev_of (iterate (env_at 305000 9) fast1).

Lemma next_round T edges dv dv1 s l dv' :
  u32 T = T -> turn_of (env_at T edges) dv = s -> 
  iterate (env_at T edges) dv = Some (log_of (iterate (env_at T edges) dv), dv1, Console.Go) ->
  rounds_of dv1 l dv' -> rounds_of dv ((T, s) :: l) dv'.
Proof. intros ET <- Hg Hr. eapply rounds_next; [symmetry; exact ET|exact Hg|exact Hr]. Qed.

Lemma fast_step1 : iterate (env_at 300000 9) dev0 = Some (log_of (iterate (env_at 300000 9) dev0), fast1, Console.Go).
Proof. apply goes_on_spec. vm_compute. reflexivity. Qed.
Lemma fast_step2 : iterate (env_at 300010 0) fast1 = Some (log_of (iterate (env_at 300010 0) fast1), fast2, Console.Go).
Proof. apply goes_on_spec. vm_compute. reflexivity. Qed.
Lemma fast_step3 : iterate (env_at 300020 0) fast2 = Some (log_of (iterate (env_at 300020 0) fast2), fast3, Console.Go).
Proof. apply goes_on_spec. vm_compute. reflexivity. Qed.
Lemma slow_step2 : iterate (env_at 305000 9) fast1 = Some (log_of (iterate (env_at 305000 9) fast1), slow2, Console.Go).
Proof. apply goes_on_spec. vm_compute. reflexivity. Qed.

Lemma fast_rounds : rounds_of dev0 [(300000, Push); (300010, Config); (300020, Update)] fast3.
Proof.
  refine (next_round 300000 9 dev0 fast1 Push _ fast3 eq_refl _ fast_step1 _); [vm_compute; reflexivity|].
  refine (next_round 300010 0 fast1 fast2 Config _ fast3 eq_refl _ fast_step2 _); [vm_compute; reflexivity|].
  refine (next_round 300020 0 fast2 fast3 Update _ fast3 eq_refl _ fast_step3 _); [vm_compute; reflexivity|].
  apply rounds_start.
Qed.

Lemma slow_rounds : rounds_of dev0 [(300000, Push); (305000, Push)] slow2.
Proof.
  refine (next_round 300000 9 dev0 fast1 Push _ slow2 eq_refl _ fast_step1 _); [vm_compute; reflexivity|].
  refine (next_round 305000 9 fast1 slow2 Push _ slow2 eq_refl _ slow_step2 _); [vm_compute; reflexivity|].
  apply rounds_start.
Qed.

Lemma dev0_timers :
  Portal.active (portal_ dev0) = false /\ tPush dev0 = u32 0 /\ tConfig dev0 = u32 0 /\ tOta dev0 = u32 0.
Proof. repeat split. Qed.

(** In the slow run the OTA poll, due at its start, is not made. *)
Lemma polls_get_their_turn_witness :
  (Push = Push /\ Config ∈ [Push; Config] /\ Update ∈ [Push; Config; Update]) /\
  tConfig slow2 = u32 0 /\ tOta slow2 = u32 0.
Proof.
  destruct (polls_get_their_turn toy_crypto no_ftoa no_name no_toInt (fun _ => f32_of_Z 1)
    default_build demo_id 1 (N := nvs) (HW := Z) (Disk := MemFs) (U := MemUpd)) as (_ & Hfast & Hslow).
  destruct dev0_timers as (Hp & EP & EC & EO). split.
  - assert (Hr : forall t, t = u32 0 -> running 300000 0 t)
      by (intros t Et; split; [exact Et|unfold PUSH_PERIOD_MS; lia]).
    destruct (Hfast dev0 300000 300010 300020 Push Config Update fast3 0 0 0 Hp fast_rounds
      ltac:(lia) ltac:(unfold PUSH_PERIOD_MS; lia) (Hr _ EP) (Hr _ EC) (Hr _ EO)) as (H1 & H2 & H3).
    unfold PUSH_PERIOD_MS, CONFIG_POLL_MS, OTA_POLL_MS in *.
    split; [apply H1; lia|]. split; [apply H2; lia|apply H3; lia].
  - destruct (Hslow dev0 0 [(300000, Push); (305000, Push)] slow2 Hp slow_rounds EP) as (_ & Ec & Eo).
    { cbn [slow]. unfold PUSH_PERIOD_MS. lia. }
    rewrite Ec, Eo. split; [exact EC|exact EO].
Defined.
