(* ===== verification/LifeDemo.v ===== *)
(** * A life at work

    A device on a flash that works, from its first boot: a row recorded while
    the server is away, a power cut in the middle of the next row's write,
    the boot after it, the push that delivers both rows, and a restart the
    operator asks for. *)

From coqutil Require Import Datatypes.RecordSetters.
From S2P Require Import Prelude Config Arduino Crc32 Records Storage DualSlot Parse Sensors Boot Store Totalizer QueueData Queue QueueSpec QueueRefine QueueBoot QueueTheorems OtaPolicy Telemetry Net Sync SyncTheorems Ota OtaTheorems Diagnostics LocalApi LanTheorems WifiProvision Provision ConsoleTheorems Main MainInv FlashAgree MainTheorems BootTheorems PowerTheorems FlashLife MainDemo.
Import St EventQueue DoubleBraceUpdate Main MemNvs StoreSpec.

#[local] Existing Instance LittleFsBackend.backend.
#[local] Existing Instance Tot.Z_pcnt.
#[local] Existing Instance MemNvs.preferences.
#[local] Existing Instance MemNvs.preferences_laws.

#[local] Abbreviation Device := (Device MemNvs.nvs Z SureFs MemUpd).

#[local] Abbreviation iterate :=
  (loop toy_crypto no_ftoa no_name no_toInt (fun _ => f32_of_Z 1) default_build demo_id 1
     (N := nvs) (HW := Z) (Disk := SureFs) (U := MemUpd)).

#[local] Abbreviation boot_from n d :=
  (setup toy_crypto no_ftoa no_toInt default_build 1 boot_env n d 0
    {| mu_staged := []; mu_boot := None |} false (N := nvs) (HW := Z) (Disk := SureFs) (U := MemUpd)).

(** The results of the steps; a default where there is none. *)
Definition life_boot (dv : Device) (o : option boot_outcome) : Device :=
  match o with Some (Booted dv') => dv' | _ => dv end.
Definition life_dev (dv : Device) (o : option (list HttpReq * Device * Console.ctl)) : Device :=
  match o with Some (_, dv', _) => dv' | None => dv end.
Definition life_log (o : option (list HttpReq * Device * Console.ctl)) : list HttpReq :=
  match o with Some (log, _, _) => log | None => [] end.

Lemma life_booted dv o :
  match o with Some (Booted _) => true | _ => false end = true -> o = Some (Booted (life_boot dv o)).
Proof. by destruct o as [[]|]. Qed.

Lemma life_stepped dv (o : option (list HttpReq * Device * Console.ctl)) :
  match o with Some (_, _, Console.Go) => true | _ => false end = true ->
  o = Some (life_log o, life_dev dv o, Console.Go).
Proof. by destruct o as [[[log dv'] []]|]. Qed.

Definition new_flash : SureFs := {| sf_files := ∅ |}.

Definition blank : Device :=
  {| x_ := {| o_store := {| bootId_ := 7 |}; o_nvs := nvs_demo; o_tot := Tot.new_totalizer; o_hw := 0;
              o_queue := with_tot true new_queue; o_sync := Sync.new_sync; o_ota := Ota.new_ota;
              o_stuck := Stuck.new SENSOR_STUCK_THRESHOLD_MS; o_disk := new_flash |};
     console_ := Console.new_console; api_ := Some Lan.new_api; portal_ := Portal.new_portal;
     plaus_ := Plaus.new 0; sensor_ := Health.new 0; ct_ := Ct.new CT_PULSE_HZ CT_DEBOUNCE_MS;
     upd_ := {| mu_staged := []; mu_boot := None |}; forceAp_ := false;
     seq_ := 0; tTelemetry := 0; tPush := 0; tConfig := 0; tOta := 0; tBgTot := 0;
     healthySignalled := false; crashStreakCleared := false |}.

Definition life0 : Device := life_boot blank (boot_from nvs_demo new_flash).
Definition life1 : Device := life_dev blank (iterate env_away life0).

(** 17 bytes of the second row. *)
Definition life_cut : SureFs :=
  sure_set (segmentPath_ 0)
    (take 36 (content (segmentPath_ 0) (o_disk (x_ life1)))
     ++ take 17 (bytes_of (seal_row (row_n 2)))) (o_disk (x_ life1)).

Definition life2 : Device := life_boot blank (boot_from (o_nvs (x_ life1)) life_cut).
Definition life3 : Device := life_dev blank (iterate (env_at 5000 60) life2).

(** The operator types "reboot". *)
Definition env_reboot : LoopEnv := (env_at 5500 0){{le_serial := "reboot" +:+ line_end}}.
Definition life4 : Device := life_dev blank (iterate env_reboot life3).
Definition life5 : Device := life_boot blank (boot_from (o_nvs (x_ life4)) (o_disk (x_ life4))).

Lemma life0_booted : boot_from nvs_demo new_flash = Some (Booted life0).
Proof. apply life_booted. vm_compute. reflexivity. Qed.

Lemma life2_booted : boot_from (o_nvs (x_ life1)) life_cut = Some (Booted life2).
Proof. apply life_booted. vm_compute. reflexivity. Qed.

Lemma life1_step : iterate env_away life0 = Some (life_log (iterate env_away life0), life1, Console.Go).
Proof. apply life_stepped. vm_compute. reflexivity. Qed.

Lemma life3_step :
  iterate (env_at 5000 60) life2 = Some (life_log (iterate (env_at 5000 60) life2), life3, Console.Go).
Proof. apply life_stepped. vm_compute. reflexivity. Qed.

Lemma life4_stops : iterate env_reboot life3 = Some ([], life4, Console.Restart).
Proof. vm_compute. reflexivity. Qed.

Lemma life5_booted : boot_from (o_nvs (x_ life4)) (o_disk (x_ life4)) = Some (Booted life5).
Proof. apply life_booted. vm_compute. reflexivity. Qed.

Lemma life_regular e (dv : Device) :
  (is_u32 (le_now e) /\ le_serial e = EmptyString) /\ console_ dv = Console.new_console /\
  seq_ dv + 1 < 2 ^ 32 /\ write_segment dv + 2 < 2 ^ 32 -> regular e dv.
Proof.
  intros ([Hn Es] & Ec & Hs & Hw). split; [done| |done|done].
  unfold no_storage_cmd. rewrite Es, Ec. by vm_compute.
Qed.

Lemma life0_regular : regular env_away life0.
Proof. apply life_regular. vm_compute. repeat split; congruence. Qed.

Lemma life2_regular : regular (env_at 5000 60) life2.
Proof. apply life_regular. vm_compute. repeat split; congruence. Qed.

Lemma life3_regular : regular env_reboot life3.
Proof.
  assert (E : console_ life3 = Console.new_console) by (vm_compute; reflexivity).
  split; [vm_compute; split; congruence| |vm_compute; reflexivity|vm_compute; reflexivity].
  unfold no_storage_cmd. rewrite E. repeat constructor.
Qed.

Lemma life3_room : room (length (le_ota_bg env_reboot)) life3.
Proof. split; vm_compute; reflexivity. Qed.

Lemma life4_whole : torn (x_ life4) (o_disk (x_ life4)).
Proof. exists (o_disk (x_ life4)). split; [apply cut_no_slot; left; reflexivity|done]. Qed.

Lemma life0_room : room (length (le_ota_bg env_away)) life0.
Proof. split; vm_compute; reflexivity. Qed.

Lemma life1_room : room 0 life1.
Proof. split; vm_compute; reflexivity. Qed.

Lemma life2_room : room (length (le_ota_bg (env_at 5000 60))) life2.
Proof. split; vm_compute; reflexivity. Qed.

Lemma life_torn : torn (x_ life1) life_cut.
Proof.
  exists life_cut. split; [apply cut_no_slot; right; exists 17%nat, (row_n 2)|done].
  assert (E : next_seg (Disk := SureFs) (o_tot (x_ life1)) = 0 /\
    next_off (Disk := SureFs) (o_tot (x_ life1)) = 36) by (vm_compute; split; reflexivity).
  unfold partly_written. destruct E as [-> ->]. apply sure_set_only.
Qed.

#[local] Abbreviation recorded_in e dv :=
  (rows_of toy_crypto no_ftoa no_name no_toInt default_build demo_id 1
     (N := nvs) (HW := Z) (Disk := SureFs) (U := MemUpd) e dv).

Definition life_rows : list QRow :=
  (([] ++ recorded_in env_away life0) ++ recorded_in (env_at 5000 60) life2)
  ++ recorded_in env_reboot life3.
Definition life_trace : list (LoopEnv * list HttpReq) :=
  ((([] ++ [(env_away, life_log (iterate env_away life0))]) ++ [])
   ++ [(env_at 5000 60, life_log (iterate (env_at 5000 60) life2))])
  ++ [(env_reboot, [])].

Lemma life_endures :
  endures toy_crypto no_ftoa no_name no_toInt (fun _ => f32_of_Z 1) default_build demo_id 1
    life0 life_rows life_trace life5.
Proof.
  unfold life_rows, life_trace.
  eapply endures_restart; [|exact life3_regular|exact life3_room|exact life4_stops|discriminate|
    exact life4_whole|exact boot_env_unattended|exact life5_booted].
  eapply endures_iteration; [|exact life2_regular|exact life2_room|exact life3_step].
  eapply endures_power_cut; [|exact life1_room|apply cut_idle|exact life_torn|exact boot_env_unattended|exact life2_booted].
  eapply endures_iteration; [apply endures_start|exact life0_regular|exact life0_room|exact life1_step].
Qed.

Lemma life0_in_order : in_step life0 /\ agree (x_ life0) (o_disk (x_ life0)).
Proof.
  eapply (new_device toy_crypto no_ftoa no_toInt default_build 1 boot_env nvs_demo new_flash);
    [intros p; apply lookup_empty|exact boot_env_unattended|exact life0_booted].
Qed.

(** Both rows were recorded, and both reached the server. *)
Lemma recorded_rows_endure_witness :
  length life_rows = 2%nat /\ backlog life5 = [] /\
  forall r, r ∈ life_rows -> exists e log, (e, log) ∈ life_trace /\
    delivered default_build (N := nvs) e log r.
Proof.
  destruct (recorded_rows_endure toy_crypto no_ftoa no_name no_toInt (fun _ => f32_of_Z 1)
    default_build demo_id 1 life0 life_rows life_trace life5 life_endures (proj1 life0_in_order)
    (proj2 life0_in_order)) as (_ & _ & _ & Hk).
  assert (Eb : backlog life5 = []) by (vm_compute; reflexivity).
  split; [vm_compute; reflexivity|]. split; [exact Eb|]. intros r Hr.
  destruct (Hk r) as [Hin|Hd]; [apply elem_of_app; right; exact Hr| |exact Hd].
  rewrite Eb in Hin. destruct (not_elem_of_nil _ Hin).
Defined.
